(* ===== verification/_CoqProject ===== *)
-Q . S2P
Prelude.v
StdMap.v
Hex.v
Double.v
Result.v
Sizes.v
StaticBytes.v
Asn.v
OpenSSL.v
CryptoEc.v
CurvePoint.v
Ecies.v
Concrete.v
CertParse.v
SignedMessage.v
SignedEnvelope.v
EncryptedData.v
Revocation.v
TrustChain.v
Disk.v
TrustList.v
Request.v
EcRequest.v
AtRequest.v
Http.v
KeyStore.v
PkiClient.v
Tool.v
CliArgs.v
CliIo.v
CliCommands.v
KeyPem.v
WireDump.v
Flow.v
Provisioner.v
Scenario.v
ToolScenario.v
CHeap.v
HeapLogic.v
AsnTree.v
AsnPtr.v
AsnLayout.v
AsnBuild.v
AsnRequest.v
AsnCert.v
AsnRead.v
AsnParse.v
AsnMessages.v
AsnLists.v
SslPtr.v
Buffers.v
BufCrypto.v
BufEcies.v
BufMessages.v
TrustProps.v
MessageProps.v
CryptoProps.v
ClientProps.v
CliProps.v
ProvProps.v
MemProps.v
BoundsProps.v
