(* ===== verification/Prelude.v ===== *)
(** * A model of the V2X PKI client

    The program is a C++17 library with which an ITS station obtains certificates:
    it reads trust lists, enrols with an enrolment authority (EA), gets authorization
    tickets from an authorization authority (AA), fetches revocation lists, and
    validates certificate chains.  Messages are IEEE 1609.2 / ETSI TS 102 941
    structures.  Two programs use it: a command-line client with ten subcommands, and
    a provisioner that enrols once and then keeps replacing its ticket.

    ** Parts of the program and where they are modelled

    Paths are relative to the root of the repository's sources; a C++ namespace or
    class is a Rocq Module of the same or a similar name.

    - [Prelude]: bytes, machine integers, list lemmas, the notations for early
      returns ([some!], [try!], [someS!], [tryS!]) and the tactics and hints the
      other files use.  [StdMap]: iteration over a std::map in key order.
      [Hex]: std::hex output and std::stoul on two characters.  [Double] (Module
      [dbl]): IEEE binary64 as the provisioner uses it, atof, atol and "%.nf".
    - [Result]: include/v2xpki/result.hpp.  [Sizes]: sizes.hpp.
      [StaticBytes] (Module [sb]): static_bytes.hpp.
    - [Asn]: the ASN.1 types of the messages, as far as the sources touch them, and
      the wrappers of internal/coer.cpp (Modules [coer], [octet]).  A pointer member
      of a C structure that may be null is an [option]; a CHOICE is an inductive type
      with a constructor for the variants the code ignores.
    - [OpenSSL]: the OpenSSL calls the program makes, as a class.
      [CryptoEc] (Modules [crypto], [crypto_facts]): src/crypto_ec.cpp, and the class
      [OpenSSLOk] of the laws of those calls.  [Ecies] (Module [ecies]):
      src/ecies.cpp.  [CurvePoint] (Module [point]): internal/curve_point.cpp.
    - [CertParse] (Module [cert]): internal/cert_parse.cpp and the CertInfo struct.
      [SignedMessage] (Module [signed_msg]), [SignedEnvelope] (Module [sign]),
      [EncryptedData] (Module [enc]): the files of those names in src/internal/.
    - [Revocation] (Module [store]): src/revocation.cpp.  [TrustChain] (Modules
      [chain], [cert_utils]): src/trust_chain.cpp.  [TrustList] (Module [tlist]):
      src/trust_list.cpp.
    - [Request] (Module [request]): what src/ec_request.cpp and src/at_request.cpp
      have in common; [EcRequest] (Module [ec]) and [AtRequest] (Module [at_]): the
      rest of each.
    - [Disk] (Module [disk]): the file system, one system call at a time, with a
      record of what may fail and a history of the contents.
    - [Http] (Module [http]): src/http_client.cpp.  [KeyStore] (Modules [handle],
      [pfks]): key_store.hpp and src/plaintext_file_key_store.cpp.
    - [PkiClient] (Module [pki]): src/pki_client.cpp, the facade.  Its state is the
      record [client]; the public operations are functions from a state to a result
      and a state, and [pki.step] is the transition system they generate.
    - [Tool] (Module [tool]): what the two programs run in: the record [world] (disk,
      network, generator, clock, standard output and error) and the monad [io] of
      programs over it, whose runs return, exit, throw or are undefined.
    - [CliArgs] (Module [args]), [CliIo] (Module [cio]), [CliCommands] (Module [cli]):
      src/cli/args.cpp, io.cpp and commands.cpp, and src/main.cpp.
    - [KeyPem] (Module [kpem]), [WireDump] (Module [dump]), [Flow] (Module [flow]),
      [Provisioner] (Module [prov]): the files of tools/pki-provisioner/ of those
      names and its main.cpp.
    - Memory, on which the models above do not look: [CHeap] (Module [mem]): the C heap
      and programs over it.  [HeapLogic]: a separation logic for them, in the Iris
      proof mode.  [AsnTree] (Module [asn]): ASN.1 structures as trees of cells, and
      what asn1c does with them.  [AsnPtr] (Modules [ccoer], [asn_ptr]):
      internal/asn_ptr.hpp and the memory side of internal/coer.cpp.  [AsnLayout]: the
      members of the generated structs.  [AsnBuild], [AsnRequest], [AsnCert]: the
      functions of internal/coer.cpp, internal/curve_point.cpp,
      internal/signed_envelope.cpp, internal/encrypted_data.cpp, ec_request.cpp,
      at_request.cpp and trust_chain.cpp that build structures, with their
      allocations, assignments and releases (Modules [coctet], [cpoint], [csign],
      [cenc], [crequest], [cec], [cat], [ccert]).  [AsnRead] (Module [reader]): access
      to members, unions and lists, and a program logic for code that leaves the heap
      as it found it.  [AsnParse] (Modules [rpoint], [rcert], [rsigned]),
      [AsnMessages] ([renc], [rresponse]), [AsnLists] ([rcrl], [rtlist], [csummary]):
      the parsers of internal/curve_point.cpp, cert_parse.cpp, signed_message.cpp and
      encrypted_data.cpp, of the responses, of revocation and trust lists, and of
      cli/io.cpp, following the pointers of what they decode.  [SslPtr] (Module
      [ssl]): internal/openssl_ptr.hpp and the functions that own OpenSSL objects,
      files and curl handles.
    - Buffers, which the functional models slice with total functions: [Buffers]
      (Modules [vec], [bsb]): vectors and arrays whose accesses, ranges and copies are
      checked, and StaticBytes over them.  [BufCrypto] (Module [bcrypto]),
      [BufEcies] ([becies]): src/crypto_ec.cpp, src/ecies.cpp and the key extraction of
      src/plaintext_file_key_store.cpp, with the sizes they hand to OpenSSL and the
      separate calls of AES-CCM.  [BufMessages] ([bpoint], [bbytes], [bhex]): the
      element accesses of the message code and of the text forms of identifiers.
    - [Concrete]: an executable instance of the OpenSSL class and table-driven
      codecs.  [Scenario]: a whole deployment (root CA, EA, AA, TLM, network, disk)
      built from them, in which each operation of the client succeeds.
      [ToolScenario]: the same deployment for the two programs; a whole provisioning
      run succeeds in it ([tools.provision_ok]).

    ** How effects are modelled

    - Errors: [Result T] with the program's error codes, [option] for std::optional.
    - Randomness: a generator state of the OpenSSL class, threaded through every call
      that consumes randomness.
    - Time: the readings of the clock during one operation are the values [now 0],
      [now 1], ... of a function argument, in the order the code makes them.
    - Network: class [Transport]; its state is threaded through [http.get] and
      [http.post].  Sleeps between retries are part of the result of the retry loop.
    - Disk: the record [fsys].  Every system call may fail and a stream may lose what
      it took when it is closed; [faults] decides, per call, so a later call may
      succeed.  The contents after every call are kept, so that a theorem can speak
      about a crash or a reader in between.  [disk.reliable] media lose nothing.
    - Output: the text of both streams, so that exit codes, messages and what is
      reported can be related to what was done.
    - Log callback: the messages of a call are collected in the client and go to
      standard error when the program installed a callback.
    - Signals: [running k] is the flag g_running at the [k]-th look at it.
    - Aliasing: the trust store keeps a pointer to the revocation store, so the model
      has a heap from locations to revocation stores; [validate_chain] reads the
      current contents through the pointer.
    - Indeterminate values: members the code leaves unassigned are arbitrary values of
      the classes [Uninit], [UninitHmac] and [UninitIssuer].
    - Memory: [M A] is a function from a heap and the outcomes of the library calls
      still to come to a result and a heap, or to [None] for what C leaves undefined
      (use after free, double free, a null pointer, the wrong type descriptor, the
      wrong alternative of a union).  The memory models refine the functional ones:
      in any heap the run is defined, gives the result of the functional model and
      leaves the heap as it was.  A freed location may be
      allocated again.
    - Buffers: [None] for an access outside a buffer or a negative length handed to
      OpenSSL.  Accesses at positions that depend only on [unsigned] sizes are written
      with natural numbers; a cast of a size to [int] is [vec.int_of_size].
    - Machine integers are [Z] with [u16], [u32], [u64] at the casts; what C++ leaves
      undefined for them (the rotation counter past the largest [int], a shift by 32, a
      double too large for a [long]) is an undefined run.

    ** Loops

    Loops over lists are structural.  [ecies.kdf2_loop] has fuel [out_len]: every
    round appends at least one byte when the digest is total, and the loop returns
    [None] only for a digest that fails (there the C++ loop does not end).
    [http.retry_loop] has fuel [max_retries + 1], the most rounds the counter allows;
    [http_retry_policy] shows it always returns, for up to 32 retries (with more the
    program shifts a 32-bit 1 by 32 places, which is undefined).  [prov.rotate], the rotation loop,
    has its number of rounds as fuel: one is enough in oneshot mode, and N + 1 are
    when the flag is down from its N-th look on, because every round looks at it
    ([provisioner_terminates], for N below 2^31, so that the count of the rounds fits an
    [int]).

    ** What the theorems show

    The properties are in the eight Props files and refer to the lemmas of the
    component files.
    - [TrustProps]: chain validation accepts exactly the chains of one or two links to
      a self-signed root ([chain.trusted]); a certificate on the CRL of its issuer is
      rejected for as long as the later CRLs of that issuer list it; validation is
      stable; built certificates parse back and validate; parsed certificates are well
      formed; validity periods are half-open intervals without overflow; CRL and
      trust list decoding is authentic and complete; the revocation store refines
      "the last CRL of the issuer that was not stale".
    - [MessageProps]: signed envelopes round-trip; requests can be opened by the
      authorities they are addressed to and carry what was described; responses are
      accepted only when signed by the authority and bound to the request, and
      genuine ones are accepted; which records are valid; durations.
    - [CryptoProps]: ECDSA, ECDH, KDF2, ECIES and EncryptedData round trips, curve
      points, the retry policy, key handles and the key store.
    - [ClientProps]: enrolment and authorization return only certificates issued in
      answer to the posted request and chaining to a trusted root, and do so whenever
      the authority answers genuinely; discovery only files certificates with a chain
      of signatures from the TLM; CRLs take effect; an invariant over all calls.
    - [CliProps]: exit codes and diagnostics; a missing option has no effect; options
      round-trip; what exit code 0 of fetch-trust, fetch-ectl, enrol and request-at
      guarantees about the network exchange, the keys, the signatures and the files.
    - [ProvProps]: files are replaced atomically, a ticket and its key in a fixed
      order, and how both can still go wrong; a rotation and a whole run obtain
      credentials issued by authorities the TLM vouches for and write them, with a key
      file that reads back when the key is on a 256-bit curve; the provisioner terminates; the dump is consistent and holds no keys unless asked;
      options; JSON strings.
    - [MemProps]: owning pointers destroy every structure once, in any block of code;
      both request encoders and the certificate builders refine their functional
      models and free what they allocate on every path; so do the parsers of
      responses, certificates, revocation lists and trust lists, which dereference no
      null pointer and read no union wrongly, whatever arrives; every operation
      releases its OpenSSL objects, files and curl handles, whatever the libraries answer.
    - [BoundsProps]: the cryptographic functions and the code that takes messages and
      identifiers apart access no buffer outside its bounds, whatever the arguments and
      the answers of OpenSSL, and compute what the functional models compute; messages
      have to be smaller than 2 GiB.

    ** Hypotheses

    [OpenSSLOk] states documented behaviour of OpenSSL: lengths, encodings, that a
    signature OpenSSL makes is canonical DER and verifies under the key pair that made
    it, that ECDH commutes, that CCM opens what it sealed.  Nothing is assumed about forgery or collisions: a theorem
    of authenticity says that a check was made and succeeded, with which key, on which
    bytes.  [CodecOk] states that decoding inverts canonical encoding.  [PemOk] states
    the same for PEM, and that a key made with an uncompressed point gives it back,
    [Sec1Ok] for the SEC1 encoder.  [SslSizesOk] states that OpenSSL
    writes at most the length it announced ([SslSizes]), [SslCcmOk] that CCM produces as
    many bytes as it is given and that the sealing and opening of [OpenSSL] are the
    calls of [SslCcm].
    [CEncodes] says that the encoder of a type reads the struct the layout of the type
    describes ([CEncodesEtsi] for the second descriptor of a certificate); [CCodec] is
    that encoder, and the structure a failed decoder leaves behind, which is arbitrary.
    The text of strerror ([ErrorText]) and the version string ([BuildInfo]) are
    arbitrary.  [Concrete], [Scenario], [ToolScenario], [MemProps] and [BoundsProps]
    give instances of all of them.
    Theorems about signing exclude NistP384, which the code labels as
    BrainpoolP384r1 on the wire.

    ** Not modelled

    In memory: the reference counts OpenSSL keeps, and failures
    of calloc and of the three allocations the code does not check (they succeed; what
    happens otherwise is the lemma [unchecked_allocations]).  The callers of the parsers
    and builders hold no structures and are modelled over values only.  The generated
    codecs, OpenSSL and libcurl are parameters.  Permissions and symbolic links of the
    file system, and the parents of a directory that is created, are left out: paths
    are compared as strings.  Tests and build files. *)
From Stdlib Require Export ZArith Lia Strings.Byte.
From stdpp Require Export base tactics list gmap strings numbers countable option.

(** ** Bytes *)

Abbreviation byte := Init.Byte.byte.
Abbreviation bytes := (list Init.Byte.byte).

Declare Scope v2x_scope.
Delimit Scope v2x_scope with v2x.
Open Scope v2x_scope.

Module byte.

Definition unsigned (b : byte) : Z := Z.of_N (Byte.to_N b).

(** [static_cast<uint8_t>(z)]: reduction modulo 256. *)
Definition of_Z (z : Z) : byte :=
  default x00 (Byte.of_N (Z.to_N (z mod 256)%Z)).

(** [a ^ b] on [uint8_t]. *)
Definition xor (a b : byte) : byte :=
  of_Z (Z.lxor (unsigned a) (unsigned b)).

Lemma unsigned_range b : (0 <= unsigned b < 256)%Z.
Proof.
  unfold unsigned. pose proof (Byte.to_N_bounded b). lia.
Qed.

Lemma unsigned_of_Z z : unsigned (of_Z z) = (z mod 256)%Z.
Proof.
  unfold unsigned, of_Z.
  pose proof (Z.mod_pos_bound z 256 eq_refl) as Hr.
  destruct (Byte.of_N (Z.to_N (z mod 256))) as [b|] eqn:E; simpl.
  - apply Byte.to_of_N in E. rewrite E. lia.
  - apply Byte.of_N_None_iff in E. lia.
Qed.

Lemma of_Z_unsigned b : of_Z (unsigned b) = b.
Proof.
  unfold of_Z, unsigned.
  rewrite Z.mod_small by apply unsigned_range.
  by rewrite N2Z.id, Byte.of_to_N.
Qed.

Lemma unsigned_inj a b : unsigned a = unsigned b -> a = b.
Proof. intros H. by rewrite <- (of_Z_unsigned a), H, of_Z_unsigned. Qed.

Lemma lxor_range x y :
  (0 <= x < 256 -> 0 <= y < 256 -> 0 <= Z.lxor x y < 256)%Z.
Proof.
  intros Hx Hy.
  assert (0 <= Z.lxor x y)%Z by (apply Z.lxor_nonneg; lia).
  split; [done|].
  destruct (decide (Z.lxor x y = 0%Z)) as [->|Hnz]; [lia|].
  change 256%Z with (2 ^ 8)%Z. apply Z.log2_lt_pow2; [lia|].
  pose proof (Z.log2_lxor x y).
  assert (Z.log2 x < 8)%Z.
  { destruct (decide (x = 0%Z)) as [->|]; [by simpl|]. apply Z.log2_lt_pow2; lia. }
  assert (Z.log2 y < 8)%Z.
  { destruct (decide (y = 0%Z)) as [->|]; [by simpl|]. apply Z.log2_lt_pow2; lia. }
  lia.
Qed.

Lemma unsigned_xor a b : unsigned (xor a b) = Z.lxor (unsigned a) (unsigned b).
Proof.
  unfold xor. rewrite unsigned_of_Z. apply Z.mod_small.
  apply lxor_range; apply unsigned_range.
Qed.

Lemma xor_cancel a b : xor a (xor a b) = b.
Proof.
  apply unsigned_inj. rewrite !unsigned_xor.
  by rewrite <- Z.lxor_assoc, Z.lxor_nilpotent, Z.lxor_0_l.
Qed.

End byte.

#[export] Instance byte_eq_dec : EqDecision byte := Byte.byte_eq_dec.

#[export] Program Instance byte_countable : Countable byte :=
  inj_countable Byte.to_N Byte.of_N _.
Next Obligation. intros b. apply Byte.of_to_N. Qed.

(** ** Fixed-width integers

    A [w]-bit unsigned value is a [Z] in [0, 2^w); [static_cast] to an unsigned
    type is reduction modulo [2^w].  Signed arithmetic is over [Z]; the bounds
    under which the source's [int64_t] expressions do not overflow are stated
    where they are used. *)

Definition u8 (z : Z) : Z := (z mod 2 ^ 8)%Z.
Definition u16 (z : Z) : Z := (z mod 2 ^ 16)%Z.
Definition u32 (z : Z) : Z := (z mod 2 ^ 32)%Z.
Definition u64 (z : Z) : Z := (z mod 2 ^ 64)%Z.

Definition in_u16 (z : Z) : Prop := (0 <= z < 2 ^ 16)%Z.
Definition in_u32 (z : Z) : Prop := (0 <= z < 2 ^ 32)%Z.
Definition in_i64 (z : Z) : Prop := (- 2 ^ 63 <= z < 2 ^ 63)%Z.

(** [static_cast<int64_t>] of an unsigned 64-bit value: two's complement. *)
Definition i64_of_u64 (z : Z) : Z :=
  if (z <? 2 ^ 63)%Z then z else (z - 2 ^ 64)%Z.

(** ** Lists of bytes *)

(** Last [n] elements: [std::vector(v.end() - n, v.end())]. *)
Definition lastn {A} (n : nat) (l : list A) : list A := drop (length l - n) l.
(** Everything but the last [n]: [std::vector(v.begin(), v.end() - n)]. *)
Definition droplast {A} (n : nat) (l : list A) : list A := take (length l - n) l.

(** Element-wise [dst[i] = a[i] ^ b[i]] for two vectors of the same length. *)
Definition xor_bytes (a b : bytes) : bytes := zip_with byte.xor a b.

Definition zeros (n : nat) : bytes := replicate n x00.
Arguments zeros : simpl never.

(** [std::vector::empty] / [std::string::empty] *)
Definition empty {A} (l : list A) : bool := match l with [] => true | _ => false end.

Definition str_empty (s : string) : bool := match s with EmptyString => true | _ => false end.

(** [==] on vectors, arrays and strings of bytes. *)
Definition bytes_eqb (a b : bytes) : bool := bool_decide (a = b).

Definition bytes_of_string (s : string) : bytes := String.list_byte_of_string s.
Definition string_of_bytes (b : bytes) : string := String.string_of_list_byte b.

(** A line feed. *)
Definition nl : string := string_of_bytes [x0a].

(** A double quote, and a string between two of them. *)
Definition dq : string := string_of_bytes [x22].
Definition quoted (s : string) : string := (dq ++ s ++ dq)%string.

(** The loop [if (i > 0) out << sep; out << l[i]]. *)
Definition separated (sep : string) (l : list string) : string := String.concat sep l.

Section lists.
Context {A : Type}.
Implicit Types l k : list A.

Lemma droplast_app l k : droplast (length k) (l ++ k) = l.
Proof.
  unfold droplast. rewrite length_app.
  replace (length l + length k - length k) with (length l) by lia.
  apply take_app_length.
Qed.

Lemma lastn_app l k : lastn (length k) (l ++ k) = k.
Proof.
  unfold lastn. rewrite length_app.
  replace (length l + length k - length k) with (length l) by lia.
  apply drop_app_length.
Qed.

Lemma droplast_app_len n l k : length k = n -> droplast n (l ++ k) = l.
Proof. intros <-. apply droplast_app. Qed.

Lemma lastn_app_len n l k : length k = n -> lastn n (l ++ k) = k.
Proof. intros <-. apply lastn_app. Qed.

Lemma length_lastn n l : length (lastn n l) = Nat.min n (length l).
Proof. unfold lastn. rewrite length_drop. lia. Qed.

Lemma empty_false_iff l : empty l = false <-> l <> [].
Proof. destruct l; simpl; naive_solver. Qed.

Lemma empty_length l n : length l = S n -> empty l = false.
Proof. destruct l; simpl; [discriminate|done]. Qed.

Lemma Forall_elem (P : A -> Prop) l : (forall x, x ∈ l -> P x) -> Forall P l.
Proof. intros H. apply List.Forall_forall. intros x Hx. by apply H, list_elem_of_In. Qed.

Lemma take_ge_id n l : length l <= n -> take n l = l.
Proof. apply take_ge. Qed.

End lists.

Lemma length_xor_bytes a b : length (xor_bytes a b) = Nat.min (length a) (length b).
Proof. apply length_zip_with. Qed.

(** XOR with the same pad twice is the identity: the whole of the ECIES key wrap. *)
Lemma xor_bytes_cancel a b : length a = length b -> xor_bytes a (xor_bytes a b) = b.
Proof.
  unfold xor_bytes. revert b.
  induction a as [|x a IH]; intros [|y b] Hl; simpl in *; try done.
  rewrite byte.xor_cancel. f_equal. apply IH. lia.
Qed.

Lemma length_zeros n : length (zeros n) = n.
Proof. apply length_replicate. Qed.

Lemma bytes_eqb_eq a b : bytes_eqb a b = true <-> a = b.
Proof. unfold bytes_eqb. apply bool_decide_eq_true. Qed.

Lemma bytes_eqb_refl a : bytes_eqb a a = true.
Proof. by apply bytes_eqb_eq. Qed.

Lemma string_bytes_inv s : string_of_bytes (bytes_of_string s) = s.
Proof. apply String.string_of_list_byte_of_string. Qed.

Lemma bytes_string_inv b : bytes_of_string (string_of_bytes b) = b.
Proof. apply String.list_byte_of_string_of_list_byte. Qed.

Lemma str_app_nil_r s : (s ++ "")%string = s.
Proof. induction s as [|c s IH]; [done|]. exact (f_equal _ IH). Qed.

Lemma str_app_assoc s t u : (s ++ (t ++ u) = (s ++ t) ++ u)%string.
Proof. induction s as [|c s IH]; [done|]. exact (f_equal _ IH). Qed.

Lemma str_length_app s t : String.length (s ++ t) = String.length s + String.length t.
Proof. induction s as [|c s IH]; [done|]. exact (f_equal _ IH). Qed.

(** [s] starts with [p]; computes when [p] is known. *)
Fixpoint str_starts (p s : string) {struct p} : bool :=
  match p, s with
  | EmptyString, _ => true
  | String c p, String c' s => bool_decide (c = c') && str_starts p s
  | _, _ => false
  end.

Lemma str_starts_app p s : str_starts p s = true -> exists u, s = (p ++ u)%string.
Proof.
  revert s. induction p as [|c p IH]; intros s; [by exists s|]. destruct s as [|c' s]; [done|].
  simpl. case_bool_decide as Hc; [|done]. subst c'. intros (u & ->)%IH. by exists u.
Qed.

(** Appending to a string, on bytes. *)
Lemma bytes_of_string_app s t : bytes_of_string (s ++ t) = bytes_of_string s ++ bytes_of_string t.
Proof.
  unfold bytes_of_string, String.list_byte_of_string. induction s as [|c s IH]; simpl; [done|].
  by rewrite IH.
Qed.

Lemma bytes_of_string_inj s t : bytes_of_string s = bytes_of_string t -> s = t.
Proof. intros H. by rewrite <- (string_bytes_inv s), H, string_bytes_inv. Qed.

(** ** Integers *)

Lemma u16_small z : in_u16 z -> u16 z = z.
Proof. intros H. by apply Z.mod_small. Qed.
Lemma u32_small z : in_u32 z -> u32 z = z.
Proof. intros H. by apply Z.mod_small. Qed.
Lemma u16_range z : in_u16 (u16 z).
Proof. by apply Z.mod_pos_bound. Qed.
Lemma u32_range z : in_u32 (u32 z).
Proof. by apply Z.mod_pos_bound. Qed.

(** ** Automation

    [v2x] rewrites with the length and truncation facts above; [inv_match]
    peels the [match]es of a successful run off a hypothesis. *)

Create HintDb v2x discriminated.
#[export] Hint Resolve byte.unsigned_range u16_range u32_range : v2x.
Create Rewrite HintDb v2x_len.
#[export] Hint Rewrite @length_app @length_zeros length_xor_bytes @length_lastn
  @length_take @length_drop @length_replicate : v2x_len.

Ltac v2x_len := autorewrite with v2x_len in *; simpl length in *; lia.

(** Split every [match]/[if] that decides the hypothesis [H], discarding the
    branches that contradict it. *)
Ltac inv_match H :=
  repeat first
    [ discriminate H
    | match type of H with
      | context [match ?x with _ => _ end] =>
          let E := fresh "E" in destruct x eqn:E; simpl in H; try discriminate H
      end ].

(** Turn boolean tests into propositions. *)
Ltac bool_props :=
  repeat match goal with
    | H : andb _ _ = true |- _ => apply andb_true_iff in H; destruct H
    | H : orb _ _ = false |- _ => apply orb_false_iff in H; destruct H
    | H : negb _ = true |- _ => apply negb_true_iff in H
    | H : negb _ = false |- _ => apply negb_false_iff in H
    | H : bool_decide _ = true |- _ => apply bool_decide_eq_true in H
    | H : bool_decide _ = false |- _ => apply bool_decide_eq_false in H
    | H : Nat.eqb _ _ = true |- _ => apply Nat.eqb_eq in H
    | H : Nat.eqb _ _ = false |- _ => apply Nat.eqb_neq in H
    | H : bytes_eqb _ _ = true |- _ => apply bytes_eqb_eq in H
    | H : Z.ltb _ _ = true |- _ => apply Z.ltb_lt in H
    | H : Z.ltb _ _ = false |- _ => apply Z.ltb_ge in H
    | H : Z.leb _ _ = true |- _ => apply Z.leb_le in H
    | H : Z.leb _ _ = false |- _ => apply Z.leb_gt in H
    | H : empty _ = false |- _ => apply empty_false_iff in H
    end.
