(* ===== verification/StdMap.v ===== *)
(** Iteration over [std::map<std::array<uint8_t, 8>, V>]: the entries in the
    lexicographic order of the keys. *)
From stdpp Require Import gmap sorting.
From S2P Require Import Prelude.

(** [std::array::operator<=] *)
Fixpoint bytes_leb (a b : bytes) : bool :=
  match a, b with
  | [], _ => true
  | _ :: _, [] => false
  | x :: a, y :: b =>
      (byte.unsigned x <? byte.unsigned y)%Z || (bool_decide (x = y) && bytes_leb a b)
  end.

Lemma bytes_leb_total a b : bytes_leb a b = true \/ bytes_leb b a = true.
Proof.
  revert b. induction a as [|x a IH]; intros [|y b]; simpl; auto.
  destruct (Z.lt_trichotomy (byte.unsigned x) (byte.unsigned y)) as [H|[H|H]].
  - left. by rewrite (proj2 (Z.ltb_lt _ _) H).
  - apply byte.unsigned_inj in H as ->. rewrite bool_decide_eq_true_2 by done.
    destruct (IH b) as [-> | ->]; [left|right]; by rewrite orb_true_r.
  - right. by rewrite (proj2 (Z.ltb_lt _ _) H).
Qed.

Lemma bytes_leb_trans a b c : bytes_leb a b = true -> bytes_leb b c = true -> bytes_leb a c = true.
Proof.
  revert b c. induction a as [|x a IH]; intros [|y b] [|z c]; simpl; auto; try done.
  rewrite !orb_true_iff, !andb_true_iff, !bool_decide_eq_true, !Z.ltb_lt.
  intros [H1|[-> H1]] [H2|[-> H2]]; eauto with lia.
Qed.

Lemma StronglySorted_filter {A} (R : relation A) (P : A -> Prop) `{!forall x, Decision (P x)} l :
  StronglySorted R l -> StronglySorted R (filter P l).
Proof.
  induction 1 as [|x l Hs IH Hf]; [constructor|]. rewrite filter_cons. case_decide; [|done].
  constructor; [done|]. apply Forall_elem. intros y [_ Hy]%list_elem_of_filter.
  rewrite List.Forall_forall in Hf. by apply Hf, list_elem_of_In.
Qed.

Section iter.
Context {V : Type}.

Definition key_le (a b : bytes * V) : Prop := Is_true (bytes_leb a.1 b.1).

#[export] Instance key_le_dec a b : Decision (key_le a b).
Proof. unfold key_le. apply _. Defined.
#[export] Instance key_le_total : Total key_le.
Proof.
  intros a b. unfold key_le. rewrite !Is_true_true. apply bytes_leb_total.
Qed.
#[export] Instance key_le_trans : Transitive key_le.
Proof. intros a b c. unfold key_le. rewrite !Is_true_true. apply bytes_leb_trans. Qed.

(** [for (const auto& [k, v] : m)] *)
Definition map_iter (m : gmap bytes V) : list (bytes * V) := merge_sort key_le (map_to_list m).

Lemma map_iter_elem m k v : (k, v) ∈ map_iter m <-> m !! k = Some v.
Proof.
  unfold map_iter. rewrite (merge_sort_Permutation key_le (map_to_list m)).
  apply elem_of_map_to_list.
Qed.

Lemma map_iter_sorted m : StronglySorted key_le (map_iter m).
Proof. apply (StronglySorted_merge_sort key_le). Qed.

Lemma map_iter_length m : length (map_iter m) = size m.
Proof.
  unfold map_iter. by rewrite (merge_sort_Permutation key_le (map_to_list m)), length_map_to_list.
Qed.

End iter.
