(* ===== verification/Hex.v ===== *)
(** Hexadecimal text: [std::hex << std::setw(2)] streams and
    [std::stoul(s, nullptr, 16)]. *)
From S2P Require Import Prelude.
Local Open Scope Z_scope.

Definition hex_digit (upper : bool) (d : Z) : byte :=
  if d <? 10 then byte.of_Z (48 + d) else byte.of_Z ((if upper then 55 else 87) + d).

(** [setfill('0') << setw(2) << static_cast<int>(b)] *)
Definition hex2 (upper : bool) (b : byte) : bytes :=
  [hex_digit upper (byte.unsigned b / 16); hex_digit upper (byte.unsigned b mod 16)].

Definition hex_stream (upper : bool) (b : bytes) : string :=
  string_of_bytes (concat (map (hex2 upper) b)).

Definition hex_val (c : byte) : option Z :=
  let z := byte.unsigned c in
  if (48 <=? z) && (z <=? 57) then Some (z - 48)
  else if (65 <=? z) && (z <=? 70) then Some (z - 55)
  else if (97 <=? z) && (z <=? 102) then Some (z - 87)
  else None.

(** [std::isspace] in the C locale *)
Definition isspace (c : byte) : bool :=
  let z := byte.unsigned c in (z =? 32) || ((9 <=? z) && (z <=? 13)).

Fixpoint skip_space (l : bytes) : bytes :=
  match l with
  | c :: l' => if isspace c then skip_space l' else l
  | [] => []
  end.

(** The longest prefix of hexadecimal digits. *)
Fixpoint hex_digits (l : bytes) (acc : option Z) : option Z :=
  match l with
  | [] => acc
  | c :: l =>
      match hex_val c with
      | Some d => hex_digits l (Some (default 0 acc * 16 + d))
      | None => acc
      end
  end.

(** [std::stoul(s, nullptr, 16)]: white space, a sign and a 0x prefix are accepted,
    what follows the digits is ignored, a minus sign negates modulo 2^64; [None] is
    an exception (no digits, or out of range). *)
Definition stoul16 (s : bytes) : option Z :=
  let l := skip_space s in
  let '(neg, l) :=
    match l with
    | c :: l' => if bool_decide (c = x2d) then (true, l')
                 else if bool_decide (c = x2b) then (false, l') else (false, l)
    | [] => (false, l)
    end in
  let l :=
    match l with
    | z :: x :: d :: _ =>
        if bool_decide (z = x30) && (bool_decide (x = x78) || bool_decide (x = x58))
           && bool_decide (is_Some (hex_val d))
        then drop 2 l else l
    | _ => l
    end in
  match hex_digits l None with
  | None => None
  | Some v => if v <? 2 ^ 64 then Some (u64 (if neg then - v else v)) else None
  end.

(** The loop over [hex.substr(2 * i, 2)], for [n] bytes. *)
Fixpoint parse_pairs (n : nat) (s : bytes) : option bytes :=
  match n with
  | O => Some []
  | S n =>
      match stoul16 (take 2 s) with
      | None => None
      | Some v =>
          match parse_pairs n (drop 2 s) with
          | None => None
          | Some rest => Some (byte.of_Z v :: rest)
          end
      end
  end.

(** ** Lemmas *)

Lemma stoul16_hex2 up b : stoul16 (hex2 up b) = Some (byte.unsigned b).
Proof. destruct up, b; vm_compute; reflexivity. Qed.

Lemma parse_pairs_hex up b : parse_pairs (length b) (concat (map (hex2 up) b)) = Some b.
Proof.
  induction b as [|x b IH]; [done|]. cbn [length map concat parse_pairs].
  change (take 2 (hex2 up x ++ concat (map (hex2 up) b))) with (hex2 up x).
  change (drop 2 (hex2 up x ++ concat (map (hex2 up) b))) with (drop 0 (concat (map (hex2 up) b))).
  by rewrite stoul16_hex2, drop_0, IH, byte.of_Z_unsigned.
Qed.

Lemma length_hex up b : length (concat (map (hex2 up) b)) = (2 * length b)%nat.
Proof. induction b; simpl; lia. Qed.

Lemma length_parse_pairs n s b : parse_pairs n s = Some b -> length b = n.
Proof.
  revert s b. induction n as [|n IH]; intros s b; simpl; [by intros [= <-]|].
  destruct (stoul16 _); [|done]. destruct (parse_pairs n _) eqn:E; [|done].
  intros [= <-]. simpl. f_equal. eauto.
Qed.

Lemma bytes_of_hex_stream up b : bytes_of_string (hex_stream up b) = concat (map (hex2 up) b).
Proof. apply bytes_string_inv. Qed.

(** Distinct identifiers print differently. *)
Lemma hex_stream_inj up a b : length a = length b -> hex_stream up a = hex_stream up b -> a = b.
Proof.
  intros Hl H. apply (f_equal bytes_of_string) in H. rewrite !bytes_of_hex_stream in H.
  pose proof (parse_pairs_hex up a) as Ha. pose proof (parse_pairs_hex up b) as Hb.
  rewrite H, Hl in Ha. congruence.
Qed.
