(* ===== verification/Double.v ===== *)
(** [double] and the C functions the provisioner uses on it: [atof], conversion from
    and to integers, [printf("%.nf")]; and [atol].

    A double is an IEEE 754 binary64 value of the Standard Library's SpecFloat, which
    computes with integers.  Text is in the C locale. *)
From Stdlib Require Import SpecFloat.
From stdpp Require Import pretty.
From S2P Require Import Prelude Hex.
Local Open Scope Z_scope.

Abbreviation double := spec_float.

Module dbl.

Definition prec : Z := 53.
Definition emax : Z := 1024.

Definition mul (x y : double) : double := SFmul prec emax x y.

(** The double nearest to an integer. *)
Definition of_Z (z : Z) : double := binary_normalize prec emax z 0 false.

(** The double nearest to [m * 2 ^ e], and to [m / d]. *)
Definition scaled (neg : bool) (m e : Z) : double :=
  match m with
  | Zpos m => binary_round prec emax neg m e
  | _ => S754_zero neg
  end.
Definition quotient (neg : bool) (m d : Z) : double :=
  match m with
  | Zpos _ =>
      let '(q, e, loc) := SFdiv_core_binary prec emax m 0 d 0 in
      binary_round_aux prec emax neg q e loc
  | _ => S754_zero neg
  end.

(** ** Reading numbers *)

Definition dec_val (c : byte) : option Z :=
  let z := byte.unsigned c in if (48 <=? z) && (z <=? 57) then Some (z - 48) else None.

(** The longest prefix of digits: its value on top of [acc], its length, the rest. *)
Fixpoint digits (val : byte -> option Z) (base : Z) (l : bytes) (acc : Z) (n : nat) : Z * nat * bytes :=
  match l with
  | [] => (acc, n, [])
  | c :: l' =>
      match val c with
      | Some d => digits val base l' (acc * base + d) (S n)
      | None => (acc, n, l)
      end
  end.

Definition sign (l : bytes) : bool * bytes :=
  match l with
  | c :: l' => if bool_decide (c = x2d) then (true, l')
               else if bool_decide (c = x2b) then (false, l') else (false, l)
  | [] => (false, l)
  end.

Definition tolower (c : byte) : byte :=
  let z := byte.unsigned c in if (65 <=? z) && (z <=? 90) then byte.of_Z (z + 32) else c.

(** [l] starts with [word], in any case. *)
Definition starts_with (word : string) (l : bytes) : bool :=
  let w := bytes_of_string word in bytes_eqb (map tolower (take (length w) l)) w.

(** Digits with an optional point: value, number of digits, digits after the point,
    rest. *)
Definition mantissa (val : byte -> option Z) (base : Z) (l : bytes) : Z * nat * nat * bytes :=
  let '(v, n, l) := digits val base l 0 0 in
  match l with
  | c :: l' =>
      if bool_decide (c = x2e) then
        let '(v, n', l') := digits val base l' v 0 in (v, (n + n')%nat, n', l')
      else (v, n, 0%nat, l)
  | [] => (v, n, 0%nat, l)
  end.

(** An optional exponent introduced by [mark] (a lower-case letter). *)
Definition exponent (mark : byte) (l : bytes) : Z :=
  match l with
  | c :: l =>
      if bool_decide (tolower c = mark) then
        let '(neg, l) := sign l in
        let '(e, _, _) := digits dec_val 10 l 0 0 in if neg then - e else e
      else 0
  | [] => 0
  end.

(** A decimal number with [n] digits in [m]; far outside the range of the exponents
    the power of ten is not computed. *)
Definition decimal (neg : bool) (m : Z) (n : nat) (e : Z) : double :=
  if m =? 0 then S754_zero neg
  else if 400 <? e then S754_infinity neg
  else if e + Z.of_nat n <? -400 then S754_zero neg
  else if 0 <=? e then scaled neg (m * 10 ^ e) 0
  else quotient neg m (10 ^ (- e)).

(** [atof]: zero when there is no number. *)
Definition atof (s : string) : double :=
  let '(neg, l) := sign (skip_space (bytes_of_string s)) in
  if starts_with "inf" l then S754_infinity neg
  else if starts_with "nan" l then S754_nan
  else if starts_with "0x" l && (0 <? (mantissa hex_val 16 (drop 2 l)).1.1.2)%nat then
    let '(m, _, frac, l) := mantissa hex_val 16 (drop 2 l) in
    scaled neg m (exponent x70 l - 4 * Z.of_nat frac)
  else
    let '(m, n, frac, l) := mantissa dec_val 10 l in
    if (n =? 0)%nat then S754_zero false
    else decimal neg m n (exponent x65 l - Z.of_nat frac).

(** [atol], which saturates. *)
Definition atol (s : string) : Z :=
  let '(neg, l) := sign (skip_space (bytes_of_string s)) in
  let '(v, _, _) := digits dec_val 10 l 0 0 in
  Z.max (- 2 ^ 63) (Z.min (2 ^ 63 - 1) (if neg then - v else v)).

(** ** Conversion to [long]: undefined when the truncated value does not fit. *)

Definition truncate (x : double) : option Z :=
  match x with
  | S754_zero _ => Some 0
  | S754_finite s m e =>
      let v := if 0 <=? e then Zpos m * 2 ^ e else Zpos m / 2 ^ (- e) in
      Some (if s then - v else v)
  | _ => None
  end.

Definition to_long (x : double) : option Z :=
  match truncate x with
  | Some z => if (- 2 ^ 63 <=? z) && (z <? 2 ^ 63) then Some z else None
  | None => None
  end.

(** ** [printf("%.nf")]: the exact value, rounded half to even. *)

Definition round_half_even (m d : Z) : Z :=
  let q := m / d in
  let r := m mod d in
  match Z.compare (2 * r) d with
  | Lt => q
  | Gt => q + 1
  | Eq => if Z.even q then q else q + 1
  end.

Definition fixed_digits (n : nat) (v : Z) : string :=
  let p := 10 ^ Z.of_nat n in
  let frac := bytes_of_string (pretty (v mod p)) in
  (pretty (v / p) ++
   (if (n =? 0)%nat then "" else "." ++ string_of_bytes (replicate (n - length frac) x30 ++ frac)))%string.

Definition fixed (n : nat) (x : double) : string :=
  let minus (s : bool) (t : string) : string := (if s then "-" ++ t else t)%string in
  match x with
  | S754_zero s => minus s (fixed_digits n 0)
  | S754_infinity s => minus s "inf"
  | S754_nan => "nan"
  | S754_finite s m e =>
      let p := 10 ^ Z.of_nat n in
      minus s (fixed_digits n
        (if 0 <=? e then Zpos m * 2 ^ e * p else round_half_even (Zpos m * p) (2 ^ (- e))))
  end.

(** ** Examples *)

Example atof_08 : fixed 2 (atof "0.8") = "0.80"%string.
Proof. vm_compute. reflexivity. Qed.
Example atof_exp : to_long (atof " 1.5e3x") = Some 1500.
Proof. vm_compute. reflexivity. Qed.
Example atof_hex : to_long (atof "0x1.8p4") = Some 24.
Proof. vm_compute. reflexivity. Qed.
Example atof_tiny : atof "1e-400" = S754_zero false /\ atof "-1e400" = S754_infinity true.
Proof. vm_compute. done. Qed.
Example sleep_default : to_long (mul (mul (of_Z 168) (atof "0.8")) (of_Z 3600)) = Some 483840.
Proof. vm_compute. reflexivity. Qed.
Example print_half : fixed 0 (atof "2.5") = "2"%string /\ fixed 1 (atof "-0.04") = "-0.0"%string.
Proof. vm_compute. done. Qed.

End dbl.
