(* ===== verification/Result.v ===== *)
(** [Result<T>] and the error codes of include/v2xpki/result.hpp.

    The C++ class holds an optional value and an error; its two public
    constructors are the two constructors of [Result] here. *)
From S2P Require Import Prelude.

Inductive Error :=
  | Error_None
  | InvalidArgument
  | Network
  | HttpStatus
  | Decode
  | Encode
  | Crypto
  | SignatureInvalid
  | NotFound
  | KeyStore
  | Protocol.

#[export] Instance Error_eq_dec : EqDecision Error.
Proof. solve_decision. Defined.

Definition Error_to_string (e : Error) : string :=
  match e with
  | Error_None => "none"
  | InvalidArgument => "invalid argument"
  | Network => "network"
  | HttpStatus => "http status"
  | Decode => "decode"
  | Encode => "encode"
  | Crypto => "crypto"
  | SignatureInvalid => "signature invalid"
  | NotFound => "not found"
  | KeyStore => "keystore"
  | Protocol => "protocol"
  end.

Inductive Result (T : Type) :=
  | Ok (v : T)
  | Err (e : Error).
Arguments Ok {T} v.
Arguments Err {T} e.

Definition has_value {T} (r : Result T) : bool :=
  match r with Ok _ => true | Err _ => false end.

Definition error {T} (r : Result T) : Error :=
  match r with Ok _ => Error_None | Err e => e end.

(** The value, or a default. *)
Definition ok_or {T} (d : T) (r : Result T) : T :=
  match r with Ok v => v | Err _ => d end.

(** [if (!r) return r.error(); ... *r ...] *)
Notation "'try!' x := r ; k" :=
  (match r with Ok x => k | Err e => Err e end)
  (at level 10, x pattern, r at level 100, k at level 200) : v2x_scope.

(** [if (!o) return e; ... *o ...] *)
Notation "'some!' x := o 'or!' e ; k" :=
  (match o with Some x => k | None => e end)
  (at level 10, x pattern, o at level 100, e at level 100, k at level 200) : v2x_scope.

(** Distinct errors print differently, so a log line identifies the error. *)
Lemma Error_to_string_inj e1 e2 :
  Error_to_string e1 = Error_to_string e2 -> e1 = e2.
Proof. by destruct e1, e2. Qed.

(** A run that succeeds has a value and a final state. *)
Lemma run_ok {T S} (p : Result T * S) : has_value (fst p) = true -> exists v s, p = (Ok v, s).
Proof. destruct p as [[v|e] s]; [by exists v, s|done]. Qed.
