(* ===== verification/Sizes.v ===== *)
(** Constants, curve descriptors, time conversion and response codes of
    include/v2xpki/sizes.hpp. *)
From S2P Require Import Prelude.

Definition kHashedId8Len : nat := 8.
Definition kP256ScalarLen : nat := 32.
Definition kP256PublicKeyLen : nat := 65.
Definition kP256CompressedLen : nat := 33.
Definition kSha256Len : nat := 32.
Definition kAesKeyLen : nat := 16.
Definition kAesCcmNonceLen : nat := 12.
Definition kAesCcmTagLen : nat := 16.
Definition kP384ScalarLen : nat := 48.
Definition kP384PublicKeyLen : nat := 97.
Definition kP384CompressedLen : nat := 49.
Definition kSha384Len : nat := 48.
Definition kMaxCoerMessageLen : nat := 2048.

Inductive SigHash := Sha256 | Sha384.

Inductive Curve := NistP256 | BrainpoolP256r1 | NistP384 | BrainpoolP384r1.

#[export] Instance SigHash_eq_dec : EqDecision SigHash.
Proof. solve_decision. Defined.
#[export] Instance Curve_eq_dec : EqDecision Curve.
Proof. solve_decision. Defined.

Definition Curve_to_string (c : Curve) : string :=
  match c with
  | NistP256 => "nist-p256"
  | BrainpoolP256r1 => "brainpool-p256r1"
  | NistP384 => "nist-p384"
  | BrainpoolP384r1 => "brainpool-p384r1"
  end.

Definition scalar_len (c : Curve) : nat :=
  match c with
  | NistP256 | BrainpoolP256r1 => kP256ScalarLen
  | NistP384 | BrainpoolP384r1 => kP384ScalarLen
  end.

Definition pubkey_len (c : Curve) : nat :=
  match c with
  | NistP256 | BrainpoolP256r1 => kP256PublicKeyLen
  | NistP384 | BrainpoolP384r1 => kP384PublicKeyLen
  end.

Definition compressed_len (c : Curve) : nat :=
  match c with
  | NistP256 | BrainpoolP256r1 => kP256CompressedLen
  | NistP384 | BrainpoolP384r1 => kP384CompressedLen
  end.

Definition hash_len (c : Curve) : nat :=
  match c with
  | NistP256 | BrainpoolP256r1 => kSha256Len
  | NistP384 | BrainpoolP384r1 => kSha384Len
  end.

Definition is_p256_size (c : Curve) : bool :=
  match c with NistP256 | BrainpoolP256r1 => true | _ => false end.

Definition kSixtyHoursSeconds : Z := 60 * 3600.
Definition kYearSeconds : Z := 31556952.
Definition kTaiEpochUnix : Z := 1072915200.
Definition kTaiMinusUtcSeconds : Z := 5.

Definition unix_to_tai_seconds (unix_seconds : Z) : Z :=
  unix_seconds - kTaiEpochUnix + kTaiMinusUtcSeconds.

Definition unix_to_tai_micros (unix_micros : Z) : Z :=
  unix_micros - (kTaiEpochUnix - kTaiMinusUtcSeconds) * 1000000.

Definition kPsidScr : Z := 623.
Definition kIeee1609Dot2Version : Z := 3.

(** ** Response codes

    Both enums have a fixed underlying [int], so [static_cast] from the decoded
    integer yields any [int]; the values without an enumerator are [..._Other]. *)

Inductive EnrolmentResponseCode :=
  | EC_Ok
  | EC_CantParse
  | EC_BadContentType
  | EC_ImNotTheRecipient
  | EC_UnknownEncryptionAlgorithm
  | EC_DecryptionFailed
  | EC_UnknownIts
  | EC_InvalidSignature
  | EC_InvalidEncryptionKey
  | EC_BadItsStatus
  | EC_IncompleteRequest
  | EC_DeniedPermissions
  | EC_InvalidKeys
  | EC_DeniedRequest
  | EC_Other (z : Z).

#[export] Instance EnrolmentResponseCode_eq_dec : EqDecision EnrolmentResponseCode.
Proof. solve_decision. Defined.

Definition ec_enumerators : list EnrolmentResponseCode :=
  [EC_Ok; EC_CantParse; EC_BadContentType; EC_ImNotTheRecipient;
   EC_UnknownEncryptionAlgorithm; EC_DecryptionFailed; EC_UnknownIts;
   EC_InvalidSignature; EC_InvalidEncryptionKey; EC_BadItsStatus;
   EC_IncompleteRequest; EC_DeniedPermissions; EC_InvalidKeys; EC_DeniedRequest].

Definition EnrolmentResponseCode_of_int (z : Z) : EnrolmentResponseCode :=
  if (z <? 0)%Z then EC_Other z
  else default (EC_Other z) (ec_enumerators !! Z.to_nat z).

(** [static_cast<int>] *)
Definition EnrolmentResponseCode_to_int (c : EnrolmentResponseCode) : Z :=
  match c with
  | EC_Other z => z
  | _ => match list_find (eq c) ec_enumerators with Some (i, _) => Z.of_nat i | None => 0 end
  end.

Definition EnrolmentResponseCode_to_string (c : EnrolmentResponseCode) : string :=
  match c with
  | EC_Ok => "ok"
  | EC_CantParse => "cantparse"
  | EC_BadContentType => "badcontenttype"
  | EC_ImNotTheRecipient => "imnottherecipient"
  | EC_UnknownEncryptionAlgorithm => "unknownencryptionalgorithm"
  | EC_DecryptionFailed => "decryptionfailed"
  | EC_UnknownIts => "unknownits"
  | EC_InvalidSignature => "invalidsignature"
  | EC_InvalidEncryptionKey => "invalidencryptionkey"
  | EC_BadItsStatus => "baditsstatus"
  | EC_IncompleteRequest => "incompleterequest"
  | EC_DeniedPermissions => "deniedpermissions"
  | EC_InvalidKeys => "invalidkeys"
  | EC_DeniedRequest => "deniedrequest"
  | EC_Other _ => "unknown"
  end.

Inductive AuthorizationResponseCode :=
  | AT_Ok
  | ItsAaCantParse
  | ItsAaBadContentType
  | ItsAaImNotTheRecipient
  | ItsAaUnknownEncryptionAlgorithm
  | ItsAaDecryptionFailed
  | ItsAaKeysDontMatch
  | ItsAaIncompleteRequest
  | ItsAaInvalidEncryptionKey
  | ItsAaOutOfSyncRequest
  | ItsAaUnknownEa
  | ItsAaInvalidEa
  | ItsAaDeniedPermissions
  | AaEaCantReachEa
  | EaAaCantParse
  | EaAaBadContentType
  | EaAaImNotTheRecipient
  | EaAaUnknownEncryptionAlgorithm
  | EaAaDecryptionFailed
  | InvalidAa
  | AT_Other (z : Z).

#[export] Instance AuthorizationResponseCode_eq_dec : EqDecision AuthorizationResponseCode.
Proof. solve_decision. Defined.

Definition at_enumerators : list AuthorizationResponseCode :=
  [AT_Ok; ItsAaCantParse; ItsAaBadContentType; ItsAaImNotTheRecipient;
   ItsAaUnknownEncryptionAlgorithm; ItsAaDecryptionFailed; ItsAaKeysDontMatch;
   ItsAaIncompleteRequest; ItsAaInvalidEncryptionKey; ItsAaOutOfSyncRequest;
   ItsAaUnknownEa; ItsAaInvalidEa; ItsAaDeniedPermissions; AaEaCantReachEa;
   EaAaCantParse; EaAaBadContentType; EaAaImNotTheRecipient;
   EaAaUnknownEncryptionAlgorithm; EaAaDecryptionFailed; InvalidAa].

Definition AuthorizationResponseCode_of_int (z : Z) : AuthorizationResponseCode :=
  if (z <? 0)%Z then AT_Other z
  else default (AT_Other z) (at_enumerators !! Z.to_nat z).

Definition AuthorizationResponseCode_to_int (c : AuthorizationResponseCode) : Z :=
  match c with
  | AT_Other z => z
  | _ => match list_find (eq c) at_enumerators with Some (i, _) => Z.of_nat i | None => 0 end
  end.

Definition AuthorizationResponseCode_to_string (c : AuthorizationResponseCode) : string :=
  match c with
  | AT_Ok => "ok"
  | ItsAaCantParse => "its-aa-cantparse"
  | ItsAaBadContentType => "its-aa-badcontenttype"
  | ItsAaImNotTheRecipient => "its-aa-imnottherecipient"
  | ItsAaUnknownEncryptionAlgorithm => "its-aa-unknownencryptionalgorithm"
  | ItsAaDecryptionFailed => "its-aa-decryptionfailed"
  | ItsAaKeysDontMatch => "its-aa-keysdontmatch"
  | ItsAaIncompleteRequest => "its-aa-incompleterequest"
  | ItsAaInvalidEncryptionKey => "its-aa-invalidencryptionkey"
  | ItsAaOutOfSyncRequest => "its-aa-outofsyncrequest"
  | ItsAaUnknownEa => "its-aa-unknownea"
  | ItsAaInvalidEa => "its-aa-invalidea"
  | ItsAaDeniedPermissions => "its-aa-deniedpermissions"
  | AaEaCantReachEa => "aa-ea-cantreachea"
  | EaAaCantParse => "ea-aa-cantparse"
  | EaAaBadContentType => "ea-aa-badcontenttype"
  | EaAaImNotTheRecipient => "ea-aa-imnottherecipient"
  | EaAaUnknownEncryptionAlgorithm => "ea-aa-unknownencryptionalgorithm"
  | EaAaDecryptionFailed => "ea-aa-decryptionfailed"
  | InvalidAa => "invalidaa"
  | AT_Other _ => "unknown"
  end.

(** ** Lemmas *)

(** The static_asserts of the header, for every curve: an uncompressed point is
    the tag byte and two coordinates, a compressed one the tag and one. *)
Lemma pubkey_len_scalars c :
  pubkey_len c = 1 + scalar_len c + scalar_len c /\
  compressed_len c = 1 + scalar_len c /\
  hash_len c = scalar_len c.
Proof. by destruct c. Qed.

Lemma scalar_len_le c : scalar_len c <= kP384ScalarLen.
Proof. destruct c; simpl; unfold kP384ScalarLen, kP256ScalarLen; lia. Qed.

Lemma pubkey_len_le c : pubkey_len c <= kP384PublicKeyLen.
Proof. destruct c; simpl; unfold kP384PublicKeyLen, kP256PublicKeyLen; lia. Qed.

Lemma scalar_len_pos c : 0 < scalar_len c.
Proof. destruct c; simpl; unfold kP384ScalarLen, kP256ScalarLen; lia. Qed.

(** Only the wire value 0 reads as success. *)
Lemma EnrolmentResponseCode_ok z :
  EnrolmentResponseCode_of_int z = EC_Ok <-> z = 0%Z.
Proof.
  unfold EnrolmentResponseCode_of_int. split; [|by intros ->].
  destruct (Z.ltb_spec z 0); [done|].
  destruct (Z.to_nat z) as [|n] eqn:E; [lia|].
  do 13 (destruct n as [|n]; [done|]). done.
Qed.

Lemma AuthorizationResponseCode_ok z :
  AuthorizationResponseCode_of_int z = AT_Ok <-> z = 0%Z.
Proof.
  unfold AuthorizationResponseCode_of_int. split; [|by intros ->].
  destruct (Z.ltb_spec z 0); [done|].
  destruct (Z.to_nat z) as [|n] eqn:E; [lia|].
  do 19 (destruct n as [|n]; [done|]). done.
Qed.
