(* ===== verification/StaticBytes.v ===== *)
(** [StaticBytes<N>] of include/v2xpki/static_bytes.hpp: an [N]-byte array with a
    runtime length.

    The record keeps both private members.  [to_vector] is the abstract value;
    [wf] is the class invariant ([data_] is an [std::array] of [N] bytes and [len_]
    never exceeds [N]).  The theorems show that the bytes past [len_] are never
    observable through the public operations. *)
From S2P Require Import Prelude.

Record StaticBytes (N : nat) := MkStaticBytes {
  data_ : bytes;
  len_ : nat;
}.
Arguments MkStaticBytes {N} _ _.
Arguments data_ {N} _.
Arguments len_ {N} _.

#[export] Instance StaticBytes_eq_dec N : EqDecision (StaticBytes N).
Proof. solve_decision. Defined.

Module sb.
Section sb.
Context {N : nat}.
Implicit Types a b : StaticBytes N.

(** [StaticBytes() = default]: zeroed array, length 0. *)
Definition default_ : StaticBytes N := MkStaticBytes (zeros N) 0.

(** [from(const uint8_t* p, size_t n)]; [p] is the memory readable at the pointer. *)
Definition from_ptr (p : bytes) (n : nat) : option (StaticBytes N) :=
  if N <? n then None
  else Some (MkStaticBytes (take n p ++ drop n (zeros N)) n).

(** [from(const std::vector<uint8_t>& v)] *)
Definition from (v : bytes) : option (StaticBytes N) := from_ptr v (length v).

Definition to_vector b : bytes := take (len_ b) (data_ b).

Definition size b : nat := len_ b.
Definition is_empty b : bool := len_ b =? 0.
(** [operator[]]: reads the array, whatever the length. *)
Definition at_ b (i : nat) : byte := nth i (data_ b) x00.
Definition clear b : StaticBytes N := MkStaticBytes (data_ b) 0.

(** [operator==]: equal lengths and equal first [len_] bytes. *)
Definition eqb a b : bool :=
  (len_ a =? len_ b) && bytes_eqb (take (len_ a) (data_ a)) (take (len_ a) (data_ b)).

Definition eqb_vector b (v : bytes) : bool :=
  (len_ b =? length v) && bytes_eqb (take (len_ b) (data_ b)) (take (len_ b) v).

(** The operators with the vector on the left. *)
Definition vector_eqb (a : bytes) b : bool := eqb_vector b a.
Definition vector_neqb (a : bytes) b : bool := negb (eqb_vector b a).

(** The class invariant. *)
Definition wf b : Prop := length (data_ b) = N /\ len_ b <= N.

Lemma default_wf : wf default_.
Proof. split; simpl; [apply length_zeros|lia]. Qed.

Lemma from_ptr_wf p n b : n <= length p -> from_ptr p n = Some b -> wf b.
Proof.
  unfold from_ptr, wf. intros Hp H.
  destruct (Nat.ltb_spec N n); [done|]. simplify_eq/=. split; [|lia].
  rewrite length_app, length_take, length_drop, length_zeros. lia.
Qed.

Lemma from_wf v b : from v = Some b -> wf b.
Proof. apply from_ptr_wf. lia. Qed.

Lemma to_vector_from_ptr p n b :
  n <= length p -> from_ptr p n = Some b -> to_vector b = take n p.
Proof.
  unfold from_ptr, to_vector. intros Hp H.
  destruct (Nat.ltb_spec N n); [done|]. simplify_eq/=.
  rewrite take_app_le by (rewrite length_take; lia).
  rewrite take_take. f_equal. lia.
Qed.

Lemma to_vector_from v b : from v = Some b -> to_vector b = v.
Proof.
  intros H. apply to_vector_from_ptr in H; [|done].
  rewrite H. apply take_ge. done.
Qed.

Lemma from_is_Some v : is_Some (from v) <-> length v <= N.
Proof.
  unfold from, from_ptr. destruct (Nat.ltb_spec N (length v)).
  - split; [by intros [? [=]]|lia].
  - split; eauto.
Qed.

Lemma from_Some v : length v <= N -> exists b, from v = Some b /\ to_vector b = v /\ wf b.
Proof.
  intros H. apply from_is_Some in H as [b Hb].
  exists b. split_and!; [done|by apply to_vector_from|by apply (from_wf v)].
Qed.

Lemma size_from v b : from v = Some b -> size b = length v.
Proof.
  unfold from, from_ptr, size. destruct (N <? length v); [done|]. intros [= <-]. done.
Qed.

Lemma size_to_vector b : wf b -> length (to_vector b) = size b.
Proof. intros [H1 H2]. unfold to_vector, size. rewrite length_take. lia. Qed.

Lemma is_empty_to_vector b : wf b -> is_empty b = true <-> to_vector b = [].
Proof.
  intros Hwf. unfold is_empty. rewrite Nat.eqb_eq, <- length_zero_iff_nil.
  rewrite (size_to_vector _ Hwf). done.
Qed.

Lemma at_to_vector b i : wf b -> i < size b -> to_vector b !! i = Some (at_ b i).
Proof.
  intros [Hd Hl] Hi. unfold to_vector, at_, size in *.
  rewrite lookup_take_lt by lia.
  destruct (lookup_lt_is_Some_2 (data_ b) i ltac:(lia)) as [x Hx].
  rewrite Hx. f_equal. symmetry. by apply nth_lookup_Some.
Qed.

(** Equality is exactly equality of the abstract values. *)
Lemma eqb_spec a b : wf a -> wf b -> eqb a b = true <-> to_vector a = to_vector b.
Proof.
  intros Ha Hb. unfold eqb. rewrite andb_true_iff, Nat.eqb_eq, bytes_eqb_eq.
  unfold to_vector. split.
  - intros [Hl He]. by rewrite <- Hl.
  - intros He. assert (len_ a = len_ b) as Hl.
    { pose proof (size_to_vector _ Ha) as H1. pose proof (size_to_vector _ Hb) as H2.
      unfold to_vector, size in *. congruence. }
    split; [done|]. by rewrite He, Hl.
Qed.

Lemma eqb_vector_spec b v : wf b -> eqb_vector b v = true <-> to_vector b = v.
Proof.
  intros Hb. unfold eqb_vector. rewrite andb_true_iff, Nat.eqb_eq, bytes_eqb_eq.
  fold (to_vector b). pose proof (size_to_vector _ Hb) as Hs. unfold size in Hs. split.
  - intros [Hl He]. rewrite He, Hl. by apply take_ge.
  - intros <-. rewrite Hs. split; [done|]. symmetry. apply take_ge. lia.
Qed.

Lemma vector_neqb_spec v b : wf b -> vector_neqb v b = true <-> to_vector b <> v.
Proof.
  intros Hb. unfold vector_neqb. rewrite negb_true_iff, <- not_true_iff_false.
  by rewrite eqb_vector_spec.
Qed.

(** Copying through a vector keeps the value (the stale tail may differ). *)
Lemma from_to_vector b : wf b -> exists b', from (to_vector b) = Some b' /\ eqb b b' = true.
Proof.
  intros Hb. destruct (from_Some (to_vector b)) as (b' & Hf & Hv & Hw).
  { rewrite size_to_vector by done. apply Hb. }
  exists b'. split; [done|]. apply eqb_spec; auto.
Qed.

End sb.
Arguments default_ : clear implicits.
Arguments from_ptr : clear implicits.
Arguments from : clear implicits.
End sb.

#[export] Hint Resolve sb.default_wf sb.from_wf : v2x.
