(* ===== verification/Asn.v ===== *)
(** ASN.1 structures and the COER codec of src/internal/coer.{hpp,cpp} and
    src/internal/asn_ptr.hpp.

    The structures are the C structs asn1c generates from asn/*.asn, restricted to
    the modules the client uses.  A nullable pointer member is an [option]; a
    CHOICE is an inductive type with one constructor per alternative and one for
    [PR_NOTHING], the value a zeroed struct has; an OCTET STRING is its bytes ([]
    when [buf] is null); a component the client never inspects is kept as [raw]
    bytes, so that re-encoding a decoded structure loses nothing.

    The generated codecs are not part of the repository: [Codec] is the interface
    the client calls, one instance per type descriptor, and [CodecOk] the round
    trip that X.696 promises. *)
From S2P Require Import Prelude Result.

Abbreviation raw := bytes.

(** ** IEEE 1609.2 base types (asn/Ieee1609Dot2BaseTypes.asn) *)

Inductive EccP256CurvePoint :=
  | P256_NOTHING
  | P256_x_only (x : bytes)
  | P256_fill
  | P256_compressed_y_0 (x : bytes)
  | P256_compressed_y_1 (x : bytes)
  | P256_uncompressedP256 (x y : bytes).

Inductive EccP384CurvePoint :=
  | P384_NOTHING
  | P384_x_only (x : bytes)
  | P384_fill
  | P384_compressed_y_0 (x : bytes)
  | P384_compressed_y_1 (x : bytes)
  | P384_uncompressedP384 (x y : bytes).

Record EcdsaP256Signature := MkEcdsaP256Signature {
  rSig256 : option EccP256CurvePoint;
  sSig256 : bytes;
}.

Record EcdsaP384Signature := MkEcdsaP384Signature {
  rSig384 : option EccP384CurvePoint;
  sSig384 : bytes;
}.

Inductive Signature_t :=
  | Signature_NOTHING
  | ecdsaNistP256Signature (s : option EcdsaP256Signature)
  | ecdsaBrainpoolP256r1Signature (s : option EcdsaP256Signature)
  | ecdsaBrainpoolP384r1Signature (s : option EcdsaP384Signature)
  | ecdsaNistP384Signature (s : option EcdsaP384Signature)
  | sm2Signature (s : option raw).

Inductive HashAlgorithm := HashAlgorithm_sha256 | HashAlgorithm_sha384 | HashAlgorithm_sm3.

Inductive Duration :=
  | Duration_NOTHING
  | microseconds (n : Z)
  | milliseconds (n : Z)
  | seconds (n : Z)
  | minutes (n : Z)
  | hours (n : Z)
  | sixtyHours (n : Z)
  | years (n : Z).

Record ValidityPeriod := MkValidityPeriod {
  vp_start : Z;
  vp_duration : option Duration;
}.

Inductive PublicVerificationKey :=
  | PVK_NOTHING
  | ecdsaNistP256 (p : option EccP256CurvePoint)
  | ecdsaBrainpoolP256r1 (p : option EccP256CurvePoint)
  | ecdsaBrainpoolP384r1 (p : option EccP384CurvePoint)
  | ecdsaNistP384 (p : option EccP384CurvePoint)
  | ecsigSm2 (p : option EccP256CurvePoint).

Inductive BasePublicEncryptionKey :=
  | BPEK_NOTHING
  | bpek_eciesNistP256 (p : option EccP256CurvePoint)
  | bpek_eciesBrainpoolP256r1 (p : option EccP256CurvePoint)
  | bpek_ecencSm2 (p : option EccP256CurvePoint).

Record PublicEncryptionKey := MkPublicEncryptionKey {
  supportedSymmAlg : Z;
  pek_publicKey : option BasePublicEncryptionKey;
}.

Record EciesP256EncryptedKey := MkEciesP256EncryptedKey {
  ecies_v : option EccP256CurvePoint;
  ecies_c : bytes;
  ecies_t : bytes;
}.

Record PsidSsp := MkPsidSsp {
  psid : Z;
  ssp : option raw;
}.

(** ** Certificates (asn/Ieee1609Dot2.asn) *)

Inductive CertificateId :=
  | CertificateId_NOTHING
  | CertificateId_linkageData (l : raw)
  | CertificateId_name (n : bytes)
  | CertificateId_binaryId (b : bytes)
  | CertificateId_none.

Inductive IssuerIdentifier :=
  | IssuerIdentifier_NOTHING
  | sha256AndDigest (d : bytes)
  | self (h : HashAlgorithm)
  | sha384AndDigest (d : bytes)
  | sm3AndDigest (d : bytes).

Inductive VerificationKeyIndicator :=
  | VKI_NOTHING
  | verificationKey (k : option PublicVerificationKey)
  | reconstructionValue (p : option EccP256CurvePoint).

Record ToBeSignedCertificate := MkToBeSignedCertificate {
  tbs_id : option CertificateId;
  cracaId : bytes;
  crlSeries : Z;
  validityPeriod : option ValidityPeriod;
  appPermissions : option (list (option PsidSsp));
  certIssuePermissions : option (list raw);
  encryptionKey : option PublicEncryptionKey;
  verifyKeyIndicator : option VerificationKeyIndicator;
  tbs_other : raw;
}.

Inductive CertificateType := CertificateType_explicit | CertificateType_implicit.

Record CertificateBase := MkCertificateBase {
  cert_version : Z;
  cert_type : CertificateType;
  issuer : option IssuerIdentifier;
  toBeSigned : option ToBeSignedCertificate;
  cert_signature : option Signature_t;
}.

(** ** Secured data (asn/Ieee1609Dot2.asn)

    The types of the SignedData tree are parameterised by the type of the nested
    Ieee1609Dot2Data and closed by the recursive [Ieee1609Dot2Data]. *)

Inductive HashedData :=
  | HashedData_NOTHING
  | sha256HashedData (h : bytes)
  | sha384HashedData (h : bytes)
  | sm3HashedData (h : bytes).

Record HeaderInfo := MkHeaderInfo {
  hdr_psid : Z;
  generationTime : option Z;
  hdr_other : raw;
}.

Inductive SignerIdentifier :=
  | SignerIdentifier_NOTHING
  | SignerIdentifier_digest (d : bytes)
  | SignerIdentifier_certificate (c : list CertificateBase)
  | SignerIdentifier_self.

Record SignedDataPayload_ (D : Type) := MkSignedDataPayload {
  pl_data : option D;
  extDataHash : option HashedData;
  omitted : bool;
}.
Arguments MkSignedDataPayload {D} _ _ _.
Arguments pl_data {D} _.
Arguments extDataHash {D} _.
Arguments omitted {D} _.

Record ToBeSignedData_ (D : Type) := MkToBeSignedData {
  payload : option (SignedDataPayload_ D);
  headerInfo : option HeaderInfo;
}.
Arguments MkToBeSignedData {D} _ _.
Arguments payload {D} _.
Arguments headerInfo {D} _.

Record SignedData_ (D : Type) := MkSignedData {
  hashId : HashAlgorithm;
  tbsData : option (ToBeSignedData_ D);
  signer : option SignerIdentifier;
  sd_signature : option Signature_t;
}.
Arguments MkSignedData {D} _ _ _ _.
Arguments hashId {D} _.
Arguments tbsData {D} _.
Arguments signer {D} _.
Arguments sd_signature {D} _.

Inductive EncryptedDataEncryptionKey :=
  | EDEK_NOTHING
  | edek_eciesNistP256 (k : option EciesP256EncryptedKey)
  | edek_eciesBrainpoolP256r1 (k : option EciesP256EncryptedKey)
  | edek_ecencSm2256 (k : option raw).

Record PKRecipientInfo := MkPKRecipientInfo {
  recipientId : bytes;
  encKey : option EncryptedDataEncryptionKey;
}.

Inductive RecipientInfo :=
  | RecipientInfo_NOTHING
  | pskRecipInfo (h : bytes)
  | symmRecipInfo (s : option raw)
  | certRecipInfo (p : option PKRecipientInfo)
  | signedDataRecipInfo (p : option PKRecipientInfo)
  | rekRecipInfo (p : option PKRecipientInfo).

Record One28BitCcmCiphertext := MkOne28BitCcmCiphertext {
  ccm_nonce : bytes;
  ccmCiphertext : bytes;
}.

Inductive SymmetricCiphertext :=
  | SymmetricCiphertext_NOTHING
  | aes128ccm (c : option One28BitCcmCiphertext)
  | sm4Ccm (c : option One28BitCcmCiphertext).

Record EncryptedData := MkEncryptedData {
  recipients : option (list (option RecipientInfo));
  ciphertext : option SymmetricCiphertext;
}.

Inductive Ieee1609Dot2Content_ (D : Type) :=
  | Content_NOTHING
  | unsecuredData (o : bytes)
  | signedData (s : option (SignedData_ D))
  | encryptedData (e : option EncryptedData)
  | signedCertificateRequest (o : bytes)
  | signedX509CertificateRequest (o : bytes).
Arguments Content_NOTHING {D}.
Arguments unsecuredData {D} o.
Arguments signedData {D} s.
Arguments encryptedData {D} e.
Arguments signedCertificateRequest {D} o.
Arguments signedX509CertificateRequest {D} o.

#[warnings="-register-all"]
Inductive Ieee1609Dot2Data :=
  MkIeee1609Dot2Data (protocolVersion : Z)
                     (content : option (Ieee1609Dot2Content_ Ieee1609Dot2Data)).

Definition data_content (d : Ieee1609Dot2Data) : option (Ieee1609Dot2Content_ Ieee1609Dot2Data) :=
  let 'MkIeee1609Dot2Data _ c := d in c.

Abbreviation Ieee1609Dot2Content := (Ieee1609Dot2Content_ Ieee1609Dot2Data).
Abbreviation SignedData := (SignedData_ Ieee1609Dot2Data).
Abbreviation ToBeSignedData := (ToBeSignedData_ Ieee1609Dot2Data).
Abbreviation SignedDataPayload := (SignedDataPayload_ Ieee1609Dot2Data).

(** ** TS 102 941 (asn/EtsiTs102941*.asn) *)

Record CertificateSubjectAttributes := MkCertificateSubjectAttributes {
  csa_validityPeriod : option ValidityPeriod;
  csa_appPermissions : option (list PsidSsp);
  csa_other : raw;
}.

Record PublicKeys := MkPublicKeys {
  pk_verificationKey : option PublicVerificationKey;
  pk_encryptionKey : option PublicEncryptionKey;
}.

(** [CertificateFormat ::= INTEGER { ts103097v131 (1) }] *)
Definition CertificateFormat_ts103097v131 : Z := 1.

Record InnerEcRequest := MkInnerEcRequest {
  itsId : bytes;
  ec_certificateFormat : Z;
  ec_publicKeys : option PublicKeys;
  ec_requestedSubjectAttributes : option CertificateSubjectAttributes;
}.

Record InnerEcResponse := MkInnerEcResponse {
  ecr_requestHash : bytes;
  ecr_responseCode : Z;
  ecr_certificate : option CertificateBase;
}.

Record SharedAtRequest := MkSharedAtRequest {
  eaId : bytes;
  keyTag : bytes;
  at_certificateFormat : Z;
  at_requestedSubjectAttributes : option CertificateSubjectAttributes;
}.

Inductive EcSignature :=
  | EcSignature_NOTHING
  | encryptedEcSignature (d : option Ieee1609Dot2Data)
  | ecSignature_plain (d : option Ieee1609Dot2Data).

Record InnerAtRequest := MkInnerAtRequest {
  at_publicKeys : option PublicKeys;
  hmacKey : bytes;
  sharedAtRequest : option SharedAtRequest;
  ecSignature : option EcSignature;
}.

Record InnerAtResponse := MkInnerAtResponse {
  atr_requestHash : bytes;
  atr_responseCode : Z;
  atr_certificate : option CertificateBase;
}.

Record ToBeSignedCrl := MkToBeSignedCrl {
  crl_version : Z;
  thisUpdate : Z;
  crl_nextUpdate : Z;
  entries : list (option bytes);
}.

Record RootCaEntry := MkRootCaEntry {
  selfsignedRootCa : option CertificateBase;
  rca_successorTo : option CertificateBase;
}.
Record EaEntry := MkEaEntry {
  eaCertificate : option CertificateBase;
  aaAccessPoint : bytes;
  itsAccessPoint : option bytes;
}.
Record AaEntry := MkAaEntry {
  aaCertificate : option CertificateBase;
  accessPoint : bytes;
}.
Record DcEntry := MkDcEntry {
  dc_url : bytes;
  dc_cert : list (option bytes);
}.
Record TlmEntry := MkTlmEntry {
  selfSignedTLMCertificate : option CertificateBase;
  tlm_successorTo : option CertificateBase;
  tlm_accessPoint : bytes;
}.

Inductive CtlEntry :=
  | CtlEntry_NOTHING
  | CtlEntry_rca (e : option RootCaEntry)
  | CtlEntry_ea (e : option EaEntry)
  | CtlEntry_aa (e : option AaEntry)
  | CtlEntry_dc (e : option DcEntry)
  | CtlEntry_tlm (e : option TlmEntry).

Inductive CtlCommand :=
  | CtlCommand_NOTHING
  | CtlCommand_add (e : option CtlEntry)
  | CtlCommand_delete (d : option raw).

Record CtlFormat := MkCtlFormat {
  ctl_version : Z;
  ctl_nextUpdate : Z;
  isFullCtl : bool;
  ctlSequence : Z;
  ctlCommands : list (option CtlCommand);
}.

(** Alternatives of EtsiTs102941DataContent the client looks at; the others are
    [DataContent_other], with their CHOICE index. *)
Inductive EtsiTs102941DataContent :=
  | DataContent_NOTHING
  | certificateRevocationList (c : option ToBeSignedCrl)
  | certificateTrustListTlm (c : option CtlFormat)
  | certificateTrustListRca (c : option CtlFormat)
  | DataContent_other (index : nat) (r : raw).

Record EtsiTs102941Data := MkEtsiTs102941Data {
  etsi_version : Z;
  etsi_content : option EtsiTs102941DataContent;
}.

(** ** Decidable equality *)

#[export] Instance EccP256CurvePoint_eq_dec : EqDecision EccP256CurvePoint.
Proof. solve_decision. Defined.
#[export] Instance EccP384CurvePoint_eq_dec : EqDecision EccP384CurvePoint.
Proof. solve_decision. Defined.
#[export] Instance EcdsaP256Signature_eq_dec : EqDecision EcdsaP256Signature.
Proof. solve_decision. Defined.
#[export] Instance EcdsaP384Signature_eq_dec : EqDecision EcdsaP384Signature.
Proof. solve_decision. Defined.
#[export] Instance Signature_t_eq_dec : EqDecision Signature_t.
Proof. solve_decision. Defined.
#[export] Instance HashAlgorithm_eq_dec : EqDecision HashAlgorithm.
Proof. solve_decision. Defined.
#[export] Instance Duration_eq_dec : EqDecision Duration.
Proof. solve_decision. Defined.
#[export] Instance ValidityPeriod_eq_dec : EqDecision ValidityPeriod.
Proof. solve_decision. Defined.
#[export] Instance PublicVerificationKey_eq_dec : EqDecision PublicVerificationKey.
Proof. solve_decision. Defined.
#[export] Instance BasePublicEncryptionKey_eq_dec : EqDecision BasePublicEncryptionKey.
Proof. solve_decision. Defined.
#[export] Instance PublicEncryptionKey_eq_dec : EqDecision PublicEncryptionKey.
Proof. solve_decision. Defined.
#[export] Instance EciesP256EncryptedKey_eq_dec : EqDecision EciesP256EncryptedKey.
Proof. solve_decision. Defined.
#[export] Instance PsidSsp_eq_dec : EqDecision PsidSsp.
Proof. solve_decision. Defined.
#[export] Instance CertificateId_eq_dec : EqDecision CertificateId.
Proof. solve_decision. Defined.
#[export] Instance IssuerIdentifier_eq_dec : EqDecision IssuerIdentifier.
Proof. solve_decision. Defined.
#[export] Instance VerificationKeyIndicator_eq_dec : EqDecision VerificationKeyIndicator.
Proof. solve_decision. Defined.
#[export] Instance ToBeSignedCertificate_eq_dec : EqDecision ToBeSignedCertificate.
Proof. solve_decision. Defined.
#[export] Instance CertificateType_eq_dec : EqDecision CertificateType.
Proof. solve_decision. Defined.
#[export] Instance CertificateBase_eq_dec : EqDecision CertificateBase.
Proof. solve_decision. Defined.
#[export] Instance HashedData_eq_dec : EqDecision HashedData.
Proof. solve_decision. Defined.
#[export] Instance HeaderInfo_eq_dec : EqDecision HeaderInfo.
Proof. solve_decision. Defined.
#[export] Instance SignerIdentifier_eq_dec : EqDecision SignerIdentifier.
Proof. solve_decision. Defined.
#[export] Instance SignedDataPayload_eq_dec {D} `{!EqDecision D} : EqDecision (SignedDataPayload_ D).
Proof. solve_decision. Defined.
#[export] Instance ToBeSignedData_eq_dec {D} `{!EqDecision D} : EqDecision (ToBeSignedData_ D).
Proof. solve_decision. Defined.
#[export] Instance SignedData_eq_dec {D} `{!EqDecision D} : EqDecision (SignedData_ D).
Proof. solve_decision. Defined.
#[export] Instance EncryptedDataEncryptionKey_eq_dec : EqDecision EncryptedDataEncryptionKey.
Proof. solve_decision. Defined.
#[export] Instance PKRecipientInfo_eq_dec : EqDecision PKRecipientInfo.
Proof. solve_decision. Defined.
#[export] Instance RecipientInfo_eq_dec : EqDecision RecipientInfo.
Proof. solve_decision. Defined.
#[export] Instance One28BitCcmCiphertext_eq_dec : EqDecision One28BitCcmCiphertext.
Proof. solve_decision. Defined.
#[export] Instance SymmetricCiphertext_eq_dec : EqDecision SymmetricCiphertext.
Proof. solve_decision. Defined.
#[export] Instance EncryptedData_eq_dec : EqDecision EncryptedData.
Proof. solve_decision. Defined.
#[export] Instance Ieee1609Dot2Content_eq_dec {D} `{!EqDecision D} :
  EqDecision (Ieee1609Dot2Content_ D).
Proof. solve_decision. Defined.
#[export] Instance Ieee1609Dot2Data_eq_dec : EqDecision Ieee1609Dot2Data.
Proof.
  refine (fix go (x y : Ieee1609Dot2Data) : Decision (x = y) :=
    match x, y with
    | MkIeee1609Dot2Data v c, MkIeee1609Dot2Data v' c' =>
        match decide (v = v') with
        | left Hv =>
            match @option_eq_dec _ (@Ieee1609Dot2Content_eq_dec _ go) c c' with
            | left Hc => left _
            | right Hc => right _
            end
        | right Hv => right _
        end
    end); congruence.
Defined.
#[export] Instance CertificateSubjectAttributes_eq_dec : EqDecision CertificateSubjectAttributes.
Proof. solve_decision. Defined.
#[export] Instance PublicKeys_eq_dec : EqDecision PublicKeys.
Proof. solve_decision. Defined.
#[export] Instance InnerEcRequest_eq_dec : EqDecision InnerEcRequest.
Proof. solve_decision. Defined.
#[export] Instance InnerEcResponse_eq_dec : EqDecision InnerEcResponse.
Proof. solve_decision. Defined.
#[export] Instance SharedAtRequest_eq_dec : EqDecision SharedAtRequest.
Proof. solve_decision. Defined.
#[export] Instance EcSignature_eq_dec : EqDecision EcSignature.
Proof. solve_decision. Defined.
#[export] Instance InnerAtRequest_eq_dec : EqDecision InnerAtRequest.
Proof. solve_decision. Defined.
#[export] Instance InnerAtResponse_eq_dec : EqDecision InnerAtResponse.
Proof. solve_decision. Defined.
#[export] Instance ToBeSignedCrl_eq_dec : EqDecision ToBeSignedCrl.
Proof. solve_decision. Defined.
#[export] Instance RootCaEntry_eq_dec : EqDecision RootCaEntry.
Proof. solve_decision. Defined.
#[export] Instance EaEntry_eq_dec : EqDecision EaEntry.
Proof. solve_decision. Defined.
#[export] Instance AaEntry_eq_dec : EqDecision AaEntry.
Proof. solve_decision. Defined.
#[export] Instance DcEntry_eq_dec : EqDecision DcEntry.
Proof. solve_decision. Defined.
#[export] Instance TlmEntry_eq_dec : EqDecision TlmEntry.
Proof. solve_decision. Defined.
#[export] Instance CtlEntry_eq_dec : EqDecision CtlEntry.
Proof. solve_decision. Defined.
#[export] Instance CtlCommand_eq_dec : EqDecision CtlCommand.
Proof. solve_decision. Defined.
#[export] Instance CtlFormat_eq_dec : EqDecision CtlFormat.
Proof. solve_decision. Defined.
#[export] Instance EtsiTs102941DataContent_eq_dec : EqDecision EtsiTs102941DataContent.
Proof. solve_decision. Defined.
#[export] Instance EtsiTs102941Data_eq_dec : EqDecision EtsiTs102941Data.
Proof. solve_decision. Defined.

(** ** The codec interface

    One instance per [asn_TYPE_descriptor_t].  [asn_encode] is
    [asn_encode_to_new_buffer] with ATS_CANONICAL_OER ([None]: no buffer or a
    negative count), [asn_decode_canonical] and [asn_decode_basic] are
    [asn_decode] with the two OER variants ([None]: the code is not RC_OK). *)

Class Codec (T : Type) := {
  asn_encode : T -> option bytes;
  asn_decode_canonical : bytes -> option T;
  asn_decode_basic : bytes -> option T;
}.

(** What the client relies on: a canonical encoding is not empty and decodes to
    the structure it came from. *)
Class CodecOk (T : Type) `{!Codec T} := {
  decode_encode x b : asn_encode x = Some b -> asn_decode_canonical b = Some x;
  encode_nonempty x b : asn_encode x = Some b -> b <> [];
}.

(** [uper_encode_to_new_buffer] and [uper_decode_complete]. *)
Class UperCodec (T : Type) := {
  asn_encode_uper : T -> option bytes;
  asn_decode_uper : bytes -> option T;
}.

Module coer.
Section coer.
Context {T : Type} `{!Codec T}.

(** [coer::encode]: the empty vector on failure. *)
Definition encode (x : T) : bytes :=
  match asn_encode x with
  | Some b => b
  | None => []
  end.

(** [coer::decode] and [asn_decode<T>]: a null pointer on failure. *)
Definition decode (b : bytes) : option T := asn_decode_canonical b.

(** [coer::decode_with_basic_fallback] and [asn_decode_fallback<T>]. *)
Definition decode_with_basic_fallback (b : bytes) : option T :=
  match asn_decode_canonical b with
  | Some x => Some x
  | None => asn_decode_basic b
  end.

(** [coer::encode_uper] *)
Definition encode_uper {U} `{!UperCodec U} (x : U) : bytes :=
  match asn_encode_uper x with
  | Some b => b
  | None => []
  end.

(** [coer::decode_uper] *)
Definition decode_uper {U} `{!UperCodec U} (b : bytes) : option U := asn_decode_uper b.

Lemma encode_Some x b : encode x = b -> b <> [] -> asn_encode x = Some b.
Proof. unfold encode. destruct (asn_encode x); naive_solver. Qed.

Context `{!CodecOk T}.

Lemma encode_decode x : encode x <> [] -> decode (encode x) = Some x.
Proof.
  intros H. apply (encode_Some _ _ eq_refl) in H. by apply decode_encode.
Qed.

Lemma encode_decode_fallback x :
  encode x <> [] -> decode_with_basic_fallback (encode x) = Some x.
Proof.
  intros H. pose proof (encode_decode x H) as E. unfold decode in E.
  unfold decode_with_basic_fallback. by rewrite E.
Qed.

(** Distinct structures never share a wire image. *)
Lemma encode_inj x y : encode x <> [] -> encode x = encode y -> x = y.
Proof.
  intros Hx He. assert (Hy : encode y <> []) by congruence.
  apply encode_decode in Hx, Hy. rewrite He in Hx. congruence.
Qed.

End coer.
End coer.

Module octet.

(** [octet::set(os, data, len)]: copies [len] bytes ([len] is below INT_MAX for
    every call of the client). *)
Definition set (data : bytes) (len : nat) : bytes := take len data.

(** [octet::bytes(os)] *)
Definition bytes (os : bytes) : bytes := os.

End octet.

#[export] Hint Resolve coer.encode_decode coer.encode_decode_fallback : v2x.
