(* ===== verification/OpenSSL.v ===== *)
(** The OpenSSL 3 primitives the client calls.

    OpenSSL is not part of the repository: each function is an operation of the
    class [OpenSSL], and the documented behaviour the client relies on is in
    [OpenSSLOk] (CryptoEc.v).  An operation that can fail returns an [option]; an
    allocation failure inside a context constructor is one of its [None]s.
    Operations that consume randomness thread the generator state [rng]. *)
From S2P Require Import Prelude.

Inductive EVP_MD := EVP_sha256 | EVP_sha384.

Class OpenSSL := {
  EC_GROUP : Type;
  EC_POINT : Type;
  EVP_PKEY : Type;
  rng : Type;

  (** big numbers, points *)
  BN_bin2bn : bytes -> option Z;
  BN_bn2binpad : Z -> nat -> option bytes;
  EC_GROUP_new_by_curve_name : Z -> option EC_GROUP;
  (** [EC_POINT_mul(group, r, n, NULL, NULL)]: [n] times the generator *)
  EC_POINT_mul : EC_GROUP -> Z -> option EC_POINT;
  (** POINT_CONVERSION_UNCOMPRESSED *)
  EC_POINT_point2oct : EC_GROUP -> EC_POINT -> bytes;
  EC_POINT_oct2point : EC_GROUP -> bytes -> option EC_POINT;

  (** keys: [EVP_PKEY_fromdata] with EVP_PKEY_KEYPAIR / EVP_PKEY_PUBLIC_KEY *)
  EVP_PKEY_fromdata_keypair : string -> Z -> bytes -> option EVP_PKEY;
  EVP_PKEY_fromdata_public : string -> bytes -> option EVP_PKEY;
  EVP_PKEY_generate : string -> rng -> option EVP_PKEY * rng;
  EVP_PKEY_get_priv : EVP_PKEY -> option Z;
  EVP_PKEY_get_pub : EVP_PKEY -> option bytes;
  EVP_PKEY_get_bits : EVP_PKEY -> Z;

  (** ECDSA; signatures are DER *)
  EVP_PKEY_sign : EVP_PKEY -> bytes -> rng -> option bytes * rng;
  EVP_PKEY_verify : EVP_PKEY -> bytes -> bytes -> bool;
  EVP_DigestSign : EVP_MD -> EVP_PKEY -> bytes -> rng -> option bytes * rng;
  EVP_DigestVerify : EVP_MD -> EVP_PKEY -> bytes -> bytes -> bool;
  d2i_ECDSA_SIG : bytes -> option (Z * Z);
  i2d_ECDSA_SIG : Z * Z -> option bytes;

  (** ECDH *)
  EVP_PKEY_derive : EVP_PKEY -> EVP_PKEY -> option bytes;

  (** hashing, MAC, symmetric encryption *)
  EVP_Digest : EVP_MD -> bytes -> option bytes;
  HMAC_sha256 : bytes -> bytes -> option bytes;
  aes_128_ccm_seal : bytes -> bytes -> bytes -> option (bytes * bytes);
  aes_128_ccm_open : bytes -> bytes -> bytes -> bytes -> option bytes;

  (** [RAND_bytes(buf, n)]; [None]: failure, the buffer keeps its contents *)
  RAND_bytes : nat -> rng -> option bytes * rng;
}.

(** Object identifiers of openssl/obj_mac.h. *)
Definition NID_X9_62_prime256v1 : Z := 415.
Definition NID_secp384r1 : Z := 715.
Definition NID_brainpoolP256r1 : Z := 927.
Definition NID_brainpoolP384r1 : Z := 931.
