(* ===== verification/CryptoEc.v ===== *)
(** src/crypto_ec.cpp and the key types of include/v2xpki/key_store.hpp: curve
    descriptors, key import and generation, ECDSA, ECDH and hashing on top of the
    OpenSSL primitives. *)
From S2P Require Import Prelude Sizes StaticBytes OpenSSL.

Record KeyPair := MkKeyPair {
  kp_public_key : StaticBytes kP384PublicKeyLen;
  kp_private_key : StaticBytes kP384ScalarLen;
}.

Record Signature := MkSignature {
  sig_r : StaticBytes kP384ScalarLen;
  sig_s : StaticBytes kP384ScalarLen;
}.

Definition curve_nid (c : Curve) : Z :=
  match c with
  | NistP256 => NID_X9_62_prime256v1
  | BrainpoolP256r1 => NID_brainpoolP256r1
  | NistP384 => NID_secp384r1
  | BrainpoolP384r1 => NID_brainpoolP384r1
  end.

Definition curve_group_name (c : Curve) : string :=
  match c with
  | NistP256 => "prime256v1"
  | BrainpoolP256r1 => "brainpoolP256r1"
  | NistP384 => "secp384r1"
  | BrainpoolP384r1 => "brainpoolP384r1"
  end.

Module crypto.
Section crypto.
Context {ossl : OpenSSL}.

(** The public point of a private scalar: the first half of
    [evp_pkey_from_private], up to [EC_POINT_point2oct]. *)
Definition derive_public (priv : bytes) (curve : Curve) : option (Z * bytes) :=
  let slen := scalar_len curve in
  let plen := pubkey_len curve in
  if negb (length priv =? slen) then None else
  match EC_GROUP_new_by_curve_name (curve_nid curve) with
  | None => None
  | Some group =>
      match BN_bin2bn priv with
      | None => None
      | Some bn_priv =>
          match EC_POINT_mul group bn_priv with
          | None => None
          | Some pub_point =>
              let pub_buf := EC_POINT_point2oct group pub_point in
              if length pub_buf =? plen then Some (bn_priv, pub_buf) else None
          end
      end
  end.

Definition evp_pkey_from_private (priv : bytes) (curve : Curve) : option EVP_PKEY :=
  match derive_public priv curve with
  | None => None
  | Some (bn_priv, pub_buf) =>
      EVP_PKEY_fromdata_keypair (curve_group_name curve) bn_priv pub_buf
  end.

(** [pub[0]] is only read when the size test has passed, so the head of an empty
    vector is never looked at. *)
Definition evp_pkey_from_public (pub : bytes) (curve : Curve) : option EVP_PKEY :=
  let plen := pubkey_len curve in
  let clen := compressed_len curve in
  let pub0 := nth 0 pub x00 in
  let uncompressed := (length pub =? plen) && bool_decide (pub0 = x04) in
  let compressed :=
    (length pub =? clen) && (bool_decide (pub0 = x02) || bool_decide (pub0 = x03)) in
  if negb uncompressed && negb compressed then None else
  let uncompressed_pub :=
    if compressed then
      match EC_GROUP_new_by_curve_name (curve_nid curve) with
      | None => None
      | Some group =>
          match EC_POINT_oct2point group pub with
          | None => None
          | Some point =>
              let buf := EC_POINT_point2oct group point in
              if length buf =? plen then Some buf else None
          end
      end
    else Some pub in
  match uncompressed_pub with
  | None => None
  | Some up => EVP_PKEY_fromdata_public (curve_group_name curve) up
  end.

(** The return values of [BN_bn2binpad] are ignored; a value that does not fit
    leaves the zeroed buffer. *)
Definition extract_rs_from_der (der : bytes) (slen : nat) : option Signature :=
  match d2i_ECDSA_SIG der with
  | None => None
  | Some (r_bn, s_bn) =>
      let fill bn :=
        default (zeros slen) (BN_bn2binpad bn slen) ++ zeros (kP384ScalarLen - slen) in
      match sb.from_ptr kP384ScalarLen (fill r_bn) slen,
            sb.from_ptr kP384ScalarLen (fill s_bn) slen with
      | Some r_sb, Some s_sb => Some (MkSignature r_sb s_sb)
      | _, _ => None
      end
  end.

Definition build_der_from_rs (r s : bytes) : bytes :=
  match BN_bin2bn r, BN_bin2bn s with
  | Some r_bn, Some s_bn => default [] (i2d_ECDSA_SIG (r_bn, s_bn))
  | _, _ => []
  end.

(** ** Key generation *)

Definition generate_keypair_curve (curve : Curve) (g : rng) : option KeyPair * rng :=
  match EVP_PKEY_generate (curve_group_name curve) g with
  | (None, g) => (None, g)
  | (Some pkey, g) =>
      let kp :=
        match EVP_PKEY_get_priv pkey with
        | None => None
        | Some bn_priv =>
            let slen := scalar_len curve in
            let priv_bytes := default (zeros slen) (BN_bn2binpad bn_priv slen) in
            match EVP_PKEY_get_pub pkey with
            | None => None
            | Some pub_bytes =>
                match sb.from kP384PublicKeyLen pub_bytes, sb.from kP384ScalarLen priv_bytes with
                | Some pub_sb, Some priv_sb => Some (MkKeyPair pub_sb priv_sb)
                | _, _ => None
                end
            end
        end in
      (kp, g)
  end.

Definition generate_keypair (g : rng) : option KeyPair * rng :=
  generate_keypair_curve NistP256 g.

(** ** ECDSA *)

Definition ecdsa_sign (private_key message : bytes) (g : rng) : option Signature * rng :=
  match evp_pkey_from_private private_key NistP256 with
  | None => (None, g)
  | Some pkey =>
      match EVP_DigestSign EVP_sha256 pkey message g with
      | (None, g) => (None, g)
      | (Some der_sig, g) => (extract_rs_from_der der_sig kP256ScalarLen, g)
      end
  end.

Definition ecdsa_sign_digest_curve (private_key digest : bytes) (curve : Curve) (g : rng)
    : option Signature * rng :=
  let slen := scalar_len curve in
  let hlen := hash_len curve in
  if negb (length digest =? hlen) then (None, g) else
  match evp_pkey_from_private private_key curve with
  | None => (None, g)
  | Some pkey =>
      match EVP_PKEY_sign pkey digest g with
      | (None, g) => (None, g)
      | (Some der_sig, g) => (extract_rs_from_der der_sig slen, g)
      end
  end.

Definition ecdsa_sign_digest (private_key digest : bytes) (g : rng) : option Signature * rng :=
  ecdsa_sign_digest_curve private_key digest NistP256 g.

Definition ecdsa_verify (public_key message : bytes) (sig : Signature) : bool :=
  match evp_pkey_from_public public_key NistP256 with
  | None => false
  | Some pkey =>
      let der_sig := build_der_from_rs (sb.to_vector (sig_r sig)) (sb.to_vector (sig_s sig)) in
      EVP_DigestVerify EVP_sha256 pkey der_sig message
  end.

Definition ecdsa_verify_digest_curve (public_key digest : bytes) (sig : Signature)
    (curve : Curve) : bool :=
  if negb (length digest =? hash_len curve) then false else
  match evp_pkey_from_public public_key curve with
  | None => false
  | Some pkey =>
      let der_sig := build_der_from_rs (sb.to_vector (sig_r sig)) (sb.to_vector (sig_s sig)) in
      EVP_PKEY_verify pkey der_sig digest
  end.

Definition ecdsa_verify_digest (public_key digest : bytes) (sig : Signature) : bool :=
  ecdsa_verify_digest_curve public_key digest sig NistP256.

(** ** ECDH *)

Definition ecdh_derive_curve (private_key peer_public_key : bytes) (curve : Curve)
    : option bytes :=
  match evp_pkey_from_private private_key curve, evp_pkey_from_public peer_public_key curve with
  | Some priv_pkey, Some pub_pkey => EVP_PKEY_derive priv_pkey pub_pkey
  | _, _ => None
  end.

Definition ecdh_derive (private_key peer_public_key : bytes) : option bytes :=
  ecdh_derive_curve private_key peer_public_key NistP256.

(** ** Hashing: when [EVP_Digest] fails [len] stays 0 and the digest is empty. *)

Definition hash_sha256 (data : bytes) : bytes := default [] (EVP_Digest EVP_sha256 data).

Definition hash_sha384 (data : bytes) : bytes := default [] (EVP_Digest EVP_sha384 data).

Definition hash_for_curve (data : bytes) (curve : Curve) : bytes :=
  match curve with
  | NistP256 | BrainpoolP256r1 => hash_sha256 data
  | NistP384 | BrainpoolP384r1 => hash_sha384 data
  end.

End crypto.
End crypto.

(** ** What the client relies on

    Digest and MAC sizes; the padded form of a number read from bytes is those bytes;
    a scalar's public point imports, in both encodings, and is 0x04 || X || Y; the
    signatures OpenSSL makes are canonical DER, with numbers that fit the curve and
    survive padding, and verify under the point of their scalar (nothing is said of
    other DER, which may carry trailing bytes or negative numbers); ECDH agrees on
    both sides;
    CCM opens what it sealed; a generated key pair is consistent.  All of these are
    documented properties of the primitives. *)

(** The tag byte of the compressed form of 0x04 || X || Y. *)
Definition y_tag (y : bytes) : byte :=
  if Z.testbit (byte.unsigned (List.last y x00)) 0 then x03 else x02.

Class OpenSSLOk {ossl : OpenSSL} := {
  digest_len md d h :
    EVP_Digest md d = Some h ->
    length h = match md with EVP_sha256 => kSha256Len | EVP_sha384 => kSha384Len end;
  hmac_len k d h : HMAC_sha256 k d = Some h -> length h = kSha256Len;
  rand_len n g b g' : RAND_bytes n g = (Some b, g') -> length b = n;
  binpad_len n l b : BN_bn2binpad n l = Some b -> length b = l;
  bin2bn_binpad b n : BN_bin2bn b = Some n -> BN_bn2binpad n (length b) = Some b;

  point_encoding priv c d pub :
    crypto.derive_public priv c = Some (d, pub) ->
    exists x y, pub = x04 :: x ++ y /\ length x = scalar_len c /\ length y = scalar_len c;
  point_decompress priv c d x y :
    crypto.derive_public priv c = Some (d, x04 :: x ++ y) -> length y = scalar_len c ->
    exists G P, EC_GROUP_new_by_curve_name (curve_nid c) = Some G /\
      EC_POINT_oct2point G (y_tag y :: x) = Some P /\ EC_POINT_point2oct G P = x04 :: x ++ y;
  import_keypair priv c d pub :
    crypto.derive_public priv c = Some (d, pub) ->
    is_Some (EVP_PKEY_fromdata_keypair (curve_group_name c) d pub);
  import_public priv c d pub :
    crypto.derive_public priv c = Some (d, pub) ->
    is_Some (EVP_PKEY_fromdata_public (curve_group_name c) pub);

  sign_fits c d pub k dig g der g' :
    EVP_PKEY_fromdata_keypair (curve_group_name c) d pub = Some k ->
    EVP_PKEY_sign k dig g = (Some der, g') ->
    exists r s rb sb, d2i_ECDSA_SIG der = Some (r, s) /\ i2d_ECDSA_SIG (r, s) = Some der /\
      BN_bn2binpad r (scalar_len c) = Some rb /\ BN_bin2bn rb = Some r /\
      BN_bn2binpad s (scalar_len c) = Some sb /\ BN_bin2bn sb = Some s;
  sign_verify priv c d pub k kp dig g der g' :
    crypto.derive_public priv c = Some (d, pub) ->
    EVP_PKEY_fromdata_keypair (curve_group_name c) d pub = Some k ->
    EVP_PKEY_fromdata_public (curve_group_name c) pub = Some kp ->
    EVP_PKEY_sign k dig g = (Some der, g') -> EVP_PKEY_verify kp der dig = true;
  derive_comm c priv1 d1 pub1 k1 kp1 priv2 d2 pub2 k2 kp2 :
    crypto.derive_public priv1 c = Some (d1, pub1) ->
    crypto.derive_public priv2 c = Some (d2, pub2) ->
    EVP_PKEY_fromdata_keypair (curve_group_name c) d1 pub1 = Some k1 ->
    EVP_PKEY_fromdata_public (curve_group_name c) pub1 = Some kp1 ->
    EVP_PKEY_fromdata_keypair (curve_group_name c) d2 pub2 = Some k2 ->
    EVP_PKEY_fromdata_public (curve_group_name c) pub2 = Some kp2 ->
    EVP_PKEY_derive k1 kp2 = EVP_PKEY_derive k2 kp1;
  generate_consistent c k g g' :
    EVP_PKEY_generate (curve_group_name c) g = (Some k, g') ->
    exists d priv pub, EVP_PKEY_get_priv k = Some d /\ EVP_PKEY_get_pub k = Some pub /\
      BN_bn2binpad d (scalar_len c) = Some priv /\
      crypto.derive_public priv c = Some (d, pub);
  ccm_open_seal k n p c t :
    aes_128_ccm_seal k n p = Some (c, t) -> aes_128_ccm_open k n c t = Some p;
  ccm_seal_len k n p c t :
    aes_128_ccm_seal k n p = Some (c, t) -> length c = length p /\ length t = kAesCcmTagLen;
}.

(** [pub] is the uncompressed public key of the scalar [priv] on [c]. *)
Definition is_keypair {ossl : OpenSSL} (c : Curve) (priv pub : bytes) : Prop :=
  exists d, crypto.derive_public priv c = Some (d, pub).

(** [b] is an encoding, compressed or not, of the public key of [priv]. *)
Definition encodes_key {ossl : OpenSSL} (c : Curve) (priv b : bytes) : Prop :=
  exists x y, is_keypair c priv (x04 :: x ++ y) /\ length x = scalar_len c /\
    length y = scalar_len c /\ (b = x04 :: x ++ y \/ b = y_tag y :: x).

Module crypto_facts.
Section crypto_facts.
Context {ossl : OpenSSL} {ossl_ok : OpenSSLOk}.

Lemma length_hash_sha256 d : length (crypto.hash_sha256 d) <= kSha256Len.
Proof.
  unfold crypto.hash_sha256. destruct (EVP_Digest EVP_sha256 d) as [h|] eqn:E; simpl; [|lia].
  apply digest_len in E. lia.
Qed.

Lemma is_keypair_shape c priv pub :
  is_keypair c priv pub ->
  length priv = scalar_len c /\ length pub = pubkey_len c /\
  exists x y, pub = x04 :: x ++ y /\ length x = scalar_len c /\ length y = scalar_len c.
Proof.
  intros [d Hd]. split_and!.
  - unfold crypto.derive_public in Hd. inv_match Hd. by bool_props.
  - unfold crypto.derive_public in Hd. inv_match Hd. bool_props. by simplify_eq.
  - eauto using point_encoding.
Qed.

Lemma derive_public_is_keypair c priv d pub :
  crypto.derive_public priv c = Some (d, pub) -> is_keypair c priv pub.
Proof. by exists d. Qed.

(** The private key of a consistent pair imports. *)
Lemma from_private_keypair c priv pub :
  is_keypair c priv pub ->
  exists d k, crypto.derive_public priv c = Some (d, pub) /\
    crypto.evp_pkey_from_private priv c = Some k /\
    EVP_PKEY_fromdata_keypair (curve_group_name c) d pub = Some k.
Proof.
  intros [d Hd]. destruct (import_keypair _ _ _ _ Hd) as [k Hk].
  exists d, k. unfold crypto.evp_pkey_from_private. by rewrite Hd.
Qed.

Lemma compressed_tag_cases y : y_tag y = x02 \/ y_tag y = x03.
Proof. unfold y_tag. destruct (Z.testbit _ _); auto. Qed.

(** Importing the public key, uncompressed ... *)
Lemma from_public_uncompressed c priv pub :
  is_keypair c priv pub ->
  crypto.evp_pkey_from_public pub c = EVP_PKEY_fromdata_public (curve_group_name c) pub.
Proof.
  intros Hk. destruct (is_keypair_shape _ _ _ Hk) as (_ & Hl & x & y & -> & Hx & Hy).
  unfold crypto.evp_pkey_from_public. simpl nth.
  rewrite (proj2 (Nat.eqb_eq _ _) Hl). simpl negb.
  simpl. by rewrite andb_false_r.
Qed.

(** ... or compressed, gives the same key object. *)
Lemma from_public_compressed c priv x y :
  is_keypair c priv (x04 :: x ++ y) -> length x = scalar_len c -> length y = scalar_len c ->
  crypto.evp_pkey_from_public (y_tag y :: x) c =
  EVP_PKEY_fromdata_public (curve_group_name c) (x04 :: x ++ y).
Proof.
  intros [d Hd] Hx Hy. destruct (point_decompress _ _ _ _ _ Hd Hy) as (G & P & HG & HP & Ho).
  unfold crypto.evp_pkey_from_public. rewrite HG, HP, Ho. simpl nth.
  destruct (pubkey_len_scalars c) as (Hpl & Hcl & _).
  assert ((length (y_tag y :: x) =? compressed_len c) = true) as ->.
  { apply Nat.eqb_eq. simpl. lia. }
  assert ((length (x04 :: x ++ y) =? pubkey_len c) = true) as ->.
  { apply Nat.eqb_eq. simpl. rewrite length_app. lia. }
  destruct (compressed_tag_cases y) as [-> | ->]; simpl; by rewrite andb_false_r.
Qed.

Lemma from_public_keypair c priv pub :
  is_keypair c priv pub ->
  exists kp, crypto.evp_pkey_from_public pub c = Some kp /\
    EVP_PKEY_fromdata_public (curve_group_name c) pub = Some kp.
Proof.
  intros Hk. pose proof Hk as [d Hd]. destruct (import_public _ _ _ _ Hd) as [kp Hkp].
  exists kp. by rewrite (from_public_uncompressed _ _ _ Hk).
Qed.

(** A signature read back from DER has both components at the curve's width. *)
Lemma extract_rs_spec c d pub k dig g der g' :
  EVP_PKEY_fromdata_keypair (curve_group_name c) d pub = Some k ->
  EVP_PKEY_sign k dig g = (Some der, g') ->
  exists sig, crypto.extract_rs_from_der der (scalar_len c) = Some sig /\
    length (sb.to_vector (sig_r sig)) = scalar_len c /\
    length (sb.to_vector (sig_s sig)) = scalar_len c /\
    sb.wf (sig_r sig) /\ sb.wf (sig_s sig) /\
    crypto.build_der_from_rs (sb.to_vector (sig_r sig)) (sb.to_vector (sig_s sig)) = der.
Proof.
  intros Hk Hs. destruct (sign_fits _ _ _ _ _ _ _ _ Hk Hs) as (r & s & rb & sb' & Hd & Hi & Hr & Hrn & Hsb & Hsn).
  pose proof (scalar_len_le c) as Hle.
  unfold crypto.extract_rs_from_der. rewrite Hd, Hr, Hsb. simpl.
  pose proof (binpad_len _ _ _ Hr) as Hrl. pose proof (binpad_len _ _ _ Hsb) as Hsl.
  assert (Hfill : forall b, length b = scalar_len c -> exists w,
    sb.from_ptr kP384ScalarLen (b ++ zeros (kP384ScalarLen - scalar_len c)) (scalar_len c) = Some w /\
    sb.to_vector w = b /\ sb.wf w).
  { intros b Hb. assert (Hlen : scalar_len c <= length (b ++ zeros (kP384ScalarLen - scalar_len c)))
      by v2x_len.
    destruct (sb.from_ptr kP384ScalarLen _ (scalar_len c)) as [w|] eqn:E.
    - exists w. split; [done|]. split.
      + rewrite (sb.to_vector_from_ptr _ _ _ Hlen E), <- Hb. apply take_app_length.
      + apply (sb.from_ptr_wf _ _ _ Hlen E).
    - unfold sb.from_ptr in E. destruct (Nat.ltb_spec kP384ScalarLen (scalar_len c)); [lia|done]. }
  destruct (Hfill rb Hrl) as (wr & -> & Hwr & Hwr'). destruct (Hfill sb' Hsl) as (ws & -> & Hws & Hws').
  eexists. split; [done|]. simpl. rewrite Hwr, Hws. split_and!; try done.
  unfold crypto.build_der_from_rs.
  by rewrite Hrn, Hsn, Hi.
Qed.

(** Signing: a signature produced with the private key verifies with the public
    key, and is encoded at the width of the curve. *)
Lemma sign_then_verify c priv pub dig g sig g' :
  is_keypair c priv pub ->
  crypto.ecdsa_sign_digest_curve priv dig c g = (Some sig, g') ->
  crypto.ecdsa_verify_digest_curve pub dig sig c = true /\
  length (sb.to_vector (sig_r sig)) = scalar_len c /\
  length (sb.to_vector (sig_s sig)) = scalar_len c /\
  sb.wf (sig_r sig) /\ sb.wf (sig_s sig).
Proof.
  intros Hkp Hsign.
  destruct (from_private_keypair _ _ _ Hkp) as (d & k & Hd & Hk & Hfk).
  destruct (from_public_keypair _ _ _ Hkp) as (kp & Hpk & Hfp).
  unfold crypto.ecdsa_sign_digest_curve in Hsign. rewrite Hk in Hsign.
  destruct (length dig =? hash_len c) eqn:Hlen; simpl in Hsign; [|done].
  destruct (EVP_PKEY_sign k dig g) as [[der|] g1] eqn:Hs; [|done].
  destruct (extract_rs_spec _ _ _ _ _ _ _ _ Hfk Hs) as (sig' & Hx & Hr & Hs' & Hwr & Hws & Hder).
  rewrite Hx in Hsign. injection Hsign as <- <-. split_and!; try done.
  unfold crypto.ecdsa_verify_digest_curve. rewrite Hlen, Hpk, Hder. simpl.
  eauto using sign_verify.
Qed.

(** ECDH: both parties derive the same secret, also when one side holds the
    peer's key in compressed form. *)
Lemma ecdh_agree c priv1 pub1 priv2 pub2 :
  is_keypair c priv1 pub1 -> is_keypair c priv2 pub2 ->
  crypto.ecdh_derive_curve priv1 pub2 c = crypto.ecdh_derive_curve priv2 pub1 c.
Proof.
  intros H1 H2.
  destruct (from_private_keypair _ _ _ H1) as (d1 & k1 & Hd1 & Hk1 & Hf1).
  destruct (from_private_keypair _ _ _ H2) as (d2 & k2 & Hd2 & Hk2 & Hf2).
  destruct (from_public_keypair _ _ _ H1) as (p1 & Hp1 & Hq1).
  destruct (from_public_keypair _ _ _ H2) as (p2 & Hp2 & Hq2).
  unfold crypto.ecdh_derive_curve. rewrite Hk1, Hk2, Hp1, Hp2.
  exact (derive_comm _ _ _ _ _ _ _ _ _ _ _ Hd1 Hd2 Hf1 Hq1 Hf2 Hq2).
Qed.

Lemma ecdh_compressed c priv x y priv' :
  is_keypair c priv (x04 :: x ++ y) -> length x = scalar_len c -> length y = scalar_len c ->
  crypto.ecdh_derive_curve priv' (y_tag y :: x) c =
  crypto.ecdh_derive_curve priv' (x04 :: x ++ y) c.
Proof.
  intros H Hx Hy. unfold crypto.ecdh_derive_curve.
  by rewrite (from_public_compressed _ _ _ _ H Hx Hy), (from_public_uncompressed _ _ _ H).
Qed.

(** A peer key may be given in either encoding. *)
(** A signature verifies under either encoding of the key. *)
Lemma encodes_key_verify c priv b :
  encodes_key c priv b ->
  exists pub, is_keypair c priv pub /\
    forall dig sig, crypto.ecdsa_verify_digest_curve b dig sig c = crypto.ecdsa_verify_digest_curve pub dig sig c.
Proof.
  intros (x & y & Hkp & Hx & Hy & [-> | ->]); exists (x04 :: x ++ y); split; try done.
  intros dig sig. unfold crypto.ecdsa_verify_digest_curve.
  by rewrite (from_public_compressed _ _ _ _ Hkp Hx Hy), (from_public_uncompressed _ _ _ Hkp).
Qed.

Lemma encodes_key_ecdh c priv b :
  encodes_key c priv b ->
  exists pub, is_keypair c priv pub /\
    forall priv', crypto.ecdh_derive_curve priv' b c = crypto.ecdh_derive_curve priv' pub c.
Proof.
  intros (x & y & Hkp & Hx & Hy & [-> | ->]); exists (x04 :: x ++ y); split; try done.
  intros priv'. by eapply ecdh_compressed.
Qed.

Lemma is_keypair_encodes c priv pub : is_keypair c priv pub -> encodes_key c priv pub.
Proof.
  intros H. destruct (is_keypair_shape _ _ _ H) as (_ & _ & x & y & -> & Hx & Hy).
  exists x, y. auto.
Qed.

(** Key generation returns a consistent pair, at full width. *)
Lemma generate_keypair_ok c g kp g' :
  crypto.generate_keypair_curve c g = (Some kp, g') ->
  is_keypair c (sb.to_vector (kp_private_key kp)) (sb.to_vector (kp_public_key kp)) /\
  sb.wf (kp_private_key kp) /\ sb.wf (kp_public_key kp).
Proof.
  unfold crypto.generate_keypair_curve. intros H.
  destruct (EVP_PKEY_generate (curve_group_name c) g) as [[k|] g1] eqn:Hg; [|done].
  destruct (generate_consistent _ _ _ _ Hg) as (d & priv & pub & Hp & Hq & Hb & Hd).
  rewrite Hp, Hq, Hb in H. simpl in H.
  destruct (sb.from kP384PublicKeyLen pub) as [ps|] eqn:E1; [|done].
  destruct (sb.from kP384ScalarLen priv) as [ss|] eqn:E2; [|done]. simplify_eq/=.
  rewrite (sb.to_vector_from _ _ E1), (sb.to_vector_from _ _ E2).
  split_and!; [by exists d|by apply (sb.from_wf priv)|by apply (sb.from_wf pub)].
Qed.

End crypto_facts.
End crypto_facts.
