(* ===== verification/CurvePoint.v ===== *)
(** src/internal/curve_point.{hpp,cpp}: conversions between ASN.1 curve points and
    SEC1 byte vectors, and extraction of (r, s) from a Signature CHOICE. *)
From S2P Require Import Prelude Sizes StaticBytes Asn OpenSSL CryptoEc.

Module point.

(** ** P-256 *)

Definition to_sec1 (pt : option EccP256CurvePoint) : bytes :=
  match pt with
  | None => []
  | Some (P256_uncompressedP256 x y) =>
      let x := octet.bytes x in
      let y := octet.bytes y in
      if negb (length x =? kP256ScalarLen) || negb (length y =? kP256ScalarLen) then []
      else [x04] ++ x ++ y
  | Some (P256_x_only x) => octet.bytes x
  | Some (P256_compressed_y_0 x) =>
      let x := octet.bytes x in
      if negb (length x =? kP256ScalarLen) then [] else [x02] ++ x
  | Some (P256_compressed_y_1 x) =>
      let x := octet.bytes x in
      if negb (length x =? kP256ScalarLen) then [] else [x03] ++ x
  | Some _ => []
  end.

Definition from_sec1 (pubkey : bytes) : option EccP256CurvePoint :=
  if negb (length pubkey =? kP256PublicKeyLen) then None else
  let y_odd := negb (Z.land (byte.unsigned (nth 64 pubkey x00)) 1 =? 0)%Z in
  Some (if y_odd
        then P256_compressed_y_1 (octet.set (drop 1 pubkey) kP256ScalarLen)
        else P256_compressed_y_0 (octet.set (drop 1 pubkey) kP256ScalarLen)).

Definition from_sec1_uncompressed (pubkey : bytes) : option EccP256CurvePoint :=
  if negb (length pubkey =? kP256PublicKeyLen) || negb (bool_decide (nth 0 pubkey x00 = x04))
  then None
  else Some (P256_uncompressedP256 (octet.set (drop 1 pubkey) kP256ScalarLen)
               (octet.set (drop (1 + kP256ScalarLen) pubkey) kP256ScalarLen)).

Definition sig_r (pt : option EccP256CurvePoint) : bytes :=
  match pt with
  | None => []
  | Some (P256_x_only x) => octet.bytes x
  | Some (P256_compressed_y_0 x) => octet.bytes x
  | Some (P256_compressed_y_1 x) => octet.bytes x
  | Some (P256_uncompressedP256 x _) => octet.bytes x
  | Some _ => []
  end.

(** ** P-384 *)

Definition to_sec1_384 (pt : option EccP384CurvePoint) : bytes :=
  match pt with
  | None => []
  | Some (P384_uncompressedP384 x y) =>
      let x := octet.bytes x in
      let y := octet.bytes y in
      if negb (length x =? kP384ScalarLen) || negb (length y =? kP384ScalarLen) then []
      else [x04] ++ x ++ y
  | Some (P384_x_only x) => octet.bytes x
  | Some (P384_compressed_y_0 x) =>
      let x := octet.bytes x in
      if negb (length x =? kP384ScalarLen) then [] else [x02] ++ x
  | Some (P384_compressed_y_1 x) =>
      let x := octet.bytes x in
      if negb (length x =? kP384ScalarLen) then [] else [x03] ++ x
  | Some _ => []
  end.

Definition from_sec1_384 (pubkey : bytes) : option EccP384CurvePoint :=
  if negb (length pubkey =? kP384PublicKeyLen) then None else
  let y_odd := negb (Z.land (byte.unsigned (nth 96 pubkey x00)) 1 =? 0)%Z in
  Some (if y_odd
        then P384_compressed_y_1 (octet.set (drop 1 pubkey) kP384ScalarLen)
        else P384_compressed_y_0 (octet.set (drop 1 pubkey) kP384ScalarLen)).

Definition sig_r_384 (pt : option EccP384CurvePoint) : bytes :=
  match pt with
  | None => []
  | Some (P384_x_only x) => octet.bytes x
  | Some (P384_compressed_y_0 x) => octet.bytes x
  | Some (P384_compressed_y_1 x) => octet.bytes x
  | Some (P384_uncompressedP384 x _) => octet.bytes x
  | Some _ => []
  end.

(** ** Signature extraction

    [out] is an in/out parameter: a call that returns false may already have
    written [s], or [s], [r] and the curve. *)

Record SigRS := MkSigRS {
  rs_r : bytes;
  rs_s : bytes;
  rs_curve : Curve;
}.

Definition SigRS_default : SigRS := MkSigRS [] [] NistP256.

Definition extract_p256 (ecdsa : option EcdsaP256Signature) (curve : Curve) (out : SigRS)
    : bool * SigRS :=
  match ecdsa with
  | Some (MkEcdsaP256Signature (Some rSig) sSig) =>
      let out := MkSigRS (rs_r out) (octet.bytes sSig) (rs_curve out) in
      if negb (length (rs_s out) =? kP256ScalarLen) then (false, out) else
      let out := MkSigRS (sig_r (Some rSig)) (rs_s out) curve in
      (length (rs_r out) =? kP256ScalarLen, out)
  | _ => (false, out)
  end.

Definition extract_p384 (ecdsa : option EcdsaP384Signature) (curve : Curve) (out : SigRS)
    : bool * SigRS :=
  match ecdsa with
  | Some (MkEcdsaP384Signature (Some rSig) sSig) =>
      let out := MkSigRS (rs_r out) (octet.bytes sSig) (rs_curve out) in
      if negb (length (rs_s out) =? kP384ScalarLen) then (false, out) else
      let out := MkSigRS (sig_r_384 (Some rSig)) (rs_s out) curve in
      (length (rs_r out) =? kP384ScalarLen, out)
  | _ => (false, out)
  end.

Definition extract_sig (sig : option Signature_t) (out : SigRS) : bool * SigRS :=
  match sig with
  | None => (false, out)
  | Some (ecdsaNistP256Signature ecdsa) => extract_p256 ecdsa NistP256 out
  | Some (ecdsaBrainpoolP256r1Signature ecdsa) => extract_p256 ecdsa BrainpoolP256r1 out
  | Some (ecdsaBrainpoolP384r1Signature ecdsa) => extract_p384 ecdsa BrainpoolP384r1 out
  | Some (ecdsaNistP384Signature ecdsa) => extract_p384 ecdsa NistP384 out
  | Some _ => (false, out)
  end.

(** ** Lemmas *)

Lemma land1_testbit z : negb (Z.land z 1 =? 0)%Z = Z.testbit z 0.
Proof.
  change 1%Z with (Z.ones 1). rewrite Z.land_ones by lia.
  change (2 ^ 1)%Z with 2%Z. rewrite Z.bit0_odd, Zmod_odd. by destruct (Z.odd z).
Qed.

Lemma nth_last_app t (x y : bytes) n :
  length x + length y = n -> y <> [] -> nth n (t :: x ++ y) x00 = List.last y x00.
Proof.
  intros Hn Hy. destruct (exists_last Hy) as (y' & b & ->).
  rewrite List.last_last. rewrite length_app in Hn. simpl in Hn.
  replace n with (S (length (x ++ y'))) by (rewrite length_app; lia).
  simpl. rewrite (assoc_L (++)), app_nth2 by lia. by rewrite Nat.sub_diag.
Qed.

(** Compressing an uncompressed key keeps X and the parity of Y. *)
Lemma to_sec1_from_sec1 t x y :
  length x = kP256ScalarLen -> length y = kP256ScalarLen ->
  exists p, from_sec1 (t :: x ++ y) = Some p /\ to_sec1 (Some p) = y_tag y :: x.
Proof.
  intros Hx Hy. assert (Hne : y <> []) by (by destruct y).
  unfold from_sec1, octet.set.
  assert ((length (t :: x ++ y) =? kP256PublicKeyLen) = true) as ->.
  { apply Nat.eqb_eq. simpl. rewrite length_app, Hx, Hy. done. }
  rewrite (nth_last_app t x y 64) by (rewrite ?Hx, ?Hy; done).
  rewrite land1_testbit. simpl drop. rewrite drop_0. eexists. split; [done|].
  replace (take kP256ScalarLen (x ++ y)) with x by (by rewrite <- Hx, take_app_length).
  unfold y_tag. destruct (Z.testbit _ _); unfold to_sec1, to_sec1_384, octet.bytes;
    by rewrite Hx, Nat.eqb_refl.
Qed.

Lemma to_sec1_from_sec1_384 t x y :
  length x = kP384ScalarLen -> length y = kP384ScalarLen ->
  exists p, from_sec1_384 (t :: x ++ y) = Some p /\ to_sec1_384 (Some p) = y_tag y :: x.
Proof.
  intros Hx Hy. assert (Hne : y <> []) by (by destruct y).
  unfold from_sec1_384, octet.set.
  assert ((length (t :: x ++ y) =? kP384PublicKeyLen) = true) as ->.
  { apply Nat.eqb_eq. simpl. rewrite length_app, Hx, Hy. done. }
  rewrite (nth_last_app t x y 96) by (rewrite ?Hx, ?Hy; done).
  rewrite land1_testbit. simpl drop. rewrite drop_0. eexists. split; [done|].
  replace (take kP384ScalarLen (x ++ y)) with x by (by rewrite <- Hx, take_app_length).
  unfold y_tag. destruct (Z.testbit _ _); unfold to_sec1, to_sec1_384, octet.bytes;
    by rewrite Hx, Nat.eqb_refl.
Qed.

Lemma to_sec1_from_sec1_uncompressed pk p :
  from_sec1_uncompressed pk = Some p -> to_sec1 (Some p) = pk.
Proof.
  unfold from_sec1_uncompressed, octet.set. intros H.
  destruct (length pk =? kP256PublicKeyLen) eqn:Hl; [|done].
  destruct pk as [|t pk]; [done|]. cbn [nth negb orb] in H.
  destruct (bool_decide_reflect (t = x04)) as [->|]; [|done]. injection H as <-.
  apply Nat.eqb_eq in Hl. cbn [length] in Hl. unfold kP256PublicKeyLen in Hl.
  unfold to_sec1, octet.bytes, kP256ScalarLen. cbn [drop Nat.add]. rewrite drop_0.
  rewrite !length_take, length_drop.
  replace (length pk) with 64 by lia. cbn -[take drop].
  rewrite (take_ge (drop 32 pk)) by (rewrite length_drop; lia).
  by rewrite take_drop.
Qed.

(** A successful extraction has both components at the width of the curve the
    CHOICE names. *)
Lemma extract_sig_len sig out rs :
  extract_sig sig out = (true, rs) ->
  length (rs_r rs) = scalar_len (rs_curve rs) /\ length (rs_s rs) = scalar_len (rs_curve rs).
Proof.
  destruct sig as [[]|]; simpl; try done;
    unfold extract_p256, extract_p384; intros H; inv_match H;
    injection H as Hr <-; bool_props; simpl; done.
Qed.

(** ** Properties *)

(** The three SEC1 encodings the client accepts as public keys are the ones
    [to_sec1] produces, except for x-only points, whose bytes carry no tag and are
    rejected on import. *)
Lemma x_only_rejected {ossl : OpenSSL} x c :
  length x = scalar_len c -> crypto.evp_pkey_from_public x c = None.
Proof.
  intros Hx. destruct (pubkey_len_scalars c) as (Hp & Hc & _). pose proof (scalar_len_pos c).
  unfold crypto.evp_pkey_from_public.
  rewrite !(proj2 (Nat.eqb_neq _ _)) by lia. done.
Qed.

End point.
