(* ===== verification/Ecies.v ===== *)
(** src/ecies.cpp: KDF2, AES-128-CCM and the ECIES key encapsulation of
    IEEE 1609.2 5.3.5. *)
From S2P Require Import Prelude Sizes StaticBytes OpenSSL CryptoEc.

Record AesCcmResult := MkAesCcmResult {
  ccm_ciphertext : bytes;
  ccm_tag : bytes;
}.

Record EciesEncryptResult := MkEciesEncryptResult {
  ephemeral_pubkey : bytes;
  encrypted_key : bytes;
  tag_kdf : bytes;
  nonce_ccm : bytes;
  ecies_ciphertext : bytes;
  tag_ccm : bytes;
  aes_key : bytes;
}.

Module ecies.
Section ecies.
Context {ossl : OpenSSL}.

(** The four counter bytes, big endian. *)
Definition ctr_bytes (counter : Z) : bytes :=
  [byte.of_Z (Z.land (Z.shiftr counter 24) 255);
   byte.of_Z (Z.land (Z.shiftr counter 16) 255);
   byte.of_Z (Z.land (Z.shiftr counter 8) 255);
   byte.of_Z (Z.land counter 255)].

(** One pass of the digest context; [hash_len] stays 0 when it fails. *)
Definition kdf2_block (shared_secret p1 : bytes) (counter : Z) : bytes :=
  default [] (EVP_Digest EVP_sha256 (shared_secret ++ ctr_bytes counter ++ p1)).

(** The while loop.  [None] is "out of fuel": the digest keeps failing, so no
    iteration adds a byte and the C++ loop does not terminate. *)
Fixpoint kdf2_loop (fuel : nat) (shared_secret p1 : bytes) (out_len : nat)
    (result : bytes) (counter : Z) : option bytes :=
  if length result <? out_len then
    match fuel with
    | 0 => None
    | S fuel =>
        let hash := kdf2_block shared_secret p1 counter in
        let to_copy := Nat.min (length hash) (out_len - length result) in
        kdf2_loop fuel shared_secret p1 out_len (result ++ take to_copy hash)
          (u32 (counter + 1))
    end
  else Some result.

(** Every successful digest adds at least one byte, so [out_len] iterations are
    enough. *)
Definition kdf2_sha256 (shared_secret p1 : bytes) (out_len : nat) : option bytes :=
  kdf2_loop out_len shared_secret p1 out_len [] 1.

(** ** AES-128-CCM *)

Definition aes_128_ccm_encrypt (key nonce plaintext : bytes) : option AesCcmResult :=
  if negb (length key =? kAesKeyLen) || negb (length nonce =? kAesCcmNonceLen) then None else
  match aes_128_ccm_seal key nonce plaintext with
  | None => None
  | Some (ciphertext, tag) => Some (MkAesCcmResult ciphertext tag)
  end.

Definition aes_128_ccm_decrypt (key nonce ciphertext tag : bytes) : option bytes :=
  if negb (length key =? kAesKeyLen) || negb (length nonce =? kAesCcmNonceLen)
     || negb (length tag =? kAesCcmTagLen) then None
  else aes_128_ccm_open key nonce ciphertext tag.

(** ** ECIES

    [RAND_bytes] and [HMAC] write into zeroed buffers and their return values are
    ignored, so a failure leaves zeros. *)

Definition ecies_encrypt_curve (recipient_public_key plaintext p1 : bytes) (curve : Curve)
    (g : rng) : option EciesEncryptResult * rng :=
  match crypto.generate_keypair_curve curve g with
  | (None, g) => (None, g)
  | (Some eph, g) =>
      match crypto.ecdh_derive_curve (sb.to_vector (kp_private_key eph))
              recipient_public_key curve with
      | None => (None, g)
      | Some ss =>
          match kdf2_sha256 ss p1 (kAesKeyLen + kP256ScalarLen) with
          | None => (None, g)
          | Some kdf_out =>
              let k1 := take kAesKeyLen kdf_out in
              let k2 := drop kAesKeyLen kdf_out in
              let '(k_rand, g) := RAND_bytes kAesKeyLen g in
              let k_aes := default (zeros kAesKeyLen) k_rand in
              let c_encrypted := xor_bytes k1 k_aes in
              let hmac_full := default (zeros kSha256Len) (HMAC_sha256 k2 c_encrypted) in
              let tag_kdf := take kAesKeyLen hmac_full in
              let '(n_rand, g) := RAND_bytes kAesCcmNonceLen g in
              let nonce := default (zeros kAesCcmNonceLen) n_rand in
              match aes_128_ccm_encrypt k_aes nonce plaintext with
              | None => (None, g)
              | Some ccm =>
                  (Some (MkEciesEncryptResult (sb.to_vector (kp_public_key eph)) c_encrypted
                           tag_kdf nonce (ccm_ciphertext ccm) (ccm_tag ccm) k_aes), g)
              end
          end
      end
  end.

Definition ecies_encrypt (recipient_public_key plaintext p1 : bytes) (g : rng)
    : option EciesEncryptResult * rng :=
  ecies_encrypt_curve recipient_public_key plaintext p1 NistP256 g.

Definition ecies_decrypt_curve (recipient_private_key : bytes) (enc : EciesEncryptResult)
    (p1 : bytes) (curve : Curve) : option bytes :=
  match crypto.ecdh_derive_curve recipient_private_key (ephemeral_pubkey enc) curve with
  | None => None
  | Some ss =>
      match kdf2_sha256 ss p1 (kAesKeyLen + kP256ScalarLen) with
      | None => None
      | Some kdf_out =>
          let k1 := take kAesKeyLen kdf_out in
          let k2 := drop kAesKeyLen kdf_out in
          let hmac_full := default (zeros kSha256Len) (HMAC_sha256 k2 (encrypted_key enc)) in
          if negb (length (tag_kdf enc) =? kAesKeyLen)
             || negb (bytes_eqb (take kAesKeyLen hmac_full) (take kAesKeyLen (tag_kdf enc)))
          then None
          else if negb (length (encrypted_key enc) =? kAesKeyLen) then None
          else
            let k_aes := xor_bytes k1 (encrypted_key enc) in
            aes_128_ccm_decrypt k_aes (nonce_ccm enc) (ecies_ciphertext enc) (tag_ccm enc)
      end
  end.

Definition ecies_decrypt (recipient_private_key : bytes) (enc : EciesEncryptResult) (p1 : bytes)
    : option bytes :=
  ecies_decrypt_curve recipient_private_key enc p1 NistP256.

(** ** KDF2 against its specification *)

(** The blocks H(ss || 1 || p1), H(ss || 2 || p1), ... of ANSI X9.63. *)
Definition kdf2_stream (shared_secret p1 : bytes) (from n : nat) : bytes :=
  concat (map (fun i => kdf2_block shared_secret p1 (Z.of_nat i)) (seq from n)).

Lemma kdf2_loop_length fuel ss p1 n r c out :
  length r <= n -> kdf2_loop fuel ss p1 n r c = Some out -> length out = n.
Proof.
  revert r c. induction fuel as [|fuel IH]; intros r c Hr; simpl;
    destruct (Nat.ltb_spec (length r) n) as [Hl|Hl]; intros H; simplify_eq; try lia.
  apply IH in H; [done|]. rewrite length_app, length_take. lia.
Qed.

Lemma kdf2_length ss p1 n out : kdf2_sha256 ss p1 n = Some out -> length out = n.
Proof. apply kdf2_loop_length. simpl. lia. Qed.

(** SHA-256 does not fail. *)
Definition digest_total : Prop := forall d, is_Some (EVP_Digest EVP_sha256 d).

Context {ossl_ok : OpenSSLOk}.

Lemma kdf2_block_length ss p1 c : digest_total -> length (kdf2_block ss p1 c) = kSha256Len.
Proof.
  intros Ht. unfold kdf2_block. destruct (Ht (ss ++ ctr_bytes c ++ p1)) as [h Hh].
  rewrite Hh. simpl. by apply digest_len in Hh.
Qed.

Lemma length_kdf2_stream ss p1 i n :
  digest_total -> length (kdf2_stream ss p1 i n) = n * kSha256Len.
Proof.
  intros Ht. unfold kdf2_stream. revert i.
  induction n as [|n IH]; intros i; cbn [seq map concat]; [done|].
  rewrite length_app, kdf2_block_length, IH by done. lia.
Qed.

Lemma kdf2_stream_snoc ss p1 i n :
  kdf2_stream ss p1 i (S n) = kdf2_stream ss p1 i n ++ kdf2_block ss p1 (Z.of_nat (i + n)).
Proof.
  unfold kdf2_stream. rewrite seq_S, map_app, concat_app. simpl. by rewrite app_nil_r.
Qed.

(** The invariant: after [k] iterations [result] is the first [out_len] bytes of
    the first [k] blocks, the counter is [k + 1] and the loop finishes within the
    fuel. *)
Lemma kdf2_loop_spec ss p1 n fuel k :
  digest_total -> (Z.of_nat (k + fuel) < 2 ^ 32 - 1)%Z -> n <= (k + fuel) * kSha256Len ->
  kdf2_loop fuel ss p1 n (take n (kdf2_stream ss p1 1 k)) (Z.of_nat (S k))
  = Some (take n (kdf2_stream ss p1 1 (k + fuel))).
Proof.
  intros Ht. revert k. induction fuel as [|fuel IH]; intros k Hb Hn; simpl;
    rewrite length_take, length_kdf2_stream by done.
  - rewrite Nat.add_0_r in *. destruct (Nat.ltb_spec (Nat.min n (k * kSha256Len)) n); [lia|done].
  - destruct (Nat.ltb_spec (Nat.min n (k * kSha256Len)) n) as [Hlt|Hge].
    + rewrite kdf2_block_length by done.
      assert (take n (kdf2_stream ss p1 1 k) ++
              take (Nat.min kSha256Len (n - Nat.min n (k * kSha256Len)))
                (kdf2_block ss p1 (Z.of_nat (S k)))
              = take n (kdf2_stream ss p1 1 (S k))) as ->.
      { rewrite kdf2_stream_snoc.
        rewrite (take_ge (kdf2_stream ss p1 1 k)) by (rewrite length_kdf2_stream by done; lia).
        rewrite take_app_ge by (rewrite length_kdf2_stream by done; lia).
        f_equal. rewrite length_kdf2_stream by done.
        change (1 + k) with (S k). set (b := kdf2_block _ _ _).
        assert (length b = kSha256Len) by (by apply kdf2_block_length).
        replace (n - Nat.min n (k * kSha256Len)) with (n - k * kSha256Len) by lia.
        destruct (decide (n - k * kSha256Len <= kSha256Len)).
        - f_equal. lia.
        - rewrite !take_ge by lia. done. }
      rewrite u32_small by (unfold in_u32; lia).
      replace (Z.of_nat (S k) + 1)%Z with (Z.of_nat (S (S k))) by lia.
      replace (k + S fuel) with (S k + fuel) by lia. apply IH; lia.
    + f_equal. replace (k + S fuel) with (k + S fuel) by lia.
      unfold kdf2_stream. rewrite seq_app, map_app, concat_app.
      fold (kdf2_stream ss p1 1 k). rewrite take_app_le; [done|].
      rewrite length_kdf2_stream by done. lia.
Qed.

(** KDF2 terminates and returns the first [out_len] bytes of the block stream. *)
Lemma kdf2_spec ss p1 n :
  digest_total -> (Z.of_nat n < 2 ^ 32 - 1)%Z ->
  kdf2_sha256 ss p1 n = Some (take n (kdf2_stream ss p1 1 n)).
Proof.
  intros Ht Hn. unfold kdf2_sha256.
  pose proof (kdf2_loop_spec ss p1 n n 0 Ht) as H.
  change (kdf2_stream ss p1 1 0) with (@nil byte) in H. rewrite take_nil in H.
  apply H; [done|]. unfold kSha256Len. lia.
Qed.

(** With a digest that fails the loop does not end, however often it goes round. *)
Lemma kdf2_never_ends ss p1 n fuel c :
  (forall d, EVP_Digest EVP_sha256 d = None) -> 0 < n -> kdf2_loop fuel ss p1 n [] c = None.
Proof.
  intros Hd Hn. revert c. induction fuel as [|fuel IH]; intros c; cbn [kdf2_loop length];
    rewrite (proj2 (Nat.ltb_lt 0 n)) by done; [done|].
  unfold kdf2_block. rewrite Hd. apply IH.
Qed.

(** The counter bytes are the big-endian counter, so distinct blocks hash distinct
    inputs. *)
Lemma ctr_bytes_inj a b : in_u32 a -> in_u32 b -> ctr_bytes a = ctr_bytes b -> a = b.
Proof.
  intros Ha Hb H. unfold ctr_bytes in H. injection H as H3 H2 H1 H0.
  assert (Hbyte : forall x, byte.unsigned (byte.of_Z (Z.land x 255)) = (x mod 256)%Z).
  { intros x. rewrite byte.unsigned_of_Z. change 255%Z with (Z.ones 8).
    rewrite Z.land_ones by lia. apply Zmod_mod. }
  apply (f_equal byte.unsigned) in H3, H2, H1, H0. rewrite !Hbyte in *.
  rewrite !Z.shiftr_div_pow2 in * by lia.
  unfold in_u32 in *. Z.to_euclidean_division_equations. lia.
Qed.

(** ** ECIES round trip *)

Lemma decrypt_ephemeral priv enc eph' p1 c :
  crypto.ecdh_derive_curve priv (ephemeral_pubkey enc) c = crypto.ecdh_derive_curve priv eph' c ->
  ecies_decrypt_curve priv enc p1 c =
  ecies_decrypt_curve priv
    (MkEciesEncryptResult eph' (encrypted_key enc) (tag_kdf enc) (nonce_ccm enc)
       (ecies_ciphertext enc) (tag_ccm enc) (aes_key enc)) p1 c.
Proof. intros H. unfold ecies_decrypt_curve. simpl. by rewrite H. Qed.

(** The shape of everything [ecies_encrypt] returns. *)
Lemma encrypt_shape pub pt p1 c g enc g' :
  ecies_encrypt_curve pub pt p1 c g = (Some enc, g') ->
  length (encrypted_key enc) = kAesKeyLen /\ length (tag_kdf enc) = kAesKeyLen /\
  length (nonce_ccm enc) = kAesCcmNonceLen /\ length (ecies_ciphertext enc) = length pt /\
  length (tag_ccm enc) = kAesCcmTagLen /\ length (aes_key enc) = kAesKeyLen /\
  exists eph_priv, is_keypair c eph_priv (ephemeral_pubkey enc).
Proof.
  unfold ecies_encrypt_curve. intros H.
  destruct (crypto.generate_keypair_curve c g) as [[eph|] g1] eqn:Hg; [|done].
  destruct (crypto.ecdh_derive_curve _ _ _) as [ss|]; [|done].
  destruct (kdf2_sha256 ss p1 _) as [ko|] eqn:Hkdf; [|done].
  apply kdf2_length in Hkdf.
  destruct (RAND_bytes kAesKeyLen g1) as [kr g2] eqn:Hr1.
  destruct (RAND_bytes kAesCcmNonceLen g2) as [nr g3] eqn:Hr2.
  assert (Hk : length (default (zeros kAesKeyLen) kr) = kAesKeyLen).
  { destruct kr; simpl; [by apply rand_len in Hr1|done]. }
  unfold aes_128_ccm_encrypt in H.
  destruct (negb _ || negb _) eqn:Hlen in H; [done|]. bool_props.
  destruct (aes_128_ccm_seal _ _ _) as [[ct tg]|] eqn:Hs; [|done].
  apply ccm_seal_len in Hs as [Hs1 Hs2]. injection H as <- <-. simpl.
  apply crypto_facts.generate_keypair_ok in Hg as (Hkp & _).
  split_and!; try done; [| |by eauto].
  - rewrite length_xor_bytes, length_take, Hkdf, Hk. done.
  - rewrite length_take. destruct (HMAC_sha256 _ _) as [h|] eqn:Hh; simpl.
    + apply hmac_len in Hh. rewrite Hh. done.
    + done.
Qed.

(** Decrypting with the recipient's private key recovers the plaintext. *)
Lemma decrypt_encrypt c priv pub pt p1 g enc g' :
  is_keypair c priv pub ->
  ecies_encrypt_curve pub pt p1 c g = (Some enc, g') ->
  ecies_decrypt_curve priv enc p1 c = Some pt.
Proof.
  intros Hkp H. pose proof (encrypt_shape _ _ _ _ _ _ _ H) as (Hek & Htk & Hno & _ & Htc & Hak & _).
  unfold ecies_encrypt_curve in H.
  destruct (crypto.generate_keypair_curve c g) as [[eph|] g1] eqn:Hg; [|done].
  apply crypto_facts.generate_keypair_ok in Hg as (Heph & _).
  rewrite <- (crypto_facts.ecdh_agree c _ _ _ _ Hkp Heph) in H.
  destruct (crypto.ecdh_derive_curve priv _ c) as [ss|] eqn:Hss; [|done].
  destruct (kdf2_sha256 ss p1 _) as [ko|] eqn:Hkdf; [|done].
  pose proof (kdf2_length _ _ _ _ Hkdf) as Hkl.
  destruct (RAND_bytes kAesKeyLen g1) as [kr g2].
  destruct (RAND_bytes kAesCcmNonceLen g2) as [nr g3].
  unfold aes_128_ccm_encrypt in H.
  destruct (negb _ || negb _) eqn:Hlen in H; [done|].
  destruct (aes_128_ccm_seal _ _ _) as [[ct tg]|] eqn:Hs; [|done].
  injection H as <- <-. simpl in *.
  unfold ecies_decrypt_curve. simpl. rewrite Hss, Hkdf, Htk, Hek. cbn -[take drop xor_bytes].
  rewrite (take_ge (take _ _)) by lia. rewrite bytes_eqb_refl. cbn -[take drop xor_bytes].
  rewrite xor_bytes_cancel by (rewrite Hak, length_take, Hkl; done).
  unfold aes_128_ccm_decrypt. rewrite Hak, Hno, Htc. cbn -[take drop].
  by apply ccm_open_seal.
Qed.

(** The recipient key may be compressed. *)
Lemma encrypt_encodes c priv b pt p1 g :
  encodes_key c priv b ->
  exists pub, is_keypair c priv pub /\
    ecies_encrypt_curve b pt p1 c g = ecies_encrypt_curve pub pt p1 c g.
Proof.
  intros (pub & Hkp & He)%crypto_facts.encodes_key_ecdh. exists pub. split; [done|].
  unfold ecies_encrypt_curve. destruct (crypto.generate_keypair_curve c g) as [[eph|] g1]; [|done].
  by rewrite He.
Qed.

(** Nothing is decrypted before the key-encapsulation tag has been checked. *)
Lemma decrypt_authentic priv enc p1 c pt :
  ecies_decrypt_curve priv enc p1 c = Some pt ->
  exists ss ko, crypto.ecdh_derive_curve priv (ephemeral_pubkey enc) c = Some ss /\
    kdf2_sha256 ss p1 (kAesKeyLen + kP256ScalarLen) = Some ko /\
    length (tag_kdf enc) = kAesKeyLen /\
    tag_kdf enc = take kAesKeyLen
      (default (zeros kSha256Len) (HMAC_sha256 (drop kAesKeyLen ko) (encrypted_key enc))) /\
    length (encrypted_key enc) = kAesKeyLen /\
    aes_128_ccm_decrypt (xor_bytes (take kAesKeyLen ko) (encrypted_key enc))
      (nonce_ccm enc) (ecies_ciphertext enc) (tag_ccm enc) = Some pt.
Proof.
  unfold ecies_decrypt_curve. intros H.
  destruct (crypto.ecdh_derive_curve _ _ _) as [ss|] eqn:Hss; [|done].
  destruct (kdf2_sha256 ss p1 _) as [ko|] eqn:Hkdf; [|done].
  destruct (negb _ || negb _) eqn:Ht; [done|].
  destruct (negb (length (encrypted_key enc) =? kAesKeyLen)) eqn:He; [done|]. bool_props.
  exists ss, ko. split_and!; try done.
  match goal with Hb : take _ _ = take _ (tag_kdf enc) |- _ =>
    rewrite Hb; symmetry; apply take_ge; lia end.
Qed.

End ecies.
End ecies.
