(* ===== verification/Concrete.v ===== *)
(** Executable instances of the external interfaces, for evaluating the model.

    [TableCodec] is a codec given by a finite table of structures and wire images.
    [ToyOpenSSL] is an arithmetic stand-in for OpenSSL: it is not secure, but it
    satisfies every law of [OpenSSLOk], so the theorems that assume those laws can
    be applied to concrete inputs. *)
From S2P Require Import Prelude Sizes StaticBytes Asn OpenSSL CryptoEc.
Local Open Scope Z_scope.

(** ** Codecs from tables *)

Section table.
Context {T : Type} `{!EqDecision T}.

Fixpoint table_encode (tbl : list (T * bytes)) (x : T) : option bytes :=
  match tbl with
  | [] => None
  | (y, b) :: tbl => if decide (x = y) then Some b else table_encode tbl x
  end.

Fixpoint table_decode (tbl : list (T * bytes)) (b : bytes) : option T :=
  match tbl with
  | [] => None
  | (y, c) :: tbl => if decide (b = c) then Some y else table_decode tbl b
  end.

Definition TableCodec (tbl : list (T * bytes)) : Codec T :=
  {| asn_encode := table_encode tbl;
     asn_decode_canonical := table_decode tbl;
     asn_decode_basic := table_decode tbl |}.

(** Wire images are distinct and not empty. *)
Definition table_ok (tbl : list (T * bytes)) : bool :=
  bool_decide (NoDup tbl.*2) && forallb (fun b => negb (empty b)) tbl.*2.

Lemma table_encode_In tbl x b : table_encode tbl x = Some b -> (x, b) ∈ tbl.
Proof.
  induction tbl as [|[y c] tbl IH]; simpl; [done|].
  case_decide; intros; simplify_eq; [by left|right; auto].
Qed.

Lemma table_decode_encode tbl x b :
  NoDup tbl.*2 -> table_encode tbl x = Some b -> table_decode tbl b = Some x.
Proof.
  induction tbl as [|[y c] tbl IH]; simpl; [done|].
  intros Hd He. inversion Hd as [|? ? Hni Hnd]; subst.
  destruct (decide (x = y)) as [->|Hne]; simplify_eq.
  - by rewrite decide_True.
  - rewrite decide_False; [by apply IH|]. intros ->. apply Hni.
    apply table_encode_In in He. by apply (list_elem_of_fmap_2 snd) in He.
Qed.

Lemma TableCodec_ok tbl : table_ok tbl = true -> CodecOk (Codec0 := TableCodec tbl) T.
Proof.
  unfold table_ok. intros [Hnd Hne]%andb_true_iff. apply bool_decide_eq_true in Hnd.
  split; simpl.
  - intros x b. by apply table_decode_encode.
  - intros x b He%table_encode_In%(list_elem_of_fmap_2 snd) ->. simpl in He.
    rewrite forallb_forall in Hne. by apply list_elem_of_In, Hne in He.
Qed.

End table.

(** ** Big-endian naturals *)

Definition be_val (b : bytes) : Z := foldl (fun a x => a * 256 + byte.unsigned x) 0 b.

Fixpoint be_bytes (l : nat) (n : Z) : bytes :=
  match l with
  | O => []
  | S l => be_bytes l (n / 256) ++ [byte.of_Z n]
  end.

Lemma length_be_bytes l n : length (be_bytes l n) = l.
Proof. revert n. induction l; intros n; simpl; [done|]. rewrite length_app, IHl. simpl. lia. Qed.

Lemma be_val_snoc b x : be_val (b ++ [x]) = be_val b * 256 + byte.unsigned x.
Proof. unfold be_val. by rewrite foldl_snoc. Qed.

Lemma be_val_bytes l n : 0 <= n < 256 ^ Z.of_nat l -> be_val (be_bytes l n) = n.
Proof.
  revert n. induction l as [|l IH]; intros n Hn.
  - change (256 ^ Z.of_nat 0) with 1 in Hn. simpl. unfold be_val. simpl. lia.
  - cbn [be_bytes]. rewrite be_val_snoc, byte.unsigned_of_Z, IH.
    + pose proof (Z.div_mod n 256). lia.
    + rewrite Nat2Z.inj_succ, Z.pow_succ_r in Hn by lia.
      split; [apply Z.div_pos; lia|]. apply Z.div_lt_upper_bound; lia.
Qed.

Lemma be_val_range b : 0 <= be_val b < 256 ^ Z.of_nat (length b).
Proof.
  induction b as [|x b IH] using rev_ind; [by unfold be_val|].
  rewrite be_val_snoc, length_app. simpl length. rewrite Nat.add_1_r, Nat2Z.inj_succ, Z.pow_succ_r by lia.
  pose proof (byte.unsigned_range x). lia.
Qed.

Lemma be_bytes_val b : be_bytes (length b) (be_val b) = b.
Proof.
  induction b as [|x b IH] using rev_ind; [done|].
  rewrite length_app. simpl length. rewrite Nat.add_1_r. cbn [be_bytes].
  rewrite be_val_snoc. pose proof (byte.unsigned_range x).
  rewrite Z.div_add_l, (Z.div_small (byte.unsigned x)), Z.add_0_r, IH by lia. f_equal. f_equal.
  apply byte.unsigned_inj. rewrite byte.unsigned_of_Z.
  rewrite Z.add_comm, Z_mod_plus_full. by apply Z.mod_small.
Qed.

(** ** The arithmetic stand-in for OpenSSL *)

Record toy_key := MkToyKey { toy_priv : option Z; toy_pub : bytes }.

Definition toy_group (nid : Z) : option Curve :=
  if nid =? NID_X9_62_prime256v1 then Some NistP256
  else if nid =? NID_brainpoolP256r1 then Some BrainpoolP256r1
  else if nid =? NID_secp384r1 then Some NistP384
  else if nid =? NID_brainpoolP384r1 then Some BrainpoolP384r1
  else None.

Definition toy_point (c : Curve) (d : Z) : bytes :=
  x04 :: be_bytes (scalar_len c) d ++ be_bytes (scalar_len c) d.

Definition toy_hash (l : nat) (d : bytes) : bytes :=
  be_bytes l (foldl (fun a x => (a * 257 + byte.unsigned x + 1) mod 2 ^ 255) 7 d).

Definition toy_digest (md : EVP_MD) (d : bytes) : bytes :=
  toy_hash (match md with EVP_sha256 => 32 | EVP_sha384 => 48 end)%nat d.

(** The x coordinate of an uncompressed point, as a number. *)
Definition toy_x (pub : bytes) : Z := be_val (take ((length pub - 1) / 2)%nat (drop 1 pub)).

Definition toy_sig (pub dig : bytes) : bytes :=
  be_bytes 48 (be_val dig mod 2 ^ 256) ++ be_bytes 48 (be_val pub mod 2 ^ 256).

Definition toy_generate (name : string) (g : Z) : option toy_key * Z :=
  let c := if bool_decide (name = "prime256v1"%string) then Some NistP256
           else if bool_decide (name = "brainpoolP256r1"%string) then Some BrainpoolP256r1
           else if bool_decide (name = "secp384r1"%string) then Some NistP384
           else if bool_decide (name = "brainpoolP384r1"%string) then Some BrainpoolP384r1
           else None in
  let d := g mod 2 ^ 128 in
  ((fun c => MkToyKey (Some d) (toy_point c d)) <$> c, g + 1).

Definition ToyOpenSSL : OpenSSL := {|
  EC_GROUP := Curve;
  EC_POINT := Z;
  EVP_PKEY := toy_key;
  rng := Z;
  BN_bin2bn b := Some (be_val b);
  BN_bn2binpad n l :=
    if (0 <=? n) && (n <? 256 ^ Z.of_nat l) then Some (be_bytes l n) else None;
  EC_GROUP_new_by_curve_name := toy_group;
  EC_POINT_mul _ d := Some d;
  EC_POINT_point2oct := toy_point;
  EC_POINT_oct2point _ b :=
    match b with
    | t :: x => if bool_decide (t = y_tag x) then Some (be_val x) else None
    | [] => None
    end;
  EVP_PKEY_fromdata_keypair _ d pub := Some (MkToyKey (Some d) pub);
  EVP_PKEY_fromdata_public _ pub := Some (MkToyKey None pub);
  EVP_PKEY_generate := toy_generate;
  EVP_PKEY_get_priv := toy_priv;
  EVP_PKEY_get_pub k := Some (toy_pub k);
  EVP_PKEY_get_bits k := if (length (toy_pub k) =? 97)%nat then 384 else 256;
  EVP_PKEY_sign k dig g := (Some (toy_sig (toy_pub k) dig), g);
  EVP_PKEY_verify k der dig := bytes_eqb der (toy_sig (toy_pub k) dig);
  EVP_DigestSign md k m g := (Some (toy_sig (toy_pub k) (toy_digest md m)), g);
  EVP_DigestVerify md k der m := bytes_eqb der (toy_sig (toy_pub k) (toy_digest md m));
  d2i_ECDSA_SIG der :=
    if (length der =? 96)%nat then Some (be_val (take 48 der), be_val (drop 48 der)) else None;
  i2d_ECDSA_SIG rs := Some (be_bytes 48 rs.1 ++ be_bytes 48 rs.2);
  EVP_PKEY_derive k peer :=
    match toy_priv k with
    | Some d => Some (be_bytes 32 ((d * toy_x (toy_pub peer)) mod 2 ^ 256))
    | None => None
    end;
  EVP_Digest md d := Some (toy_digest md d);
  HMAC_sha256 k d := Some (toy_hash 32 (k ++ d));
  aes_128_ccm_seal k n p := Some (p, toy_hash 16 (k ++ n ++ p));
  aes_128_ccm_open k n c t := if bytes_eqb t (toy_hash 16 (k ++ n ++ c)) then Some c else None;
  RAND_bytes n g := (Some (replicate n (byte.of_Z g)), g + 1);
|}.

Section toy.
#[local] Existing Instance ToyOpenSSL.

Lemma toy_derive_public priv c d pub :
  crypto.derive_public priv c = Some (d, pub) ->
  length priv = scalar_len c /\ d = be_val priv /\ pub = toy_point c d /\
  toy_group (curve_nid c) = Some c /\ 0 <= d < 256 ^ Z.of_nat (scalar_len c).
Proof.
  unfold crypto.derive_public. intros H.
  destruct (length priv =? scalar_len c)%nat eqn:Hl; [|done]. apply Nat.eqb_eq in Hl.
  assert (Hg : toy_group (curve_nid c) = Some c) by (by destruct c).
  cbn [negb EC_GROUP_new_by_curve_name BN_bin2bn EC_POINT_mul EC_POINT_point2oct ToyOpenSSL] in H.
  rewrite Hg in H.
  destruct (length (toy_point c (be_val priv)) =? pubkey_len c)%nat; [|done]. injection H as <- <-.
  rewrite <- Hl. pose proof (be_val_range priv). split_and!; try done; lia.
Qed.

Lemma toy_x_point c d : 0 <= d < 256 ^ Z.of_nat (scalar_len c) -> toy_x (toy_point c d) = d.
Proof.
  intros Hd. unfold toy_x, toy_point. cbn [drop length]. rewrite drop_0, length_app, !length_be_bytes.
  replace (S (scalar_len c + scalar_len c) - 1)%nat with (scalar_len c * 2)%nat by lia.
  rewrite Nat.div_mul by lia.
  rewrite take_app_le by (rewrite length_be_bytes; lia).
  rewrite take_ge by (rewrite length_be_bytes; lia). by apply be_val_bytes.
Qed.

Lemma toy_point_inv c d x y :
  toy_point c d = x04 :: x ++ y -> length y = scalar_len c ->
  x = be_bytes (scalar_len c) d /\ y = be_bytes (scalar_len c) d.
Proof.
  unfold toy_point. intros [= He] Hy. apply app_inj_2 in He as [-> ->]; [done|].
  by rewrite length_be_bytes.
Qed.

Lemma toy_sig_d2i pub dig :
  @d2i_ECDSA_SIG ToyOpenSSL (toy_sig pub dig) =
  Some (be_val dig mod 2 ^ 256, be_val pub mod 2 ^ 256).
Proof.
  unfold toy_sig. cbn [d2i_ECDSA_SIG ToyOpenSSL]. rewrite length_app, !length_be_bytes.
  change (48 + 48 =? 96)%nat with true. cbn [negb].
  rewrite take_app_le by (rewrite length_be_bytes; lia).
  rewrite take_ge by (rewrite length_be_bytes; lia).
  rewrite drop_app_length' by (by rewrite length_be_bytes).
  assert (Hp : forall z, 0 <= z mod 2 ^ 256 < 256 ^ Z.of_nat 48).
  { intros z. destruct (Z.mod_pos_bound z (2 ^ 256) eq_refl) as [H1 H2]. split; [lia|].
    eapply Z.lt_trans; [apply H2|]. done. }
  by rewrite !be_val_bytes by apply Hp.
Qed.

Lemma toy_binpad_fits c z :
  @BN_bn2binpad ToyOpenSSL (z mod 2 ^ 256) (scalar_len c) =
    Some (be_bytes (scalar_len c) (z mod 2 ^ 256)) /\
  be_val (be_bytes (scalar_len c) (z mod 2 ^ 256)) = z mod 2 ^ 256.
Proof.
  pose proof (Z.mod_pos_bound z (2 ^ 256) eq_refl). cbn [BN_bn2binpad ToyOpenSSL].
  assert (2 ^ 256 <= 256 ^ Z.of_nat (scalar_len c)) by (by destruct c).
  rewrite (proj2 (Z.leb_le _ _)), (proj2 (Z.ltb_lt _ _)) by lia. split; [done|].
  apply be_val_bytes. lia.
Qed.

Lemma toy_generate_curve c g :
  toy_generate (curve_group_name c) g =
  (Some (MkToyKey (Some (g mod 2 ^ 128)) (toy_point c (g mod 2 ^ 128))), g + 1).
Proof. by destruct c. Qed.

Lemma toy_be_mod_small c g : 0 <= g mod 2 ^ 128 < 256 ^ Z.of_nat (scalar_len c).
Proof.
  pose proof (Z.mod_pos_bound g (2 ^ 128) eq_refl).
  assert (2 ^ 128 <= 256 ^ Z.of_nat (scalar_len c)) by (by destruct c). lia.
Qed.

#[export] Instance ToyOpenSSL_ok : @OpenSSLOk ToyOpenSSL.
Proof.
  split; cbn [EVP_Digest HMAC_sha256 RAND_bytes BN_bn2binpad BN_bin2bn d2i_ECDSA_SIG
    i2d_ECDSA_SIG EVP_PKEY_fromdata_keypair EVP_PKEY_fromdata_public EVP_PKEY_sign
    EVP_PKEY_verify EVP_PKEY_derive EVP_PKEY_generate EVP_PKEY_get_priv EVP_PKEY_get_pub
    aes_128_ccm_seal aes_128_ccm_open EC_GROUP_new_by_curve_name EC_POINT_oct2point
    EC_POINT_point2oct ToyOpenSSL].
  - intros [] d h [= <-]; apply length_be_bytes.
  - intros k d h [= <-]. apply length_be_bytes.
  - intros n g b g' [= <- <-]. apply length_replicate.
  - intros n l b H. destruct (_ && _); [|done]. injection H as <-. apply length_be_bytes.
  - intros b n [= <-]. pose proof (be_val_range b).
    rewrite (proj2 (Z.leb_le _ _)), (proj2 (Z.ltb_lt _ _)) by lia. simpl. by rewrite be_bytes_val.
  - intros priv c d pub (_ & _ & -> & _)%toy_derive_public.
    eexists _, _. split; [done|]. by rewrite length_be_bytes.
  - intros priv c d x y (_ & _ & He & Hg & Hd)%toy_derive_public Hy. symmetry in He.
    apply toy_point_inv in He as [-> ->]; [|done]. exists c, d.
    rewrite bool_decide_eq_true_2 by done. rewrite be_val_bytes by done. done.
  - by eauto.
  - by eauto.
  - intros c d pub k dig g der g' [= <-] [= <- <-]. eexists _, _, _, _. split; [apply toy_sig_d2i|].
    destruct (toy_binpad_fits c (be_val dig)) as [? Er], (toy_binpad_fits c (be_val pub)) as [? Es].
    split_and!; [done|done|by rewrite Er|done|by rewrite Es].
  - intros priv c d pub k kp dig g der g' _ [= <-] [= <-] [= <- <-]. apply bytes_eqb_refl.
  - intros c priv1 d1 pub1 k1 kp1 priv2 d2 pub2 k2 kp2 H1 H2 [= <-] [= <-] [= <-] [= <-].
    apply toy_derive_public in H1 as (_ & _ & -> & _ & Hd1).
    apply toy_derive_public in H2 as (_ & _ & -> & _ & Hd2). cbn [toy_priv toy_pub].
    by rewrite !toy_x_point, Z.mul_comm by done.
  - intros c k g g'. rewrite toy_generate_curve. intros [= <- <-].
    pose proof (toy_be_mod_small c g) as Hr.
    exists (g mod 2 ^ 128), (be_bytes (scalar_len c) (g mod 2 ^ 128)), (toy_point c (g mod 2 ^ 128)).
    split_and!; try done.
    + rewrite (proj2 (Z.leb_le _ _)), (proj2 (Z.ltb_lt _ _)) by lia. done.
    + unfold crypto.derive_public. rewrite length_be_bytes, Nat.eqb_refl.
      cbn [negb EC_GROUP_new_by_curve_name BN_bin2bn EC_POINT_mul EC_POINT_point2oct ToyOpenSSL].
      assert (toy_group (curve_nid c) = Some c) as -> by (by destruct c).
      rewrite be_val_bytes by done.
      assert ((length (toy_point c (g mod 2 ^ 128)) =? pubkey_len c)%nat = true) as ->; [|done].
      apply Nat.eqb_eq. unfold toy_point. cbn [length]. rewrite length_app, !length_be_bytes.
      destruct (pubkey_len_scalars c) as (-> & _). lia.
  - intros k n p c t [= <- <-]. by rewrite bytes_eqb_refl.
  - intros k n p c t [= <- <-]. split; [done|]. apply length_be_bytes.
Qed.

End toy.
