(* ===== verification/CertParse.v ===== *)
(** [CertInfo] (include/v2xpki/trust_chain.hpp) and the certificate parser of
    src/internal/cert_parse.{hpp,cpp}. *)
From S2P Require Import Prelude Sizes StaticBytes Asn OpenSSL CryptoEc CurvePoint Concrete.

Abbreviation hid8 := bytes.

Record CertInfo := MkCertInfo {
  cert_bytes : StaticBytes kMaxCoerMessageLen;
  hashed_id_8 : hid8;
  public_key : StaticBytes kP384PublicKeyLen;
  encryption_key : StaticBytes kP256PublicKeyLen;
  enc_curve : Curve;
  issuer_hash_id_8 : hid8;
  is_self_signed : bool;
  tbs_bytes : StaticBytes kMaxCoerMessageLen;
  signature_r : StaticBytes kP384ScalarLen;
  signature_s : StaticBytes kP384ScalarLen;
  curve : Curve;
  issuer_hash : SigHash;
  validity_start : Z;
  validity_duration_seconds : Z;
  label : string;
}.

(** [CertInfo{}]: every member value-initialised. *)
Definition CertInfo_empty : CertInfo :=
  MkCertInfo (sb.default_ _) (zeros 8) (sb.default_ _) (sb.default_ _) NistP256 (zeros 8) false
    (sb.default_ _) (sb.default_ _) (sb.default_ _) NistP256 Sha256 0 0 "".

Definition set_label (ci : CertInfo) (l : string) : CertInfo :=
  MkCertInfo (cert_bytes ci) (hashed_id_8 ci) (public_key ci) (encryption_key ci) (enc_curve ci)
    (issuer_hash_id_8 ci) (is_self_signed ci) (tbs_bytes ci) (signature_r ci) (signature_s ci)
    (curve ci) (issuer_hash ci) (validity_start ci) (validity_duration_seconds ci) l.

(** [CertInfo::valid_at] *)
Definition valid_at (ci : CertInfo) (tai_seconds : Z) : bool :=
  if (validity_duration_seconds ci =? 0)%Z then false else
  let start := validity_start ci in
  (start <=? tai_seconds)%Z &&
  (tai_seconds <? start + i64_of_u64 (validity_duration_seconds ci))%Z.

(** [CertInfo ci;] leaves [issuer_hash_id_8] uninitialised, and the parser only
    writes it for issuers that carry a digest.  The contents of the array are
    whatever the function below returns; nothing is assumed about it. *)
Class Uninit := uninit_hid8 : CertificateBase -> bytes -> hid8.

Module cert.
Section cert.
Context {ossl : OpenSSL}.

Definition whole_cert_hash_curve (cert : option CertificateBase) : Curve :=
  match cert with
  | Some (MkCertificateBase _ _ _ (Some tbs) _) =>
      match verifyKeyIndicator tbs with
      | Some (verificationKey (Some (ecdsaBrainpoolP384r1 _))) => BrainpoolP384r1
      | Some (verificationKey (Some (ecdsaNistP384 _))) => NistP384
      | _ => NistP256
      end
  | _ => NistP256
  end.

Definition truncate_hid8 (hash : bytes) : hid8 :=
  if length hash <? kHashedId8Len then zeros 8 else lastn kHashedId8Len hash.

(** [compute_hid8(const CertificateBase*, const vector&)] *)
Definition compute_hid8_struct (cert : option CertificateBase) (cert_coer : bytes) : hid8 :=
  truncate_hid8 (crypto.hash_for_curve cert_coer (whole_cert_hash_curve cert)).

(** [compute_hid8(const vector&)] *)
Definition compute_hid8 {cb : Codec CertificateBase} (cert_coer : bytes) : hid8 :=
  compute_hid8_struct (coer.decode cert_coer) cert_coer.

Definition duration_seconds (d : option Duration) : Z :=
  match d with
  | None => 0
  | Some (microseconds n) => u64 (Z.quot n 1000000)
  | Some (milliseconds n) => u64 (Z.quot n 1000)
  | Some (seconds n) => u64 n
  | Some (minutes n) => u64 (u64 n * 60)
  | Some (hours n) => u64 (u64 n * 3600)
  | Some (sixtyHours n) => u64 (u64 n * kSixtyHoursSeconds)
  | Some (years n) => u64 (u64 n * kYearSeconds)
  | Some Duration_NOTHING => 0
  end.

(** The issuer block of [from_struct]: (is_self_signed, issuer_hash, issuer_hash_id_8),
    starting from the defaults and the uninitialised array. *)
Definition parse_issuer (issuer : option IssuerIdentifier) (junk : hid8)
    : bool * SigHash * hid8 :=
  match issuer with
  | Some (self h) =>
      (true, match h with HashAlgorithm_sha384 => Sha384 | _ => Sha256 end, junk)
  | Some (sha256AndDigest d) =>
      let issuer_bytes := octet.bytes d in
      (false, Sha256,
       if length issuer_bytes =? kHashedId8Len then issuer_bytes else junk)
  | Some (sha384AndDigest d) =>
      let issuer_bytes := octet.bytes d in
      (false, Sha384,
       if length issuer_bytes =? kHashedId8Len then issuer_bytes else junk)
  | _ => (false, Sha256, junk)
  end.

(** The verification-key block: (public_key, curve). *)
Definition parse_verification_key (tbs : option ToBeSignedCertificate)
    : StaticBytes kP384PublicKeyLen * Curve :=
  let dflt := sb.default_ kP384PublicKeyLen in
  match tbs with
  | None => (dflt, NistP256)
  | Some tbs =>
      match verifyKeyIndicator tbs with
      | Some (verificationKey (Some pvk)) =>
          match pvk with
          | ecdsaNistP256 (Some p) =>
              (default dflt (sb.from _ (point.to_sec1 (Some p))), NistP256)
          | ecdsaBrainpoolP256r1 (Some p) =>
              (default dflt (sb.from _ (point.to_sec1 (Some p))), BrainpoolP256r1)
          | ecdsaBrainpoolP384r1 (Some p) =>
              (default dflt (sb.from _ (point.to_sec1_384 (Some p))), BrainpoolP384r1)
          | ecdsaNistP384 (Some p) =>
              (default dflt (sb.from _ (point.to_sec1_384 (Some p))), NistP384)
          | _ => (dflt, NistP256)
          end
      | _ => (dflt, NistP256)
      end
  end.

(** The encryption-key block: (encryption_key, enc_curve). *)
Definition parse_encryption_key (tbs : option ToBeSignedCertificate)
    : StaticBytes kP256PublicKeyLen * Curve :=
  let dflt := sb.default_ kP256PublicKeyLen in
  match tbs with
  | None => (dflt, NistP256)
  | Some tbs =>
      match encryptionKey tbs with
      | Some (MkPublicEncryptionKey _ (Some bpek)) =>
          match bpek with
          | bpek_eciesNistP256 (Some p) =>
              (default dflt (sb.from _ (point.to_sec1 (Some p))), NistP256)
          | bpek_eciesBrainpoolP256r1 (Some p) =>
              (default dflt (sb.from _ (point.to_sec1 (Some p))), BrainpoolP256r1)
          | _ => (dflt, NistP256)
          end
      | _ => (dflt, NistP256)
      end
  end.

(** The validity block: (validity_start, validity_duration_seconds). *)
Definition parse_validity (tbs : option ToBeSignedCertificate) : Z * Z :=
  match tbs with
  | Some tbs =>
      match validityPeriod tbs with
      | Some vp => (u32 (vp_start vp), duration_seconds (vp_duration vp))
      | None => (0, 0)%Z
      end
  | None => (0, 0)%Z
  end.

(** The signature block: (signature_r, signature_s). *)
Definition parse_signature (sig : option Signature_t)
    : StaticBytes kP384ScalarLen * StaticBytes kP384ScalarLen :=
  let dflt := sb.default_ kP384ScalarLen in
  match sig with
  | None => (dflt, dflt)
  | Some sig =>
      match point.extract_sig (Some sig) point.SigRS_default with
      | (true, rs) =>
          (default dflt (sb.from _ (point.rs_r rs)), default dflt (sb.from _ (point.rs_s rs)))
      | (false, _) => (dflt, dflt)
      end
  end.

Definition from_struct {tb : Codec ToBeSignedCertificate} {junk : Uninit}
    (cert : CertificateBase) (cert_coer : bytes) : CertInfo :=
  let '(self_signed, ihash, ihid8) := parse_issuer (issuer cert) (uninit_hid8 cert cert_coer) in
  let '(pk, crv) := parse_verification_key (toBeSigned cert) in
  let '(ek, ecrv) := parse_encryption_key (toBeSigned cert) in
  let '(start, duration) := parse_validity (toBeSigned cert) in
  let '(r, s) := parse_signature (cert_signature cert) in
  {| cert_bytes := default (sb.default_ _) (sb.from kMaxCoerMessageLen cert_coer);
     hashed_id_8 := compute_hid8_struct (Some cert) cert_coer;
     public_key := pk;
     encryption_key := ek;
     enc_curve := ecrv;
     issuer_hash_id_8 := ihid8;
     is_self_signed := self_signed;
     tbs_bytes :=
       match toBeSigned cert with
       | Some tbs => default (sb.default_ _) (sb.from kMaxCoerMessageLen (coer.encode tbs))
       | None => sb.default_ _
       end;
     signature_r := r;
     signature_s := s;
     curve := crv;
     issuer_hash := ihash;
     validity_start := start;
     validity_duration_seconds := duration;
     label := "" |}.

Definition from_coer {cb : Codec CertificateBase} {tb : Codec ToBeSignedCertificate}
    {junk : Uninit} (cert_coer : bytes) : CertInfo :=
  match coer.decode cert_coer with
  | None => CertInfo_empty
  | Some cert => from_struct cert cert_coer
  end.

(** ** Lemmas *)

Lemma length_truncate_hid8 h : length (truncate_hid8 h) = kHashedId8Len.
Proof.
  unfold truncate_hid8. destruct (Nat.ltb_spec (length h) kHashedId8Len) as [H|H]; [done|].
  rewrite length_lastn. lia.
Qed.

Lemma length_compute_hid8_struct c b : length (compute_hid8_struct c b) = kHashedId8Len.
Proof. apply length_truncate_hid8. Qed.

(** Every unit of a 16-bit duration fits in 41 bits of seconds. *)
Lemma duration_seconds_bound d :
  match d with
  | Some (microseconds n | milliseconds n | seconds n | minutes n
         | hours n | sixtyHours n | years n) => in_u16 n
  | _ => True
  end ->
  (0 <= duration_seconds d <= 65535 * kYearSeconds)%Z.
Proof.
  unfold in_u16, duration_seconds, u64, kYearSeconds, kSixtyHoursSeconds.
  destruct d as [[]|]; intros Hn; try lia;
    rewrite ?Z.quot_div_nonneg by lia;
    repeat rewrite Z.mod_small; try lia;
    Z.to_euclidean_division_equations; lia.
Qed.

Lemma default_sb_wf {N} (o : option (StaticBytes N)) :
  (forall b, o = Some b -> sb.wf b) -> sb.wf (default (sb.default_ N) o).
Proof. destruct o; simpl; intros H; [by apply H|apply sb.default_wf]. Qed.

Lemma default_from_wf {N} (v : bytes) : sb.wf (default (sb.default_ N) (sb.from N v)).
Proof. apply default_sb_wf. apply sb.from_wf. Qed.

#[local] Hint Resolve default_from_wf sb.default_wf : core.

Lemma parse_verification_key_wf tbs pk c : parse_verification_key tbs = (pk, c) -> sb.wf pk.
Proof.
  unfold parse_verification_key. intros H. repeat case_match; simplify_eq; auto.
Qed.

Lemma parse_encryption_key_wf tbs ek c : parse_encryption_key tbs = (ek, c) -> sb.wf ek.
Proof.
  unfold parse_encryption_key. intros H. repeat case_match; simplify_eq; auto.
Qed.

Lemma parse_signature_wf sig r s : parse_signature sig = (r, s) -> sb.wf r /\ sb.wf s.
Proof.
  unfold parse_signature. intros H. repeat case_match; simplify_eq; auto.
Qed.

(** The ECIES key is always on a 256-bit curve. *)
Lemma parse_encryption_key_curve tbs ek c :
  parse_encryption_key tbs = (ek, c) -> is_p256_size c = true.
Proof.
  unfold parse_encryption_key. intros H. repeat case_match; simplify_eq; done.
Qed.

(** Both signature components are present at the same curve width, or both are
    empty. *)
Lemma parse_signature_len sig r s :
  parse_signature sig = (r, s) ->
  exists n, sb.size r = n /\ sb.size s = n /\ (n = 0 \/ n = kP256ScalarLen \/ n = kP384ScalarLen).
Proof.
  unfold parse_signature. intros H.
  destruct sig as [sig|]; [|simplify_eq; exists 0; simpl; auto].
  destruct (point.extract_sig _ _) as [[] rs] eqn:E; [|simplify_eq; exists 0; simpl; auto].
  apply point.extract_sig_len in E as [Hr Hs]. simplify_eq.
  pose proof (scalar_len_le (point.rs_curve rs)) as Hle.
  destruct (sb.from_Some (N := kP384ScalarLen) (point.rs_r rs)) as (br & Hbr & _); [lia|].
  destruct (sb.from_Some (N := kP384ScalarLen) (point.rs_s rs)) as (bs & Hbs & _); [lia|].
  rewrite Hbr, Hbs. simpl. apply sb.size_from in Hbr, Hbs.
  exists (scalar_len (point.rs_curve rs)). split_and!; [lia|lia|].
  destruct (point.rs_curve rs); auto.
Qed.

Section wf.
Context {cb : Codec CertificateBase} {tb : Codec ToBeSignedCertificate} {junk : Uninit}.

(** The invariant every parsed certificate satisfies. *)
Definition cert_wf (ci : CertInfo) : Prop :=
  sb.wf (cert_bytes ci) /\ sb.wf (public_key ci) /\ sb.wf (encryption_key ci) /\
  sb.wf (tbs_bytes ci) /\ sb.wf (signature_r ci) /\ sb.wf (signature_s ci) /\
  length (hashed_id_8 ci) = kHashedId8Len /\
  sb.size (signature_r ci) = sb.size (signature_s ci) /\
  is_p256_size (enc_curve ci) = true /\
  in_u32 (validity_start ci).

Lemma from_struct_wf c b : cert_wf (from_struct c b).
Proof.
  unfold from_struct.
  destruct (parse_issuer _ _) as [[ss ih] ih8].
  destruct (parse_verification_key _) as [pk crv] eqn:Hpk.
  destruct (parse_encryption_key _) as [ek ecrv] eqn:Hek.
  destruct (parse_validity _) as [st du] eqn:Hv.
  destruct (parse_signature _) as [r s] eqn:Hs.
  pose proof (parse_signature_wf _ _ _ Hs) as [Hwr Hws].
  pose proof (parse_signature_len _ _ _ Hs) as (n & Hr & Hss & _).
  unfold cert_wf. simpl. split_and!;
    eauto using parse_verification_key_wf, parse_encryption_key_wf, parse_encryption_key_curve,
      length_compute_hid8_struct.
  - destruct (toBeSigned c); auto.
  - congruence.
  - unfold parse_validity in Hv. repeat case_match; simplify_eq; auto with v2x; unfold in_u32; lia.
Qed.

Lemma from_coer_wf b : cert_wf (from_coer b).
Proof.
  unfold from_coer. destruct (coer.decode b); [apply from_struct_wf|].
  unfold cert_wf. simpl. split_and!; auto; unfold in_u32; lia.
Qed.

(** [cert_bytes] is the whole input or nothing: the signal callers test. *)
Lemma from_coer_cert_bytes b :
  sb.to_vector (cert_bytes (from_coer b)) =
  match coer.decode (T := CertificateBase) b with
  | Some _ => if length b <=? kMaxCoerMessageLen then b else []
  | None => []
  end.
Proof.
  unfold from_coer. destruct (coer.decode b) as [c|]; [|done].
  unfold from_struct.
  destruct (parse_issuer _ _) as [[ss ih] ih8], (parse_verification_key _), (parse_encryption_key _),
    (parse_validity _), (parse_signature _). cbn [cert_bytes].
  destruct (Nat.leb_spec (length b) kMaxCoerMessageLen) as [Hl|Hl].
  - destruct (sb.from_Some b Hl) as (sbb & -> & Hv & _). done.
  - unfold sb.from, sb.from_ptr. destruct (Nat.ltb_spec kMaxCoerMessageLen (length b)); [done|lia].
Qed.

Lemma from_coer_hid8 b (c : CertificateBase) :
  coer.decode b = Some c -> hashed_id_8 (from_coer b) = compute_hid8 b.
Proof.
  intros H. unfold from_coer, compute_hid8. rewrite H. unfold from_struct.
  by destruct (parse_issuer _ _) as [[ss ih] ih8], (parse_verification_key _), (parse_encryption_key _),
    (parse_validity _), (parse_signature _).
Qed.

End wf.
End cert.
End cert.
