(* ===== verification/SignedMessage.v ===== *)
(** src/internal/signed_message.{hpp,cpp}: unwrapping and verifying a signed
    IEEE 1609.2 message. *)
From S2P Require Import Prelude Sizes StaticBytes Asn OpenSSL CryptoEc CurvePoint CertParse.

Record SignedMessage := MkSignedMessage {
  payload_coer : bytes;
  tbs_coer : bytes;
  signer_hid8 : hid8;
  msg_sig_r : bytes;
  msg_sig_s : bytes;
  sig_curve : Curve;
  has_signer_digest : bool;
}.

Module signed_msg.
Section signed_msg.
Context {ossl : OpenSSL}.
Context {cb : Codec CertificateBase} {dc : Codec Ieee1609Dot2Data} {tc : Codec ToBeSignedData}.

(** The signer block of [unwrap]: (signer_hid8, has_signer_digest). *)
Definition signer_digest (s : option SignerIdentifier) : hid8 * bool :=
  match s with
  | Some (SignerIdentifier_digest d) =>
      let d := octet.bytes d in
      if length d =? kHashedId8Len then (d, true) else (zeros 8, false)
  | _ => (zeros 8, false)
  end.

Definition unwrap (coer : bytes) : option SignedMessage :=
  match coer.decode_with_basic_fallback coer with
  | None => None
  | Some outer =>
      match data_content outer with
      | Some (signedData (Some sd)) =>
          match tbsData sd with
          | Some tbs =>
              match payload tbs with
              | Some pl =>
                  let tbs_coer := coer.encode tbs in
                  let '(hid, has_digest) := signer_digest (signer sd) in
                  let rs :=
                    match point.extract_sig (sd_signature sd) point.SigRS_default with
                    | (true, rs) => rs
                    | (false, _) => point.SigRS_default
                    end in
                  match pl_data pl with
                  | Some d =>
                      match data_content d with
                      | Some (unsecuredData o) =>
                          let payload_coer := octet.bytes o in
                          if empty payload_coer then None
                          else Some (MkSignedMessage payload_coer tbs_coer hid (point.rs_r rs)
                                       (point.rs_s rs) (point.rs_curve rs) has_digest)
                      | _ => None
                      end
                  | None => None
                  end
              | None => None
              end
          | None => None
          end
      | _ => None
      end
  end.

(** signedDataHash = H( H(COER(tbsData)) || H(signerIdentifierInput) ) *)
Definition signed_data_hash (tbs_coer signer_cert_coer : bytes) (curve : Curve) : bytes :=
  crypto.hash_for_curve
    (crypto.hash_for_curve tbs_coer curve ++ crypto.hash_for_curve signer_cert_coer curve) curve.

Definition verify (data : SignedMessage) (verifier_pubkey signer_cert_coer : bytes) : bool :=
  if empty verifier_pubkey || empty (tbs_coer data) then false else
  let slen := scalar_len (sig_curve data) in
  if negb (length (msg_sig_r data) =? slen) || negb (length (msg_sig_s data) =? slen) then false else
  if has_signer_digest data && negb (bytes_eqb (cert.compute_hid8 signer_cert_coer) (signer_hid8 data))
  then false else
  match sb.from kP384ScalarLen (msg_sig_r data), sb.from kP384ScalarLen (msg_sig_s data) with
  | Some r, Some s =>
      crypto.ecdsa_verify_digest_curve verifier_pubkey
        (signed_data_hash (tbs_coer data) signer_cert_coer (sig_curve data))
        (MkSignature r s) (sig_curve data)
  | _, _ => false
  end.

(** ** Lemmas *)

(** What a positive answer means. *)
Lemma verify_true m pub cert :
  verify m pub cert = true ->
  pub <> [] /\ tbs_coer m <> [] /\
  (has_signer_digest m = true -> cert.compute_hid8 cert = signer_hid8 m) /\
  exists r s, sb.to_vector r = msg_sig_r m /\ sb.to_vector s = msg_sig_s m /\
    crypto.ecdsa_verify_digest_curve pub (signed_data_hash (tbs_coer m) cert (sig_curve m))
      (MkSignature r s) (sig_curve m) = true.
Proof.
  unfold verify. intros H.
  destruct (empty pub || empty (tbs_coer m)) eqn:He; [done|].
  destruct (negb _ || negb _) eqn:Hl in H; [done|].
  destruct (has_signer_digest m && _) eqn:Hd; [done|].
  destruct (sb.from _ (msg_sig_r m)) as [r|] eqn:Hr; [|done].
  destruct (sb.from _ (msg_sig_s m)) as [s|] eqn:Hs; [|done]. bool_props.
  split_and!; try done.
  - intros Hsd. rewrite Hsd in Hd. simpl in Hd. by bool_props.
  - exists r, s. split_and!; eauto using sb.to_vector_from.
Qed.

(** The converse: a signature of the right width that checks out is accepted. *)
Lemma verify_intro m pub cert sig :
  pub <> [] -> tbs_coer m <> [] ->
  msg_sig_r m = sb.to_vector (sig_r sig) -> msg_sig_s m = sb.to_vector (sig_s sig) ->
  length (msg_sig_r m) = scalar_len (sig_curve m) ->
  length (msg_sig_s m) = scalar_len (sig_curve m) ->
  (has_signer_digest m = true -> cert.compute_hid8 cert = signer_hid8 m) ->
  crypto.ecdsa_verify_digest_curve pub (signed_data_hash (tbs_coer m) cert (sig_curve m))
    sig (sig_curve m) = true ->
  verify m pub cert = true.
Proof.
  intros Hp Ht Hr Hs Hlr Hls Hd Hv. unfold verify.
  rewrite (proj2 (empty_false_iff pub)), (proj2 (empty_false_iff (tbs_coer m))) by done.
  rewrite Hlr, Hls, Nat.eqb_refl. cbn [orb negb].
  replace (has_signer_digest m && _) with false.
  2:{ destruct (has_signer_digest m); [|done]. by rewrite Hd, bytes_eqb_refl. }
  pose proof (scalar_len_le (sig_curve m)) as Hle.
  destruct (sb.from_Some (N := kP384ScalarLen) (msg_sig_r m)) as (r & -> & Hvr & _); [lia|].
  destruct (sb.from_Some (N := kP384ScalarLen) (msg_sig_s m)) as (s & -> & Hvs & _); [lia|].
  unfold crypto.ecdsa_verify_digest_curve in *. cbn [sig_r sig_s].
  by rewrite Hvr, Hvs, Hr, Hs.
Qed.

(** [unwrap] only returns messages with a payload, and the curve of the signature
    decides the width of both components. *)
Lemma unwrap_Some b m :
  unwrap b = Some m ->
  payload_coer m <> [] /\
  (has_signer_digest m = true -> length (signer_hid8 m) = kHashedId8Len) /\
  exists outer sd tbs, coer.decode_with_basic_fallback b = Some outer /\
    data_content outer = Some (signedData (Some sd)) /\ tbsData sd = Some tbs /\
    tbs_coer m = coer.encode tbs /\
    (has_signer_digest m = true ->
     signer sd = Some (SignerIdentifier_digest (signer_hid8 m))).
Proof.
  unfold unwrap. intros H.
  destruct (coer.decode_with_basic_fallback b) as [outer|] eqn:Ho; [|done].
  destruct (data_content outer) as [[]|] eqn:Hc; try done. destruct s as [sd|]; [|done].
  destruct (tbsData sd) as [tbs|] eqn:Ht; [|done].
  destruct (payload tbs) as [pl|] eqn:Hp; [|done].
  destruct (signer_digest (signer sd)) as [hd hb] eqn:Hs.
  assert (Hsd : hb = true -> signer sd = Some (SignerIdentifier_digest hd) /\
                             length hd = kHashedId8Len).
  { intros ->. destruct (signer sd) as [[| | |]|]; simplify_eq/=. unfold octet.bytes in Hs.
    destruct (length d =? kHashedId8Len) eqn:Hl; simplify_eq. by bool_props. }
  destruct (pl_data pl) as [d|]; [|done].
  destruct (data_content d) as [[]|] eqn:Hd; try done.
  destruct (empty (octet.bytes o)) eqn:He; [done|]. bool_props. injection H as <-. simpl.
  split_and!; [done|by apply Hsd|]. exists outer, sd, tbs. split_and!; try done. by apply Hsd.
Qed.

End signed_msg.
End signed_msg.
