(* ===== verification/SignedEnvelope.v ===== *)
(** src/internal/signed_envelope.{hpp,cpp}: building signed messages.

    The clock is read once per envelope; [now_us] is the value of
    [system_clock::now()] in microseconds since the Unix epoch. *)
From S2P Require Import Prelude Sizes StaticBytes Asn OpenSSL CryptoEc CurvePoint CertParse.
From S2P Require Import SignedMessage.

Module sign.
Section sign.
Context {ossl : OpenSSL}.
Context {dc : Codec Ieee1609Dot2Data} {tc : Codec ToBeSignedData}.

Definition current_generation_time (now_us : Z) : Z := u64 (unix_to_tai_micros now_us).

(** [octet::set] reads [slen] bytes of the array, whatever its length field. *)
Definition build_asn_signature (sig : Signature) (curve : Curve) : Signature_t :=
  let slen := scalar_len curve in
  if is_p256_size curve then
    let ecdsa :=
      MkEcdsaP256Signature (Some (P256_x_only (octet.set (data_ (sig_r sig)) slen)))
        (octet.set (data_ (sig_s sig)) slen) in
    if decide (curve = BrainpoolP256r1) then ecdsaBrainpoolP256r1Signature (Some ecdsa)
    else ecdsaNistP256Signature (Some ecdsa)
  else
    let ecdsa :=
      MkEcdsaP384Signature (Some (P384_x_only (octet.set (data_ (sig_r sig)) slen)))
        (octet.set (data_ (sig_s sig)) slen) in
    ecdsaBrainpoolP384r1Signature (Some ecdsa).

Definition finalize_signed_data (tbs : ToBeSignedData) (private_key signer_cert_bytes : bytes)
    (signer_hid8 : hid8) (curve : Curve) (g : rng) : bytes * rng :=
  let hash_id := if is_p256_size curve then HashAlgorithm_sha256 else HashAlgorithm_sha384 in
  let tbs_bytes := coer.encode tbs in
  if empty tbs_bytes then ([], g) else
  let h_tbs := crypto.hash_for_curve tbs_bytes curve in
  let h_signer := crypto.hash_for_curve signer_cert_bytes curve in
  let e := crypto.hash_for_curve (h_tbs ++ h_signer) curve in
  match crypto.ecdsa_sign_digest_curve private_key e curve g with
  | (None, g) => ([], g)
  | (Some sig, g) =>
      let signer :=
        if empty signer_cert_bytes then SignerIdentifier_self
        else SignerIdentifier_digest (octet.set signer_hid8 kHashedId8Len) in
      let sd := MkSignedData hash_id (Some tbs) (Some signer)
                  (Some (build_asn_signature sig curve)) in
      let wrapper := MkIeee1609Dot2Data kIeee1609Dot2Version (Some (signedData (Some sd))) in
      (coer.encode wrapper, g)
  end.

Definition make_header (now_us : Z) : HeaderInfo :=
  MkHeaderInfo kPsidScr (Some (current_generation_time now_us)) [].

Definition make_unsecured_tbs (payload_bytes : bytes) (now_us : Z) : ToBeSignedData :=
  let payload_data :=
    MkIeee1609Dot2Data kIeee1609Dot2Version
      (Some (unsecuredData (octet.set payload_bytes (length payload_bytes)))) in
  MkToBeSignedData (Some (MkSignedDataPayload (Some payload_data) None false))
    (Some (make_header now_us)).

Definition build_self_signed (payload_bytes private_key : bytes) (curve : Curve)
    (now_us : Z) (g : rng) : bytes * rng :=
  finalize_signed_data (make_unsecured_tbs payload_bytes now_us) private_key [] (zeros 8) curve g.

Definition build_signed_by_cert (payload_bytes : bytes) (signer_cert : CertInfo)
    (private_key : bytes) (curve : Curve) (now_us : Z) (g : rng) : bytes * rng :=
  finalize_signed_data (make_unsecured_tbs payload_bytes now_us) private_key
    (sb.to_vector (cert_bytes signer_cert)) (hashed_id_8 signer_cert) curve g.

Definition build_external_payload (ext_data_hash : bytes) (ec_cert : CertInfo)
    (ec_private_key : bytes) (curve : Curve) (now_us : Z) (g : rng) : bytes * rng :=
  let hashed :=
    if is_p256_size curve then sha256HashedData (octet.set ext_data_hash (length ext_data_hash))
    else sha384HashedData (octet.set ext_data_hash (length ext_data_hash)) in
  let tbs :=
    MkToBeSignedData (Some (MkSignedDataPayload None (Some hashed) false))
      (Some (make_header now_us)) in
  finalize_signed_data tbs ec_private_key (sb.to_vector (cert_bytes ec_cert))
    (hashed_id_8 ec_cert) curve g.

(** ** Lemmas *)

(** The curve a signature is labelled with on the wire. *)
Definition wire_curve (c : Curve) : Curve :=
  match c with NistP384 => BrainpoolP384r1 | c => c end.

Lemma octet_set_static {N} (b : StaticBytes N) n :
  sb.wf b -> length (sb.to_vector b) = n -> octet.set (data_ b) n = sb.to_vector b.
Proof.
  intros Hwf Hl. rewrite (sb.size_to_vector _ Hwf) in Hl. unfold sb.size in Hl.
  unfold octet.set, sb.to_vector. by rewrite Hl.
Qed.

(** Reading back the signature node gives the two components. *)
Lemma extract_build_signature sig c out :
  sb.wf (sig_r sig) -> sb.wf (sig_s sig) ->
  length (sb.to_vector (sig_r sig)) = scalar_len c ->
  length (sb.to_vector (sig_s sig)) = scalar_len c ->
  point.extract_sig (Some (build_asn_signature sig c)) out =
  (true, point.MkSigRS (sb.to_vector (sig_r sig)) (sb.to_vector (sig_s sig)) (wire_curve c)).
Proof.
  intros Hr Hs Hlr Hls. unfold build_asn_signature.
  rewrite !octet_set_static by done.
  destruct c; cbn [is_p256_size]; try (rewrite decide_False by done);
    try (rewrite decide_True by done); unfold point.extract_sig, point.extract_p256,
    point.extract_p384; cbn [point.rs_s point.rs_r]; unfold octet.bytes;
    rewrite Hls; cbn [point.sig_r point.sig_r_384]; unfold octet.bytes; rewrite Hlr; done.
Qed.

Context {ossl_ok : OpenSSLOk} {dc_ok : CodecOk Ieee1609Dot2Data}.
Context {cb : Codec CertificateBase}.

(** A non-empty envelope was signed, and its outer structure decodes. *)
Lemma finalize_inv tbs priv cert hid c g b g' :
  finalize_signed_data tbs priv cert hid c g = (b, g') -> b <> [] ->
  exists sig hash_id,
    coer.encode tbs <> [] /\
    crypto.ecdsa_sign_digest_curve priv
      (signed_msg.signed_data_hash (coer.encode tbs) cert c) c g = (Some sig, g') /\
    coer.decode_with_basic_fallback b =
      Some (MkIeee1609Dot2Data kIeee1609Dot2Version (Some (signedData (Some
        (MkSignedData hash_id (Some tbs)
           (Some (if empty cert then SignerIdentifier_self
                  else SignerIdentifier_digest (octet.set hid kHashedId8Len)))
           (Some (build_asn_signature sig c))))))).
Proof.
  unfold finalize_signed_data, signed_msg.signed_data_hash. intros H Hne.
  destruct (empty (coer.encode tbs)) eqn:He; [by simplify_eq|]. bool_props.
  destruct (crypto.ecdsa_sign_digest_curve _ _ _ _) as [[sig|] g1] eqn:Hs; [|by simplify_eq].
  injection H as <- <-. eexists sig, _. split_and!; [done|done|].
  by apply coer.encode_decode_fallback.
Qed.

(** Every enveloped payload comes back, with a signature that verifies under the
    signer's public key. *)
Lemma unwrap_finalize pl now priv pub cert hid c g b g' :
  is_keypair c priv pub -> c <> NistP384 -> pl <> [] ->
  (cert <> [] -> length hid = kHashedId8Len /\ hid = cert.compute_hid8 cert) ->
  finalize_signed_data (make_unsecured_tbs pl now) priv cert hid c g = (b, g') -> b <> [] ->
  exists m, signed_msg.unwrap b = Some m /\ payload_coer m = pl /\ sig_curve m = c /\
    has_signer_digest m = negb (empty cert) /\
    (cert <> [] -> signer_hid8 m = hid) /\
    signed_msg.verify m pub cert = true.
Proof.
  intros Hkp Hc Hpl Hhid H Hne.
  destruct (finalize_inv _ _ _ _ _ _ _ _ H Hne) as (sig & hi & Htbs & Hsign & Hdec).
  destruct (crypto_facts.sign_then_verify _ _ _ _ _ _ _ Hkp Hsign) as (Hv & Hlr & Hls & Hwr & Hws).
  assert (Hwc : wire_curve c = c) by (by destruct c).
  unfold signed_msg.unwrap. rewrite Hdec. cbn [data_content tbsData].
  cbn [payload make_unsecured_tbs signer sd_signature pl_data data_content].
  rewrite extract_build_signature, Hwc by done. unfold octet.bytes, octet.set.
  rewrite (take_ge pl) by done. rewrite (proj2 (empty_false_iff pl)) by done.
  set (sg := if empty cert then _ else _).
  assert (Hsg : signed_msg.signer_digest (Some sg) =
    if empty cert then (zeros 8, false) else (hid, true)).
  { subst sg. destruct cert as [|x cert]; [done|].
    destruct Hhid as [Hl _]; [done|]. simpl. unfold octet.bytes, octet.set.
    rewrite take_ge by (rewrite Hl; done). by rewrite Hl. }
  rewrite Hsg. destruct (crypto_facts.is_keypair_shape _ _ _ Hkp) as (_ & _ & x & y & Hpub & _).
  eexists (MkSignedMessage pl (coer.encode (make_unsecured_tbs pl now))
    (if empty cert then zeros 8 else hid) _ _ c (negb (empty cert))).
  split; [by destruct (empty cert)|]. split_and!; try done; [by destruct cert|].
  eapply (signed_msg.verify_intro _ _ _ sig); cbn [tbs_coer msg_sig_r msg_sig_s sig_curve]; try done.
  - by subst pub.
  - destruct cert; [done|]. intros _. cbn. symmetry. by apply Hhid.
Qed.

(** The two envelopes the client builds: self-signed, and signed by a certificate. *)
Lemma unwrap_self_signed pl priv pub c now g b g' :
  is_keypair c priv pub -> c <> NistP384 -> pl <> [] ->
  build_self_signed pl priv c now g = (b, g') -> b <> [] ->
  exists m, signed_msg.unwrap b = Some m /\ payload_coer m = pl /\
    has_signer_digest m = false /\ signed_msg.verify m pub [] = true.
Proof.
  intros Hkp Hc Hpl Hb Hne.
  destruct (unwrap_finalize pl now priv pub [] (zeros 8) c g b g') as (m & ?); try done.
  exists m. naive_solver.
Qed.

Lemma unwrap_signed_by_cert pl ci priv now g b g' :
  curve ci <> NistP384 ->
  is_keypair (curve ci) priv (sb.to_vector (public_key ci)) ->
  hashed_id_8 ci = cert.compute_hid8 (sb.to_vector (cert_bytes ci)) -> pl <> [] ->
  build_signed_by_cert pl ci priv (curve ci) now g = (b, g') -> b <> [] ->
  exists m, signed_msg.unwrap b = Some m /\ payload_coer m = pl /\
    has_signer_digest m = negb (empty (sb.to_vector (cert_bytes ci))) /\
    (sb.to_vector (cert_bytes ci) <> [] -> signer_hid8 m = hashed_id_8 ci) /\
    signed_msg.verify m (sb.to_vector (public_key ci)) (sb.to_vector (cert_bytes ci)) = true.
Proof.
  intros Hc Hkp Hid Hpl Hb Hne.
  destruct (unwrap_finalize _ _ _ _ _ _ _ _ _ _ Hkp Hc Hpl
    (fun _ => conj (eq_trans (f_equal length Hid) (cert.length_compute_hid8_struct _ _)) Hid)
    Hb Hne) as (m & ?). exists m. naive_solver.
Qed.

End sign.
End sign.
