(* ===== verification/EncryptedData.v ===== *)
(** src/internal/encrypted_data.{hpp,cpp} and src/internal/request_hash.hpp: the
    EncryptedData wrapper of requests, decryption and unwrapping of responses, and
    the correlation of a response with its request. *)
From S2P Require Import Prelude Result Sizes StaticBytes Asn OpenSSL CryptoEc CurvePoint Ecies.
From S2P Require Import CertParse SignedMessage SignedEnvelope.

Module enc.
Section enc.
Context {ossl : OpenSSL}.

(** The EncryptedData node of [build_encrypted_data]. *)
Definition encrypted_data_of (e : EciesEncryptResult) (recipient_cert : CertInfo) (curve : Curve)
    : EncryptedData :=
  let ecies_k :=
    MkEciesP256EncryptedKey (point.from_sec1 (ephemeral_pubkey e))
      (octet.set (encrypted_key e) (length (encrypted_key e)))
      (octet.set (tag_kdf e) (length (tag_kdf e))) in
  let enc_key :=
    match curve with
    | BrainpoolP256r1 | BrainpoolP384r1 => edek_eciesBrainpoolP256r1 (Some ecies_k)
    | _ => edek_eciesNistP256 (Some ecies_k)
    end in
  let pk_ri :=
    MkPKRecipientInfo (octet.set (hashed_id_8 recipient_cert) kHashedId8Len) (Some enc_key) in
  let ct_tag := ecies_ciphertext e ++ tag_ccm e in
  let ccm :=
    MkOne28BitCcmCiphertext (octet.set (nonce_ccm e) (length (nonce_ccm e)))
      (octet.set ct_tag (length ct_tag)) in
  MkEncryptedData (Some [Some (certRecipInfo (Some pk_ri))]) (Some (aes128ccm (Some ccm))).

Definition build_encrypted_data (e : EciesEncryptResult) (recipient_cert : CertInfo)
    (curve : Curve) : Ieee1609Dot2Data :=
  MkIeee1609Dot2Data kIeee1609Dot2Version
    (Some (encryptedData (Some (encrypted_data_of e recipient_cert curve)))).

(** The ECIES branch of [decrypt_encrypted_content], which passes an empty [p1]. *)
Definition decrypt_cert_recipient (pk_ri : PKRecipientInfo) (nonce ciphertext tag_ccm : bytes)
    (recipient_private_key p1 : bytes) : option bytes :=
  match encKey pk_ri with
  | None => None
  | Some ek =>
      let '(ecies_key, ecies_curve) :=
        match ek with
        | edek_eciesNistP256 k => (k, NistP256)
        | edek_eciesBrainpoolP256r1 k => (k, BrainpoolP256r1)
        | _ => (None, NistP256)
        end in
      match ecies_key with
      | Some (MkEciesP256EncryptedKey (Some v) c t) =>
          let ephemeral := point.to_sec1 (Some v) in
          if empty ephemeral then None
          else
            let ecies_params :=
              MkEciesEncryptResult ephemeral (octet.bytes c) (octet.bytes t) nonce ciphertext
                tag_ccm [] in
            ecies.ecies_decrypt_curve recipient_private_key ecies_params p1 ecies_curve
      | _ => None
      end
  end.

Definition decrypt_encrypted_content (enc : option EncryptedData)
    (recipient_private_key request_aes_key : bytes) : option bytes :=
  match enc with
  | Some (MkEncryptedData (Some (ri0 :: _)) (Some (aes128ccm (Some ccm)))) =>
      let nonce := octet.bytes (ccm_nonce ccm) in
      let ct_with_tag := octet.bytes (ccmCiphertext ccm) in
      if length ct_with_tag <? kAesCcmTagLen then None else
      let ciphertext := droplast kAesCcmTagLen ct_with_tag in
      let tag_ccm := lastn kAesCcmTagLen ct_with_tag in
      match ri0 with
      | Some (pskRecipInfo _) =>
          if negb (empty request_aes_key)
          then ecies.aes_128_ccm_decrypt request_aes_key nonce ciphertext tag_ccm
          else None
      | Some (certRecipInfo (Some pk_ri)) =>
          decrypt_cert_recipient pk_ri nonce ciphertext tag_ccm recipient_private_key []
      | _ => None
      end
  | _ => None
  end.

(** Strip the EtsiTs102941Data prefix: version (0x01) and CHOICE tag. *)
Definition strip_prefix (etsi_response_tag : byte) (inner_bytes : bytes) : bytes :=
  match inner_bytes with
  | b0 :: b1 :: rest =>
      if (2 <? length inner_bytes) && bool_decide (b0 = x01) && bool_decide (b1 = etsi_response_tag)
      then rest else inner_bytes
  | _ => inner_bytes
  end.

Context {cb : Codec CertificateBase} {dc : Codec Ieee1609Dot2Data} {tc : Codec ToBeSignedData}.

Definition decrypt_and_unwrap (response_bytes recipient_private_key request_aes_key : bytes)
    (etsi_response_tag : byte) (signer_cert : CertInfo) : Result bytes :=
  match coer.decode response_bytes with
  | None => Err Decode
  | Some outer =>
      match data_content outer with
      | Some (encryptedData enc) =>
          some! plaintext := decrypt_encrypted_content enc recipient_private_key request_aes_key
            or! Err Crypto;
          some! signed_inner := signed_msg.unwrap plaintext or! Err Decode;
          if negb (signed_msg.verify signed_inner (sb.to_vector (public_key signer_cert))
                     (sb.to_vector (cert_bytes signer_cert)))
          then Err SignatureInvalid
          else Ok (strip_prefix etsi_response_tag (payload_coer signed_inner))
      | _ => Err Decode
      end
  end.

(** [request_hash_matches] *)
Definition request_hash_matches (request_bytes : bytes) (response_hash : StaticBytes 16) : bool :=
  if empty request_bytes || negb (sb.size response_hash =? 16) then false else
  let digest := crypto.hash_sha256 request_bytes in
  if length digest <? 16 then false
  else bytes_eqb (sb.to_vector response_hash) (take (sb.size response_hash) digest).

(** ** Lemmas *)

Lemma strip_prefix_tagged tag inner : inner <> [] -> strip_prefix tag (x01 :: tag :: inner) = inner.
Proof.
  intros Hne. unfold strip_prefix. rewrite !bool_decide_eq_true_2 by done.
  destruct inner; [done|]. done.
Qed.

Lemma strip_prefix_cases tag b :
  strip_prefix tag b = b \/ b = x01 :: tag :: strip_prefix tag b.
Proof.
  unfold strip_prefix. destruct b as [|b0 [|b1 rest]]; auto.
  destruct (_ && _ && _) eqn:E; auto. bool_props. subst. auto.
Qed.

(** A match means: the 16 bytes are the leftmost half of the request's digest. *)
Lemma request_hash_matches_spec req h :
  sb.wf h ->
  request_hash_matches req h = true <->
  req <> [] /\ 16 <= length (crypto.hash_sha256 req) /\
  sb.to_vector h = take 16 (crypto.hash_sha256 req).
Proof.
  intros Hwf. unfold request_hash_matches.
  pose proof (sb.size_to_vector _ Hwf) as Hsz. split.
  - intros H. destruct (empty req || _) eqn:E1; [done|].
    destruct (Nat.ltb_spec (length (crypto.hash_sha256 req)) 16); [done|]. bool_props.
    match goal with Hs : sb.size h = 16 |- _ => rewrite Hs in H end. bool_props. auto.
  - intros (Hne & Hl & Hv). rewrite (proj2 (empty_false_iff req)) by done.
    rewrite Hv, length_take, Nat.min_l in Hsz by done. rewrite <- Hsz. cbn [Nat.eqb negb orb].
    destruct (Nat.ltb_spec (length (crypto.hash_sha256 req)) 16); [lia|]. by apply bytes_eqb_eq.
Qed.

(** A 16-byte hash of the request is accepted. *)
Lemma request_hash_accepts req h :
  req <> [] -> h = take 16 (crypto.hash_sha256 req) -> length h = 16 ->
  exists b, sb.from 16 h = Some b /\ request_hash_matches req b = true.
Proof.
  intros Hne Hh Hl. destruct (sb.from_Some (N := 16) h) as (b & Hb & Hv & Hwf); [lia|].
  exists b. split; [done|]. apply request_hash_matches_spec; [done|]. rewrite Hv.
  split_and!; try done. rewrite Hh, length_take in Hl. lia.
Qed.

Context {ossl_ok : OpenSSLOk}.

(** What a certificate authority does with a request: open the first recipient
    with its private key, under its own P1. *)
Definition open_request (ed : EncryptedData) (priv p1 : bytes) : option bytes :=
  match ed with
  | MkEncryptedData (Some (Some (certRecipInfo (Some pk_ri)) :: _)) (Some (aes128ccm (Some ccm))) =>
      decrypt_cert_recipient pk_ri (ccm_nonce ccm) (droplast kAesCcmTagLen (ccmCiphertext ccm))
        (lastn kAesCcmTagLen (ccmCiphertext ccm)) priv p1
  | _ => None
  end.

(** The wrapper keeps the ECIES result, with the ephemeral key compressed. *)
Lemma open_built priv pub pt p1 cert c g e g' :
  is_p256_size c = true -> is_keypair c priv pub ->
  ecies.ecies_encrypt_curve pub pt p1 c g = (Some e, g') ->
  open_request (encrypted_data_of e cert c) priv p1 = Some pt.
Proof.
  intros Hc Hkp He. pose proof (ecies.decrypt_encrypt _ _ _ _ _ _ _ _ Hkp He) as Hd.
  destruct (ecies.encrypt_shape _ _ _ _ _ _ _ He) as (_ & _ & _ & _ & Htag & _ & ep & Hep).
  destruct (crypto_facts.is_keypair_shape _ _ _ Hep) as (_ & _ & x & y & Heq & Hx & Hy).
  assert (Hsl : scalar_len c = kP256ScalarLen) by (by destruct c).
  destruct (point.to_sec1_from_sec1 x04 x y) as (p & Hp & Hs); [congruence..|].
  unfold open_request, encrypted_data_of, octet.set.
  cbn [ccm_nonce ccmCiphertext]. rewrite Heq, Hp.
  rewrite (take_ge (encrypted_key e)), (take_ge (tag_kdf e)), (take_ge (nonce_ccm e)),
    (take_ge (_ ++ _)) by done.
  rewrite droplast_app_len, lastn_app_len by done.
  rewrite Heq in Hep. rewrite <- Hd. symmetry.
  rewrite (ecies.decrypt_ephemeral _ _ (y_tag y :: x)).
  2:{ rewrite Heq. symmetry. by eapply crypto_facts.ecdh_compressed. }
  destruct c; try done; unfold decrypt_cert_recipient, octet.bytes; cbn [encKey]; rewrite Hs;
    reflexivity.
Qed.

(** The client's own decryption is that with an empty P1. *)
Lemma decrypt_built priv pub pt cert c g e g' k :
  is_p256_size c = true -> is_keypair c priv pub ->
  ecies.ecies_encrypt_curve pub pt [] c g = (Some e, g') ->
  decrypt_encrypted_content (Some (encrypted_data_of e cert c)) priv k = Some pt.
Proof.
  intros Hc Hkp He. rewrite <- (open_built _ _ _ _ cert _ _ _ _ Hc Hkp He).
  destruct (ecies.encrypt_shape _ _ _ _ _ _ _ He) as (_ & _ & _ & _ & Htag & _).
  unfold decrypt_encrypted_content, encrypted_data_of, octet.set, octet.bytes, open_request.
  cbn [ccm_nonce ccmCiphertext].
  destruct (Nat.ltb_spec (length (take (length (ecies_ciphertext e ++ tag_ccm e))
    (ecies_ciphertext e ++ tag_ccm e))) kAesCcmTagLen) as [Hlt|_]; [|done].
  rewrite take_ge, length_app in Hlt by done. lia.
Qed.

(** ** Soundness of [decrypt_and_unwrap]: the bytes come out of a message the
    signer's key verifies. *)
Lemma decrypt_and_unwrap_sound resp priv k tag signer inner :
  decrypt_and_unwrap resp priv k tag signer = Ok inner ->
  exists v ed plaintext m,
    coer.decode resp = Some (MkIeee1609Dot2Data v (Some (encryptedData ed))) /\
    decrypt_encrypted_content ed priv k = Some plaintext /\
    signed_msg.unwrap plaintext = Some m /\
    signed_msg.verify m (sb.to_vector (public_key signer)) (sb.to_vector (cert_bytes signer)) = true /\
    (payload_coer m = inner \/ payload_coer m = x01 :: tag :: inner).
Proof.
  unfold decrypt_and_unwrap. intros H.
  destruct (coer.decode resp) as [[v [[]|]]|] eqn:Ho; try done. cbn [data_content] in H.
  destruct (decrypt_encrypted_content e priv k) as [pt|] eqn:Hpt; [|done].
  destruct (signed_msg.unwrap pt) as [m|] eqn:Hm; [|done].
  destruct (signed_msg.verify m _ _) eqn:Hv; [|done]. injection H as <-.
  exists v, e, pt, m. split_and!; try done.
  destruct (strip_prefix_cases tag (payload_coer m)) as [Hs|Hs]; [left|right]; congruence.
Qed.

Context {dc_ok : CodecOk Ieee1609Dot2Data}.

(** A response as a CA builds it: the signed answer, sealed under the request's
    AES key (pskRecipInfo). *)
Definition psk_response (psk_id nonce : bytes) (ccm : AesCcmResult) : Ieee1609Dot2Data :=
  MkIeee1609Dot2Data kIeee1609Dot2Version (Some (encryptedData (Some
    (MkEncryptedData (Some [Some (pskRecipInfo psk_id)])
       (Some (aes128ccm (Some (MkOne28BitCcmCiphertext nonce
          (ccm_ciphertext ccm ++ ccm_tag ccm))))))))).

Lemma decrypt_psk psk_id nonce k pt ccm priv :
  ecies.aes_128_ccm_encrypt k nonce pt = Some ccm ->
  decrypt_encrypted_content
    (Some (MkEncryptedData (Some [Some (pskRecipInfo psk_id)])
       (Some (aes128ccm (Some (MkOne28BitCcmCiphertext nonce
          (ccm_ciphertext ccm ++ ccm_tag ccm))))))) priv k = Some pt.
Proof.
  unfold ecies.aes_128_ccm_encrypt. intros H.
  destruct (negb _ || negb _) eqn:Hl in H; [done|].
  destruct (aes_128_ccm_seal k nonce pt) as [[ct tg]|] eqn:Hs; [|done]. injection H as <-.
  destruct (ccm_seal_len _ _ _ _ _ Hs) as [_ Htg].
  unfold decrypt_encrypted_content, octet.bytes. cbn [ccm_nonce ccmCiphertext ccm_ciphertext ccm_tag].
  destruct (Nat.ltb_spec (length (ct ++ tg)) kAesCcmTagLen) as [Hlt|_].
  { rewrite length_app in Hlt. lia. }
  rewrite droplast_app_len, lastn_app_len by done.
  unfold ecies.aes_128_ccm_decrypt. rewrite Htg, Nat.eqb_refl.
  bool_props. destruct k as [|k0 k]; [done|]. cbn [empty negb].
  repeat match goal with Hq : length _ = _ |- _ => rewrite (proj2 (Nat.eqb_eq _ _) Hq); clear Hq end.
  cbn [negb orb]. by apply ccm_open_seal.
Qed.

(** Completeness: a genuine response decodes to what the CA signed. *)
Lemma decrypt_and_unwrap_complete resp priv k tag signer spriv inner now g env g' nonce ccm psk_id :
  curve signer <> NistP384 ->
  is_keypair (curve signer) spriv (sb.to_vector (public_key signer)) ->
  hashed_id_8 signer = cert.compute_hid8 (sb.to_vector (cert_bytes signer)) ->
  inner <> [] ->
  sign.build_signed_by_cert (x01 :: tag :: inner) signer spriv (curve signer) now g = (env, g') ->
  env <> [] -> ecies.aes_128_ccm_encrypt k nonce env = Some ccm ->
  resp = coer.encode (psk_response psk_id nonce ccm) -> resp <> [] ->
  decrypt_and_unwrap resp priv k tag signer = Ok inner.
Proof.
  intros Hc Hkp Hhid Hin Hsign Hne Hccm -> Hresp. unfold decrypt_and_unwrap.
  rewrite coer.encode_decode by done. cbn [data_content psk_response].
  rewrite (decrypt_psk _ _ _ env) by done.
  destruct (sign.unwrap_signed_by_cert (x01 :: tag :: inner) _ _ _ _ _ _ Hc Hkp Hhid ltac:(done) Hsign Hne)
    as (m & Hm & Hpl & _ & _ & Hv).
  rewrite Hm, Hv, Hpl. cbn [negb]. by rewrite strip_prefix_tagged.
Qed.

End enc.
End enc.
