(* ===== verification/Revocation.v ===== *)
(** src/revocation.cpp and include/v2xpki/revocation.hpp: CRL decoding and the
    revocation store. *)
From stdpp Require Import gmap.
From S2P Require Import Prelude Result Sizes StaticBytes Asn OpenSSL CryptoEc CertParse.
From S2P Require Import SignedMessage SignedEnvelope.

Record CrlContents := MkCrlContents {
  issuer_hid8 : hid8;
  this_update : Z;
  next_update : Z;
  revoked : list hid8;
}.

(** The loop over [crl->entries]: entries that are not 8 bytes long are skipped. *)
Fixpoint crl_revoked (l : list (option bytes)) : list hid8 :=
  match l with
  | [] => []
  | e :: l =>
      match e with
      | Some b => if negb (length b =? kHashedId8Len) then crl_revoked l else b :: crl_revoked l
      | None => crl_revoked l
      end
  end.

Section decode.
Context {ossl : OpenSSL}.
Context {cb : Codec CertificateBase} {dc : Codec Ieee1609Dot2Data} {tc : Codec ToBeSignedData}.
Context {ec : Codec EtsiTs102941Data}.

Definition decode_crl (coer rca_pubkey rca_cert_coer : bytes) : Result CrlContents :=
  some! msg := signed_msg.unwrap coer or! Err Decode;
  if empty rca_pubkey || empty rca_cert_coer then Err InvalidArgument else
  if negb (signed_msg.verify msg rca_pubkey rca_cert_coer) then Err SignatureInvalid else
  match coer.decode_with_basic_fallback (T := EtsiTs102941Data) (payload_coer msg) with
  | Some (MkEtsiTs102941Data _ (Some (certificateRevocationList (Some crl)))) =>
      if negb (has_signer_digest msg) then Err Decode
      else Ok (MkCrlContents (signer_hid8 msg) (u32 (thisUpdate crl)) (u32 (crl_nextUpdate crl))
                 (crl_revoked (entries crl)))
  | _ => Err Decode
  end.

End decode.

(** ** The store: std::map<hid8, std::set<hid8>> *)

Record RevocationStore := MkRevocationStore {
  revoked_ : gmap hid8 (gset hid8);
}.

Module store.

Definition empty_store : RevocationStore := MkRevocationStore ∅.

Definition apply (st : RevocationStore) (crl : CrlContents) (now_tai : Z)
    : bool * RevocationStore :=
  if (0 <? next_update crl)%Z && (next_update crl <? now_tai)%Z then (false, st) else
  (true, MkRevocationStore (<[issuer_hid8 crl := list_to_set (revoked crl)]> (revoked_ st))).

Definition is_revoked (st : RevocationStore) (issuer_hid8 cert_hid8 : hid8) : bool :=
  match revoked_ st !! issuer_hid8 with
  | None => false
  | Some s => bool_decide (cert_hid8 ∈ s)
  end.

Definition issuer_count (st : RevocationStore) : nat := size (revoked_ st).

(** ** Lemmas *)

(** A CRL is stale when it carries a nextUpdate that has passed. *)
Definition stale (crl : CrlContents) (now_tai : Z) : Prop :=
  (0 < next_update crl < now_tai)%Z.

Lemma apply_stale st crl now : stale crl now -> apply st crl now = (false, st).
Proof.
  intros [H1 H2]. unfold apply. by rewrite (proj2 (Z.ltb_lt _ _) H1), (proj2 (Z.ltb_lt _ _) H2).
Qed.

Lemma apply_fresh st crl now :
  ~ stale crl now ->
  apply st crl now =
  (true, MkRevocationStore (<[issuer_hid8 crl := list_to_set (revoked crl)]> (revoked_ st))).
Proof.
  intros H. unfold apply, stale in *.
  destruct (_ && _) eqn:E; [|done]. bool_props. lia.
Qed.

Lemma is_revoked_empty i c : is_revoked empty_store i c = false.
Proof. done. Qed.

Lemma is_revoked_insert m i s i' c :
  is_revoked (MkRevocationStore (<[i := s]> m)) i' c =
  if decide (i = i') then bool_decide (c ∈ s) else is_revoked (MkRevocationStore m) i' c.
Proof.
  unfold is_revoked. simpl. destruct (decide (i = i')) as [->|Hne].
  - by rewrite lookup_insert_eq.
  - by rewrite lookup_insert_ne.
Qed.

(** The state after a sequence of CRLs, each applied at its own time. *)
Fixpoint apply_all (st : RevocationStore) (l : list (CrlContents * Z)) : RevocationStore :=
  match l with
  | [] => st
  | (crl, now) :: l => apply_all (apply st crl now).2 l
  end.

(** The last CRL of an issuer that was not stale when it was applied: what the
    store is meant to answer from. *)
Fixpoint current_crl (i : hid8) (l : list (CrlContents * Z)) : option CrlContents :=
  match l with
  | [] => None
  | (crl, now) :: l =>
      match current_crl i l with
      | Some c => Some c
      | None => if bool_decide (issuer_hid8 crl = i)
                   && negb ((0 <? next_update crl)%Z && (next_update crl <? now)%Z)
                then Some crl else None
      end
  end.

Lemma apply_all_spec l st i c :
  is_revoked (apply_all st l) i c =
  match current_crl i l with
  | Some crl => bool_decide (c ∈ revoked crl)
  | None => is_revoked st i c
  end.
Proof.
  revert st. induction l as [|[crl now] l IH]; intros st; simpl; [done|].
  rewrite IH. destruct (current_crl i l) as [crl'|]; [done|].
  unfold apply. destruct ((0 <? next_update crl)%Z && (next_update crl <? now)%Z) eqn:Hst; simpl.
  { by rewrite andb_false_r. }
  rewrite andb_true_r, is_revoked_insert. destruct (decide (issuer_hid8 crl = i)) as [Hi|Hi].
  - rewrite (bool_decide_eq_true_2 (issuer_hid8 crl = i)) by done. apply bool_decide_ext. by rewrite elem_of_list_to_set.
  - rewrite (bool_decide_eq_false_2 (issuer_hid8 crl = i)) by done. by destruct st.
Qed.

(** The CRL, if it is of issuer [i] and not stale, lists the certificate [c]. *)
Definition keeps (i c : hid8) (entry : CrlContents * Z) : Prop :=
  issuer_hid8 entry.1 = i -> ~ stale entry.1 entry.2 -> c ∈ revoked entry.1.

Lemma apply_keeps st crl now i c :
  keeps i c (crl, now) -> is_revoked st i c = true -> is_revoked (apply st crl now).2 i c = true.
Proof.
  intros Hk Hr. destruct (decide (stale crl now)) as [Hs|Hs]; [by rewrite apply_stale|].
  rewrite apply_fresh by done. simpl. rewrite is_revoked_insert. destruct (decide _) as [Hi|]; [|by destruct st].
  rewrite bool_decide_eq_true, elem_of_list_to_set. by apply (Hk Hi).
Qed.

Lemma apply_all_keeps l st i c :
  Forall (keeps i c) l -> is_revoked st i c = true -> is_revoked (apply_all st l) i c = true.
Proof.
  revert st. induction l as [|[crl now] l IH]; intros st; [done|].
  intros Hf Hr. inversion Hf as [|? ? Hk Hl]; subst. simpl. apply IH; [done|]. by apply apply_keeps.
Qed.

End store.

(** ** Properties of [decode_crl] *)

Section decode_facts.
Context {ossl : OpenSSL}.
Context {cb : Codec CertificateBase} {dc : Codec Ieee1609Dot2Data} {tc : Codec ToBeSignedData}.
Context {ec : Codec EtsiTs102941Data}.

Lemma crl_revoked_elem h l : h ∈ crl_revoked l <-> Some h ∈ l /\ length h = kHashedId8Len.
Proof.
  induction l as [|[b|] l IH]; simpl.
  - rewrite !elem_of_nil. naive_solver.
  - rewrite elem_of_cons. destruct (length b =? kHashedId8Len) eqn:E; bool_props; cbn [negb].
    + rewrite elem_of_cons, IH. naive_solver.
    + rewrite IH. naive_solver.
  - rewrite elem_of_cons, IH. naive_solver.
Qed.

Lemma decode_crl_sound coer pub cert crl :
  decode_crl coer pub cert = Ok crl ->
  exists m tbs v,
    signed_msg.unwrap coer = Some m /\ signed_msg.verify m pub cert = true /\
    coer.decode_with_basic_fallback (payload_coer m) =
      Some (MkEtsiTs102941Data v (Some (certificateRevocationList (Some tbs)))) /\
    issuer_hid8 crl = cert.compute_hid8 cert /\
    this_update crl = u32 (thisUpdate tbs) /\ next_update crl = u32 (crl_nextUpdate tbs) /\
    (forall h, h ∈ revoked crl <-> Some h ∈ entries tbs /\ length h = kHashedId8Len).
Proof.
  unfold decode_crl. intros H.
  destruct (signed_msg.unwrap coer) as [m|] eqn:Hm; [|done].
  destruct (empty pub || empty cert); [done|].
  destruct (signed_msg.verify m pub cert) eqn:Hv; [|done]. cbn [negb] in H.
  destruct (coer.decode_with_basic_fallback (payload_coer m)) as [[v [[]|]]|] eqn:Hd; try done.
  destruct c as [tbs|]; [|done].
  destruct (has_signer_digest m) eqn:Hh; [|done]. injection H as <-.
  destruct (signed_msg.verify_true _ _ _ Hv) as (_ & _ & Hid & _).
  exists m, tbs, v. split_and!; try done.
  - simpl. symmetry. auto.
  - exact (fun h => crl_revoked_elem h (entries tbs)).
Qed.

Context {ossl_ok : OpenSSLOk} {dc_ok : CodecOk Ieee1609Dot2Data} {ec_ok : CodecOk EtsiTs102941Data}.

(** Completeness: a CRL signed by the root CA decodes to its entries. *)
Lemma decode_crl_complete coer rca priv now g g' tbs v :
  curve rca <> NistP384 ->
  is_keypair (curve rca) priv (sb.to_vector (public_key rca)) ->
  sb.to_vector (cert_bytes rca) <> [] ->
  hashed_id_8 rca = cert.compute_hid8 (sb.to_vector (cert_bytes rca)) ->
  let pl := coer.encode (MkEtsiTs102941Data v (Some (certificateRevocationList (Some tbs)))) in
  pl <> [] ->
  sign.build_signed_by_cert pl rca priv (curve rca) now g = (coer, g') -> coer <> [] ->
  decode_crl coer (sb.to_vector (public_key rca)) (sb.to_vector (cert_bytes rca)) =
  Ok (MkCrlContents (hashed_id_8 rca) (u32 (thisUpdate tbs)) (u32 (crl_nextUpdate tbs))
        (crl_revoked (entries tbs))).
Proof.
  intros Hc Hkp Hcb Hhid pl Hpl Hs Hne.
  destruct (sign.unwrap_signed_by_cert _ _ _ _ _ _ _ Hc Hkp Hhid Hpl Hs Hne)
    as (m & Hm & Hp & Hd & Hh & Hv).
  unfold decode_crl. rewrite Hm, Hv, Hp, Hd, Hh by done. subst pl.
  rewrite coer.encode_decode_fallback by done.
  destruct (crypto_facts.is_keypair_shape _ _ _ Hkp) as (_ & _ & x & y & -> & _).
  destruct (sb.to_vector (cert_bytes rca)); done.
Qed.

End decode_facts.
