(* ===== verification/TrustChain.v ===== *)
(** src/trust_chain.cpp and include/v2xpki/trust_chain.hpp: the certificate store,
    chain validation and the certificate builders of [cert_utils].

    The store keeps a pointer to a revocation store it does not own: [revocation_]
    is an optional location and [heap] gives the contents of the stores at the time
    of the call, so a CRL applied after [set_revocation_store] is seen. *)
From Stdlib Require Import Ascii.
From stdpp Require Import gmap.
From S2P Require Import Prelude StdMap Result Sizes StaticBytes Asn OpenSSL CryptoEc CurvePoint.
From S2P Require Import CertParse SignedMessage SignedEnvelope Revocation.

Abbreviation loc := positive.
Abbreviation heap := (loc -> RevocationStore).

Record TrustChain := MkTrustChain {
  certs_ : gmap hid8 CertInfo;
  revocation_ : option loc;
}.

(** ** std::filesystem::path, on file names *)

Fixpoint last_dot (l : list ascii) : option nat :=
  match l with
  | [] => None
  | c :: l =>
      match last_dot l with
      | Some i => Some (S i)
      | None => if decide (c = "."%char) then Some 0 else None
      end
  end.

(** Where the extension starts, if the name has one: "." and "..", names without a
    dot and names whose only dot comes first have none. *)
Definition ext_pos (name : string) : option nat :=
  if bool_decide (name = "."%string) || bool_decide (name = ".."%string) then None else
  match last_dot (String.list_ascii_of_string name) with
  | Some (S i) => Some (S i)
  | _ => None
  end.

Definition path_extension (name : string) : string :=
  match ext_pos name with
  | Some i => String.string_of_list_ascii (drop i (String.list_ascii_of_string name))
  | None => ""
  end.

Definition path_stem (name : string) : string :=
  match ext_pos name with
  | Some i => String.string_of_list_ascii (take i (String.list_ascii_of_string name))
  | None => name
  end.

(** A directory entry; [de_contents] is [None] when the stream does not open. *)
Record dir_entry := MkDirEntry {
  de_name : string;
  de_regular : bool;
  de_contents : option bytes;
}.

Module chain.
Section chain.
Context {ossl : OpenSSL}.

Definition empty_chain : TrustChain := MkTrustChain ∅ None.

Definition set_revocation_store (tc : TrustChain) (store : option loc) : TrustChain :=
  MkTrustChain (certs_ tc) store.

(** [add_cert] always answers true, so only the new state is kept. *)
Definition add_cert (tc : TrustChain) (ci : CertInfo) : TrustChain :=
  MkTrustChain (<[hashed_id_8 ci := ci]> (certs_ tc)) (revocation_ tc).

Definition find_by_hashed_id_8 (tc : TrustChain) (h : hid8) : option CertInfo := certs_ tc !! h.

Definition size (tc : TrustChain) : nat := stdpp.base.size (certs_ tc).

(** One iteration of [load_from_directory]. *)
Definition load_entry {cb : Codec CertificateBase} {tb : Codec ToBeSignedCertificate}
    {junk : Uninit} (st : bool * TrustChain) (entry : dir_entry) : bool * TrustChain :=
  let '(loaded_any, tc) := st in
  if negb (de_regular entry) then st else
  if negb (bool_decide (path_extension (de_name entry) = ".cert"%string)) then st else
  match de_contents entry with
  | None => st
  | Some raw =>
      if empty raw then st else
      let ci := cert.from_coer raw in
      if sb.is_empty (cert_bytes ci) then st else
      let ci := set_label ci (path_stem (de_name entry)) in
      (true, add_cert tc ci)
  end.

(** [dir] is [None] when the path is not a directory, else its entries in the
    order of the iterator. *)
Definition load_from_directory {cb : Codec CertificateBase} {tb : Codec ToBeSignedCertificate}
    {junk : Uninit} (tc : TrustChain) (dir : option (list dir_entry)) : bool * TrustChain :=
  match dir with
  | None => (false, tc)
  | Some entries => foldl load_entry (false, tc) entries
  end.

(** [current_tai_seconds], [now] being [time(nullptr)]. *)
Definition current_tai_seconds (now : Z) : Z := unix_to_tai_seconds now.

Definition is_revoked_by_issuer (tc : TrustChain) (hp : heap) (cert issuer : CertInfo) : bool :=
  match revocation_ tc with
  | None => false
  | Some l => store.is_revoked (hp l) (hashed_id_8 issuer) (hashed_id_8 cert)
  end.

(** The [hash] lambda of [verify_cert_signature]. *)
Definition cert_hash (h : SigHash) (data : bytes) : bytes :=
  match h with
  | Sha384 => crypto.hash_sha384 data
  | Sha256 => crypto.hash_sha256 data
  end.

Definition verify_cert_signature (cert issuer : CertInfo) : bool :=
  let slen := scalar_len (curve issuer) in
  if sb.is_empty (tbs_bytes cert) || negb (sb.size (signature_r cert) =? slen)
     || negb (sb.size (signature_s cert) =? slen) then false else
  if sb.is_empty (public_key issuer) then false else
  let hash := cert_hash (issuer_hash cert) in
  let tbs_hash := hash (sb.to_vector (tbs_bytes cert)) in
  let signer_input := if is_self_signed cert then [] else sb.to_vector (cert_bytes issuer) in
  let signer_hash := hash signer_input in
  let digest := hash (tbs_hash ++ signer_hash) in
  crypto.ecdsa_verify_digest_curve (sb.to_vector (public_key issuer)) digest
    (MkSignature (signature_r cert) (signature_s cert)) (curve issuer).

Definition validate_chain (tc : TrustChain) (hp : heap) (at_cert : CertInfo) (now_tai : Z) : bool :=
  if is_self_signed at_cert then false else
  if negb (valid_at at_cert now_tai) then false else
  match find_by_hashed_id_8 tc (issuer_hash_id_8 at_cert) with
  | None => false
  | Some aa_cert =>
      if negb (valid_at aa_cert now_tai) then false else
      if negb (verify_cert_signature at_cert aa_cert) then false else
      if is_revoked_by_issuer tc hp at_cert aa_cert then false else
      if is_self_signed aa_cert then
        if is_revoked_by_issuer tc hp aa_cert aa_cert then false
        else verify_cert_signature aa_cert aa_cert
      else
        match find_by_hashed_id_8 tc (issuer_hash_id_8 aa_cert) with
        | None => false
        | Some rca_cert =>
            if negb (valid_at rca_cert now_tai) then false else
            if negb (verify_cert_signature aa_cert rca_cert) then false else
            if is_revoked_by_issuer tc hp aa_cert rca_cert then false else
            if negb (is_self_signed rca_cert) then false else
            if is_revoked_by_issuer tc hp rca_cert rca_cert then false
            else verify_cert_signature rca_cert rca_cert
        end
  end.

(** [ci.label.find(prefix) == 0], in the order of the map. *)
Definition get_by_prefix (tc : TrustChain) (prefix : string) : list CertInfo :=
  (filter (fun e => Is_true (String.prefix prefix (label e.2))) (map_iter (certs_ tc))).*2.

Definition get_rcas (tc : TrustChain) := get_by_prefix tc "rca_".
Definition get_aas (tc : TrustChain) := get_by_prefix tc "aa_".
Definition get_eas (tc : TrustChain) := get_by_prefix tc "ea_".
Definition get_tlms (tc : TrustChain) := get_by_prefix tc "tlm_".

(** ** What validation means

    A chain of length [n] from a certificate to a trusted root, by the rules of
    TS 103 097: every certificate is inside its validity period, signed by the
    certificate its issuer digest names and not on that issuer's CRL; the chain
    ends in a self-signed certificate that its own CRL does not list. *)
Inductive trusted (tc : TrustChain) (hp : heap) (now : Z) : nat -> CertInfo -> Prop :=
  | trusted_root r :
      is_self_signed r = true -> valid_at r now = true ->
      verify_cert_signature r r = true -> is_revoked_by_issuer tc hp r r = false ->
      trusted tc hp now 0 r
  | trusted_issued n c i :
      is_self_signed c = false -> valid_at c now = true ->
      certs_ tc !! issuer_hash_id_8 c = Some i ->
      verify_cert_signature c i = true -> is_revoked_by_issuer tc hp c i = false ->
      trusted tc hp now n i ->
      trusted tc hp now (S n) c.

Lemma trusted_valid tc hp now n c : trusted tc hp now n c -> valid_at c now = true.
Proof. by inversion 1. Qed.

Lemma trusted_self tc hp now n c :
  trusted tc hp now n c -> is_self_signed c = bool_decide (n = 0).
Proof. by inversion 1. Qed.

(** [validate_chain] decides the existence of a chain of one or two links. *)
Lemma validate_chain_iff tc hp c now :
  validate_chain tc hp c now = true <-> trusted tc hp now 1 c \/ trusted tc hp now 2 c.
Proof.
  unfold validate_chain, find_by_hashed_id_8. split.
  - intros H.
    destruct (is_self_signed c) eqn:Hs; [done|].
    destruct (valid_at c now) eqn:Hv; [|done]. cbn [negb] in H.
    destruct (certs_ tc !! issuer_hash_id_8 c) as [aa|] eqn:Haa; [|done].
    destruct (valid_at aa now) eqn:Hva; [|done]. cbn [negb] in H.
    destruct (verify_cert_signature c aa) eqn:Hsc; [|done]. cbn [negb] in H.
    destruct (is_revoked_by_issuer tc hp c aa) eqn:Hr; [done|].
    destruct (is_self_signed aa) eqn:Hsa.
    + destruct (is_revoked_by_issuer tc hp aa aa) eqn:Hra; [done|].
      left. by eapply trusted_issued; eauto; apply trusted_root.
    + destruct (certs_ tc !! issuer_hash_id_8 aa) as [rca|] eqn:Hrca; [|done].
      destruct (valid_at rca now) eqn:Hvr; [|done]. cbn [negb] in H.
      destruct (verify_cert_signature aa rca) eqn:Hsr; [|done]. cbn [negb] in H.
      destruct (is_revoked_by_issuer tc hp aa rca) eqn:Hraa; [done|].
      destruct (is_self_signed rca) eqn:Hss; [|done]. cbn [negb] in H.
      destruct (is_revoked_by_issuer tc hp rca rca) eqn:Hrr; [done|].
      right. eapply trusted_issued; eauto. eapply trusted_issued; eauto. by apply trusted_root.
  - intros [H|H]; inversion H as [|n c' i Hs Hv Hi Hsig Hr Ht]; subst;
      rewrite Hs, Hv, Hi, (trusted_valid _ _ _ _ _ Ht), Hsig, Hr, (trusted_self _ _ _ _ _ Ht);
      cbn [negb bool_decide decide_rel Nat.eq_dec]; inversion Ht as [? ? ? Hs2 Hr2|n' c' j Hs' Hv' Hj Hsig' Hr' Ht']; subst.
    + cbn. by rewrite Hr2.
    + cbn. rewrite Hj, (trusted_valid _ _ _ _ _ Ht'), Hsig', Hr', (trusted_self _ _ _ _ _ Ht').
      cbn. inversion Ht' as [? ? ? Hs2 Hr2|]; subst. by rewrite Hr2.
Qed.

(** Chains survive a larger store and a weaker revocation state. *)
Lemma trusted_mono tc hp tc' hp' now n c :
  certs_ tc ⊆ certs_ tc' ->
  (forall a b, is_revoked_by_issuer tc hp a b = false -> is_revoked_by_issuer tc' hp' a b = false) ->
  trusted tc hp now n c -> trusted tc' hp' now n c.
Proof.
  intros Hsub Hrev. induction 1 as [r Hs Hv Hsg Hr|n c i Hs Hv Hi Hsg Hr Ht IH].
  - apply trusted_root; auto.
  - eapply trusted_issued; eauto using lookup_weaken.
Qed.

(** ** The store invariant: every certificate is filed under its own identifier. *)
Definition keyed (tc : TrustChain) : Prop := map_Forall (fun k ci => hashed_id_8 ci = k) (certs_ tc).

Lemma keyed_empty : keyed empty_chain.
Proof. apply map_Forall_empty. Qed.

Lemma keyed_add_cert tc ci : keyed tc -> keyed (add_cert tc ci).
Proof. intros H. by apply map_Forall_insert_2. Qed.

Lemma find_add_cert tc ci h :
  find_by_hashed_id_8 (add_cert tc ci) h =
  if decide (hashed_id_8 ci = h) then Some ci else find_by_hashed_id_8 tc h.
Proof.
  unfold find_by_hashed_id_8. simpl. destruct (decide (hashed_id_8 ci = h)) as [->|Hne].
  - by rewrite lookup_insert_eq.
  - by rewrite lookup_insert_ne.
Qed.

(** A certificate on its issuer's list is refused. *)
Lemma validate_revoked tc hp c now l :
  keyed tc -> revocation_ tc = Some l ->
  store.is_revoked (hp l) (issuer_hash_id_8 c) (hashed_id_8 c) = true ->
  validate_chain tc hp c now = false.
Proof.
  intros Hk Hl Hr. destruct (validate_chain tc hp c now) eqn:Hv; [|done].
  apply validate_chain_iff in Hv.
  assert (exists i, certs_ tc !! issuer_hash_id_8 c = Some i /\
                    is_revoked_by_issuer tc hp c i = false) as (i & Hi & Hri).
  { destruct Hv as [Hv|Hv]; inversion Hv; subst; eauto. }
  unfold is_revoked_by_issuer in Hri. rewrite Hl in Hri.
  rewrite (Hk _ _ Hi) in Hri. congruence.
Qed.

(** ** [get_by_prefix] and [load_from_directory] *)

Lemma get_by_prefix_elem tc p ci :
  ci ∈ get_by_prefix tc p <->
  (exists k, certs_ tc !! k = Some ci) /\ String.prefix p (label ci) = true.
Proof.
  unfold get_by_prefix. rewrite list_elem_of_fmap. split.
  - intros ([k ci'] & -> & [Hp Hin]%list_elem_of_filter). simpl in *.
    apply Is_true_true in Hp. apply map_iter_elem in Hin. eauto.
  - intros [[k Hk] Hp]. exists (k, ci). split; [done|]. apply list_elem_of_filter.
    split; [by apply Is_true_true|]. by apply map_iter_elem.
Qed.

Section load.
Context {cb : Codec CertificateBase} {tb : Codec ToBeSignedCertificate} {junk : Uninit}.

(** The certificate an entry contributes, if any. *)
Definition loadable (e : dir_entry) : option CertInfo :=
  raw ← de_contents e;
  if de_regular e && bool_decide (path_extension (de_name e) = ".cert"%string)
     && negb (empty raw) && negb (sb.is_empty (cert_bytes (cert.from_coer raw)))
  then Some (set_label (cert.from_coer raw) (path_stem (de_name e)))
  else None.

Lemma load_entry_loadable st e :
  load_entry st e =
  match loadable e with Some ci => (true, add_cert st.2 ci) | None => st end.
Proof.
  unfold load_entry, loadable. destruct st as [b tc].
  destruct (de_contents e) as [raw|], (de_regular e), (bool_decide _); simpl; try done.
  by destruct (empty raw), (sb.is_empty _).
Qed.

(** The directory is folded into the store, entry by entry. *)
Lemma load_from_directory_spec tc es :
  load_from_directory tc (Some es) =
  (negb (empty (omap loadable es)), foldl add_cert tc (omap loadable es)).
Proof.
  unfold load_from_directory. assert (Hgen : forall b tc, foldl load_entry (b, tc) es =
    (b || negb (empty (omap loadable es)), foldl add_cert tc (omap loadable es))).
  { induction es as [|e es IH]; intros b t; [simpl; by rewrite orb_false_r|].
    cbn [foldl]. rewrite load_entry_loadable. cbn [omap list_omap].
    destruct (loadable e); rewrite IH; [|done]. simpl. by rewrite orb_true_r. }
  apply Hgen.
Qed.

Lemma keyed_load tc dir : keyed tc -> keyed (load_from_directory tc dir).2.
Proof.
  intros Hk. destruct dir as [es|]; [|done]. rewrite load_from_directory_spec. simpl.
  generalize (omap loadable es) as l. intros l. revert tc Hk.
  induction l; intros tc Hk; simpl; auto using keyed_add_cert.
Qed.

End load.
End chain.
End chain.

(** ** The certificate builders *)

Module cert_utils.
Section cert_utils.
Context {ossl : OpenSSL}.

(** The structure both [encode_tbs_uper] and [build_tbs_struct] fill in; the two
    bodies are the same code. *)
Definition tbs_struct (name : string) (public_key : bytes) (is_ca : bool)
    (start_time duration_years : Z) : ToBeSignedCertificate :=
  let point :=
    P256_uncompressedP256
      (octet.set (drop 1 public_key) kP256ScalarLen)
      (octet.set (drop kP256CompressedLen public_key) kP256ScalarLen) in
  {| tbs_id := Some (CertificateId_name (bytes_of_string name));
     cracaId := octet.set [x00; x00; x00] 3;
     crlSeries := 0;
     validityPeriod := Some (MkValidityPeriod start_time (Some (years duration_years)));
     appPermissions := None;
     certIssuePermissions := if is_ca then Some [] else None;
     encryptionKey := None;
     verifyKeyIndicator := Some (verificationKey (Some (ecdsaNistP256 (Some point))));
     tbs_other := [] |}.

Definition encode_tbs_uper {up : UperCodec ToBeSignedCertificate} (name : string)
    (public_key : bytes) (is_ca : bool) (start_time duration_years : Z) : bytes :=
  if negb (length public_key =? kP256PublicKeyLen) then []
  else coer.encode_uper (tbs_struct name public_key is_ca start_time duration_years).

Definition build_tbs_struct (name : string) (public_key : bytes) (is_ca : bool)
    (start_time duration_years : Z) : option ToBeSignedCertificate :=
  if negb (length public_key =? kP256PublicKeyLen) then None
  else Some (tbs_struct name public_key is_ca start_time duration_years).

Context {cb : Codec CertificateBase} {tb : Codec ToBeSignedCertificate}.

(** The CertificateBase that goes on the wire. *)
Definition cert_struct (tbs : ToBeSignedCertificate) (sig : Signature) (issuer_hid8 : hid8)
    (is_self_signed : bool) : CertificateBase :=
  let issuer :=
    if is_self_signed then self HashAlgorithm_sha256
    else sha256AndDigest (octet.set issuer_hid8 kHashedId8Len) in
  let ecdsa_sig :=
    MkEcdsaP256Signature (Some (P256_x_only (octet.set (data_ (sig_r sig)) kP256ScalarLen)))
      (octet.set (data_ (sig_s sig)) kP256ScalarLen) in
  MkCertificateBase kIeee1609Dot2Version CertificateType_explicit (Some issuer) (Some tbs)
    (Some (ecdsaNistP256Signature (Some ecdsa_sig))).

Definition build_signed_cert (name : string) (subject_public_key issuer_private_key : bytes)
    (issuer_hid8 : hid8) (is_ca is_self_signed : bool) (issuer_cert_bytes : bytes) (g : rng)
    : option CertInfo * rng :=
  if negb (length subject_public_key =? kP256PublicKeyLen) then (None, g) else
  let start_time := 0%Z in
  let duration_years := 30%Z in
  match build_tbs_struct name subject_public_key is_ca start_time duration_years with
  | None => (None, g)
  | Some tbs =>
      let tbs_coer := coer.encode tbs in
      if empty tbs_coer then (None, g) else
      let tbs_hash := crypto.hash_sha256 tbs_coer in
      let signer_input := if is_self_signed then [] else issuer_cert_bytes in
      let signer_hash := crypto.hash_sha256 signer_input in
      let digest := crypto.hash_sha256 (tbs_hash ++ signer_hash) in
      match crypto.ecdsa_sign_digest issuer_private_key digest g with
      | (None, g) => (None, g)
      | (Some sig, g) =>
          let cert_bytes := coer.encode (cert_struct tbs sig issuer_hid8 is_self_signed) in
          if empty cert_bytes then (None, g) else
          match sb.from kP384PublicKeyLen subject_public_key,
                sb.from kMaxCoerMessageLen cert_bytes,
                sb.from kMaxCoerMessageLen tbs_coer with
          | Some pk, Some cb, Some tb =>
              (Some {| cert_bytes := cb;
                       hashed_id_8 := cert.compute_hid8 cert_bytes;
                       public_key := pk;
                       encryption_key := sb.default_ _;
                       enc_curve := NistP256;
                       issuer_hash_id_8 := if is_self_signed then zeros 8 else issuer_hid8;
                       CertParse.is_self_signed := is_self_signed;
                       tbs_bytes := tb;
                       signature_r := sig_r sig;
                       signature_s := sig_s sig;
                       curve := NistP256;
                       issuer_hash := Sha256;
                       validity_start := start_time;
                       validity_duration_seconds := u64 (duration_years * kYearSeconds);
                       label := name |}, g)
          | _, _, _ => (None, g)
          end
      end
  end.

Definition build_root_cert (name : string) (public_key private_key : bytes) (g : rng)
    : option CertInfo * rng :=
  build_signed_cert name public_key private_key (zeros 8) true true [] g.

(** ** Lemmas *)

Context {ossl_ok : OpenSSLOk}.

(** Everything a successful build fixes about its result. *)
Lemma build_signed_cert_inv name spk ipriv ih ca ss icb g ci g' :
  build_signed_cert name spk ipriv ih ca ss icb g = (Some ci, g') ->
  exists sig, let tbs := tbs_struct name spk ca 0 30 in
    crypto.ecdsa_sign_digest ipriv (crypto.hash_sha256 (crypto.hash_sha256 (coer.encode tbs) ++
      crypto.hash_sha256 (if ss then [] else icb))) g = (Some sig, g') /\
    length spk = kP256PublicKeyLen /\
    sb.to_vector (public_key ci) = spk /\ sb.wf (public_key ci) /\
    sb.to_vector (tbs_bytes ci) = coer.encode tbs /\ sb.wf (tbs_bytes ci) /\
    coer.encode tbs <> [] /\
    sb.to_vector (cert_bytes ci) = coer.encode (cert_struct tbs sig ih ss) /\
    coer.encode (cert_struct tbs sig ih ss) <> [] /\
    hashed_id_8 ci = cert.compute_hid8 (sb.to_vector (cert_bytes ci)) /\
    signature_r ci = sig_r sig /\ signature_s ci = sig_s sig /\
    curve ci = NistP256 /\ issuer_hash ci = Sha256 /\ is_self_signed ci = ss /\
    issuer_hash_id_8 ci = (if ss then zeros 8 else ih) /\ label ci = name /\
    validity_start ci = 0%Z /\ validity_duration_seconds ci = (30 * kYearSeconds)%Z /\
    sb.wf (cert_bytes ci).
Proof.
  unfold build_signed_cert, build_tbs_struct. intros H.
  destruct (length spk =? kP256PublicKeyLen) eqn:Hl; [|done]. cbn [negb] in H.
  destruct (empty (coer.encode _)) eqn:He in H; [done|].
  destruct (crypto.ecdsa_sign_digest _ _ _) as [[sig|] g1] eqn:Hs; [|done].
  destruct (empty (coer.encode (cert_struct _ _ _ _))) eqn:Hc; [done|].
  destruct (sb.from _ spk) as [pk|] eqn:Hpk; [|done].
  destruct (sb.from _ (coer.encode (cert_struct _ _ _ _))) as [cbb|] eqn:Hcb; [|done].
  destruct (sb.from _ (coer.encode (tbs_struct _ _ _ _ _))) as [tbb|] eqn:Htb; [|done].
  injection H as <- <-. exists sig. cbn. bool_props.
  split_and!; eauto using sb.to_vector_from, sb.from_wf.
  by rewrite (sb.to_vector_from _ _ Hcb).
Qed.

Lemma build_signed_cert_valid name spk ipriv ih ca ss icb g ci g' now :
  build_signed_cert name spk ipriv ih ca ss icb g = (Some ci, g') ->
  (0 <= now < 30 * kYearSeconds)%Z -> valid_at ci now = true.
Proof.
  intros H Hn. apply build_signed_cert_inv in H as (sig & H). cbv zeta in H; destruct_and! H.
  unfold valid_at. match goal with Hd : validity_duration_seconds ci = _ |- _ => rewrite Hd end.
  match goal with Hd : validity_start ci = _ |- _ => rewrite Hd end. unfold kYearSeconds in *.
  cbn [Z.mul Pos.mul Pos.add Z.eqb]. apply andb_true_iff. rewrite Z.leb_le, Z.ltb_lt.
  unfold i64_of_u64. destruct (Z.ltb_spec (30 * 31556952) (2 ^ 63)); cbn in *; lia.
Qed.

(** A built certificate verifies under its issuer. *)
Lemma build_signed_cert_verifies name spk ipriv ipub ih ca ss icb g ci g' iss :
  build_signed_cert name spk ipriv ih ca ss icb g = (Some ci, g') ->
  is_keypair NistP256 ipriv ipub ->
  curve iss = NistP256 -> sb.wf (public_key iss) -> sb.to_vector (public_key iss) = ipub ->
  (ss = false -> sb.to_vector (cert_bytes iss) = icb) ->
  chain.verify_cert_signature ci iss = true.
Proof.
  intros H Hkp Hc Hwf Hpub Hicb.
  apply build_signed_cert_inv in H
    as (sig & Hs & _ & _ & _ & Htb & Htwf & Htne & _ & _ & _ & Hr & Hss & _ & Hih & Hself & _).
  destruct (crypto_facts.sign_then_verify _ _ _ _ _ _ _ Hkp Hs) as (Hv & Hlr & Hls & Hwr & Hws).
  rewrite (sb.size_to_vector _ Hwr) in Hlr. rewrite (sb.size_to_vector _ Hws) in Hls.
  unfold chain.verify_cert_signature. rewrite Hc, Hr, Hss, Hlr, Hls, Hih, Hself, Htb, Hpub.
  destruct (sb.is_empty (tbs_bytes ci)) eqn:He1.
  { apply sb.is_empty_to_vector in He1; [|done]. congruence. }
  destruct (sb.is_empty (public_key iss)) eqn:He2.
  { apply sb.is_empty_to_vector in He2; [|done].
    destruct (crypto_facts.is_keypair_shape _ _ _ Hkp) as (_ & _ & x & y & Hq & _). congruence. }
  cbn [scalar_len Nat.eqb negb orb chain.cert_hash].
  replace (if ss then [] else sb.to_vector (cert_bytes iss)) with (if ss then [] else icb).
  2:{ destruct ss; [done|]. symmetry. by apply Hicb. }
  by destruct sig.
Qed.

(** ** A built hierarchy validates *)

Lemma built_chain_trusted rname rpub rpriv g0 g1 root aname apub apriv g2 g3 aa tname tpub g4 g5 at_ now hp :
  is_keypair NistP256 rpriv rpub -> is_keypair NistP256 apriv apub ->
  build_root_cert rname rpub rpriv g0 = (Some root, g1) ->
  build_signed_cert aname apub rpriv (hashed_id_8 root) true false (sb.to_vector (cert_bytes root)) g2
    = (Some aa, g3) ->
  build_signed_cert tname tpub apriv (hashed_id_8 aa) false false (sb.to_vector (cert_bytes aa)) g4
    = (Some at_, g5) ->
  hashed_id_8 root <> hashed_id_8 aa ->
  (0 <= now < 30 * kYearSeconds)%Z ->
  chain.validate_chain (chain.add_cert (chain.add_cert chain.empty_chain root) aa) hp at_ now = true.
Proof.
  intros Hrk Hak Hroot Haa Hat Hne Hnow. apply chain.validate_chain_iff. right.
  assert (Hid : forall n pk pr ih ca ss icb g ci g',
    build_signed_cert n pk pr ih ca ss icb g = (Some ci, g') ->
    is_self_signed ci = ss /\ issuer_hash_id_8 ci = (if ss then zeros 8 else ih) /\
    curve ci = NistP256 /\ sb.wf (public_key ci) /\ sb.to_vector (public_key ci) = pk).
  { intros * H. apply build_signed_cert_inv in H as (sig & H). cbv zeta in H; destruct_and! H. auto. }
  pose proof (Hid _ _ _ _ _ _ _ _ _ _ Hroot) as (Hs0 & _ & Hc0 & Hw0 & Hp0).
  pose proof (Hid _ _ _ _ _ _ _ _ _ _ Haa) as (Hs1 & Hi1 & Hc1 & Hw1 & Hp1).
  pose proof (Hid _ _ _ _ _ _ _ _ _ _ Hat) as (Hs2 & Hi2 & _).
  apply (chain.trusted_issued _ _ _ 1 at_ aa); eauto using build_signed_cert_valid.
  { rewrite Hi2. simpl. by rewrite lookup_insert_eq. }
  { eapply build_signed_cert_verifies; eauto. }
  apply (chain.trusted_issued _ _ _ 0 aa root); eauto using build_signed_cert_valid.
  { rewrite Hi1. simpl. rewrite lookup_insert_ne, lookup_insert_eq by congruence. done. }
  { eapply build_signed_cert_verifies; eauto. }
  apply chain.trusted_root; eauto using build_signed_cert_valid.
  eapply build_signed_cert_verifies; eauto. done.
Qed.

(** Parsing the wire image gives back what was built. *)
Context {cb_ok : CodecOk CertificateBase} {junk : Uninit}.

Lemma parse_built_cert name spk spriv ipriv ipub ih ca ss icb g ci g' :
  is_keypair NistP256 ipriv ipub -> is_keypair NistP256 spriv spk -> length ih = kHashedId8Len ->
  build_signed_cert name spk ipriv ih ca ss icb g = (Some ci, g') ->
  let p := cert.from_coer (sb.to_vector (cert_bytes ci)) in
  hashed_id_8 p = hashed_id_8 ci /\
  sb.to_vector (cert_bytes p) = sb.to_vector (cert_bytes ci) /\
  sb.to_vector (public_key p) = sb.to_vector (public_key ci) /\
  sb.to_vector (tbs_bytes p) = sb.to_vector (tbs_bytes ci) /\
  sb.to_vector (signature_r p) = sb.to_vector (signature_r ci) /\
  sb.to_vector (signature_s p) = sb.to_vector (signature_s ci) /\
  curve p = curve ci /\ issuer_hash p = issuer_hash ci /\ is_self_signed p = is_self_signed ci /\
  (ss = false -> issuer_hash_id_8 p = issuer_hash_id_8 ci) /\
  validity_start p = validity_start ci /\
  validity_duration_seconds p = validity_duration_seconds ci.
Proof.
  intros Hkp Hskp Hih H.
  apply build_signed_cert_inv in H as (sig & Hs & Hlen & Hpk & _ & Htb & Htwf & Htne & Hcb & Hcne
    & Hid & Hr & Hss & Hc & Hihash & Hself & Hiss & _ & Hst & Hdu & Hcwf). cbv zeta in *.
  destruct (crypto_facts.sign_then_verify _ _ _ _ _ _ _ Hkp Hs) as (_ & Hlr & Hls & Hwr & Hws).
  assert (Hdec : coer.decode (sb.to_vector (cert_bytes ci)) =
    Some (cert_struct (tbs_struct name spk ca 0 30) sig ih ss)).
  { rewrite Hcb. by apply coer.encode_decode. }
  rewrite (cert.from_coer_hid8 _ _ Hdec), cert.from_coer_cert_bytes, Hdec.
  assert (Hsz : forall N (b : StaticBytes N), sb.wf b -> length (sb.to_vector b) <= N).
  { intros N b Hb. rewrite sb.size_to_vector by done. apply Hb. }
  rewrite (proj2 (Nat.leb_le _ _)) by (by apply Hsz). unfold cert.from_coer. rewrite Hdec.
  unfold cert.from_struct, cert_struct. cbn [issuer toBeSigned cert_signature].
  rewrite !(sign.octet_set_static (sig_r sig)), !(sign.octet_set_static (sig_s sig)) by done.
  destruct (crypto_facts.is_keypair_shape _ _ _ Hskp) as (_ & _ & x & y & Hspk & Hx & Hy).
  assert (Hpt : point.to_sec1 (Some (P256_uncompressedP256 (octet.set (drop 1 spk) kP256ScalarLen)
    (octet.set (drop kP256CompressedLen spk) kP256ScalarLen))) = spk).
  { rewrite Hspk. unfold octet.set. cbn [drop kP256CompressedLen]. cbn in Hx, Hy.
    rewrite drop_0, take_app_length', drop_app_length', take_ge by (by rewrite ?Hx, ?Hy).
    cbn [point.to_sec1]. unfold octet.bytes. by rewrite Hx, Hy. }
  pose proof (Hsz _ _ Htwf) as Htl. rewrite Htb in Htl.
  destruct (sb.from_Some (N := kP384PublicKeyLen) spk) as (pks & Hpks & Hpkv & _).
  { rewrite Hlen. unfold kP256PublicKeyLen, kP384PublicKeyLen. lia. }
  destruct (sb.from_Some _ Htl) as (tbs & Htbs & Htbv & _).
  destruct (sb.from_Some (N := kP384ScalarLen) (sb.to_vector (sig_r sig))) as (rs & Hrs & Hrv & _).
  { by apply Hsz. }
  destruct (sb.from_Some (N := kP384ScalarLen) (sb.to_vector (sig_s sig))) as (ss' & Hss' & Hsv & _).
  { by apply Hsz. }
  assert (Hps : cert.parse_signature (Some (ecdsaNistP256Signature (Some
    (MkEcdsaP256Signature (Some (P256_x_only (sb.to_vector (sig_r sig))))
       (sb.to_vector (sig_s sig)))))) = (rs, ss')).
  { unfold cert.parse_signature, point.extract_sig, point.extract_p256. cbn [point.rs_s point.rs_r].
    unfold octet.bytes. rewrite Hls. cbn [point.sig_r]. unfold octet.bytes. rewrite Hlr. cbn.
    by rewrite Hrs, Hss'. }
  rewrite Hps. unfold cert.parse_verification_key, cert.parse_encryption_key, cert.parse_validity.
  cbn [verifyKeyIndicator encryptionKey validityPeriod tbs_struct].
  fold (tbs_struct name spk ca 0 30). rewrite Hpt, Hpks, Htbs.
  rewrite Hc, Hihash, Hself, Hiss, Hst, Hdu, Hr, Hss, Htb, Hpk, Hid.
  destruct ss; cbn; unfold octet.bytes, octet.set; split_and!; try done.
  intros _. by rewrite (take_ge ih), Hih by (by rewrite Hih).
Qed.

End cert_utils.
End cert_utils.
