(* ===== verification/Disk.v ===== *)
(** The file system, as far as the program uses it: C streams, std::ofstream,
    rename, unlink, mkdir and std::filesystem.

    Paths are compared as strings.  The state keeps the contents after every system
    call, newest first, so that a theorem can speak about what another process, or
    a restart after a crash, may find on the disk in between.  What can go wrong is
    decided by [faults]: each answer may depend on the number of system calls made
    so far, so a call that fails may succeed later.  Reading a file succeeds exactly
    when it exists. *)
From stdpp Require Import gmap.
From S2P Require Import Prelude TrustChain.

Record faults := MkFaults {
  (** opening for writing, which truncates *)
  can_open_w : nat -> string -> bool;
  (** how many of the bytes given to a stream it takes *)
  fwrite_count : nat -> string -> bytes -> nat;
  (** how many of the bytes a stream took are in the file after closing it *)
  stored_count : nat -> string -> bytes -> nat;
  can_rename : nat -> string -> string -> bool;
  can_unlink : nat -> string -> bool;
  can_mkdir : nat -> string -> bool;
  (** the order in which a directory is read *)
  dir_order : nat -> list string -> list string;
}.

Record fsys := MkFsys {
  files : gmap string bytes;
  dirs : gset string;
  history : list (gmap string bytes);
  env : faults;
}.

(** [dir / name] of std::filesystem::path, on POSIX. *)
Definition path_append (dir name : string) : string :=
  let d := bytes_of_string dir in
  let n := bytes_of_string name in
  if bool_decide (nth 0 n x00 = x2f) then name
  else if empty d || bool_decide (List.last d x00 = x2f) then (dir ++ name)%string
  else (dir ++ "/" ++ name)%string.

Module disk.

Definition calls (fs : fsys) : nat := length (history fs).

(** The state after a system call that leaves the contents [m]. *)
Definition put (fs : fsys) (m : gmap string bytes) : fsys :=
  MkFsys m (dirs fs) (m :: history fs) (env fs).

(** An open stream: its path and the bytes it has taken. *)
Record stream := MkStream { s_path : string; s_buf : bytes }.

Definition fopen_w (p : string) (fs : fsys) : option stream * fsys :=
  if can_open_w (env fs) (calls fs) p
  then (Some (MkStream p []), put fs (<[p := []]> (files fs)))
  else (None, put fs (files fs)).

(** [fwrite(data, 1, size, f)] *)
Definition fwrite (s : stream) (b : bytes) (fs : fsys) : nat * stream * fsys :=
  let n := Nat.min (fwrite_count (env fs) (calls fs) (s_path s) b) (length b) in
  (n, MkStream (s_path s) (s_buf s ++ take n b), put fs (files fs)).

(** [fclose], and the destructor of std::ofstream: the result is never looked at. *)
Definition fclose (s : stream) (fs : fsys) : fsys :=
  put fs (<[s_path s := take (stored_count (env fs) (calls fs) (s_path s) (s_buf s)) (s_buf s)]>
            (files fs)).

Definition rename (src dst : string) (fs : fsys) : bool * fsys :=
  match files fs !! src with
  | Some b =>
      if can_rename (env fs) (calls fs) src dst
      then (true, put fs (<[dst := b]> (delete src (files fs))))
      else (false, put fs (files fs))
  | None => (false, put fs (files fs))
  end.

Definition unlink (p : string) (fs : fsys) : fsys :=
  put fs (if can_unlink (env fs) (calls fs) p then delete p (files fs) else files fs).

(** [mkdir], whose result the program ignores. *)
Definition mkdir (p : string) (fs : fsys) : fsys :=
  MkFsys (files fs)
    (if can_mkdir (env fs) (calls fs) p then {[p]} ∪ dirs fs else dirs fs)
    (files fs :: history fs) (env fs).

(** std::filesystem::create_directories; [None] is the exception.  Only the last
    directory is recorded: nothing asks for the others. *)
Definition create_directories (p : string) (fs : fsys) : option fsys :=
  if str_empty p then None
  else if bool_decide (p ∈ dirs fs) then Some fs
  else if can_mkdir (env fs) (calls fs) p
  then Some (MkFsys (files fs) ({[p]} ∪ dirs fs) (files fs :: history fs) (env fs))
  else None.

(** The name of [p] inside the directory [d]. *)
Definition child_name (d p : string) : option string :=
  let pre := bytes_of_string (path_append d "") in
  let b := bytes_of_string p in
  let n := drop (length pre) b in
  if bytes_eqb (take (length pre) b) pre && negb (empty n) && bool_decide (x2f ∉ n)
  then Some (string_of_bytes n) else None.

(** [None] when the path is not a directory.  Subdirectories are left out: the
    program skips what is not a regular file. *)
Definition list_dir (d : string) (fs : fsys) : option (list dir_entry) :=
  if bool_decide (d ∈ dirs fs) then
    let names := dir_order (env fs) (calls fs) (omap (child_name d) (map_to_list (files fs)).*1) in
    Some (map (fun n => MkDirEntry n true (files fs !! path_append d n)) names)
  else None.

(** std::ifstream into a vector: empty when it does not open. *)
Definition read_all (p : string) (fs : fsys) : bytes := default [] (files fs !! p).

(** ** Lemmas *)

(** The contents seen since [fs], newest first. *)
Definition since (fs fs' : fsys) (h : list (gmap string bytes)) : Prop :=
  history fs' = h ++ history fs /\ env fs' = env fs.

(** Closing a stream loses nothing, and a directory lists its files in some order. *)
Definition reliable (f : faults) : Prop :=
  (forall t p b, length b <= stored_count f t p b) /\ (forall t l, dir_order f t l ≡ₚ l).

Lemma since_trans fs1 fs2 fs3 h1 h2 :
  since fs1 fs2 h1 -> since fs2 fs3 h2 -> since fs1 fs3 (h2 ++ h1).
Proof. intros [H1 E1] [H2 E2]. split; [by rewrite H2, H1, app_assoc|congruence]. Qed.

Lemma fclose_files s fs :
  reliable (env fs) -> files (fclose s fs) = <[s_path s := s_buf s]> (files fs).
Proof. intros [H _]. simpl. by rewrite take_ge by apply H. Qed.

(** Nothing is lost and every file can be opened and written. *)
Definition healthy (f : faults) : Prop :=
  reliable f /\ (forall t p, can_open_w f t p = true) /\
  (forall t p b, length b <= fwrite_count f t p b).

(** A fresh stream that took all it was given, once closed, on such a medium. *)
Lemma fwrite_fclose p b fs n s fs' :
  reliable (env fs) -> fwrite (MkStream p []) b fs = (n, s, fs') -> n = length b ->
  files (fclose s fs') !! p = Some b.
Proof.
  intros Hr [= <- <- <-] Hn. rewrite fclose_files by done. simpl in *.
  rewrite lookup_insert_eq, Hn. by rewrite take_ge.
Qed.

(** A medium on which nothing fails, and an empty disk on it. *)
Definition no_faults : faults :=
  MkFaults (fun _ _ => true) (fun _ _ b => length b) (fun _ _ b => length b)
    (fun _ _ _ => true) (fun _ _ => true) (fun _ _ => true) (fun _ l => l).

Definition blank : fsys := MkFsys ∅ ∅ [] no_faults.

Lemma no_faults_reliable : reliable no_faults.
Proof. by split. Qed.
Lemma no_faults_healthy : healthy no_faults.
Proof. by split_and!. Qed.

End disk.
