(* ===== verification/TrustList.v ===== *)
(** src/trust_list.cpp and include/v2xpki/trust_list.hpp: decoding of the ECTL and
    of the root CAs' CTLs, and the textual form of HashedId8.

    [now] is [time(nullptr)] at the call. *)
From S2P Require Import Prelude Result Sizes StaticBytes Asn OpenSSL CryptoEc CertParse.
From S2P Require Import SignedMessage SignedEnvelope Hex.

Record EaInfo := MkEaInfo {
  ea_cert : CertInfo;
  aa_access_point : string;
  its_access_point : string;
}.

Record AaInfo := MkAaInfo {
  aa_cert : CertInfo;
  access_point : string;
}.

Record DcInfo := MkDcInfo {
  url : string;
  serves : list hid8;
}.

Record TrustTopology := MkTrustTopology {
  tlm : option CertInfo;
  rcas : list CertInfo;
  eas : list EaInfo;
  aas : list AaInfo;
  dcs : list DcInfo;
  ectl_signature_verified : bool;
  ctl_signature_verified : bool;
  ectl_next_update : Z;
  ctl_next_update : Z;
  ectl_expired : bool;
  ctl_expired : bool;
}.

Definition TrustTopology_empty : TrustTopology :=
  MkTrustTopology None [] [] [] [] false false 0 0 false false.

(** Updates of single members. *)
Definition set_tlm (t : TrustTopology) (x : option CertInfo) : TrustTopology :=
  MkTrustTopology x (rcas t) (eas t) (aas t) (dcs t) (ectl_signature_verified t)
    (ctl_signature_verified t) (ectl_next_update t) (ctl_next_update t) (ectl_expired t)
    (ctl_expired t).
Definition set_lists (t : TrustTopology) (r : list CertInfo) (e : list EaInfo) (a : list AaInfo)
    (d : list DcInfo) : TrustTopology :=
  MkTrustTopology (tlm t) r e a d (ectl_signature_verified t) (ctl_signature_verified t)
    (ectl_next_update t) (ctl_next_update t) (ectl_expired t) (ctl_expired t).
Definition set_verified (t : TrustTopology) (is_ectl v : bool) : TrustTopology :=
  MkTrustTopology (tlm t) (rcas t) (eas t) (aas t) (dcs t)
    (if is_ectl then v else ectl_signature_verified t)
    (if is_ectl then ctl_signature_verified t else v)
    (ectl_next_update t) (ctl_next_update t) (ectl_expired t) (ctl_expired t).
Definition set_next_update (t : TrustTopology) (is_ectl : bool) (n : Z) : TrustTopology :=
  MkTrustTopology (tlm t) (rcas t) (eas t) (aas t) (dcs t) (ectl_signature_verified t)
    (ctl_signature_verified t) (if is_ectl then n else ectl_next_update t)
    (if is_ectl then ctl_next_update t else n) (ectl_expired t) (ctl_expired t).
Definition set_expired (t : TrustTopology) (is_ectl : bool) : TrustTopology :=
  MkTrustTopology (tlm t) (rcas t) (eas t) (aas t) (dcs t) (ectl_signature_verified t)
    (ctl_signature_verified t) (ectl_next_update t) (ctl_next_update t)
    (if is_ectl then true else ectl_expired t) (if is_ectl then ctl_expired t else true).

(** The descriptor asn_DEF_EtsiTs103097Certificate, over the same C struct. *)
Record EtsiTs103097Certificate := MkEtsiTs103097Certificate { etsi_cert : CertificateBase }.

#[export] Instance EtsiTs103097Certificate_eq_dec : EqDecision EtsiTs103097Certificate.
Proof. solve_decision. Defined.

Module tlist.
Section tlist.
Context {ossl : OpenSSL}.
Context {cb : Codec CertificateBase} {tb : Codec ToBeSignedCertificate} {junk : Uninit}.
Context {dc : Codec Ieee1609Dot2Data} {tc : Codec ToBeSignedData}.
Context {ec : Codec EtsiTs102941Data} {xc : Codec EtsiTs103097Certificate}.

Definition url_from_ia5 (s : bytes) : string := string_of_bytes s.

Definition cert_ptr_to_info (cert_void : option CertificateBase) (label : string)
    : option CertInfo :=
  match cert_void with
  | None => None
  | Some c =>
      let cert_coer := coer.encode (MkEtsiTs103097Certificate c) in
      if empty cert_coer then None
      else Some (set_label (cert.from_struct c cert_coer) label)
  end.

(** The inner loop of the DC case. *)
Fixpoint dc_serves (l : list (option bytes)) : list hid8 :=
  match l with
  | [] => []
  | o :: l =>
      match o with
      | Some b => if length b =? kHashedId8Len then b :: dc_serves l else dc_serves l
      | None => dc_serves l
      end
  end.

(** The switch over [entry->present]. *)
Definition parse_ctl_entry (topo : TrustTopology) (entry : CtlEntry) : TrustTopology :=
  match entry with
  | CtlEntry_rca (Some e) =>
      match cert_ptr_to_info (selfsignedRootCa e) "rca" with
      | Some ci => set_lists topo (rcas topo ++ [ci]) (eas topo) (aas topo) (dcs topo)
      | None => topo
      end
  | CtlEntry_ea (Some e) =>
      match cert_ptr_to_info (eaCertificate e) "ea" with
      | Some ci =>
          let info := MkEaInfo ci (url_from_ia5 (Asn.aaAccessPoint e))
                        (match itsAccessPoint e with
                         | Some p => url_from_ia5 p
                         | None => ""
                         end) in
          set_lists topo (rcas topo) (eas topo ++ [info]) (aas topo) (dcs topo)
      | None => topo
      end
  | CtlEntry_aa (Some e) =>
      match cert_ptr_to_info (aaCertificate e) "aa" with
      | Some ci =>
          let info := MkAaInfo ci (url_from_ia5 (accessPoint e)) in
          set_lists topo (rcas topo) (eas topo) (aas topo ++ [info]) (dcs topo)
      | None => topo
      end
  | CtlEntry_dc (Some e) =>
      let info := MkDcInfo (url_from_ia5 (dc_url e)) (dc_serves (dc_cert e)) in
      set_lists topo (rcas topo) (eas topo) (aas topo) (dcs topo ++ [info])
  | CtlEntry_tlm (Some e) =>
      match cert_ptr_to_info (selfSignedTLMCertificate e) "tlm" with
      | Some ci => set_tlm topo (Some ci)
      | None => topo
      end
  | _ => topo
  end.

(** The loop over the commands: only [add] commands are looked at. *)
Fixpoint parse_ctl_commands (topo : TrustTopology) (l : list (option CtlCommand)) : TrustTopology :=
  match l with
  | [] => topo
  | cmd :: l =>
      match cmd with
      | Some (CtlCommand_add (Some entry)) => parse_ctl_commands (parse_ctl_entry topo entry) l
      | _ => parse_ctl_commands topo l
      end
  end.

Definition parse_ctl_entries (ctl : CtlFormat) (topo : TrustTopology) (is_ectl : bool) (now : Z)
    : TrustTopology :=
  let next_update := u32 (ctl_nextUpdate ctl) in
  let topo := set_next_update topo is_ectl next_update in
  let topo :=
    if (0 <? next_update)%Z then
      let now_tai := unix_to_tai_seconds now in
      if (next_update <? now_tai)%Z then set_expired topo is_ectl else topo
    else topo in
  parse_ctl_commands topo (ctlCommands ctl).

Definition extract_ctl_from_etsi_data (data : option EtsiTs102941Data) (is_ectl : bool)
    : option CtlFormat :=
  match data with
  | Some (MkEtsiTs102941Data _ (Some content)) =>
      if is_ectl then
        match content with certificateTrustListTlm c => c | _ => None end
      else
        match content with certificateTrustListRca c => c | _ => None end
  | _ => None
  end.

Definition decode_ctl_common (coer verifier_pubkey signer_cert_coer : bytes) (is_ectl : bool)
    (now : Z) : Result TrustTopology :=
  some! signed_data := signed_msg.unwrap coer or! Err Decode;
  some! etsi_data := coer.decode_with_basic_fallback (payload_coer signed_data) or! Err Decode;
  some! ctl := extract_ctl_from_etsi_data (Some etsi_data) is_ectl or! Err Decode;
  let topo := parse_ctl_entries ctl TrustTopology_empty is_ectl now in
  if negb (empty verifier_pubkey) && negb (empty signer_cert_coer) then
    let verified := signed_msg.verify signed_data verifier_pubkey signer_cert_coer in
    Ok (set_verified topo is_ectl verified)
  else Ok topo.

Definition decode_ectl (coer tlm_pubkey tlm_cert_coer : bytes) (now : Z) : Result TrustTopology :=
  decode_ctl_common coer tlm_pubkey tlm_cert_coer true now.

Definition decode_rca_ctl (coer rca_pubkey rca_cert_coer : bytes) (now : Z)
    : Result TrustTopology :=
  decode_ctl_common coer rca_pubkey rca_cert_coer false now.

Definition hid8_hex_upper (h : hid8) : string := hex_stream true h.

Definition parse_hid8_hex (hex : string) : option hid8 :=
  let s := bytes_of_string hex in
  if length s <? 16 then None else parse_pairs 8 s.

(** ** Specification of the decoder

    The entries of the add commands, in order, and what each contributes. *)
Definition added (l : list (option CtlCommand)) : list CtlEntry :=
  omap (fun c => match c with Some (CtlCommand_add e) => e | _ => None end) l.

Definition rca_of (e : CtlEntry) : option CertInfo :=
  match e with CtlEntry_rca (Some e) => cert_ptr_to_info (selfsignedRootCa e) "rca" | _ => None end.
Definition ea_of (e : CtlEntry) : option EaInfo :=
  match e with
  | CtlEntry_ea (Some e) =>
      ci ← cert_ptr_to_info (eaCertificate e) "ea";
      Some (MkEaInfo ci (url_from_ia5 (Asn.aaAccessPoint e))
              (default "" (url_from_ia5 <$> itsAccessPoint e)))
  | _ => None
  end.
Definition aa_of (e : CtlEntry) : option AaInfo :=
  match e with
  | CtlEntry_aa (Some e) =>
      ci ← cert_ptr_to_info (aaCertificate e) "aa"; Some (MkAaInfo ci (url_from_ia5 (accessPoint e)))
  | _ => None
  end.
Definition dc_of (e : CtlEntry) : option DcInfo :=
  match e with
  | CtlEntry_dc (Some e) => Some (MkDcInfo (url_from_ia5 (dc_url e)) (dc_serves (dc_cert e)))
  | _ => None
  end.
Definition tlm_of (e : CtlEntry) : option CertInfo :=
  match e with
  | CtlEntry_tlm (Some e) => cert_ptr_to_info (selfSignedTLMCertificate e) "tlm"
  | _ => None
  end.

(** Everything of a topology but the entries. *)
Definition flags (t : TrustTopology) :=
  (ectl_signature_verified t, ctl_signature_verified t, ectl_next_update t, ctl_next_update t,
   ectl_expired t, ctl_expired t).

Lemma parse_ctl_entry_spec t e :
  let t' := parse_ctl_entry t e in
  rcas t' = rcas t ++ option_list (rca_of e) /\ eas t' = eas t ++ option_list (ea_of e) /\
  aas t' = aas t ++ option_list (aa_of e) /\ dcs t' = dcs t ++ option_list (dc_of e) /\
  tlm t' = match tlm_of e with Some c => Some c | None => tlm t end /\ flags t' = flags t.
Proof.
  destruct e as [|[r|]|[r|]|[r|]|[r|]|[r|]]; cbn;
    repeat match goal with |- context [cert_ptr_to_info ?c ?l] => destruct (cert_ptr_to_info c l) end;
    cbn; rewrite ?app_nil_r; try (split_and!; reflexivity).
  by destruct (itsAccessPoint r).
Qed.

Lemma parse_ctl_commands_spec l t :
  let t' := parse_ctl_commands t l in
  rcas t' = rcas t ++ omap rca_of (added l) /\ eas t' = eas t ++ omap ea_of (added l) /\
  aas t' = aas t ++ omap aa_of (added l) /\ dcs t' = dcs t ++ omap dc_of (added l) /\
  tlm t' = match list.last (omap tlm_of (added l)) with Some c => Some c | None => tlm t end /\
  flags t' = flags t.
Proof.
  revert t. induction l as [|[[|[e|]|]|] l IH]; intros t; cbv zeta;
    try (cbn [parse_ctl_commands]; apply (IH t)).
  - cbn. rewrite !app_nil_r. by split_and!.
  - cbn [parse_ctl_commands]. specialize (IH (parse_ctl_entry t e)). cbv zeta in IH.
    destruct IH as (-> & -> & -> & -> & -> & ->).
    destruct (parse_ctl_entry_spec t e) as (-> & -> & -> & -> & -> & ->).
    change (added (Some (CtlCommand_add (Some e)) :: l)) with (e :: added l).
    cbn [omap list_omap]. rewrite <- !app_assoc. split_and!;
      try (match goal with |- context [option_list ?o] => destruct o end; reflexivity); [|done].
    destruct (tlm_of e) as [c|]; [|done]. rewrite last_cons.
    change (list_omap _ _ tlm_of (added l)) with (omap tlm_of (added l)).
    generalize (omap tlm_of (added l)) as k. intros k. by destruct (list.last k).
Qed.

Lemma decode_ctl_common_spec coer pub cert is_ectl now topo :
  decode_ctl_common coer pub cert is_ectl now = Ok topo ->
  exists m data ctl,
    signed_msg.unwrap coer = Some m /\
    coer.decode_with_basic_fallback (payload_coer m) = Some data /\
    extract_ctl_from_etsi_data (Some data) is_ectl = Some ctl /\
    let es := added (ctlCommands ctl) in
    rcas topo = omap rca_of es /\ eas topo = omap ea_of es /\ aas topo = omap aa_of es /\
    dcs topo = omap dc_of es /\ tlm topo = list.last (omap tlm_of es) /\
    let ok := negb (empty pub) && negb (empty cert) && signed_msg.verify m pub cert in
    let n := u32 (ctl_nextUpdate ctl) in
    let late := (0 <? n)%Z && (n <? unix_to_tai_seconds now)%Z in
    flags topo =
      if is_ectl then (ok, false, n, 0%Z, late, false) else (false, ok, 0%Z, n, false, late).
Proof.
  unfold decode_ctl_common. intros H.
  destruct (signed_msg.unwrap coer) as [m|] eqn:Hm; [|done].
  destruct (coer.decode_with_basic_fallback (payload_coer m)) as [data|] eqn:Hd; [|done].
  destruct (extract_ctl_from_etsi_data (Some data) is_ectl) as [ctl|] eqn:Hc; [|done].
  exists m, data, ctl. do 3 (split; [done|]). cbv zeta.
  set (n := u32 (ctl_nextUpdate ctl)) in *.
  set (t0 := if (0 <? n)%Z then if (n <? unix_to_tai_seconds now)%Z
     then set_expired (set_next_update TrustTopology_empty is_ectl n) is_ectl
     else set_next_update TrustTopology_empty is_ectl n
     else set_next_update TrustTopology_empty is_ectl n).
  assert (Ht0 : rcas t0 = [] /\ eas t0 = [] /\ aas t0 = [] /\ dcs t0 = [] /\ tlm t0 = None /\
    flags t0 = let late := (0 <? n)%Z && (n <? unix_to_tai_seconds now)%Z in
      if is_ectl then (false, false, n, 0%Z, late, false) else (false, false, 0%Z, n, false, late)).
  { subst t0. by destruct (0 <? n)%Z, (n <? unix_to_tai_seconds now)%Z, is_ectl. }
  assert (Hp : parse_ctl_entries ctl TrustTopology_empty is_ectl now
               = parse_ctl_commands t0 (ctlCommands ctl)) by done.
  pose proof (parse_ctl_commands_spec (ctlCommands ctl) t0) as Hs. cbv zeta in Hs.
  rewrite Hp in H. destruct Ht0 as (Hr & He & Ha & Hdc & Ht & Hf).
  rewrite Hr, He, Ha, Hdc, Ht, Hf in Hs. set (t := parse_ctl_commands _ _) in *.
  destruct Hs as (Hr' & He' & Ha' & Hdc' & Ht' & Hf'). clearbody t.
  destruct (negb (empty pub) && negb (empty cert)); injection H as <-;
    split_and!; try done; try (cbn [tlm set_verified]; rewrite Ht'; by destruct (list.last _)).
  unfold flags in *. cbn in *. destruct is_ectl; cbn in *; congruence.
Qed.

(** ** HashedId8 as text *)

Lemma parse_hid8_hex_stream up h :
  length h = kHashedId8Len -> parse_hid8_hex (hex_stream up h) = Some h.
Proof.
  intros Hl. unfold parse_hid8_hex. rewrite bytes_of_hex_stream, length_hex, Hl.
  pose proof (parse_pairs_hex up h) as H. rewrite Hl in H. exact H.
Qed.

Lemma parse_hid8_hex_length s h : parse_hid8_hex s = Some h -> length h = kHashedId8Len.
Proof.
  unfold parse_hid8_hex. destruct (_ <? 16); [done|]. apply length_parse_pairs.
Qed.

End tlist.
End tlist.
