(* ===== verification/Request.v ===== *)
(** The steps src/ec_request.cpp and src/at_request.cpp share: both files contain
    the same code for the start of validity, the PublicVerificationKey node, the
    requested attributes, the encryption to a CA and the end of the encoder. *)
From S2P Require Import Prelude Result Sizes StaticBytes Asn OpenSSL CryptoEc CurvePoint Ecies.
From S2P Require Import CertParse EncryptedData.

Module request.
Section request.
Context {ossl : OpenSSL}.

(** [unix_to_tai32]; [tp] in microseconds since the Unix epoch. *)
Definition unix_to_tai32 (tp : Z) : Z :=
  let secs := Z.quot tp 1000000 in
  let tai := unix_to_tai_seconds secs in
  if (tai <? 0)%Z then 0%Z else u32 tai.

(** The switch that fills in a PublicVerificationKey. *)
Definition verification_key_node (curve : Curve) (verification_key : bytes)
    : PublicVerificationKey :=
  match curve with
  | BrainpoolP256r1 => ecdsaBrainpoolP256r1 (point.from_sec1 verification_key)
  | BrainpoolP384r1 => ecdsaBrainpoolP384r1 (point.from_sec1_384 verification_key)
  | _ => ecdsaNistP256 (point.from_sec1 verification_key)
  end.

Definition public_keys (curve : Curve) (verification_key : bytes) : PublicKeys :=
  MkPublicKeys (Some (verification_key_node curve verification_key)) None.

(** The CertificateSubjectAttributes node. *)
Definition subject_attributes (validity_start validity_duration_hours : Z) (psids : list Z)
    : CertificateSubjectAttributes :=
  MkCertificateSubjectAttributes
    (Some (MkValidityPeriod validity_start (Some (hours validity_duration_hours))))
    (Some (map (fun p => MkPsidSsp (u64 p) None) psids)) [].

(** The key a CA is encrypted to: its encryption key, or else its public key. *)
Definition recipient_key (cert : CertInfo) : bytes :=
  if sb.is_empty (encryption_key cert) then sb.to_vector (public_key cert)
  else sb.to_vector (encryption_key cert).

(** ECIES to a CA, with P1 = SHA-256 of its certificate, wrapped in EncryptedData. *)
Definition encrypt_to (cert : CertInfo) (plaintext : bytes) (g : rng)
    : Result (Ieee1609Dot2Data * EciesEncryptResult) * rng :=
  let enc_key := recipient_key cert in
  if length enc_key <? 33 then (Err InvalidArgument, g) else
  let ecies_curve := enc_curve cert in
  let p1 := crypto.hash_sha256 (sb.to_vector (cert_bytes cert)) in
  match ecies.ecies_encrypt_curve enc_key plaintext p1 ecies_curve g with
  | (None, g) => (Err Crypto, g)
  | (Some e, g) => (Ok (enc.build_encrypted_data e cert ecies_curve, e), g)
  end.

(** The end of both encoders: the message on the wire and the AES key. *)
Definition finish {dc : Codec Ieee1609Dot2Data} (wrapper : Ieee1609Dot2Data)
    (e : EciesEncryptResult) : Result (StaticBytes kMaxCoerMessageLen * StaticBytes kAesKeyLen) :=
  let final_bytes := coer.encode wrapper in
  if empty final_bytes then Err Encode else
  some! encoded := sb.from kMaxCoerMessageLen final_bytes or! Err Encode;
  some! key := sb.from kAesKeyLen (Ecies.aes_key e) or! Err Crypto;
  Ok (encoded, key).

(** ** Lemmas *)

Context {ossl_ok : OpenSSLOk}.

(** Between 2004 and 2140 the start of validity is the TAI clock. *)
Lemma unix_to_tai32_exact tp :
  (0 <= unix_to_tai_seconds (Z.quot tp 1000000) < 2 ^ 32)%Z ->
  unix_to_tai32 tp = unix_to_tai_seconds (Z.quot tp 1000000).
Proof.
  intros H. unfold unix_to_tai32. destruct (Z.ltb_spec (unix_to_tai_seconds (Z.quot tp 1000000)) 0).
  - lia.
  - by apply u32_small.
Qed.

Lemma unix_to_tai32_range tp : in_u32 (unix_to_tai32 tp).
Proof.
  unfold unix_to_tai32. destruct (_ <? 0)%Z; [unfold in_u32; lia|apply u32_range].
Qed.

(** The CA that holds the private key reads the plaintext; the AES key of the
    result is the one the message was sealed with. *)
Lemma encrypt_to_opens cert priv pt g w e g' :
  is_p256_size (enc_curve cert) = true ->
  encodes_key (enc_curve cert) priv (recipient_key cert) ->
  encrypt_to cert pt g = (Ok (w, e), g') ->
  exists ed, w = MkIeee1609Dot2Data kIeee1609Dot2Version (Some (encryptedData (Some ed))) /\
    enc.open_request ed priv (crypto.hash_sha256 (sb.to_vector (cert_bytes cert))) = Some pt /\
    length (Ecies.aes_key e) = kAesKeyLen.
Proof.
  intros Hc Hek H. unfold encrypt_to in H. destruct (_ <? 33); [done|].
  destruct (ecies.encrypt_encodes _ _ _ pt (crypto.hash_sha256 (sb.to_vector (cert_bytes cert))) g
    Hek) as (pub & Hkp & Heq).
  rewrite Heq in H. destruct (ecies.ecies_encrypt_curve pub _ _ _ g) as [[e'|] g1] eqn:He; [|done].
  injection H as <- <- <-. eexists. split; [done|]. split.
  - by eapply enc.open_built.
  - by apply ecies.encrypt_shape in He as (_ & _ & _ & _ & _ & ? & _).
Qed.

Lemma finish_inv {dc : Codec Ieee1609Dot2Data} {dc_ok : CodecOk Ieee1609Dot2Data} w e enc k :
  finish w e = Ok (enc, k) ->
  coer.encode w <> [] /\ sb.to_vector enc = coer.encode w /\ sb.wf enc /\
  coer.decode (sb.to_vector enc) = Some w /\ sb.to_vector k = Ecies.aes_key e.
Proof.
  unfold finish. intros H. destruct (empty (coer.encode w)) eqn:Hne; [done|]. bool_props.
  destruct (sb.from _ (coer.encode w)) as [b|] eqn:Hb; [|done].
  destruct (sb.from _ (Ecies.aes_key e)) as [k'|] eqn:Hk; [|done]. injection H as <- <-.
  rewrite (sb.to_vector_from _ _ Hb). split_and!; eauto using sb.from_wf, coer.encode_decode.
  by apply sb.to_vector_from.
Qed.

End request.
End request.
