(* ===== verification/EcRequest.v ===== *)
(** src/ec_request.cpp and include/v2xpki/ec_request.hpp: the enrolment credential
    request and its response.

    The encoder builds two signed envelopes, each of which reads the clock: [now1]
    and [now2] are the two readings, in microseconds since the Unix epoch. *)
From S2P Require Import Prelude Result Sizes StaticBytes Asn OpenSSL CryptoEc CurvePoint Ecies.
From S2P Require Import CertParse SignedMessage SignedEnvelope EncryptedData Request.

Record EcRecord := MkEcRecord {
  er_canonical_public_key : StaticBytes kP384PublicKeyLen;
  er_ea_hashed_id_8 : hid8;
  er_requested_psids : list Z;
  er_validity_period_days : Z;
  er_curve : Curve;
  er_its_id : string;
}.

Record EcRequestDescription := MkEcRequestDescription {
  ed_its_id : string;
  ed_verification_key : StaticBytes kP384PublicKeyLen;
  ed_psids : list Z;
  ed_validity_start : Z;
  ed_validity_duration_hours : Z;
  ed_ea_hid8 : hid8;
  ed_curve : Curve;
}.

Record EcRequestResult := MkEcRequestResult {
  ec_encoded : StaticBytes kMaxCoerMessageLen;
  ec_request_aes_key : StaticBytes kAesKeyLen;
}.

Record EcResponse := MkEcResponse {
  ec_response_code : EnrolmentResponseCode;
  ec_request_hash : StaticBytes 16;
  ec_certificate : option CertInfo;
}.

Module ec.
Section ec.
Context {ossl : OpenSSL}.
Context {cb : Codec CertificateBase} {tb : Codec ToBeSignedCertificate} {junk : Uninit}.
Context {dc : Codec Ieee1609Dot2Data} {tc : Codec ToBeSignedData}.
Context {iq : Codec InnerEcRequest} {ir : Codec InnerEcResponse}.

(** The result, and the message written to [*err] when the pointer is not null. *)
Definition validate_ec_record (rec : EcRecord) : bool * option string :=
  if negb (sb.size (er_canonical_public_key rec) =? pubkey_len (er_curve rec))
     || negb (bool_decide (sb.at_ (er_canonical_public_key rec) 0 = x04))
  then (false, Some "canonical_public_key must be uncompressed (0x04 prefix, correct size for curve)"%string)
  else if negb (bool_decide (er_requested_psids rec = [kPsidScr]))
  then (false, Some "EC requested_psids must be exactly {kPsidScr} (TS 103 097 §7.2.2); application PSIDs belong on the AT"%string)
  else if (er_validity_period_days rec <=? 0)%Z || (3650 <? er_validity_period_days rec)%Z
  then (false, Some "validity_period_days must be 1-3650"%string)
  else (true, None).

Definition assemble_ec_request (rec : EcRecord) (now : Z) : EcRequestDescription :=
  {| ed_its_id := if str_empty (er_its_id rec) then "v2xpki-its-s" else er_its_id rec;
     ed_verification_key := er_canonical_public_key rec;
     ed_psids := er_requested_psids rec;
     ed_validity_start := request.unix_to_tai32 now;
     ed_validity_duration_hours := u16 (er_validity_period_days rec * 24);
     ed_ea_hid8 := er_ea_hashed_id_8 rec;
     ed_curve := er_curve rec |}.

(** The InnerEcRequest structure. *)
Definition inner_ec_request (desc : EcRequestDescription) : InnerEcRequest :=
  let id := bytes_of_string (ed_its_id desc) in
  {| itsId := octet.set id (length id);
     ec_certificateFormat := CertificateFormat_ts103097v131;
     ec_publicKeys :=
       Some (request.public_keys (ed_curve desc) (sb.to_vector (ed_verification_key desc)));
     ec_requestedSubjectAttributes :=
       Some (request.subject_attributes (ed_validity_start desc) (ed_validity_duration_hours desc)
               (ed_psids desc)) |}.

Definition encode_ec_request (desc : EcRequestDescription) (ea_cert : CertInfo)
    (canonical_private_key : bytes) (now1 now2 : Z) (g : rng) : Result EcRequestResult * rng :=
  let curve := ed_curve desc in
  let inner_bytes := coer.encode (inner_ec_request desc) in
  if empty inner_bytes then (Err Encode, g) else
  let '(pop_signed_bytes, g) :=
    sign.build_self_signed inner_bytes canonical_private_key curve now1 g in
  if empty pop_signed_bytes then (Err Crypto, g) else
  let etsi_bytes := [x01; x80] ++ pop_signed_bytes in
  let '(outer_signed_bytes, g) :=
    sign.build_self_signed etsi_bytes canonical_private_key curve now2 g in
  if empty outer_signed_bytes then (Err Crypto, g) else
  match request.encrypt_to ea_cert outer_signed_bytes g with
  | (Err e, g) => (Err e, g)
  | (Ok (enc_wrapper, ecies_result), g) =>
      (try! (encoded, aes_key) := request.finish enc_wrapper ecies_result;
       Ok (MkEcRequestResult encoded aes_key), g)
  end.

Definition decode_ec_response (response_bytes recipient_private_key request_aes_key
    request_bytes : bytes) (signer_cert : CertInfo) : Result EcResponse :=
  try! inner_bytes :=
    enc.decrypt_and_unwrap response_bytes recipient_private_key request_aes_key x81 signer_cert;
  some! resp := coer.decode (T := InnerEcResponse) inner_bytes or! Err Decode;
  let response_code := EnrolmentResponseCode_of_int (ecr_responseCode resp) in
  some! request_hash := sb.from 16 (octet.bytes (ecr_requestHash resp)) or! Err Decode;
  if negb (enc.request_hash_matches request_bytes request_hash) then Err SignatureInvalid else
  let certificate :=
    match ecr_certificate resp with
    | Some c => Some (set_label (cert.from_struct c (coer.encode c)) "ec_response")
    | None => None
    end in
  Ok (MkEcResponse response_code request_hash certificate).

(** ** Lemmas *)

Lemma validate_ec_record_iff rec :
  (validate_ec_record rec).1 = true <->
  sb.size (er_canonical_public_key rec) = pubkey_len (er_curve rec) /\
  sb.at_ (er_canonical_public_key rec) 0 = x04 /\
  er_requested_psids rec = [kPsidScr] /\ (1 <= er_validity_period_days rec <= 3650)%Z.
Proof.
  unfold validate_ec_record. split.
  - destruct (negb _ || negb _) eqn:E1; [done|].
    destruct (bool_decide (er_requested_psids rec = [kPsidScr])) eqn:E2; [|done]. cbn [negb].
    destruct ((er_validity_period_days rec <=? 0)%Z || _) eqn:E3; [done|].
    intros _. bool_props. split_and!; try done; lia.
  - intros (H1 & H2 & H3 & H4). rewrite H1, H2, H3, Nat.eqb_refl, !bool_decide_eq_true_2 by done.
    cbn [negb orb]. destruct (Z.leb_spec (er_validity_period_days rec) 0); [lia|].
    destruct (Z.ltb_spec 3650 (er_validity_period_days rec)); [lia|]. done.
Qed.

Context {ossl_ok : OpenSSLOk}.
Context {dc_ok : CodecOk Ieee1609Dot2Data} {iq_ok : CodecOk InnerEcRequest}
  {ir_ok : CodecOk InnerEcResponse}.

(** What an enrolment authority that holds the private key of the EA certificate
    reads: two envelopes that both verify under the canonical key, and the request
    that was described. *)
Lemma encode_ec_request_opens desc ea priv now1 now2 g res g' ea_priv pub :
  ed_curve desc <> NistP384 -> is_keypair (ed_curve desc) priv pub ->
  is_p256_size (enc_curve ea) = true ->
  encodes_key (enc_curve ea) ea_priv (request.recipient_key ea) ->
  encode_ec_request desc ea priv now1 now2 g = (Ok res, g') ->
  exists ed outer m pop m',
    coer.decode (sb.to_vector (ec_encoded res)) =
      Some (MkIeee1609Dot2Data kIeee1609Dot2Version (Some (encryptedData (Some ed)))) /\
    enc.open_request ed ea_priv (crypto.hash_sha256 (sb.to_vector (cert_bytes ea))) = Some outer /\
    signed_msg.unwrap outer = Some m /\ signed_msg.verify m pub [] = true /\
    payload_coer m = x01 :: x80 :: pop /\
    signed_msg.unwrap pop = Some m' /\ signed_msg.verify m' pub [] = true /\
    coer.decode (payload_coer m') = Some (inner_ec_request desc) /\
    length (sb.to_vector (ec_request_aes_key res)) = kAesKeyLen.
Proof.
  intros Hc Hkp Hec Hek H. unfold encode_ec_request in H.
  destruct (empty (coer.encode (inner_ec_request desc))) eqn:Hin; [done|]. bool_props.
  destruct (sign.build_self_signed (coer.encode _) _ _ _ _) as [pop g1] eqn:Hpop.
  destruct (empty pop) eqn:Hpe; [done|]. bool_props.
  destruct (sign.build_self_signed ([x01; x80] ++ pop) _ _ _ _) as [outer g2] eqn:Hout.
  destruct (empty outer) eqn:Hoe; [done|]. bool_props.
  destruct (request.encrypt_to ea outer g2) as [[[w e]|] g3] eqn:Hw; [|done].
  destruct (request.finish w e) as [[encd k]|] eqn:Hf; [|done]. injection H as <- <-.
  apply request.finish_inv in Hf as (_ & _ & _ & Hdec & Hkey).
  eapply request.encrypt_to_opens in Hw as (ed & -> & Hopen & Hkl); [|done..].
  destruct (sign.unwrap_self_signed ([x01; x80] ++ pop) _ _ _ _ _ _ _ Hkp Hc ltac:(done) Hout Hoe)
    as (m & Hm & Hpl & _ & Hv).
  destruct (sign.unwrap_self_signed _ _ _ _ _ _ _ _ Hkp Hc Hin Hpop Hpe)
    as (m' & Hm' & Hpl' & _ & Hv').
  exists ed, outer, m, pop, m'. simpl. rewrite Hpl'. split_and!; try done.
  - by apply coer.encode_decode.
  - by rewrite Hkey.
Qed.

(** Soundness of the response decoder: signed by the EA and bound to the request. *)
Lemma decode_ec_response_sound resp priv k req signer r :
  decode_ec_response resp priv k req signer = Ok r ->
  exists v ed plaintext m inner body,
    coer.decode resp = Some (MkIeee1609Dot2Data v (Some (encryptedData ed))) /\
    enc.decrypt_encrypted_content ed priv k = Some plaintext /\
    signed_msg.unwrap plaintext = Some m /\
    signed_msg.verify m (sb.to_vector (public_key signer)) (sb.to_vector (cert_bytes signer)) = true /\
    (payload_coer m = body \/ payload_coer m = x01 :: x81 :: body) /\
    coer.decode body = Some inner /\
    req <> [] /\ ecr_requestHash inner = take 16 (crypto.hash_sha256 req) /\
    length (ecr_requestHash inner) = 16 /\
    ec_response_code r = EnrolmentResponseCode_of_int (ecr_responseCode inner) /\
    ec_certificate r =
      (fun c => set_label (cert.from_struct c (coer.encode c)) "ec_response") <$> ecr_certificate inner.
Proof.
  unfold decode_ec_response. intros H.
  destruct (enc.decrypt_and_unwrap _ _ _ _ _) as [body|] eqn:Hu; [|done].
  destruct (coer.decode body) as [inner|] eqn:Hd; [|done].
  destruct (sb.from 16 _) as [rh|] eqn:Hrh; [|done].
  destruct (enc.request_hash_matches req rh) eqn:Hm; [|done]. injection H as <-.
  apply enc.request_hash_matches_spec in Hm as (Hne & Hl & Hv); [|by eapply sb.from_wf].
  rewrite (sb.to_vector_from _ _ Hrh) in Hv. unfold octet.bytes in Hv.
  apply enc.decrypt_and_unwrap_sound in Hu as (v & ed & pt & m & H1 & H2 & H3 & H4 & H5).
  exists v, ed, pt, m, inner, body. split_and!; try done.
  rewrite Hv, length_take. lia.
Qed.

(** Completeness: a genuine response to this request is accepted. *)
Lemma decode_ec_response_complete resp priv k req signer spriv inner now g env g' nonce ccm psk_id :
  curve signer <> NistP384 ->
  is_keypair (curve signer) spriv (sb.to_vector (public_key signer)) ->
  hashed_id_8 signer = cert.compute_hid8 (sb.to_vector (cert_bytes signer)) ->
  coer.encode inner <> [] -> req <> [] ->
  ecr_requestHash inner = take 16 (crypto.hash_sha256 req) -> length (ecr_requestHash inner) = 16 ->
  sign.build_signed_by_cert (x01 :: x81 :: coer.encode inner) signer spriv (curve signer) now g
    = (env, g') ->
  env <> [] -> ecies.aes_128_ccm_encrypt k nonce env = Some ccm ->
  resp = coer.encode (enc.psk_response psk_id nonce ccm) -> resp <> [] ->
  exists r, decode_ec_response resp priv k req signer = Ok r /\
    ec_response_code r = EnrolmentResponseCode_of_int (ecr_responseCode inner) /\
    ec_certificate r =
      (fun c => set_label (cert.from_struct c (coer.encode c)) "ec_response") <$> ecr_certificate inner.
Proof.
  intros Hc Hkp Hid Hin Hreq Hrh Hrl Hs Hne Hccm Hresp Hrne.
  pose proof (enc.decrypt_and_unwrap_complete resp priv k x81 signer spriv (coer.encode inner) now
    g env g' nonce ccm psk_id Hc Hkp Hid Hin Hs Hne Hccm Hresp Hrne) as Hu.
  unfold decode_ec_response. rewrite Hu, coer.encode_decode by done. unfold octet.bytes.
  destruct (enc.request_hash_accepts req (ecr_requestHash inner)) as (b & -> & ->); try done.
  cbn [negb]. eauto.
Qed.

End ec.
End ec.
