(* ===== verification/AtRequest.v ===== *)
(** src/at_request.cpp and include/v2xpki/at_request.hpp: the authorization ticket
    request and its response.

    [now1] and [now2] are the clock readings of the two signed envelopes, in
    microseconds since the Unix epoch. *)
From S2P Require Import Prelude Result Sizes StaticBytes Asn OpenSSL CryptoEc CurvePoint Ecies.
From S2P Require Import CertParse SignedMessage SignedEnvelope EncryptedData Request.

Record AtRecord := MkAtRecord {
  ar_at_public_key : StaticBytes kP384PublicKeyLen;
  ar_aa_hashed_id_8 : hid8;
  ar_ea_hashed_id_8 : hid8;
  ar_requested_psids : list Z;
  ar_validity_period_hours : Z;
  ar_curve : Curve;
}.

(** [key_tag] is declared but never written nor read. *)
Record AtRequestDescription := MkAtRequestDescription {
  ad_verification_key : StaticBytes kP384PublicKeyLen;
  ad_psids : list Z;
  ad_validity_start : Z;
  ad_validity_duration_hours : Z;
  ad_aa_hid8 : hid8;
  ad_ea_hid8 : hid8;
  ad_hmac_key : StaticBytes 32;
  ad_key_tag : StaticBytes 16;
  ad_curve : Curve;
}.

Record AtRequestResult := MkAtRequestResult {
  at_encoded : StaticBytes kMaxCoerMessageLen;
  at_request_aes_key : StaticBytes kAesKeyLen;
}.

Record AtResponse := MkAtResponse {
  at_response_code : AuthorizationResponseCode;
  at_request_hash : StaticBytes 16;
  at_certificate : option CertInfo;
}.

(** [uint8_t hmac_out[32];] is not initialised: what it holds if HMAC fails. *)
Class UninitHmac := uninit_hmac : bytes.

Module at_.
Section at_.
Context {ossl : OpenSSL}.
Context {cb : Codec CertificateBase} {tb : Codec ToBeSignedCertificate} {junk : Uninit}.
Context {dc : Codec Ieee1609Dot2Data} {tc : Codec ToBeSignedData}.
Context {pc : Codec PublicVerificationKey} {sc : Codec SharedAtRequest}.
Context {iq : Codec InnerAtRequest} {ir : Codec InnerAtResponse} {hjunk : UninitHmac}.

(** src/at_request.cpp has a copy of its own. *)
Definition unix_to_tai32 (tp : Z) : Z :=
  let secs := Z.quot tp 1000000 in
  let tai := unix_to_tai_seconds secs in
  if (tai <? 0)%Z then 0%Z else u32 tai.

(** The result, and the message written to [*err] when the pointer is not null. *)
Definition validate_at_record (rec : AtRecord) : bool * option string :=
  if negb (sb.size (ar_at_public_key rec) =? pubkey_len (ar_curve rec))
     || negb (bool_decide (sb.at_ (ar_at_public_key rec) 0 = x04))
  then (false, Some "at_public_key must be uncompressed (0x04 prefix, correct size for curve)"%string)
  else if empty (ar_requested_psids rec)
  then (false, Some "requested_psids must not be empty"%string)
  else if existsb (fun psid => psid <? 0)%Z (ar_requested_psids rec)
  then (false, Some "psid values must be non-negative"%string)
  else if (ar_validity_period_hours rec <=? 0)%Z || (87600 <? ar_validity_period_hours rec)%Z
  then (false, Some "validity_period_hours must be 1-87600"%string)
  else (true, None).

(** [*StaticBytes<32>::from(p, 32)] never fails. *)
Definition hmac_key_from (p : bytes) : StaticBytes 32 :=
  default (sb.default_ 32) (sb.from_ptr 32 p 32).

Definition assemble_at_request (rec : AtRecord) (now : Z) (g : rng) : AtRequestDescription * rng :=
  let '(hmac_kp, g) := crypto.generate_keypair g in
  ({| ad_verification_key := ar_at_public_key rec;
      ad_psids := ar_requested_psids rec;
      ad_validity_start := unix_to_tai32 now;
      ad_validity_duration_hours := u16 (Z.min (ar_validity_period_hours rec) 65535);
      ad_aa_hid8 := ar_aa_hashed_id_8 rec;
      ad_ea_hid8 := ar_ea_hashed_id_8 rec;
      ad_hmac_key :=
        match hmac_kp with
        | Some kp => hmac_key_from (data_ (kp_private_key kp))
        | None => hmac_key_from (zeros kSha256Len)
        end;
      ad_key_tag := sb.default_ 16;
      ad_curve := ar_curve rec |}, g).

(** keyTag = HMAC-SHA256(hmacKey, OER(PublicVerificationKey))[:16] *)
Definition key_tag (hmac_key : StaticBytes 32) (pvk_oer : bytes) : bytes :=
  take 16 (default uninit_hmac (HMAC_sha256 (sb.to_vector hmac_key) pvk_oer)).

Definition shared_at_request (desc : AtRequestDescription) (tag : bytes) : SharedAtRequest :=
  {| eaId := octet.set (ad_ea_hid8 desc) kHashedId8Len;
     keyTag := octet.set tag 16;
     at_certificateFormat := CertificateFormat_ts103097v131;
     at_requestedSubjectAttributes :=
       Some (request.subject_attributes (ad_validity_start desc) (ad_validity_duration_hours desc)
               (ad_psids desc)) |}.

Definition inner_at_request (desc : AtRequestDescription) (shared : SharedAtRequest)
    (enc_ec_sig : Ieee1609Dot2Data) : InnerAtRequest :=
  {| at_publicKeys :=
       Some (request.public_keys (ad_curve desc) (sb.to_vector (ad_verification_key desc)));
     hmacKey := octet.set (data_ (ad_hmac_key desc)) (sb.size (ad_hmac_key desc));
     sharedAtRequest := Some shared;
     ecSignature := Some (encryptedEcSignature (Some enc_ec_sig)) |}.

Definition encode_at_request (desc : AtRequestDescription) (aa_cert ea_cert ec_cert : CertInfo)
    (ec_private_key at_private_key : bytes) (now1 now2 : Z) (g : rng)
    : Result AtRequestResult * rng :=
  let curve := ad_curve desc in
  let pvk_oer :=
    coer.encode (request.verification_key_node curve (sb.to_vector (ad_verification_key desc))) in
  if empty pvk_oer then (Err Encode, g) else
  let shared := shared_at_request desc (key_tag (ad_hmac_key desc) pvk_oer) in
  let shared_coer := coer.encode shared in
  if empty shared_coer then (Err Encode, g) else
  let ext_hash := crypto.hash_for_curve shared_coer curve in
  let '(signed_ext_bytes, g) :=
    sign.build_external_payload ext_hash ec_cert ec_private_key curve now1 g in
  if empty signed_ext_bytes then (Err Crypto, g) else
  match request.encrypt_to ea_cert signed_ext_bytes g with
  | (Err e, g) => (Err e, g)
  | (Ok (enc_ec_sig, _), g) =>
      match coer.decode (T := SharedAtRequest) shared_coer with
      | None => (Err Encode, g)
      | Some shared_decoded =>
          let inner_bytes := coer.encode (inner_at_request desc shared_decoded enc_ec_sig) in
          if empty inner_bytes then (Err Encode, g) else
          let etsi_bytes := [x01; x82] ++ inner_bytes in
          let '(outer_signed_bytes, g) :=
            sign.build_self_signed etsi_bytes at_private_key curve now2 g in
          if empty outer_signed_bytes then (Err Crypto, g) else
          match request.encrypt_to aa_cert outer_signed_bytes g with
          | (Err e, g) => (Err e, g)
          | (Ok (enc_outer, ecies_aa), g) =>
              (try! (encoded, aes_key) := request.finish enc_outer ecies_aa;
               Ok (MkAtRequestResult encoded aes_key), g)
          end
      end
  end.

Definition decode_at_response (response_bytes recipient_private_key request_aes_key
    request_bytes : bytes) (signer_cert : CertInfo) : Result AtResponse :=
  try! inner_bytes :=
    enc.decrypt_and_unwrap response_bytes recipient_private_key request_aes_key x83 signer_cert;
  some! resp := coer.decode (T := InnerAtResponse) inner_bytes or! Err Decode;
  let response_code := AuthorizationResponseCode_of_int (atr_responseCode resp) in
  some! request_hash := sb.from 16 (octet.bytes (atr_requestHash resp)) or! Err Decode;
  if negb (enc.request_hash_matches request_bytes request_hash) then Err SignatureInvalid else
  let certificate :=
    match atr_certificate resp with
    | Some c => Some (set_label (cert.from_struct c (coer.encode c)) "at_response")
    | None => None
    end in
  Ok (MkAtResponse response_code request_hash certificate).

(** ** Lemmas *)

(** The two copies of the conversion agree. *)
Lemma at_unix_to_tai32_same tp : unix_to_tai32 tp = request.unix_to_tai32 tp.
Proof. done. Qed.

Lemma validate_at_record_iff rec :
  (validate_at_record rec).1 = true <->
  sb.size (ar_at_public_key rec) = pubkey_len (ar_curve rec) /\
  sb.at_ (ar_at_public_key rec) 0 = x04 /\
  ar_requested_psids rec <> [] /\ Forall (fun p => 0 <= p)%Z (ar_requested_psids rec) /\
  (1 <= ar_validity_period_hours rec <= 87600)%Z.
Proof.
  assert (Hex : forall l, existsb (fun p => p <? 0)%Z l = false <-> Forall (fun p => 0 <= p)%Z l).
  { induction l as [|p l IH]; simpl; [done|].
    rewrite orb_false_iff, IH, Forall_cons_iff, Z.ltb_ge. done. }
  unfold validate_at_record. split.
  - destruct (negb _ || negb _) eqn:E1; [done|].
    destruct (empty (ar_requested_psids rec)) eqn:E2; [done|].
    destruct (existsb _ _) eqn:E3; [done|]. apply Hex in E3.
    destruct ((ar_validity_period_hours rec <=? 0)%Z || _) eqn:E4; [done|].
    intros _. bool_props. split_and!; try done; lia.
  - intros (H1 & H2 & H3 & H4 & H5).
    rewrite H1, H2, Nat.eqb_refl, bool_decide_eq_true_2, (proj2 (empty_false_iff _) H3),
      (proj2 (Hex _) H4) by done.
    cbn [negb orb]. destruct (Z.leb_spec (ar_validity_period_hours rec) 0); [lia|].
    destruct (Z.ltb_spec 87600 (ar_validity_period_hours rec)); [lia|]. done.
Qed.

Context {ossl_ok : OpenSSLOk}.
Context {dc_ok : CodecOk Ieee1609Dot2Data} {iq_ok : CodecOk InnerAtRequest}
  {ir_ok : CodecOk InnerAtResponse} {sc_ok : CodecOk SharedAtRequest}.

(** The HMAC key is the 32 bytes of a fresh scalar. *)
Lemma assemble_at_hmac_key rec now g desc g' :
  assemble_at_request rec now g = (desc, g') ->
  sb.size (ad_hmac_key desc) = 32 /\ ad_curve desc = ar_curve rec /\
  ad_verification_key desc = ar_at_public_key rec.
Proof.
  unfold assemble_at_request. destruct (crypto.generate_keypair g) as [o g1].
  intros [= <- <-]. cbn. by destruct o.
Qed.

(** What the AA and the EA read.  The AA opens the outer layer with its key and
    finds a proof of possession of the new key and the request; the EA opens the
    encrypted EC signature and finds a signature of the EC key over the digest of
    the shared part. *)
Lemma encode_at_request_opens desc aa ea ec ec_priv at_priv now1 now2 g res g'
    aa_priv ea_priv at_pub ec_pub :
  ad_curve desc <> NistP384 ->
  is_keypair (ad_curve desc) at_priv at_pub -> encodes_key (ad_curve desc) ec_priv ec_pub ->
  is_p256_size (enc_curve aa) = true -> is_p256_size (enc_curve ea) = true ->
  encodes_key (enc_curve aa) aa_priv (request.recipient_key aa) ->
  encodes_key (enc_curve ea) ea_priv (request.recipient_key ea) ->
  encode_at_request desc aa ea ec ec_priv at_priv now1 now2 g = (Ok res, g') ->
  exists ed outer m body shared sig_data ed' ext tbs sig hid,
    coer.decode (sb.to_vector (at_encoded res)) =
      Some (MkIeee1609Dot2Data kIeee1609Dot2Version (Some (encryptedData (Some ed)))) /\
    enc.open_request ed aa_priv (crypto.hash_sha256 (sb.to_vector (cert_bytes aa))) = Some outer /\
    signed_msg.unwrap outer = Some m /\ signed_msg.verify m at_pub [] = true /\
    payload_coer m = x01 :: x82 :: body /\
    coer.decode body = Some (inner_at_request desc shared sig_data) /\
    sig_data = MkIeee1609Dot2Data kIeee1609Dot2Version (Some (encryptedData (Some ed'))) /\
    enc.open_request ed' ea_priv (crypto.hash_sha256 (sb.to_vector (cert_bytes ea))) = Some ext /\
    coer.decode_with_basic_fallback ext =
      Some (MkIeee1609Dot2Data kIeee1609Dot2Version (Some (signedData (Some
        (MkSignedData hid (Some tbs)
           (Some (if empty (sb.to_vector (cert_bytes ec)) then SignerIdentifier_self
                  else SignerIdentifier_digest (octet.set (hashed_id_8 ec) kHashedId8Len)))
           (Some (sign.build_asn_signature sig (ad_curve desc)))))))) /\
    (extDataHash <$> payload tbs) = Some (Some
      (if is_p256_size (ad_curve desc)
       then sha256HashedData (crypto.hash_for_curve (coer.encode shared) (ad_curve desc))
       else sha384HashedData (crypto.hash_for_curve (coer.encode shared) (ad_curve desc)))) /\
    crypto.ecdsa_verify_digest_curve ec_pub
      (signed_msg.signed_data_hash (coer.encode tbs) (sb.to_vector (cert_bytes ec)) (ad_curve desc))
      sig (ad_curve desc) = true /\
    shared = shared_at_request desc (key_tag (ad_hmac_key desc)
      (coer.encode (request.verification_key_node (ad_curve desc)
         (sb.to_vector (ad_verification_key desc))))).
Proof.
  intros Hc Hat Hec Hca Hce Hka Hke H. unfold encode_at_request in H.
  destruct (empty (coer.encode (request.verification_key_node _ _))); [done|].
  set (shared := shared_at_request desc _) in H.
  destruct (empty (coer.encode shared)) eqn:Hsh; [done|]. bool_props.
  destruct (sign.build_external_payload _ _ _ _ _ _) as [ext g1] eqn:Hext.
  destruct (empty ext) eqn:Hee; [done|]. bool_props.
  destruct (request.encrypt_to ea ext g1) as [[[w' e']|] g2] eqn:Hw'; [|done].
  rewrite coer.encode_decode in H by done.
  destruct (empty (coer.encode (inner_at_request desc shared w'))) eqn:Hin; [done|]. bool_props.
  destruct (sign.build_self_signed _ _ _ _ _) as [outer g3] eqn:Hout.
  destruct (empty outer) eqn:Hoe; [done|]. bool_props.
  destruct (request.encrypt_to aa outer g3) as [[[w e]|] g4] eqn:Hw; [|done].
  destruct (request.finish w e) as [[encd k]|] eqn:Hf; [|done]. injection H as <- <-.
  apply request.finish_inv in Hf as (_ & _ & _ & Hdec & _).
  eapply request.encrypt_to_opens in Hw as (ed & -> & Hopen & _); [|done..].
  eapply request.encrypt_to_opens in Hw' as (ed' & -> & Hopen' & _); [|done..].
  destruct (sign.unwrap_self_signed ([x01; x82] ++ _) _ _ _ _ _ _ _ Hat Hc ltac:(done) Hout Hoe)
    as (m & Hm & Hpl & _ & Hv).
  unfold sign.build_external_payload in Hext.
  destruct (sign.finalize_inv _ _ _ _ _ _ _ _ Hext Hee) as (sig & hid & _ & Hsig & Hd).
  destruct (crypto_facts.encodes_key_verify _ _ _ Hec) as (ec_point & Hkp & Hsame).
  destruct (crypto_facts.sign_then_verify _ _ _ _ _ _ _ Hkp Hsig) as (Hver & _). rewrite <- Hsame in Hver.
  set (w' := MkIeee1609Dot2Data kIeee1609Dot2Version (Some (encryptedData (Some ed')))) in *.
  eexists ed, outer, m, (coer.encode (inner_at_request desc shared w')), shared, w', ed', ext, _,
    sig, hid.
  split_and!; try done; [by apply coer.encode_decode|].
  cbn. unfold octet.set. by destruct (is_p256_size (ad_curve desc)); rewrite take_ge.
Qed.

(** Soundness of the response decoder: signed by the AA and bound to the request. *)
Lemma decode_at_response_sound resp priv k req signer r :
  decode_at_response resp priv k req signer = Ok r ->
  exists v ed plaintext m inner body,
    coer.decode resp = Some (MkIeee1609Dot2Data v (Some (encryptedData ed))) /\
    enc.decrypt_encrypted_content ed priv k = Some plaintext /\
    signed_msg.unwrap plaintext = Some m /\
    signed_msg.verify m (sb.to_vector (public_key signer)) (sb.to_vector (cert_bytes signer)) = true /\
    (payload_coer m = body \/ payload_coer m = x01 :: x83 :: body) /\
    coer.decode body = Some inner /\
    req <> [] /\ atr_requestHash inner = take 16 (crypto.hash_sha256 req) /\
    length (atr_requestHash inner) = 16 /\
    at_response_code r = AuthorizationResponseCode_of_int (atr_responseCode inner) /\
    at_certificate r =
      (fun c => set_label (cert.from_struct c (coer.encode c)) "at_response") <$> atr_certificate inner.
Proof.
  unfold decode_at_response. intros H.
  destruct (enc.decrypt_and_unwrap _ _ _ _ _) as [body|] eqn:Hu; [|done].
  destruct (coer.decode body) as [inner|] eqn:Hd; [|done].
  destruct (sb.from 16 _) as [rh|] eqn:Hrh; [|done].
  destruct (enc.request_hash_matches req rh) eqn:Hm; [|done]. injection H as <-.
  apply enc.request_hash_matches_spec in Hm as (Hne & Hl & Hv); [|by eapply sb.from_wf].
  rewrite (sb.to_vector_from _ _ Hrh) in Hv. unfold octet.bytes in Hv.
  apply enc.decrypt_and_unwrap_sound in Hu as (v & ed & pt & m & H1 & H2 & H3 & H4 & H5).
  exists v, ed, pt, m, inner, body. split_and!; try done.
  rewrite Hv, length_take. lia.
Qed.

(** Completeness: a genuine response to this request is accepted. *)
Lemma decode_at_response_complete resp priv k req signer spriv inner now g env g' nonce ccm psk_id :
  curve signer <> NistP384 ->
  is_keypair (curve signer) spriv (sb.to_vector (public_key signer)) ->
  hashed_id_8 signer = cert.compute_hid8 (sb.to_vector (cert_bytes signer)) ->
  coer.encode inner <> [] -> req <> [] ->
  atr_requestHash inner = take 16 (crypto.hash_sha256 req) -> length (atr_requestHash inner) = 16 ->
  sign.build_signed_by_cert (x01 :: x83 :: coer.encode inner) signer spriv (curve signer) now g
    = (env, g') ->
  env <> [] -> ecies.aes_128_ccm_encrypt k nonce env = Some ccm ->
  resp = coer.encode (enc.psk_response psk_id nonce ccm) -> resp <> [] ->
  exists r, decode_at_response resp priv k req signer = Ok r /\
    at_response_code r = AuthorizationResponseCode_of_int (atr_responseCode inner) /\
    at_certificate r =
      (fun c => set_label (cert.from_struct c (coer.encode c)) "at_response") <$> atr_certificate inner.
Proof.
  intros Hc Hkp Hid Hin Hreq Hrh Hrl Hs Hne Hccm Hresp Hrne.
  pose proof (enc.decrypt_and_unwrap_complete resp priv k x83 signer spriv (coer.encode inner) now
    g env g' nonce ccm psk_id Hc Hkp Hid Hin Hs Hne Hccm Hresp Hrne) as Hu.
  unfold decode_at_response. rewrite Hu, coer.encode_decode by done. unfold octet.bytes.
  destruct (enc.request_hash_accepts req (atr_requestHash inner)) as (b & -> & ->); try done.
  cbn [negb]. eauto.
Qed.

End at_.
End at_.
