(* ===== verification/Http.v ===== *)
(** src/http_client.cpp and include/v2xpki/http_client.hpp: the HTTP client.

    libcurl is a parameter: a transfer is a step of the network state that yields a
    CURLcode, a response code, the chunks passed to the write callback and the
    lines passed to the header callback.  Sleeps are recorded, not performed. *)
From stdpp Require Import gmap.
From S2P Require Import Prelude Result Hex.

Record HttpResponse := MkHttpResponse {
  status_code : Z;
  body : bytes;
  headers : gmap string string;
}.

Record HttpClientConfig := MkHttpClientConfig {
  ca_bundle_path : string;
  timeout : Z;
  verify_tls : bool;
  connect_timeout : Z;
  max_retries : nat;
  retry_backoff : Z;
}.

(** [HttpClientConfig{ca, timeout, verify_tls}]: the other members at their defaults. *)
Definition default_config (ca : string) (timeout : Z) (verify : bool) : HttpClientConfig :=
  MkHttpClientConfig ca timeout verify 10 2 500.

Inductive CURLcode :=
  | CURLE_OK
  | CURLE_COULDNT_RESOLVE_PROXY
  | CURLE_COULDNT_RESOLVE_HOST
  | CURLE_COULDNT_CONNECT
  | CURLE_PARTIAL_FILE
  | CURLE_OPERATION_TIMEDOUT
  | CURLE_GOT_NOTHING
  | CURLE_SEND_ERROR
  | CURLE_RECV_ERROR
  | CURLE_other (n : Z).

(** What is set on an easy handle. *)
Record curl_opts := MkCurlOpts {
  o_url : string;
  o_post : option bytes;
  o_header_list : list string;
  o_timeout : Z;
  o_connect_timeout : Z;
  o_followlocation : Z;
  o_maxredirs : Z;
  o_useragent : string;
  o_ssl_verifypeer : Z;
  o_ssl_verifyhost : Z;
  o_cainfo : option string;
}.

(** The outcome of one [curl_easy_perform]. *)
Record transfer := MkTransfer {
  t_result : CURLcode;
  t_code : Z;
  t_chunks : list bytes;
  t_header_lines : list bytes;
}.

Class Transport := {
  net : Type;
  curl_easy_init : net -> bool * net;
  curl_easy_perform : curl_opts -> net -> transfer * net;
}.

Module http.

Definition write_callback (buf chunk : bytes) : bytes := buf ++ chunk.

(** [line.find(c)]: what comes before and after the first [c]. *)
Fixpoint split_at (c : byte) (l : bytes) : option (bytes * bytes) :=
  match l with
  | [] => None
  | x :: l =>
      if bool_decide (x = c) then Some ([], l)
      else match split_at c l with
           | Some (a, b) => Some (x :: a, b)
           | None => None
           end
  end.

Fixpoint trim_front (l : bytes) : bytes :=
  match l with
  | x :: l' => if bool_decide (x = x20) || bool_decide (x = x09) then trim_front l' else l
  | [] => []
  end.

(** [while (!val.empty() && (val.back() == '\r' || val.back() == '\n')) val.pop_back()] *)
Fixpoint trim_back (l : bytes) : bytes :=
  match l with
  | [] => []
  | x :: l =>
      match trim_back l with
      | [] => if bool_decide (x = x0d) || bool_decide (x = x0a) then [] else [x]
      | l' => x :: l'
      end
  end.

Definition header_callback (hs : gmap string string) (line : bytes) : gmap string string :=
  match split_at x3a line with
  | Some (key, val) =>
      <[string_of_bytes key := string_of_bytes (trim_back (trim_front val))]> hs
  | None => hs
  end.

Definition is_transient (c : CURLcode) : bool :=
  match c with
  | CURLE_COULDNT_CONNECT | CURLE_COULDNT_RESOLVE_HOST | CURLE_COULDNT_RESOLVE_PROXY
  | CURLE_OPERATION_TIMEDOUT | CURLE_GOT_NOTHING | CURLE_SEND_ERROR | CURLE_RECV_ERROR
  | CURLE_PARTIAL_FILE => true
  | _ => false
  end.

(** The options [apply_common_opts] sets, on a handle for [url]. *)
Definition apply_common_opts (url : string) (post : option bytes) (hl : list string)
    (cfg : HttpClientConfig) : curl_opts :=
  {| o_url := url;
     o_post := post;
     o_header_list := hl;
     o_timeout := timeout cfg;
     o_connect_timeout := connect_timeout cfg;
     o_followlocation := 1;
     o_maxredirs := 10;
     o_useragent := "v2xpki/0.1";
     o_ssl_verifypeer := if verify_tls cfg then 1 else 0;
     o_ssl_verifyhost := if verify_tls cfg then 2 else 0;
     o_cainfo :=
       if verify_tls cfg && negb (str_empty (ca_bundle_path cfg))
       then Some (ca_bundle_path cfg) else None |}.

Section http.
Context {tr : Transport}.

(** [static_cast<int>(code)] *)
Definition int_of_long (z : Z) : Z := ((z + 2 ^ 31) mod 2 ^ 32 - 2 ^ 31)%Z.

(** What one attempt leaves in [resp]; the response code is only read on CURLE_OK. *)
Definition attempt_response (t : transfer) : HttpResponse :=
  {| status_code := match t_result t with CURLE_OK => int_of_long (t_code t) | _ => 0 end;
     body := foldl write_callback [] (t_chunks t);
     headers := foldl header_callback ∅ (t_header_lines t) |}.

(** Both returns inside the loop: [None] means "not decided yet". *)
Definition attempt_outcome (t : transfer) : option (Result HttpResponse) :=
  match t_result t with
  | CURLE_OK =>
      let resp := attempt_response t in
      if (status_code resp <? 500)%Z && negb (status_code resp =? 429)%Z then Some (Ok resp)
      else None
  | c => if negb (is_transient c) then Some (Err Network) else None
  end.

(** The loop of [perform_with_retry], from attempt number [attempt]; also returns
    the list of sleeps, in milliseconds.  [None] is "out of fuel", or the shift
    [1u << attempt] by 32 or more places, which C++ leaves undefined. *)
Fixpoint retry_loop (fuel : nat) (opts : curl_opts) (cfg : HttpClientConfig) (attempt : nat)
    (n : net) : option (Result HttpResponse * list Z * net) :=
  match fuel with
  | O => None
  | S fuel =>
      let '(t, n) := curl_easy_perform opts n in
      match attempt_outcome t with
      | Some r => Some (r, [], n)
      | None =>
          if (max_retries cfg <=? attempt)%nat then
            let resp := attempt_response t in
            Some (if negb (status_code resp =? 0)%Z then Ok resp else Err Network, [], n)
          else if (32 <=? attempt)%nat then None
          else
            let ms := (retry_backoff cfg * Z.shiftl 1 (Z.of_nat attempt))%Z in
            match retry_loop fuel opts cfg (S attempt) n with
            | Some (r, sleeps, n) => Some (r, ms :: sleeps, n)
            | None => None
            end
      end
  end.

Definition perform_with_retry (opts : curl_opts) (cfg : HttpClientConfig) (n : net)
    : option (Result HttpResponse * list Z * net) :=
  retry_loop (S (max_retries cfg)) opts cfg 0 n.

Definition get (cfg : HttpClientConfig) (url : string) (n : net) : Result HttpResponse * net :=
  match curl_easy_init n with
  | (false, n) => (Err Network, n)
  | (true, n) =>
      match perform_with_retry (apply_common_opts url None [] cfg) cfg n with
      | Some (r, _, n) => (r, n)
      | None => (Err Network, n)
      end
  end.

Definition post (cfg : HttpClientConfig) (url : string) (b : bytes) (content_type : string)
    (n : net) : Result HttpResponse * net :=
  match curl_easy_init n with
  | (false, n) => (Err Network, n)
  | (true, n) =>
      let opts :=
        apply_common_opts url (Some b) [("Content-Type: " ++ content_type)%string] cfg in
      match perform_with_retry opts cfg n with
      | Some (r, _, n) => (r, n)
      | None => (Err Network, n)
      end
  end.

(** ** Specification of the retry policy *)

(** The transfers the network would answer with, in order. *)
Fixpoint attempts (opts : curl_opts) (k : nat) (n : net) : list transfer * net :=
  match k with
  | O => ([], n)
  | S k =>
      let '(t, n) := curl_easy_perform opts n in
      let '(ts, n) := attempts opts k n in (t :: ts, n)
  end.

(** Undecided attempts are retried, up to [r] times; after the last one the
    client settles for whatever it has. *)
Inductive retries (opts : curl_opts) :
    nat -> net -> list transfer -> Result HttpResponse -> net -> Prop :=
  | retries_final r n t n' res :
      curl_easy_perform opts n = (t, n') -> attempt_outcome t = Some res ->
      retries opts r n [t] res n'
  | retries_exhausted n t n' :
      curl_easy_perform opts n = (t, n') -> attempt_outcome t = None ->
      retries opts 0 n [t]
        (if (status_code (attempt_response t) =? 0)%Z then Err Network else Ok (attempt_response t)) n'
  | retries_again r n t n' ts res n'' :
      curl_easy_perform opts n = (t, n') -> attempt_outcome t = None ->
      retries opts r n' ts res n'' ->
      retries opts (S r) n (t :: ts) res n''.

Definition backoffs (cfg : HttpClientConfig) (from k : nat) : list Z :=
  map (fun i => retry_backoff cfg * 2 ^ Z.of_nat i)%Z (seq from k).

Lemma retry_loop_spec opts cfg r attempt n :
  attempt + r = max_retries cfg -> max_retries cfg <= 32 ->
  exists ts res n', retries opts r n ts res n' /\
    retry_loop (S r) opts cfg attempt n = Some (res, backoffs cfg attempt (length ts - 1), n').
Proof.
  revert attempt n. induction r as [|r IH]; intros a n Ha Hm; cbn [retry_loop].
  - destruct (curl_easy_perform opts n) as [t n'] eqn:Hp.
    destruct (attempt_outcome t) as [res|] eqn:Ho.
    { exists [t], res, n'. split; [by eapply retries_final|done]. }
    rewrite (proj2 (Nat.leb_le _ _)) by lia. eexists [t], _, n'.
    split; [by eapply retries_exhausted|].
    destruct (status_code (attempt_response t) =? 0)%Z; reflexivity.
  - destruct (curl_easy_perform opts n) as [t n'] eqn:Hp.
    destruct (attempt_outcome t) as [res|] eqn:Ho.
    { exists [t], res, n'. split; [by eapply retries_final|done]. }
    rewrite !(proj2 (Nat.leb_gt _ _)) by lia.
    destruct (IH (S a) n') as (ts & res & n'' & Hr & Hl); [lia..|].
    cbn [retry_loop] in Hl. rewrite Hl.
    exists (t :: ts), res, n''. split; [by eapply retries_again|].
    assert (ts <> []) by (by inversion Hr). destruct ts as [|t' ts]; [done|].
    cbn [length Nat.sub]. rewrite Nat.sub_0_r. unfold backoffs. cbn [seq map].
    by rewrite Z.shiftl_1_l.
Qed.

(** The loop always decides, within [max_retries + 1] transfers. *)
Lemma retries_bound opts r n ts res n' :
  retries opts r n ts res n' -> 1 <= length ts <= S r.
Proof. induction 1; simpl; lia. Qed.

(** Nothing is sent again after a decision. *)
Lemma retries_undecided opts r n ts res n' :
  retries opts r n ts res n' -> Forall (fun t => attempt_outcome t = None) (droplast 1 ts).
Proof.
  induction 1 as [| |r n t n' ts res n'' Hp Ho Hr IH]; [constructor..|].
  assert (Hlen := retries_bound _ _ _ _ _ _ Hr). unfold droplast in *. cbn [length].
  replace (S (length ts) - 1) with (S (length ts - 1)) by lia. simpl. by constructor.
Qed.

Lemma perform_with_retry_total opts cfg n :
  max_retries cfg <= 32 ->
  exists ts res n', retries opts (max_retries cfg) n ts res n' /\
    perform_with_retry opts cfg n = Some (res, backoffs cfg 0 (length ts - 1), n').
Proof. by apply retry_loop_spec. Qed.

(** A response that is handed to the caller with a status below 500 that is not 429
    is final; other statuses are only seen after the retries are used up. *)
Lemma retries_ok opts r n ts resp n' :
  retries opts r n ts (Ok resp) n' ->
  exists t, list.last ts = Some t /\ t_result t = CURLE_OK /\ resp = attempt_response t /\
    ((status_code resp < 500 /\ status_code resp <> 429)%Z \/ length ts = S r).
Proof.
  remember (Ok resp) as res eqn:Hres. intros H.
  induction H as [r n t n' res Hp Ho|n t n' Hp Ho|r n t n' ts res n'' Hp Ho Hr IH]; subst.
  - exists t. split; [done|]. unfold attempt_outcome in Ho.
    destruct (t_result t) eqn:Ht; try done.
    destruct (_ && _) eqn:Hs; [|done]. injection Ho as <-. bool_props. split_and!; try done.
    left. split; [done|]. match goal with Hq : Z.eqb _ _ = false |- _ => by apply Z.eqb_neq in Hq end.
  - exists t. split; [done|].
    destruct (Z.eqb_spec (status_code (attempt_response t)) 0); [done|]. injection Hres as <-.
    unfold attempt_response in *. destruct (t_result t); simpl in *; try done. auto.
  - destruct (IH eq_refl) as (t' & Hl & Hok & -> & Hc). exists t'.
    split; [|split_and!; try done; naive_solver].
    destruct ts; [done|]. done.
Qed.

End http.
End http.
