(* ===== verification/KeyStore.v ===== *)
(** include/v2xpki/key_store.hpp, src/plaintext_file_key_store.cpp: key handles, the
    [KeyStore] interface and its plaintext file implementation.

    The file system is that of Disk.v; PEM is a parameter. *)
From Stdlib Require Import Ascii.
From stdpp Require Import gmap.
From S2P Require Import Prelude Result Sizes StaticBytes OpenSSL CryptoEc Disk.

(** ** KeyHandle *)

Record KeyHandle := MkKeyHandle { id_ : StaticBytes 64 }.

Module handle.

Definition char_ok (c : byte) : bool :=
  let z := byte.unsigned c in
  ((65 <=? z)%Z && (z <=? 90)%Z) || ((97 <=? z)%Z && (z <=? 122)%Z)
  || ((48 <=? z)%Z && (z <=? 57)%Z) || bool_decide (c = x5f) || bool_decide (c = x2d).

Definition from (id : string) : option KeyHandle :=
  let b := bytes_of_string id in
  if str_empty id then None else
  if negb (forallb char_ok b) then None else
  match sb.from_ptr 64 b (length b) with
  | None => None
  | Some sb => Some (MkKeyHandle sb)
  end.

Definition id_str (h : KeyHandle) : string := string_of_bytes (sb.to_vector (id_ h)).

Lemma str_empty_bytes s : str_empty s = empty (bytes_of_string s).
Proof. by destruct s. Qed.

Lemma handle_from_Some s h :
  from s = Some h <->
  bytes_of_string s <> [] /\ Forall (fun c => char_ok c = true) (bytes_of_string s) /\
  sb.from 64 (bytes_of_string s) = Some (id_ h).
Proof.
  unfold from. rewrite str_empty_bytes. fold (sb.from 64 (bytes_of_string s)). split.
  - intros H. destruct (empty _) eqn:He; [done|]. destruct (forallb _ _) eqn:Hf; [|done].
    simpl in H. destruct (sb.from 64 _) as [b|]; [|done]. injection H as <-. bool_props.
    split_and!; try done. apply List.Forall_forall. intros c Hc. rewrite forallb_forall in Hf.
    by apply Hf.
  - intros (Hne & Hf & ->). rewrite (proj2 (empty_false_iff _) Hne).
    assert (forallb char_ok (bytes_of_string s) = true) as ->.
    { apply forallb_forall. intros c Hc. rewrite List.Forall_forall in Hf. auto. }
    simpl. by destruct h.
Qed.

Lemma id_str_from s h : from s = Some h -> id_str h = s.
Proof.
  intros (_ & _ & Hb)%handle_from_Some. unfold id_str.
  by rewrite (sb.to_vector_from _ _ Hb), string_bytes_inv.
Qed.

Lemma handle_from_is_Some s :
  is_Some (from s) <->
  bytes_of_string s <> [] /\ Forall (fun c => char_ok c = true) (bytes_of_string s) /\
  length (bytes_of_string s) <= 64.
Proof.
  split.
  - intros [h (Hne & Hf & Hs)%handle_from_Some]. split_and!; try done. apply sb.from_is_Some. eauto.
  - intros (Hne & Hf & Hl). apply sb.from_is_Some in Hl as [b Hb].
    exists (MkKeyHandle b). by apply handle_from_Some.
Qed.

(** A handle never contains a path separator or a dot. *)
Lemma char_ok_safe c : char_ok c = true -> c <> x2f /\ c <> x2e /\ c <> x00 /\ c <> x5c.
Proof. intros H. split_and!; intros ->; by vm_compute in H. Qed.

End handle.

(** PEM_write_PrivateKey (success, bytes put in the file) and PEM_read_PrivateKey. *)
Class Pem {ossl : OpenSSL} := {
  PEM_write_PrivateKey : EVP_PKEY -> bool * bytes;
  PEM_read_PrivateKey : bytes -> option EVP_PKEY;
}.

(** What the key store relies on: PEM round trips, and the parameters a key was
    made from, with its point in uncompressed form, can be read back. *)
Class PemOk {ossl : OpenSSL} {pem : Pem} := {
  pem_round_trip k b : PEM_write_PrivateKey k = (true, b) -> PEM_read_PrivateKey b = Some k;
  fromdata_get c d xy k :
    EVP_PKEY_fromdata_keypair (curve_group_name c) d (x04 :: xy) = Some k ->
    length (x04 :: xy) = pubkey_len c ->
    EVP_PKEY_get_priv k = Some d /\ EVP_PKEY_get_pub k = Some (x04 :: xy);
  fromdata_bits c d pub k :
    EVP_PKEY_fromdata_keypair (curve_group_name c) d pub = Some k -> length pub = pubkey_len c ->
    EVP_PKEY_get_bits k = if is_p256_size c then 256%Z else 384%Z;
}.

Module pfks.
Section pfks.
Context {ossl : OpenSSL} {pem : Pem}.

Definition try_build_pkey (kp : KeyPair) (group_name : string) : option EVP_PKEY :=
  match BN_bin2bn (sb.to_vector (kp_private_key kp)) with
  | None => None
  | Some bn_priv => EVP_PKEY_fromdata_keypair group_name bn_priv (sb.to_vector (kp_public_key kp))
  end.

Definition build_pkey (kp : KeyPair) : option EVP_PKEY :=
  if (sb.size (kp_public_key kp) =? kP384PublicKeyLen)
     && (sb.size (kp_private_key kp) =? kP384ScalarLen)
  then try_build_pkey kp "brainpoolP384r1"
  else if (sb.size (kp_public_key kp) =? kP256PublicKeyLen)
          && (sb.size (kp_private_key kp) =? kP256ScalarLen)
  then match try_build_pkey kp "prime256v1" with
       | Some pkey => Some pkey
       | None => try_build_pkey kp "brainpoolP256r1"
       end
  else None.

(** The return value of [BN_bn2binpad] is ignored; the buffer starts zeroed. *)
Definition extract_keypair (pkey : EVP_PKEY) : option KeyPair :=
  match EVP_PKEY_get_priv pkey with
  | None => None
  | Some bn_priv =>
      let slen := if (256 <? EVP_PKEY_get_bits pkey)%Z then kP384ScalarLen else kP256ScalarLen in
      let priv_bytes := default (zeros slen) (BN_bn2binpad bn_priv slen) in
      match EVP_PKEY_get_pub pkey with
      | None => None
      | Some pub_bytes =>
          match sb.from kP384PublicKeyLen pub_bytes, sb.from kP384ScalarLen priv_bytes with
          | Some pub_sb, Some priv_sb => Some (MkKeyPair pub_sb priv_sb)
          | _, _ => None
          end
      end
  end.

Definition pem_path (dir_ : string) (h : KeyHandle) : string :=
  path_append dir_ (handle.id_str h ++ ".pem").

Definition load_keypair (dir_ : string) (fs : fsys) (h : KeyHandle) : option KeyPair :=
  match files fs !! pem_path dir_ h with
  | None => None
  | Some contents =>
      match PEM_read_PrivateKey contents with
      | None => None
      | Some pkey => extract_keypair pkey
      end
  end.

(** The constructor; [None] is the exception of create_directories. *)
Definition open_store (keystore_dir : string) (fs : fsys) : option fsys :=
  disk.create_directories keystore_dir fs.

(** PEM_write_PrivateKey fails when it cannot encode the key or the stream does not
    take all of it; what it did write stays in the file. *)
Definition store_keypair (dir_ : string) (fs : fsys) (h : KeyHandle) (kp : KeyPair) : bool * fsys :=
  match build_pkey kp with
  | None => (false, fs)
  | Some pkey =>
      let path := pem_path dir_ h in
      match disk.fopen_w path fs with
      | (None, fs) => (false, fs)
      | (Some fp, fs) =>
          let '(ok, written) := PEM_write_PrivateKey pkey in
          let '(n, fp, fs) := disk.fwrite fp written fs in
          (ok && (n =? length written), disk.fclose fp fs)
      end
  end.

Definition sign (dir_ : string) (fs : fsys) (h : KeyHandle) (message : bytes) (g : rng)
    : option Signature * rng :=
  match load_keypair dir_ fs h with
  | None => (None, g)
  | Some kp => crypto.ecdsa_sign (sb.to_vector (kp_private_key kp)) message g
  end.

Definition derive_shared_secret (dir_ : string) (fs : fsys) (h : KeyHandle)
    (peer_public_key : bytes) : option bytes :=
  match load_keypair dir_ fs h with
  | None => None
  | Some kp => crypto.ecdh_derive (sb.to_vector (kp_private_key kp)) peer_public_key
  end.

(** ** Lemmas *)

(** Observational equality of key pairs: the same bytes. *)
Definition kp_equiv (a b : KeyPair) : Prop :=
  sb.to_vector (kp_public_key a) = sb.to_vector (kp_public_key b) /\
  sb.to_vector (kp_private_key a) = sb.to_vector (kp_private_key b).

#[export] Instance kp_equiv_equivalence : Equivalence kp_equiv.
Proof. unfold kp_equiv. split; repeat intro; naive_solver congruence. Qed.

#[export] Instance try_build_pkey_proper : Proper (kp_equiv ==> eq ==> eq) try_build_pkey.
Proof. intros a b [H1 H2] g ? <-. unfold try_build_pkey. by rewrite H1, H2. Qed.

(** The arrays are within their capacity, and the public key is in the form
    0x04 || X || Y that key_store.hpp prescribes. *)
Definition kp_wf (kp : KeyPair) : Prop :=
  sb.wf (kp_public_key kp) /\ sb.wf (kp_private_key kp) /\
  head (sb.to_vector (kp_public_key kp)) = Some x04.

Lemma string_app_inj_r s t u : (s ++ u = t ++ u)%string -> s = t.
Proof.
  intros H%(f_equal bytes_of_string). rewrite !bytes_of_string_app in H.
  apply app_inv_tail in H. by apply bytes_of_string_inj.
Qed.

Lemma string_app_inj_l s t u : (u ++ s = u ++ t)%string -> s = t.
Proof.
  intros H%(f_equal bytes_of_string). rewrite !bytes_of_string_app in H.
  apply app_inv_head in H. by apply bytes_of_string_inj.
Qed.

(** Handles made by [from] name a file directly inside the directory. *)
Lemma pem_path_inside dir s h :
  handle.from s = Some h ->
  pem_path dir h = (dir ++ (if empty (bytes_of_string dir)
      || bool_decide (List.last (bytes_of_string dir) x00 = x2f) then "" else "/") ++ s ++ ".pem")%string.
Proof.
  intros H. pose proof (handle.id_str_from _ _ H) as Hs. apply handle.handle_from_Some in H as (Hne & Hf & _).
  unfold pem_path, path_append. rewrite Hs, bytes_of_string_app.
  destruct (bytes_of_string s) as [|c r] eqn:Hb; [done|]. simpl nth.
  apply Forall_cons_iff in Hf as [Hc _]. apply handle.char_ok_safe in Hc as (Hc & _).
  rewrite bool_decide_eq_false_2 by done. by destruct (_ || _).
Qed.

(** Distinct handles never share a file. *)
Lemma pem_path_inj dir s1 s2 h1 h2 :
  handle.from s1 = Some h1 -> handle.from s2 = Some h2 ->
  pem_path dir h1 = pem_path dir h2 -> s1 = s2.
Proof.
  intros H1 H2. rewrite (pem_path_inside _ _ _ H1), (pem_path_inside _ _ _ H2).
  intros H. do 2 apply string_app_inj_l in H. by apply string_app_inj_r in H.
Qed.

Context {ossl_ok : OpenSSLOk} {pem_ok : PemOk}.

Lemma try_build_extract kp c k :
  kp_wf kp -> sb.size (kp_public_key kp) = pubkey_len c -> sb.size (kp_private_key kp) = scalar_len c ->
  try_build_pkey kp (curve_group_name c) = Some k ->
  exists kp', extract_keypair k = Some kp' /\ kp_equiv kp' kp.
Proof.
  intros (Hw1 & Hw2 & Hu) Hp Hs H. unfold try_build_pkey in H.
  destruct (BN_bin2bn _) as [d|] eqn:Hd; [|done].
  rewrite <- (sb.size_to_vector _ Hw1) in Hp. rewrite <- (sb.size_to_vector _ Hw2) in Hs.
  pose proof (fromdata_bits _ _ _ _ H Hp) as Hb.
  assert (EVP_PKEY_get_priv k = Some d /\ EVP_PKEY_get_pub k = Some (sb.to_vector (kp_public_key kp)))
    as [Hg1 Hg2].
  { destruct (sb.to_vector (kp_public_key kp)) as [|t xy]; [done|]. injection Hu as ->. by eapply fromdata_get. }
  assert (Hsl : (if (256 <? EVP_PKEY_get_bits k)%Z then kP384ScalarLen else kP256ScalarLen)
                = scalar_len c) by (rewrite Hb; by destruct c).
  unfold extract_keypair. rewrite Hg1, Hg2, Hsl, <- Hs, (bin2bn_binpad _ _ Hd). simpl.
  destruct (sb.from_Some (N := kP384PublicKeyLen) (sb.to_vector (kp_public_key kp)))
    as (bp & -> & Hvp & _); [rewrite Hp; apply pubkey_len_le|].
  destruct (sb.from_Some (N := kP384ScalarLen) (sb.to_vector (kp_private_key kp)))
    as (bs & -> & Hvs & _); [rewrite Hs; apply scalar_len_le|].
  eexists. split; [done|]. done.
Qed.

Lemma build_extract kp k :
  kp_wf kp -> build_pkey kp = Some k -> exists kp', extract_keypair k = Some kp' /\ kp_equiv kp' kp.
Proof.
  intros Hw H. unfold build_pkey in H.
  destruct (_ && _) eqn:E1 in H.
  { bool_props. by apply (try_build_extract kp BrainpoolP384r1 k). }
  destruct (_ && _) eqn:E2 in H; [|done]. bool_props.
  destruct (try_build_pkey kp "prime256v1") as [k'|] eqn:Hk; simplify_eq.
  - by apply (try_build_extract kp NistP256 k).
  - by apply (try_build_extract kp BrainpoolP256r1 k).
Qed.

Lemma store_keypair_other dir fs h kp ok fs' p :
  store_keypair dir fs h kp = (ok, fs') -> p <> pem_path dir h -> files fs' !! p = files fs !! p.
Proof.
  intros H Hne. unfold store_keypair in H.
  destruct (build_pkey kp) as [k|]; [|by simplify_eq].
  destruct (PEM_write_PrivateKey k) as [ok' b].
  unfold disk.fopen_w in H. destruct (can_open_w _ _ _); simplify_eq/=; [|done].
  by rewrite !lookup_insert_ne by done.
Qed.

Lemma store_keypair_env dir fs h kp : env (store_keypair dir fs h kp).2 = env fs.
Proof.
  unfold store_keypair. destruct (build_pkey kp) as [k|]; [|done].
  unfold disk.fopen_w. destruct (can_open_w _ _ _); [|done]. by destruct (PEM_write_PrivateKey k).
Qed.

(** A store that reports success has put the encoding of the key it was given in
    the file, on a medium that keeps what it takes. *)
Lemma store_keypair_file dir fs h kp fs' :
  disk.reliable (env fs) -> store_keypair dir fs h kp = (true, fs') ->
  exists k b, build_pkey kp = Some k /\ PEM_write_PrivateKey k = (true, b) /\
    files fs' !! pem_path dir h = Some b.
Proof.
  intros Hr H. unfold store_keypair in H.
  destruct (build_pkey kp) as [k|] eqn:Hk; [|done].
  destruct (PEM_write_PrivateKey k) as [ok b] eqn:Hp.
  unfold disk.fopen_w in H. destruct (can_open_w _ _ _); [|done].
  destruct (disk.fwrite _ _ _) as [[n s] fs1] eqn:Hw. injection H as H <-. bool_props. subst ok.
  exists k, b. split_and!; try done. by apply (disk.fwrite_fclose _ _ (disk.put _ _) _ _ _ Hr Hw).
Qed.

(** A key that was stored is loaded back. *)
Lemma load_store dir fs h kp fs' :
  disk.reliable (env fs) -> kp_wf kp -> store_keypair dir fs h kp = (true, fs') ->
  exists kp', load_keypair dir fs' h = Some kp' /\ kp_equiv kp' kp.
Proof.
  intros Hr Hw (k & b & Hk & Hp & Hf)%store_keypair_file; [|done].
  unfold load_keypair. rewrite Hf, (pem_round_trip _ _ Hp). by apply build_extract.
Qed.

(** Storing under one handle leaves the others alone, whatever happens. *)
Lemma load_store_other dir fs s1 s2 h1 h2 kp ok fs' :
  handle.from s1 = Some h1 -> handle.from s2 = Some h2 -> s1 <> s2 ->
  store_keypair dir fs h1 kp = (ok, fs') ->
  load_keypair dir fs' h2 = load_keypair dir fs h2.
Proof.
  intros H1 H2 Hne H. unfold load_keypair.
  rewrite (store_keypair_other _ _ _ _ _ _ (pem_path dir h2) H); [done|].
  intros Heq. apply Hne. symmetry. by eapply pem_path_inj.
Qed.

(** A stored pair derives the secrets of its private key. *)
Lemma stored_key_ecdh dir fs h kp fs' peer :
  disk.reliable (env fs) -> kp_wf kp -> store_keypair dir fs h kp = (true, fs') ->
  derive_shared_secret dir fs' h peer = crypto.ecdh_derive (sb.to_vector (kp_private_key kp)) peer.
Proof.
  intros Hr Hw H. destruct (load_store _ _ _ _ _ Hr Hw H) as (kp' & Hl & _ & He).
  unfold derive_shared_secret. by rewrite Hl, He.
Qed.

End pfks.
End pfks.

(** ** The interface

    What a [KeyStore] promises its clients; the plaintext store, in a given
    directory, is an instance. *)
Class KeyStoreSpec (S : Type) (load : S -> KeyHandle -> option KeyPair)
    (store : S -> KeyHandle -> KeyPair -> bool * S) (reliable : S -> Prop) := {
  ks_load_store s h kp s' :
    reliable s -> pfks.kp_wf kp -> store s h kp = (true, s') ->
    exists kp', load s' h = Some kp' /\ pfks.kp_equiv kp' kp;
  ks_load_other s id1 id2 h1 h2 kp ok s' :
    handle.from id1 = Some h1 -> handle.from id2 = Some h2 -> id1 <> id2 ->
    store s h1 kp = (ok, s') -> load s' h2 = load s h2;
}.

#[export] Instance PlaintextFileKeyStore_spec {ossl : OpenSSL} {pem : Pem} {ossl_ok : OpenSSLOk}
    {pem_ok : PemOk} (dir : string) :
  KeyStoreSpec fsys (pfks.load_keypair dir) (pfks.store_keypair dir)
    (fun fs => disk.reliable (env fs)).
Proof.
  split; eauto using pfks.load_store, pfks.load_store_other.
Qed.
