(* ===== verification/PkiClient.v ===== *)
(** src/pki_client.cpp and include/v2xpki/facade.hpp: the client facade.

    A call takes the client to its next state.  Besides the members of
    [PkiClient::Impl] the state holds what the calls read and change outside the
    object: the random generator, the network, the file system and what the log
    callback has been given.  The clock is an argument: [now i] is the reading, in
    microseconds since the Unix epoch, at the [i]-th place of the call that looks at
    it. *)
From stdpp Require Import gmap relations pretty.
From S2P Require Import Prelude Result Sizes StaticBytes Asn OpenSSL CryptoEc CertParse.
From S2P Require Import SignedMessage Revocation TrustChain TrustList Hex Request EcRequest.
From S2P Require Import AtRequest Http Disk KeyStore.

Record PkiClientConfig := MkPkiClientConfig {
  ea_url : string;
  aa_url : string;
  tlm_url : string;
  ma_url : string;
  cfg_ca_bundle_path : string;
  trust_dir : string;
  keystore_dir : string;
  tlm_hid8 : string;
  cfg_timeout : Z;
  cfg_verify_tls : bool;
  (** whether a log callback is set *)
  cfg_log : bool;
}.

Record client {ossl : OpenSSL} {tr : Transport} := MkClient {
  config : PkiClientConfig;
  c_http : HttpClientConfig;
  trust : TrustChain;
  keystore : string;
  revocation : RevocationStore;
  topology : option TrustTopology;
  c_rng : rng;
  c_net : net;
  c_fs : fsys;
  c_log : list string;
}.
Arguments MkClient {ossl tr} _ _ _ _ _ _ _ _ _ _.

(** Early returns of a function that threads the state. *)
Notation "'tryS!' x := r 'in!' c ; k" :=
  (match r with Ok x => k | Err e => (Err e, c) end)
  (at level 10, x pattern, r at level 100, c at level 9, k at level 200) : v2x_scope.
Notation "'someS!' x := o 'or!' e 'in!' c ; k" :=
  (match o with Some x => k | None => (Err e, c) end)
  (at level 10, x pattern, o at level 100, e at level 9, c at level 9, k at level 200) : v2x_scope.

(** [url.back() == '/'] then [pop_back]. *)
Definition strip_slash (s : string) : string :=
  let b := bytes_of_string s in
  if negb (empty b) && bool_decide (List.last b x00 = x2f)
  then string_of_bytes (removelast b) else s.

(** The two loops of [find_dc_url]. *)
Fixpoint find_dc_url (dcs : list DcInfo) (h : hid8) (fallback_url : string) : string :=
  match dcs with
  | [] => fallback_url
  | d :: dcs =>
      if existsb (fun served => bytes_eqb served h) (serves d) then strip_slash (url d)
      else find_dc_url dcs h fallback_url
  end.

Definition hid8_to_hex (h : hid8) : string := hex_stream false h.

Definition issuer_chain_present (trust : TrustChain) (cert : CertInfo) : bool :=
  match chain.find_by_hashed_id_8 trust (issuer_hash_id_8 cert) with
  | None => false
  | Some issuer =>
      if is_self_signed issuer then true
      else match chain.find_by_hashed_id_8 trust (issuer_hash_id_8 issuer) with
           | Some _ => true
           | None => false
           end
  end.

(** The address of the client's own revocation store. *)
Definition revocation_loc : loc := 1%positive.

Module pki.
Section pki.
Context {ossl : OpenSSL} {tr : Transport} {pem : Pem}.
Context {cb : Codec CertificateBase} {tb : Codec ToBeSignedCertificate} {junk : Uninit}.
Context {dc : Codec Ieee1609Dot2Data} {tc : Codec ToBeSignedData}.
Context {ec : Codec EtsiTs102941Data} {xc : Codec EtsiTs103097Certificate}.
Context {eq_ : Codec InnerEcRequest} {er : Codec InnerEcResponse}.
Context {pc : Codec PublicVerificationKey} {sc : Codec SharedAtRequest}.
Context {aq : Codec InnerAtRequest} {ar : Codec InnerAtResponse} {hjunk : UninitHmac}.

Implicit Types c : client.

Definition set_rng c g :=
  MkClient (config c) (c_http c) (trust c) (keystore c) (revocation c) (topology c) g (c_net c) (c_fs c) (c_log c).
Definition set_net c n :=
  MkClient (config c) (c_http c) (trust c) (keystore c) (revocation c) (topology c) (c_rng c) n (c_fs c) (c_log c).
Definition set_trust c t :=
  MkClient (config c) (c_http c) t (keystore c) (revocation c) (topology c) (c_rng c) (c_net c) (c_fs c) (c_log c).
Definition set_revocation c r :=
  MkClient (config c) (c_http c) (trust c) (keystore c) r (topology c) (c_rng c) (c_net c) (c_fs c) (c_log c).
Definition set_topology c t :=
  MkClient (config c) (c_http c) (trust c) (keystore c) (revocation c) t (c_rng c) (c_net c) (c_fs c) (c_log c).
Definition set_urls c (ea aa : string) :=
  let g := config c in
  MkClient (MkPkiClientConfig ea aa (tlm_url g) (ma_url g) (cfg_ca_bundle_path g) (trust_dir g)
              (keystore_dir g) (tlm_hid8 g) (cfg_timeout g) (cfg_verify_tls g) (cfg_log g))
    (c_http c) (trust c) (keystore c) (revocation c) (topology c) (c_rng c) (c_net c) (c_fs c) (c_log c).

Definition set_fs c fs :=
  MkClient (config c) (c_http c) (trust c) (keystore c) (revocation c) (topology c) (c_rng c) (c_net c) fs
    (c_log c).

(** The callback is given one message. *)
Definition log c (m : string) : client :=
  if cfg_log (config c) then
    MkClient (config c) (c_http c) (trust c) (keystore c) (revocation c) (topology c) (c_rng c) (c_net c)
      (c_fs c) (c_log c ++ [m])
  else c.

(** [impl_->trust.add_cert] *)
Definition trust_add c (ci : CertInfo) := set_trust c (chain.add_cert (trust c) ci).

(** [time(nullptr)] at a clock reading. *)
Definition unix_seconds (now_us : Z) : Z := Z.div now_us 1000000.

(** [impl_->trust.validate_chain(cert)], which reads the revocation store through
    the pointer. *)
Definition validate c (cert : CertInfo) (now_us : Z) : bool :=
  chain.validate_chain (trust c) (fun _ => revocation c) cert
    (chain.current_tai_seconds (unix_seconds now_us)).

(** The constructor; [dir] is the contents of [trust_dir]. *)
Definition create (cfg : PkiClientConfig) (dir : option (list dir_entry)) (g : rng) (n : net)
    (fs : fsys) : client :=
  let trust := chain.set_revocation_store chain.empty_chain (Some revocation_loc) in
  let trust :=
    if negb (str_empty (trust_dir cfg)) then (chain.load_from_directory trust dir).2 else trust in
  MkClient cfg (default_config (cfg_ca_bundle_path cfg) (cfg_timeout cfg) (cfg_verify_tls cfg))
    trust (keystore_dir cfg) store.empty_store None g n fs [].

(** The constructor on a disk: the key store makes its directory first, which may
    throw ([None]). *)
Definition construct (cfg : PkiClientConfig) (g : rng) (n : net) (fs : fsys) : option client :=
  match pfks.open_store (keystore_dir cfg) fs with
  | None => None
  | Some fs => Some (create cfg (disk.list_dir (trust_dir cfg) fs) g n fs)
  end.

Definition http_get c (u : string) : Result HttpResponse * client :=
  let '(r, n) := http.get (c_http c) u (c_net c) in (r, set_net c n).

Definition http_post c (u : string) (b : bytes) : Result HttpResponse * client :=
  let '(r, n) := http.post (c_http c) u b "application/x-its-request" (c_net c) in (r, set_net c n).

Definition request_enrolment_credential (canonical : KeyHandle) (rec : EcRecord) (now : nat -> Z)
    (c : client) : Result CertInfo * client :=
  if negb (ec.validate_ec_record rec).1 then (Err InvalidArgument, c) else
  someS! kp := pfks.load_keypair (keystore c) (c_fs c) canonical or! KeyStore in! c;
  someS! ea := chain.find_by_hashed_id_8 (trust c) (er_ea_hashed_id_8 rec) or! NotFound in! c;
  let desc := ec.assemble_ec_request rec (now 0) in
  let '(req_result, g) :=
    ec.encode_ec_request desc ea (sb.to_vector (kp_private_key kp)) (now 1) (now 2) (c_rng c) in
  let c := set_rng c g in
  tryS! req := req_result in! c;
  let '(resp, c) := http_post c (ea_url (config c)) (sb.to_vector (ec_encoded req)) in
  tryS! resp := resp in! c;
  if negb (status_code resp =? 200)%Z then (Err HttpStatus, c) else
  let ec_resp :=
    ec.decode_ec_response (body resp) (sb.to_vector (kp_private_key kp))
      (sb.to_vector (ec_request_aes_key req)) (sb.to_vector (ec_encoded req)) ea in
  tryS! ec_resp := ec_resp in! c;
  if negb (bool_decide (ec_response_code ec_resp = EC_Ok)) then (Err Protocol, c) else
  someS! cert := ec_certificate ec_resp or! Protocol in! c;
  let ec_cert := set_label cert "ec" in
  if negb (issuer_chain_present (trust c) ec_cert) then (Err NotFound, c) else
  if negb (validate c ec_cert (now 3)) then (Err SignatureInvalid, c) else
  (Ok ec_cert, trust_add c ec_cert).

(** The assignment [desc.verification_key = ...]. *)
Definition set_verification_key (desc : AtRequestDescription) (key : StaticBytes kP384PublicKeyLen)
    : AtRequestDescription :=
  MkAtRequestDescription key (ad_psids desc) (ad_validity_start desc)
    (ad_validity_duration_hours desc) (ad_aa_hid8 desc) (ad_ea_hid8 desc) (ad_hmac_key desc)
    (ad_key_tag desc) (ad_curve desc).

Definition request_authorization_ticket (ec_handle : KeyHandle) (ec_cert : CertInfo)
    (at_handle : KeyHandle) (rec : AtRecord) (now : nat -> Z) (c : client)
    : Result CertInfo * client :=
  if negb (at_.validate_at_record rec).1 then (Err InvalidArgument, c) else
  someS! kp := pfks.load_keypair (keystore c) (c_fs c) ec_handle or! KeyStore in! c;
  someS! aa := chain.find_by_hashed_id_8 (trust c) (ar_aa_hashed_id_8 rec) or! NotFound in! c;
  someS! ea := chain.find_by_hashed_id_8 (trust c) (ar_ea_hashed_id_8 rec) or! NotFound in! c;
  someS! at_kp := pfks.load_keypair (keystore c) (c_fs c) at_handle or! KeyStore in! c;
  let '(desc, g) := at_.assemble_at_request rec (now 0) (c_rng c) in
  let desc := set_verification_key desc (kp_public_key at_kp) in
  let '(req_result, g) :=
    at_.encode_at_request desc aa ea ec_cert (sb.to_vector (kp_private_key kp))
      (sb.to_vector (kp_private_key at_kp)) (now 1) (now 2) g in
  let c := set_rng c g in
  tryS! req := req_result in! c;
  let '(resp, c) := http_post c (aa_url (config c)) (sb.to_vector (at_encoded req)) in
  tryS! resp := resp in! c;
  if negb (status_code resp =? 200)%Z then (Err HttpStatus, c) else
  let at_resp :=
    at_.decode_at_response (body resp) (sb.to_vector (kp_private_key at_kp))
      (sb.to_vector (at_request_aes_key req)) (sb.to_vector (at_encoded req)) aa in
  tryS! at_resp := at_resp in! c;
  if negb (bool_decide (at_response_code at_resp = AT_Ok)) then (Err Protocol, c) else
  someS! cert := at_certificate at_resp or! Protocol in! c;
  let at_cert := set_label cert "at" in
  if negb (issuer_chain_present (trust c) at_cert) then (Err NotFound, c) else
  if negb (validate c at_cert (now 3)) then (Err SignatureInvalid, c) else
  (Ok at_cert, trust_add c at_cert).

(** The body the three certificate fetches have in common: GET, parse, label, add. *)
Definition fetch_cert (u label : string) (c : client) : Result CertInfo * client :=
  let '(resp, c) := http_get c u in
  tryS! resp := resp in! c;
  if negb (status_code resp =? 200)%Z then (Err HttpStatus, c) else
  let ci := cert.from_coer (body resp) in
  if sb.is_empty (cert_bytes ci) then (Err Decode, c) else
  let ci := set_label ci label in
  (Ok ci, trust_add c ci).

Definition fetch_trust_anchor (c : client) : Result CertInfo * client :=
  fetch_cert (tlm_url (config c) ++ "/trustanchor") "trustanchor" c.

Definition fetch_cert_by_name (name : string) (c : client) : Result CertInfo * client :=
  fetch_cert (tlm_url (config c) ++ "/cert/" ++ name) name c.

Definition fetch_cert_by_hashed_id_8 (h : hid8) (c : client) : Result CertInfo * client :=
  let hex := hid8_to_hex h in
  fetch_cert (tlm_url (config c) ++ "/lookup/" ++ hex) ("lookup_" ++ hex) c.

(** *** discover_trust *)

(** The TLM certificate and the identifier used in the ECTL request. *)
Definition discover_tlm (c : client) : Result (CertInfo * string) * client :=
  let base_url := tlm_url (config c) in
  let pinned := tlm_hid8 (config c) in
  if negb (str_empty pinned) then
    let c := log c ("[discover] GET " ++ base_url ++ "/gettlmcertificate/" ++ pinned ++ nl) in
    let '(resp, c) := http_get c (base_url ++ "/gettlmcertificate/" ++ pinned) in
    match resp with
    | Err e => (Err e, log c ("[discover] failed to fetch TLM cert: " ++ Error_to_string e ++ nl))
    | Ok resp =>
        if negb (status_code resp =? 200)%Z then
          (Err HttpStatus, log c ("[discover] failed to fetch TLM cert (HTTP "
             ++ pretty (status_code resp) ++ ")" ++ nl)) else
        let ci := cert.from_coer (body resp) in
        if sb.is_empty (cert_bytes ci) then (Err Decode, c) else
        (Ok (set_label ci "tlm", pinned), c)
    end
  else
    let c := log c ("[discover] no --tlm-hid8, bootstrapping via /tlm" ++ nl) in
    let '(resp, c) := http_get c (base_url ++ "/tlm") in
    match resp with
    | Err e => (Err e, log c ("[discover] /tlm failed: " ++ Error_to_string e
                  ++ ", cannot bootstrap TLM. Provide --tlm-hid8." ++ nl))
    | Ok resp =>
        if negb (status_code resp =? 200)%Z then
          (Err HttpStatus, log c ("[discover] /tlm failed (HTTP " ++ pretty (status_code resp)
             ++ "), cannot bootstrap TLM. Provide --tlm-hid8." ++ nl)) else
        let ci := cert.from_coer (body resp) in
        if sb.is_empty (cert_bytes ci) then (Err Decode, c) else
        let tlm_cert := set_label ci "tlm" in
        let tlm_hid8_hex := tlist.hid8_hex_upper (hashed_id_8 tlm_cert) in
        (Ok (tlm_cert, tlm_hid8_hex),
         log c ("[discover] TLM HID8 bootstrapped: " ++ tlm_hid8_hex ++ nl))
    end.

Definition set_ctl_verified (t : TrustTopology) (b : bool) : TrustTopology :=
  set_verified t false b.

(** One iteration of the loop over the root CAs. *)
Definition discover_rca (base_url : string) (now : Z) (rca : CertInfo)
    (st : TrustTopology * client) : TrustTopology * client :=
  let '(result, c) := st in
  let dc_url := find_dc_url (dcs result) (hashed_id_8 rca) base_url in
  let rca_hid8_hex := tlist.hid8_hex_upper (hashed_id_8 rca) in
  let c := log c ("[discover] GET " ++ dc_url ++ "/getctl/" ++ rca_hid8_hex ++ nl) in
  let '(ctl_resp, c) := http_get c (dc_url ++ "/getctl/" ++ rca_hid8_hex) in
  let failed (code : Z) : string :=
    ("[discover] CTL fetch failed for RCA " ++ rca_hid8_hex ++ " (HTTP " ++ pretty code ++ ")" ++ nl)%string in
  match ctl_resp with
  | Err _ => (result, log c (failed 0%Z))
  | Ok ctl_resp =>
      if negb (status_code ctl_resp =? 200)%Z then (result, log c (failed (status_code ctl_resp))) else
      match tlist.decode_rca_ctl (body ctl_resp) (sb.to_vector (public_key rca))
              (sb.to_vector (cert_bytes rca)) (unix_seconds now) with
      | Err _ =>
          (set_ctl_verified result false,
           log c ("[discover] CTL decode failed for RCA " ++ rca_hid8_hex ++ nl))
      | Ok ctl_topo =>
          if negb (ctl_signature_verified ctl_topo) then
            (set_ctl_verified result false,
             log c ("[discover] CTL signature verification failed for RCA " ++ rca_hid8_hex
                    ++ " — skipping its EA/AA/DC" ++ nl)) else
          let c := foldl trust_add c (map ea_cert (eas ctl_topo)) in
          let c := foldl trust_add c (map aa_cert (aas ctl_topo)) in
          (set_lists result (rcas result) (eas result ++ eas ctl_topo)
             (aas result ++ aas ctl_topo) (dcs result ++ dcs ctl_topo), c)
      end
  end.

Fixpoint discover_rcas (base_url : string) (now : nat -> Z) (i : nat) (l : list CertInfo)
    (st : TrustTopology * client) : TrustTopology * client :=
  match l with
  | [] => st
  | rca :: l => discover_rcas base_url now (S i) l (discover_rca base_url (now i) rca st)
  end.

Definition discover_trust (now : nat -> Z) (c : client) : Result TrustTopology * client :=
  let base_url := tlm_url (config c) in
  let '(tlm, c) := discover_tlm c in
  tryS! (tlm_cert, tlm_hid8_hex) := tlm in! c;
  let c := trust_add c tlm_cert in
  let c := log c ("[discover] GET " ++ base_url ++ "/getectl/" ++ tlm_hid8_hex ++ nl) in
  let '(ectl_resp, c) := http_get c (base_url ++ "/getectl/" ++ tlm_hid8_hex) in
  match ectl_resp with
  | Err e => (Err e, log c ("[discover] ECTL fetch failed: " ++ Error_to_string e ++ nl))
  | Ok ectl_resp =>
  if negb (status_code ectl_resp =? 200)%Z then
    (Err HttpStatus,
     log c ("[discover] ECTL fetch failed (HTTP " ++ pretty (status_code ectl_resp) ++ ")" ++ nl)) else
  match tlist.decode_ectl (body ectl_resp) (sb.to_vector (public_key tlm_cert))
          (sb.to_vector (cert_bytes tlm_cert)) (unix_seconds (now 0)) with
  | Err e => (Err e, log c ("[discover] ECTL decode failed" ++ nl))
  | Ok ectl_topo =>
  if negb (ectl_signature_verified ectl_topo) then
    (Err SignatureInvalid,
     log c ("[discover] ECTL signature verification failed — refusing to trust it" ++ nl)) else
  let result := set_tlm ectl_topo (Some tlm_cert) in
  let c := foldl trust_add c (rcas result) in
  let result := set_ctl_verified result true in
  let '(result, c) := discover_rcas base_url now 1 (rcas result) (result, c) in
  if negb (ctl_signature_verified result) then
    (Err SignatureInvalid,
     log c ("[discover] one or more RCA CTLs failed signature verification" ++ nl)) else
  let ea :=
    match eas result with
    | ea :: _ => if negb (str_empty (its_access_point ea)) then its_access_point ea
                 else ea_url (config c)
    | [] => ea_url (config c)
    end in
  let aa := match aas result with aa :: _ => access_point aa | [] => aa_url (config c) end in
  (Ok result, set_topology (set_urls c ea aa) (Some result))
  end end.

Definition fetch_crl (rca_hid8 : hid8) (now : nat -> Z) (c : client) : Result CrlContents * client :=
  let hex := tlist.hid8_hex_upper rca_hid8 in
  let dc_url :=
    match topology c with
    | Some t => find_dc_url (dcs t) rca_hid8 (tlm_url (config c))
    | None => tlm_url (config c)
    end in
  let '(resp, c) := http_get c (dc_url ++ "/getcrl/" ++ hex) in
  tryS! resp := resp in! c;
  if negb (status_code resp =? 200)%Z then (Err HttpStatus, c) else
  someS! rca := chain.find_by_hashed_id_8 (trust c) rca_hid8 or! NotFound in! c;
  tryS! crl :=
    decode_crl (body resp) (sb.to_vector (public_key rca)) (sb.to_vector (cert_bytes rca)) in! c;
  let '(ok, r) :=
    store.apply (revocation c) crl (chain.current_tai_seconds (unix_seconds (now 0))) in
  let c := set_revocation c r in
  if negb ok then (Err Protocol, c) else (Ok crl, c).

(** ** Lemmas *)

(** The two states differ at most in the random generator, the network and the log. *)
Definition same_impl c c' : Prop :=
  config c' = config c /\ c_http c' = c_http c /\ trust c' = trust c /\ keystore c' = keystore c /\
  revocation c' = revocation c /\ topology c' = topology c /\ c_fs c' = c_fs c.

#[export] Instance same_impl_preorder : PreOrder same_impl.
Proof.
  unfold same_impl. split.
  - intros c. by split_and!.
  - intros c1 c2 c3 H1 H2. destruct_and! H1. destruct_and! H2. split_and!; congruence.
Qed.

Lemma same_impl_rng c g : same_impl c (set_rng c g).
Proof. by split_and!. Qed.
Lemma same_impl_net c n : same_impl c (set_net c n).
Proof. by split_and!. Qed.
Lemma same_impl_log c m : same_impl c (log c m).
Proof. unfold log. by destruct (cfg_log _). Qed.
Lemma http_get_same c u r c' : http_get c u = (r, c') -> same_impl c c'.
Proof. unfold http_get. destruct (http.get _ _ _). intros [= <- <-]. apply same_impl_net. Qed.
Lemma http_post_same c u b r c' : http_post c u b = (r, c') -> same_impl c c'.
Proof. unfold http_post. destruct (http.post _ _ _ _ _). intros [= <- <-]. apply same_impl_net. Qed.

Lemma validate_same c c' ci t : same_impl c c' -> validate c' ci t = validate c ci t.
Proof. intros (_ & _ & Ht & _ & Hr & _). unfold validate. by rewrite Ht, Hr. Qed.

(** The branch of an early return: an error, and nothing else has changed. *)
#[local] Ltac early_return :=
  left; simplify_eq; eexists; split;
  [reflexivity|first [eassumption|apply same_impl_rng|reflexivity]].

(** The client state [c] loads [kp], finds [ea], encodes [req] for it, posts it and
    gets [resp] with status 200, which takes it to state [c1]. *)
Definition enrolment_exchange canonical (rec : EcRecord) (now : nat -> Z) c
    (kp : KeyPair) (ea : CertInfo) (req : EcRequestResult) (resp : HttpResponse) c1 : Prop :=
  (ec.validate_ec_record rec).1 = true /\
  pfks.load_keypair (keystore c) (c_fs c) canonical = Some kp /\
  certs_ (trust c) !! er_ea_hashed_id_8 rec = Some ea /\
  exists g,
    ec.encode_ec_request (ec.assemble_ec_request rec (now 0)) ea (sb.to_vector (kp_private_key kp))
      (now 1) (now 2) (c_rng c) = (Ok req, g) /\
    http_post (set_rng c g) (ea_url (config c)) (sb.to_vector (ec_encoded req)) = (Ok resp, c1) /\
    status_code resp = 200%Z.

(** The same for an authorization request: the EC key signs, the new key is the one
    asked for, and the request goes to the AA. *)
Definition authorization_exchange ec_handle (ec_cert : CertInfo) at_handle (rec : AtRecord)
    (now : nat -> Z) c (at_kp : KeyPair) (aa : CertInfo) (req : AtRequestResult)
    (resp : HttpResponse) c1 : Prop :=
  (at_.validate_at_record rec).1 = true /\
  pfks.load_keypair (keystore c) (c_fs c) at_handle = Some at_kp /\
  certs_ (trust c) !! ar_aa_hashed_id_8 rec = Some aa /\
  exists kp ea desc g g',
    pfks.load_keypair (keystore c) (c_fs c) ec_handle = Some kp /\
    certs_ (trust c) !! ar_ea_hashed_id_8 rec = Some ea /\
    at_.assemble_at_request rec (now 0) (c_rng c) = (desc, g) /\
    at_.encode_at_request (set_verification_key desc (kp_public_key at_kp)) aa ea ec_cert
      (sb.to_vector (kp_private_key kp)) (sb.to_vector (kp_private_key at_kp)) (now 1) (now 2) g
      = (Ok req, g') /\
    http_post (set_rng c g') (aa_url (config c)) (sb.to_vector (at_encoded req)) = (Ok resp, c1) /\
    status_code resp = 200%Z.

Lemma enrolment_exchange_same canonical rec now c kp ea req resp c1 :
  enrolment_exchange canonical rec now c kp ea req resp c1 -> same_impl c c1.
Proof.
  intros (_ & _ & _ & g & _ & Hp & _). etrans; [apply (same_impl_rng c g)|by eapply http_post_same].
Qed.

Lemma authorization_exchange_same h ci h' rec now c kp aa req resp c1 :
  authorization_exchange h ci h' rec now c kp aa req resp c1 -> same_impl c c1.
Proof.
  intros (_ & _ & _ & ? & ? & ? & ? & g & _ & _ & _ & _ & Hp & _).
  etrans; [apply (same_impl_rng c g)|by eapply http_post_same].
Qed.

(** A certificate that validates has its issuers in the store. *)
Lemma validate_issuer_present c ci t :
  validate c ci t = true -> issuer_chain_present (trust c) ci = true.
Proof.
  unfold validate, chain.validate_chain, issuer_chain_present. intros H.
  destruct (is_self_signed ci); [done|]. destruct (valid_at ci _); simpl in H; [|done].
  destruct (chain.find_by_hashed_id_8 _ (issuer_hash_id_8 ci)) as [aa|]; [|done].
  destruct (valid_at aa _); simpl in H; [|done].
  destruct (chain.verify_cert_signature ci aa); simpl in H; [|done].
  destruct (chain.is_revoked_by_issuer _ _ ci aa); [done|].
  destruct (is_self_signed aa); [done|].
  by destruct (chain.find_by_hashed_id_8 _ _).
Qed.

(** An error leaves the client as it was; success installs exactly the certificate
    that was issued. *)
Lemma request_ec_cases canonical rec now c r c' :
  request_enrolment_credential canonical rec now c = (r, c') ->
  (exists e, r = Err e /\ same_impl c c') \/
  (exists kp ea req resp ecr ci c1,
    enrolment_exchange canonical rec now c kp ea req resp c1 /\
    ec.decode_ec_response (body resp) (sb.to_vector (kp_private_key kp))
      (sb.to_vector (ec_request_aes_key req)) (sb.to_vector (ec_encoded req)) ea = Ok ecr /\
    ec_response_code ecr = EC_Ok /\ ec_certificate ecr = Some ci /\
    r = Ok (set_label ci "ec") /\ same_impl c c1 /\
    validate c (set_label ci "ec") (now 3) = true /\ c' = trust_add c1 (set_label ci "ec")).
Proof.
  unfold request_enrolment_credential, chain.find_by_hashed_id_8. intros H.
  destruct (ec.validate_ec_record rec).1 eqn:Hval; simpl in H; [|early_return].
  destruct (pfks.load_keypair _ _ _) as [kp|] eqn:Hkp; [|early_return].
  destruct (certs_ (trust c) !! _) as [ea|] eqn:Hea; [|early_return].
  destruct (ec.encode_ec_request _ _ _ _ _ _) as [[req|e] g] eqn:Hreq.
  2:{ early_return. }
  destruct (http_post _ _ _) as [resp c1] eqn:Hpost.
  pose proof (transitivity (same_impl_rng c g) (http_post_same _ _ _ _ _ Hpost)) as Hsame.
  destruct resp as [resp|e]; [|early_return].
  destruct (status_code resp =? 200)%Z eqn:Hst; simpl in H; [|early_return].
  destruct (ec.decode_ec_response _ _ _ _ _) as [ecr|e] eqn:Hdec; [|early_return].
  destruct (bool_decide (ec_response_code ecr = EC_Ok)) eqn:Hco; simpl in H;
    [|early_return].
  destruct (ec_certificate ecr) as [ci|] eqn:Hci; [|early_return].
  destruct (issuer_chain_present _ _); simpl in H; [|early_return].
  destruct (validate c1 _ (now 3)) eqn:Hv; simpl in H; [|early_return].
  injection H as <- <-. right. rewrite (validate_same _ _ _ _ Hsame) in Hv.
  apply Z.eqb_eq in Hst. bool_props. exists kp, ea, req, resp, ecr, ci, c1.
  split_and!; try done. split_and!; try done. by exists g.
Qed.

Lemma request_at_cases ec_handle ec_cert at_handle rec now c r c' :
  request_authorization_ticket ec_handle ec_cert at_handle rec now c = (r, c') ->
  (exists e, r = Err e /\ same_impl c c') \/
  (exists at_kp aa req resp atr ci c1,
    authorization_exchange ec_handle ec_cert at_handle rec now c at_kp aa req resp c1 /\
    at_.decode_at_response (body resp) (sb.to_vector (kp_private_key at_kp))
      (sb.to_vector (at_request_aes_key req)) (sb.to_vector (at_encoded req)) aa = Ok atr /\
    at_response_code atr = AT_Ok /\ at_certificate atr = Some ci /\
    r = Ok (set_label ci "at") /\ same_impl c c1 /\
    validate c (set_label ci "at") (now 3) = true /\ c' = trust_add c1 (set_label ci "at")).
Proof.
  unfold request_authorization_ticket, chain.find_by_hashed_id_8. intros H.
  destruct (at_.validate_at_record rec).1 eqn:Hval; simpl in H; [|early_return].
  destruct (pfks.load_keypair _ _ ec_handle) as [kp|] eqn:Hkp; [|early_return].
  destruct (certs_ (trust c) !! ar_aa_hashed_id_8 rec) as [aa|] eqn:Haa; [|early_return].
  destruct (certs_ (trust c) !! ar_ea_hashed_id_8 rec) as [ea|] eqn:Hea; [|early_return].
  destruct (pfks.load_keypair _ _ at_handle) as [akp|] eqn:Hakp; [|early_return].
  destruct (at_.assemble_at_request _ _ _) as [desc g] eqn:Hdesc.
  destruct (at_.encode_at_request _ _ _ _ _ _ _ _ _) as [[req|e] g'] eqn:Hreq.
  2:{ early_return. }
  destruct (http_post _ _ _) as [resp c1] eqn:Hpost.
  pose proof (transitivity (same_impl_rng c g') (http_post_same _ _ _ _ _ Hpost)) as Hsame.
  destruct resp as [resp|e]; [|early_return].
  destruct (status_code resp =? 200)%Z eqn:Hst; simpl in H; [|early_return].
  destruct (at_.decode_at_response _ _ _ _ _) as [ecr|e] eqn:Hdec; [|early_return].
  destruct (bool_decide (at_response_code ecr = AT_Ok)) eqn:Hco; simpl in H;
    [|early_return].
  destruct (at_certificate ecr) as [ci|] eqn:Hci; [|early_return].
  destruct (issuer_chain_present _ _); simpl in H; [|early_return].
  destruct (validate c1 _ (now 3)) eqn:Hv; simpl in H; [|early_return].
  injection H as <- <-. right. rewrite (validate_same _ _ _ _ Hsame) in Hv.
  apply Z.eqb_eq in Hst. bool_props. exists akp, aa, req, resp, ecr, ci, c1.
  split_and!; try done. split_and!; try done. by exists kp, ea, desc, g, g'.
Qed.

(** Conversely, an accepted answer with code Ok whose certificate validates makes
    the call succeed. *)
Lemma request_ec_complete canonical rec now c kp ea req resp ecr ci c1 :
  enrolment_exchange canonical rec now c kp ea req resp c1 ->
  ec.decode_ec_response (body resp) (sb.to_vector (kp_private_key kp))
    (sb.to_vector (ec_request_aes_key req)) (sb.to_vector (ec_encoded req)) ea = Ok ecr ->
  ec_response_code ecr = EC_Ok -> ec_certificate ecr = Some ci ->
  validate c (set_label ci "ec") (now 3) = true ->
  request_enrolment_credential canonical rec now c
    = (Ok (set_label ci "ec"), trust_add c1 (set_label ci "ec")).
Proof.
  intros Hx Hd Hco Hci Hv. pose proof (enrolment_exchange_same _ _ _ _ _ _ _ _ _ Hx) as Hs.
  destruct Hx as (Hval & Hkp & Hea & g & Hreq & Hpost & Hst).
  rewrite <- (validate_same _ _ _ _ Hs) in Hv.
  unfold request_enrolment_credential, chain.find_by_hashed_id_8.
  rewrite Hval. cbn [negb]. rewrite Hkp, Hea, Hreq. cbn [config set_rng]. rewrite Hpost, Hst.
  cbn [negb Z.eqb Pos.eqb]. rewrite Hd, Hco, bool_decide_eq_true_2 by done. cbn [negb].
  rewrite Hci, (validate_issuer_present _ _ _ Hv), Hv. done.
Qed.

Lemma request_at_complete ec_handle ec_cert at_handle rec now c kp aa req resp atr ci c1 :
  authorization_exchange ec_handle ec_cert at_handle rec now c kp aa req resp c1 ->
  at_.decode_at_response (body resp) (sb.to_vector (kp_private_key kp))
    (sb.to_vector (at_request_aes_key req)) (sb.to_vector (at_encoded req)) aa = Ok atr ->
  at_response_code atr = AT_Ok -> at_certificate atr = Some ci ->
  validate c (set_label ci "at") (now 3) = true ->
  request_authorization_ticket ec_handle ec_cert at_handle rec now c
    = (Ok (set_label ci "at"), trust_add c1 (set_label ci "at")).
Proof.
  intros Hx Hd Hco Hci Hv. pose proof (authorization_exchange_same _ _ _ _ _ _ _ _ _ _ _ Hx) as Hs.
  destruct Hx as (Hval & Hakp & Haa & ekp & ea & desc & g & g' & Hkp & Hea & Hdesc & Hreq & Hpost & Hst).
  rewrite <- (validate_same _ _ _ _ Hs) in Hv.
  unfold request_authorization_ticket, chain.find_by_hashed_id_8.
  rewrite Hval. cbn [negb]. rewrite Hkp, Haa, Hea, Hakp, Hdesc. cbv zeta.
  rewrite Hreq. cbn [config set_rng]. rewrite Hpost, Hst.
  cbn [negb Z.eqb Pos.eqb]. rewrite Hd, Hco, bool_decide_eq_true_2 by done. cbn [negb].
  rewrite Hci, (validate_issuer_present _ _ _ Hv), Hv. done.
Qed.

(** A parsed certificate that is not empty keeps its wire bytes. *)
Lemma from_coer_kept b :
  sb.is_empty (cert_bytes (cert.from_coer b)) = false ->
  sb.to_vector (cert_bytes (cert.from_coer b)) = b.
Proof.
  intros He. pose proof (cert.from_coer_wf b) as (Hwf & _).
  assert (Hne : sb.to_vector (cert_bytes (cert.from_coer b)) <> []).
  { intros Hn. apply sb.is_empty_to_vector in Hn; [|done]. congruence. }
  rewrite cert.from_coer_cert_bytes in *. destruct (coer.decode _); [|done].
  by destruct (_ <=? _).
Qed.

Lemma fetch_cert_cases u l c r c' :
  fetch_cert u l c = (r, c') ->
  (exists e, r = Err e /\ same_impl c c') \/
  (exists resp ci c1, http_get c u = (Ok resp, c1) /\ status_code resp = 200%Z /\
    ci = set_label (cert.from_coer (body resp)) l /\ sb.to_vector (cert_bytes ci) = body resp /\
    r = Ok ci /\ same_impl c c1 /\ c' = trust_add c1 ci).
Proof.
  unfold fetch_cert. intros H. destruct (http_get c u) as [[resp|e] c1] eqn:Hg;
    pose proof (http_get_same _ _ _ _ Hg) as Hs; [|early_return].
  destruct (status_code resp =? 200)%Z eqn:Hst; simpl in H; [|early_return].
  destruct (sb.is_empty _) eqn:He; [early_return|].
  injection H as <- <-. right. apply Z.eqb_eq in Hst. eexists resp, _, c1. split_and!; try done.
  by apply from_coer_kept.
Qed.

(** *** Growth of the trust store *)

(** Certificates satisfying [P] may have been filed under their identifiers;
    nothing else of the client has changed, but the generator and the network. *)
Definition grown (P : CertInfo -> Prop) c c' : Prop :=
  config c' = config c /\ c_http c' = c_http c /\ keystore c' = keystore c /\
  revocation c' = revocation c /\ topology c' = topology c /\ c_fs c' = c_fs c /\
  revocation_ (trust c') = revocation_ (trust c) /\
  dom (certs_ (trust c)) ⊆ dom (certs_ (trust c')) /\
  (forall h ci, certs_ (trust c') !! h = Some ci ->
     certs_ (trust c) !! h = Some ci \/ (P ci /\ hashed_id_8 ci = h)).

#[export] Instance grown_preorder P : PreOrder (grown P).
Proof.
  unfold grown. split.
  - intros c. split_and!; auto.
  - intros c1 c2 c3 H1 H2. destruct_and! H1. destruct_and! H2. split_and!; try congruence.
    + etrans; eassumption.
    + intros h ci Hci. match goal with Hq : forall h ci, certs_ (trust c3) !! h = _ -> _ |- _ =>
        destruct (Hq _ _ Hci); auto end.
Qed.

Lemma grown_same P c c' : same_impl c c' -> grown P c c'.
Proof.
  intros (? & ? & Ht & ? & ? & ? & ?). unfold grown. rewrite Ht. split_and!; auto.
Qed.

Lemma grown_add (P : CertInfo -> Prop) c ci : P ci -> grown P c (trust_add c ci).
Proof.
  intros HP. unfold grown. simpl. split_and!; auto.
  - rewrite dom_insert_L. set_solver.
  - intros h ci' H. destruct (decide (hashed_id_8 ci = h)) as [<-|Hne].
    + rewrite lookup_insert_eq in H. simplify_eq. auto.
    + rewrite lookup_insert_ne in H by done. auto.
Qed.

Lemma grown_add_all (P : CertInfo -> Prop) l c : Forall P l -> grown P c (foldl trust_add c l).
Proof.
  revert c. induction l as [|ci l IH]; intros c Hl; simpl; [reflexivity|].
  apply Forall_cons_iff in Hl as [Hc Hl]. etrans; [by apply grown_add|by apply IH].
Qed.

Lemma grown_weaken (P Q : CertInfo -> Prop) c c' :
  (forall ci, P ci -> Q ci) -> grown P c c' -> grown Q c c'.
Proof.
  intros HPQ H. unfold grown in *. destruct_and! H. split_and!; try done.
  intros h ci Hci. match goal with Hq : forall h ci, certs_ (trust c') !! h = _ -> _ |- _ =>
    destruct (Hq _ _ Hci) as [|[]]; auto end.
Qed.

Lemma grown_keyed P c c' : grown P c c' -> chain.keyed (trust c) -> chain.keyed (trust c').
Proof.
  intros H Hk h ci Hci. unfold grown in H. destruct_and! H.
  match goal with Hq : forall h ci, certs_ (trust c') !! h = _ -> _ |- _ =>
    destruct (Hq _ _ Hci) as [Hold|[]]; [by apply Hk in Hold|done] end.
Qed.

Lemma grown_dom P c c' h :
  grown P c c' -> h ∈ dom (certs_ (trust c)) -> h ∈ dom (certs_ (trust c')).
Proof. intros (_ & _ & _ & _ & _ & _ & _ & Hd & _). apply Hd. Qed.

Lemma add_all_dom l c ci : ci ∈ l -> hashed_id_8 ci ∈ dom (certs_ (trust (foldl trust_add c l))).
Proof.
  revert c. induction l as [|x l IH]; intros c Hin; [by apply elem_of_nil in Hin|].
  simpl. apply elem_of_cons in Hin as [->|Hin]; [|by apply IH].
  eapply (grown_dom (fun _ => True)); [by apply grown_add_all, Forall_elem|].
  simpl. rewrite dom_insert_L. set_solver.
Qed.

(** *** Provenance of discovered certificates *)

(** The certificates a decoded list carries. *)
Definition listed (t : TrustTopology) (ci : CertInfo) : Prop :=
  ci ∈ rcas t \/ ci ∈ map ea_cert (eas t) \/ ci ∈ map aa_cert (aas t).

(** [rca] is a root CA of an ECTL signed with the TLM's key. *)
Definition rca_of_ectl (tlm_cert rca : CertInfo) : Prop :=
  exists b now t, tlist.decode_ectl b (sb.to_vector (public_key tlm_cert))
      (sb.to_vector (cert_bytes tlm_cert)) now = Ok t /\
    ectl_signature_verified t = true /\ rca ∈ rcas t.

Inductive discovered (tlm_cert : CertInfo) : CertInfo -> Prop :=
  | discovered_tlm : discovered tlm_cert tlm_cert
  | discovered_ectl b now t ci :
      tlist.decode_ectl b (sb.to_vector (public_key tlm_cert))
        (sb.to_vector (cert_bytes tlm_cert)) now = Ok t ->
      ectl_signature_verified t = true -> listed t ci -> discovered tlm_cert ci
  | discovered_ctl rca b now t ci :
      rca_of_ectl tlm_cert rca ->
      tlist.decode_rca_ctl b (sb.to_vector (public_key rca)) (sb.to_vector (cert_bytes rca)) now
        = Ok t ->
      ctl_signature_verified t = true -> listed t ci -> discovered tlm_cert ci.

(** What the loop over the root CAs maintains about the collected topology. *)
Definition topo_inv (tlm_cert : CertInfo) (t : TrustTopology) : Prop :=
  tlm t = Some tlm_cert /\ ectl_signature_verified t = true /\
  Forall (rca_of_ectl tlm_cert) (rcas t) /\
  Forall (discovered tlm_cert) (map ea_cert (eas t)) /\
  Forall (discovered tlm_cert) (map aa_cert (aas t)).

Lemma topo_inv_verified tlm_cert t b :
  topo_inv tlm_cert t -> topo_inv tlm_cert (set_ctl_verified t b).
Proof. done. Qed.

Lemma discover_rca_inv tlm_cert base now rca t c t' c' :
  rca_of_ectl tlm_cert rca -> topo_inv tlm_cert t ->
  discover_rca base now rca (t, c) = (t', c') ->
  grown (discovered tlm_cert) c c' /\ topo_inv tlm_cert t' /\ rcas t' = rcas t /\
  (ctl_signature_verified t' = true -> ctl_signature_verified t = true).
Proof.
  intros Hrca Hinv H. unfold discover_rca in H.
  destruct (http_get (log c _) _) as [[resp|e] c1] eqn:Hg;
    pose proof (grown_same (discovered tlm_cert) _ _
      (transitivity (same_impl_log c _) (http_get_same _ _ _ _ Hg))) as Hs;
    assert (Hl1 : forall m, grown (discovered tlm_cert) c (log c1 m))
      by (intros m; etrans; [apply Hs|apply grown_same, same_impl_log]);
    [|injection H as <- <-; split_and!; auto].
  destruct (status_code resp =? 200)%Z; simpl in H; [|injection H as <- <-; split_and!; auto].
  destruct (tlist.decode_rca_ctl _ _ _ _) as [ct|] eqn:Hd.
  2:{ injection H as <- <-. by split_and!; try apply topo_inv_verified. }
  destruct (ctl_signature_verified ct) eqn:Hv; simpl in H.
  2:{ injection H as <- <-. by split_and!; try apply topo_inv_verified. }
  assert (Hl : forall ci, listed ct ci -> discovered tlm_cert ci) by (intros; by eapply discovered_ctl).
  assert (He : Forall (discovered tlm_cert) (map ea_cert (eas ct))).
  { apply Forall_elem. intros ci Hci. apply Hl. unfold listed. auto. }
  assert (Ha : Forall (discovered tlm_cert) (map aa_cert (aas ct))).
  { apply Forall_elem. intros ci Hci. apply Hl. unfold listed. auto. }
  injection H as <- <-. destruct Hinv as (Ht & Hev & Hr & Hea & Haa).
  split_and!; try done.
  - etrans; [apply Hs|]. etrans; [apply (grown_add_all _ _ c1 He)|apply (grown_add_all _ _ _ Ha)].
  - unfold topo_inv. simpl. rewrite !map_app. split_and!; try done; by apply Forall_app.
Qed.

Lemma discover_rcas_inv tlm_cert base now l i t c t' c' :
  Forall (rca_of_ectl tlm_cert) l -> topo_inv tlm_cert t ->
  discover_rcas base now i l (t, c) = (t', c') ->
  grown (discovered tlm_cert) c c' /\ topo_inv tlm_cert t' /\ rcas t' = rcas t /\
  (ctl_signature_verified t' = true -> ctl_signature_verified t = true).
Proof.
  revert i t c. induction l as [|rca l IH]; intros i t c Hl Hinv H; cbn [discover_rcas] in H.
  { injection H as <- <-. by split_and!. }
  apply Forall_cons_iff in Hl as [Hr Hl].
  destruct (discover_rca base (now i) rca (t, c)) as [t1 c1] eqn:H1.
  destruct (discover_rca_inv _ _ _ _ _ _ _ _ Hr Hinv H1) as (Hg & Hi & Hrc & Hv).
  destruct (IH _ _ _ Hl Hi H) as (Hg' & Hi' & Hrc' & Hv').
  split_and!; [by etrans|done|congruence|auto].
Qed.

(** What the TLM endpoint answered: the pinned one, or the bootstrap one. *)
Definition tlm_fetched c (tlm_cert : CertInfo) : Prop :=
  exists resp c1,
    http_get c (tlm_url (config c) ++
      (if str_empty (tlm_hid8 (config c)) then "/tlm"
       else "/gettlmcertificate/" ++ tlm_hid8 (config c))) = (Ok resp, c1) /\
    status_code resp = 200%Z /\ sb.to_vector (cert_bytes tlm_cert) = body resp /\
    tlm_cert = set_label (cert.from_coer (body resp)) "tlm".

Lemma http_get_log c m u r c1 :
  http_get (log c m) u = (r, c1) -> exists c2, http_get c u = (r, c2) /\ same_impl c c1.
Proof.
  intros H. pose proof (transitivity (same_impl_log c m) (http_get_same _ _ _ _ H)) as Hs. revert H.
  unfold http_get, log. destruct (cfg_log _); cbn [c_http c_net];
    destruct (http.get _ _ _); intros [= <- <-]; by eexists.
Qed.

Lemma discover_tlm_cases c r c' :
  discover_tlm c = (r, c') ->
  same_impl c c' /\ match r with Ok (tlm_cert, _) => tlm_fetched c tlm_cert | Err _ => True end.
Proof.
  unfold discover_tlm, tlm_fetched. intros H. destruct (str_empty _); simpl in H;
    (destruct (http_get (log c _) _) as [[resp|e] c1] eqn:Hg; apply http_get_log in Hg as (c2 & Hg & Hs);
      [|injection H as <- <-; split; [etrans; [apply Hs|apply same_impl_log]|done]]);
    (destruct (status_code resp =? 200)%Z eqn:Hst; simpl in H;
      [|injection H as <- <-; split; [etrans; [apply Hs|apply same_impl_log]|done]]);
    (destruct (sb.is_empty _) eqn:He; [by injection H as <- <-|]); apply Z.eqb_eq in Hst;
    injection H as <- <-;
    (split; [first [done|etrans; [apply Hs|apply same_impl_log]]|]);
    exists resp, c2; split_and!; try done; by apply from_coer_kept.
Qed.

(** Whatever its outcome, discovery only files certificates that the TLM vouches
    for; when it fails, URLs and topology stay as they were. *)
Lemma discover_trust_cases now c r c' :
  discover_trust now c = (r, c') ->
  match r with
  | Err _ => same_impl c c' \/
      exists tlm_cert, tlm_fetched c tlm_cert /\ grown (discovered tlm_cert) c c'
  | Ok t => exists tlm_cert c1 ea aa,
      tlm_fetched c tlm_cert /\ topo_inv tlm_cert t /\ ctl_signature_verified t = true /\
      grown (discovered tlm_cert) c c1 /\
      (forall ci, ci ∈ tlm_cert :: rcas t -> hashed_id_8 ci ∈ dom (certs_ (trust c1))) /\
      c' = set_topology (set_urls c1 ea aa) (Some t)
  end.
Proof.
  unfold discover_trust. intros H.
  destruct (discover_tlm c) as [[[tlm_cert hex]|e] c1] eqn:Htlm;
    apply discover_tlm_cases in Htlm as [Hs1 Hf]; [|simplify_eq; by left].
  pose proof (transitivity (grown_same (discovered tlm_cert) _ _ Hs1)
    (grown_add (discovered tlm_cert) c1 tlm_cert (discovered_tlm _))) as Hg1.
  destruct (http_get (log (trust_add c1 tlm_cert) _) _) as [resp c2] eqn:Hget.
  pose proof (transitivity (same_impl_log _ _) (http_get_same _ _ _ _ Hget)) as Hs2.
  pose proof (transitivity Hg1 (grown_same (discovered tlm_cert) _ _ Hs2)) as Hg2.
  assert (Hlog : forall e c3 m, grown (discovered tlm_cert) c c3 -> (@Err TrustTopology e, log c3 m) = (r, c') ->
    match r with
    | Err _ => same_impl c c' \/
        exists tlm_cert, tlm_fetched c tlm_cert /\ grown (discovered tlm_cert) c c'
    | Ok _ => False end).
  { intros e c3 m Hg [= <- <-]. right. exists tlm_cert. split; [done|].
    etrans; [apply Hg|apply grown_same, same_impl_log]. }
  destruct resp as [resp|e]; [|apply Hlog in H; [by destruct r|done]].
  destruct (status_code resp =? 200)%Z; simpl in H; [|apply Hlog in H; [by destruct r|done]].
  destruct (tlist.decode_ectl _ _ _ _) as [et|e] eqn:Hd; [|apply Hlog in H; [by destruct r|done]].
  destruct (ectl_signature_verified et) eqn:Hv; simpl in H; [|apply Hlog in H; [by destruct r|done]].
  set (t0 := set_ctl_verified _ true) in H.
  assert (Hrl : Forall (rca_of_ectl tlm_cert) (rcas et)).
  { apply Forall_elem. intros ci Hci. exists (body resp), (unix_seconds (now 0)), et. auto. }
  assert (Hld : forall ci, listed et ci -> discovered tlm_cert ci) by (intros; by eapply discovered_ectl).
  assert (Hi0 : topo_inv tlm_cert t0).
  { split_and!; try done; simpl; apply Forall_elem; intros ci Hci; apply Hld; unfold listed; auto. }
  assert (Hg3 : grown (discovered tlm_cert) c2 (foldl trust_add c2 (rcas et))).
  { apply grown_add_all, Forall_elem. intros ci Hci. apply Hld. by left. }
  destruct (discover_rcas _ _ _ _ _) as [t c3] eqn:Hl.
  destruct (discover_rcas_inv _ _ _ _ _ _ _ _ _ Hrl Hi0 Hl) as (Hg4 & Hi & Hrc & _).
  assert (Hg : grown (discovered tlm_cert) c c3) by (etrans; [apply Hg2|]; by etrans).
  destruct (ctl_signature_verified t) eqn:Hcv; simpl in H; [|apply Hlog in H; [by destruct r|done]].
  injection H as <- <-. eexists tlm_cert, c3, _, _. split_and!; try done.
  rewrite Hrc. intros ci [->|Hin]%elem_of_cons.
  - eapply grown_dom; [apply Hg4|]. eapply grown_dom; [apply Hg3|].
    destruct Hs2 as (_ & _ & -> & _). simpl. rewrite dom_insert_L. set_solver.
  - eapply grown_dom; [apply Hg4|]. by apply add_all_dom.
Qed.

(** *** Revocation lists *)

(** The address a CRL is fetched from. *)
Definition crl_url c (h : hid8) : string :=
  match topology c with
  | Some t => find_dc_url (dcs t) h (tlm_url (config c))
  | None => tlm_url (config c)
  end ++ "/getcrl/" ++ tlist.hid8_hex_upper h.

Lemma fetch_crl_cases h now c r c' :
  fetch_crl h now c = (r, c') ->
  (exists e, r = Err e /\ same_impl c c') \/
  (exists rca crl resp c1, let t := chain.current_tai_seconds (unix_seconds (now 0)) in
    http_get c (crl_url c h) = (Ok resp, c1) /\ status_code resp = 200%Z /\
    certs_ (trust c) !! h = Some rca /\
    decode_crl (body resp) (sb.to_vector (public_key rca)) (sb.to_vector (cert_bytes rca)) = Ok crl /\
    ~ store.stale crl t /\ r = Ok crl /\ same_impl c c1 /\
    c' = set_revocation c1 (store.apply (revocation c) crl t).2).
Proof.
  unfold fetch_crl, chain.find_by_hashed_id_8. intros H.
  destruct (http_get c _) as [resp c1] eqn:Hg. pose proof (http_get_same _ _ _ _ Hg) as Hs.
  destruct resp as [resp|e]; [|early_return].
  destruct (status_code resp =? 200)%Z eqn:Hok; simpl in H; [|early_return]. apply Z.eqb_eq in Hok.
  destruct (certs_ (trust c1) !! h) as [rca|] eqn:Hr; [|early_return].
  destruct (decode_crl _ _ _) as [crl|e] eqn:Hd; [|early_return].
  pose proof Hs as (_ & _ & Ht & _ & Hrv & _). rewrite Ht in Hr. rewrite Hrv in H.
  set (t := chain.current_tai_seconds _) in *.
  destruct (decide (store.stale crl t)) as [Hst|Hst].
  - rewrite (store.apply_stale _ _ _ Hst) in H. simpl in H. injection H as <- <-.
    left. eexists. split; [done|]. etrans; [apply Hs|]. rewrite <- Hrv. by destruct c1.
  - rewrite (store.apply_fresh _ _ _ Hst) in H. simpl in H. injection H as <- <-.
    right. exists rca, crl, resp, c1. cbv zeta. fold t.
    by rewrite (store.apply_fresh _ _ _ Hst).
Qed.

(** No call but a store changes the disk. *)
Lemma request_ec_fs canonical rec now c : c_fs (request_enrolment_credential canonical rec now c).2 = c_fs c.
Proof.
  destruct (request_enrolment_credential _ _ _ c) as [r c'] eqn:H. simpl.
  apply request_ec_cases in H as [(e & _ & Hs)|(? & ? & ? & ? & ? & ? & c1 & H)];
    [apply Hs|destruct_and! H; subst; simpl].
  match goal with Hs : same_impl c c1 |- _ => apply Hs end.
Qed.
Lemma request_at_fs h ci h' rec now c : c_fs (request_authorization_ticket h ci h' rec now c).2 = c_fs c.
Proof.
  destruct (request_authorization_ticket _ _ _ _ _ c) as [r c'] eqn:H. simpl.
  apply request_at_cases in H as [(e & _ & Hs)|(? & ? & ? & ? & ? & ? & c1 & H)];
    [apply Hs|destruct_and! H; subst; simpl].
  match goal with Hs : same_impl c c1 |- _ => apply Hs end.
Qed.
Lemma discover_trust_fs now c : c_fs (discover_trust now c).2 = c_fs c.
Proof.
  destruct (discover_trust now c) as [r c'] eqn:H. simpl. apply discover_trust_cases in H.
  destruct r as [t|e].
  - destruct H as (? & c1 & ? & ? & _ & _ & _ & Hg & _ & ->). simpl. apply Hg.
  - destruct H as [Hs|(? & _ & Hg)]; [apply Hs|apply Hg].
Qed.

(** ** The client as a transition system *)

(** One call of the public interface, with any arguments and any clock. *)
Inductive step : client -> client -> Prop :=
  | step_enrol canonical rec now c r c' :
      request_enrolment_credential canonical rec now c = (r, c') -> step c c'
  | step_authorize h ci h' rec now c r c' :
      request_authorization_ticket h ci h' rec now c = (r, c') -> step c c'
  | step_anchor c r c' : fetch_trust_anchor c = (r, c') -> step c c'
  | step_by_name name c r c' : fetch_cert_by_name name c = (r, c') -> step c c'
  | step_by_hid8 h c r c' : fetch_cert_by_hashed_id_8 h c = (r, c') -> step c c'
  | step_discover now c r c' : discover_trust now c = (r, c') -> step c c'
  | step_crl h now c r c' : fetch_crl h now c = (r, c') -> step c c'
  | step_store h kp c ok fs :
      pfks.store_keypair (keystore c) (c_fs c) h kp = (ok, fs) ->
      step c (set_fs c fs).

(** The invariant of the object: the trust store points at the client's own
    revocation store and files every certificate under its own identifier. *)
Definition client_inv c : Prop :=
  revocation_ (trust c) = Some revocation_loc /\ chain.keyed (trust c).

Lemma client_inv_grown P c c' : grown P c c' -> client_inv c -> client_inv c'.
Proof.
  intros Hg [Hp Hk]. split; [|by eapply grown_keyed]. destruct Hg as (_ & _ & _ & _ & _ & _ & -> & _).
  done.
Qed.

Lemma client_inv_same c c' : same_impl c c' -> client_inv c -> client_inv c'.
Proof. intros (_ & _ & Ht & _). unfold client_inv. by rewrite Ht. Qed.

Lemma client_inv_add c c1 ci : same_impl c c1 -> client_inv c -> client_inv (trust_add c1 ci).
Proof.
  intros Hs Hi. eapply (client_inv_grown (fun _ => True)); [by apply grown_add|].
  by eapply client_inv_same.
Qed.

Lemma load_pointer t0 dir : revocation_ (chain.load_from_directory t0 dir).2 = revocation_ t0.
Proof.
  destruct dir as [es|]; [|done]. rewrite chain.load_from_directory_spec. simpl.
  generalize (omap chain.loadable es) as l. intros l. revert t0.
  induction l as [|ci l IH]; intros t0; simpl; [done|]. by rewrite IH.
Qed.

Lemma client_inv_create cfg dir g n fs : client_inv (create cfg dir g n fs).
Proof.
  unfold client_inv, create. cbn [trust].
  destruct (negb (str_empty (trust_dir cfg))); [|split; [done|apply chain.keyed_empty]].
  split; [apply load_pointer|]. apply chain.keyed_load, chain.keyed_empty.
Qed.

Lemma client_inv_fetch u l c r c' : fetch_cert u l c = (r, c') -> client_inv c -> client_inv c'.
Proof.
  intros [(e & _ & Hs)|(resp & ci & c1 & _ & _ & _ & _ & _ & Hs & ->)]%fetch_cert_cases;
    eauto using client_inv_same, client_inv_add.
Qed.

Lemma client_inv_step c c' : step c c' -> client_inv c -> client_inv c'.
Proof.
  intros Hstep Hi.
  destruct Hstep as [??? c r c' H|????? c r c' H|c r c' H|? c r c' H|? c r c' H|? c r c' H|?? c r c' H|].
  - apply request_ec_cases in H as [(e & _ & Hs)|(? & ? & ? & ? & ? & ? & c1 & H)];
      [by eapply client_inv_same|]. destruct_and! H. subst. by eapply client_inv_add.
  - apply request_at_cases in H as [(e & _ & Hs)|(? & ? & ? & ? & ? & ? & c1 & H)];
      [by eapply client_inv_same|]. destruct_and! H. subst. by eapply client_inv_add.
  - by eapply client_inv_fetch.
  - by eapply client_inv_fetch.
  - by eapply client_inv_fetch.
  - apply discover_trust_cases in H. destruct r as [t|e].
    + destruct H as (tlm_cert & c1 & ea & aa & _ & _ & _ & Hg & _ & ->).
      by apply (client_inv_grown _ _ _ Hg) in Hi.
    + destruct H as [Hs|(tlm_cert & _ & Hg)]; eauto using client_inv_same, client_inv_grown.
  - apply fetch_crl_cases in H as [(e & _ & Hs)|(? & ? & ? & c1 & _ & _ & _ & _ & _ & _ & Hs & ->)];
      [by eapply client_inv_same|]. by apply (client_inv_same _ _ Hs) in Hi.
  - done.
Qed.

Lemma client_inv_reachable cfg dir g n fs c :
  rtc step (create cfg dir g n fs) c -> client_inv c.
Proof.
  intros H. pose proof (client_inv_create cfg dir g n fs) as Hi. revert H Hi.
  generalize (create cfg dir g n fs) as c0. intros c0 H.
  induction H as [|x y z Hxy _ IH]; eauto using client_inv_step.
Qed.

End pki.
End pki.
