(* ===== verification/Tool.v ===== *)
(** What the two command-line programs run in: a world with a disk, a network, a
    random generator, a clock and the two output streams, and the monad of programs
    over it.

    A program returns a value, calls [exit], ends with an uncaught exception, or
    reaches undefined behaviour.  The clock is a table: [w_clock k i] is the [i]-th
    reading, in microseconds since the Unix epoch, of the [k]-th operation that looks
    at it.  The callback the tools give the client writes to standard error. *)
From stdpp Require Import gmap pretty.
From S2P Require Import Prelude Result Sizes StaticBytes Asn OpenSSL CryptoEc CertParse TrustChain.
From S2P Require Import Http Disk KeyStore PkiClient.

Record world {ossl : OpenSSL} {tr : Transport} := MkWorld {
  w_fs : fsys;
  w_net : net;
  w_rng : rng;
  w_out : string;
  w_err : string;
  w_ops : nat;
  w_clock : nat -> nat -> Z;
}.
Arguments MkWorld {ossl tr} _ _ _ _ _ _ _.

Inductive outcome (A : Type) :=
  | Ret (a : A)
  | Exit (code : Z)
  | Thrown
  | Undefined.
Arguments Ret {A} a.
Arguments Exit {A} code.
Arguments Thrown {A}.
Arguments Undefined {A}.

Definition io {ossl : OpenSSL} {tr : Transport} (A : Type) : Type := world -> outcome A * world.

#[export] Instance io_ret {ossl : OpenSSL} {tr : Transport} : MRet io := fun _ a w => (Ret a, w).
#[export] Instance io_bind {ossl : OpenSSL} {tr : Transport} : MBind io := fun _ _ k m w =>
  match m w with
  | (Ret a, w) => k a w
  | (Exit c, w) => (Exit c, w)
  | (Thrown, w) => (Thrown, w)
  | (Undefined, w) => (Undefined, w)
  end.

Module tool.
Section tool.
Context {ossl : OpenSSL} {tr : Transport}.

Implicit Types w : world.

(** ** Primitives *)

Definition set_fs w fs := MkWorld fs (w_net w) (w_rng w) (w_out w) (w_err w) (w_ops w) (w_clock w).
Definition set_net w n := MkWorld (w_fs w) n (w_rng w) (w_out w) (w_err w) (w_ops w) (w_clock w).
Definition set_rng w g := MkWorld (w_fs w) (w_net w) g (w_out w) (w_err w) (w_ops w) (w_clock w).
Definition set_out w s := MkWorld (w_fs w) (w_net w) (w_rng w) s (w_err w) (w_ops w) (w_clock w).
Definition set_err w s := MkWorld (w_fs w) (w_net w) (w_rng w) (w_out w) s (w_ops w) (w_clock w).
Definition tick w :=
  MkWorld (w_fs w) (w_net w) (w_rng w) (w_out w) (w_err w) (S (w_ops w)) (w_clock w).

Definition exit {A} (code : Z) : io A := fun w => (Exit code, w).
Definition throw {A} : io A := fun w => (Thrown, w).
Definition undefined {A} : io A := fun w => (Undefined, w).

(** [std::cout << s], [printf] *)
Definition print (s : string) : io unit := fun w => (Ret tt, set_out w (w_out w ++ s)).
(** [std::cerr << s], [fprintf(stderr, ...)] *)
Definition eprint (s : string) : io unit := fun w => (Ret tt, set_err w (w_err w ++ s)).

(** [if (b) ...] without an else. *)
Definition when (b : bool) (m : io unit) : io unit := if b then m else mret tt.

(** An operation of the file system. *)
Definition on_fs {A} (f : fsys -> A * fsys) : io A :=
  fun w => let '(a, fs) := f (w_fs w) in (Ret a, set_fs w fs).

Definition get_fs : io fsys := fun w => (Ret (w_fs w), w).

(** [std::filesystem::create_directories], which throws. *)
Definition create_directories (p : string) : io unit := fun w =>
  match disk.create_directories p (w_fs w) with
  | Some fs => (Ret tt, set_fs w fs)
  | None => (Thrown, w)
  end.

(** The readings of the clock that the next operation makes. *)
Definition clock : io (nat -> Z) := fun w => (Ret (w_clock w (w_ops w)), tick w).

Definition http_get (cfg : HttpClientConfig) (url : string) : io (Result HttpResponse) := fun w =>
  let '(r, n) := http.get cfg url (w_net w) in (Ret r, set_net w n).

Definition http_post (cfg : HttpClientConfig) (url : string) (b : bytes) : io (Result HttpResponse) :=
  fun w =>
    let '(r, n) := http.post cfg url b "application/x-its-request" (w_net w) in (Ret r, set_net w n).

Definition generate_keypair (curve : Curve) : io (option KeyPair) := fun w =>
  let '(r, g) := crypto.generate_keypair_curve curve (w_rng w) in (Ret r, set_rng w g).

(** A computation that draws random bytes. *)
Definition on_rng {A} (f : rng -> A * rng) : io A := fun w =>
  let '(a, g) := f (w_rng w) in (Ret a, set_rng w g).

(** ** Using a client *)

Context {cb : Codec CertificateBase} {tb : Codec ToBeSignedCertificate} {junk : Uninit}.
Context {pem : Pem}.

(** [PkiClient client(cfg)] *)
Definition new_client (cfg : PkiClientConfig) : io client := fun w =>
  match pki.construct cfg (w_rng w) (w_net w) (w_fs w) with
  | Some c => (Ret c, set_fs w (c_fs c))
  | None => (Thrown, w)
  end.

(** The client as it is when it is called in the world [w]. *)
Definition attach (c : client) w : client :=
  MkClient (config c) (c_http c) (trust c) (keystore c) (revocation c) (topology c)
    (w_rng w) (w_net w) (w_fs w) [].

(** A call of a client; its messages go to standard error. *)
Definition call {A} (f : (nat -> Z) -> client -> A * client) (c : client) : io (A * client) := fun w =>
  let '(r, c) := f (w_clock w (w_ops w)) (attach c w) in
  (Ret (r, c),
   MkWorld (c_fs c) (c_net c) (c_rng c) (w_out w) (w_err w ++ String.concat "" (c_log c))
     (S (w_ops w)) (w_clock w)).

(** [client.key_store().load_keypair] and [store_keypair] *)
Definition load_keypair (c : client) (h : KeyHandle) : io (option KeyPair) := fun w =>
  (Ret (pfks.load_keypair (keystore c) (w_fs w) h), w).
Definition store_keypair (c : client) (h : KeyHandle) (kp : KeyPair) : io bool :=
  on_fs (fun fs => pfks.store_keypair (keystore c) fs h kp).

(** ** Reasoning *)

(** A run that is known to return. *)
Lemma run_ret {A} (x : outcome A * world) (r : A) : x.1 = Ret r -> x = (Ret r, x.2).
Proof. destruct x. by intros [= ->]. Qed.

(** A program returns when each of its parts does. *)
Lemma bind_inv {A B} (m : io A) (k : A -> io B) w r w' :
  (m ≫= k) w = (Ret r, w') -> exists a w1, m w = (Ret a, w1) /\ k a w1 = (Ret r, w').
Proof. unfold mbind, io_bind. destruct (m w) as [[a| | |] w1]; try done. by exists a, w1. Qed.

(** What each primitive did when it returned. *)
Lemma http_get_inv cfg u w r w' :
  http_get cfg u w = (Ret r, w') -> exists n, http.get cfg u (w_net w) = (r, n) /\ w' = set_net w n.
Proof. unfold http_get. destruct (http.get _ _ _) as [r' n]. intros [= -> <-]. by exists n. Qed.
Lemma http_post_inv cfg u b w r w' :
  http_post cfg u b w = (Ret r, w') ->
  exists n, http.post cfg u b "application/x-its-request" (w_net w) = (r, n) /\ w' = set_net w n.
Proof. unfold http_post. destruct (http.post _ _ _ _ _) as [r' n]. intros [= -> <-]. by exists n. Qed.
Lemma on_fs_inv {A} (f : fsys -> A * fsys) w a w' :
  on_fs f w = (Ret a, w') -> exists fs, f (w_fs w) = (a, fs) /\ w' = set_fs w fs.
Proof. unfold on_fs. destruct (f _) as [a' fs]. intros [= -> <-]. by exists fs. Qed.
Lemma on_rng_inv {A} (f : rng -> A * rng) w a w' :
  on_rng f w = (Ret a, w') -> exists g, f (w_rng w) = (a, g) /\ w' = set_rng w g.
Proof. unfold on_rng. destruct (f _) as [a' g]. intros [= -> <-]. by exists g. Qed.
Lemma generate_keypair_inv c w r w' :
  generate_keypair c w = (Ret r, w') ->
  exists g, crypto.generate_keypair_curve c (w_rng w) = (r, g) /\ w' = set_rng w g.
Proof.
  unfold generate_keypair. destruct (crypto.generate_keypair_curve _ _) as [r' g].
  intros [= -> <-]. by exists g.
Qed.
Lemma create_directories_inv p w w' :
  create_directories p w = (Ret tt, w') ->
  exists fs, disk.create_directories p (w_fs w) = Some fs /\ w' = set_fs w fs.
Proof.
  unfold create_directories. destruct (disk.create_directories _ _) as [fs|]; [|done].
  intros [= <-]. by exists fs.
Qed.
Lemma new_client_inv cfg w c w' :
  new_client cfg w = (Ret c, w') ->
  pki.construct cfg (w_rng w) (w_net w) (w_fs w) = Some c /\ w' = set_fs w (c_fs c).
Proof. unfold new_client. destruct (pki.construct _ _ _ _) as [c'|]; [|done]. by intros [= -> <-]. Qed.
Lemma call_inv {A} (f : (nat -> Z) -> client -> A * client) c w r c' w' :
  call f c w = (Ret (r, c'), w') ->
  f (w_clock w (w_ops w)) (attach c w) = (r, c') /\
  w_fs w' = c_fs c' /\ w_net w' = c_net c' /\ w_rng w' = c_rng c' /\ w_out w' = w_out w.
Proof. unfold call. destruct (f _ _) as [r' c'']. by intros [= -> -> <-]. Qed.

(** *** Output is only appended to *)

Definition extends (s t : string) : Prop := exists u, t = (s ++ u)%string.

#[global] Instance extends_preorder : PreOrder extends.
Proof.
  split.
  - intros s. exists ""%string. by rewrite str_app_nil_r.
  - intros s t u [x ->] [y ->]. exists (x ++ y)%string. by rewrite str_app_assoc.
Qed.

Definition appends w w' : Prop := extends (w_out w) (w_out w') /\ extends (w_err w) (w_err w').

#[global] Instance appends_preorder : PreOrder appends.
Proof.
  unfold appends. split.
  - intros w. by split.
  - intros w1 w2 w3 [] []. split; by etrans.
Qed.

(** A part of a program that returns or throws, and only appends to the streams. *)
Definition quiet {A} (m : io A) : Prop := forall w,
  match m w with
  | (Ret _, w') | (Thrown, w') => appends w w'
  | _ => False
  end.

Lemma quiet_run {A} (m : io A) w a w' : quiet m -> m w = (Ret a, w') -> appends w w'.
Proof. intros H E. specialize (H w). by rewrite E in H. Qed.

Lemma quiet_ret {A} (a : A) : quiet (mret a).
Proof. intros w. simpl. reflexivity. Qed.

Lemma quiet_bind {A B} (m : io A) (k : A -> io B) :
  quiet m -> (forall a, quiet (k a)) -> quiet (m ≫= k).
Proof.
  intros Hm Hk w. specialize (Hm w). unfold mbind, io_bind.
  destruct (m w) as [[a| | |] w1]; try done. specialize (Hk a w1).
  destruct (k a w1) as [[b| | |] w2]; try done; by etrans.
Qed.

Lemma quiet_print s : quiet (print s).
Proof. intros w. split; simpl; [by exists s|reflexivity]. Qed.
Lemma quiet_eprint s : quiet (eprint s).
Proof. intros w. split; simpl; [reflexivity|by exists s]. Qed.
Lemma quiet_when b m : quiet m -> quiet (when b m).
Proof. destruct b; [done|]. intros _. apply quiet_ret. Qed.
Lemma quiet_on_fs {A} (f : fsys -> A * fsys) : quiet (on_fs f).
Proof. intros w. unfold on_fs. destruct (f _). by split. Qed.
Lemma quiet_get_fs : quiet get_fs.
Proof. intros w. by split. Qed.
Lemma quiet_create_directories p : quiet (create_directories p).
Proof. intros w. unfold create_directories. by destruct (disk.create_directories _ _). Qed.
Lemma quiet_clock : quiet clock.
Proof. intros w. by split. Qed.
Lemma quiet_http_get cfg u : quiet (http_get cfg u).
Proof. intros w. unfold http_get. destruct (http.get _ _ _). by split. Qed.
Lemma quiet_http_post cfg u b : quiet (http_post cfg u b).
Proof. intros w. unfold http_post. destruct (http.post _ _ _ _ _). by split. Qed.
Lemma quiet_on_rng {A} (f : rng -> A * rng) : quiet (on_rng f).
Proof. intros w. unfold on_rng. destruct (f _). by split. Qed.
Lemma quiet_generate_keypair c : quiet (generate_keypair c).
Proof. intros w. unfold generate_keypair. destruct (crypto.generate_keypair_curve _ _). by split. Qed.
Lemma quiet_new_client cfg : quiet (new_client cfg).
Proof. intros w. unfold new_client. by destruct (pki.construct _ _ _ _). Qed.
Lemma quiet_call {A} (f : (nat -> Z) -> client -> A * client) c : quiet (call f c).
Proof.
  intros w. unfold call. destruct (f _ _) as [r c']. split; simpl; [reflexivity|by eexists].
Qed.
Lemma quiet_load_keypair c h : quiet (load_keypair c h).
Proof. intros w. by split. Qed.
Lemma quiet_store_keypair c h kp : quiet (store_keypair c h kp).
Proof. apply quiet_on_fs. Qed.

(** *** Nothing but the disk and the streams changes *)

Definition local w w' : Prop :=
  w_net w' = w_net w /\ w_rng w' = w_rng w /\ w_ops w' = w_ops w /\ w_clock w' = w_clock w.

#[global] Instance local_preorder : PreOrder local.
Proof.
  unfold local. split; [by intros w|].
  intros w1 w2 w3 (? & ? & ? & ?) (? & ? & ? & ?). split_and!; congruence.
Qed.
Lemma local_out w s : local w (set_out w s).
Proof. done. Qed.
Lemma local_err w s : local w (set_err w s).
Proof. done. Qed.
(** *** What a program can return *)

Definition yields {A} (P : A -> Prop) (m : io A) : Prop :=
  forall w a w', m w = (Ret a, w') -> P a.

Lemma yields_ret {A} (P : A -> Prop) a : P a -> yields P (mret a).
Proof. by intros H w a' w' [= <- _]. Qed.
Lemma yields_bind {A B} (P : B -> Prop) (m : io A) (k : A -> io B) :
  (forall a, yields P (k a)) -> yields P (m ≫= k).
Proof. intros Hk w b w' H. apply bind_inv in H as (a & w1 & _ & H). by eapply Hk. Qed.
(** The same, knowing what the first part returns. *)
Lemma yields_then {A B} (Q : A -> Prop) (P : B -> Prop) (m : io A) (k : A -> io B) :
  yields Q m -> (forall a, Q a -> yields P (k a)) -> yields P (m ≫= k).
Proof. intros Hm Hk w b w' H. apply bind_inv in H as (a & w1 & Ha & H). eapply Hk; [|exact H]. by eapply Hm. Qed.
(** A part of a program that relies on what the part before it returns. *)
Lemma quiet_then {A B} (Q : A -> Prop) (m : io A) (k : A -> io B) :
  quiet m -> yields Q m -> (forall a, Q a -> quiet (k a)) -> quiet (m ≫= k).
Proof.
  intros Hm Hq Hk w. specialize (Hm w). specialize (Hq w). unfold mbind, io_bind.
  destruct (m w) as [[a| | |] w1]; try done. specialize (Hk a (Hq a w1 eq_refl) w1).
  destruct (k a w1) as [[b| | |] w2]; try done; by etrans.
Qed.
Lemma yields_undefined {A} (P : A -> Prop) : yields P undefined.
Proof. done. Qed.
Lemma yields_exit {A} (P : A -> Prop) c : yields P (exit c).
Proof. done. Qed.

(** *** The medium stays the same *)

Definition steady {A} (m : io A) : Prop := forall w, env (w_fs (m w).2) = env (w_fs w).

Lemma steady_run {A} (m : io A) w o w' : steady m -> m w = (o, w') -> env (w_fs w') = env (w_fs w).
Proof. intros H E. specialize (H w). by rewrite E in H. Qed.

Lemma steady_ret {A} (a : A) : steady (mret a).
Proof. done. Qed.
Lemma steady_bind {A B} (m : io A) (k : A -> io B) :
  steady m -> (forall a, steady (k a)) -> steady (m ≫= k).
Proof.
  intros Hm Hk w. specialize (Hm w). unfold mbind, io_bind.
  destruct (m w) as [[a| | |] w1]; try done. by rewrite (Hk a w1).
Qed.
Lemma steady_print s : steady (print s).
Proof. done. Qed.
Lemma steady_eprint s : steady (eprint s).
Proof. done. Qed.
Lemma steady_when b m : steady m -> steady (when b m).
Proof. by destruct b. Qed.
Lemma steady_on_fs {A} (f : fsys -> A * fsys) : (forall fs, env (f fs).2 = env fs) -> steady (on_fs f).
Proof. intros H w. specialize (H (w_fs w)). unfold on_fs. by destruct (f _). Qed.
Lemma steady_get_fs : steady get_fs.
Proof. done. Qed.
Lemma create_directories_env p fs fs' : disk.create_directories p fs = Some fs' -> env fs' = env fs.
Proof.
  unfold disk.create_directories. destruct (str_empty p); [done|].
  destruct (bool_decide _); [by intros [= <-]|]. destruct (can_mkdir _ _ _); [|done]. by intros [= <-].
Qed.
Lemma steady_create_directories p : steady (create_directories p).
Proof.
  intros w. unfold create_directories. destruct (disk.create_directories _ _) eqn:E; [|done].
  by apply create_directories_env in E.
Qed.
Lemma steady_clock : steady clock.
Proof. done. Qed.
Lemma steady_http_get cfg u : steady (http_get cfg u).
Proof. intros w. unfold http_get. by destruct (http.get _ _ _). Qed.
Lemma steady_http_post cfg u b : steady (http_post cfg u b).
Proof. intros w. unfold http_post. by destruct (http.post _ _ _ _ _). Qed.
Lemma steady_generate_keypair c : steady (generate_keypair c).
Proof. intros w. unfold generate_keypair. by destruct (crypto.generate_keypair_curve _ _). Qed.
Lemma steady_on_rng {A} (f : rng -> A * rng) : steady (on_rng f).
Proof. intros w. unfold on_rng. by destruct (f _). Qed.
Lemma construct_env cfg g n fs c : pki.construct cfg g n fs = Some c -> env (c_fs c) = env fs.
Proof.
  unfold pki.construct, pfks.open_store. destruct (disk.create_directories _ _) eqn:E; [|done].
  intros [= <-]. by apply create_directories_env in E.
Qed.
Lemma construct_files cfg g n fs c : pki.construct cfg g n fs = Some c -> files (c_fs c) = files fs.
Proof.
  unfold pki.construct, pfks.open_store. destruct (disk.create_directories _ _) eqn:E; [|done].
  intros [= <-]. revert E. unfold disk.create_directories. destruct (str_empty _); [done|].
  destruct (bool_decide _); [by intros [= <-]|]. destruct (can_mkdir _ _ _); [|done]. by intros [= <-].
Qed.
Lemma steady_new_client cfg : steady (new_client cfg).
Proof.
  intros w. unfold new_client. destruct (pki.construct _ _ _ _) eqn:E; [|done].
  by apply construct_env in E.
Qed.
Lemma steady_call {A} (f : (nat -> Z) -> client -> A * client) c :
  (forall now c, c_fs (f now c).2 = c_fs c) -> steady (call f c).
Proof. intros H w. specialize (H (w_clock w (w_ops w)) (attach c w)). unfold call. destruct (f _ _). by simpl in *; rewrite H. Qed.
Lemma steady_load_keypair c h : steady (load_keypair c h).
Proof. done. Qed.
Lemma steady_store_keypair c h kp : steady (store_keypair c h kp).
Proof. apply steady_on_fs. intros fs. apply pfks.store_keypair_env. Qed.

End tool.
End tool.

Create HintDb io discriminated.
#[export] Hint Resolve tool.yields_undefined tool.yields_exit : io.
#[export] Hint Resolve tool.quiet_ret tool.quiet_bind tool.quiet_print tool.quiet_eprint tool.quiet_when
  tool.quiet_on_fs tool.quiet_get_fs tool.quiet_create_directories tool.quiet_clock tool.quiet_http_get
  tool.quiet_http_post tool.quiet_on_rng tool.quiet_generate_keypair tool.quiet_new_client tool.quiet_call
  tool.quiet_load_keypair tool.quiet_store_keypair : io.
#[export] Hint Resolve tool.steady_ret tool.steady_bind tool.steady_print tool.steady_eprint
  tool.steady_when tool.steady_get_fs tool.steady_create_directories tool.steady_clock
  tool.steady_http_get tool.steady_http_post tool.steady_generate_keypair tool.steady_on_rng
  tool.steady_new_client tool.steady_load_keypair tool.steady_store_keypair : io.

(** Run a program that is known to return: [H : (m ≫= k) w = (Ret r, w')] is split
    into a run of [m] and a run of [k]. *)
Ltac io_step H a w Hm := apply tool.bind_inv in H as (a & w & Hm & H).
(** The same for a primitive whose run computes. *)
Ltac io_run H :=
  let a := fresh in let w := fresh in let Hm := fresh in
  apply tool.bind_inv in H as (a & w & Hm & H); injection Hm as <- <-.
