(* ===== verification/CliArgs.v ===== *)
(** src/cli/args.hpp, src/cli/args.cpp: the options of the command line. *)
From S2P Require Import Prelude Sizes Disk Http PkiClient Tool OpenSSL.
Local Open Scope string_scope.

Record Args := MkArgs {
  a_command : string;
  a_pki_url : string;
  a_out_dir : string;
  a_hid8 : string;
  a_cert_path : string;
  a_ea_url : string;
  a_aa_url : string;
  a_keystore_dir : string;
  a_ec_cert : string;
  a_tlm_cert : string;
  a_tlm_hid8 : string;
  a_out : string;
  a_canonical_key : string;
  a_canonical_id : string;
  a_canonical_id_set : bool;
  a_curve_str : string;
  a_json : bool;
  a_discover_mode : bool;
}.

Definition Args_default : Args :=
  MkArgs "" "" "" "" "" "" "" "" "" "" "" "" "" "" false "" false false.

Module args.

Implicit Types a : Args.

(** [a.field = val] for the option [arg]; [None] when no option has that name. *)
Definition set_option (arg val : string) a : option Args :=
  let '(MkArgs c pu od h cp eu au kd ec tc th o ck ci cs cv j d) := a in
  if (arg =? "--pki-url")%string then
    Some (MkArgs c val od h cp eu au kd ec tc th o ck ci cs cv j d)
  else if (arg =? "--out-dir")%string then
    Some (MkArgs c pu val h cp eu au kd ec tc th o ck ci cs cv j d)
  else if (arg =? "--hid8")%string then
    Some (MkArgs c pu od val cp eu au kd ec tc th o ck ci cs cv j d)
  else if (arg =? "--cert-path")%string then
    Some (MkArgs c pu od h val eu au kd ec tc th o ck ci cs cv j d)
  else if (arg =? "--ea-url")%string then
    Some (MkArgs c pu od h cp val au kd ec tc th o ck ci cs cv j d)
  else if (arg =? "--aa-url")%string then
    Some (MkArgs c pu od h cp eu val kd ec tc th o ck ci cs cv j d)
  else if (arg =? "--keystore-dir")%string then
    Some (MkArgs c pu od h cp eu au val ec tc th o ck ci cs cv j d)
  else if (arg =? "--ec-cert")%string then
    Some (MkArgs c pu od h cp eu au kd val tc th o ck ci cs cv j d)
  else if (arg =? "--tlm-cert")%string then
    Some (MkArgs c pu od h cp eu au kd ec val th o ck ci cs cv j d)
  else if (arg =? "--tlm-hid8")%string then
    Some (MkArgs c pu od h cp eu au kd ec tc val o ck ci cs cv j d)
  else if (arg =? "--out")%string then
    Some (MkArgs c pu od h cp eu au kd ec tc th val ck ci cs cv j d)
  else if (arg =? "--canonical-key")%string then
    Some (MkArgs c pu od h cp eu au kd ec tc th o val ci cs cv j d)
  else if (arg =? "--canonical-id")%string then
    Some (MkArgs c pu od h cp eu au kd ec tc th o ck val true cv j d)
  else if (arg =? "--curve")%string then
    Some (MkArgs c pu od h cp eu au kd ec tc th o ck ci cs val j d)
  else None.

Definition set_command (val : string) a : Args :=
  let '(MkArgs c pu od h cp eu au kd ec tc th o ck ci cs cv j d) := a in
  MkArgs val pu od h cp eu au kd ec tc th o ck ci cs cv j d.
Definition set_json a : Args :=
  let '(MkArgs c pu od h cp eu au kd ec tc th o ck ci cs cv j d) := a in
  MkArgs c pu od h cp eu au kd ec tc th o ck ci cs cv true d.
Definition set_discover_mode a : Args :=
  let '(MkArgs c pu od h cp eu au kd ec tc th o ck ci cs cv j d) := a in
  MkArgs c pu od h cp eu au kd ec tc th o ck ci cs cv j true.

(** The loop over argv[2..]: a known option takes the next word, an unknown word is
    skipped, a trailing word without a value is ignored. *)
Fixpoint parse_loop (argv : list string) a : Args :=
  match argv with
  | [] => a
  | arg :: rest =>
      if (arg =? "--json")%string then parse_loop rest (set_json a)
      else if (arg =? "--discover")%string then parse_loop rest (set_discover_mode a)
      else match rest with
           | [] => a
           | val :: rest' =>
               match set_option arg val a with
               | Some a => parse_loop rest' a
               | None => parse_loop rest a
               end
           end
  end.

(** [argv] is the whole vector, program name first. *)
Definition parse_args (argv : list string) : Args :=
  match argv with
  | _ :: command :: rest => parse_loop rest (set_command command Args_default)
  | _ => Args_default
  end.

Definition parse_curve (s : string) : Curve :=
  if (s =? "brainpool-p256r1")%string || (s =? "brainpoolP256r1")%string then BrainpoolP256r1
  else if (s =? "brainpool-p384r1")%string || (s =? "brainpoolP384r1")%string then BrainpoolP384r1
  else NistP256.

(** [std::left << std::setw(n) << s] *)
Definition pad (n : nat) (s : string) : string :=
  s ++ string_of_bytes (replicate (n - String.length s) x20).

Definition usage_text (prog : string) (cmds : list (string * string)) : string :=
  "Usage: " ++ prog ++ " <command> [options]" ++ nl ++ nl ++ "Commands:" ++ nl
  ++ String.concat "" (map (fun '(name, help) => "  " ++ pad 15 name ++ help ++ nl) cmds)
  ++ nl ++ "Common options:" ++ nl
  ++ "  --pki-url URL        Base URL of PKI server" ++ nl
  ++ "  --json               Machine-readable JSON output" ++ nl
  ++ "  --out-dir DIR        Output directory for certs" ++ nl
  ++ "  --hid8 HEX           HashedId8 in hex (16 chars)" ++ nl
  ++ "  --tlm-hid8 HEX       Pinned TLM HashedId8 (hex uppercase)" ++ nl
  ++ "  --cert-path PATH     Path to cert file (COER)" ++ nl
  ++ "  --ea-url URL         EA POST endpoint" ++ nl
  ++ "  --aa-url URL         AA POST endpoint" ++ nl
  ++ "  --keystore-dir DIR   Key storage directory" ++ nl
  ++ "  --tlm-cert PATH      TLM cert for ECTL verification" ++ nl
  ++ "  --out PATH           Output file path" ++ nl
  ++ "  --canonical-key ID   Key handle ID for canonical key" ++ nl
  ++ "  --canonical-id STR   ITS-S canonical identifier (1-64 bytes, default: v2xpki-its-s)" ++ nl
  ++ "  --ec-cert PATH       EC cert file for AT request" ++ nl
  ++ "  --curve NAME         Curve: nist-p256, brainpool-p256r1, brainpool-p384r1" ++ nl
  ++ "  --discover           Use CCMS discovery for EA/AA URLs" ++ nl.

Definition usage {ossl : OpenSSL} {tr : Transport} (prog : string) (cmds : list (string * string))
    : io unit :=
  tool.eprint (usage_text prog cmds).

(** ** Lemmas *)

(** A command line that asks for [a]. *)
Definition render a : list string :=
  a_command a ::
  "--pki-url" :: a_pki_url a ::
  "--out-dir" :: a_out_dir a ::
  "--hid8" :: a_hid8 a ::
  "--cert-path" :: a_cert_path a ::
  "--ea-url" :: a_ea_url a ::
  "--aa-url" :: a_aa_url a ::
  "--keystore-dir" :: a_keystore_dir a ::
  "--ec-cert" :: a_ec_cert a ::
  "--tlm-cert" :: a_tlm_cert a ::
  "--tlm-hid8" :: a_tlm_hid8 a ::
  "--out" :: a_out a ::
  "--canonical-key" :: a_canonical_key a ::
  (if a_canonical_id_set a then ["--canonical-id"; a_canonical_id a] else []) ++
  "--curve" :: a_curve_str a ::
  (if a_json a then ["--json"] else []) ++ (if a_discover_mode a then ["--discover"] else []).

Lemma parse_step arg val rest a a1 :
  (arg =? "--json")%string = false -> (arg =? "--discover")%string = false ->
  set_option arg val a = Some a1 -> parse_loop (arg :: val :: rest) a = parse_loop rest a1.
Proof. intros H1 H2 H3. cbn [parse_loop]. by rewrite H1, H2, H3. Qed.

Lemma parse_render prog a :
  (a_canonical_id_set a = false -> a_canonical_id a = "") -> parse_args (prog :: render a) = a.
Proof.
  intros H. destruct a as [cmd p1 p2 p3 p4 p5 p6 p7 p8 p9 p10 p11 p12 cid cset p14 js dm].
  unfold parse_args, render. cbn [app].
  repeat (erewrite parse_step; [|reflexivity..]; cbn [a_pki_url a_out_dir a_hid8 a_cert_path a_ea_url
    a_aa_url a_keystore_dir a_ec_cert a_tlm_cert a_tlm_hid8 a_out a_canonical_key]).
  destruct cset; cbn [a_canonical_id_set a_canonical_id app] in *.
  - repeat (erewrite parse_step; [|reflexivity..]). by destruct js, dm.
  - rewrite H by done. repeat (erewrite parse_step; [|reflexivity..]). by destruct js, dm.
Qed.

(** Of two settings of the same option, the later one counts. *)
Lemma set_option_twice arg v1 v2 a a1 :
  set_option arg v1 a = Some a1 -> set_option arg v2 a1 = set_option arg v2 a.
Proof.
  destruct a. unfold set_option at 1. intros H.
  repeat (destruct (arg =? _)%string eqn:E;
    [injection H as <-; apply String.eqb_eq in E as ->; reflexivity|clear E]). done.
Qed.

End args.
