(* ===== verification/CliIo.v ===== *)
(** src/cli/io.hpp, src/cli/io.cpp: hexadecimal text, files and certificate summaries. *)
From stdpp Require Import pretty.
From S2P Require Import Prelude Hex Sizes StaticBytes Asn OpenSSL CryptoEc CertParse Http Disk Tool.
Local Open Scope string_scope.

Record CertSummary := MkCertSummary {
  s_hid8 : hid8;
  s_issuer_hid8 : hid8;
  s_self_signed : bool;
  s_psids : list Z;
  s_size_bytes : nat;
  s_valid : bool;
}.

Module cio.

Definition bytes_to_hex (data : bytes) : string := hex_stream true data.

Definition hid8_hex (h : hid8) : string := bytes_to_hex h.

(** All zeros when the text is too short or a pair is not a number. *)
Definition hex_to_hid8 (hex : string) : hid8 :=
  let s := bytes_of_string hex in
  if (length s <? 16)%nat then zeros 8 else default (zeros 8) (parse_pairs 8 s).

Definition body_to_string (body : bytes) : string := string_of_bytes body.

Definition read_file (path : string) (fs : fsys) : bytes := disk.read_all path fs.

(** The stream is closed by its destructor, after the result is computed. *)
Definition write_file (path : string) (data : bytes) (fs : fsys) : bool * fsys :=
  match disk.fopen_w path fs with
  | (None, fs) => (false, fs)
  | (Some ofs, fs) =>
      let '(n, ofs, fs) := disk.fwrite ofs data fs in
      ((n =? length data)%nat, disk.fclose ofs fs)
  end.

Section cio.
Context {ossl : OpenSSL} {tr : Transport} {cb : Codec CertificateBase}.

Definition compute_hid8 (cert_coer : bytes) : hid8 := cert.compute_hid8 cert_coer.

Definition parse_cert_summary (coer : bytes) : CertSummary :=
  match asn_decode_canonical coer with
  | None => MkCertSummary (zeros 8) (zeros 8) false [] (length coer) false
  | Some cert =>
      let '(self_signed, issuer_hid8) :=
        match issuer cert with
        | Some (self _) => (true, zeros 8)
        | Some (sha256AndDigest d) => (false, if (length d =? 8)%nat then d else zeros 8)
        | _ => (false, zeros 8)
        end in
      let psids :=
        match toBeSigned cert with
        | Some tbs =>
            match appPermissions tbs with
            | Some perms => map (fun p => i64_of_u64 (psid p)) (omap id perms)
            | None => []
            end
        | None => []
        end in
      MkCertSummary (compute_hid8 coer) issuer_hid8 self_signed psids (length coer) true
  end.

Definition yes_no (b : bool) : string := if b then "yes" else "no".
Definition true_false (b : bool) : string := if b then "true" else "false".

Definition cert_summary_text (s : CertSummary) (json : bool) : string :=
  if json then
    "{" ++ quoted "hid8" ++ ":" ++ quoted (hid8_hex (s_hid8 s)) ++ "," ++ quoted "issuer_hid8" ++ ":"
    ++ quoted (hid8_hex (s_issuer_hid8 s)) ++ "," ++ quoted "self_signed" ++ ":"
    ++ true_false (s_self_signed s) ++ "," ++ quoted "size" ++ ":" ++ pretty (s_size_bytes s) ++ ","
    ++ quoted "psids" ++ ":[" ++ separated "," (map pretty (s_psids s)) ++ "]}" ++ nl
  else
    "  HID8:           " ++ hid8_hex (s_hid8 s) ++ nl
    ++ (if s_self_signed s then "  Issuer:         self-signed" ++ nl
        else "  Issuer HID8:    " ++ hid8_hex (s_issuer_hid8 s) ++ nl)
    ++ "  Size:           " ++ pretty (s_size_bytes s) ++ " bytes" ++ nl
    ++ (if empty (s_psids s) then ""
        else "  PSIDs:          " ++ separated ", " (map pretty (s_psids s)) ++ nl).

Definition print_cert_summary (s : CertSummary) (json : bool) : io unit :=
  tool.print (cert_summary_text s json).

End cio.

(** ** Lemmas *)

Lemma hex_to_hid8_hex h : length h = 8 -> hex_to_hid8 (hid8_hex h) = h.
Proof.
  intros Hl. unfold hex_to_hid8, hid8_hex, bytes_to_hex. rewrite bytes_of_hex_stream, length_hex, Hl.
  pose proof (parse_pairs_hex true h) as H. rewrite Hl in H. simpl Nat.ltb. by rewrite H.
Qed.

Lemma length_hex_to_hid8 s : length (hex_to_hid8 s) = 8.
Proof.
  unfold hex_to_hid8. destruct (_ <? 16)%nat; [done|].
  destruct (parse_pairs 8 _) eqn:E; [|done]. by apply length_parse_pairs in E.
Qed.

(** Only the file named is touched, whatever happens. *)
Lemma write_file_other path data fs ok fs' p :
  write_file path data fs = (ok, fs') -> p <> path -> files fs' !! p = files fs !! p.
Proof.
  intros H Hne. unfold write_file, disk.fopen_w in H.
  destruct (can_open_w _ _ _); simplify_eq/=; [|done]. by rewrite !lookup_insert_ne by done.
Qed.

Lemma write_file_frame path data fs ok fs' :
  write_file path data fs = (ok, fs') -> dirs fs' = dirs fs /\ env fs' = env fs.
Proof.
  intros H. unfold write_file, disk.fopen_w in H. by destruct (can_open_w _ _ _); simplify_eq/=.
Qed.

(** On a medium that keeps what it takes, a successful write leaves exactly the data. *)
Lemma write_file_ok path data fs fs' :
  disk.reliable (env fs) -> write_file path data fs = (true, fs') -> files fs' !! path = Some data.
Proof.
  intros Hr H. unfold write_file, disk.fopen_w in H.
  destruct (can_open_w _ _ _); [|done].
  destruct (disk.fwrite _ _ _) as [[n s] fs1] eqn:Hw. injection H as H <-. bool_props.
  by apply (disk.fwrite_fclose _ _ (disk.put _ _) _ _ _ Hr Hw).
Qed.

(** A healthy disk takes every write. *)
Lemma write_file_healthy path data fs ok fs' :
  disk.healthy (env fs) -> write_file path data fs = (ok, fs') ->
  ok = true /\ files fs' !! path = Some data.
Proof.
  intros (Hr & Ho & Hw) H. assert (ok = true) as ->; [|by split; [|eapply write_file_ok]].
  unfold write_file, disk.fopen_w in H. rewrite Ho in H. simpl in H. injection H as <- _.
  apply Nat.eqb_eq. specialize (Hw (disk.calls (disk.put fs (<[path:=[]]> (files fs)))) path data). lia.
Qed.

End cio.
