(* ===== verification/CliCommands.v ===== *)
(** src/cli/commands.cpp and src/main.cpp: the subcommands of v2x-pki-client.

    A handler is a program over the world of Tool.v that returns the exit code.  An
    uncaught exception of std::filesystem ends the process. *)
From stdpp Require Import gmap pretty.
From S2P Require Import Prelude Result Sizes StaticBytes Asn OpenSSL CryptoEc CertParse TrustChain.
From S2P Require Import TrustList EcRequest AtRequest Http Disk KeyStore PkiClient Tool CliArgs CliIo.
Local Open Scope string_scope.

(** The version string comes from a header the build generates. *)
Class BuildInfo := kVersion : string.

(** [CertInfo ec_ci;] in [cmd_request_at] leaves the issuer's identifier
    uninitialised; nothing is assumed about what it holds. *)
Class UninitIssuer := uninit_issuer : hid8.

Module cli.
Section cli.
Context {ossl : OpenSSL} {tr : Transport} {pem : Pem}.
Context {cb : Codec CertificateBase} {tb : Codec ToBeSignedCertificate} {junk : Uninit}.
Context {dc : Codec Ieee1609Dot2Data} {tc : Codec ToBeSignedData}.
Context {ec : Codec EtsiTs102941Data} {xc : Codec EtsiTs103097Certificate}.
Context {eq_ : Codec InnerEcRequest} {er : Codec InnerEcResponse}.
Context {pc : Codec PublicVerificationKey} {sc : Codec SharedAtRequest}.
Context {aq : Codec InnerAtRequest} {ar : Codec InnerAtResponse} {hjunk : UninitHmac}.
Context {version : BuildInfo} {ijunk : UninitIssuer}.

Implicit Types a : Args.

(** [HttpClient http(HttpClientConfig{"", 15s, true})] *)
Definition http_ : HttpClientConfig := default_config "" 15 true.

(** [std::cerr << msg << "\n"; return 1;] *)
Definition fail (msg : string) : io Z := tool.eprint (msg ++ nl);; mret 1%Z.

(** The body the two status queries have in common. *)
Definition query a (endpoint : string) : io Z :=
  if str_empty (a_pki_url a) then fail "error: --pki-url required" else
  resp ← tool.http_get http_ (a_pki_url a ++ endpoint);
  match resp with
  | Err e => fail ("error: request failed: " ++ Error_to_string e)
  | Ok resp =>
      if negb (status_code resp =? 200)%Z then fail ("error: HTTP " ++ pretty (status_code resp)) else
      tool.print (cio.body_to_string (body resp) ++ nl);;
      mret 0%Z
  end.

Definition cmd_healthz a : io Z := query a "/healthz".
Definition cmd_version a : io Z := query a "/version".

Definition cmd_info a : io Z :=
  (if a_json a then
     tool.print ("{" ++ quoted "name" ++ ":" ++ quoted "v2x-pki-client" ++ "," ++ quoted "version" ++ ":"
       ++ quoted kVersion ++ "," ++ quoted "crypto" ++ ":"
       ++ quoted "NIST P-256 / brainpoolP256r1 / brainpoolP384r1" ++ "," ++ quoted "encoding" ++ ":"
       ++ quoted "COER (TS 103 097 v1.3.1)" ++ "," ++ quoted "specs" ++ ":"
       ++ quoted "TS 102 941 v2.2.1 / IEEE 1609.2" ++ "," ++ quoted "keystore" ++ ":"
       ++ quoted "plaintext (DEV)" ++ "}" ++ nl)
   else
     tool.print ("v2x-pki-client v" ++ kVersion ++ nl
       ++ "  Crypto:    NIST P-256 / brainpoolP256r1 / brainpoolP384r1" ++ nl
       ++ "  Encoding:  COER (TS 103 097 v1.3.1)" ++ nl
       ++ "  Specs:     TS 102 941 v2.2.1 / IEEE 1609.2" ++ nl
       ++ "  KeyStore:  plaintext (DEV ONLY)" ++ nl));;
  mret 0%Z.

(** One iteration of the loop over [items]: the new number of errors. *)
Definition fetch_item a (endpoint filename label : string) (errors : nat) : io nat :=
  resp ← tool.http_get http_ (a_pki_url a ++ endpoint);
  match resp with
  | Err e =>
      tool.eprint ("error: failed to fetch " ++ label ++ ": " ++ Error_to_string e ++ nl);;
      mret (S errors)
  | Ok resp =>
      if negb (status_code resp =? 200)%Z then
        tool.eprint ("error: failed to fetch " ++ label ++ " (HTTP " ++ pretty (status_code resp) ++ ")" ++ nl);;
        mret (S errors)
      else
        let path := path_append (a_out_dir a) filename in
        ok ← tool.on_fs (cio.write_file path (body resp));
        if negb ok then
          tool.eprint ("error: failed to write " ++ path ++ nl);;
          mret (S errors)
        else
          let summary := cio.parse_cert_summary (body resp) in
          (if a_json a then
             tool.print ("{" ++ quoted "cert" ++ ":" ++ quoted label ++ "," ++ quoted "file" ++ ":"
               ++ quoted path ++ "," ++ quoted "size" ++ ":" ++ pretty (length (body resp)) ++ ","
               ++ quoted "hid8" ++ ":" ++ quoted (cio.hid8_hex (s_hid8 summary)) ++ "}" ++ nl)
           else
             tool.print (label ++ " -> " ++ path ++ " (" ++ pretty (length (body resp)) ++ "B)" ++ nl);;
             tool.when (s_valid summary) (cio.print_cert_summary summary false));;
          mret errors
  end.

Definition fetch_items : list (string * string * string) :=
  [("/trustanchor", "rca.cert", "RCA"); ("/tlm", "tlm.cert", "TLM"); ("/ma", "ma.cert", "MA")].

Fixpoint fetch_loop a (items : list (string * string * string)) (errors : nat) : io nat :=
  match items with
  | [] => mret errors
  | (endpoint, filename, label) :: items =>
      errors ← fetch_item a endpoint filename label errors;
      fetch_loop a items errors
  end.

Definition cmd_fetch_trust a : io Z :=
  if str_empty (a_pki_url a) || str_empty (a_out_dir a)
  then fail "error: --pki-url and --out-dir required" else
  tool.create_directories (a_out_dir a);;
  errors ← fetch_loop a fetch_items 0;
  mret (if (0 <? errors)%nat then 1%Z else 0%Z).

Definition cmd_lookup_cert a : io Z :=
  if str_empty (a_pki_url a) || str_empty (a_hid8 a)
  then fail "error: --pki-url and --hid8 required" else
  resp ← tool.http_get http_ (a_pki_url a ++ "/lookup/" ++ a_hid8 a);
  match resp with
  | Err e => fail ("error: lookup failed: " ++ Error_to_string e)
  | Ok resp =>
      if negb (status_code resp =? 200)%Z
      then fail ("error: lookup failed (HTTP " ++ pretty (status_code resp) ++ ")") else
      let summary := cio.parse_cert_summary (body resp) in
      if negb (s_valid summary) then fail "error: failed to parse cert COER" else
      (if a_json a then cio.print_cert_summary summary true
       else tool.print ("Cert lookup " ++ a_hid8 a ++ ":" ++ nl);;
            cio.print_cert_summary summary false);;
      mret 0%Z
  end.

Definition cmd_verify_hid8 a : io Z :=
  if str_empty (a_cert_path a) then fail "error: --cert-path required" else
  fs ← tool.get_fs;
  let data := cio.read_file (a_cert_path a) fs in
  if empty data then fail ("error: cannot read " ++ a_cert_path a) else
  let h := cio.compute_hid8 data in
  let summary := cio.parse_cert_summary data in
  (if a_json a then
     tool.print ("{" ++ quoted "file" ++ ":" ++ quoted (a_cert_path a) ++ "," ++ quoted "size" ++ ":"
       ++ pretty (length data) ++ "," ++ quoted "hid8" ++ ":" ++ quoted (cio.hid8_hex h) ++ ","
       ++ quoted "valid" ++ ":" ++ cio.true_false (s_valid summary) ++ "}" ++ nl)
   else
     tool.print ("File:   " ++ a_cert_path a ++ " (" ++ pretty (length data) ++ "B)" ++ nl
       ++ "HID8:   " ++ cio.hid8_hex h ++ nl ++ "Valid:  " ++ cio.yes_no (s_valid summary) ++ nl);;
     tool.when (s_valid summary) (cio.print_cert_summary summary false));;
  mret 0%Z.

(** What [cmd_fetch_ectl] prints about a list of [size] bytes. *)
Definition ectl_text (json : bool) (size : nat) (verified : bool) (topo : TrustTopology) : string :=
  if json then
    "{" ++ quoted "size" ++ ":" ++ pretty size ++ "," ++ quoted "verified" ++ ":"
    ++ cio.true_false verified ++ "," ++ quoted "rcas" ++ ":" ++ pretty (length (rcas topo)) ++ ","
    ++ quoted "eas" ++ ":" ++ pretty (length (eas topo)) ++ "," ++ quoted "aas" ++ ":"
    ++ pretty (length (aas topo)) ++ "," ++ quoted "dcs" ++ ":" ++ pretty (length (dcs topo)) ++ ","
    ++ quoted "next_update" ++ ":" ++ pretty (ectl_next_update topo) ++ "," ++ quoted "expired" ++ ":"
    ++ cio.true_false (ectl_expired topo) ++ "}" ++ nl
  else
    "ECTL (" ++ pretty size ++ "B)" ++ nl
    ++ "  Verified:  " ++ (if verified then "yes" else "no (no --tlm-cert given)") ++ nl
    ++ "  RCAs:      " ++ pretty (length (rcas topo)) ++ nl
    ++ "  EAs:       " ++ pretty (length (eas topo)) ++ nl
    ++ "  AAs:       " ++ pretty (length (aas topo)) ++ nl
    ++ "  DCs:       " ++ pretty (length (dcs topo)) ++ nl
    ++ "  Expired:   " ++ cio.yes_no (ectl_expired topo) ++ nl.

(** The optional TLM certificate, or the message of the early return. *)
Definition load_tlm a (fs : fsys) : option CertInfo + string :=
  if str_empty (a_tlm_cert a) then inl None else
  let tlm_bytes := cio.read_file (a_tlm_cert a) fs in
  if empty tlm_bytes then inr ("error: cannot read TLM cert from " ++ a_tlm_cert a) else
  let tlm := cert.from_coer tlm_bytes in
  if sb.is_empty (cert_bytes tlm)
  then inr ("error: TLM cert at " ++ a_tlm_cert a ++ " does not decode") else inl (Some tlm).

Definition decode_with (tlm : option CertInfo) (b : bytes) (now : Z) : Result TrustTopology :=
  match tlm with
  | Some tlm =>
      tlist.decode_ectl b (sb.to_vector (public_key tlm)) (sb.to_vector (cert_bytes tlm)) now
  | None => tlist.decode_ectl b [] [] now
  end.

Definition cmd_fetch_ectl a : io Z :=
  if str_empty (a_pki_url a) then fail "error: --pki-url required" else
  let ectl_url :=
    if str_empty (a_tlm_hid8 a) then a_pki_url a ++ "/getectl"
    else a_pki_url a ++ "/getectl/" ++ a_tlm_hid8 a in
  resp ← tool.http_get http_ ectl_url;
  match resp with
  | Err e => fail ("error: failed to fetch ECTL: " ++ Error_to_string e)
  | Ok resp =>
      if negb (status_code resp =? 200)%Z
      then fail ("error: failed to fetch ECTL (HTTP " ++ pretty (status_code resp) ++ ")") else
      fs ← tool.get_fs;
      match load_tlm a fs with
      | inr msg => fail msg
      | inl tlm =>
          now ← tool.clock;
          match decode_with tlm (body resp) (pki.unix_seconds (now 0%nat)) with
          | Err e => fail ("error: failed to decode ECTL: " ++ Error_to_string e)
          | Ok topo =>
              let verified := bool_decide (is_Some tlm) && ectl_signature_verified topo in
              if bool_decide (is_Some tlm) && negb verified
              then fail ("error: ECTL signature verification failed against " ++ a_tlm_cert a) else
              tool.print (ectl_text (a_json a) (length (body resp)) verified topo);;
              tool.when (negb (str_empty (a_out a)))
                (tool.on_fs (cio.write_file (a_out a) (body resp));;
                 tool.when (negb (a_json a)) (tool.print ("  Saved:     " ++ a_out a ++ nl)));;
              mret 0%Z
          end
      end
  end.

(** *** discover *)

Definition hid8_up (ci : CertInfo) : string := tlist.hid8_hex_upper (hashed_id_8 ci).

Definition topology_json (topo : TrustTopology) : string :=
  "{" ++ quoted "status" ++ ":" ++ quoted "ok"
  ++ match tlm topo with
     | Some t => "," ++ quoted "tlm_hid8" ++ ":" ++ quoted (hid8_up t)
     | None => ""
     end
  ++ "," ++ quoted "rcas" ++ ":["
  ++ separated "," (map (fun rca => quoted (hid8_up rca)) (rcas topo))
  ++ "]," ++ quoted "eas" ++ ":["
  ++ separated "," (map (fun ea =>
       "{" ++ quoted "hid8" ++ ":" ++ quoted (hid8_up (ea_cert ea)) ++ "," ++ quoted "its_access_point"
       ++ ":" ++ quoted (its_access_point ea) ++ "," ++ quoted "aa_access_point" ++ ":"
       ++ quoted (aa_access_point ea) ++ "}") (eas topo))
  ++ "]," ++ quoted "aas" ++ ":["
  ++ separated "," (map (fun aa =>
       "{" ++ quoted "hid8" ++ ":" ++ quoted (hid8_up (aa_cert aa)) ++ "," ++ quoted "access_point" ++ ":"
       ++ quoted (access_point aa) ++ "}") (aas topo))
  ++ "]," ++ quoted "dcs" ++ ":["
  ++ separated "," (map (fun d => "{" ++ quoted "url" ++ ":" ++ quoted (url d) ++ "}") (dcs topo))
  ++ "]," ++ quoted "ectl_sig_verified" ++ ":" ++ cio.true_false (ectl_signature_verified topo)
  ++ "," ++ quoted "ctl_sig_verified" ++ ":" ++ cio.true_false (ctl_signature_verified topo) ++ "}" ++ nl.

Definition verified_text (b : bool) : string := if b then "VERIFIED" else "not verified".

Definition topology_plain (topo : TrustTopology) : string :=
  "=== CCMS Trust Topology ===" ++ nl ++ nl
  ++ match tlm topo with
     | Some t =>
         "TLM:" ++ nl ++ "  HID8:    " ++ hid8_up t ++ nl
         ++ "  Self:    " ++ cio.yes_no (is_self_signed t) ++ nl
         ++ "  PubKey:  "
         ++ (if (sb.size (public_key t) =? kP256PublicKeyLen)%nat then "ok (65B)" else "missing")
         ++ nl ++ nl
     | None => ""
     end
  ++ "RCA(s): " ++ pretty (length (rcas topo)) ++ nl
  ++ String.concat "" (map (fun rca =>
       "  HID8:    " ++ hid8_up rca ++ nl
       ++ "  Self:    " ++ cio.yes_no (is_self_signed rca) ++ nl) (rcas topo))
  ++ nl
  ++ "EA(s): " ++ pretty (length (eas topo)) ++ nl
  ++ String.concat "" (map (fun ea =>
       "  HID8:             " ++ hid8_up (ea_cert ea) ++ nl
       ++ "  its_access_point: " ++ its_access_point ea ++ nl
       ++ "  aa_access_point:  " ++ aa_access_point ea ++ nl) (eas topo))
  ++ nl
  ++ "AA(s): " ++ pretty (length (aas topo)) ++ nl
  ++ String.concat "" (map (fun aa =>
       "  HID8:         " ++ hid8_up (aa_cert aa) ++ nl
       ++ "  access_point: " ++ access_point aa ++ nl) (aas topo))
  ++ nl
  ++ "DC(s): " ++ pretty (length (dcs topo)) ++ nl
  ++ String.concat "" (map (fun d =>
       "  url:    " ++ url d ++ nl
       ++ "  serves: " ++ separated ", " (map tlist.hid8_hex_upper (serves d)) ++ nl) (dcs topo))
  ++ nl
  ++ "Signature verification:" ++ nl
  ++ "  ECTL (TLM): " ++ verified_text (ectl_signature_verified topo) ++ nl
  ++ "  CTL  (RCA): " ++ verified_text (ctl_signature_verified topo) ++ nl.

Definition discover_config a (ks_dir : string) : PkiClientConfig :=
  MkPkiClientConfig "" "" (a_pki_url a) "" "" "" ks_dir (a_tlm_hid8 a) 15 true true.

Definition cmd_discover a : io Z :=
  if str_empty (a_pki_url a) then fail "error: --pki-url required" else
  let ks_dir := if str_empty (a_keystore_dir a) then "/tmp/pki-discover" else a_keystore_dir a in
  tool.create_directories ks_dir;;
  client ← tool.new_client (discover_config a ks_dir);
  '(topo, _) ← tool.call pki.discover_trust client;
  match topo with
  | Err e => fail ("error: trust discovery failed: " ++ Error_to_string e)
  | Ok topo =>
      tool.print (if a_json a then topology_json topo else topology_plain topo);;
      mret 0%Z
  end.

(** *** enrol *)

Definition plain a (s : string) : io unit := tool.when (negb (a_json a)) (tool.print s).

(** [write_file] where the result is not looked at. *)
Definition save (path : string) (data : bytes) : io unit := tool.on_fs (cio.write_file path data);; mret tt.

Definition enrol_config a (trust_dir ea_url : string) : PkiClientConfig :=
  MkPkiClientConfig ea_url "" (a_pki_url a) "" "" trust_dir (a_keystore_dir a) "" 15 true false.

(** The canonical key: loaded, or generated and stored ([None]: keygen failed). *)
Definition canonical_keypair a (client : client) (handle : KeyHandle) (key_id : string) (curve : Curve)
    : io (option KeyPair) :=
  existing ← tool.load_keypair client handle;
  match existing with
  | Some kp => plain a ("Canonical key loaded: " ++ key_id ++ nl);; mret (Some kp)
  | None =>
      gen ← tool.generate_keypair curve;
      match gen with
      | None => mret None
      | Some kp =>
          tool.store_keypair client handle kp;;
          plain a ("Canonical key generated: " ++ key_id ++ " (" ++ Curve_to_string curve ++ ")" ++ nl);;
          mret (Some kp)
      end
  end.

Definition enrol_record (kp : KeyPair) (ea_hid8 : hid8) (curve : Curve) (canonical_id : string)
    : EcRecord :=
  MkEcRecord (kp_public_key kp) ea_hid8 [kPsidScr] 30 curve canonical_id.

Definition or_default (s d : string) : string := if str_empty s then d else s.

Definition http_status_or_0 (r : Result HttpResponse) : Z :=
  match r with Ok resp => status_code resp | Err _ => 0 end.

Definition status_ok (r : Result HttpResponse) : bool :=
  match r with Ok resp => (status_code resp =? 200)%Z | Err _ => false end.

Definition ok_body (r : Result HttpResponse) : bytes :=
  match r with Ok resp => body resp | Err _ => [] end.

(** From the point where the client exists. *)
Definition enrol_with a (client : client) (ea_body : bytes) (ea_url : string) : io Z :=
  let curve := args.parse_curve (a_curve_str a) in
  let key_id := or_default (a_canonical_key a) "canonical" in
  match handle.from key_id with
  | None => fail "error: --canonical-key must be 1-64 chars of [A-Za-z0-9_-]"
  | Some handle =>
      kp ← canonical_keypair a client handle key_id curve;
      match kp with
      | None => fail "error: keygen failed"
      | Some kp =>
          let ea_hid8 := cio.compute_hid8 ea_body in
          plain a ("EA HID8: " ++ cio.hid8_hex ea_hid8 ++ nl);;
          let canonical_id := if a_canonical_id_set a then a_canonical_id a else "v2xpki-its-s" in
          if str_empty canonical_id || (64 <? String.length canonical_id)%nat
          then fail "error: canonical-id must be 1-64 bytes" else
          save (path_append (a_keystore_dir a) "canonical.id") (bytes_of_string canonical_id);;
          let rec := enrol_record kp ea_hid8 curve canonical_id in
          plain a ("Sending EC request to " ++ ea_url ++ " (canonical-id: " ++ canonical_id ++ ")..." ++ nl);;
          '(result, _) ← tool.call (pki.request_enrolment_credential handle rec) client;
          match result with
          | Err e => fail ("error: enrolment request failed: " ++ Error_to_string e)
          | Ok cert =>
              let ec_path := a_keystore_dir a ++ "/ec.cert" in
              save ec_path (sb.to_vector (cert_bytes cert));;
              let ec_hid8 := cio.compute_hid8 (sb.to_vector (cert_bytes cert)) in
              tool.print (if a_json a then
                "{" ++ quoted "status" ++ ":" ++ quoted "ok" ++ "," ++ quoted "ec_cert" ++ ":"
                ++ quoted ec_path ++ "," ++ quoted "hid8" ++ ":" ++ quoted (cio.hid8_hex ec_hid8) ++ "}" ++ nl
              else
                "EC cert received -> " ++ ec_path ++ nl ++ "  HID8: " ++ cio.hid8_hex ec_hid8 ++ nl);;
              mret 0%Z
          end
      end
  end.

Definition cmd_enrol a : io Z :=
  if str_empty (a_pki_url a) || str_empty (a_keystore_dir a)
  then fail "error: --pki-url and --keystore-dir required" else
  tool.create_directories (a_keystore_dir a);;
  let trust_dir := path_append (a_keystore_dir a) "trust" in
  tool.create_directories trust_dir;;
  let ea_url := or_default (a_ea_url a) (a_pki_url a ++ "/ec-request") in
  ea_resp ← tool.http_get http_ (a_pki_url a ++ "/cert/ea");
  match ea_resp with
  | Err e => fail ("error: failed to fetch EA cert: " ++ Error_to_string e)
  | Ok ea_resp =>
      if negb (status_code ea_resp =? 200)%Z
      then fail ("error: failed to fetch EA cert (HTTP " ++ pretty (status_code ea_resp) ++ ")") else
      save (trust_dir ++ "/ea.cert") (body ea_resp);;
      plain a ("EA cert fetched (" ++ pretty (length (body ea_resp)) ++ "B)" ++ nl);;
      rca_resp ← tool.http_get http_ (a_pki_url a ++ "/trustanchor");
      if negb (status_ok rca_resp)
      then fail ("error: failed to fetch trust anchor (HTTP " ++ pretty (http_status_or_0 rca_resp) ++ ")") else
      save (trust_dir ++ "/rca.cert") (ok_body rca_resp);;
      plain a ("RCA cert fetched (" ++ pretty (length (ok_body rca_resp)) ++ "B)" ++ nl);;
      client ← tool.new_client (enrol_config a trust_dir ea_url);
      enrol_with a client (body ea_resp) ea_url
  end.

(** *** request-at *)

Definition authorize_config a (trust_dir aa_url : string) : PkiClientConfig :=
  MkPkiClientConfig "" aa_url (a_pki_url a) "" "" trust_dir (a_keystore_dir a) "" 15 true false.

(** The certificate information assembled from the EC file and the canonical key. *)
Definition ec_info (ec_cert_sb : StaticBytes kMaxCoerMessageLen) (ec_cert_bytes : bytes) (kp : KeyPair)
    : CertInfo :=
  MkCertInfo ec_cert_sb (cio.compute_hid8 ec_cert_bytes) (kp_public_key kp) (sb.default_ _) NistP256
    uninit_issuer false (sb.default_ _) (sb.default_ _) (sb.default_ _)
    (curve (cert.from_coer ec_cert_bytes)) Sha256 0 0 "".

(** The identifier: the option, else the file written by enrol, else the default. *)
Definition at_canonical_id a (fs : fsys) : string :=
  or_default
    (if a_canonical_id_set a then a_canonical_id a
     else string_of_bytes (disk.read_all (path_append (a_keystore_dir a) "canonical.id") fs))
    "v2xpki-its-s".

(** From the point where the client exists and the EC key is loaded. *)
Definition authorize_with a (client : client) (handle : KeyHandle) (kp : KeyPair)
    (ec_key_id ec_cert_path : string) (ec_cert_bytes : bytes) (aa_body : bytes)
    (ea_resp : Result HttpResponse) (aa_url out_dir : string) : io Z :=
  match sb.from kMaxCoerMessageLen ec_cert_bytes with
  | None => fail ("error: EC cert too large (" ++ pretty (length ec_cert_bytes) ++ "B)")
  | Some ec_cert_sb =>
      let ec_ci := ec_info ec_cert_sb ec_cert_bytes kp in
      plain a ("EC cert loaded: " ++ ec_cert_path ++ " (" ++ pretty (length ec_cert_bytes) ++ "B"
               ++ ", HID8 " ++ cio.hid8_hex (hashed_id_8 ec_ci) ++ ")" ++ nl);;
      let aa_hid8 := cio.compute_hid8 aa_body in
      if negb (status_ok ea_resp)
      then fail ("error: failed to fetch EA cert (HTTP " ++ pretty (http_status_or_0 ea_resp) ++ ")") else
      let ea_hid8_val := cio.compute_hid8 (ok_body ea_resp) in
      let curve := curve ec_ci in
      tool.when (negb (str_empty (a_curve_str a))
                 && negb (bool_decide (args.parse_curve (a_curve_str a) = curve)))
        (tool.eprint ("warning: --curve overridden by EC cert curve (" ++ Curve_to_string curve ++ ")" ++ nl));;
      at_kp ← tool.generate_keypair curve;
      match at_kp with
      | None => fail "error: AT keygen failed"
      | Some at_kp =>
          match handle.from (ec_key_id ++ "-at") with
          | None => fail "error: --canonical-key too long to derive an AT key handle"
          | Some at_handle =>
              tool.store_keypair client at_handle at_kp;;
              let rec := MkAtRecord (kp_public_key at_kp) aa_hid8 ea_hid8_val [36%Z] 24 curve in
              plain a ("Sending AT request to " ++ aa_url ++ "..." ++ nl);;
              '(result, _) ← tool.call (pki.request_authorization_ticket handle ec_ci at_handle rec) client;
              match result with
              | Err e => fail ("error: AT request failed: " ++ Error_to_string e)
              | Ok cert =>
                  let at_path := out_dir ++ "/at.cert" in
                  save at_path (sb.to_vector (cert_bytes cert));;
                  let at_hid8 := cio.compute_hid8 (sb.to_vector (cert_bytes cert)) in
                  tool.print (if a_json a then
                    "{" ++ quoted "status" ++ ":" ++ quoted "ok" ++ "," ++ quoted "at_cert" ++ ":"
                    ++ quoted at_path ++ "," ++ quoted "hid8" ++ ":" ++ quoted (cio.hid8_hex at_hid8)
                    ++ "}" ++ nl
                  else
                    "AT cert received -> " ++ at_path ++ nl ++ "  HID8: " ++ cio.hid8_hex at_hid8 ++ nl);;
                  mret 0%Z
              end
          end
      end
  end.

Definition cmd_request_at a : io Z :=
  if str_empty (a_pki_url a) || str_empty (a_keystore_dir a)
  then fail "error: --pki-url and --keystore-dir required" else
  let trust_dir := path_append (a_keystore_dir a) "trust" in
  let out_dir := or_default (a_out_dir a) (a_keystore_dir a) in
  let aa_url := or_default (a_aa_url a) (a_pki_url a ++ "/at-request") in
  aa_resp ← tool.http_get http_ (a_pki_url a ++ "/cert/aa");
  ea_resp ← tool.http_get http_ (a_pki_url a ++ "/cert/ea");
  match aa_resp with
  | Err e => fail ("error: failed to fetch AA cert: " ++ Error_to_string e)
  | Ok aa_resp =>
      if negb (status_code aa_resp =? 200)%Z
      then fail ("error: failed to fetch AA cert (HTTP " ++ pretty (status_code aa_resp) ++ ")") else
      tool.create_directories trust_dir;;
      save (trust_dir ++ "/aa.cert") (body aa_resp);;
      rca_resp ← tool.http_get http_ (a_pki_url a ++ "/trustanchor");
      if negb (status_ok rca_resp)
      then fail ("error: failed to fetch trust anchor (HTTP " ++ pretty (http_status_or_0 rca_resp) ++ ")") else
      save (trust_dir ++ "/rca.cert") (ok_body rca_resp);;
      tool.when (status_ok ea_resp) (save (trust_dir ++ "/ea.cert") (ok_body ea_resp));;
      fs ← tool.get_fs;
      let canonical_id := at_canonical_id a fs in
      if (64 <? String.length canonical_id)%nat then fail "error: canonical-id must be 1-64 bytes" else
      plain a ("Canonical ID: " ++ canonical_id ++ nl);;
      let ec_key_id := or_default (a_canonical_key a) "canonical" in
      let ec_cert_path := or_default (a_ec_cert a) (a_keystore_dir a ++ "/ec.cert") in
      fs ← tool.get_fs;
      let ec_cert_bytes := cio.read_file ec_cert_path fs in
      if empty ec_cert_bytes then fail ("error: cannot read EC cert from " ++ ec_cert_path) else
      client ← tool.new_client (authorize_config a trust_dir aa_url);
      match handle.from ec_key_id with
      | None => fail "error: --canonical-key must be 1-64 chars of [A-Za-z0-9_-]"
      | Some handle =>
          kp ← tool.load_keypair client handle;
          match kp with
          | None => fail ("error: cannot load EC key '" ++ ec_key_id ++ "'")
          | Some kp =>
              authorize_with a client handle kp ec_key_id ec_cert_path ec_cert_bytes (body aa_resp)
                ea_resp aa_url out_dir
          end
      end
  end.

(** *** main *)

Definition kCommands : list (string * (Args -> io Z) * string) :=
  [("healthz", cmd_healthz, "GET /healthz from PKI server");
   ("version", cmd_version, "GET /version from PKI server");
   ("info", cmd_info, "Show client binary info");
   ("discover", cmd_discover, "CCMS trust discovery (ECTL + CTL)");
   ("fetch-trust", cmd_fetch_trust, "Download trust material (RCA, TLM, MA certs)");
   ("lookup-cert", cmd_lookup_cert, "Lookup cert by HashedId8");
   ("fetch-ectl", cmd_fetch_ectl, "Download and verify ECTL");
   ("verify-hid8", cmd_verify_hid8, "Compute HashedId8 of a local cert file");
   ("enrol", cmd_enrol, "Request Enrolment Credential from EA");
   ("request-at", cmd_request_at, "Request Authorization Ticket from AA")].

Definition usage (prog : string) : io unit :=
  args.usage prog (map (fun '(name, _, help) => (name, help)) kCommands).

(** The loop over the table. *)
Fixpoint dispatch (cmds : list (string * (Args -> io Z) * string)) a (otherwise : io Z) : io Z :=
  match cmds with
  | [] => otherwise
  | (name, handler, _) :: cmds =>
      if (a_command a =? name)%string then handler a else dispatch cmds a otherwise
  end.

Definition main (argv : list string) : io Z :=
  let prog := List.nth 0 argv "" in
  if (length argv <? 2)%nat then usage prog;; mret 1%Z else
  let args := args.parse_args argv in
  dispatch kCommands args
    (tool.eprint ("error: unknown command '" ++ a_command args ++ "'" ++ nl);;
     usage prog;;
     mret 1%Z).

End cli.
End cli.
