(* ===== verification/KeyPem.v ===== *)
(** tools/pki-provisioner/key_pem.cpp: atomic file writes and the private key in PEM.

    What the program prints about a failure is part of the model; the text of
    [strerror(errno)] is a parameter. *)
From stdpp Require Import gmap.
From S2P Require Import Prelude Hex Sizes StaticBytes OpenSSL CryptoEc Http Disk KeyStore Tool.
Local Open Scope string_scope.

(** OSSL_ENCODER in SEC1 PEM, which PEM_read_PrivateKey reads back. *)
Class Sec1 {ossl : OpenSSL} := OSSL_ENCODER_to_bio : EVP_PKEY -> option bytes.
Class Sec1Ok {ossl : OpenSSL} {pem : Pem} {sec1 : Sec1} :=
  sec1_round_trip k b : OSSL_ENCODER_to_bio k = Some b -> PEM_read_PrivateKey b = Some k.

(** [strerror(errno)] after the [n]-th system call. *)
Class ErrorText := strerror : nat -> string.

Module kpem.
Section kpem.
Context {ossl : OpenSSL} {tr : Transport} {sec1 : Sec1} {errtext : ErrorText}.

Definition err (s : string) : io unit := tool.eprint ("[pki-provisioner] ERROR: " ++ s ++ nl).

(** The text for the last system call. *)
Definition errno_text : io string := fun w => (Ret (strerror (disk.calls (w_fs w))), w).

Definition atomic_write (path : string) (data : bytes) : io bool :=
  let tmp := path ++ ".tmp" in
  f ← tool.on_fs (disk.fopen_w tmp);
  match f with
  | None =>
      e ← errno_text;
      err ("cannot open " ++ tmp ++ ": " ++ e);;
      mret false
  | Some f =>
      '(n, f) ← tool.on_fs (disk.fwrite f data);
      if negb (n =? length data)%nat then
        err ("write failed " ++ tmp);;
        tool.on_fs (fun fs => (tt, disk.fclose f fs));;
        tool.on_fs (fun fs => (tt, disk.unlink tmp fs));;
        mret false
      else
        tool.on_fs (fun fs => (tt, disk.fclose f fs));;
        ok ← tool.on_fs (disk.rename tmp path);
        if negb ok then
          e ← errno_text;
          err ("rename " ++ tmp ++ " -> " ++ path ++ ": " ++ e);;
          tool.on_fs (fun fs => (tt, disk.unlink tmp fs));;
          mret false
        else mret true
  end.

(** The PEM bytes, or the message printed.  Only the two P-256 curves are told apart;
    any other one is taken for NIST P-256. *)
Definition key_pem (private_key : bytes) (curve : Curve) : bytes + string :=
  let brainpool := bool_decide (curve = BrainpoolP256r1) in
  let nid := if brainpool then NID_brainpoolP256r1 else NID_X9_62_prime256v1 in
  let group_name := if brainpool then "brainpoolP256r1" else "prime256v1" in
  match BN_bin2bn private_key with
  | None => inr "BN_bin2bn failed"
  | Some bn_priv =>
      let pub_buf :=
        match EC_GROUP_new_by_curve_name nid with
        | None => []
        | Some grp =>
            match EC_POINT_mul grp bn_priv with
            | None => []
            | Some pub => EC_POINT_point2oct grp pub
            end
        end in
      if empty pub_buf then inr "public point derivation failed" else
      match EVP_PKEY_fromdata_keypair group_name bn_priv pub_buf with
      | None => inr "EVP_PKEY_fromdata failed"
      | Some pkey =>
          match OSSL_ENCODER_to_bio pkey with
          | None => inr "OSSL_ENCODER_to_bio failed"
          | Some pem_bytes => inl pem_bytes
          end
      end
  end.

Definition atomic_write_key_pem (path : string) (private_key : bytes) (curve : Curve) : io bool :=
  match key_pem private_key curve with
  | inr msg => err msg;; mret false
  | inl pem_bytes => atomic_write path pem_bytes
  end.

Definition hex8 (a : bytes) : string := hex_stream true a.

(** ** Lemmas *)

(** What anyone may see of [path] while it is replaced: nothing but the old contents
    and, if the write succeeds, the new ones; other files, the temporary one aside,
    keep their contents. *)
Definition intact (path : string) (old : gmap string bytes) (new : option bytes)
    (m : gmap string bytes) : Prop :=
  (m !! path = old !! path \/ (is_Some new /\ m !! path = new)) /\
  forall q, q <> path -> q <> path ++ ".tmp" -> m !! q = old !! q.

Lemma tmp_ne path : path ++ ".tmp" <> path.
Proof. intros H. apply (f_equal String.length) in H. rewrite str_length_app in H. simpl in H. lia. Qed.

Lemma intact_refl path old new : intact path old new old.
Proof. split; auto. Qed.
Lemma intact_tmp path old new m b : intact path old new m -> intact path old new (<[path ++ ".tmp" := b]> m).
Proof.
  pose proof (tmp_ne path). intros [Hp Hq]. split; [by rewrite lookup_insert_ne|].
  intros q H1 H2. rewrite lookup_insert_ne by done. auto.
Qed.
Lemma intact_unlink path old new m : intact path old new m -> intact path old new (delete (path ++ ".tmp") m).
Proof.
  pose proof (tmp_ne path). intros [Hp Hq]. split; [by rewrite lookup_delete_ne|].
  intros q H1 H2. rewrite lookup_delete_ne by done. auto.
Qed.
Lemma intact_new path old new m b :
  intact path old new m -> new = Some b -> intact path old new (<[path := b]> m).
Proof.
  intros [_ Hq] ->. split; [right; by rewrite lookup_insert_eq|].
  intros q H1 H2. rewrite lookup_insert_ne by done. auto.
Qed.
#[local] Hint Resolve intact_refl intact_tmp intact_unlink intact_new : core.

(** The bytes that are on the medium after [data] went through a stream that took all
    of them, [fopen] being the next call. *)
Definition stored (path : string) (data : bytes) (fs : fsys) : bytes :=
  take (stored_count (env fs) (2 + disk.calls fs) (path ++ ".tmp") data) data.

Lemma stored_reliable path data fs : disk.reliable (env fs) -> stored path data fs = data.
Proof. intros [H _]. unfold stored. by rewrite take_ge by apply H. Qed.

(** Everything a write does: it returns, only the disk and standard error change, and
    [path] has the new contents exactly when it reports success. *)
Lemma atomic_write_cases path data w :
  exists b w' h,
    atomic_write path data w = (Ret b, w') /\ w' = tool.set_err (tool.set_fs w (w_fs w')) (w_err w') /\
    dirs (w_fs w') = dirs (w_fs w) /\ disk.since (w_fs w) (w_fs w') h /\
    Forall (intact path (files (w_fs w)) (if b then Some (stored path data (w_fs w)) else None)) h /\
    intact path (files (w_fs w)) (if b then Some (stored path data (w_fs w)) else None) (files (w_fs w')) /\
    files (w_fs w') !! path = (if b then Some (stored path data (w_fs w)) else files (w_fs w) !! path).
Proof.
  pose proof (tmp_ne path) as Hne.
  unfold atomic_write, mbind, io_bind, tool.on_fs, disk.fopen_w. destruct (can_open_w _ _ _).
  2:{ exists false. eexists _, [_]. split; [reflexivity|]. split_and!; try done; cbn; auto. }
  cbn [disk.fwrite disk.s_path disk.s_buf app]. set (n := Nat.min _ _).
  destruct (Nat.eqb_spec n (length data)) as [Hn|Hn].
  2:{ exists false. eexists _, [_; _; _; _]. split; [reflexivity|]. split_and!; try done; cbn;
      destruct (can_unlink _ _ _); repeat apply List.Forall_cons; simplify_map_eq; auto. }
  assert (Ht : take n data = data) by (apply take_ge; lia). rewrite Ht.
  unfold disk.rename. cbn. rewrite lookup_insert_eq. destruct (can_rename _ _ _ _).
  - exists true. eexists _, [_; _; _; _]. split; [reflexivity|]. cbn. unfold stored, disk.calls.
    split_and!; try done; [repeat apply List.Forall_cons; cbn; eauto 6|eauto 6|by rewrite lookup_insert_eq].
  - exists false. eexists _, [_; _; _; _; _]. split; [reflexivity|]. split_and!; try done; cbn;
      destruct (can_unlink _ _ _); repeat apply List.Forall_cons; simplify_map_eq; auto.
Qed.

(** The same as an inversion, with what later steps need. *)
Lemma atomic_write_inv path data w b w' :
  atomic_write path data w = (Ret b, w') ->
  tool.local w w' /\ env (w_fs w') = env (w_fs w) /\
  (forall q, q <> path -> q <> path ++ ".tmp" -> files (w_fs w') !! q = files (w_fs w) !! q) /\
  files (w_fs w') !! path = (if b then Some (stored path data (w_fs w)) else files (w_fs w) !! path).
Proof.
  intros H. destruct (atomic_write_cases path data w) as (b' & w1 & h & H' & Hw & _ & [_ He] & _ & [_ Hq] & Hp).
  rewrite H' in H. injection H as <- <-. split_and!; try done; by rewrite Hw.
Qed.

(** A ticket key: the PEM reads back as the generated pair. *)
Lemma key_pem_reads {pem : Pem} {ossl_ok : OpenSSLOk} {pem_ok : PemOk} {sec1_ok : Sec1Ok} c priv pub b :
  is_keypair c priv pub -> is_p256_size c = true -> key_pem priv c = inl b ->
  exists k d, PEM_read_PrivateKey b = Some k /\ BN_bin2bn priv = Some d /\
    EVP_PKEY_get_priv k = Some d /\ EVP_PKEY_get_pub k = Some pub.
Proof.
  intros [d Hd] Hc. destruct (point_encoding _ _ _ _ Hd) as (x & y & Hpub & Hx & Hy).
  unfold key_pem. unfold crypto.derive_public in Hd.
  replace (if bool_decide (c = BrainpoolP256r1) then NID_brainpoolP256r1 else NID_X9_62_prime256v1)
    with (curve_nid c) by (by destruct c). cbv zeta.
  destruct (negb _); [done|]. destruct (EC_GROUP_new_by_curve_name _) as [grp|]; [|done].
  destruct (BN_bin2bn priv) as [n|]; [|done]. destruct (EC_POINT_mul grp n) as [p|]; [|done].
  destruct (_ =? _)%nat; [|done]. injection Hd as <- <-. destruct (empty _); [done|].
  destruct (EVP_PKEY_fromdata_keypair _ _ _) as [k|] eqn:Hk; [|done].
  destruct (OSSL_ENCODER_to_bio k) as [b'|] eqn:He; [|done]. intros [= ->].
  exists k, n. apply sec1_round_trip in He. rewrite Hpub in Hk |- *.
  replace (if bool_decide (c = BrainpoolP256r1) then "brainpoolP256r1" else "prime256v1")
    with (curve_group_name c) in Hk by (by destruct c).
  apply fromdata_get in Hk as [Hp Hq]; [done|]. cbn [length]. rewrite length_app, Hx, Hy. by destruct c.
Qed.

Lemma atomic_write_key_pem_inv path priv c w b w' :
  atomic_write_key_pem path priv c w = (Ret b, w') ->
  match key_pem priv c with
  | inl data => atomic_write path data w = (Ret b, w')
  | inr msg => b = false /\ tool.local w w' /\ w_fs w' = w_fs w
  end.
Proof.
  unfold atomic_write_key_pem. destruct (key_pem priv c) as [data|msg]; [done|].
  intros H. io_step H u w1 He. injection H as <- <-. by injection He as _ <-.
Qed.

End kpem.
End kpem.
