(* ===== verification/WireDump.v ===== *)
(** tools/pki-provisioner/wire_dump.hpp and wire_dump.cpp: the record of one
    provisioning run for external tools. *)
From stdpp Require Import gmap pretty.
From S2P Require Import Prelude Hex OpenSSL CryptoEc Http Disk PkiClient Tool.
Local Open Scope string_scope.

Record Entry := MkEntry {
  e_step : string;
  e_direction : string;
  e_file : string;
  e_note : string;
  e_size : nat;
  e_sha256 : string;
  e_http_status : Z;
  e_content_type : string;
}.

Record WireDump := MkWireDump {
  dir_ : string;
  with_keys_ : bool;
  entries_ : list Entry;
  meta_ : list (string * string);
  blobs_ : list bytes;
}.

Module dump.

Implicit Types d : WireDump.

Definition create (dir : string) (with_keys : bool) : WireDump := MkWireDump dir with_keys [] [] [].

Definition enabled d : bool := negb (str_empty (dir_ d)).

Definition hex (b : bytes) : string := hex_stream false b.

(** A quote and a backslash get a backslash, a line feed becomes two characters. *)
Fixpoint json_escape_bytes (s : bytes) : bytes :=
  match s with
  | [] => []
  | c :: s =>
      if bool_decide (c = x22) || bool_decide (c = x5c) then x5c :: c :: json_escape_bytes s
      else if bool_decide (c = x0a) then x5c :: x6e :: json_escape_bytes s
      else c :: json_escape_bytes s
  end.
Definition json_escape (s : string) : string := string_of_bytes (json_escape_bytes (bytes_of_string s)).

(** Unlike [cli::write_file], nothing is written for an empty vector. *)
Definition write_file (path : string) (data : bytes) (fs : fsys) : bool * fsys :=
  match disk.fopen_w path fs with
  | (None, fs) => (false, fs)
  | (Some ofs, fs) =>
      if empty data then (true, disk.fclose ofs fs) else
      let '(n, ofs, fs) := disk.fwrite ofs data fs in
      ((n =? length data)%nat, disk.fclose ofs fs)
  end.

Section dump.
Context {ossl : OpenSSL} {tr : Transport}.

Definition record d (step direction : string) (data : bytes) (note : string) (http_status : Z)
    (content_type : string) : WireDump :=
  if negb (enabled d) then d else
  let e := MkEntry step direction (step ++ ".coer") note (length data) (hex (crypto.hash_sha256 data))
             http_status content_type in
  MkWireDump (dir_ d) (with_keys_ d) (entries_ d ++ [e])%list (meta_ d) (blobs_ d ++ [data])%list.

Definition record_key d (name : string) (key : bytes) (note : string) : WireDump :=
  if negb (enabled d) || negb (with_keys_ d) then d else record d name "key-material" key note 0 "".

Definition meta d (key value : string) : WireDump :=
  if negb (enabled d) then d else
  MkWireDump (dir_ d) (with_keys_ d) (entries_ d) (meta_ d ++ [(key, value)])%list (blobs_ d).

(** *** Dates: [gmtime] and [strftime("%Y-%m-%dT%H:%M:%SZ")] *)

(** The civil date of a day counted from 1970-01-01. *)
Definition civil_from_days (day : Z) : Z * Z * Z :=
  (let z := day + 719468 in
   let era := z / 146097 in
   let doe := z - era * 146097 in
   let yoe := (doe - doe / 1460 + doe / 36524 - doe / 146096) / 365 in
   let doy := doe - (365 * yoe + yoe / 4 - yoe / 100) in
   let mp := (5 * doy + 2) / 153 in
   let d := doy - (153 * mp + 2) / 5 + 1 in
   let m := if mp <? 10 then mp + 3 else mp - 9 in
   (yoe + era * 400 + (if m <=? 2 then 1 else 0), m, d))%Z.

Definition two (z : Z) : string := if (z <? 10)%Z then "0" ++ pretty z else pretty z.

Definition utc_stamp (t : Z) : string :=
  let '(y, m, d) := civil_from_days (t / 86400) in
  let s := (t mod 86400)%Z in
  pretty y ++ "-" ++ two m ++ "-" ++ two d ++ "T" ++ two (s / 3600) ++ ":" ++ two (s / 60 mod 60) ++ ":"
  ++ two (s mod 60) ++ "Z".

(** *** manifest.json *)

Definition entry_json (e : Entry) : string :=
  "    {" ++ quoted "step" ++ ": " ++ quoted (e_step e) ++ ", " ++ quoted "direction" ++ ": "
  ++ quoted (e_direction e) ++ ", " ++ quoted "file" ++ ": " ++ quoted (e_file e) ++ ", "
  ++ quoted "size" ++ ": " ++ pretty (e_size e) ++ ", " ++ quoted "sha256" ++ ": " ++ quoted (e_sha256 e)
  ++ (if negb (e_http_status e =? 0)%Z
      then ", " ++ quoted "http_status" ++ ": " ++ pretty (e_http_status e) else "")
  ++ (if negb (str_empty (e_content_type e))
      then ", " ++ quoted "content_type" ++ ": " ++ quoted (json_escape (e_content_type e)) else "")
  ++ (if negb (str_empty (e_note e))
      then ", " ++ quoted "note" ++ ": " ++ quoted (json_escape (e_note e)) else "")
  ++ "}".

Definition manifest (meta : list (string * string)) (entries : list Entry) : string :=
  "{" ++ nl
  ++ String.concat "" (map (fun '(k, v) =>
       "  " ++ quoted (json_escape k) ++ ": " ++ quoted (json_escape v) ++ "," ++ nl) meta)
  ++ "  " ++ quoted "artefacts" ++ ": [" ++ nl
  ++ separated ("," ++ nl) (map entry_json entries) ++ (if empty entries then "" else nl)
  ++ "  ]" ++ nl ++ "}" ++ nl.

(** The loop over the entries: [false] after a message when one cannot be written. *)
Fixpoint write_entries (dir : string) (l : list (Entry * bytes)) : io bool :=
  match l with
  | [] => mret true
  | (e, blob) :: l =>
      ok ← tool.on_fs (write_file (dir ++ "/" ++ e_file e) blob);
      if negb ok then
        tool.eprint ("[pki-provisioner] ERROR: cannot write " ++ e_file e ++ nl);;
        mret false
      else write_entries dir l
  end.

Definition key_warning : string :=
  "CONTAINS PRIVATE KEY MATERIAL. Disposable test station against a testbed; never reuse this station, never publish this directory.".

(** The end of [flush], once the artefacts are written: the manifest. *)
Definition finish d : io (bool * WireDump) :=
  m ← tool.on_fs (disk.fopen_w (dir_ d ++ "/manifest.json"));
  match m with
  | None => mret (false, d)
  | Some m =>
      let text := bytes_of_string (manifest (meta_ d) (entries_ d)) in
      '(n, m) ← tool.on_fs (disk.fwrite m text);
      if negb (n =? length text)%nat then
        tool.on_fs (fun fs => (tt, disk.fclose m fs));;
        mret (false, d)
      else
        tool.print ("[pki-provisioner] Wire dump: " ++ pretty (length (entries_ d)) ++ " artefacts -> "
                    ++ dir_ d ++ nl);;
        tool.on_fs (fun fs => (tt, disk.fclose m fs));;
        mret (true, MkWireDump "" (with_keys_ d) (entries_ d) (meta_ d) (blobs_ d))
  end.

Definition flush d : io (bool * WireDump) :=
  if negb (enabled d) then mret (true, d) else
  now ← tool.clock;
  let meta := (meta_ d ++ [("dumped_at_utc", utc_stamp (pki.unix_seconds (now 0%nat)))])%list in
  let meta := (meta ++ (if with_keys_ d then [("warning", key_warning)] else []))%list in
  let d := MkWireDump (dir_ d) (with_keys_ d) (entries_ d) meta (blobs_ d) in
  tool.on_fs (fun fs => (tt, disk.mkdir (dir_ d) fs));;
  ok ← write_entries (dir_ d) (zip (entries_ d) (blobs_ d));
  if negb ok then mret (false, d) else finish d.

(** ** Lemmas *)

(** *** What a dump holds *)

(** An entry tells the truth about its artefact. *)
Definition describes (e : Entry) (b : bytes) : Prop :=
  e_file e = e_step e ++ ".coer" /\ e_size e = length b /\ e_sha256 e = hex (crypto.hash_sha256 b).

(** The names the program records artefacts under. *)
Definition steps : list string :=
  ["ea_cert"; "aa_cert"; "rca_cert"; "ec_request"; "ec_request_aes_key"; "canonical_private_key";
   "ec_response"; "ec_cert"; "at_request"; "at_request_aes_key"; "at_private_key"; "at_response"; "at_cert"].

(** The invariant of a dump made with or without keys ([k]). *)
Definition ok (k : bool) d : Prop :=
  with_keys_ d = k /\ Forall2 describes (entries_ d) (blobs_ d) /\
  Forall (fun e => e_step e ∈ steps) (entries_ d) /\
  (k = false -> Forall (fun e => e_direction e <> "key-material") (entries_ d) /\
    "warning" ∉ (meta_ d).*1).

Lemma ok_create dir k : ok k (create dir k).
Proof. split_and!; try done; [constructor..|]. intros _. split; [constructor|apply not_elem_of_nil]. Qed.

(** Recording under a known name keeps the invariant; key material only with keys. *)
Lemma ok_record k d step direction data note st ct :
  ok k d -> step ∈ steps -> (k = false -> direction <> "key-material") ->
  ok k (record d step direction data note st ct).
Proof.
  unfold record. destruct (negb _); [done|]. intros (Hk & Hd & Hs & Hm) Hin Hdir. split_and!; simpl.
  - done.
  - apply Forall2_app; [done|]. by repeat constructor.
  - apply Forall_app. split; [done|]. by apply Forall_singleton.
  - intros Hf. destruct (Hm Hf) as [H1 H2]. split; [|done]. apply Forall_app. split; [done|].
    apply Forall_singleton. auto.
Qed.

Lemma ok_record_key k d name key note : ok k d -> name ∈ steps -> ok k (record_key d name key note).
Proof.
  intros H Hin. unfold record_key. destruct (negb (enabled d)); [done|]. simpl.
  destruct (with_keys_ d) eqn:Hk; simpl; [|done]. apply ok_record; [done|done|].
  intros ->. destruct H as [H _]. congruence.
Qed.

Lemma ok_meta k d key v : ok k d -> key <> "warning" -> ok k (meta d key v).
Proof.
  unfold meta. destruct (negb _); [done|]. intros (Hk & Hd & Hs & Hm) Hne. split_and!; try done.
  intros Hf. destruct (Hm Hf) as [H1 H2]. split; [done|]. cbn [meta_]. rewrite fmap_app, elem_of_app.
  intros [?|Hw]; [done|]. apply list_elem_of_singleton in Hw. by symmetry in Hw.
Qed.

(** *** What is written *)

(** The disk after a part of the dump was written to the paths in [ps]. *)
Definition writes (ps : list string) (fs fs' : fsys) : Prop :=
  env fs' = env fs /\ forall q, q ∉ ps -> files fs' !! q = files fs !! q.

Lemma writes_trans ps fs1 fs2 fs3 : writes ps fs1 fs2 -> writes ps fs2 fs3 -> writes ps fs1 fs3.
Proof. intros [E1 H1] [E2 H2]. split; [congruence|]. intros q Hq. by rewrite H2, H1. Qed.
Lemma writes_mono ps ps' fs fs' : writes ps fs fs' -> ps ⊆ ps' -> writes ps' fs fs'.
Proof. intros [E H] Hs. split; [done|]. intros q Hq. apply H. auto. Qed.

Lemma head_sub (p : string) ps : [p] ⊆ p :: ps.
Proof. intros q ->%list_elem_of_singleton. left. Qed.
Lemma tail_sub (p : string) ps : ps ⊆ p :: ps.
Proof. intros q Hq. by right. Qed.

(** Opening, writing and closing. *)
Lemma fopen_inv p fs o fs' :
  disk.fopen_w p fs = (o, fs') -> writes [p] fs fs' /\ (o = None \/ o = Some (disk.MkStream p [])).
Proof.
  unfold disk.fopen_w. destruct (can_open_w _ _ _); intros [= <- <-]; [|by split; [|left]].
  split; [|by right]. split; [done|]. intros q [Hq _]%not_elem_of_cons. simpl.
  by rewrite lookup_insert_ne by congruence.
Qed.
Lemma fclose_writes s fs : writes [disk.s_path s] fs (disk.fclose s fs).
Proof.
  split; [done|]. intros q [Hq _]%not_elem_of_cons. simpl.
  by rewrite lookup_insert_ne by congruence.
Qed.
Lemma fwrite_writes p b fs n s fs' :
  disk.fwrite (disk.MkStream p []) b fs = (n, s, fs') -> disk.s_path s = p /\ writes [] fs fs'.
Proof. by intros [= <- <- <-]. Qed.

Lemma write_file_inv p b fs r fs' :
  write_file p b fs = (r, fs') ->
  writes [p] fs fs' /\ (r = true -> disk.reliable (env fs) -> files fs' !! p = Some b).
Proof.
  unfold write_file. destruct (disk.fopen_w p fs) as [o fs1] eqn:Ho. apply fopen_inv in Ho as [Hw Ho].
  destruct Ho as [-> | ->]; [by intros [= <- <-]|]. destruct (empty b) eqn:Hb.
  { intros [= <- <-]. split; [eapply writes_trans; [exact Hw|apply fclose_writes]|].
    intros _ _. simpl. rewrite take_nil, lookup_insert_eq. by destruct b. }
  destruct (disk.fwrite _ b fs1) as [[n s] fs2] eqn:Hf. intros [= <- <-].
  pose proof (fwrite_writes _ _ _ _ _ _ Hf) as [<- Hw2]. split.
  - eapply writes_trans; [exact Hw|]. eapply writes_trans; [|apply fclose_writes].
    eapply writes_mono; [exact Hw2|]. intros q []%not_elem_of_nil.
  - intros Hn%Nat.eqb_eq Hr. eapply disk.fwrite_fclose; [|exact Hf|done]. by rewrite (proj1 Hw).
Qed.

Lemma write_entries_inv dir l w r w' :
  write_entries dir l w = (Ret r, w') ->
  let paths := map (fun eb => dir ++ "/" ++ e_file eb.1) l in
  w' = tool.set_err (tool.set_fs w (w_fs w')) (w_err w') /\ writes paths (w_fs w) (w_fs w') /\
  (r = true -> disk.reliable (env (w_fs w)) -> NoDup paths ->
   Forall (fun eb => files (w_fs w') !! (dir ++ "/" ++ e_file eb.1) = Some eb.2) l).
Proof.
  revert w. induction l as [|[e b] l IH]; intros w; cbn [write_entries map fst].
  { intros [= <- <-]. split_and!; [by destruct w|done|constructor]. }
  intros H. io_step H ok1 w1 Hw. apply tool.on_fs_inv in Hw as (fs & Hw & ->).
  apply write_file_inv in Hw as [Hf Hv]. destruct ok1; simpl in H.
  - apply IH in H as (Hw' & Hws & Hall). cbn [w_fs tool.set_fs] in *. split_and!.
    + rewrite Hw' at 1. done.
    + eapply writes_trans; eapply writes_mono; [exact Hf|apply head_sub|exact Hws|apply tail_sub].
    + intros Hr Hrel [Hni Hnd]%list.NoDup_cons. constructor.
      * simpl. destruct Hws as [_ Hws]. rewrite Hws by done. by apply Hv.
      * apply Hall; [done| |done]. by rewrite (proj1 Hf).
  - io_run H. injection H as <- <-. split_and!; [done| |done]. eapply writes_mono; [exact Hf|apply head_sub].
Qed.

(** The paths a dump writes to. *)
Definition paths d : list string :=
  map (fun e => dir_ d ++ "/" ++ e_file e) (entries_ d) ++ [dir_ d ++ "/manifest.json"].

Lemma zip_paths dir (es : list Entry) (bs : list bytes) :
  length es = length bs ->
  map (fun eb => dir ++ "/" ++ e_file eb.1) (zip es bs) = map (fun e => dir ++ "/" ++ e_file e) es.
Proof. revert bs. induction es; intros [|b bs]; simpl; intros H; try done. by rewrite IHes by lia. Qed.

(** The dump after [finish] or [flush]: ended or not. *)
Definition ended (r : bool) d : WireDump :=
  MkWireDump (if r then "" else dir_ d) (with_keys_ d) (entries_ d) (meta_ d) (blobs_ d).

Lemma dump_finish_inv d w r d' w' :
  finish d w = (Ret (r, d'), w') ->
  let mp := dir_ d ++ "/manifest.json" in
  d' = ended r d /\ writes [mp] (w_fs w) (w_fs w') /\ w_net w' = w_net w /\ w_rng w' = w_rng w /\
  (r = true -> disk.reliable (env (w_fs w)) ->
   files (w_fs w') !! mp = Some (bytes_of_string (manifest (meta_ d) (entries_ d)))).
Proof.
  intros H. unfold finish in H. io_step H m w1 Hm. apply tool.on_fs_inv in Hm as (fs1 & Hm & ->).
  apply fopen_inv in Hm as [Hw1 Hm]. destruct Hm as [-> | ->].
  { injection H as <- <- <-. by destruct d. }
  set (text := bytes_of_string _) in *. cbv zeta in H. io_step H nm w2 Hm. destruct nm as [n s].
  apply tool.on_fs_inv in Hm as (fs2 & Hm & ->). cbn [w_fs tool.set_fs] in Hm.
  pose proof (fwrite_writes _ _ _ _ _ _ Hm) as [Hs Hw2].
  assert (Hput : writes [dir_ d ++ "/manifest.json"] (w_fs w) (disk.fclose s fs2)).
  { rewrite <- Hs in Hw1 |- *. eapply writes_trans; [exact Hw1|].
    eapply writes_trans; [|apply fclose_writes]. eapply writes_mono; [exact Hw2|].
    intros q []%not_elem_of_nil. }
  destruct (negb _) eqn:Hn in H.
  - io_run H. injection H as <- <- <-. by destruct d.
  - io_run H. io_run H. injection H as <- <- <-. split_and!; try done. intros _ Hrel.
    apply negb_false_iff, Nat.eqb_eq in Hn. eapply disk.fwrite_fclose; [|exact Hm|done].
    by rewrite (proj1 Hw1).
Qed.

(** What [flush] adds to the description of the run. *)
Definition stamped d (stamp : string) : WireDump :=
  MkWireDump (dir_ d) (with_keys_ d) (entries_ d)
    (meta_ d ++ ("dumped_at_utc", stamp) :: (if with_keys_ d then [("warning", key_warning)] else []))
    (blobs_ d).

Lemma flush_inv d w r d' w' :
  flush d w = (Ret (r, d'), w') -> enabled d = true -> length (entries_ d) = length (blobs_ d) ->
  writes (paths d) (w_fs w) (w_fs w') /\ w_net w' = w_net w /\ w_rng w' = w_rng w /\
  exists stamp, d' = ended r (stamped d stamp) /\
  (r = true -> disk.reliable (env (w_fs w)) -> NoDup (paths d) ->
   Forall (fun eb => files (w_fs w') !! (dir_ d ++ "/" ++ e_file eb.1) = Some eb.2)
     (zip (entries_ d) (blobs_ d)) /\
   files (w_fs w') !! (dir_ d ++ "/manifest.json")
   = Some (bytes_of_string (manifest (meta_ d') (entries_ d)))).
Proof.
  intros H He Hlen. unfold flush in H. rewrite He in H. cbn [negb] in H. io_run H. cbv zeta in H.
  rewrite <- List.app_assoc in H. set (d1 := MkWireDump _ _ _ _ _) in H.
  assert (Hd1 : exists stamp, d1 = stamped d stamp) by (by eexists). destruct Hd1 as [stamp Hd1].
  clearbody d1. subst d1. cbn [dir_ entries_ blobs_ stamped] in H.
  io_run H. io_step H r1 w2 Hwe. apply write_entries_inv in Hwe as (Hw2 & Hws & Hall).
  rewrite zip_paths in Hws, Hall by done. cbn [w_fs tool.set_fs tool.tick] in Hw2, Hws, Hall.
  assert (Hws1 : writes (paths d) (w_fs w) (w_fs w2)).
  { eapply writes_mono; [exact Hws|]. intros q Hq. apply elem_of_app. by left. }
  assert (Hnr : w_net w2 = w_net w /\ w_rng w2 = w_rng w) by (by rewrite Hw2).
  destruct Hnr as [Hnet Hrng]. clear Hw2. destruct r1; cbn [negb] in H.
  2:{ injection H as <- <- <-. split_and!; try done. by exists stamp. }
  apply dump_finish_inv in H as (-> & Hw3 & Hn3 & Hr3 & Hf). cbn [dir_ stamped] in Hw3, Hf.
  split_and!; [|congruence|congruence|].
  { eapply writes_trans; [exact Hws1|]. eapply writes_mono; [exact Hw3|].
    intros q ->%list_elem_of_singleton. apply elem_of_app. right. by left. }
  exists stamp. split; [done|]. intros Hr Hrel Hnd. apply list.NoDup_app in Hnd as (Hnd & Hdisj & _).
  split; [|apply Hf; [done|by rewrite (proj1 Hws1)]].
  apply list.Forall_forall. intros [e b] Hin. destruct Hw3 as [_ Hw3]. rewrite Hw3.
  - specialize (Hall eq_refl Hrel Hnd). rewrite list.Forall_forall in Hall. by apply (Hall (e, b)).
  - apply Hdisj. apply elem_of_zip_l in Hin. exact (list_elem_of_fmap_2 (fun e => dir_ d ++ "/" ++ e_file e) _ e Hin).
Qed.

Lemma quiet_write_entries dir l : tool.quiet (write_entries dir l).
Proof.
  induction l as [|[e b] l IH]; cbn [write_entries]; [auto with io|].
  apply tool.quiet_bind; [auto with io|]. intros []; [done|]. apply tool.quiet_bind; auto with io.
Qed.
Lemma quiet_flush d : tool.quiet (flush d).
Proof.
  unfold flush, finish. destruct (negb _); [auto with io|]. cbv zeta.
  repeat first
    [ apply tool.quiet_bind; [auto using quiet_write_entries with io|intros ?]
    | match goal with |- tool.quiet (match ?x with _ => _ end) => destruct x end ]; auto with io.
Qed.

Lemma ok_flush k d w r d' w' : flush d w = (Ret (r, d'), w') -> ok k d -> ok k d'.
Proof.
  intros H Hok. destruct (enabled d) eqn:He.
  - pose proof Hok as (Hk & Hd & Hs & Hm).
    apply flush_inv in H as (_ & _ & _ & stamp & -> & _); [|done|by eapply Forall2_length].
    split_and!; try done. intros Hf. destruct (Hm Hf) as [H1 H2]. split; [done|].
    cbn [meta_ ended stamped]. rewrite Hk, Hf, fmap_app, elem_of_app.
    intros [?|Hw]; [done|]. by apply list_elem_of_singleton in Hw.
  - unfold flush in H. rewrite He in H. by injection H as _ <- _.
Qed.

End dump.

Example stamp_epoch : utc_stamp 0 = "1970-01-01T00:00:00Z".
Proof. vm_compute. reflexivity. Qed.
Example stamp_leap : utc_stamp 1709210096 = "2024-02-29T12:34:56Z".
Proof. vm_compute. reflexivity. Qed.
Example stamp_before : utc_stamp (-1) = "1969-12-31T23:59:59Z".
Proof. vm_compute. reflexivity. Qed.

End dump.
