(* ===== verification/Flow.v ===== *)
(** tools/pki-provisioner/flow.hpp and flow.cpp: trust discovery, enrolment and the
    rotation of authorization tickets.

    The dump, which the program passes by reference, is an argument and a result. *)
From stdpp Require Import gmap sorting pretty.
From S2P Require Import Prelude StdMap Result Sizes StaticBytes Asn OpenSSL CryptoEc CertParse Double.
From S2P Require Import TrustChain TrustList EcRequest AtRequest Http Disk KeyStore PkiClient Tool.
From S2P Require Import KeyPem WireDump.
Local Open Scope string_scope.

Record TrustAnchors := MkTrustAnchors {
  ta_ea : CertInfo;
  ta_aa : CertInfo;
  ta_rca : CertInfo;
  ta_ec_url : string;
  ta_at_url : string;
}.

Record EnrolledEc := MkEnrolledEc {
  ec_cert : CertInfo;
  canonical_kp : KeyPair;
}.

(** [s.c_str()] where a C string is expected: what precedes the first NUL. *)
Fixpoint cstr_bytes (b : bytes) : bytes :=
  match b with
  | [] => []
  | c :: b => if bool_decide (c = x00) then [] else c :: cstr_bytes b
  end.
Definition cstr (s : string) : string := string_of_bytes (cstr_bytes (bytes_of_string s)).

Module flow.
Section flow.
Context {ossl : OpenSSL} {tr : Transport} {pem : Pem} {sec1 : Sec1} {errtext : ErrorText}.
Context {cb : Codec CertificateBase} {tb : Codec ToBeSignedCertificate} {junk : Uninit}.
Context {dc : Codec Ieee1609Dot2Data} {tc : Codec ToBeSignedData}.
Context {ec : Codec EtsiTs102941Data} {xc : Codec EtsiTs103097Certificate}.
Context {eq_ : Codec InnerEcRequest} {er : Codec InnerEcResponse}.
Context {pc : Codec PublicVerificationKey} {sc : Codec SharedAtRequest}.
Context {aq : Codec InnerAtRequest} {ar : Codec InnerAtResponse} {hjunk : UninitHmac}.

Implicit Types ta : TrustAnchors.
Implicit Types d : WireDump.

Definition say (s : string) : io unit := tool.print ("[pki-provisioner] " ++ s ++ nl).
Definition fatal (s : string) : io unit := tool.eprint ("[pki-provisioner] FATAL: " ++ s ++ nl).

(** Always SHA-256; [None] when the digest failed, where the code reads before the
    start of an empty vector. *)
Definition hid8_of (b : bytes) : option hid8 :=
  let hash := crypto.hash_sha256 b in
  if (length hash <? kHashedId8Len)%nat then None else Some (lastn kHashedId8Len hash).

(** Bytes below 9, and between 14 and 31, are not text. *)
Definition is_text (b : byte) : bool :=
  let z := byte.unsigned b in negb ((z <? 9)%Z || ((13 <? z)%Z && (z <? 32)%Z)).

Definition log_text_body (body : bytes) : io unit :=
  if empty body || negb (forallb is_text body) then mret tt
  else tool.eprint ("[pki-provisioner] Body: " ++ string_of_bytes body ++ nl).

(** *** Discovery *)

Definition discover_config (base_url tlm_hid8 work_dir : string) : PkiClientConfig :=
  MkPkiClientConfig "" "" base_url "" "" "" work_dir tlm_hid8 30 true false.

Definition ok_fail (b : bool) : string := if b then "ok" else "FAIL".

Definition anchors_of (base_url : string) (ea : EaInfo) (aa : AaInfo) (rca : CertInfo) : TrustAnchors :=
  MkTrustAnchors (ea_cert ea) (aa_cert aa) rca
    (if str_empty (its_access_point ea) then base_url ++ "/ec-request" else its_access_point ea)
    (if str_empty (access_point aa) then base_url ++ "/at-request" else access_point aa).

Definition discover (base_url tlm_hid8 work_dir : string) : io (option TrustAnchors) :=
  client ← tool.new_client (discover_config base_url tlm_hid8 work_dir);
  '(topo, _) ← tool.call pki.discover_trust client;
  match topo with
  | Err e => fatal ("trust discovery failed: " ++ Error_to_string e);; mret None
  | Ok topo =>
      if negb (ectl_signature_verified topo) || negb (ctl_signature_verified topo) then
        fatal ("trust signatures unverified (ECTL " ++ ok_fail (ectl_signature_verified topo) ++ ", CTL "
               ++ ok_fail (ctl_signature_verified topo) ++ ")");;
        mret None
      else
        match eas topo, aas topo, rcas topo with
        | ea :: _, aa :: _, rca :: _ =>
            let ta := anchors_of base_url ea aa rca in
            if sb.is_empty (encryption_key (ta_ea ta)) || sb.is_empty (encryption_key (ta_aa ta)) then
              fatal "EA/AA cert has no encryption key";;
              mret None
            else
              say "Trust discovered (ECTL + CTL verified)";;
              say ("EA HID8: " ++ kpem.hex8 (hashed_id_8 (ta_ea ta)) ++ "  -> " ++ cstr (ta_ec_url ta));;
              say ("AA HID8: " ++ kpem.hex8 (hashed_id_8 (ta_aa ta)) ++ "  -> " ++ cstr (ta_at_url ta));;
              say ("RCA HID8: " ++ kpem.hex8 (hashed_id_8 (ta_rca ta)));;
              mret (Some ta)
        | _, _, _ =>
            fatal ("incomplete topology (EA " ++ pretty (length (eas topo)) ++ ", AA "
                   ++ pretty (length (aas topo)) ++ ", RCA " ++ pretty (length (rcas topo)) ++ ")");;
            mret None
        end
  end.

Definition wire (ci : CertInfo) : bytes := sb.to_vector (cert_bytes ci).

Definition write_anchors ta (output_dir : string) d : io (bool * WireDump) :=
  ok ← kpem.atomic_write (output_dir ++ "/AA.coer") (wire (ta_aa ta));
  if negb ok then fatal "cannot write AA.coer";; mret (false, d) else
  say ("Wrote AA.coer (" ++ pretty (sb.size (cert_bytes (ta_aa ta))) ++ "B)");;
  ok ← kpem.atomic_write (output_dir ++ "/RCA.coer") (wire (ta_rca ta));
  if negb ok then fatal "cannot write RCA.coer";; mret (false, d) else
  let d := dump.record d "ea_cert" "static" (wire (ta_ea ta)) "" 0 "" in
  let d := dump.record d "aa_cert" "static" (wire (ta_aa ta)) "" 0 "" in
  let d := dump.record d "rca_cert" "static" (wire (ta_rca ta)) "" 0 "" in
  let d := dump.meta d "ea_hashed_id_8" (kpem.hex8 (hashed_id_8 (ta_ea ta))) in
  let d := dump.meta d "aa_hashed_id_8" (kpem.hex8 (hashed_id_8 (ta_aa ta))) in
  let d := dump.meta d "rca_hashed_id_8" (kpem.hex8 (hashed_id_8 (ta_rca ta))) in
  say ("Wrote RCA.coer (" ++ pretty (sb.size (cert_bytes (ta_rca ta))) ++ "B)");;
  mret (true, d).

(** [for (const auto& [k, v] : r.headers)], in the order of the keys. *)
Definition header_of (r : HttpResponse) (name : string) : string :=
  let sorted := merge_sort key_le (map (fun '(k, v) => (bytes_of_string k, v)) (map_to_list (headers r))) in
  match list_find (fun kv => map dbl.tolower kv.1 = bytes_of_string name) sorted with
  | Some (_, (_, v)) => v
  | None => ""
  end.

(** *** Enrolment *)

Definition enrol_record ta (kp : KeyPair) (validity_days : Z) (curve : Curve) : EcRecord :=
  MkEcRecord (kp_public_key kp) (hashed_id_8 (ta_ea ta)) [kPsidScr] validity_days curve "v2xpki-its-s".

Definition x_its_request : string := "application/x-its-request".
Definition opaque_note : string :=
  "outer-encrypted; the inner PDU needs the per-request AES key, not dumped".

(** What follows a response with status 200. *)
Definition accept_ec ta (kp : KeyPair) (req : EcRequestResult) (resp : HttpResponse) d
    : io (option EnrolledEc * WireDump) :=
  let priv := sb.to_vector (kp_private_key kp) in
  let aes := sb.to_vector (ec_request_aes_key req) in
  let d := dump.record_key d "ec_request_aes_key" aes
             "AES-128 key of the EC request; the response reuses it as PSK" in
  let d := dump.record_key d "canonical_private_key" priv
             "station canonical private key (SEC1 scalar)" in
  let d := dump.record d "ec_response" "received" (body resp) opaque_note (status_code resp)
             (header_of resp "content-type") in
  match ec.decode_ec_response (body resp) priv aes (sb.to_vector (ec_encoded req)) (ta_ea ta) with
  | Err e => fatal ("EC response decode failed: " ++ Error_to_string e);; mret (None, d)
  | Ok r =>
      match bool_decide (ec_response_code r = EC_Ok), ec_certificate r with
      | true, Some cert =>
          let d := dump.record d "ec_cert" "received" (wire cert) "issued EC, extracted from ec_response" 0 "" in
          let d := dump.meta d "ec_hashed_id_8" (kpem.hex8 (hashed_id_8 cert)) in
          let d := dump.meta d "curve" (Curve_to_string (curve cert)) in
          say ("EC enrolled OK! cert: " ++ pretty (sb.size (cert_bytes cert)) ++ "B  HID8: "
               ++ kpem.hex8 (hashed_id_8 cert));;
          mret (Some (MkEnrolledEc cert kp), d)
      | _, _ =>
          fatal ("EC response rejected (code="
                 ++ pretty (EnrolmentResponseCode_to_int (ec_response_code r)) ++ ")");;
          mret (None, d)
      end
  end.

Definition enrol_ec (http : HttpClientConfig) ta (validity_days : Z) d (curve : Curve)
    : io (option EnrolledEc * WireDump) :=
  kp ← tool.generate_keypair curve;
  match kp with
  | None => fatal "EC keygen failed";; mret (None, d)
  | Some kp =>
      let rec := enrol_record ta kp validity_days curve in
      now ← tool.clock;
      let desc := ec.assemble_ec_request rec (now 0%nat) in
      req ← tool.on_rng (ec.encode_ec_request desc (ta_ea ta) (sb.to_vector (kp_private_key kp))
                           (now 1%nat) (now 2%nat));
      match req with
      | Err e => fatal ("encode_ec_request: " ++ Error_to_string e);; mret (None, d)
      | Ok req =>
          say ("EC request: " ++ pretty (sb.size (ec_encoded req)) ++ "B");;
          let d := dump.record d "ec_request" "sent" (sb.to_vector (ec_encoded req))
                     "exact bytes POSTed; requestHash = leftmost 16 octets of this sha256" 0 x_its_request in
          resp ← tool.http_post http (ta_ec_url ta) (sb.to_vector (ec_encoded req));
          match resp with
          | Err e => fatal ("POST EC: " ++ Error_to_string e);; mret (None, d)
          | Ok resp =>
              say ("EC HTTP status: " ++ pretty (status_code resp));;
              if negb (status_code resp =? 200)%Z then
                fatal ("EC enrollment failed (HTTP " ++ pretty (status_code resp) ++ ")");;
                log_text_body (body resp);;
                mret (None, d)
              else accept_ec ta kp req resp d
          end
      end
  end.

(** *** Rotation *)

Definition at_record ta (ec : EnrolledEc) (at_kp : KeyPair) (psids : list Z) (validity_hours : Z)
    : AtRecord :=
  MkAtRecord (kp_public_key at_kp) (hashed_id_8 (ta_aa ta)) (hashed_id_8 (ta_ea ta)) psids validity_hours
    (curve (ec_cert ec)).

(** The two files of a rotation. *)
Definition write_ticket (output_dir : string) (cert : CertInfo) (at_kp : KeyPair) (curve : Curve)
    : io bool :=
  ok ← kpem.atomic_write (output_dir ++ "/AT.coer") (wire cert);
  if negb ok then kpem.err "cannot write AT.coer";; mret false else
  ok ← kpem.atomic_write_key_pem (output_dir ++ "/AT.key") (sb.to_vector (kp_private_key at_kp)) curve;
  if negb ok then kpem.err "cannot write AT.key";; mret false else mret true.

Definition accept_at ta (ec : EnrolledEc) (at_kp : KeyPair) (req : AtRequestResult) (resp : HttpResponse)
    (output_dir : string) d : io (option hid8 * WireDump) :=
  let priv := sb.to_vector (kp_private_key at_kp) in
  let aes := sb.to_vector (at_request_aes_key req) in
  let d := dump.record_key d "at_request_aes_key" aes
             "AES-128 key of the AT request; the response reuses it as PSK" in
  let d := dump.record_key d "at_private_key" priv "AT private key (SEC1 scalar)" in
  let d := dump.record d "at_response" "received" (body resp) opaque_note (status_code resp)
             (header_of resp "content-type") in
  match at_.decode_at_response (body resp) priv aes (sb.to_vector (at_encoded req)) (ta_aa ta) with
  | Err e => kpem.err ("decode_at_response: " ++ Error_to_string e);; mret (None, d)
  | Ok r =>
      if negb (bool_decide (at_response_code r = AT_Ok)) then
        kpem.err ("AT rejected (code=" ++ pretty (AuthorizationResponseCode_to_int (at_response_code r)) ++ ")");;
        mret (None, d)
      else
        match at_certificate r with
        | None => kpem.err "AT response has no certificate";; mret (None, d)
        | Some cert =>
            let d := dump.record d "at_cert" "received" (wire cert) "issued AT, extracted from at_response" 0 "" in
            match hid8_of (wire cert) with
            | None => tool.undefined
            | Some hid8 =>
                let d := dump.meta d "at_hashed_id_8" (kpem.hex8 hid8) in
                ok ← write_ticket output_dir cert at_kp (curve (ec_cert ec));
                if negb ok then mret (None, d) else
                say ("AT cert: " ++ pretty (sb.size (cert_bytes cert)) ++ "B  HID8: " ++ kpem.hex8 hid8);;
                say ("Wrote AT.coer (" ++ pretty (sb.size (cert_bytes cert)) ++ "B) + AT.key (PEM SEC1)");;
                mret (Some hid8, d)
            end
        end
  end.

Definition rotate_at (http : HttpClientConfig) ta (ec : EnrolledEc) (psids : list Z) (validity_hours : Z)
    (output_dir : string) d : io (option hid8 * WireDump) :=
  at_kp ← tool.generate_keypair (curve (ec_cert ec));
  match at_kp with
  | None => kpem.err "AT keygen failed";; mret (None, d)
  | Some at_kp =>
      let rec := at_record ta ec at_kp psids validity_hours in
      now ← tool.clock;
      desc ← tool.on_rng (at_.assemble_at_request rec (now 0%nat));
      req ← tool.on_rng (at_.encode_at_request desc (ta_aa ta) (ta_ea ta) (ec_cert ec)
                           (sb.to_vector (kp_private_key (canonical_kp ec)))
                           (sb.to_vector (kp_private_key at_kp)) (now 1%nat) (now 2%nat));
      match req with
      | Err e => kpem.err ("encode_at_request: " ++ Error_to_string e);; mret (None, d)
      | Ok req =>
          say ("AT request: " ++ pretty (sb.size (at_encoded req)) ++ "B");;
          let d := dump.record d "at_request" "sent" (sb.to_vector (at_encoded req))
            "exact bytes POSTed; carries the PoP and keyTag; requestHash = leftmost 16 of this sha256"
            0 x_its_request in
          resp ← tool.http_post http (ta_at_url ta) (sb.to_vector (at_encoded req));
          match resp with
          | Err e => kpem.err ("POST AT: " ++ Error_to_string e);; mret (None, d)
          | Ok resp =>
              say ("AT HTTP status: " ++ pretty (status_code resp) ++ "  body: "
                   ++ pretty (length (body resp)) ++ "B");;
              if negb (status_code resp =? 200)%Z || empty (body resp) then
                kpem.err ("AT request failed (HTTP " ++ pretty (status_code resp) ++ ")");;
                mret (None, d)
              else accept_at ta ec at_kp req resp output_dir d
          end
      end
  end.

(** ** Lemmas *)

(** *** The dump *)

Ltac member := apply (bool_decide_eq_true_1 _); reflexivity.
(** A dump after some records. *)
Ltac dumped :=
  repeat first
    [ apply dump.ok_meta; [|discriminate]
    | apply dump.ok_record; [|member|intros _; discriminate]
    | apply dump.ok_record_key; [|member] ];
  assumption.

(** Every step of a program that ends in a dump. *)
Ltac yield :=
  cbv zeta; repeat first
    [ apply tool.yields_bind; intros ?
    | apply tool.yields_ret; cbn [snd]; dumped
    | apply tool.yields_undefined
    | match goal with
      | |- tool.yields _ (match ?x with _ => _ end) => destruct x
      end ].

Lemma ok_write_anchors k ta out d :
  dump.ok k d -> tool.yields (fun r => dump.ok k r.2) (write_anchors ta out d).
Proof. intros Hd. unfold write_anchors. yield. Qed.
Lemma ok_accept_ec k ta kp req resp d :
  dump.ok k d -> tool.yields (fun r => dump.ok k r.2) (accept_ec ta kp req resp d).
Proof. intros Hd. unfold accept_ec. yield. Qed.
Lemma ok_enrol_ec k h ta days d c :
  dump.ok k d -> tool.yields (fun r => dump.ok k r.2) (enrol_ec h ta days d c).
Proof. intros Hd. unfold enrol_ec. yield. all: apply ok_accept_ec; dumped. Qed.
Lemma ok_accept_at k ta en kp req resp out d :
  dump.ok k d -> tool.yields (fun r => dump.ok k r.2) (accept_at ta en kp req resp out d).
Proof. intros Hd. unfold accept_at. yield. Qed.
Lemma ok_rotate_at k h ta en psids hours out d :
  dump.ok k d -> tool.yields (fun r => dump.ok k r.2) (rotate_at h ta en psids hours out d).
Proof. intros Hd. unfold rotate_at. yield. all: apply ok_accept_at; dumped. Qed.

(** *** No way out but a result or an exception *)

(** Digests are computed, as OpenSSL documents for its own algorithms. *)
Definition digests : Prop := forall b, kHashedId8Len <= length (crypto.hash_sha256 b).

Ltac quiet :=
  cbv zeta; repeat first
    [ progress eauto 2 with io
    | apply tool.quiet_bind; [|intros ?]
    | match goal with
      | |- tool.quiet (match ?x with _ => _ end) => destruct x
      end ].

Lemma quiet_say s : tool.quiet (say s).
Proof. apply tool.quiet_print. Qed.
Lemma quiet_fatal s : tool.quiet (fatal s).
Proof. apply tool.quiet_eprint. Qed.
Lemma quiet_err s : tool.quiet (kpem.err s).
Proof. apply tool.quiet_eprint. Qed.
Lemma quiet_errno : tool.quiet kpem.errno_text.
Proof. by intros w. Qed.
#[local] Hint Resolve quiet_say quiet_fatal quiet_err quiet_errno : io.

Lemma quiet_atomic_write p b : tool.quiet (kpem.atomic_write p b).
Proof. unfold kpem.atomic_write. quiet. Qed.
#[local] Hint Resolve quiet_atomic_write : io.
Lemma quiet_write_ticket out cert kp c : tool.quiet (write_ticket out cert kp c).
Proof. unfold write_ticket, kpem.atomic_write_key_pem. quiet. Qed.
Lemma quiet_discover base hex dir : tool.quiet (discover base hex dir).
Proof. unfold discover. quiet. Qed.
Lemma quiet_write_anchors ta out d : tool.quiet (write_anchors ta out d).
Proof. unfold write_anchors. quiet. Qed.
Lemma quiet_log_text_body b : tool.quiet (log_text_body b).
Proof. unfold log_text_body. quiet. Qed.
#[local] Hint Resolve quiet_write_ticket quiet_log_text_body : io.
Lemma quiet_enrol_ec h ta days d c : tool.quiet (enrol_ec h ta days d c).
Proof. unfold enrol_ec, accept_ec. quiet. Qed.
Lemma hid8_of_total b : digests -> is_Some (hid8_of b).
Proof. intros H. specialize (H b). unfold hid8_of. destruct (Nat.ltb_spec (length (crypto.hash_sha256 b)) kHashedId8Len); [lia|done]. Qed.
Lemma quiet_accept_at ta en kp req resp out d : digests -> tool.quiet (accept_at ta en kp req resp out d).
Proof.
  intros Hd. unfold accept_at. cbv zeta. destruct (at_.decode_at_response _ _ _ _ _) as [r|e]; [|quiet].
  destruct (negb _); [quiet|]. destruct (at_certificate r) as [cert|]; [|quiet].
  destruct (hid8_of_total (wire cert) Hd) as [h8 ->]. quiet.
Qed.
Lemma quiet_rotate_at h ta en psids hours out d :
  digests -> tool.quiet (rotate_at h ta en psids hours out d).
Proof. intros Hd. pose proof quiet_accept_at. unfold rotate_at. quiet; auto. Qed.

(** *** The files *)

(** The two files of a ticket, and the temporary ones, are different. *)
Lemma out_ne (out f g : string) : f <> g -> out ++ f <> out ++ g.
Proof. intros Hn H. by apply pfks.string_app_inj_l in H. Qed.

Lemma write_ticket_inv out cert kp c w b w' :
  write_ticket out cert kp c w = (Ret b, w') ->
  tool.local w w' /\ env (w_fs w') = env (w_fs w) /\
  (forall q, q <> out ++ "/AT.coer" -> q <> out ++ "/AT.coer.tmp" -> q <> out ++ "/AT.key" ->
     q <> out ++ "/AT.key.tmp" -> files (w_fs w') !! q = files (w_fs w) !! q) /\
  (b = true -> disk.reliable (env (w_fs w)) ->
   exists data, kpem.key_pem (sb.to_vector (kp_private_key kp)) c = inl data /\
     files (w_fs w') !! (out ++ "/AT.coer") = Some (wire cert) /\
     files (w_fs w') !! (out ++ "/AT.key") = Some data).
Proof.
  unfold write_ticket. intros H. io_step H b1 w1 H1. apply kpem.atomic_write_inv in H1 as (Hl1 & He1 & Hq1 & Hp1).
  setoid_rewrite <- str_app_assoc in Hq1. cbn [String.append] in Hq1.
  destruct b1; cbn [negb] in H; [|io_run H; injection H as <- <-; by split_and!; auto].
  io_step H b2 w2 H2. apply kpem.atomic_write_key_pem_inv in H2.
  destruct (kpem.key_pem _ _) as [data|msg] eqn:Hk.
  2:{ destruct H2 as (-> & Hl2 & Hf). cbn [negb] in H. io_run H. injection H as <- <-.
      cbn [w_fs tool.set_err]. rewrite Hf. split_and!; try done; [|auto].
      etrans; [exact Hl1|]. etrans; [exact Hl2|]. apply tool.local_err. }
  apply kpem.atomic_write_inv in H2 as (Hl2 & He2 & Hq2 & Hp2).
  setoid_rewrite <- str_app_assoc in Hq2. cbn [String.append] in Hq2.
  assert (Hall : tool.local w w2 /\ env (w_fs w2) = env (w_fs w) /\
    (forall q, q <> out ++ "/AT.coer" -> q <> out ++ "/AT.coer.tmp" -> q <> out ++ "/AT.key" ->
     q <> out ++ "/AT.key.tmp" -> files (w_fs w2) !! q = files (w_fs w) !! q)).
  { split_and!; [by etrans|congruence|]. intros q ????. by rewrite Hq2, Hq1. }
  destruct Hall as (Hl & He & Hq). destruct b2; cbn [negb] in H.
  2:{ io_run H. injection H as <- <-. by split_and!. }
  injection H as <- <-. split_and!; try done. intros _ Hr. exists data.
  rewrite kpem.stored_reliable in Hp1, Hp2 by (try rewrite He1; done). split_and!; try done.
  rewrite Hq2; [done|by apply out_ne..].
Qed.

Lemma write_anchors_inv ta out d w d' w' :
  write_anchors ta out d w = (Ret (true, d'), w') ->
  tool.local w w' /\ env (w_fs w') = env (w_fs w) /\
  (disk.reliable (env (w_fs w)) ->
   files (w_fs w') !! (out ++ "/AA.coer") = Some (wire (ta_aa ta)) /\
   files (w_fs w') !! (out ++ "/RCA.coer") = Some (wire (ta_rca ta))).
Proof.
  unfold write_anchors. intros H. io_step H b1 w1 H1. apply kpem.atomic_write_inv in H1 as (Hl1 & He1 & Hq1 & Hp1).
  destruct b1; cbn [negb] in H; [|by io_run H]. io_run H.
  io_step H b2 w2 H2. apply kpem.atomic_write_inv in H2 as (Hl2 & He2 & Hq2 & Hp2).
  setoid_rewrite <- str_app_assoc in Hq2. cbn [String.append w_fs tool.set_out] in *.
  destruct b2; cbn [negb] in H; [|by io_run H]. cbv zeta in H. io_run H. injection H as _ <-.
  cbn [w_fs tool.set_out]. split_and!; [|congruence|].
  { etrans; [exact Hl1|]. etrans; [apply (tool.local_out w1)|]. etrans; [exact Hl2|]. apply tool.local_out. }
  intros Hr. rewrite kpem.stored_reliable in Hp1, Hp2 by (cbn; try rewrite He1; done).
  split; [|done]. rewrite Hq2; [done|by apply out_ne..].
Qed.

(** What a successful discovery means. *)
Lemma discover_inv base tlm_hex dir w ta w' :
  discover base tlm_hex dir w = (Ret (Some ta), w') ->
  env (w_fs w') = env (w_fs w) /\ files (w_fs w') = files (w_fs w) /\
  exists c0 w1 topo c' ea aa rca,
    pki.construct (discover_config base tlm_hex dir) (w_rng w) (w_net w) (w_fs w) = Some c0 /\
    pki.discover_trust (w_clock w1 (w_ops w1)) (tool.attach c0 w1) = (Ok topo, c') /\
    w_net w1 = w_net w /\
    ectl_signature_verified topo = true /\ ctl_signature_verified topo = true /\
    ea ∈ eas topo /\ aa ∈ aas topo /\ rca ∈ rcas topo /\ ta = anchors_of base ea aa rca /\
    sb.is_empty (encryption_key (ta_ea ta)) = false /\ sb.is_empty (encryption_key (ta_aa ta)) = false.
Proof.
  unfold discover. intros H. io_step H c0 w1 Hc. apply tool.new_client_inv in Hc as [Hc ->].
  io_step H out w2 Hcall. destruct out as [topo c']. apply tool.call_inv in Hcall as (Ht & Hf & _).
  destruct topo as [topo|e]; [|by io_run H].
  destruct (ectl_signature_verified topo) eqn:Hv1; cbn [negb orb] in H; [|by io_run H].
  destruct (ctl_signature_verified topo) eqn:Hv2; cbn [negb] in H; [|by io_run H].
  destruct (eas topo) as [|ea eas'] eqn:He; [by io_run H|].
  destruct (aas topo) as [|aa aas'] eqn:Ha; [by io_run H|].
  destruct (rcas topo) as [|rca rcas'] eqn:Hr; [by io_run H|]. cbv zeta in H.
  destruct (sb.is_empty (encryption_key (ta_ea _))) eqn:K1 in H; [by io_run H|].
  destruct (sb.is_empty (encryption_key (ta_aa _))) eqn:K2 in H; [by io_run H|].
  cbn [orb] in H. do 4 io_run H. injection H as <- <-. cbn [w_fs tool.set_out].
  pose proof (pki.discover_trust_fs (w_clock (tool.set_fs w (c_fs c0)) (w_ops (tool.set_fs w (c_fs c0))))
    (tool.attach c0 (tool.set_fs w (c_fs c0)))) as Hfs. rewrite Ht in Hfs. cbn in Hfs.
  rewrite Hf, Hfs. pose proof (tool.construct_env _ _ _ _ _ Hc) as Hev.
  split_and!; [done|by eapply tool.construct_files|].
  exists c0, (tool.set_fs w (c_fs c0)), topo, c', ea, aa, rca. rewrite He, Ha, Hr.
  split_and!; try done; by left.
Qed.

(** *** The exchanges *)

(** The run of an exchange: the key pair [kp] was generated from [g], the request posted
    to the authority on the network [n], and the answer was accepted with [cert]. *)
Definition enrolment_exchange (h : HttpClientConfig) ta (days : Z) (c : Curve) (g : rng) (n : net)
    (kp : KeyPair) (req : EcRequestResult) (resp : HttpResponse) (cert : CertInfo) (n' : net) : Prop :=
  exists now g1 g2 r,
    crypto.generate_keypair_curve c g = (Some kp, g1) /\
    ec.encode_ec_request (ec.assemble_ec_request (enrol_record ta kp days c) (now 0%nat)) (ta_ea ta)
      (sb.to_vector (kp_private_key kp)) (now 1%nat) (now 2%nat) g1 = (Ok req, g2) /\
    http.post h (ta_ec_url ta) (sb.to_vector (ec_encoded req)) "application/x-its-request" n = (Ok resp, n') /\
    status_code resp = 200%Z /\
    ec.decode_ec_response (body resp) (sb.to_vector (kp_private_key kp))
      (sb.to_vector (ec_request_aes_key req)) (sb.to_vector (ec_encoded req)) (ta_ea ta) = Ok r /\
    ec_response_code r = EC_Ok /\ ec_certificate r = Some cert.

Definition ticket_exchange (h : HttpClientConfig) ta (en : EnrolledEc) (psids : list Z) (hours : Z)
    (g : rng) (n : net) (kp : KeyPair) (req : AtRequestResult) (resp : HttpResponse) (cert : CertInfo)
    (n' : net) : Prop :=
  exists now g1 g2 g3 desc r,
    crypto.generate_keypair_curve (curve (ec_cert en)) g = (Some kp, g1) /\
    at_.assemble_at_request (at_record ta en kp psids hours) (now 0%nat) g1 = (desc, g2) /\
    at_.encode_at_request desc (ta_aa ta) (ta_ea ta) (ec_cert en)
      (sb.to_vector (kp_private_key (canonical_kp en))) (sb.to_vector (kp_private_key kp))
      (now 1%nat) (now 2%nat) g2 = (Ok req, g3) /\
    http.post h (ta_at_url ta) (sb.to_vector (at_encoded req)) "application/x-its-request" n = (Ok resp, n') /\
    status_code resp = 200%Z /\
    at_.decode_at_response (body resp) (sb.to_vector (kp_private_key kp))
      (sb.to_vector (at_request_aes_key req)) (sb.to_vector (at_encoded req)) (ta_aa ta) = Ok r /\
    at_response_code r = AT_Ok /\ at_certificate r = Some cert.

Lemma accept_ec_inv ta kp req resp d w en d' w' :
  accept_ec ta kp req resp d w = (Ret (Some en, d'), w') ->
  exists r, ec.decode_ec_response (body resp) (sb.to_vector (kp_private_key kp))
      (sb.to_vector (ec_request_aes_key req)) (sb.to_vector (ec_encoded req)) (ta_ea ta) = Ok r /\
    ec_response_code r = EC_Ok /\ ec_certificate r = Some (ec_cert en) /\ canonical_kp en = kp /\
    tool.local w w' /\ w_fs w' = w_fs w.
Proof.
  unfold accept_ec. cbv zeta. intros H.
  destruct (ec.decode_ec_response _ _ _ _ _) as [r|e]; [|by io_run H].
  exists r. case_bool_decide as Hc; destruct (ec_certificate r) as [cert|]; try by io_run H.
  io_run H. injection H as <- <- <-. done.
Qed.

Lemma enrol_ec_inv h ta days d c w en d' w' :
  enrol_ec h ta days d c w = (Ret (Some en, d'), w') ->
  w_fs w' = w_fs w /\
  exists req resp,
    enrolment_exchange h ta days c (w_rng w) (w_net w) (canonical_kp en) req resp (ec_cert en) (w_net w').
Proof.
  unfold enrol_ec. intros H. io_step H kp w1 Hk. apply tool.generate_keypair_inv in Hk as (g1 & Hk & ->).
  destruct kp as [kp|]; [|by io_run H]. cbv zeta in H. io_run H.
  io_step H req w2 Hr. apply tool.on_rng_inv in Hr as (g2 & Hr & ->).
  destruct req as [req|e]; [|by io_run H]. io_run H. io_step H resp w3 Hp.
  apply tool.http_post_inv in Hp as (n & Hp & ->). destruct resp as [resp|e]; [|by io_run H]. io_run H.
  destruct (status_code resp =? 200)%Z eqn:Hs; cbn [negb] in H.
  2:{ io_run H. by io_step H u w4 Hu. }
  apply accept_ec_inv in H as (r & Hd & Hc & Hcert & <- & (Hn & _) & ->). split; [done|].
  exists req, resp. rewrite Hn. eexists _, g1, g2, r. split_and!; try done. by apply Z.eqb_eq.
Qed.

Lemma accept_at_inv ta en kp req resp out d w h8 d' w' :
  accept_at ta en kp req resp out d w = (Ret (Some h8, d'), w') ->
  exists r cert w1, at_.decode_at_response (body resp) (sb.to_vector (kp_private_key kp))
      (sb.to_vector (at_request_aes_key req)) (sb.to_vector (at_encoded req)) (ta_aa ta) = Ok r /\
    at_response_code r = AT_Ok /\ at_certificate r = Some cert /\ hid8_of (wire cert) = Some h8 /\
    write_ticket out cert kp (curve (ec_cert en)) w = (Ret true, w1) /\
    tool.local w1 w' /\ w_fs w' = w_fs w1.
Proof.
  unfold accept_at. cbv zeta. intros H.
  destruct (at_.decode_at_response _ _ _ _ _) as [r|e]; [|by io_run H].
  exists r. case_bool_decide as Hc; cbn [negb] in H; [|by io_run H].
  destruct (at_certificate r) as [cert|]; [|by io_run H]. exists cert.
  destruct (hid8_of _) as [h|]; [|done]. io_step H ok w1 Hw. exists w1.
  destruct ok; cbn [negb] in H; [|done]. io_run H. io_run H. injection H as <- <- <-. done.
Qed.

Lemma rotate_at_inv h ta en psids hours out d w h8 d' w' :
  rotate_at h ta en psids hours out d w = (Ret (Some h8, d'), w') ->
  exists kp req resp cert w1 w2,
    ticket_exchange h ta en psids hours (w_rng w) (w_net w) kp req resp cert (w_net w') /\
    hid8_of (wire cert) = Some h8 /\ w_fs w1 = w_fs w /\
    write_ticket out cert kp (curve (ec_cert en)) w1 = (Ret true, w2) /\ w_fs w' = w_fs w2.
Proof.
  unfold rotate_at. intros H. io_step H kp w1 Hk. apply tool.generate_keypair_inv in Hk as (g1 & Hk & ->).
  destruct kp as [kp|]; [|by io_run H]. cbv zeta in H. io_run H.
  io_step H desc w2 Hd. apply tool.on_rng_inv in Hd as (g2 & Hd & ->).
  io_step H req w3 Hr. apply tool.on_rng_inv in Hr as (g3 & Hr & ->).
  destruct req as [req|e]; [|by io_run H]. io_run H. io_step H resp w4 Hp.
  apply tool.http_post_inv in Hp as (n & Hp & ->). destruct resp as [resp|e]; [|by io_run H]. io_run H.
  destruct (status_code resp =? 200)%Z eqn:Hs; cbn [negb orb] in H; [|by io_run H].
  destruct (empty _); [by io_run H|].
  apply accept_at_inv in H as (r & cert & w5 & Hdec & Hc & Hcert & Hh & Hw & (Hn & _) & Hf).
  pose proof (write_ticket_inv _ _ _ _ _ _ _ Hw) as ((Hn' & _) & _).
  exists kp, req, resp, cert. eexists _, w5. rewrite Hn, Hn'. split_and!; [|done| |exact Hw|done]; [|done].
  eexists _, g1, g2, g3, desc, r. split_and!; try done. by apply Z.eqb_eq.
Qed.

End flow.
End flow.
