(* ===== verification/Provisioner.v ===== *)
(** tools/pki-provisioner/main.cpp: configuration and the rotation loop.

    The environment is a function; a signal is a point in the sequence of looks at
    [g_running] after which the flag is down.  The loop takes fuel: each round looks
    at the flag at least once, so a run that a signal ends needs no more rounds than
    there are looks before the signal. *)
From stdpp Require Import gmap pretty.
From S2P Require Import Prelude Result Sizes StaticBytes Asn OpenSSL CryptoEc CertParse Double.
From S2P Require Import TrustChain TrustList EcRequest AtRequest Http Disk KeyStore PkiClient Tool.
From S2P Require Import CliCommands KeyPem WireDump Flow.
Local Open Scope string_scope.

Record Config := MkConfig {
  cfg_pki_base_url : string;
  cfg_tlm_hid8 : string;
  cfg_output_dir : string;
  cfg_validity_period_hours : Z;
  cfg_rotation_ratio : double;
  cfg_psids : list Z;
  cfg_ec_validity_days : Z;
  cfg_oneshot : bool;
  cfg_dump_dir : string;
  cfg_curve : Curve;
  cfg_dump_keys : bool;
}.

Definition Config_default : Config :=
  MkConfig "https://pki.skyv2x.com" "" "./v3-certs" 168 (dbl.atof "0.8")
    [36; 37; 137; 138; 139; 140]%Z 30 false "" NistP256 false.

Module prov.
Section prov.
Context {ossl : OpenSSL} {tr : Transport} {pem : Pem} {sec1 : Sec1} {errtext : ErrorText}.
Context {cb : Codec CertificateBase} {tb : Codec ToBeSignedCertificate} {junk : Uninit}.
Context {dc : Codec Ieee1609Dot2Data} {tc : Codec ToBeSignedData}.
Context {ec : Codec EtsiTs102941Data} {xc : Codec EtsiTs103097Certificate}.
Context {eq_ : Codec InnerEcRequest} {er : Codec InnerEcResponse}.
Context {pc : Codec PublicVerificationKey} {sc : Codec SharedAtRequest}.
Context {aq : Codec InnerAtRequest} {ar : Codec InnerAtResponse} {hjunk : UninitHmac}.
Context {version : BuildInfo}.

(** ** Configuration *)

Definition env_or (getenv : string -> option string) (name def : string) : string :=
  match getenv name with Some v => v | None => def end.

(** What the environment decides, before the arguments are looked at. *)
Definition env_config (getenv : string -> option string) : Config :=
  let cfg := Config_default in
  MkConfig (env_or getenv "PKI_BASE_URL" (cfg_pki_base_url cfg))
    (env_or getenv "TLM_HID8" (cfg_tlm_hid8 cfg))
    (env_or getenv "AT_OUTPUT_DIR" (cfg_output_dir cfg))
    (match getenv "AT_VALIDITY_HOURS" with
     | Some vh => dbl.atol vh | None => cfg_validity_period_hours cfg end)
    (match getenv "AT_ROTATION_RATIO" with
     | Some rr => dbl.atof rr | None => cfg_rotation_ratio cfg end)
    (cfg_psids cfg)
    (match getenv "EC_VALIDITY_DAYS" with
     | Some ed => dbl.atol ed | None => cfg_ec_validity_days cfg end)
    (cfg_oneshot cfg)
    (env_or getenv "WIRE_DUMP_DIR" (cfg_dump_dir cfg))
    (cfg_curve cfg) (cfg_dump_keys cfg).

(** An option that takes a value: the new configuration, or the message of exit 2;
    [None] when it is not such an option. *)
Definition set_value (arg val : string) (cfg : Config) : option (Config + string) :=
  let '(MkConfig u t o v r p e s dd c k) := cfg in
  if (arg =? "--url")%string || (arg =? "-u")%string then
    Some (inl (MkConfig val t o v r p e s dd c k))
  else if (arg =? "--tlm-hid8")%string then Some (inl (MkConfig u val o v r p e s dd c k))
  else if (arg =? "--dump-dir")%string then Some (inl (MkConfig u t o v r p e s val c k))
  else if (arg =? "--curve")%string then
    Some (if (val =? "brainpool-p256r1")%string
          then inl (MkConfig u t o v r p e s dd BrainpoolP256r1 k)
          else if negb (val =? "nist-p256")%string
          then inr ("unsupported curve '" ++ val ++ "'")
          else inl cfg)
  else if (arg =? "--output")%string || (arg =? "-o")%string then
    Some (inl (MkConfig u t val v r p e s dd c k))
  else if (arg =? "--validity-hours")%string then
    Some (inl (MkConfig u t o (dbl.atol val) r p e s dd c k))
  else if (arg =? "--rotation-ratio")%string then
    Some (inl (MkConfig u t o v (dbl.atof val) p e s dd c k))
  else None.

Definition help_text : string :=
  "Usage: pki-provisioner [OPTIONS]" ++ nl ++ nl
  ++ "Options:" ++ nl
  ++ "  -u, --url URL           PKI base URL (default: https://pki.skyv2x.com)" ++ nl
  ++ "  --tlm-hid8 HEX          Pinned TLM HashedId8 (conformant anchor; without" ++ nl
  ++ "                          it the TLM is bootstrapped via the /tlm shortcut)" ++ nl
  ++ "  -o, --output DIR        Output directory (default: ./v3-certs)" ++ nl
  ++ "  --validity-hours N      AT validity period in hours (default: 168)" ++ nl
  ++ "  --rotation-ratio R      Rotate at R*validity (default: 0.8)" ++ nl
  ++ "  --oneshot               Single rotation then exit" ++ nl
  ++ "  -h, --help              Show this help" ++ nl ++ nl
  ++ "Environment variables:" ++ nl
  ++ "  PKI_BASE_URL, TLM_HID8, AT_OUTPUT_DIR, AT_VALIDITY_HOURS," ++ nl
  ++ "  AT_ROTATION_RATIO, EC_VALIDITY_DAYS" ++ nl.

(** The options without a value; any other word is ignored. *)
Definition set_flag (arg : string) (cfg : Config) : io Config :=
  let '(MkConfig u t o v r p e s dd c k) := cfg in
  if (arg =? "--dump-private-keys-insecure")%string then mret (MkConfig u t o v r p e s dd c true)
  else if (arg =? "--oneshot")%string then mret (MkConfig u t o v r p e true dd c k)
  else if (arg =? "--help")%string || (arg =? "-h")%string then tool.print help_text;; tool.exit 0
  else mret cfg.

(** The loop over argv[1..]. *)
Fixpoint parse_loop (argv : list string) (cfg : Config) : io Config :=
  match argv with
  | [] => mret cfg
  | arg :: rest =>
      match rest with
      | [] => set_flag arg cfg
      | val :: rest' =>
          match set_value arg val cfg with
          | Some (inl cfg) => parse_loop rest' cfg
          | Some (inr msg) => flow.fatal msg;; tool.exit 2
          | None => cfg ← set_flag arg cfg; parse_loop rest cfg
          end
      end
  end.

Definition parse_config (getenv : string -> option string) (argv : list string) : io Config :=
  cfg ← parse_loop (tail argv) (env_config getenv);
  if cfg_dump_keys cfg then
    if str_empty (cfg_dump_dir cfg) then
      flow.fatal "--dump-private-keys-insecure needs --dump-dir";;
      tool.exit 2
    else
      tool.eprint ("[pki-provisioner] WARNING: writing PRIVATE KEY material to " ++ cfg_dump_dir cfg
        ++ " — this station is disposable, never reuse it and never publish that directory." ++ nl);;
      mret cfg
  else mret cfg.

(** ** The rotation loop *)

Section loop.

(** [running k] is [g_running] at the [k]-th look at it. *)
Variable running : nat -> bool.

(** [sleep_interruptible]: the seconds slept and the number of the next look. *)
Fixpoint sleep (secs : nat) (look : nat) : nat * nat :=
  match secs with
  | O => (0%nat, look)
  | S secs =>
      if running look then let '(n, look) := sleep secs (S look) in (S n, look)
      else (0%nat, S look)
  end.
Definition sleep_interruptible (secs : Z) (look : nat) : nat * nat := sleep (Z.to_nat secs) look.

(** What the loop keeps: the count, the dump, the number of the next look and the
    seconds slept so far. *)
Record state := MkState {
  rotation_count : Z;
  st_dump : WireDump;
  look : nat;
  slept : nat;
}.

(** A round ends the loop with an exit code, leaves it, or starts the next one. *)
Inductive verdict := Return (code : Z) | Break (st : state) | Again (st : state).

(** [cfg.validity_period_hours * cfg.rotation_ratio], in doubles. *)
Definition sleep_hours (cfg : Config) : double :=
  dbl.mul (dbl.of_Z (cfg_validity_period_hours cfg)) (cfg_rotation_ratio cfg).

(** The largest [int]. *)
Definition INT_MAX : Z := 2 ^ 31 - 1.

(** One test of the condition and, if it holds, one execution of the body.  The count
    is an [int], and [rotation_count++] is undefined at the largest one. *)
Definition round (http : HttpClientConfig) (cfg : Config) (ta : TrustAnchors) (ec : EnrolledEc)
    (st : state) : io verdict :=
  if negb (running (look st)) then
    mret (Break (MkState (rotation_count st) (st_dump st) (S (look st)) (slept st)))
  else
    let look := S (look st) in
    if (rotation_count st =? INT_MAX)%Z then tool.undefined else
    let n := (rotation_count st + 1)%Z in
    tool.print (nl ++ "[pki-provisioner] === AT Rotation #" ++ pretty n ++ " ===" ++ nl);;
    '(hid8, d) ← flow.rotate_at http ta ec (cfg_psids cfg) (cfg_validity_period_hours cfg)
                   (cfg_output_dir cfg) (st_dump st);
    match hid8 with
    | None =>
        if cfg_oneshot cfg then mret (Return 1) else
        tool.eprint ("[pki-provisioner] rotation failed, retrying in 60s" ++ nl);;
        let '(s, look) := sleep_interruptible 60 look in
        mret (Again (MkState n d look (slept st + s)))
    | Some _ =>
        '(_, d) ← dump.flush d;
        if cfg_oneshot cfg then
          tool.print (nl ++ "[pki-provisioner] Oneshot mode — exiting." ++ nl);;
          mret (Break (MkState n d look (slept st)))
        else
          let hours := sleep_hours cfg in
          flow.say ("Next rotation in " ++ dbl.fixed 1 hours ++ "h ["
            ++ dbl.fixed 0 (dbl.mul (cfg_rotation_ratio cfg) (dbl.of_Z 100)) ++ "% of "
            ++ pretty (cfg_validity_period_hours cfg) ++ "h validity]");;
          match dbl.to_long (dbl.mul hours (dbl.of_Z 3600)) with
          | None => tool.undefined
          | Some secs =>
              let '(s, look) := sleep_interruptible secs look in
              mret (Again (MkState n d look (slept st + s)))
          end
    end.

(** [None]: out of fuel. *)
Fixpoint rotate (fuel : nat) (http : HttpClientConfig) (cfg : Config) (ta : TrustAnchors)
    (ec : EnrolledEc) (st : state) : io (option (Z + state)) :=
  match fuel with
  | O => mret None
  | S fuel =>
      v ← round http cfg ta ec st;
      match v with
      | Return code => mret (Some (inl code))
      | Break st => mret (Some (inr st))
      | Again st => rotate fuel http cfg ta ec st
      end
  end.

Definition banner (cfg : Config) : io unit :=
  flow.say "pki-provisioner starting";;
  flow.say ("PKI URL:          " ++ cfg_pki_base_url cfg);;
  flow.say ("TLM HID8:         "
            ++ (if str_empty (cfg_tlm_hid8 cfg) then "(bootstrap via /tlm)" else cfg_tlm_hid8 cfg));;
  flow.say ("Output dir:       " ++ cfg_output_dir cfg);;
  flow.say ("Validity:         " ++ pretty (cfg_validity_period_hours cfg) ++ "h");;
  flow.say ("Rotation ratio:   " ++ dbl.fixed 2 (cfg_rotation_ratio cfg));;
  flow.say ("Mode:             " ++ (if cfg_oneshot cfg then "oneshot" else "continuous")).

Definition http_ : HttpClientConfig := default_config "" 30 true.

(** The part of [main] after the configuration. *)
Definition provision (fuel : nat) (cfg : Config) : io (option Z) :=
  banner cfg;;
  tool.on_fs (fun fs => (tt, disk.mkdir (cfg_output_dir cfg) fs));;
  tool.print (nl ++ "[pki-provisioner] === Trust discovery ===" ++ nl);;
  let d := dump.create (cfg_dump_dir cfg) (cfg_dump_keys cfg) in
  let d := dump.meta d "pki_base_url" (cfg_pki_base_url cfg) in
  let d := dump.meta d "client_version" kVersion in
  anchors ← flow.discover (cfg_pki_base_url cfg) (cfg_tlm_hid8 cfg) (cfg_output_dir cfg);
  match anchors with
  | None => mret (Some 1%Z)
  | Some anchors =>
      '(ok, d) ← flow.write_anchors anchors (cfg_output_dir cfg) d;
      if negb ok then mret (Some 1%Z) else
      tool.print (nl ++ "[pki-provisioner] === EC Enrollment ===" ++ nl);;
      '(ec, d) ← flow.enrol_ec http_ anchors (cfg_ec_validity_days cfg) d (cfg_curve cfg);
      match ec with
      | None => mret (Some 1%Z)
      | Some ec =>
          r ← rotate fuel http_ cfg anchors ec (MkState 0 d 0 0);
          match r with
          | None => mret None
          | Some (inl code) => mret (Some code)
          | Some (inr st) =>
              tool.when (negb (running (look st)))
                (tool.print (nl ++ "[pki-provisioner] Caught signal, shutting down." ++ nl));;
              flow.say ("Total rotations: " ++ pretty (rotation_count st));;
              mret (Some 0%Z)
          end
      end
  end.

Definition main (fuel : nat) (getenv : string -> option string) (argv : list string) : io (option Z) :=
  cfg ← parse_config getenv argv;
  provision fuel cfg.

(** ** Lemmas *)

Lemma sleep_look secs k : k <= (sleep secs k).2.
Proof.
  revert k. induction secs as [|secs IH]; intros k; simpl; [lia|]. destruct (running k); [|simpl; lia].
  specialize (IH (S k)). destruct (sleep secs (S k)). simpl in *. lia.
Qed.

(** The number of rounds that are enough: one in oneshot mode, else as many as there
    are looks at the flag until the signal is seen. *)
Definition ends_by (N : nat) (cfg : Config) : Prop :=
  cfg_oneshot cfg = true \/ forall k, N <= k -> running k = false.

Ltac yield :=
  cbv zeta; repeat first
    [ apply tool.yields_bind; intros ?
    | apply tool.yields_ret; cbn
    | apply tool.yields_undefined
    | match goal with
      | |- tool.yields _ (let '(_, _) := ?x in _) => destruct x eqn:?
      | |- tool.yields _ (match ?x with _ => _ end) => destruct x eqn:?
      end ].

(** A round that is not the last one has looked at the flag, and saw no signal; the
    only code a round returns is 1. *)
Lemma round_result h cfg ta en st :
  tool.yields (fun v =>
    match v with
    | Return c => c = 1%Z
    | Break _ => True
    | Again st' =>
        cfg_oneshot cfg = false /\ running (look st) = true /\ look st < look st' /\
        rotation_count st' = (rotation_count st + 1)%Z
    end) (round h cfg ta en st).
Proof.
  pose proof (fun s => sleep_look s (S (look st))) as Hs. unfold round, sleep_interruptible. yield; try done.
  all: match goal with H : sleep ?s _ = _ |- _ => specialize (Hs s); rewrite H in Hs; simpl in Hs end.
  all: split_and!; [done| |lia|done]; by apply negb_false_iff.
Qed.

Lemma rotate_code fuel h cfg ta en st :
  tool.yields (fun r => match r with Some (inl c) => c = 1%Z | _ => True end) (rotate fuel h cfg ta en st).
Proof.
  revert st. induction fuel as [|fuel IH]; intros st; cbn [rotate]; [by apply tool.yields_ret|].
  eapply tool.yields_then; [apply round_result|]. intros [c|st'|st'] Hv; [by apply tool.yields_ret..|apply IH].
Qed.

Lemma rotate_result fuel h cfg ta en st N :
  ends_by N cfg -> N - look st < fuel ->
  tool.yields is_Some (rotate fuel h cfg ta en st).
Proof.
  intros He. revert st. induction fuel as [|fuel IH]; intros st Hf; [lia|]. cbn [rotate].
  eapply tool.yields_then; [apply round_result|]. intros v Hv. destruct v as [c|st'|st'].
  - by apply tool.yields_ret.
  - by apply tool.yields_ret.
  - destruct Hv as (Ho & Hr & Hl & _). apply IH. destruct He as [He|He]; [congruence|].
    destruct (decide (N <= look st)) as [Hn|Hn]; [|lia]. rewrite (He _ Hn) in Hr. done.
Qed.

(** The length of the sleep is defined. *)
Definition sleeps (cfg : Config) : Prop :=
  cfg_oneshot cfg = true \/ is_Some (dbl.to_long (dbl.mul (sleep_hours cfg) (dbl.of_Z 3600))).

Lemma quiet_round h cfg ta en st :
  flow.digests -> sleeps cfg -> (running (look st) = true -> rotation_count st < INT_MAX)%Z ->
  tool.quiet (round h cfg ta en st).
Proof.
  intros Hd Hs Hn. unfold round. destruct (running (look st)); cbn [negb]; [|auto with io]. cbv zeta.
  rewrite (proj2 (Z.eqb_neq _ _)) by (specialize (Hn eq_refl); lia).
  apply tool.quiet_bind; [auto with io|intros _].
  apply tool.quiet_bind; [by apply flow.quiet_rotate_at|intros [h8 d]].
  destruct h8 as [h8|].
  - apply tool.quiet_bind; [apply dump.quiet_flush|intros [b d']].
    destruct (cfg_oneshot cfg) eqn:Ho; [apply tool.quiet_bind; auto with io|].
    destruct Hs as [Hs|[secs ->]]; [congruence|]. apply tool.quiet_bind; [apply flow.quiet_say|intros _].
    destruct (sleep_interruptible _ _). auto with io.
  - destruct (cfg_oneshot cfg); [auto with io|]. apply tool.quiet_bind; [auto with io|intros _].
    destruct (sleep_interruptible _ _). auto with io.
Qed.

(** The count never overtakes the looks at the flag, so it does not overflow while
    there are fewer than 2^31 of them. *)
Lemma quiet_rotate fuel h cfg ta en st N :
  flow.digests -> sleeps cfg -> ends_by N cfg -> (Z.of_nat N < 2 ^ 31)%Z ->
  (rotation_count st <= Z.of_nat (look st))%Z -> (cfg_oneshot cfg = true -> rotation_count st = 0%Z) ->
  tool.quiet (rotate fuel h cfg ta en st).
Proof.
  intros Hd Hs He HN. revert st.
  induction fuel as [|fuel IH]; intros st Hl Ho; cbn [rotate]; [auto with io|].
  eapply tool.quiet_then; [apply quiet_round; [done..|]|apply round_result|].
  - intros Hr. unfold INT_MAX. destruct He as [He|He]; [rewrite Ho by done; lia|].
    destruct (decide (N <= look st)) as [Hn|Hn]; [by rewrite (He _ Hn) in Hr|lia].
  - intros [c|st'|st'] Hv; [auto with io..|]. destruct Hv as (Ho' & _ & Hlt & Hc).
    apply IH; [lia|congruence].
Qed.

End loop.
End prov.
End prov.
