(* ===== verification/Scenario.v ===== *)
(** A concrete deployment to evaluate the model on: a root CA, an enrolment
    authority, an authorization authority and a station, on the executable
    instances of [Concrete].  Wire images are given by finite tables. *)
From stdpp Require Import gmap.
From S2P Require Import Prelude Result Sizes StaticBytes Asn OpenSSL CryptoEc CurvePoint Ecies.
From S2P Require Import Concrete CertParse SignedMessage SignedEnvelope EncryptedData Revocation.
From S2P Require Import TrustChain TrustList Request EcRequest AtRequest Http Disk KeyStore Hex.
From S2P Require Import PkiClient.

Module scenario.
#[local] Existing Instance ToyOpenSSL.

(** ** Keys: small scalars and their points.  The two of the station are what the
    generator yields in the states 29 and 33. *)

Definition s_priv (d : Z) : bytes := be_bytes 32 d.
Definition s_pub (d : Z) : bytes := toy_point NistP256 d.

Definition rca_d : Z := 5.
Definition ea_d : Z := 7.
Definition aa_d : Z := 9.
Definition its_d : Z := 29.
Definition at_d : Z := 33.
Definition tlm_d : Z := 3.

Lemma s_keypair_rca : is_keypair NistP256 (s_priv rca_d) (s_pub rca_d).
Proof. exists rca_d. vm_compute. reflexivity. Qed.
Lemma s_keypair_ea : is_keypair NistP256 (s_priv ea_d) (s_pub ea_d).
Proof. exists ea_d. vm_compute. reflexivity. Qed.
Lemma s_keypair_aa : is_keypair NistP256 (s_priv aa_d) (s_pub aa_d).
Proof. exists aa_d. vm_compute. reflexivity. Qed.
Lemma s_keypair_its : is_keypair NistP256 (s_priv its_d) (s_pub its_d).
Proof. exists its_d. vm_compute. reflexivity. Qed.
Lemma s_keypair_at : is_keypair NistP256 (s_priv at_d) (s_pub at_d).
Proof. exists at_d. vm_compute. reflexivity. Qed.

(** ** Certificates *)

(** Wire images: a tag and an index. *)
Definition wire (tag i : byte) : bytes := [tag; i; x77].

Definition rca_tbs := Eval vm_compute in cert_utils.tbs_struct "rca_root" (s_pub rca_d) true 0 30.
Definition ea_tbs := Eval vm_compute in cert_utils.tbs_struct "ea_one" (s_pub ea_d) true 0 30.
Definition aa_tbs := Eval vm_compute in cert_utils.tbs_struct "aa_one" (s_pub aa_d) true 0 30.
Definition ec_tbs := Eval vm_compute in cert_utils.tbs_struct "ec_station" (s_pub its_d) false 0 30.
Definition at_tbs := Eval vm_compute in cert_utils.tbs_struct "at_station" (s_pub at_d) false 0 30.

Definition tlm_tbs := Eval vm_compute in cert_utils.tbs_struct "tlm_eu" (s_pub tlm_d) true 0 30.

Definition s_tbscert_table : list (ToBeSignedCertificate * bytes) :=
  [(rca_tbs, wire x10 x01); (ea_tbs, wire x10 x02); (aa_tbs, wire x10 x03);
   (ec_tbs, wire x10 x04); (at_tbs, wire x10 x05); (tlm_tbs, wire x10 x06)].
Definition s_tbs_codec : Codec ToBeSignedCertificate := TableCodec s_tbscert_table.
#[local] Existing Instance s_tbs_codec.

(** The signed structure: its signature, and the digest of its issuer's image. *)
Definition s_hid (cert_coer : bytes) : hid8 := cert.truncate_hid8 (crypto.hash_sha256 cert_coer).

Definition s_cert_struct (tbs : ToBeSignedCertificate) (issuer_priv : bytes) (self : bool)
    (issuer_coer : bytes) : CertificateBase :=
  let digest :=
    crypto.hash_sha256 (crypto.hash_sha256 (coer.encode tbs) ++
                        crypto.hash_sha256 (if self then [] else issuer_coer)) in
  match crypto.ecdsa_sign_digest issuer_priv digest 0%Z with
  | (Some sig, _) =>
      cert_utils.cert_struct tbs sig (if self then zeros 8 else s_hid issuer_coer) self
  | (None, _) => MkCertificateBase 0 CertificateType_explicit None None None
  end.

Definition rca_coer := wire x20 x01.
Definition ea_coer := wire x20 x02.
Definition aa_coer := wire x20 x03.
Definition ec_coer := wire x20 x04.
Definition at_coer := wire x20 x05.
Definition tlm_coer := wire x20 x06.

Definition rca_struct := Eval vm_compute in s_cert_struct rca_tbs (s_priv rca_d) true [].
Definition ea_struct := Eval vm_compute in s_cert_struct ea_tbs (s_priv rca_d) false rca_coer.
Definition aa_struct := Eval vm_compute in s_cert_struct aa_tbs (s_priv rca_d) false rca_coer.
Definition ec_struct := Eval vm_compute in s_cert_struct ec_tbs (s_priv ea_d) false ea_coer.
Definition at_struct := Eval vm_compute in s_cert_struct at_tbs (s_priv aa_d) false aa_coer.
Definition tlm_struct := Eval vm_compute in s_cert_struct tlm_tbs (s_priv tlm_d) true [].

Definition s_cert_table : list (CertificateBase * bytes) :=
  [(rca_struct, rca_coer); (ea_struct, ea_coer); (aa_struct, aa_coer); (ec_struct, ec_coer);
   (at_struct, at_coer); (tlm_struct, tlm_coer)].
Definition s_cert_codec : Codec CertificateBase := TableCodec s_cert_table.
#[local] Existing Instance s_cert_codec.
Lemma s_cert_codec_ok : CodecOk CertificateBase.
Proof. apply TableCodec_ok. vm_compute. reflexivity. Qed.

(** Bytes of a stack array that was never written. *)
Definition s_uninit : Uninit := fun _ _ => [x63; x63; x63; x63; x63; x63; x63; x63].
#[local] Existing Instance s_uninit.

Definition the (o : option CertInfo * Z) : CertInfo := default CertInfo_empty o.1.

Definition rca_ci : CertInfo := Eval vm_compute in the (cert_utils.build_root_cert "rca_root" (s_pub rca_d) (s_priv rca_d) 0%Z).
Definition ea_ci : CertInfo := Eval vm_compute in
  the (cert_utils.build_signed_cert "ea_one" (s_pub ea_d) (s_priv rca_d) (hashed_id_8 rca_ci) true
         false (sb.to_vector (cert_bytes rca_ci)) 0%Z).
Definition aa_ci : CertInfo := Eval vm_compute in
  the (cert_utils.build_signed_cert "aa_one" (s_pub aa_d) (s_priv rca_d) (hashed_id_8 rca_ci) true
         false (sb.to_vector (cert_bytes rca_ci)) 0%Z).
Definition at_ci : CertInfo := Eval vm_compute in
  the (cert_utils.build_signed_cert "at_station" (s_pub at_d) (s_priv aa_d) (hashed_id_8 aa_ci) false
         false (sb.to_vector (cert_bytes aa_ci)) 0%Z).
Definition ec_ci : CertInfo := Eval vm_compute in
  the (cert_utils.build_signed_cert "ec_station" (s_pub its_d) (s_priv ea_d) (hashed_id_8 ea_ci) false
         false (sb.to_vector (cert_bytes ea_ci)) 0%Z).

(** Every build succeeds. *)
Lemma rca_built :
  cert_utils.build_root_cert "rca_root" (s_pub rca_d) (s_priv rca_d) 0%Z = (Some rca_ci, 0%Z).
Proof. vm_compute. reflexivity. Qed.
Lemma aa_built :
  cert_utils.build_signed_cert "aa_one" (s_pub aa_d) (s_priv rca_d) (hashed_id_8 rca_ci) true false
    (sb.to_vector (cert_bytes rca_ci)) 0%Z = (Some aa_ci, 0%Z).
Proof. vm_compute. reflexivity. Qed.
Lemma at_built :
  cert_utils.build_signed_cert "at_station" (s_pub at_d) (s_priv aa_d) (hashed_id_8 aa_ci) false
    false (sb.to_vector (cert_bytes aa_ci)) 0%Z = (Some at_ci, 0%Z).
Proof. vm_compute. reflexivity. Qed.
Lemma ec_built :
  cert_utils.build_signed_cert "ec_station" (s_pub its_d) (s_priv ea_d) (hashed_id_8 ea_ci) false
    false (sb.to_vector (cert_bytes ea_ci)) 0%Z = (Some ec_ci, 0%Z).
Proof. vm_compute. reflexivity. Qed.

Lemma rca_keypair : is_keypair (curve rca_ci) (s_priv rca_d) (sb.to_vector (public_key rca_ci)).
Proof. exists rca_d. vm_compute. reflexivity. Qed.
Lemma ea_keypair : is_keypair (curve ea_ci) (s_priv ea_d) (sb.to_vector (public_key ea_ci)).
Proof. exists ea_d. vm_compute. reflexivity. Qed.
Lemma aa_keypair : is_keypair (curve aa_ci) (s_priv aa_d) (sb.to_vector (public_key aa_ci)).
Proof. exists aa_d. vm_compute. reflexivity. Qed.

Definition s_chain : TrustChain := chain.add_cert (chain.add_cert chain.empty_chain rca_ci) aa_ci.

(** ** Messages *)

(** 2026-01-01T00:00:00Z, in microseconds. *)
Definition s_now : Z := 1767225600000000.

Definition s_crl : ToBeSignedCrl := Eval vm_compute in
  MkToBeSignedCrl 1 694224005 794224005 [Some (hashed_id_8 aa_ci); None; Some [x01]].
Definition s_crl_data := MkEtsiTs102941Data 1 (Some (certificateRevocationList (Some s_crl))).

Definition s_ctl : CtlFormat := Eval vm_compute in
  MkCtlFormat 1 794224005 true 0
    [Some (CtlCommand_add (Some (CtlEntry_ea (Some (MkEaEntry (Some ea_struct) (bytes_of_string "http://aa")
       (Some (bytes_of_string "http://ea")))))));
     Some (CtlCommand_delete None); None;
     Some (CtlCommand_add (Some (CtlEntry_aa (Some (MkAaEntry (Some aa_struct) (bytes_of_string "http://aa"))))))].
Definition s_ctl_data := MkEtsiTs102941Data 1 (Some (certificateTrustListRca (Some s_ctl))).

Definition s_ectl : CtlFormat := Eval vm_compute in
  MkCtlFormat 1 794224005 true 0
    [Some (CtlCommand_add (Some (CtlEntry_rca (Some (MkRootCaEntry (Some rca_struct) None)))));
     Some (CtlCommand_add (Some (CtlEntry_dc (Some (MkDcEntry (bytes_of_string "http://dc/")
       [Some (hashed_id_8 rca_ci)])))))].
Definition s_ectl_data := MkEtsiTs102941Data 1 (Some (certificateTrustListTlm (Some s_ectl))).

Definition s_etsi_codec : Codec EtsiTs102941Data :=
  TableCodec [(s_crl_data, wire x30 x01); (s_ctl_data, wire x30 x02);
              (s_ectl_data, wire x30 x03)].
#[local] Existing Instance s_etsi_codec.
Lemma s_etsi_codec_ok : CodecOk EtsiTs102941Data.
Proof. apply TableCodec_ok. vm_compute. reflexivity. Qed.

Definition s_etsi_cert_codec : Codec EtsiTs103097Certificate :=
  TableCodec (map (fun e => (MkEtsiTs103097Certificate e.1, e.2)) s_cert_table).
#[local] Existing Instance s_etsi_cert_codec.

(** The enrolment request of the station. *)
Definition s_ec_record : EcRecord := Eval vm_compute in
  MkEcRecord (default (sb.default_ _) (sb.from _ (s_pub its_d))) (hashed_id_8 ea_ci) [kPsidScr] 30
    NistP256 "v2xpki-its-s".
Definition s_ec_desc : EcRequestDescription := Eval vm_compute in ec.assemble_ec_request s_ec_record s_now.
Definition s_inner_ec := Eval vm_compute in ec.inner_ec_request s_ec_desc.
Definition s_inner_ec_codec : Codec InnerEcRequest := TableCodec [(s_inner_ec, wire x60 x01)].
#[local] Existing Instance s_inner_ec_codec.
Lemma s_inner_ec_codec_ok : CodecOk InnerEcRequest.
Proof. apply TableCodec_ok. vm_compute. reflexivity. Qed.

(** The authorization request. *)
Definition s_at_record : AtRecord := Eval vm_compute in
  MkAtRecord (default (sb.default_ _) (sb.from _ (s_pub at_d))) (hashed_id_8 aa_ci)
    (hashed_id_8 ea_ci) [36%Z] 24 NistP256.
Definition s_at_desc : AtRequestDescription := Eval vm_compute in (at_.assemble_at_request s_at_record s_now 34%Z).1.

Definition s_pvk_codec : Codec PublicVerificationKey :=
  TableCodec [(request.verification_key_node NistP256 (s_pub at_d), wire x62 x01)].
#[local] Existing Instance s_pvk_codec.
Definition s_uninit_hmac : UninitHmac := zeros 32.
#[local] Existing Instance s_uninit_hmac.

Definition s_shared : SharedAtRequest := Eval vm_compute in
  at_.shared_at_request s_at_desc (at_.key_tag (ad_hmac_key s_at_desc) (wire x62 x01)).
Definition s_shared_codec : Codec SharedAtRequest := TableCodec [(s_shared, wire x63 x01)].
#[local] Existing Instance s_shared_codec.
Lemma s_shared_codec_ok : CodecOk SharedAtRequest.
Proof. apply TableCodec_ok. vm_compute. reflexivity. Qed.

Definition s_ext_tbs : ToBeSignedData := Eval vm_compute in
  MkToBeSignedData (Some (MkSignedDataPayload None
    (Some (sha256HashedData (crypto.hash_sha256 (wire x63 x01)))) false))
    (Some (sign.make_header s_now)).

(** The ToBeSignedData of every envelope. *)
Definition s_tbs_data (pl : bytes) : ToBeSignedData := sign.make_unsecured_tbs pl s_now.

Definition s_tbsdata_table : list (ToBeSignedData * bytes) := Eval vm_compute in
    [(s_tbs_data (wire x30 x01), wire x40 x01);
     (s_tbs_data (wire x30 x02), wire x40 x02);
     (s_tbs_data (wire x60 x01), wire x40 x03);
     (s_tbs_data ([x01; x80] ++ wire x50 x03), wire x40 x04);
     (s_tbs_data ([x01; x81] ++ wire x61 x01), wire x40 x06);
     (s_ext_tbs, wire x40 x08);
     (s_tbs_data ([x01; x82] ++ wire x64 x01), wire x40 x09);
     (s_tbs_data ([x01; x83] ++ wire x65 x01), wire x40 x0b);
     (s_tbs_data (wire x30 x03), wire x40 x0d)].
Definition s_tbsdata_codec : Codec ToBeSignedData := TableCodec s_tbsdata_table.
#[local] Existing Instance s_tbsdata_codec.

(** The envelope around a ToBeSignedData, as a structure. *)
Definition s_envelope (tbs : ToBeSignedData) (priv cert : bytes) (hid : hid8) : Ieee1609Dot2Data :=
  let e := signed_msg.signed_data_hash (coer.encode tbs) cert NistP256 in
  let sig := default (MkSignature (sb.default_ _) (sb.default_ _))
               (crypto.ecdsa_sign_digest_curve priv e NistP256 0%Z).1 in
  let signer := if empty cert then SignerIdentifier_self else SignerIdentifier_digest hid in
  MkIeee1609Dot2Data kIeee1609Dot2Version (Some (signedData (Some
    (MkSignedData HashAlgorithm_sha256 (Some tbs) (Some signer)
       (Some (sign.build_asn_signature sig NistP256)))))).

Definition s_by (ci : CertInfo) (d : Z) (pl : bytes) : Ieee1609Dot2Data :=
  s_envelope (s_tbs_data pl) (s_priv d) (sb.to_vector (cert_bytes ci)) (hashed_id_8 ci).
Definition s_self (d : Z) (pl : bytes) : Ieee1609Dot2Data :=
  s_envelope (s_tbs_data pl) (s_priv d) [] (zeros 8).

(** The encryption to a CA, as a structure with its AES key. *)
Definition s_encrypted (ci : CertInfo) (pt : bytes) (g : Z) : Ieee1609Dot2Data * bytes :=
  match (request.encrypt_to ci pt g).1 with
  | Ok (w, e) => (w, Ecies.aes_key e)
  | Err _ => (MkIeee1609Dot2Data 0 None, [])
  end.

Definition s_sealed (key pt : bytes) : Ieee1609Dot2Data :=
  let nonce := zeros kAesCcmNonceLen in
  enc.psk_response (zeros 8) nonce
    (default (MkAesCcmResult [] []) (ecies.aes_128_ccm_encrypt key nonce pt)).

Definition s_ec_enc := Eval vm_compute in s_encrypted ea_ci (wire x50 x04) 30%Z.
Definition s_ec_sig := Eval vm_compute in s_encrypted ea_ci (wire x50 x08) 35%Z.
Definition s_inner_at := Eval vm_compute in at_.inner_at_request s_at_desc s_shared s_ec_sig.1.
(** The generator after the first encryption: one key pair, one key, one nonce. *)
Definition s_at_enc := Eval vm_compute in s_encrypted aa_ci (wire x50 x09) 38%Z.

Definition s_inner_at_codec : Codec InnerAtRequest := TableCodec [(s_inner_at, wire x64 x01)].
#[local] Existing Instance s_inner_at_codec.
Lemma s_inner_at_codec_ok : CodecOk InnerAtRequest.
Proof. apply TableCodec_ok. vm_compute. reflexivity. Qed.

Definition s_data_table : list (Ieee1609Dot2Data * bytes) := Eval vm_compute in
    [(s_by rca_ci rca_d (wire x30 x01), wire x50 x01);
     (s_by rca_ci rca_d (wire x30 x02), wire x50 x02);
     (s_self its_d (wire x60 x01), wire x50 x03);
     (s_self its_d ([x01; x80] ++ wire x50 x03), wire x50 x04);
     (s_ec_enc.1, wire x50 x05);
     (s_by ea_ci ea_d ([x01; x81] ++ wire x61 x01), wire x50 x06);
     (s_sealed s_ec_enc.2 (wire x50 x06), wire x50 x07);
     (s_envelope s_ext_tbs (s_priv its_d) ec_coer (hashed_id_8 ec_ci), wire x50 x08);
     (s_self at_d ([x01; x82] ++ wire x64 x01), wire x50 x09);
     (s_at_enc.1, wire x50 x0a);
     (s_by aa_ci aa_d ([x01; x83] ++ wire x65 x01), wire x50 x0b);
     (s_sealed s_at_enc.2 (wire x50 x0b), wire x50 x0c);
     (s_envelope (s_tbs_data (wire x30 x03)) (s_priv tlm_d) tlm_coer (s_hid tlm_coer), wire x50 x0d)].
Definition s_data_codec : Codec Ieee1609Dot2Data := TableCodec s_data_table.
#[local] Existing Instance s_data_codec.
Lemma s_data_codec_ok : CodecOk Ieee1609Dot2Data.
Proof. apply TableCodec_ok. vm_compute. reflexivity. Qed.

(** The answers of the two authorities. *)
Definition s_ec_response : InnerEcResponse := Eval vm_compute in
  MkInnerEcResponse (take 16 (crypto.hash_sha256 (wire x50 x05))) 0 (Some ec_struct).
Definition s_ec_response_codec : Codec InnerEcResponse := TableCodec [(s_ec_response, wire x61 x01)].
#[local] Existing Instance s_ec_response_codec.
Lemma s_ec_response_codec_ok : CodecOk InnerEcResponse.
Proof. apply TableCodec_ok. vm_compute. reflexivity. Qed.

Definition s_at_response : InnerAtResponse := Eval vm_compute in
  MkInnerAtResponse (take 16 (crypto.hash_sha256 (wire x50 x0a))) 0 (Some at_struct).
Definition s_at_response_codec : Codec InnerAtResponse := TableCodec [(s_at_response, wire x65 x01)].
#[local] Existing Instance s_at_response_codec.
Lemma s_at_response_codec_ok : CodecOk InnerAtResponse.
Proof. apply TableCodec_ok. vm_compute. reflexivity. Qed.

(** The messages the operations of the model produce are the ones of the tables. *)
Lemma s_crl_signed :
  sign.build_signed_by_cert
    (coer.encode (MkEtsiTs102941Data 1 (Some (certificateRevocationList (Some s_crl))))) rca_ci
    (s_priv rca_d) (curve rca_ci) s_now 0%Z
  = (wire x50 x01, 0%Z).
Proof. vm_compute. reflexivity. Qed.

Lemma s_ec_encoded :
  exists res, ec.encode_ec_request s_ec_desc ea_ci (s_priv its_d) s_now s_now 30%Z = (Ok res, 33%Z) /\
    sb.to_vector (ec_encoded res) = wire x50 x05 /\ sb.to_vector (ec_request_aes_key res) = s_ec_enc.2.
Proof. eexists. vm_compute. split_and!; reflexivity. Qed.

Lemma s_at_encoded :
  exists res, at_.encode_at_request s_at_desc aa_ci ea_ci ec_ci (s_priv its_d) (s_priv at_d) s_now s_now
      35%Z = (Ok res, 41%Z) /\
    sb.to_vector (at_encoded res) = wire x50 x0a /\ sb.to_vector (at_request_aes_key res) = s_at_enc.2.
Proof. eexists. vm_compute. split_and!; reflexivity. Qed.

Lemma s_ec_decoded :
  exists r, ec.decode_ec_response (wire x50 x07) (s_priv its_d) s_ec_enc.2 (wire x50 x05) ea_ci = Ok r /\
    ec_response_code r = EC_Ok.
Proof. eexists. vm_compute. split_and!; reflexivity. Qed.

Lemma s_at_decoded :
  exists r, at_.decode_at_response (wire x50 x0c) (s_priv at_d) s_at_enc.2 (wire x50 x0a) aa_ci = Ok r /\
    at_response_code r = AT_Ok.
Proof. eexists. vm_compute. split_and!; reflexivity. Qed.

(** ** The network, the disk and the client *)

(** PEM for the executable stand-in: the scalar and the point, in the open. *)
Definition ToyPem : @Pem ToyOpenSSL := {|
  PEM_write_PrivateKey (k : @EVP_PKEY ToyOpenSSL) :=
    match toy_priv k with
    | Some d => if (0 <=? d)%Z && (d <? 256 ^ 64)%Z then (true, be_bytes 64 d ++ toy_pub k) else (false, [])
    | None => (false, [])
    end;
  PEM_read_PrivateKey b :=
    if length b <? 64 then None
    else Some (MkToyKey (Some (be_val (take 64 b))) (drop 64 b) : @EVP_PKEY ToyOpenSSL);
|}.

#[local] Existing Instance ToyPem.
Lemma ToyPem_ok : PemOk.
Proof.
  split.
  - intros [[d|] p] b; cbn [PEM_write_PrivateKey PEM_read_PrivateKey ToyPem toy_priv toy_pub]; [|done].
    destruct (_ && _) eqn:Hr; [|done]. bool_props.
    pose proof (length_be_bytes 64 d) as Hl. pose proof (be_val_bytes 64 d) as Hv.
    generalize dependent (be_bytes 64 d). intros h Hl Hv [= <-].
    destruct (Nat.ltb_spec (length (h ++ p)) 64) as [Hlt|_].
    { rewrite length_app, Hl in Hlt. lia. }
    rewrite take_app_length', drop_app_length' by done. by rewrite Hv.
  - by intros c d xy k [= <-] _.
  - intros c d pub k [= <-] Hl. cbn [EVP_PKEY_get_bits ToyOpenSSL toy_pub]. rewrite Hl. by destruct c.
Qed.


(** The servers: enrolment at http://ea, authorization at http://aa, the trust list
    manager at http://cpoc, the distribution centre at http://dc. *)
Definition s_reply (o : curl_opts) : option bytes :=
  match o_post o with
  | Some b =>
      if bool_decide (o_url o = "http://ea"%string) && bytes_eqb b (wire x50 x05)
      then Some (wire x50 x07)
      else if bool_decide (o_url o = "http://aa"%string) && bytes_eqb b (wire x50 x0a)
      then Some (wire x50 x0c) else None
  | None =>
      let rca := tlist.hid8_hex_upper (hashed_id_8 rca_ci) in
      if bool_decide (o_url o = "http://cpoc/tlm"%string) then Some tlm_coer
      else if bool_decide (o_url o = "http://cpoc/cert/ea"%string) then Some ea_coer
      else if bool_decide (o_url o = "http://cpoc/cert/aa"%string) then Some aa_coer
      else if bool_decide (o_url o = "http://cpoc/trustanchor"%string) then Some rca_coer
      else if bool_decide (o_url o = "http://cpoc/ma"%string) then Some rca_coer
      else if bool_decide (o_url o = "http://cpoc/getectl"%string) then Some (wire x50 x0d)
      else if bool_decide (o_url o = "http://cpoc/getectl/" ++ tlist.hid8_hex_upper (s_hid tlm_coer))%string
      then Some (wire x50 x0d)
      else if bool_decide (o_url o = "http://dc/getctl/" ++ rca)%string then Some (wire x50 x02)
      else if bool_decide (o_url o = "http://cpoc/getcrl/" ++ rca)%string then Some (wire x50 x01)
      else None
  end.

Definition s_net : Transport := {|
  net := nat;
  curl_easy_init n := (true, n);
  curl_easy_perform o n :=
    (match s_reply o with
     | Some b => MkTransfer CURLE_OK 200 [b] []
     | None => MkTransfer CURLE_OK 404 [] []
     end, S n);
|}.
#[local] Existing Instance s_net.

Definition s_handle (s : string) : KeyHandle := default (MkKeyHandle (sb.default_ _)) (handle.from s).
Definition s_kp (d : Z) : KeyPair :=
  MkKeyPair (default (sb.default_ _) (sb.from _ (s_pub d)))
    (default (sb.default_ _) (sb.from _ (s_priv d))).
Definition s_fs : fsys :=
  snd (pfks.store_keypair "/keys" (snd (pfks.store_keypair "/keys" disk.blank
    (s_handle "its") (s_kp its_d))) (s_handle "at") (s_kp at_d)).

Definition s_config : PkiClientConfig :=
  MkPkiClientConfig "http://ea" "http://aa" "http://cpoc" "" "" "/trust" "/keys" "" 30 true false.

(** The trust directory holds the root and the two authorities. *)
Definition s_dir : list dir_entry :=
  [MkDirEntry "rca_root.cert" true (Some rca_coer); MkDirEntry "README" true (Some [x00]);
   MkDirEntry "ea_one.cert" true (Some ea_coer); MkDirEntry "aa_one.cert" true (Some aa_coer);
   MkDirEntry "old.cert" false None].

(** The client for enrolment and for authorization (they differ in the state of the
    generator), and one that starts from nothing. *)
Definition s_client (g : Z) : client := pki.create s_config (Some s_dir) g 0 s_fs.
Definition s_bare_client : client :=
  pki.create (MkPkiClientConfig "" "" "http://cpoc" "" "" "" "/keys" "" 30 true true) None 0%Z 0 s_fs.

Definition s_clock : nat -> Z := fun _ => s_now.

(** Each operation of the client succeeds in this deployment. *)
Lemma s_enrol_ok :
  has_value (fst (pki.request_enrolment_credential (s_handle "its") s_ec_record s_clock (s_client 30)))
  = true.
Proof. vm_compute. reflexivity. Qed.
Lemma s_authorize_ok :
  has_value (fst (pki.request_authorization_ticket (s_handle "its") ec_ci (s_handle "at") s_at_record
    s_clock (s_client 34))) = true.
Proof. vm_compute. reflexivity. Qed.
Lemma s_discover_ok : has_value (fst (pki.discover_trust s_clock s_bare_client)) = true.
Proof. vm_compute. reflexivity. Qed.
Lemma s_fetch_crl_ok :
  has_value (fst (pki.fetch_crl (hashed_id_8 rca_ci) s_clock (s_client 0))) = true.
Proof. vm_compute. reflexivity. Qed.

End scenario.
