(* ===== verification/ToolScenario.v ===== *)
(** The deployment of Scenario.v as the two command-line programs see it: worlds,
    options and configurations on which every command succeeds. *)
From stdpp Require Import gmap.
From S2P Require Import Prelude Result Sizes StaticBytes Asn OpenSSL CryptoEc CurvePoint Concrete CertParse TrustChain.
From S2P Require Import TrustList EcRequest AtRequest Http Disk KeyStore PkiClient Tool CliArgs CliIo.
From S2P Require Import CliCommands KeyPem WireDump Flow Double Provisioner Scenario.
Import scenario.
Local Open Scope string_scope.

Module tools.
#[export] Existing Instance ToyOpenSSL.
#[export] Existing Instance ToyPem.
#[export] Existing Instance s_net.
#[export] Existing Instance s_uninit.
#[export] Existing Instance s_inner_ec_codec.
#[export] Existing Instance s_pvk_codec.
#[export] Existing Instance s_uninit_hmac.
#[export] Existing Instance s_shared_codec.
#[export] Existing Instance s_tbsdata_codec.
#[export] Existing Instance s_inner_at_codec.
#[export] Existing Instance s_data_codec.
#[export] Existing Instance s_ec_response_codec.
#[export] Existing Instance s_at_response_codec.

(** The authorities with an encryption key, their signing key: the wire images, and so
    all digests and signatures, are those of Scenario.v. *)
Definition keyed (tbs : ToBeSignedCertificate) (d : Z) : ToBeSignedCertificate :=
  {| tbs_id := tbs_id tbs; cracaId := cracaId tbs; crlSeries := crlSeries tbs;
     validityPeriod := validityPeriod tbs; appPermissions := appPermissions tbs;
     certIssuePermissions := certIssuePermissions tbs;
     encryptionKey := Some (MkPublicEncryptionKey 0
       (Some (bpek_eciesNistP256 (point.from_sec1 (s_pub d)))));
     verifyKeyIndicator := verifyKeyIndicator tbs; tbs_other := tbs_other tbs |}.
Definition keyed_cert (c : CertificateBase) (d : Z) : CertificateBase :=
  {| cert_version := cert_version c; cert_type := cert_type c; issuer := issuer c;
     toBeSigned := option_map (fun tbs => keyed tbs d) (toBeSigned c); cert_signature := cert_signature c |}.

#[export] Instance t_tbs_codec : Codec ToBeSignedCertificate :=
  TableCodec [(rca_tbs, wire x10 x01); (keyed ea_tbs ea_d, wire x10 x02);
    (keyed aa_tbs aa_d, wire x10 x03); (ec_tbs, wire x10 x04); (at_tbs, wire x10 x05);
    (tlm_tbs, wire x10 x06)].

Definition t_ea := Eval vm_compute in keyed_cert ea_struct ea_d.
Definition t_aa := Eval vm_compute in keyed_cert aa_struct aa_d.
Definition t_cert_table : list (CertificateBase * bytes) :=
  [(rca_struct, rca_coer); (t_ea, ea_coer); (t_aa, aa_coer); (ec_struct, ec_coer);
   (at_struct, at_coer); (tlm_struct, tlm_coer)].
#[export] Instance t_cert_codec : Codec CertificateBase := TableCodec t_cert_table.
#[export] Instance t_etsi_cert_codec : Codec EtsiTs103097Certificate :=
  TableCodec (map (fun e => (MkEtsiTs103097Certificate e.1, e.2)) t_cert_table).

Definition t_ctl : CtlFormat :=
  MkCtlFormat 1 794224005 true 0
    [Some (CtlCommand_add (Some (CtlEntry_ea (Some (MkEaEntry (Some t_ea) (bytes_of_string "http://aa")
       (Some (bytes_of_string "http://ea")))))));
     Some (CtlCommand_add (Some (CtlEntry_aa (Some (MkAaEntry (Some t_aa) (bytes_of_string "http://aa"))))))].
#[export] Instance t_etsi_codec : Codec EtsiTs102941Data :=
  TableCodec [(s_crl_data, wire x30 x01);
    (MkEtsiTs102941Data 1 (Some (certificateTrustListRca (Some t_ctl))), wire x30 x02);
    (s_ectl_data, wire x30 x03)].

(** SEC1 for the stand-in is its PEM. *)
#[export] Instance s_sec1 : Sec1 := fun k =>
  match PEM_write_PrivateKey k with (true, b) => Some b | _ => None end.
#[export] Instance s_sec1_ok : Sec1Ok.
Proof.
  intros k b H. unfold OSSL_ENCODER_to_bio, s_sec1 in H.
  destruct (PEM_write_PrivateKey k) as [[|] b'] eqn:E; [|done]. injection H as ->.
  by apply (pem_round_trip (PemOk := ToyPem_ok)).
Qed.
#[export] Instance s_strerror : ErrorText := fun _ => "Input/output error".
#[export] Instance s_version : BuildInfo := "0.1.0".
#[export] Instance s_issuer_junk : UninitIssuer := zeros 8.

(** The world with a given disk and generator, at the time of the scenario. *)
Definition world_at (fs : fsys) (g : Z) : world := MkWorld fs 0%nat g "" "" 0 (fun _ _ => s_now).

Definition cli_args : Args :=
  MkArgs "enrol" "http://cpoc" "/out" "" "" "http://ea" "http://aa" "/keys" "" "" "" "" "its" "" false
    "" true false.

(** The disk after enrolment: the canonical key and the credential. *)
Definition enrolled_fs : fsys :=
  (cio.write_file "/keys/ec.cert" ec_coer s_fs).2.

Definition s_cfg : Config :=
  MkConfig "http://cpoc" "" "/v3" 24 (dbl.atof "0.8") [36%Z] 30 true "/dump" NistP256 false.

(** The whole provisioning run succeeds, in one shot. *)
Lemma provision_ok : (prov.provision (fun _ => true) 1 s_cfg (world_at disk.blank 29)).1 = Ret (Some 0%Z).
Proof. vm_compute. reflexivity. Qed.

End tools.
