(* ===== verification/CHeap.v ===== *)
(** The C heap the client's ASN.1 structures and OpenSSL objects live in.

    A cell is one allocation: a struct with its members, or the buffer of an
    OCTET STRING or of an INTEGER.  A struct records its type (the type descriptor
    asn1c generates for it, or the OpenSSL type), for a CHOICE the alternative its
    [present] member selects and the alternative its union was written as, and the
    members.  An embedded OCTET_STRING_t is the pointer to its buffer; a SEQUENCE OF
    has one anonymous member per element, the array that holds them being part of it.

    A program is a state transformer over the heap that gives [None] for what C
    leaves undefined: using or freeing a cell that is not allocated, releasing an
    object through the release function of another type, a member that does not
    exist, reading a union through an alternative it was not written as.  [sched]
    holds the outcomes of the library calls still to come, [true] for a call that
    fails; after its end every call succeeds. *)
From S2P Require Import Prelude.

Abbreviation loc := positive.
Abbreviation ptr := (option positive).

Inductive cval :=
  | CInt (z : Z)
  | CPtr (p : ptr).

Inductive cell :=
  | Buf (b : bytes)
  | IntBuf (z : Z)
  | Struct (ty present alt : string) (fs : list (string * cval)).

Abbreviation heap := (gmap loc cell).

Record cstate := MkCState {
  cells : heap;
  sched : list bool;
}.

Definition M (A : Type) : Type := cstate -> option (A * cstate).

#[export] Instance M_ret : MRet M := fun A a s => Some (a, s).
#[export] Instance M_bind : MBind M := fun A B f m s =>
  match m s with
  | Some (a, s) => f a s
  | None => None
  end.

Module mem.

Definition undefined {A} : M A := fun _ => None.

(** ** Cells *)

Definition alloc (c : cell) : M loc := fun s =>
  let l := fresh (dom (cells s)) in
  Some (l, MkCState (<[l := c]> (cells s)) (sched s)).

Definition load (l : loc) : M cell := fun s =>
  match cells s !! l with
  | Some c => Some (c, s)
  | None => None
  end.

Definition store (l : loc) (c : cell) : M () := fun s =>
  match cells s !! l with
  | Some _ => Some ((), MkCState (<[l := c]> (cells s)) (sched s))
  | None => None
  end.

(** [free] of one cell. *)
Definition dealloc (l : loc) : M () := fun s =>
  match cells s !! l with
  | Some _ => Some ((), MkCState (delete l (cells s)) (sched s))
  | None => None
  end.

(** The outcome of a library call that may fail. *)
Definition fails : M bool := fun s =>
  match sched s with
  | [] => Some (false, s)
  | b :: rest => Some (b, MkCState (cells s) rest)
  end.

Definition heap_size : M nat := fun s => Some (size (cells s), s).

(** ** Members *)

Fixpoint update (f : string) (v : cval) (fs : list (string * cval)) : list (string * cval) :=
  match fs with
  | [] => []
  | (g, w) :: rest => if String.eqb f g then (g, v) :: rest else (g, w) :: update f v rest
  end.

Fixpoint member (f : string) (fs : list (string * cval)) : option cval :=
  match fs with
  | [] => None
  | (g, w) :: rest => if String.eqb f g then Some w else member f rest
  end.

(** [o.f = v] *)
Definition set_member (o : cell) (f : string) (v : cval) : option cell :=
  match o with
  | Struct ty p a fs =>
      match member f fs with
      | Some _ => Some (Struct ty p a (update f v fs))
      | None => None
      end
  | _ => None
  end.

Definition get_member (o : cell) (f : string) : option cval :=
  match o with
  | Struct _ _ _ fs => member f fs
  | _ => None
  end.

Definition get_choice (o : cell) (alt f : string) : option cval :=
  match o with
  | Struct _ _ a fs => if String.eqb alt a then member f fs else None
  | _ => None
  end.

(** [o.present = alt] *)
Definition set_present (o : cell) (p : string) : option cell :=
  match o with
  | Struct ty _ a fs => Some (Struct ty p a fs)
  | _ => None
  end.

(** [o.choice.alt.f = v]: writing another alternative than the last one replaces the
    contents of the union. *)
Definition set_choice (o : cell) (alt f : string) (v : cval) : option cell :=
  match o with
  | Struct ty p a fs =>
      Some (if String.eqb alt a
            then match member f fs with
                 | Some _ => Struct ty p a (update f v fs)
                 | None => Struct ty p a (fs ++ [(f, v)])
                 end
            else Struct ty p alt [(f, v)])
  | _ => None
  end.

(** ASN_SEQUENCE_ADD *)
Definition append_member (o : cell) (v : cval) : option cell :=
  match o with
  | Struct ty p a fs => Some (Struct ty p a (fs ++ [(EmptyString, v)]))
  | _ => None
  end.

Definition lift {A} (o : option A) : M A := fun s =>
  match o with
  | Some a => Some (a, s)
  | None => None
  end.

(** Apply an update of the pointed-to struct. *)
Definition modify (l : loc) (f : cell -> option cell) : M () :=
  o ← load l; o ← lift (f o); store l o.

(** [p->f = v], [p->present = alt], [p->choice.alt = v], ASN_SEQUENCE_ADD(&p->list, v) *)
Definition assign (l : loc) (f : string) (v : cval) : M () :=
  modify l (fun o => set_member o f v).
Definition select (l : loc) (p : string) : M () := modify l (fun o => set_present o p).
Definition assign_choice (l : loc) (alt : string) (v : cval) : M () :=
  modify l (fun o => set_choice o alt alt v).
Definition sequence_add (l : loc) (v : cval) : M () := modify l (fun o => append_member o v).

(** ** Walking a structure

    A descriptor leads asn1c from a struct to what its members own: the alternative
    [present] names for a CHOICE, every member otherwise.  [n] bounds the depth. *)

Definition well_selected (present alt : string) (fs : list (string * cval)) : bool :=
  String.eqb present alt || match fs with [] => true | _ => false end.

Fixpoint free_members (free1 : cval -> M ()) (fs : list (string * cval)) : M () :=
  match fs with
  | [] => mret ()
  | (_, v) :: rest => free1 v;; free_members free1 rest
  end.

Fixpoint free_val (n : nat) (v : cval) : M () :=
  match v with
  | CInt _ | CPtr None => mret ()
  | CPtr (Some l) =>
      match n with
      | O => undefined
      | S n =>
          o ← load l;
          match o with
          | Struct _ present alt fs =>
              if well_selected present alt fs
              then free_members (free_val n) fs;; dealloc l
              else undefined
          | _ => dealloc l
          end
      end
  end.

Definition free_rec (v : cval) : M () := n ← heap_size; free_val (S n) v.

(** [ASN_STRUCT_FREE(desc, p)], and the release function of an OpenSSL type: nothing
    for a null pointer. *)
Definition struct_free (desc : string) (p : ptr) : M () :=
  match p with
  | None => mret ()
  | Some l =>
      o ← load l;
      match o with
      | Struct ty _ _ _ => if String.eqb desc ty then free_rec (CPtr (Some l)) else undefined
      | _ => undefined
      end
  end.

(** [ASN_STRUCT_FREE_CONTENTS_ONLY(desc, &local)] *)
Definition free_contents (desc : string) (o : cell) : M () :=
  match o with
  | Struct ty present alt fs =>
      if String.eqb desc ty && well_selected present alt fs
      then free_members free_rec fs
      else undefined
  | _ => undefined
  end.

End mem.
