(* ===== verification/HeapLogic.v ===== *)
(** A linear separation logic over the C heap, with the Iris proof mode.

    An assertion describes exactly the cells it owns, so a proof cannot forget one:
    a program whose postcondition owns nothing has released everything it
    allocated.  [wp m Q] says that [m] runs without undefined behaviour whatever
    the library calls answer, touches no cell it does not own, and ends owning
    what [Q] says. *)
From iris.proofmode Require Import proofmode.
From S2P Require Import Prelude CHeap.

(** ** Assertions *)

Record hprop := HProp { hholds :> heap -> Prop }.
Arguments hholds _ _ /.

#[export] Instance hprop_equiv : Equiv hprop := fun P Q => forall h, P h <-> Q h.
#[export] Instance hprop_equivalence : Equivalence (≡@{hprop}).
Proof.
  split; repeat intro; [done|by symmetry|].
  etrans; match goal with H : _ ≡ _ |- _ => apply H end.
Qed.
#[warnings="-redundant-canonical-projection"]
Canonical Structure hpropO := discreteO hprop.

Section connectives.
Implicit Types P Q : hprop.

Inductive hentails P Q : Prop := { hentails_at : forall h, P h -> Q h }.
Definition hemp : hprop := {| hholds h := h = ∅ |}.
Definition hpure (φ : Prop) : hprop := {| hholds _ := φ |}.
Definition hand P Q : hprop := {| hholds h := P h /\ Q h |}.
Definition hor P Q : hprop := {| hholds h := P h \/ Q h |}.
Definition himpl P Q : hprop := {| hholds h := P h -> Q h |}.
Definition hforall {A} (Φ : A -> hprop) : hprop := {| hholds h := forall x, Φ x h |}.
Definition hexist {A} (Φ : A -> hprop) : hprop := {| hholds h := exists x, Φ x h |}.
Definition hsep P Q : hprop :=
  {| hholds h := exists h1 h2, h = h1 ∪ h2 /\ h1 ##ₘ h2 /\ P h1 /\ Q h2 |}.
Definition hwand P Q : hprop :=
  {| hholds h := forall h', h ##ₘ h' -> P h' -> Q (h ∪ h') |}.
Definition hpers P : hprop := hpure (hentails hemp P).
Definition hlater P : hprop := P.
Definition hpoints (l : loc) (c : cell) : hprop := {| hholds h := h = {[ l := c ]} |}.
End connectives.

(** ** The laws *)

Section laws.
Implicit Types P Q R : hprop.

Lemma hsep_comm P Q : hentails (hsep P Q) (hsep Q P).
Proof.
  split; intros h (h1 & h2 & -> & Hd & HP & HQ).
  exists h2, h1. split_and!; [by apply map_union_comm|done..].
Qed.

Lemma hsep_assoc P Q R : hentails (hsep (hsep P Q) R) (hsep P (hsep Q R)).
Proof.
  split; intros ? (? & h3 & -> & Hd & (h1 & h2 & -> & Hd' & HP & HQ) & HR).
  apply map_disjoint_union_l in Hd as [Hd1 Hd2].
  exists h1, (h2 ∪ h3). split_and!; [by rw assoc_L| |done|by exists h2, h3].
  by apply map_disjoint_union_r_2.
Qed.

Lemma hemp_sep P : hentails P (hsep hemp P) /\ hentails (hsep hemp P) P.
Proof.
  split; split; intros h.
  - intros HP. exists ∅, h. split_and!; [by rw left_id_L|apply map_disjoint_empty_l|done..].
  - intros (? & h2 & -> & _ & -> & HP). by rw left_id_L.
Qed.

Lemma hprop_bi_mixin :
  BiMixin hentails hemp hpure hand hor himpl (@hforall) (@hexist) hsep hwand.
Proof.
  split.
  - split; [by split|]. intros P Q R [H1] [H2]. split. auto.
  - intros P Q. split.
    + intros H. split; split; apply H.
    + intros [[H1] [H2]] h. split; auto.
  - intros n φ φ' H h. apply H.
  - intros n P P' HP Q Q' HQ h. split; intros [??]; split; by first [apply HP|apply HQ].
  - intros n P P' HP Q Q' HQ h. split; intros [?|?]; (left + right); by first [apply HP|apply HQ].
  - intros n P P' HP Q Q' HQ h. split; intros H ?%HP; by apply HQ, H.
  - intros A n Φ Ψ H h. split; intros Hx x; by apply H.
  - intros A n Φ Ψ H h. split; intros [x Hx]; exists x; by apply H.
  - intros n P P' HP Q Q' HQ h.
    split; intros (h1&h2&?&?&?&?); exists h1, h2; split_and!; try done; by first [apply HP|apply HQ].
  - intros n P P' HP Q Q' HQ h. split; intros H h' Hd ?%HP; by apply HQ, H.
  - by split.
  - intros φ P H. split. intros h Hφ. by apply H.
  - by split; intros ? [].
  - by split; intros ? [].
  - intros P Q R [H1] [H2]. by split; split; [apply H1|apply H2].
  - by split; left.
  - by split; right.
  - intros P Q R [H1] [H2]. split; intros h [?|?]; auto.
  - intros P Q R [H]. split; intros h ??. by apply H.
  - intros P Q R [H]. split; intros h [??]. by apply H.
  - intros A P Ψ H. split; intros h ? x. by apply H.
  - intros A Ψ x. split; intros h H. apply H.
  - intros A Ψ x. split; intros h H. by exists x.
  - intros A Φ Q H. split; intros h [x ?]. by apply (H x).
  - intros P P' Q Q' [H1] [H2]. split; intros h (h1&h2&?&?&?&?). exists h1, h2. auto.
  - intros P. apply hemp_sep.
  - intros P. apply hemp_sep.
  - apply hsep_comm.
  - apply hsep_assoc.
  - intros P Q R [H]. split; intros h HP h' Hd HQ. apply H. by exists h, h'.
  - intros P Q R [H]. split; intros ? (h1&h2&->&?&?&?). by apply H.
Qed.

Lemma hprop_pers_mixin : BiPersistentlyMixin hentails hemp hand (@hexist) hsep hpers.
Proof.
  eapply bi_persistently_mixin_discrete, hprop_bi_mixin; [done| |done].
  intros A Φ [H]. destruct (H ∅ eq_refl) as [x Hx]. exists x. by split; intros ? ->.
Qed.

Lemma hprop_later_mixin :
  BiLaterMixin hentails hpure hor himpl (@hforall) (@hexist) hsep hpers hlater.
Proof. by eapply bi_later_mixin_id, hprop_bi_mixin. Qed.

End laws.

Canonical Structure hpropI : bi :=
  {| bi_ofe_mixin := ofe_mixin_of hprop;
     bi_bi_mixin := hprop_bi_mixin;
     bi_bi_persistently_mixin := hprop_pers_mixin;
     bi_bi_later_mixin := hprop_later_mixin |}.

#[export] Instance hprop_pure_forall : BiPureForall hpropI.
Proof. intros A φ. by split. Qed.

Notation "l ↦ c" := (hpoints l c) (at level 20, format "l  ↦  c") : bi_scope.
(** A fact that owns nothing. *)
Notation "⌞ φ ⌟" := (<affine> ⌜ φ ⌝)%I (at level 0, φ at level 200, format "⌞ φ ⌟") : bi_scope.

(** The assertions at the level of heaps. *)
Lemma hentails_iff (P Q : hpropI) : (P ⊢ Q) <-> forall h, P h -> Q h.
Proof. split; [by intros []|by split]. Qed.

Lemma hequiv_at (P Q : hpropI) h : (P ⊣⊢ Q) -> P h <-> Q h.
Proof. intros H. apply H. Qed.

Lemma affine_pure_at φ h : (⌞ φ ⌟%I : hpropI) h <-> h = ∅ /\ φ.
Proof. done. Qed.

(** ** Weakest preconditions *)

Definition wp {A} (m : M A) (Q : A -> hpropI) : hpropI :=
  HProp (fun h => forall hf s, h ##ₘ hf -> exists a h' s',
    m (MkCState (h ∪ hf) s) = Some (a, MkCState (h' ∪ hf) s') /\ h' ##ₘ hf /\ Q a h').

Section wp.
Context {A B : Type}.
Implicit Types (m : M A) (Q : A -> hpropI).

Lemma wp_ret (a : A) Q : Q a ⊢ wp (mret a) Q.
Proof. apply hentails_iff. intros h HQ hf s Hd. by exists a, h, s. Qed.

Lemma wp_bind m (f : A -> M B) (Q : B -> hpropI) :
  wp m (fun a => wp (f a) Q) ⊢ wp (m ≫= f) Q.
Proof.
  apply hentails_iff. intros h Hm hf s Hd. destruct (Hm hf s Hd) as (a & h1 & s1 & E & Hd1 & H1).
  destruct (H1 hf s1 Hd1) as (b & h2 & s2 & E2 & Hd2 & H2). exists b, h2, s2.
  split_and!; [|done|done]. unfold mbind, M_bind. by rw E.
Qed.

Lemma wp_wand m Q Q' : wp m Q ⊢ (∀ a, Q a -∗ Q' a) -∗ wp m Q'.
Proof.
  apply bi.wand_intro_l. rw bi.sep_comm. apply hentails_iff.
  intros ? (h & hw & -> & Hd & Hm & Hw) hf s Hd'.
  apply map_disjoint_union_l in Hd' as [Hd1 Hd2].
  destruct (Hm (hw ∪ hf) s) as (a & h' & s' & E & Hd3 & HQ).
  { by apply map_disjoint_union_r_2. }
  apply map_disjoint_union_r in Hd3 as [Hd3 Hd4].
  exists a, (h' ∪ hw), s'. split_and!.
  - by rw -!assoc_L.
  - by apply map_disjoint_union_l_2.
  - rw map_union_comm //. apply (Hw a). { by symmetry. } done.
Qed.

Lemma wp_frame m Q R : wp m Q ∗ R ⊢ wp m (fun a => Q a ∗ R).
Proof. iIntros "[H R]". iApply (wp_wand with "H"). iIntros (a) "$". done. Qed.

End wp.

Section primitives.
Implicit Types (Q : () -> hpropI).

Lemma wp_alloc c (Q : loc -> hpropI) : (∀ l, l ↦ c -∗ Q l) ⊢ wp (mem.alloc c) Q.
Proof.
  apply hentails_iff. intros h HQ hf s Hd. unfold mem.alloc. simpl.
  set (l := fresh (dom (h ∪ hf))).
  assert (Hl : l ∉ dom (h ∪ hf)) by apply is_fresh.
  apply not_elem_of_dom in Hl. apply lookup_union_None in Hl as [Hl Hl'].
  exists l, (h ∪ {[ l := c ]}), s. split_and!.
  - do 2 f_equal. rw -(map_union_comm {[l := c]}); [|by apply map_disjoint_singleton_l].
    by rw -insert_union_singleton_l insert_union_l.
  - apply map_disjoint_union_l_2; [done|]. by apply map_disjoint_singleton_l.
  - apply (HQ l); [|done]. by apply map_disjoint_singleton_r.
Qed.

Lemma wp_load l c (Q : cell -> hpropI) : l ↦ c ∗ (l ↦ c -∗ Q c) ⊢ wp (mem.load l) Q.
Proof.
  apply hentails_iff. intros ? (? & h & -> & Hd & -> & HQ) hf s Hd'.
  exists c, ({[ l := c ]} ∪ h), s. split_and!; [|done|].
  - unfold mem.load. simpl. rw -assoc_L lookup_union_l' ?lookup_singleton_eq //.
  - rw map_union_comm //. by apply HQ.
Qed.

Lemma singleton_update l (c c' : cell) (h hf : heap) :
  {[ l := c ]} ##ₘ h -> {[ l := c ]} ∪ h ##ₘ hf ->
  <[ l := c' ]> (({[ l := c ]} ∪ h) ∪ hf) = ({[ l := c' ]} ∪ h) ∪ hf /\
  {[ l := c' ]} ∪ h ##ₘ hf /\ {[ l := c' ]} ##ₘ h.
Proof.
  intros Hd Hd'. apply map_disjoint_union_l in Hd' as [H1 H2].
  assert (Hl : h !! l = None) by by apply map_disjoint_singleton_l in Hd.
  assert (Hl' : hf !! l = None) by by apply map_disjoint_singleton_l in H1.
  split_and!.
  - rw -!insert_union_singleton_l insert_union_l. by rw insert_insert_eq.
  - apply map_disjoint_union_l_2; [|done]. by apply map_disjoint_singleton_l.
  - by apply map_disjoint_singleton_l.
Qed.

Lemma wp_store l c c' Q : l ↦ c ∗ (l ↦ c' -∗ Q ()) ⊢ wp (mem.store l c') Q.
Proof.
  apply hentails_iff. intros ? (? & h & -> & Hd & -> & HQ) hf s Hd'.
  destruct (singleton_update l c c' h hf Hd Hd') as (E & Hd1 & Hd2).
  exists (), ({[ l := c' ]} ∪ h), s. split_and!; [|done|].
  - unfold mem.store. simpl. rw E.
    rw -assoc_L lookup_union_l' ?lookup_singleton_eq //.
  - rw map_union_comm //. by apply HQ.
Qed.

Lemma wp_dealloc l c Q : l ↦ c ∗ Q () ⊢ wp (mem.dealloc l) Q.
Proof.
  apply hentails_iff. intros ? (? & h & -> & Hd & -> & HQ) hf s Hd'.
  apply map_disjoint_union_l in Hd' as [H1 H2].
  assert (Hl : h !! l = None) by by apply map_disjoint_singleton_l in Hd.
  assert (Hl' : hf !! l = None) by by apply map_disjoint_singleton_l in H1.
  exists (), h, s. split_and!; [|done|done].
  unfold mem.dealloc. simpl. rw -assoc_L -insert_union_singleton_l lookup_insert_eq.
  rw delete_insert_id //. by apply lookup_union_None.
Qed.

Lemma wp_fails (Q : bool -> hpropI) : (Q true ∧ Q false) ⊢ wp mem.fails Q.
Proof.
  apply hentails_iff. intros h [HQ1 HQ2] hf [|b s] Hd; [by exists false, h, []|].
  exists b, h, s. split_and!; [done..|]. by destruct b.
Qed.

Lemma wp_lift {A} (o : option A) a (Q : A -> hpropI) :
  o = Some a -> Q a ⊢ wp (mem.lift o) Q.
Proof. intros ->. apply hentails_iff. intros h HQ hf s Hd. by exists a, h, s. Qed.

Lemma wp_modify l f c c' Q :
  f c = Some c' -> l ↦ c ∗ (l ↦ c' -∗ Q ()) ⊢ wp (mem.modify l f) Q.
Proof.
  iIntros (Hf) "[Hl HQ]". iApply wp_bind. iApply wp_load. iFrame. iIntros "Hl".
  iApply wp_bind. iApply wp_lift; [done|]. iApply wp_store. iFrame.
Qed.

End primitives.

(** ** From triples to runs

    What a program that owns nothing at the start and at the end does to any heap:
    nothing, besides returning. *)
Lemma wp_run {A} (m : M A) (φ : A -> Prop) :
  (⊢ wp m (fun a => ⌞ φ a ⌟)) ->
  forall s, exists a s', m s = Some (a, s') /\ cells s' = cells s /\ φ a.
Proof.
  intros [H] [h s]. destruct (H ∅ eq_refl h s) as (a & h' & s' & E & _ & Hq).
  { apply map_disjoint_empty_l. }
  apply affine_pure_at in Hq as [-> Hφ]. rw !left_id_L in E. eauto.
Qed.

(** The same for a program specified by its result. *)
Lemma wp_run_eq {A} (m : M A) (r : A) :
  (forall Q : A -> hpropI, Q r ⊢ wp m Q) ->
  forall s, exists s', m s = Some (r, s') /\ cells s' = cells s.
Proof.
  intros H s. destruct (wp_run m (fun a => a = r)) with (s := s) as (a & s' & E & Hc & ->); [|eauto].
  iApply H. done.
Qed.
