(* ===== verification/AsnTree.v ===== *)
(** ASN.1 structures in memory: the tree a pointer leads to, what owning it means,
    and the three walks asn1c makes over it with a descriptor: reading it (to encode
    it), building it (to decode into it) and freeing it. *)
From iris.proofmode Require Import proofmode.
From S2P Require Import Prelude CHeap HeapLogic.

(** What a member holds, with the pointers followed.  [TNull] is a null pointer, and
    the empty octet string, whose buffer may be null or have no bytes. *)
#[warnings="-register-all"]
Inductive tree :=
  | TNull
  | TInt (z : Z)
  | TOct (b0 : byte) (b : bytes)
  | TBig (z : Z)
  | TStruct (ty present : string) (fs : list (string * tree)).

Section tree_ind.
Variable P : tree -> Prop.
Hypothesis HNull : P TNull.
Hypothesis HInt : forall z, P (TInt z).
Hypothesis HOct : forall b0 b, P (TOct b0 b).
Hypothesis HBig : forall z, P (TBig z).
Hypothesis HStruct : forall ty p fs, Forall (fun f => P f.2) fs -> P (TStruct ty p fs).

Fixpoint tree_nested_ind (t : tree) : P t :=
  match t with
  | TNull => HNull
  | TInt z => HInt z
  | TOct b0 b => HOct b0 b
  | TBig z => HBig z
  | TStruct ty p fs =>
      HStruct ty p fs
        ((fix go fs : Forall (fun f => P f.2) fs :=
            match fs with
            | [] => List.Forall_nil _
            | (n, t) :: rest => List.Forall_cons _ (n, t) rest (tree_nested_ind t) (go rest)
            end) fs)
  end.
End tree_ind.

(** An octet string of the given contents. *)
Definition octets (b : bytes) : tree := match b with [] => TNull | b0 :: b => TOct b0 b end.

(** Longest chain of structs from a member. *)
Fixpoint depth (t : tree) : nat :=
  match t with
  | TNull | TOct _ _ | TBig _ | TInt _ => 0
  | TStruct _ _ fs =>
      S ((fix go fs := match fs with [] => 0 | (_, t) :: rest => Nat.max (depth t) (go rest) end) fs)
  end.

Fixpoint depths (fs : list (string * tree)) : nat :=
  match fs with [] => 0 | (_, t) :: rest => Nat.max (depth t) (depths rest) end.

Lemma depth_struct ty p fs : depth (TStruct ty p fs) = S (depths fs).
Proof. done. Qed.

(** ** Ownership of a tree *)

Fixpoint holds (t : tree) (v : cval) : hpropI :=
  match t with
  | TNull => ⌞v = CPtr None⌟ ∨ ∃ l, ⌞v = CPtr (Some l)⌟ ∗ l ↦ Buf []
  | TInt z => ⌞v = CInt z⌟
  | TOct b0 b => ∃ l, ⌞v = CPtr (Some l)⌟ ∗ l ↦ Buf (b0 :: b)
  | TBig z => ∃ l, ⌞v = CPtr (Some l)⌟ ∗ l ↦ IntBuf z
  | TStruct ty p fs =>
      ∃ l a vs, ⌞v = CPtr (Some l)⌟ ∗ ⌞mem.well_selected p a vs = true⌟ ∗
        l ↦ Struct ty p a vs ∗
        (fix members fs vs : hpropI :=
           match fs, vs with
           | [], [] => emp
           | (n, t) :: fs, (n', v) :: vs => ⌞n' = n⌟ ∗ holds t v ∗ members fs vs
           | _, _ => False
           end) fs vs
  end%I.

Fixpoint members (fs : list (string * tree)) (vs : list (string * cval)) : hpropI :=
  match fs, vs with
  | [], [] => emp
  | (n, t) :: fs, (n', v) :: vs => ⌞n' = n⌟ ∗ holds t v ∗ members fs vs
  | _, _ => False
  end%I.

(** A struct outside the heap (a local variable) and what it owns. *)
Definition holds_local (t : tree) (o : cell) : hpropI :=
  match t with
  | TStruct ty p fs =>
      ∃ a vs, ⌞o = Struct ty p a vs⌟ ∗ ⌞mem.well_selected p a vs = true⌟ ∗ members fs vs
  | _ => False
  end%I.

Lemma holds_struct ty p fs v :
  holds (TStruct ty p fs) v ⊣⊢
  ∃ l o, ⌞v = CPtr (Some l)⌟ ∗ l ↦ o ∗ holds_local (TStruct ty p fs) o.
Proof.
  iSplit.
  - iIntros "(%l & %a & %vs & % & % & Hl & Hm)". iExists l, _. iFrame "Hl". iSplit; [done|].
    iExists a, vs. by iFrame.
  - iIntros "(%l & %o & % & Hl & %a & %vs & -> & % & Hm)". iExists l, a, vs. by iFrame.
Qed.

Lemma holds_octets b v :
  holds (octets b) v ⊣⊢ (⌞v = CPtr None⌟ ∗ ⌞b = []⌟ ∨ ∃ l, ⌞v = CPtr (Some l)⌟ ∗ l ↦ Buf b).
Proof.
  destruct b as [|x b]; simpl; iSplit.
  - iIntros "[%|(%l & % & H)]"; [by iLeft|]. iRight. iExists l. by iFrame.
  - iIntros "[[% _]|(%l & % & H)]"; [by iLeft|]. iRight. iExists l. by iFrame.
  - iIntros "H". by iRight.
  - iIntros "[[_ %]|H]"; done.
Qed.

(** Ownership of what a decoder has built: null pointers where a component is absent,
    and unions written as the alternative that is selected. *)
Fixpoint exact (t : tree) (v : cval) : hpropI :=
  match t with
  | TNull => ⌞v = CPtr None⌟
  | TInt z => ⌞v = CInt z⌟
  | TOct b0 b => ∃ l, ⌞v = CPtr (Some l)⌟ ∗ l ↦ Buf (b0 :: b)
  | TBig z => ∃ l, ⌞v = CPtr (Some l)⌟ ∗ l ↦ IntBuf z
  | TStruct ty p fs =>
      ∃ l vs, ⌞v = CPtr (Some l)⌟ ∗ l ↦ Struct ty p p vs ∗
        (fix members fs vs : hpropI :=
           match fs, vs with
           | [], [] => emp
           | (n, t) :: fs, (n', v) :: vs => ⌞n' = n⌟ ∗ exact t v ∗ members fs vs
           | _, _ => False
           end) fs vs
  end%I.

Fixpoint exact_members (fs : list (string * tree)) (vs : list (string * cval)) : hpropI :=
  match fs, vs with
  | [], [] => emp
  | (n, t) :: fs, (n', v) :: vs => ⌞n' = n⌟ ∗ exact t v ∗ exact_members fs vs
  | _, _ => False
  end%I.

Lemma exact_struct ty p fs v :
  exact (TStruct ty p fs) v ⊣⊢
  ∃ l vs, ⌞v = CPtr (Some l)⌟ ∗ l ↦ Struct ty p p vs ∗ exact_members fs vs.
Proof. done. Qed.

Lemma exact_holds t v : exact t v ⊢ holds t v.
Proof.
  revert v. induction t as [| | | |ty p fs IH] using tree_nested_ind; intros v; try done.
  - iIntros "->". by iLeft.
  - rw exact_struct holds_struct. iIntros "(%l & %vs & -> & Hl & Hm)". iExists l, _. iFrame "Hl".
    iSplit; [done|]. iExists p, vs. iSplit; [done|]. iSplit.
    { iPureIntro. unfold mem.well_selected. by rw String.eqb_refl. }
    iInduction IH as [|[n t] fs Ht HF IH'] forall (vs); destruct vs as [|[n' v] vs]; try done.
    simpl. iDestruct "Hm" as "($ & Hv & Hm)". iSplitL "Hv"; [by iApply Ht|]. by iApply "IH'".
Qed.

(** ** The walks *)

Module asn.

Fixpoint read_members (read1 : cval -> M tree) (fs : list (string * cval))
    : M (list (string * tree)) :=
  match fs with
  | [] => mret []
  | (n, v) :: rest =>
      t ← read1 v; ts ← read_members read1 rest; mret ((n, t) :: ts)
  end.

Fixpoint read_val (n : nat) (v : cval) : M tree :=
  match v with
  | CInt z => mret (TInt z)
  | CPtr None => mret TNull
  | CPtr (Some l) =>
      match n with
      | O => mem.undefined
      | S n =>
          o ← mem.load l;
          match o with
          | Buf b => mret (octets b)
          | IntBuf z => mret (TBig z)
          | Struct ty p a fs =>
              if mem.well_selected p a fs
              then ts ← read_members (read_val n) fs; mret (TStruct ty p ts)
              else mem.undefined
          end
      end
  end.

(** The structure behind a pointer, and the one in a local variable. *)
Definition read (v : cval) : M tree := n ← mem.heap_size; read_val (S n) v.

Definition read_local (o : cell) : M tree :=
  match o with
  | Struct ty p a fs =>
      if mem.well_selected p a fs
      then ts ← read_members read fs; mret (TStruct ty p ts)
      else mem.undefined
  | _ => mem.undefined
  end.

Fixpoint build (t : tree) : M cval :=
  match t with
  | TNull => mret (CPtr None)
  | TInt z => mret (CInt z)
  | TOct b0 b => l ← mem.alloc (Buf (b0 :: b)); mret (CPtr (Some l))
  | TBig z => l ← mem.alloc (IntBuf z); mret (CPtr (Some l))
  | TStruct ty p fs =>
      vs ← (fix go fs : M (list (string * cval)) :=
              match fs with
              | [] => mret []
              | (n, t) :: rest => v ← build t; vs ← go rest; mret ((n, v) :: vs)
              end) fs;
      l ← mem.alloc (Struct ty p p vs); mret (CPtr (Some l))
  end.

Fixpoint build_members (fs : list (string * tree)) : M (list (string * cval)) :=
  match fs with
  | [] => mret []
  | (n, t) :: rest => v ← build t; vs ← build_members rest; mret ((n, v) :: vs)
  end.

End asn.

(** ** What they do *)

(** Depth is bounded by the number of cells. *)
Lemma members_size fs vs h :
  Forall (fun f => forall v h, holds f.2 v h -> depth f.2 <= size h) fs ->
  members fs vs h -> depths fs <= size h.
Proof.
  intros HF. revert vs h. induction HF as [|[n t] fs Ht _ IH]; intros vs h; simpl; [lia|].
  destruct vs as [|[n' v] vs]; [done|].
  intros (h0 & h' & -> & _ & [-> _]%affine_pure_at & (h1 & h2 & -> & Hd & H1 & H2)).
  apply Ht in H1. apply IH in H2. rw left_id_L map_size_disj_union //=. simpl in H1. lia.
Qed.

Lemma holds_size t v h : holds t v h -> depth t <= size h.
Proof.
  revert v h. induction t as [| | | |ty p fs IH] using tree_nested_ind; intros v h; try (simpl; lia).
  intros H. apply (hequiv_at _ _ _ (holds_struct ty p fs v)) in H.
  destruct H as (l & o & h0 & h' & -> & _ & [-> _]%affine_pure_at & h1 & h2 & -> & Hd & -> & H).
  destruct H as (a & vs & h3 & h4 & -> & _ & [-> _]%affine_pure_at & h5 & h6 & -> & _ &
    [-> _]%affine_pure_at & Hm).
  apply members_size in Hm; [|done]. rw depth_struct left_id_L map_size_disj_union //.
  rw map_size_singleton !left_id_L. lia.
Qed.

(** Fuel for a walk over a tree that is owned. *)
Lemma wp_heap_size t v (Q : nat -> hpropI) :
  holds t v ∗ (∀ n, ⌞depth t <= n⌟ -∗ holds t v -∗ Q n) ⊢ wp mem.heap_size Q.
Proof.
  apply hentails_iff. intros ? (h1 & h2 & -> & Hd & Ht & HQ) hf s Hd'.
  set (n := size ((h1 ∪ h2) ∪ hf)).
  assert (Hn : depth t <= n).
  { apply holds_size in Ht. subst n. rw !map_size_disj_union //. lia. }
  exists n, (h1 ∪ h2), s. split_and!; [done..|]. clearbody n.
  specialize (HQ n ∅ (map_disjoint_empty_r _)). rw right_id_L in HQ.
  rw map_union_comm //. apply HQ; [by apply affine_pure_at|by symmetry|done].
Qed.

Section walks.
Implicit Types (Q : () -> hpropI).

Lemma wp_free_members n fs vs Q :
  Forall (fun f => forall n v Q, depth f.2 < n ->
    holds f.2 v ∗ Q () ⊢ wp (mem.free_val n v) Q) fs ->
  depths fs < n -> members fs vs ∗ Q () ⊢ wp (mem.free_members (mem.free_val n) vs) Q.
Proof.
  intros HF. revert vs. induction HF as [|[m t] fs Ht _ IH]; intros [|[m' v] vs] Hn; simpl in *.
  - iIntros "[_ HQ]". by iApply wp_ret.
  - iIntros "[[] _]".
  - iIntros "[[] _]".
  - iIntros "[(_ & Hv & Hm) HQ]". iApply wp_bind. iApply Ht; [lia|]. iFrame.
    iApply IH; [lia|]. iFrame.
Qed.

Lemma wp_free_val t n v Q :
  depth t < n -> holds t v ∗ Q () ⊢ wp (mem.free_val n v) Q.
Proof.
  revert n v Q. induction t as [| | | |ty p fs IH] using tree_nested_ind; intros [|n] v Q Hn;
    try lia.
  - iIntros "[[->|(%l & -> & Hl)] HQ]"; simpl; [by iApply wp_ret|].
    iApply wp_bind. iApply wp_load. iFrame. iIntros "Hl". iApply wp_dealloc. iFrame.
  - iIntros "[-> HQ]". by iApply wp_ret.
  - iIntros "[(%l & -> & Hl) HQ]". iApply wp_bind. iApply wp_load. iFrame. iIntros "Hl".
    iApply wp_dealloc. iFrame.
  - iIntros "[(%l & -> & Hl) HQ]". iApply wp_bind. iApply wp_load. iFrame. iIntros "Hl".
    iApply wp_dealloc. iFrame.
  - rw holds_struct. iIntros "[(%l & %o & -> & Hl & %a & %vs & -> & %Hs & Hm) HQ]".
    iApply wp_bind. iApply wp_load. iFrame. iIntros "Hl". rw Hs. iApply wp_bind.
    iApply wp_free_members; [done| |iFrame; iApply wp_dealloc; iFrame].
    rw depth_struct in Hn. lia.
Qed.

Lemma wp_free_rec t v Q : holds t v ∗ Q () ⊢ wp (mem.free_rec v) Q.
Proof.
  iIntros "[Ht HQ]". iApply wp_bind. iApply wp_heap_size. iFrame. iIntros (n ?) "Ht".
  iApply wp_free_val; [|iFrame]. lia.
Qed.

(** [ASN_STRUCT_FREE] through a pointer that owns a struct of that type. *)
Lemma wp_struct_free ty p fs l Q :
  holds (TStruct ty p fs) (CPtr (Some l)) ∗ Q () ⊢ wp (mem.struct_free ty (Some l)) Q.
Proof.
  rw {1}holds_struct. iIntros "[(%l' & %o & %E & Hl & %a & %vs & -> & %Hs & Hm) HQ]".
  injection E as <-. iApply wp_bind. iApply wp_load. iFrame. iIntros "Hl".
  rw String.eqb_refl. iApply (wp_free_rec (TStruct ty p fs)). iFrame "HQ".
  rw holds_struct. iExists l, _. iFrame "Hl". iSplit; [done|]. iExists a, vs. by iFrame.
Qed.

Lemma wp_free_contents ty p fs o Q :
  holds_local (TStruct ty p fs) o ∗ Q () ⊢ wp (mem.free_contents ty o) Q.
Proof.
  iIntros "[(%a & %vs & -> & %Hs & Hm) HQ]". unfold mem.free_contents.
  rw String.eqb_refl Hs. simpl. clear Hs. iInduction fs as [|[n t] fs IH] forall (vs).
  - destruct vs as [|]; [by iApply wp_ret|done].
  - destruct vs as [|[n' v] vs]; [done|]. simpl. iDestruct "Hm" as "(_ & Hv & Hm)".
    iApply wp_bind. iApply wp_free_rec. iFrame. iApply ("IH" with "Hm HQ").
Qed.

Lemma wp_read_members n fs vs (Q : _ -> hpropI) :
  Forall (fun f => forall n v (Q : _ -> hpropI), depth f.2 < n ->
    holds f.2 v ∗ (holds f.2 v -∗ Q f.2) ⊢ wp (asn.read_val n v) Q) fs ->
  depths fs < n ->
  members fs vs ∗ (members fs vs -∗ Q fs) ⊢ wp (asn.read_members (asn.read_val n) vs) Q.
Proof.
  intros HF. revert vs Q. induction HF as [|[m t] fs Ht _ IH]; intros [|[m' v] vs] Q Hn; simpl in *.
  - iIntros "[_ HQ]". iApply wp_ret. by iApply "HQ".
  - iIntros "[[] _]".
  - iIntros "[[] _]".
  - iIntros "[(-> & Hv & Hm) HQ]". iApply wp_bind. iApply Ht; [lia|]. iFrame. iIntros "Hv".
    iApply wp_bind. iApply IH; [lia|]. iFrame. iIntros "Hm". iApply wp_ret. iApply "HQ".
    by iFrame.
Qed.

Lemma wp_read_val t n v (Q : tree -> hpropI) :
  depth t < n -> holds t v ∗ (holds t v -∗ Q t) ⊢ wp (asn.read_val n v) Q.
Proof.
  revert n v Q. induction t as [| | | |ty p fs IH] using tree_nested_ind; intros [|n] v Q Hn;
    try lia.
  - iIntros "[[->|(%l & -> & Hl)] HQ]"; simpl.
    { iApply wp_ret. iApply "HQ". by iLeft. }
    iApply wp_bind. iApply wp_load. iFrame. iIntros "Hl". iApply wp_ret. iApply "HQ".
    iRight. iExists l. by iFrame.
  - iIntros "[-> HQ]". iApply wp_ret. by iApply "HQ".
  - iIntros "[(%l & -> & Hl) HQ]". iApply wp_bind. iApply wp_load. iFrame. iIntros "Hl".
    iApply wp_ret. iApply "HQ". iExists l. by iFrame.
  - iIntros "[(%l & -> & Hl) HQ]". iApply wp_bind. iApply wp_load. iFrame. iIntros "Hl".
    iApply wp_ret. iApply "HQ". iExists l. by iFrame.
  - rw !holds_struct. iIntros "[(%l & %o & -> & Hl & %a & %vs & -> & %Hs & Hm) HQ]".
    iApply wp_bind. iApply wp_load. iFrame. iIntros "Hl". rw Hs. iApply wp_bind.
    iApply wp_read_members; [done| |iFrame].
    { rw depth_struct in Hn. lia. }
    iIntros "Hm". iApply wp_ret. iApply "HQ". iExists l, _. iFrame "Hl". iSplit; [done|].
    iExists a, vs. by iFrame.
Qed.

Lemma wp_read t v (Q : tree -> hpropI) :
  holds t v ∗ (holds t v -∗ Q t) ⊢ wp (asn.read v) Q.
Proof.
  iIntros "[Ht HQ]". iApply wp_bind. iApply wp_heap_size. iFrame. iIntros (n ?) "Ht".
  iApply wp_read_val; [|iFrame]. lia.
Qed.

Lemma wp_read_local ty p fs o (Q : tree -> hpropI) :
  holds_local (TStruct ty p fs) o ∗ (holds_local (TStruct ty p fs) o -∗ Q (TStruct ty p fs))
  ⊢ wp (asn.read_local o) Q.
Proof.
  assert (Hr : forall vs (Q : _ -> hpropI),
    members fs vs ∗ (members fs vs -∗ Q fs) ⊢ wp (asn.read_members asn.read vs) Q).
  { induction fs as [|[n t] fs IH]; intros [|[n' v] vs] Q'; simpl.
    - iIntros "[_ HQ]". iApply wp_ret. by iApply "HQ".
    - iIntros "[[] _]".
    - iIntros "[[] _]".
    - iIntros "[(-> & Hv & Hm) HQ]". iApply wp_bind. iApply wp_read. iFrame. iIntros "Hv".
      iApply wp_bind. iApply IH. iFrame. iIntros "Hm". iApply wp_ret. iApply "HQ". by iFrame. }
  iIntros "[(%a & %vs & -> & %Hs & Hm) HQ]". unfold asn.read_local. rw Hs. iApply wp_bind.
  iApply Hr. iFrame. iIntros "Hm". iApply wp_ret. iApply "HQ". iExists a, vs. by iFrame.
Qed.

Lemma wp_build_exact t (Q : cval -> hpropI) : (∀ v, exact t v -∗ Q v) ⊢ wp (asn.build t) Q.
Proof.
  revert Q. induction t as [| | | |ty p fs IH] using tree_nested_ind; intros Q; iIntros "HQ".
  - iApply wp_ret. by iApply "HQ".
  - iApply wp_ret. by iApply "HQ".
  - iApply wp_bind. iApply wp_alloc. iIntros (l) "Hl". iApply wp_ret. iApply "HQ".
    iExists l. by iFrame.
  - iApply wp_bind. iApply wp_alloc. iIntros (l) "Hl". iApply wp_ret. iApply "HQ".
    iExists l. by iFrame.
  - iApply (wp_bind (asn.build_members fs)).
    assert (Hgo : forall (Q : _ -> hpropI),
      (∀ vs, exact_members fs vs -∗ Q vs) ⊢ wp (asn.build_members fs) Q).
    { clear Q. induction IH as [|[n t] fs Ht _ IHfs]; intros Q; iIntros "HQ".
      - iApply wp_ret. by iApply "HQ".
      - simpl. iApply wp_bind. iApply Ht. iIntros (v) "Hv". iApply wp_bind. iApply IHfs.
        iIntros (vs) "Hm". iApply wp_ret. iApply "HQ". by iFrame. }
    iApply Hgo. iIntros (vs) "Hm". iApply wp_bind. iApply wp_alloc. iIntros (l) "Hl".
    iApply wp_ret. iApply "HQ". iExists l, vs. by iFrame.
Qed.

Lemma wp_build t (Q : cval -> hpropI) : (∀ v, holds t v -∗ Q v) ⊢ wp (asn.build t) Q.
Proof.
  iIntros "HQ". iApply wp_build_exact. iIntros (v) "Hv". iApply "HQ". by iApply exact_holds.
Qed.

End walks.

#[global] Arguments holds : simpl never.
#[global] Arguments exact : simpl never.
#[global] Arguments holds_local : simpl never.
