(* ===== verification/AsnPtr.v ===== *)
(** src/internal/asn_ptr.hpp and the memory side of src/internal/coer.cpp: decoding
    into structures that are allocated, encoding from them, and the owning pointer.

    The generated codecs see the structure in memory.  [CCodec] is what they do with
    it: [c_encode] is asn_encode_to_new_buffer with ATS_CANONICAL_OER ([None]: the
    count is negative), [c_partial] the structure asn_decode leaves behind when its
    code is not RC_OK ([None]: a null pointer).  [Layout] says where the generated
    struct of a type keeps the components of a value, and which members it has. *)
From iris.proofmode Require Import proofmode.
From S2P Require Import Prelude Asn CHeap HeapLogic AsnTree.

Class CCodec := {
  c_encode : string -> tree -> option bytes;
  c_encode_uper : string -> tree -> option bytes;
  c_partial : string -> bytes -> option (string * list (string * tree));
}.

Class Layout (T : Type) := {
  td : string;
  zero : list (string * cval);
  lay : T -> string * list (string * tree);
}.
Arguments td T {_}.
Arguments zero T {_}.

Definition tree_of {T} `{!Layout T} (x : T) : tree := TStruct (td T) (lay x).1 (lay x).2.

#[global] Arguments tree_of : simpl never.

(** A pointer member of the generated struct. *)
Definition tree_opt {T} `{!Layout T} (x : option T) : tree :=
  match x with
  | None => TNull
  | Some x => tree_of x
  end.

(** The codec of a type reads the struct of that type: what the functional model
    takes from [Codec T] is what the generated encoder computes from the memory. *)
Class CEncodes (T : Type) `{!Codec T, !Layout T, !CCodec} :=
  c_encode_lay x : c_encode (td T) (tree_of x) = asn_encode x.
Class CEncodesUper (T : Type) `{!UperCodec T, !Layout T, !CCodec} :=
  c_encode_uper_lay x : c_encode_uper (td T) (tree_of x) = asn_encode_uper x.

(** What a pointer that may be null owns. *)
Definition owns {T} `{!Layout T} (x : option T) (p : ptr) : hpropI :=
  match x with
  | None => ⌞p = None⌟
  | Some x => holds (tree_of x) (CPtr p)
  end%I.

Lemma owns_holds {T} `{!Layout T} (x : option T) p : owns x p ⊢ holds (tree_opt x) (CPtr p).
Proof. destruct x; simpl; [done|]. iIntros "->". by iLeft. Qed.

(** A pointer to a structure is not null. *)
Lemma holds_not_null {T} `{!Layout T} (x : T) p :
  holds (tree_of x) (CPtr p) ⊢ ∃ l, ⌞p = Some l⌟ ∗ holds (tree_of x) (CPtr (Some l)).
Proof.
  rw /tree_of !holds_struct. iIntros "(%l & %o & %E & H)". injection E as ->. iExists l.
  iSplit; [done|]. rw holds_struct. iExists l, o. by iFrame.
Qed.

(** What a pointer returned by a decoder leads to. *)
Definition at_opt {T} `{!Layout T} (x : option T) (p : ptr) : hpropI := exact (tree_opt x) (CPtr p).

Lemma at_opt_owns {T} `{!Layout T} (x : option T) p : at_opt x p ⊢ owns x p.
Proof. destruct x; unfold at_opt; simpl; [apply exact_holds|]. by iIntros "%E"; injection E as ->. Qed.

(** A local variable [T x{}], and [asn_calloc<T>()], which is [calloc(1, sizeof(T))].
    The code never compares the result with null; the model's calloc succeeds. *)
Definition zeroed (T : Type) `{!Layout T} : cell := Struct (td T) EmptyString EmptyString (zero T).
Definition asn_calloc (T : Type) `{!Layout T} : M loc := mem.alloc (zeroed T).

(** ** src/internal/coer.cpp *)

Module ccoer.
Section ccoer.
Context {cc : CCodec}.

(** The buffer of asn_encode_to_new_buffer, copied into a vector and freed.  When
    the count is negative the buffer may be null or not. *)
Definition new_buffer (res : option bytes) : M bytes :=
  match res with
  | Some b =>
      buf ← mem.alloc (Buf b);
      mem.dealloc buf;;
      mret b
  | None =>
      null ← mem.fails;
      if (null : bool) then mret []
      else buf ← mem.alloc (Buf []); mem.dealloc buf;; mret []
  end.

Definition encode (td : string) (sptr : cval) : M bytes :=
  t ← asn.read sptr; new_buffer (c_encode td t).

(** The same for the address of a local variable. *)
Definition encode_local (td : string) (o : cell) : M bytes :=
  t ← asn.read_local o; new_buffer (c_encode td t).

Definition encode_uper_local (td : string) (o : cell) : M bytes :=
  t ← asn.read_local o; new_buffer (c_encode_uper td t).

Definition to_ptr (v : cval) : M ptr :=
  match v with
  | CPtr p => mret p
  | CInt _ => mem.undefined
  end.

(** asn_decode: the code is RC_OK or not, and the structure. *)
Definition asn_decode_call {T} `{!Layout T} (dec : bytes -> option T) (buf : bytes)
    : M (bool * ptr) :=
  match dec buf with
  | Some x =>
      v ← asn.build (tree_of x); p ← to_ptr v; mret (true, p)
  | None =>
      match c_partial (td T) buf with
      | None => mret (false, None)
      | Some (present, fs) =>
          v ← asn.build (TStruct (td T) present fs); p ← to_ptr v; mret (false, p)
      end
  end.

Context {T : Type} `{!Codec T, !Layout T}.

Definition decode (buf : bytes) : M ptr :=
  r ← asn_decode_call asn_decode_canonical buf;
  let '(ok, structure) := (r : bool * ptr) in
  if negb ok then mem.struct_free (td T) structure;; mret None
  else mret structure.

Definition decode_with_basic_fallback (buf : bytes) : M ptr :=
  r ← asn_decode_call asn_decode_canonical buf;
  let '(ok, structure) := (r : bool * ptr) in
  if (ok : bool) then mret structure else
  mem.struct_free (td T) structure;;
  r ← asn_decode_call asn_decode_basic buf;
  let '(ok, structure) := (r : bool * ptr) in
  if negb ok then mem.struct_free (td T) structure;; mret None
  else mret structure.

Definition decode_uper `{!UperCodec T} (buf : bytes) : M ptr :=
  r ← asn_decode_call asn_decode_uper buf;
  let '(ok, structure) := (r : bool * ptr) in
  if negb ok then mem.struct_free (td T) structure;; mret None
  else mret structure.

(** ** Lemmas *)

Lemma wp_new_buffer res (Q : bytes -> hpropI) :
  Q (default [] res) ⊢ wp (new_buffer res) Q.
Proof.
  iIntros "HQ". destruct res as [b|]; simpl.
  - iApply wp_bind. iApply wp_alloc. iIntros (l) "Hl". iApply wp_bind. iApply wp_dealloc. iFrame.
    by iApply wp_ret.
  - iApply wp_bind. iApply wp_fails. iSplit; [by iApply wp_ret|].
    iApply wp_bind. iApply wp_alloc. iIntros (l) "Hl". iApply wp_bind. iApply wp_dealloc. iFrame.
    by iApply wp_ret.
Qed.

Lemma wp_struct_free_null ty (Q : () -> hpropI) : Q () ⊢ wp (mem.struct_free ty None) Q.
Proof. apply wp_ret. Qed.

(** What asn_decode leaves behind. *)
Lemma wp_asn_decode_call (dec : bytes -> option T) buf (Q : bool * ptr -> hpropI) :
  (∀ p, match dec buf with
        | Some x => exact (tree_of x) (CPtr p) -∗ Q (true, p)
        | None => (⌞p = None⌟ ∨ ∃ l pr fs, ⌞p = Some l⌟ ∗ holds (TStruct (td T) pr fs) (CPtr p)) -∗
                  Q (false, p)
        end) ⊢ wp (asn_decode_call dec buf) Q.
Proof.
  iIntros "HQ". unfold asn_decode_call. destruct (dec buf) as [x|].
  - iApply wp_bind. iApply wp_build_exact. iIntros (v) "Hv". iApply wp_bind.
    rw /tree_of !exact_struct. iDestruct "Hv" as "(%l & %vs & -> & Hl & Hm)".
    iApply wp_ret. iApply wp_ret. iApply "HQ". rw exact_struct. iExists l, vs. by iFrame.
  - destruct (c_partial _ _) as [[pr fs]|].
    + iApply wp_bind. iApply wp_build. iIntros (v) "Hv". iApply wp_bind.
      rw !holds_struct. iDestruct "Hv" as "(%l & %o & -> & Hl & Ho)".
      iApply wp_ret. iApply wp_ret. iApply "HQ". iRight. iExists l, pr, fs. iSplit; [done|].
      rw holds_struct. iExists l, o. by iFrame.
    + iApply wp_ret. iApply "HQ". by iLeft.
Qed.

(** A failed decode releases what it left behind. *)
Lemma wp_release_partial p (Q : () -> hpropI) :
  (⌞p = None⌟ ∨ ∃ l pr fs, ⌞p = Some l⌟ ∗ holds (TStruct (td T) pr fs) (CPtr p)) ∗ Q () ⊢
  wp (mem.struct_free (td T) p) Q.
Proof.
  iIntros "[[->|(%l & %pr & %fs & -> & H)] HQ]"; [by iApply wp_struct_free_null|].
  iApply wp_struct_free. iFrame.
Qed.

(** The three decoders give what the functional model gives, in memory the caller
    owns, and nothing else. *)
Lemma wp_decode buf (Q : ptr -> hpropI) :
  (∀ p, at_opt (coer.decode (T := T) buf) p -∗ Q p) ⊢ wp (decode buf) Q.
Proof.
  iIntros "HQ". iApply wp_bind. iApply wp_asn_decode_call. iIntros (p). unfold coer.decode.
  destruct (asn_decode_canonical buf); iIntros "H"; simpl.
  - iApply wp_ret. by iApply "HQ".
  - iApply wp_bind. iApply wp_release_partial. iFrame. iApply wp_ret. by iApply "HQ".
Qed.

Lemma wp_decode_fallback buf (Q : ptr -> hpropI) :
  (∀ p, at_opt (coer.decode_with_basic_fallback (T := T) buf) p -∗ Q p) ⊢
  wp (decode_with_basic_fallback buf) Q.
Proof.
  iIntros "HQ". iApply wp_bind. iApply wp_asn_decode_call. iIntros (p).
  unfold coer.decode_with_basic_fallback.
  destruct (asn_decode_canonical buf); iIntros "H"; simpl.
  - iApply wp_ret. by iApply "HQ".
  - iApply wp_bind. iApply wp_release_partial. iFrame. iApply wp_bind.
    iApply wp_asn_decode_call. iIntros (p'). destruct (asn_decode_basic buf); iIntros "H"; simpl.
    + iApply wp_ret. by iApply "HQ".
    + iApply wp_bind. iApply wp_release_partial. iFrame. iApply wp_ret. by iApply "HQ".
Qed.

Lemma wp_decode_uper `{!UperCodec T} buf (Q : ptr -> hpropI) :
  (∀ p, at_opt (coer.decode_uper (U := T) buf) p -∗ Q p) ⊢ wp (decode_uper buf) Q.
Proof.
  iIntros "HQ". iApply wp_bind. iApply wp_asn_decode_call. iIntros (p). unfold coer.decode_uper.
  destruct (asn_decode_uper buf); iIntros "H"; simpl.
  - iApply wp_ret. by iApply "HQ".
  - iApply wp_bind. iApply wp_release_partial. iFrame. iApply wp_ret. by iApply "HQ".
Qed.

Context `{!CEncodes T}.

Lemma wp_encode x p (Q : bytes -> hpropI) :
  holds (tree_of x) p ∗ (holds (tree_of x) p -∗ Q (coer.encode x)) ⊢ wp (encode (td T) p) Q.
Proof.
  iIntros "[H HQ]". iApply wp_bind. iApply wp_read. iFrame. iIntros "H". iApply wp_new_buffer.
  rw c_encode_lay. iApply ("HQ" with "H").
Qed.

Lemma wp_encode_local x o (Q : bytes -> hpropI) :
  holds_local (tree_of x) o ∗ (holds_local (tree_of x) o -∗ Q (coer.encode x)) ⊢
  wp (encode_local (td T) o) Q.
Proof.
  iIntros "[H HQ]". iApply wp_bind. iApply wp_read_local. iFrame. iIntros "H".
  iApply wp_new_buffer. pose proof (c_encode_lay x) as E. unfold tree_of in E. rw E.
  iApply ("HQ" with "H").
Qed.

End ccoer.
End ccoer.

(** ** The owning pointer *)

Record AsnPtr := MkAsnPtr {
  ptr_ : ptr;
  desc_ : option string;
}.

Module asn_ptr.
Section asn_ptr.
Context {cc : CCodec} {T : Type} `{!Codec T, !Layout T}.

(** [AsnPtr()] and [AsnPtr(desc, p)] *)
Definition default : AsnPtr := MkAsnPtr None None.
Definition make (desc : string) (p : ptr) : AsnPtr := MkAsnPtr p (Some desc).

(** [operator bool] and [get]; [operator->] and [operator*] are [get]. *)
Definition operator_bool (a : AsnPtr) : bool :=
  match ptr_ a with Some _ => true | None => false end.
Definition get (a : AsnPtr) : ptr := ptr_ a.

(** [release()]: the pointer, and the object afterwards. *)
Definition release (a : AsnPtr) : ptr * AsnPtr := (ptr_ a, MkAsnPtr None (desc_ a)).

(** [reset()]: the object afterwards.  A null [desc_] is never dereferenced unless
    the object holds a structure. *)
Definition reset (a : AsnPtr) : M AsnPtr :=
  match ptr_ a with
  | None => mret a
  | Some l =>
      match desc_ a with
      | None => mem.undefined
      | Some desc => mem.struct_free desc (Some l);; mret (MkAsnPtr None (Some desc))
      end
  end.

(** [~AsnPtr()] *)
Definition destroy (a : AsnPtr) : M () := reset a;; mret ().

(** [AsnPtr(AsnPtr&& o)]: the new object and [o] afterwards. *)
Definition move (o : AsnPtr) : AsnPtr * AsnPtr :=
  (MkAsnPtr (ptr_ o) (desc_ o), MkAsnPtr None (desc_ o)).

(** [*this = std::move(o)] for two different objects: both of them afterwards. *)
Definition move_assign (this o : AsnPtr) : M (AsnPtr * AsnPtr) :=
  reset this;;
  mret (MkAsnPtr (ptr_ o) (desc_ o), MkAsnPtr None (desc_ o)).

(** [asn_decode<T>] and [asn_decode_fallback<T>] *)
Definition asn_decode (buf : bytes) : M AsnPtr :=
  p ← ccoer.decode (T := T) buf; mret (make (td T) p).
Definition asn_decode_fallback (buf : bytes) : M AsnPtr :=
  p ← ccoer.decode_with_basic_fallback (T := T) buf; mret (make (td T) p).

(** ** Ownership *)

(** An object owns the structure it points to, and its descriptor is that of the
    structure. *)
Definition owned (a : AsnPtr) : hpropI :=
  match ptr_ a with
  | None => emp
  | Some l => ∃ p fs, ⌞desc_ a = Some (td T)⌟ ∗ holds (TStruct (td T) p fs) (CPtr (Some l))
  end%I.

Lemma wp_reset a (Q : AsnPtr -> hpropI) :
  owned a ∗ Q (MkAsnPtr None (desc_ a)) ⊢ wp (reset a) Q.
Proof.
  iIntros "[Ha HQ]". destruct a as [[l|] d]; unfold owned, reset; simpl; [|by iApply wp_ret].
  iDestruct "Ha" as "(%p & %fs & -> & H)". iApply wp_bind. iApply wp_struct_free. iFrame.
  by iApply wp_ret.
Qed.

Lemma wp_destroy a (Q : () -> hpropI) : owned a ∗ Q () ⊢ wp (destroy a) Q.
Proof. iIntros "[Ha HQ]". iApply wp_bind. iApply wp_reset. iFrame. by iApply wp_ret. Qed.

Lemma owned_null d : ⊢ owned (MkAsnPtr None d).
Proof. done. Qed.

(** An object that was made from a decoded pointer. *)
Lemma owns_owned (x : option T) p : owns x p ⊢ owned (make (td T) p).
Proof.
  destruct x as [x|]; unfold owned; simpl; [|by iIntros "->"].
  rw holds_not_null. iIntros "(%l & -> & H)". iExists (lay x).1, (lay x).2. by iFrame.
Qed.

Lemma wp_asn_decode buf (Q : AsnPtr -> hpropI) :
  (∀ p, at_opt (coer.decode (T := T) buf) p -∗ Q (make (td T) p)) ⊢ wp (asn_decode buf) Q.
Proof.
  iIntros "HQ". iApply wp_bind. iApply ccoer.wp_decode. iIntros (p) "H". iApply wp_ret.
  by iApply "HQ".
Qed.

Lemma wp_asn_decode_fallback buf (Q : AsnPtr -> hpropI) :
  (∀ p, at_opt (coer.decode_with_basic_fallback (T := T) buf) p -∗ Q (make (td T) p)) ⊢
  wp (asn_decode_fallback buf) Q.
Proof.
  iIntros "HQ". iApply wp_bind. iApply ccoer.wp_decode_fallback. iIntros (p) "H". iApply wp_ret.
  by iApply "HQ".
Qed.

(** The test a caller makes says whether decoding succeeded. *)
Lemma owns_operator_bool (x : option T) p :
  owns x p ⊢ owns x p ∗ ⌞operator_bool (make (td T) p) = bool_decide (is_Some x)⌟.
Proof.
  destruct x as [x|]; simpl; [|by iIntros "->"].
  rw {1}holds_not_null. iIntros "(%l & -> & $)". done.
Qed.

(** ** Programs over owning pointers

    A block of code with variables of type [AsnPtr<T>], numbered; [raw] are the
    pointers [release()] gave out, for which the caller is responsible. *)

Inductive op :=
  | Default (i : nat)
  | Decode (i : nat) (buf : bytes)
  | DecodeFallback (i : nat) (buf : bytes)
  | MoveFrom (i j : nat)
  | Assign (i j : nat)
  | Release (i : nat)
  | Reset (i : nat)
  | EndOfScope (i : nat).

Record frame := MkFrame {
  vars : gmap nat AsnPtr;
  raw : list ptr;
}.

Definition with_vars (f : frame) (v : gmap nat AsnPtr) : frame := MkFrame v (raw f).

Definition exec (f : frame) (o : op) : M frame :=
  match o with
  | Default i => mret (with_vars f (<[i := default]> (vars f)))
  | Decode i buf => a ← asn_decode buf; mret (with_vars f (<[i := a]> (vars f)))
  | DecodeFallback i buf => a ← asn_decode_fallback buf; mret (with_vars f (<[i := a]> (vars f)))
  | MoveFrom i j =>
      o ← mem.lift (vars f !! j);
      let '(a, o) := move o in
      mret (with_vars f (<[i := a]> (<[j := o]> (vars f))))
  | Assign i j =>
      this ← mem.lift (vars f !! i);
      o ← mem.lift (vars f !! j);
      if (i =? j)%nat then mret f else
      r ← move_assign this o;
      mret (with_vars f (<[i := r.1]> (<[j := r.2]> (vars f))))
  | Release i =>
      a ← mem.lift (vars f !! i);
      let '(p, a) := release a in
      mret (MkFrame (<[i := a]> (vars f)) (p :: raw f))
  | Reset i =>
      a ← mem.lift (vars f !! i);
      a ← reset a;
      mret (with_vars f (<[i := a]> (vars f)))
  | EndOfScope i =>
      a ← mem.lift (vars f !! i);
      destroy a;;
      mret (with_vars f (delete i (vars f)))
  end.

Fixpoint exec_all (f : frame) (os : list op) : M frame :=
  match os with
  | [] => mret f
  | o :: os => f ← exec f o; exec_all f os
  end.

(** What the compiler checks: a variable is declared once and used while it lives. *)
Definition scoped1 (live : gset nat) (o : op) : option (gset nat) :=
  match o with
  | Default i | Decode i _ | DecodeFallback i _ =>
      if decide (i ∈ live) then None else Some ({[ i ]} ∪ live)
  | MoveFrom i j =>
      if decide (i ∈ live) then None else if decide (j ∈ live) then Some ({[ i ]} ∪ live) else None
  | Assign i j => if decide (i ∈ live /\ j ∈ live) then Some live else None
  | Release i | Reset i => if decide (i ∈ live) then Some live else None
  | EndOfScope i => if decide (i ∈ live) then Some (live ∖ {[ i ]}) else None
  end.

Fixpoint scoped (live : gset nat) (os : list op) : bool :=
  match os with
  | [] => true
  | o :: os =>
      match scoped1 live o with
      | Some live => scoped live os
      | None => false
      end
  end.

(** The end of the block destroys the variables that are left; the caller frees the
    pointers it was given. *)
Fixpoint destroy_all (l : list (nat * AsnPtr)) : M () :=
  match l with
  | [] => mret ()
  | (_, a) :: l => destroy a;; destroy_all l
  end.

Fixpoint free_all (ps : list ptr) : M () :=
  match ps with
  | [] => mret ()
  | p :: ps => mem.struct_free (td T) p;; free_all ps
  end.

Definition block (os : list op) : M () :=
  f ← exec_all (MkFrame ∅ []) os;
  destroy_all (map_to_list (vars f));;
  free_all (raw f).

(** ** The invariant of a block *)

Definition owned_raw (p : ptr) : hpropI := owned (make (td T) p).

Definition frame_inv (f : frame) : hpropI :=
  (([∗ map] a ∈ vars f, owned a) ∗ [∗ list] p ∈ raw f, owned_raw p)%I.

Abbreviation live f := (dom (vars f) : gset nat).

(** A new variable. *)
Lemma inv_declare f i a :
  i ∉ live f -> frame_inv f ∗ owned a ⊢
  frame_inv (with_vars f (<[i := a]> (vars f))) ∗
  ⌞live (with_vars f (<[i := a]> (vars f))) = {[ i ]} ∪ live f⌟.
Proof.
  intros Hi%not_elem_of_dom. iIntros "[[Hv Hr] Ha]". iSplitL.
  - unfold frame_inv. iFrame "Hr". simpl. rw big_sepM_insert //. iFrame.
  - iPureIntro. simpl. by rw dom_insert_L.
Qed.

(** A variable that gets another value. *)
Lemma inv_update f i a a' :
  vars f !! i = Some a ->
  frame_inv f ⊢ owned a ∗ (owned a' -∗ frame_inv (with_vars f (<[i := a']> (vars f)))).
Proof.
  intros Hi. iIntros "[Hv Hr]". unfold frame_inv at 1. simpl.
  rw (big_sepM_delete _ _ _ _ Hi). iDestruct "Hv" as "[$ Hv]". iIntros "Ha". iFrame "Hr".
  rw -insert_delete_eq big_sepM_insert ?lookup_delete_eq //. iFrame.
Qed.

Lemma live_update f i a : i ∈ live f -> live (with_vars f (<[i := a]> (vars f))) = live f.
Proof. intros Hi. simpl. rw dom_insert_L. set_solver. Qed.

(** Emptying a variable. *)
Lemma inv_take f i a :
  vars f !! i = Some a ->
  frame_inv f ⊢ owned a ∗ frame_inv (with_vars f (<[i := MkAsnPtr None (desc_ a)]> (vars f))).
Proof.
  iIntros (Hi) "Hf". iDestruct (inv_update f i a (MkAsnPtr None (desc_ a)) with "Hf") as "[$ Hf]".
  { done. }
  by iApply "Hf".
Qed.

Lemma wp_exec_assign f i j (Q : frame -> hpropI) :
  i ∈ live f -> j ∈ live f ->
  frame_inv f ∗ (∀ f', ⌞live f' = live f⌟ -∗ frame_inv f' -∗ Q f') ⊢ wp (exec f (Assign i j)) Q.
Proof.
  intros [this Hi]%elem_of_dom [o Hj]%elem_of_dom. iIntros "[Hf HQ]". simpl.
  iApply wp_bind. iApply wp_lift; [done|]. iApply wp_bind. iApply wp_lift; [done|].
  destruct (Nat.eqb_spec i j) as [->|Hne]; [iApply wp_ret; by iApply ("HQ" with "[] Hf")|].
  iApply wp_bind. iApply wp_bind.
  iDestruct (inv_take f i this with "Hf") as "[Hthis Hf]"; [done|].
  iApply wp_reset. iFrame "Hthis". iApply wp_ret. iApply wp_ret.
  iDestruct (inv_take _ j o with "Hf") as "[Ho Hf]"; [simpl; by rw lookup_insert_ne|].
  iDestruct (inv_update _ i (MkAsnPtr None (desc_ this)) (MkAsnPtr (ptr_ o) (desc_ o)) with "Hf")
    as "[_ Hf]".
  { simpl. by rw lookup_insert_ne // lookup_insert_eq. }
  iSpecialize ("Hf" with "[Ho]"); [by destruct o|]. simpl.
  rw (insert_insert_ne _ j i) // insert_insert_eq.
  iApply ("HQ" with "[] Hf"). iPureIntro. simpl. rw !dom_insert_L.
  apply elem_of_dom_2 in Hi, Hj. set_solver.
Qed.

Lemma wp_exec f o l (Q : frame -> hpropI) :
  scoped1 (live f) o = Some l ->
  frame_inv f ∗ (∀ f', ⌞live f' = l⌟ -∗ frame_inv f' -∗ Q f') ⊢ wp (exec f o) Q.
Proof.
  intros Ho. iIntros "[Hf HQ]".
  destruct o as [i|i buf|i buf|i j|i j|i|i|i]; simpl scoped1 in Ho; case_decide as Hi; try done;
    try (injection Ho as <-); simpl exec.
  - iApply wp_ret. iDestruct (inv_declare f i default with "[$Hf]") as "[Hf %E]"; [done..|].
    by iApply ("HQ" with "[] Hf").
  - iApply wp_bind. iApply wp_asn_decode. iIntros (p) "Hp". rw at_opt_owns. iApply wp_ret.
    iDestruct (inv_declare with "[$Hf Hp]") as "[Hf %E]"; [done|by iApply owns_owned|].
    by iApply ("HQ" with "[] Hf").
  - iApply wp_bind. iApply wp_asn_decode_fallback. iIntros (p) "Hp". rw at_opt_owns. iApply wp_ret.
    iDestruct (inv_declare with "[$Hf Hp]") as "[Hf %E]"; [done|by iApply owns_owned|].
    by iApply ("HQ" with "[] Hf").
  - case_decide as Hj; [|done]. injection Ho as <-. destruct (proj1 (elem_of_dom _ _) Hj) as [o Hjo].
    iApply wp_bind. iApply wp_lift; [done|]. iApply wp_ret.
    iDestruct (inv_take f j o with "Hf") as "[Ho Hf]"; [done|].
    iDestruct (inv_declare _ i (MkAsnPtr (ptr_ o) (desc_ o)) with "[$Hf Ho]") as "[Hf %E]".
    { by rw live_update. }
    { by destruct o. }
    iApply ("HQ" with "[] Hf"). iPureIntro. by rw E live_update.
  - destruct Hi as [Hi Hj]. iApply wp_exec_assign; [done..|]. iFrame.
  - destruct (proj1 (elem_of_dom _ _) Hi) as [a Ha]. iApply wp_bind. iApply wp_lift; [done|].
    iApply wp_ret. iDestruct (inv_take f i a with "Hf") as "[Ha [Hv Hr]]"; [done|].
    iApply ("HQ" with "[] [Hv Hr Ha]"); [iPureIntro; by rw live_update|iFrame "Hv Hr"].
    destruct a as [[p|] d]; unfold owned_raw, owned; simpl; [|done].
    iDestruct "Ha" as "(%pr & %fs & _ & H)". iExists pr, fs. by iFrame.
  - destruct (proj1 (elem_of_dom _ _) Hi) as [a Ha]. iApply wp_bind. iApply wp_lift; [done|].
    iApply wp_bind. iDestruct (inv_take f i a with "Hf") as "[Ha Hf]"; [done|].
    iApply wp_reset. iFrame "Ha". iApply wp_ret. iApply ("HQ" with "[] Hf").
    iPureIntro. by rw live_update.
  - destruct (proj1 (elem_of_dom _ _) Hi) as [a Ha]. iApply wp_bind. iApply wp_lift; [done|].
    iApply wp_bind. iDestruct "Hf" as "[Hv Hr]". rw (big_sepM_delete _ _ _ _ Ha).
    iDestruct "Hv" as "[Ha Hv]". iApply wp_destroy. iFrame "Ha". iApply wp_ret.
    iApply ("HQ" with "[] [Hv Hr]"); [|by iFrame].
    iPureIntro. simpl. by rw dom_delete_L.
Qed.

Lemma wp_exec_all os f (Q : frame -> hpropI) :
  scoped (live f) os = true ->
  frame_inv f ∗ (∀ f, frame_inv f -∗ Q f) ⊢ wp (exec_all f os) Q.
Proof.
  revert f. induction os as [|o os IH]; intros f Hs; simpl in *; iIntros "[Hf HQ]".
  - iApply wp_ret. by iApply "HQ".
  - destruct (scoped1 (live f) o) as [l|] eqn:Ho; [|done].
    iApply wp_bind. iApply (wp_exec f o l); [exact Ho|]. iFrame. iIntros (f' <-) "Hf".
    iApply IH; [done|]. iFrame.
Qed.

Lemma wp_destroy_all l (Q : () -> hpropI) :
  ([∗ list] ia ∈ l, owned ia.2) ∗ Q () ⊢ wp (destroy_all l) Q.
Proof.
  induction l as [|[i a] l IH]; simpl; iIntros "[Hl HQ]"; [by iApply wp_ret|].
  iDestruct "Hl" as "[Ha Hl]". iApply wp_bind. iApply wp_destroy. iFrame. iApply IH. iFrame.
Qed.

Lemma wp_free_all ps (Q : () -> hpropI) :
  ([∗ list] p ∈ ps, owned_raw p) ∗ Q () ⊢ wp (free_all ps) Q.
Proof.
  induction ps as [|p ps IH]; simpl; iIntros "[Hl HQ]"; [by iApply wp_ret|].
  iDestruct "Hl" as "[Hp Hl]". iApply wp_bind. destruct p as [l|].
  - iDestruct "Hp" as "(%pr & %fs & _ & H)". iApply wp_struct_free. iFrame. iApply IH. iFrame.
  - iApply ccoer.wp_struct_free_null. iApply IH. iFrame.
Qed.

Lemma wp_block os : scoped ∅ os = true -> ⊢ wp (block os) (fun _ => ⌞True⌟).
Proof.
  intros Hs. iApply wp_bind. iApply wp_exec_all; [done|]. iSplitR.
  { unfold frame_inv. simpl. by rw big_sepM_empty. }
  iIntros (f) "[Hv Hr]". rw big_sepM_map_to_list. iApply wp_bind. iApply wp_destroy_all.
  iSplitL "Hv"; [iApply (big_sepL_mono with "Hv"); by intros ? []|].
  iApply wp_free_all. iFrame. done.
Qed.

End asn_ptr.
End asn_ptr.
