(* ===== verification/AsnLayout.v ===== *)
(** The structs asn1c generates for the types the client builds: their members, with
    the names the sources use, which of them are pointers, and where the components
    of a value are.

    A CHOICE keeps the alternative [present] selects; the member of a pointer
    alternative or of an embedded OCTET STRING has the alternative's name.
    Components the client never inspects are kept together as one octet string. *)
From S2P Require Import Prelude Asn CHeap HeapLogic AsnTree AsnPtr.

Open Scope string_scope.

(** ** Members *)

Definition int (n : string) (z : Z) : string * tree := (n, TInt z).
Definition oct (n : string) (b : bytes) : string * tree := (n, octets b).
Definition ref {T} `{!Layout T} (n : string) (x : option T) : string * tree := (n, tree_opt x).

(** A pointer to a structure the client does not look into. *)
Definition raw_ref (n : string) (r : option raw) : string * tree :=
  (n, match r with None => TNull | Some r => TStruct "raw" "" [oct "buf" r] end).

(** A pointer to a SEQUENCE OF, by the trees of its elements. *)
Definition seq_ref (n ty : string) (ts : option (list tree)) : string * tree :=
  (n, match ts with None => TNull | Some ts => TStruct ty "" (map (pair "") ts) end).

(** An alternative of a CHOICE with one member of its name, and one with none. *)
Definition alt (f : string * tree) : string * list (string * tree) := (f.1, [f]).
Definition alt0 (n : string) : string * list (string * tree) := (n, []).

Abbreviation null := (CPtr None).

(** ** IEEE 1609.2 base types *)

#[export] Instance EccP256CurvePoint_layout : Layout EccP256CurvePoint := {|
  td := "EccP256CurvePoint"; zero := [];
  lay p := match p with
    | P256_NOTHING => alt0 ""
    | P256_x_only x => alt (oct "x_only" x)
    | P256_fill => alt0 "fill"
    | P256_compressed_y_0 x => alt (oct "compressed_y_0" x)
    | P256_compressed_y_1 x => alt (oct "compressed_y_1" x)
    | P256_uncompressedP256 x y => ("uncompressedP256", [oct "x" x; oct "y" y])
    end |}.

#[export] Instance EccP384CurvePoint_layout : Layout EccP384CurvePoint := {|
  td := "EccP384CurvePoint"; zero := [];
  lay p := match p with
    | P384_NOTHING => alt0 ""
    | P384_x_only x => alt (oct "x_only" x)
    | P384_fill => alt0 "fill"
    | P384_compressed_y_0 x => alt (oct "compressed_y_0" x)
    | P384_compressed_y_1 x => alt (oct "compressed_y_1" x)
    | P384_uncompressedP384 x y => ("uncompressedP384", [oct "x" x; oct "y" y])
    end |}.

#[export] Instance EcdsaP256Signature_layout : Layout EcdsaP256Signature := {|
  td := "EcdsaP256Signature"; zero := [("rSig", null); ("sSig", null)];
  lay s := ("", [ref "rSig" (rSig256 s); oct "sSig" (sSig256 s)]) |}.

#[export] Instance EcdsaP384Signature_layout : Layout EcdsaP384Signature := {|
  td := "EcdsaP384Signature"; zero := [("rSig", null); ("sSig", null)];
  lay s := ("", [ref "rSig" (rSig384 s); oct "sSig" (sSig384 s)]) |}.

#[export] Instance Signature_t_layout : Layout Signature_t := {|
  td := "Signature"; zero := [];
  lay s := match s with
    | Signature_NOTHING => alt0 ""
    | ecdsaNistP256Signature s => alt (ref "ecdsaNistP256Signature" s)
    | ecdsaBrainpoolP256r1Signature s => alt (ref "ecdsaBrainpoolP256r1Signature" s)
    | ecdsaBrainpoolP384r1Signature s => alt (ref "ecdsaBrainpoolP384r1Signature" s)
    | ecdsaNistP384Signature s => alt (ref "ecdsaNistP384Signature" s)
    | sm2Signature s => alt (raw_ref "sm2Signature" s)
    end |}.

Definition hash_algorithm (h : HashAlgorithm) : Z :=
  match h with
  | HashAlgorithm_sha256 => 0
  | HashAlgorithm_sha384 => 1
  | HashAlgorithm_sm3 => 2
  end.

#[export] Instance Duration_layout : Layout Duration := {|
  td := "Duration"; zero := [];
  lay d := match d with
    | Duration_NOTHING => alt0 ""
    | microseconds n => alt (int "microseconds" n)
    | milliseconds n => alt (int "milliseconds" n)
    | seconds n => alt (int "seconds" n)
    | minutes n => alt (int "minutes" n)
    | hours n => alt (int "hours" n)
    | sixtyHours n => alt (int "sixtyHours" n)
    | years n => alt (int "years" n)
    end |}.

#[export] Instance ValidityPeriod_layout : Layout ValidityPeriod := {|
  td := "ValidityPeriod"; zero := [("start", CInt 0); ("duration", null)];
  lay v := ("", [int "start" (vp_start v); ref "duration" (vp_duration v)]) |}.

#[export] Instance PublicVerificationKey_layout : Layout PublicVerificationKey := {|
  td := "PublicVerificationKey"; zero := [];
  lay k := match k with
    | PVK_NOTHING => alt0 ""
    | ecdsaNistP256 p => alt (ref "ecdsaNistP256" p)
    | ecdsaBrainpoolP256r1 p => alt (ref "ecdsaBrainpoolP256r1" p)
    | ecdsaBrainpoolP384r1 p => alt (ref "ecdsaBrainpoolP384r1" p)
    | ecdsaNistP384 p => alt (ref "ecdsaNistP384" p)
    | ecsigSm2 p => alt (ref "ecsigSm2" p)
    end |}.

#[export] Instance BasePublicEncryptionKey_layout : Layout BasePublicEncryptionKey := {|
  td := "BasePublicEncryptionKey"; zero := [];
  lay k := match k with
    | BPEK_NOTHING => alt0 ""
    | bpek_eciesNistP256 p => alt (ref "eciesNistP256" p)
    | bpek_eciesBrainpoolP256r1 p => alt (ref "eciesBrainpoolP256r1" p)
    | bpek_ecencSm2 p => alt (ref "ecencSm2" p)
    end |}.

#[export] Instance PublicEncryptionKey_layout : Layout PublicEncryptionKey := {|
  td := "PublicEncryptionKey"; zero := [("supportedSymmAlg", CInt 0); ("publicKey", null)];
  lay k := ("", [int "supportedSymmAlg" (supportedSymmAlg k); ref "publicKey" (pek_publicKey k)]) |}.

#[export] Instance EciesP256EncryptedKey_layout : Layout EciesP256EncryptedKey := {|
  td := "EciesP256EncryptedKey"; zero := [("v", null); ("c", null); ("t", null)];
  lay k := ("", [ref "v" (ecies_v k); oct "c" (ecies_c k); oct "t" (ecies_t k)]) |}.

#[export] Instance PsidSsp_layout : Layout PsidSsp := {|
  td := "PsidSsp"; zero := [("psid", CInt 0); ("ssp", null)];
  lay p := ("", [int "psid" (psid p); raw_ref "ssp" (ssp p)]) |}.

(** ** Certificates *)

#[export] Instance CertificateId_layout : Layout CertificateId := {|
  td := "CertificateId"; zero := [];
  lay i := match i with
    | CertificateId_NOTHING => alt0 ""
    | CertificateId_linkageData l => alt (raw_ref "linkageData" (Some l))
    | CertificateId_name n => alt (oct "name" n)
    | CertificateId_binaryId b => alt (oct "binaryId" b)
    | CertificateId_none => alt0 "none"
    end |}.

#[export] Instance IssuerIdentifier_layout : Layout IssuerIdentifier := {|
  td := "IssuerIdentifier"; zero := [];
  lay i := match i with
    | IssuerIdentifier_NOTHING => alt0 ""
    | sha256AndDigest d => alt (oct "sha256AndDigest" d)
    | self h => alt (int "self" (hash_algorithm h))
    | sha384AndDigest d => alt (oct "sha384AndDigest" d)
    | sm3AndDigest d => alt (oct "sm3AndDigest" d)
    end |}.

#[export] Instance VerificationKeyIndicator_layout : Layout VerificationKeyIndicator := {|
  td := "VerificationKeyIndicator"; zero := [];
  lay i := match i with
    | VKI_NOTHING => alt0 ""
    | verificationKey k => alt (ref "verificationKey" k)
    | reconstructionValue p => alt (ref "reconstructionValue" p)
    end |}.

#[export] Instance ToBeSignedCertificate_layout : Layout ToBeSignedCertificate := {|
  td := "ToBeSignedCertificate";
  zero := [("id", null); ("cracaId", null); ("crlSeries", CInt 0); ("validityPeriod", null);
           ("appPermissions", null); ("certIssuePermissions", null); ("encryptionKey", null);
           ("verifyKeyIndicator", null); ("other", null)];
  lay t := ("", [ref "id" (tbs_id t); oct "cracaId" (cracaId t); int "crlSeries" (crlSeries t);
                 ref "validityPeriod" (validityPeriod t);
                 seq_ref "appPermissions" "SequenceOfPsidSsp" (map tree_opt <$> appPermissions t);
                 seq_ref "certIssuePermissions" "SequenceOfPsidGroupPermissions"
                   (map (fun r => (raw_ref "" (Some r)).2) <$> certIssuePermissions t);
                 ref "encryptionKey" (encryptionKey t);
                 ref "verifyKeyIndicator" (verifyKeyIndicator t); oct "other" (tbs_other t)]) |}.

Definition certificate_type (t : CertificateType) : Z :=
  match t with
  | CertificateType_explicit => 0
  | CertificateType_implicit => 1
  end.

#[export] Instance CertificateBase_layout : Layout CertificateBase := {|
  td := "CertificateBase";
  zero := [("version", CInt 0); ("type", CInt 0); ("issuer", null); ("toBeSigned", null);
           ("signature", null)];
  lay c := ("", [int "version" (cert_version c); int "type" (certificate_type (cert_type c));
                 ref "issuer" (issuer c); ref "toBeSigned" (toBeSigned c);
                 ref "signature" (cert_signature c)]) |}.

(** ** Secured data *)

#[export] Instance HashedData_layout : Layout HashedData := {|
  td := "HashedData"; zero := [];
  lay h := match h with
    | HashedData_NOTHING => alt0 ""
    | sha256HashedData h => alt (oct "sha256HashedData" h)
    | sha384HashedData h => alt (oct "sha384HashedData" h)
    | sm3HashedData h => alt (oct "sm3HashedData" h)
    end |}.

(** [Time64_t] is an INTEGER_t, whose buffer holds the number. *)
#[export] Instance Time64_layout : Layout Z := {|
  td := "Time64"; zero := [("buf", null)];
  lay z := ("", [("buf", TBig z)]) |}.

#[export] Instance HeaderInfo_layout : Layout HeaderInfo := {|
  td := "HeaderInfo"; zero := [("psid", CInt 0); ("generationTime", null); ("other", null)];
  lay h := ("", [int "psid" (hdr_psid h); ref "generationTime" (generationTime h);
                 oct "other" (hdr_other h)]) |}.

#[export] Instance SignerIdentifier_layout : Layout SignerIdentifier := {|
  td := "SignerIdentifier"; zero := [];
  lay s := match s with
    | SignerIdentifier_NOTHING => alt0 ""
    | SignerIdentifier_digest d => alt (oct "digest" d)
    | SignerIdentifier_certificate c =>
        alt (seq_ref "certificate" "SequenceOfCertificate" (Some (map tree_of c)))
    | SignerIdentifier_self => alt0 "self"
    end |}.

#[export] Instance EncryptedDataEncryptionKey_layout : Layout EncryptedDataEncryptionKey := {|
  td := "EncryptedDataEncryptionKey"; zero := [];
  lay k := match k with
    | EDEK_NOTHING => alt0 ""
    | edek_eciesNistP256 k => alt (ref "eciesNistP256" k)
    | edek_eciesBrainpoolP256r1 k => alt (ref "eciesBrainpoolP256r1" k)
    | edek_ecencSm2256 k => alt (raw_ref "ecencSm2256" k)
    end |}.

#[export] Instance PKRecipientInfo_layout : Layout PKRecipientInfo := {|
  td := "PKRecipientInfo"; zero := [("recipientId", null); ("encKey", null)];
  lay p := ("", [oct "recipientId" (recipientId p); ref "encKey" (encKey p)]) |}.

#[export] Instance RecipientInfo_layout : Layout RecipientInfo := {|
  td := "RecipientInfo"; zero := [];
  lay r := match r with
    | RecipientInfo_NOTHING => alt0 ""
    | pskRecipInfo h => alt (oct "pskRecipInfo" h)
    | symmRecipInfo s => alt (raw_ref "symmRecipInfo" s)
    | certRecipInfo p => alt (ref "certRecipInfo" p)
    | signedDataRecipInfo p => alt (ref "signedDataRecipInfo" p)
    | rekRecipInfo p => alt (ref "rekRecipInfo" p)
    end |}.

#[export] Instance One28BitCcmCiphertext_layout : Layout One28BitCcmCiphertext := {|
  td := "One28BitCcmCiphertext"; zero := [("nonce", null); ("ccmCiphertext", null)];
  lay c := ("", [oct "nonce" (ccm_nonce c); oct "ccmCiphertext" (ccmCiphertext c)]) |}.

#[export] Instance SymmetricCiphertext_layout : Layout SymmetricCiphertext := {|
  td := "SymmetricCiphertext"; zero := [];
  lay c := match c with
    | SymmetricCiphertext_NOTHING => alt0 ""
    | aes128ccm c => alt (ref "aes128ccm" c)
    | sm4Ccm c => alt (ref "sm4Ccm" c)
    end |}.

#[export] Instance EncryptedData_layout : Layout EncryptedData := {|
  td := "EncryptedData"; zero := [("recipients", null); ("ciphertext", null)];
  lay e := ("", [seq_ref "recipients" "SequenceOfRecipientInfo" (map tree_opt <$> recipients e);
                 ref "ciphertext" (ciphertext e)]) |}.

(** The SignedData tree, over the layout of the nested Ieee1609Dot2Data. *)
Section secured.
Context {D : Type} {LD : Layout D}.

#[export] Instance SignedDataPayload_layout : Layout (SignedDataPayload_ D) := {|
  td := "SignedDataPayload"; zero := [("data", null); ("extDataHash", null); ("omitted", CInt 0)];
  lay p := ("", [ref "data" (pl_data p); ref "extDataHash" (extDataHash p);
                 int "omitted" (if omitted p then 1 else 0)]) |}.

#[export] Instance ToBeSignedData_layout : Layout (ToBeSignedData_ D) := {|
  td := "ToBeSignedData"; zero := [("payload", null); ("headerInfo", null)];
  lay t := ("", [ref "payload" (payload t); ref "headerInfo" (headerInfo t)]) |}.

#[export] Instance SignedData_layout : Layout (SignedData_ D) := {|
  td := "SignedData";
  zero := [("hashId", CInt 0); ("tbsData", null); ("signer", null); ("signature", null)];
  lay s := ("", [int "hashId" (hash_algorithm (hashId s)); ref "tbsData" (tbsData s);
                 ref "signer" (signer s); ref "signature" (sd_signature s)]) |}.

#[export] Instance Ieee1609Dot2Content_layout : Layout (Ieee1609Dot2Content_ D) := {|
  td := "Ieee1609Dot2Content"; zero := [];
  lay c := match c with
    | Content_NOTHING => alt0 ""
    | unsecuredData o => alt (oct "unsecuredData" o)
    | signedData s => alt (ref "signedData" s)
    | encryptedData e => alt (ref "encryptedData" e)
    | signedCertificateRequest o => alt (oct "signedCertificateRequest" o)
    | signedX509CertificateRequest o => alt (oct "signedX509CertificateRequest" o)
    end |}.
End secured.

Definition data_td : string := "Ieee1609Dot2Data".
Definition data_zero : list (string * cval) := [("protocolVersion", CInt 0); ("content", null)].

Fixpoint lay_data (d : Ieee1609Dot2Data) : string * list (string * tree) :=
  let 'MkIeee1609Dot2Data version content := d in
  ("", [int "protocolVersion" version;
        @ref _ (Ieee1609Dot2Content_layout (LD := Build_Layout _ data_td data_zero lay_data))
          "content" content]).

#[export] Instance Ieee1609Dot2Data_layout : Layout Ieee1609Dot2Data :=
  Build_Layout _ data_td data_zero lay_data.

(** ** TS 102 941 *)

#[export] Instance CertificateSubjectAttributes_layout : Layout CertificateSubjectAttributes := {|
  td := "CertificateSubjectAttributes";
  zero := [("validityPeriod", null); ("appPermissions", null); ("other", null)];
  lay a := ("", [ref "validityPeriod" (csa_validityPeriod a);
                 seq_ref "appPermissions" "SequenceOfPsidSsp" (map tree_of <$> csa_appPermissions a);
                 oct "other" (csa_other a)]) |}.

#[export] Instance PublicKeys_layout : Layout PublicKeys := {|
  td := "PublicKeys"; zero := [("verificationKey", null); ("encryptionKey", null)];
  lay k := ("", [ref "verificationKey" (pk_verificationKey k);
                 ref "encryptionKey" (pk_encryptionKey k)]) |}.

#[export] Instance InnerEcRequest_layout : Layout InnerEcRequest := {|
  td := "InnerEcRequest";
  zero := [("itsId", null); ("certificateFormat", CInt 0); ("publicKeys", null);
           ("requestedSubjectAttributes", null)];
  lay r := ("", [oct "itsId" (itsId r); int "certificateFormat" (ec_certificateFormat r);
                 ref "publicKeys" (ec_publicKeys r);
                 ref "requestedSubjectAttributes" (ec_requestedSubjectAttributes r)]) |}.

#[export] Instance SharedAtRequest_layout : Layout SharedAtRequest := {|
  td := "SharedAtRequest";
  zero := [("eaId", null); ("keyTag", null); ("certificateFormat", CInt 0);
           ("requestedSubjectAttributes", null)];
  lay r := ("", [oct "eaId" (eaId r); oct "keyTag" (keyTag r);
                 int "certificateFormat" (at_certificateFormat r);
                 ref "requestedSubjectAttributes" (at_requestedSubjectAttributes r)]) |}.

#[export] Instance EcSignature_layout : Layout EcSignature := {|
  td := "EcSignature"; zero := [];
  lay s := match s with
    | EcSignature_NOTHING => alt0 ""
    | encryptedEcSignature d => alt (ref "encryptedEcSignature" d)
    | ecSignature_plain d => alt (ref "ecSignature" d)
    end |}.

#[export] Instance InnerAtRequest_layout : Layout InnerAtRequest := {|
  td := "InnerAtRequest";
  zero := [("publicKeys", null); ("hmacKey", null); ("sharedAtRequest", null);
           ("ecSignature", null)];
  lay r := ("", [ref "publicKeys" (at_publicKeys r); oct "hmacKey" (hmacKey r);
                 ref "sharedAtRequest" (sharedAtRequest r); ref "ecSignature" (ecSignature r)]) |}.

(** ** Messages the client only reads *)

(** A SEQUENCE OF that is embedded in a struct: the array of its elements, which is
    not allocated while it is empty. *)
Definition seq (n : string) (ts : list tree) : string * tree :=
  (n, match ts with [] => TNull | _ => TStruct "array" "" (map (pair "") ts) end).

(** An OCTET_STRING_t behind a pointer. *)
Definition octet_string_layout : Layout bytes := {|
  td := "OCTET_STRING"; zero := [("buf", null)];
  lay b := ("", [oct "buf" b]) |}.
#[local] Existing Instance octet_string_layout.

#[export] Instance InnerEcResponse_layout : Layout InnerEcResponse := {|
  td := "InnerEcResponse"; zero := [("requestHash", null); ("responseCode", CInt 0); ("certificate", null)];
  lay r := ("", [oct "requestHash" (ecr_requestHash r); int "responseCode" (ecr_responseCode r);
                 ref "certificate" (ecr_certificate r)]) |}.

#[export] Instance InnerAtResponse_layout : Layout InnerAtResponse := {|
  td := "InnerAtResponse"; zero := [("requestHash", null); ("responseCode", CInt 0); ("certificate", null)];
  lay r := ("", [oct "requestHash" (atr_requestHash r); int "responseCode" (atr_responseCode r);
                 ref "certificate" (atr_certificate r)]) |}.

#[export] Instance ToBeSignedCrl_layout : Layout ToBeSignedCrl := {|
  td := "ToBeSignedCrl";
  zero := [("version", CInt 0); ("thisUpdate", CInt 0); ("nextUpdate", CInt 0); ("entries", null)];
  lay c := ("", [int "version" (crl_version c); int "thisUpdate" (thisUpdate c);
                 int "nextUpdate" (crl_nextUpdate c); seq "entries" (map tree_opt (entries c))]) |}.

#[export] Instance RootCaEntry_layout : Layout RootCaEntry := {|
  td := "RootCaEntry"; zero := [("selfsignedRootCa", null); ("successorTo", null)];
  lay e := ("", [ref "selfsignedRootCa" (selfsignedRootCa e); ref "successorTo" (rca_successorTo e)]) |}.

#[export] Instance EaEntry_layout : Layout EaEntry := {|
  td := "EaEntry"; zero := [("eaCertificate", null); ("aaAccessPoint", null); ("itsAccessPoint", null)];
  lay e := ("", [ref "eaCertificate" (eaCertificate e); oct "aaAccessPoint" (aaAccessPoint e);
                 ref "itsAccessPoint" (itsAccessPoint e)]) |}.

#[export] Instance AaEntry_layout : Layout AaEntry := {|
  td := "AaEntry"; zero := [("aaCertificate", null); ("accessPoint", null)];
  lay e := ("", [ref "aaCertificate" (aaCertificate e); oct "accessPoint" (accessPoint e)]) |}.

#[export] Instance DcEntry_layout : Layout DcEntry := {|
  td := "DcEntry"; zero := [("url", null); ("cert", null)];
  lay e := ("", [oct "url" (dc_url e); seq "cert" (map tree_opt (dc_cert e))]) |}.

#[export] Instance TlmEntry_layout : Layout TlmEntry := {|
  td := "TlmEntry";
  zero := [("selfSignedTLMCertificate", null); ("successorTo", null); ("accessPoint", null)];
  lay e := ("", [ref "selfSignedTLMCertificate" (selfSignedTLMCertificate e);
                 ref "successorTo" (tlm_successorTo e); oct "accessPoint" (tlm_accessPoint e)]) |}.

#[export] Instance CtlEntry_layout : Layout CtlEntry := {|
  td := "CtlEntry"; zero := [];
  lay e := match e with
    | CtlEntry_NOTHING => alt0 ""
    | CtlEntry_rca e => alt (ref "rca" e)
    | CtlEntry_ea e => alt (ref "ea" e)
    | CtlEntry_aa e => alt (ref "aa" e)
    | CtlEntry_dc e => alt (ref "dc" e)
    | CtlEntry_tlm e => alt (ref "tlm" e)
    end |}.

#[export] Instance CtlCommand_layout : Layout CtlCommand := {|
  td := "CtlCommand"; zero := [];
  lay c := match c with
    | CtlCommand_NOTHING => alt0 ""
    | CtlCommand_add e => alt (ref "add" e)
    | CtlCommand_delete d => alt (raw_ref "delete" d)
    end |}.

#[export] Instance CtlFormat_layout : Layout CtlFormat := {|
  td := "CtlFormat";
  zero := [("version", CInt 0); ("nextUpdate", CInt 0); ("isFullCtl", CInt 0);
           ("ctlSequence", CInt 0); ("ctlCommands", null)];
  lay c := ("", [int "version" (ctl_version c); int "nextUpdate" (ctl_nextUpdate c);
                 int "isFullCtl" (if isFullCtl c then 1 else 0); int "ctlSequence" (ctlSequence c);
                 seq "ctlCommands" (map tree_opt (ctlCommands c))]) |}.

#[export] Instance EtsiTs102941DataContent_layout : Layout EtsiTs102941DataContent := {|
  td := "EtsiTs102941DataContent"; zero := [];
  lay c := match c with
    | DataContent_NOTHING => alt0 ""
    | certificateRevocationList c => alt (ref "certificateRevocationList" c)
    | certificateTrustListTlm c => alt (ref "certificateTrustListTlm" c)
    | certificateTrustListRca c => alt (ref "certificateTrustListRca" c)
    | DataContent_other _ r => alt (raw_ref "other" (Some r))
    end |}.

#[export] Instance EtsiTs102941Data_layout : Layout EtsiTs102941Data := {|
  td := "EtsiTs102941Data"; zero := [("version", CInt 0); ("content", null)];
  lay d := ("", [int "version" (etsi_version d); ref "content" (etsi_content d)]) |}.

Close Scope string_scope.
