(* ===== verification/AsnBuild.v ===== *)
(** The functions that build ASN.1 structures by hand, as they are written: with
    asn_calloc, assignments to members and unions, and releases on every path.

    src/internal/coer.cpp (octet::set), src/internal/curve_point.cpp (the three
    constructors), src/internal/signed_envelope.cpp and src/internal/encrypted_data.cpp
    (build_encrypted_data).  Each lemma says that the function computes what its
    functional model computes, in memory it then owns, or owning nothing. *)
From iris.proofmode Require Import proofmode environments.
From S2P Require Import Prelude Sizes StaticBytes Asn OpenSSL CryptoEc CurvePoint Ecies CertParse.
From S2P Require Import SignedMessage SignedEnvelope EncryptedData.
From S2P Require Import CHeap HeapLogic AsnTree AsnPtr AsnLayout.

Open Scope string_scope.

(** ** octet::set *)

Module coctet.

(** OCTET_STRING_fromBuf replaces the buffer of the string and frees the old one. *)
Definition set (l : loc) (f : string) (data : bytes) (len : nat) : M () :=
  o ← mem.load l;
  old ← mem.lift (mem.get_member o f);
  buf ← mem.alloc (Buf (octet.set data len));
  mem.free_rec old;;
  mem.assign l f (CPtr (Some buf)).

(** For a member of the alternative [alt] of a union. *)
Definition set_choice (l : loc) (alt f : string) (data : bytes) (len : nat) : M () :=
  o ← mem.load l;
  buf ← mem.alloc (Buf (octet.set data len));
  mem.free_rec (default null (mem.get_choice o alt f));;
  mem.modify l (fun o => mem.set_choice o alt f (CPtr (Some buf))).

(** For a member of a local variable. *)
Definition set_local (o : cell) (f : string) (data : bytes) (len : nat) : M cell :=
  old ← mem.lift (mem.get_member o f);
  buf ← mem.alloc (Buf (octet.set data len));
  mem.free_rec old;;
  mem.lift (mem.set_member o f (CPtr (Some buf))).

End coctet.

(** asn_ulong2INTEGER: the buffer of the number replaces the one there was. *)
Definition ulong2INTEGER (l : loc) (z : Z) : M () :=
  o ← mem.load l;
  old ← mem.lift (mem.get_member o "buf");
  buf ← mem.alloc (IntBuf z);
  mem.free_rec old;;
  mem.assign l "buf" (CPtr (Some buf)).

(** ** Rules for the steps of a builder *)

Section rules.
Implicit Types Q : () -> hpropI.

Lemma wp_calloc T `{!Layout T} (Q : loc -> hpropI) :
  (∀ l, l ↦ zeroed T -∗ Q l) ⊢ wp (asn_calloc T) Q.
Proof. apply wp_alloc. Qed.

Lemma wp_modify_at l f c c' Q :
  f c = Some c' -> l ↦ c -∗ (l ↦ c' -∗ Q ()) -∗ wp (mem.modify l f) Q.
Proof. iIntros (Hf) "Hl HQ". iApply wp_modify; [done|]. iFrame. Qed.

Lemma wp_free_null Q : Q () ⊢ wp (mem.free_rec null) Q.
Proof. iIntros "HQ". iApply (wp_free_rec TNull). iFrame. by iLeft. Qed.

Lemma holds_buf b l : l ↦ Buf b ⊢ holds (octets b) (CPtr (Some l)).
Proof. rw holds_octets. iIntros "H". iRight. iExists l. by iFrame. Qed.

(** The string was not set before. *)
Lemma wp_octet_set l f data len c Q :
  mem.get_member c f = Some null ->
  l ↦ c -∗
  (∀ b, holds (octets (octet.set data len)) (CPtr (Some b)) -∗ l ↦ c -∗
        wp (mem.assign l f (CPtr (Some b))) Q) -∗
  wp (coctet.set l f data len) Q.
Proof.
  iIntros (Hm) "Hl HQ". iApply wp_bind. iApply wp_load. iFrame. iIntros "Hl".
  iApply wp_bind. iApply wp_lift; [done|]. iApply wp_bind. iApply wp_alloc. iIntros (b) "Hb".
  iApply wp_bind. iApply wp_free_null. iApply ("HQ" with "[Hb] Hl"). by iApply holds_buf.
Qed.

Lemma wp_octet_set_choice l alt f data len c Q :
  mem.get_choice c alt f = None ->
  l ↦ c -∗
  (∀ b, holds (octets (octet.set data len)) (CPtr (Some b)) -∗ l ↦ c -∗
        wp (mem.modify l (fun o => mem.set_choice o alt f (CPtr (Some b)))) Q) -∗
  wp (coctet.set_choice l alt f data len) Q.
Proof.
  iIntros (Hm) "Hl HQ". iApply wp_bind. iApply wp_load. iFrame. iIntros "Hl".
  iApply wp_bind. iApply wp_alloc. iIntros (b) "Hb". rw Hm.
  iApply wp_bind. iApply wp_free_null. iApply ("HQ" with "[Hb] Hl"). by iApply holds_buf.
Qed.

Lemma wp_octet_set_local o f data len (Q : cell -> hpropI) :
  mem.get_member o f = Some null ->
  (∀ b, holds (octets (octet.set data len)) (CPtr (Some b)) -∗
        wp (mem.lift (mem.set_member o f (CPtr (Some b)))) Q) ⊢
  wp (coctet.set_local o f data len) Q.
Proof.
  iIntros (Hm) "HQ". iApply wp_bind. iApply wp_lift; [done|]. iApply wp_bind. iApply wp_alloc.
  iIntros (b) "Hb". iApply wp_bind. iApply wp_free_null. iApply "HQ". by iApply holds_buf.
Qed.

Lemma wp_ulong2INTEGER l z c Q :
  mem.get_member c "buf" = Some null ->
  l ↦ c -∗
  (∀ b, holds (TBig z) (CPtr (Some b)) -∗ l ↦ c -∗
        wp (mem.assign l "buf" (CPtr (Some b))) Q) -∗
  wp (ulong2INTEGER l z) Q.
Proof.
  iIntros (Hm) "Hl HQ". iApply wp_bind. iApply wp_load. iFrame. iIntros "Hl".
  iApply wp_bind. iApply wp_lift; [done|]. iApply wp_bind. iApply wp_alloc. iIntros (b) "Hb".
  iApply wp_bind. iApply wp_free_null. iApply ("HQ" with "[Hb] Hl"). iExists b. by iFrame.
Qed.

(** Putting a struct together once its members are in place, with [R] still to be
    proved from the rest. *)
Lemma asm_struct ty p fs a vs l R :
  mem.well_selected p a vs = true ->
  l ↦ Struct ty p a vs -∗ members fs vs ∗ R -∗ holds (TStruct ty p fs) (CPtr (Some l)) ∗ R.
Proof.
  iIntros (Hs) "Hl [Hm $]". rw holds_struct. iExists l, _. iFrame "Hl". iSplit; [done|].
  iExists a, vs. by iFrame.
Qed.

Lemma asm_tree {T} `{!Layout T} (x : T) p fs a vs l R :
  lay x = (p, fs) -> mem.well_selected p a vs = true ->
  l ↦ Struct (td T) p a vs -∗ members fs vs ∗ R -∗ holds (tree_of x) (CPtr (Some l)) ∗ R.
Proof. intros Hx. rw /tree_of Hx. apply asm_struct. Qed.

Lemma asm_local {T} `{!Layout T} (x : T) p fs a vs R :
  lay x = (p, fs) -> mem.well_selected p a vs = true ->
  members fs vs ∗ R ⊢ holds_local (tree_of x) (Struct (td T) p a vs) ∗ R.
Proof. intros Hx Hs. rw /tree_of Hx. iIntros "[Hm $]". iExists a, vs. by iFrame. Qed.

Lemma wp_free_local {T} `{!Layout T} (x : T) o Q :
  holds_local (tree_of x) o ∗ Q () ⊢ wp (mem.free_contents (td T) o) Q.
Proof. apply wp_free_contents. Qed.

Lemma asm_owns {T} `{!Layout T} (x : T) l R :
  holds (tree_of x) (CPtr (Some l)) ∗ R ⊢ owns (Some x) (Some l) ∗ R.
Proof. done. Qed.

Lemma asm_null R : R ⊢ holds TNull null ∗ R.
Proof. iIntros "$". by iLeft. Qed.

Lemma asm_int z R : R ⊢ holds (TInt z) (CInt z) ∗ R.
Proof. by iIntros "$". Qed.

Lemma asm_fact (φ : Prop) (R : hpropI) : φ -> R ⊢ ⌞φ⌟ ∗ R.
Proof. by iIntros (?) "$". Qed.

Lemma asm_assoc (P Q R : hpropI) : P ∗ Q ∗ R ⊢ (P ∗ Q) ∗ R.
Proof. by rw assoc. Qed.

Lemma asm_emp (R : hpropI) : R ⊢ emp ∗ R.
Proof. by iIntros "$". Qed.

Lemma asm_hyp (P R : hpropI) : P -∗ R -∗ P ∗ R.
Proof. iIntros "$ $". Qed.

Lemma asm_start (P : hpropI) : P ∗ emp ⊢ P.
Proof. by iIntros "[$ _]". Qed.

End rules.

(** Evaluate accesses to members of known cells, and nothing else. *)
Ltac mem_eval :=
  cbv [mem.set_member mem.set_present mem.set_choice mem.append_member mem.get_member
       mem.get_choice mem.member mem.update String.eqb Ascii.eqb Bool.eqb app];
  reflexivity.

(** One step of a builder. *)
Ltac wp_step :=
  lazymatch goal with
  | |- envs_entails _ (wp (mbind _ _) _) => iApply wp_bind
  | |- envs_entails _ (wp (mret _) _) => iApply wp_ret
  | |- envs_entails _ (wp (asn_calloc ?T) _) =>
      iApply wp_calloc; iIntros (?) "?";
      let z := eval cbv in (zeroed T) in change (zeroed T) with z
  | |- envs_entails _ (wp (mem.assign ?l _ _) _) => unfold mem.assign
  | |- envs_entails _ (wp (mem.assign_choice ?l _ _) _) => unfold mem.assign_choice
  | |- envs_entails _ (wp (mem.select ?l _) _) => unfold mem.select
  | |- envs_entails _ (wp (mem.sequence_add ?l _) _) => unfold mem.sequence_add
  | |- envs_entails _ (wp (mem.modify ?l _) _) =>
      iSelect (l ↦ _)%I (fun H => iApply (wp_modify_at with H); [mem_eval|]; iIntros H)
  | |- envs_entails _ (wp (coctet.set ?l _ _ _) _) =>
      iSelect (l ↦ _)%I (fun H => iApply (wp_octet_set with H); [mem_eval|]; iIntros (?) "?"; iIntros H)
  | |- envs_entails _ (wp (ulong2INTEGER ?l _) _) =>
      iSelect (l ↦ _)%I (fun H => iApply (wp_ulong2INTEGER with H); [mem_eval|]; iIntros (?) "?"; iIntros H)
  | |- envs_entails _ (wp (coctet.set_choice ?l _ _ _ _) _) =>
      iSelect (l ↦ _)%I (fun H =>
        iApply (wp_octet_set_choice with H); [mem_eval|]; iIntros (?) "?"; iIntros H)
  | |- envs_entails _ (wp (coctet.set_local _ _ _ _) _) =>
      iApply wp_octet_set_local; [mem_eval|]; iIntros (?) "?"
  | |- envs_entails _ (wp (mem.lift ?e) _) =>
      try (match e with context [zeroed ?T] =>
             let z := eval cbv in (zeroed T) in change (zeroed T) with z end);
      iApply wp_lift; [mem_eval|]
  end.
Ltac wp_steps := repeat wp_step.

(** Prove the first conjunct of the goal from the structs a builder has filled in. *)
Ltac asm_step :=
  lazymatch goal with
  | |- envs_entails _ (⌞_⌟ ∗ _) => iApply asm_fact; [done|]
  | |- envs_entails _ ((_ ∗ _) ∗ _) => iApply asm_assoc
  | |- envs_entails _ (emp ∗ _) => iApply asm_emp
  | |- envs_entails _ (members _ _ ∗ _) => progress simpl members
  | |- envs_entails _ (owns (Some _) _ ∗ _) => iApply asm_owns
  | |- envs_entails _ (owns None _ ∗ _) => iApply asm_fact; [done|]
  | |- envs_entails _ (holds (tree_opt (Some ?x)) ?v ∗ ?R) =>
      change (envs_entails _ (holds (tree_of x) v ∗ R))
  | |- envs_entails _ (holds (TInt _) _ ∗ _) => iApply asm_int
  | |- envs_entails _ (holds ?t ?v ∗ _) =>
      first
        [ iSelect (holds _ v) (fun H => iApply (asm_hyp with H))
        | iApply asm_null
        | lazymatch v with
          | CPtr (Some ?l) =>
              iSelect (l ↦ _)%I (fun H =>
                first [ iApply (asm_tree with H); [reflexivity|reflexivity|]
                      | iApply (asm_struct with H); [reflexivity|] ])
          end ]
  | |- envs_entails _ (holds_local _ _ ∗ _) => iApply asm_local; [reflexivity|reflexivity|]
  end.
Ltac asm_first := repeat asm_step.
Ltac asm := iApply asm_start; asm_first; try done.

#[global] Arguments octet.set : simpl never.
#[global] Arguments octets : simpl never.

(** ** src/internal/curve_point.cpp *)

Module cpoint.

Definition from_sec1 (pubkey : bytes) : M ptr :=
  if negb (length pubkey =? kP256PublicKeyLen)%nat then mret None else
  pt ← asn_calloc EccP256CurvePoint;
  let y_odd := negb (Z.land (byte.unsigned (nth 64 pubkey x00)) 1 =? 0)%Z in
  (if y_odd then
     mem.select pt "compressed_y_1";;
     coctet.set_choice pt "compressed_y_1" "compressed_y_1" (drop 1 pubkey) kP256ScalarLen
   else
     mem.select pt "compressed_y_0";;
     coctet.set_choice pt "compressed_y_0" "compressed_y_0" (drop 1 pubkey) kP256ScalarLen);;
  mret (Some pt).

Definition from_sec1_uncompressed (pubkey : bytes) : M ptr :=
  if negb (length pubkey =? kP256PublicKeyLen)%nat || negb (bool_decide (nth 0 pubkey x00 = x04))
  then mret None else
  pt ← asn_calloc EccP256CurvePoint;
  mem.select pt "uncompressedP256";;
  coctet.set_choice pt "uncompressedP256" "x" (drop 1 pubkey) kP256ScalarLen;;
  coctet.set_choice pt "uncompressedP256" "y" (drop (1 + kP256ScalarLen) pubkey) kP256ScalarLen;;
  mret (Some pt).

Definition from_sec1_384 (pubkey : bytes) : M ptr :=
  if negb (length pubkey =? kP384PublicKeyLen)%nat then mret None else
  pt ← asn_calloc EccP384CurvePoint;
  let y_odd := negb (Z.land (byte.unsigned (nth 96 pubkey x00)) 1 =? 0)%Z in
  (if y_odd then
     mem.select pt "compressed_y_1";;
     coctet.set_choice pt "compressed_y_1" "compressed_y_1" (drop 1 pubkey) kP384ScalarLen
   else
     mem.select pt "compressed_y_0";;
     coctet.set_choice pt "compressed_y_0" "compressed_y_0" (drop 1 pubkey) kP384ScalarLen);;
  mret (Some pt).

Lemma wp_from_sec1 pk (Q : ptr -> hpropI) :
  (∀ p, owns (point.from_sec1 pk) p -∗ Q p) ⊢ wp (from_sec1 pk) Q.
Proof.
  iIntros "HQ". unfold from_sec1, point.from_sec1. destruct (negb _).
  { iApply wp_ret. by iApply "HQ". }
  wp_steps. destruct (negb _); wp_steps; iApply "HQ"; asm.
Qed.

Lemma wp_from_sec1_384 pk (Q : ptr -> hpropI) :
  (∀ p, owns (point.from_sec1_384 pk) p -∗ Q p) ⊢ wp (from_sec1_384 pk) Q.
Proof.
  iIntros "HQ". unfold from_sec1_384, point.from_sec1_384. destruct (negb _).
  { iApply wp_ret. by iApply "HQ". }
  wp_steps. destruct (negb _); wp_steps; iApply "HQ"; asm.
Qed.

Lemma wp_from_sec1_uncompressed pk (Q : ptr -> hpropI) :
  (∀ p, owns (point.from_sec1_uncompressed pk) p -∗ Q p) ⊢ wp (from_sec1_uncompressed pk) Q.
Proof.
  iIntros "HQ". unfold from_sec1_uncompressed, point.from_sec1_uncompressed. destruct (_ || _).
  { iApply wp_ret. by iApply "HQ". }
  wp_steps. iApply "HQ". asm.
Qed.

End cpoint.

(** ** src/internal/signed_envelope.cpp *)

Module csign.
Section csign.
Context {ossl : OpenSSL} {cc : CCodec}.
Context {dc : Codec Ieee1609Dot2Data} {tc : Codec ToBeSignedData}.

Definition build_asn_signature (sig : Signature) (curve : Curve) : M loc :=
  asn_sig ← asn_calloc Signature_t;
  let slen := scalar_len curve in
  (if is_p256_size curve then
     ecdsa ← asn_calloc EcdsaP256Signature;
     r_pt ← asn_calloc EccP256CurvePoint;
     mem.select r_pt "x_only";;
     coctet.set_choice r_pt "x_only" "x_only" (data_ (sig_r sig)) slen;;
     mem.assign ecdsa "rSig" (CPtr (Some r_pt));;
     coctet.set ecdsa "sSig" (data_ (sig_s sig)) slen;;
     (if decide (curve = BrainpoolP256r1) then
        mem.select asn_sig "ecdsaBrainpoolP256r1Signature";;
        mem.assign_choice asn_sig "ecdsaBrainpoolP256r1Signature" (CPtr (Some ecdsa))
      else
        mem.select asn_sig "ecdsaNistP256Signature";;
        mem.assign_choice asn_sig "ecdsaNistP256Signature" (CPtr (Some ecdsa)))
   else
     ecdsa ← asn_calloc EcdsaP384Signature;
     r_pt ← asn_calloc EccP384CurvePoint;
     mem.select r_pt "x_only";;
     coctet.set_choice r_pt "x_only" "x_only" (data_ (sig_r sig)) slen;;
     mem.assign ecdsa "rSig" (CPtr (Some r_pt));;
     coctet.set ecdsa "sSig" (data_ (sig_s sig)) slen;;
     mem.select asn_sig "ecdsaBrainpoolP384r1Signature";;
     mem.assign_choice asn_sig "ecdsaBrainpoolP384r1Signature" (CPtr (Some ecdsa)));;
  mret asn_sig.

(** The error returns of [finalize_signed_data]: link what was built, free all of it. *)
Definition abandon (wrapper : cell) (content sd : loc) : M bytes :=
  mem.assign_choice content "signedData" (CPtr (Some sd));;
  wrapper ← mem.lift (mem.set_member wrapper "content" (CPtr (Some content)));
  mem.free_contents (td Ieee1609Dot2Data) wrapper;;
  mret [].

Definition finalize_signed_data (tbs : loc) (private_key signer_cert_bytes : bytes)
    (signer_hid8 : hid8) (curve : Curve) (g : rng) : M (bytes * rng) :=
  wrapper ← mem.lift (mem.set_member (zeroed Ieee1609Dot2Data) "protocolVersion"
                        (CInt kIeee1609Dot2Version));
  content ← asn_calloc Ieee1609Dot2Content;
  mem.select content "signedData";;
  sd ← asn_calloc SignedData;
  mem.assign sd "hashId" (CInt (hash_algorithm
    (if is_p256_size curve then HashAlgorithm_sha256 else HashAlgorithm_sha384)));;
  mem.assign sd "tbsData" (CPtr (Some tbs));;
  tbs_bytes ← ccoer.encode (td ToBeSignedData) (CPtr (Some tbs));
  if empty tbs_bytes then r ← abandon wrapper content sd; mret (r, g) else
  let h_tbs := crypto.hash_for_curve tbs_bytes curve in
  let h_signer := crypto.hash_for_curve signer_cert_bytes curve in
  let e := crypto.hash_for_curve (h_tbs ++ h_signer)%list curve in
  match crypto.ecdsa_sign_digest_curve private_key e curve g with
  | (None, g) => r ← abandon wrapper content sd; mret (r, g)
  | (Some sig, g) =>
      signer ← asn_calloc SignerIdentifier;
      (if empty signer_cert_bytes then mem.select signer "self"
       else
         mem.select signer "digest";;
         coctet.set_choice signer "digest" "digest" signer_hid8 kHashedId8Len);;
      mem.assign sd "signer" (CPtr (Some signer));;
      signature ← build_asn_signature sig curve;
      mem.assign sd "signature" (CPtr (Some signature));;
      mem.assign_choice content "signedData" (CPtr (Some sd));;
      wrapper ← mem.lift (mem.set_member wrapper "content" (CPtr (Some content)));
      result ← ccoer.encode_local (td Ieee1609Dot2Data) wrapper;
      mem.free_contents (td Ieee1609Dot2Data) wrapper;;
      mret (result, g)
  end.

(** The HeaderInfo node both kinds of ToBeSignedData get. *)
Definition make_header (now_us : Z) : M loc :=
  hdr ← asn_calloc HeaderInfo;
  mem.assign hdr "psid" (CInt kPsidScr);;
  gen_time ← asn_calloc Z;
  ulong2INTEGER gen_time (sign.current_generation_time now_us);;
  mem.assign hdr "generationTime" (CPtr (Some gen_time));;
  mret hdr.

Definition make_unsecured_tbs (payload_bytes : bytes) (now_us : Z) : M loc :=
  tbs ← asn_calloc ToBeSignedData;
  payload ← asn_calloc SignedDataPayload;
  payload_data ← asn_calloc Ieee1609Dot2Data;
  mem.assign payload_data "protocolVersion" (CInt kIeee1609Dot2Version);;
  unsecured_content ← asn_calloc Ieee1609Dot2Content;
  mem.select unsecured_content "unsecuredData";;
  coctet.set_choice unsecured_content "unsecuredData" "unsecuredData" payload_bytes
    (length payload_bytes);;
  mem.assign payload_data "content" (CPtr (Some unsecured_content));;
  mem.assign payload "data" (CPtr (Some payload_data));;
  mem.assign tbs "payload" (CPtr (Some payload));;
  hdr ← make_header now_us;
  mem.assign tbs "headerInfo" (CPtr (Some hdr));;
  mret tbs.

Definition build_self_signed (payload_bytes private_key : bytes) (curve : Curve)
    (now_us : Z) (g : rng) : M (bytes * rng) :=
  tbs ← make_unsecured_tbs payload_bytes now_us;
  finalize_signed_data tbs private_key [] (zeros 8) curve g.

Definition build_signed_by_cert (payload_bytes : bytes) (signer_cert : CertInfo)
    (private_key : bytes) (curve : Curve) (now_us : Z) (g : rng) : M (bytes * rng) :=
  tbs ← make_unsecured_tbs payload_bytes now_us;
  finalize_signed_data tbs private_key (sb.to_vector (cert_bytes signer_cert))
    (hashed_id_8 signer_cert) curve g.

Definition build_external_payload (ext_data_hash : bytes) (ec_cert : CertInfo)
    (ec_private_key : bytes) (curve : Curve) (now_us : Z) (g : rng) : M (bytes * rng) :=
  tbs ← asn_calloc ToBeSignedData;
  payload ← asn_calloc SignedDataPayload;
  hashed ← asn_calloc HashedData;
  (if is_p256_size curve then
     mem.select hashed "sha256HashedData";;
     coctet.set_choice hashed "sha256HashedData" "sha256HashedData" ext_data_hash
       (length ext_data_hash)
   else
     mem.select hashed "sha384HashedData";;
     coctet.set_choice hashed "sha384HashedData" "sha384HashedData" ext_data_hash
       (length ext_data_hash));;
  mem.assign payload "extDataHash" (CPtr (Some hashed));;
  mem.assign tbs "payload" (CPtr (Some payload));;
  hdr ← make_header now_us;
  mem.assign tbs "headerInfo" (CPtr (Some hdr));;
  finalize_signed_data tbs ec_private_key (sb.to_vector (cert_bytes ec_cert))
    (hashed_id_8 ec_cert) curve g.

(** ** Lemmas *)

Lemma wp_build_asn_signature sig curve (Q : loc -> hpropI) :
  (∀ l, holds (tree_of (sign.build_asn_signature sig curve)) (CPtr (Some l)) -∗ Q l) ⊢
  wp (build_asn_signature sig curve) Q.
Proof.
  iIntros "HQ". unfold build_asn_signature, sign.build_asn_signature. wp_steps.
  destruct (is_p256_size curve); [destruct (decide _)|]; wp_steps; iApply "HQ"; asm.
Qed.

Lemma wp_make_header now (Q : loc -> hpropI) :
  (∀ l, holds (tree_of (sign.make_header now)) (CPtr (Some l)) -∗ Q l) ⊢ wp (make_header now) Q.
Proof. iIntros "HQ". unfold make_header. wp_steps. iApply "HQ". asm. Qed.

Lemma wp_make_unsecured_tbs pl now (Q : loc -> hpropI) :
  (∀ l, holds (tree_of (sign.make_unsecured_tbs pl now)) (CPtr (Some l)) -∗ Q l) ⊢
  wp (make_unsecured_tbs pl now) Q.
Proof.
  iIntros "HQ". unfold make_unsecured_tbs. wp_steps. iApply wp_make_header. iIntros (?) "?".
  wp_steps. iApply "HQ". asm.
Qed.

Context `{!CEncodes Ieee1609Dot2Data, !CEncodes ToBeSignedData}.

(** Everything that was built up to an error is freed. *)
Lemma wp_abandon v content sd tree hid (tbs : ToBeSignedData) (Q : bytes -> hpropI) :
  content ↦ Struct "Ieee1609Dot2Content" "signedData" "" [] ∗
  sd ↦ Struct "SignedData" "" ""
    [("hashId", CInt (hash_algorithm hid)); ("tbsData", CPtr (Some tree)); ("signer", null);
     ("signature", null)] ∗
  holds (tree_of tbs) (CPtr (Some tree)) ∗ Q [] ⊢
  wp (abandon (Struct "Ieee1609Dot2Data" "" "" [("protocolVersion", CInt v); ("content", null)])
        content sd) Q.
Proof.
  iIntros "(Hc & Hs & Ht & HQ)". unfold abandon. wp_steps.
  iApply (wp_free_local (MkIeee1609Dot2Data v (Some (signedData (Some
    (MkSignedData hid (Some tbs) None None)))))). asm_first. by iApply wp_ret.
Qed.

Lemma wp_finalize tbs tree priv cert hid curve g (Q : bytes * rng -> hpropI) :
  holds (tree_of tbs) (CPtr (Some tree)) ∗
  Q (sign.finalize_signed_data tbs priv cert hid curve g) ⊢
  wp (finalize_signed_data tree priv cert hid curve g) Q.
Proof.
  iIntros "[Ht HQ]". unfold finalize_signed_data, sign.finalize_signed_data. wp_steps.
  iApply (ccoer.wp_encode tbs). iFrame "Ht". iIntros "Ht". destruct (empty _).
  { wp_steps. iApply wp_abandon. iFrame. by iApply wp_ret. }
  destruct (crypto.ecdsa_sign_digest_curve _ _ _ _) as [[sig|] g'].
  2: { wp_steps. iApply wp_abandon. iFrame. by iApply wp_ret. }
  wp_steps. destruct (empty cert); wp_steps; iApply wp_build_asn_signature; iIntros (?) "?";
    wp_steps; lazymatch goal with |- context [coer.encode ?x] => iApply (ccoer.wp_encode_local x) end;
    asm_first; iIntros "H"; wp_steps; iApply wp_free_local; iFrame "H"; by iApply wp_ret.
Qed.

Lemma wp_build_self_signed pl priv curve now g (Q : bytes * rng -> hpropI) :
  Q (sign.build_self_signed pl priv curve now g) ⊢ wp (build_self_signed pl priv curve now g) Q.
Proof.
  iIntros "HQ". iApply wp_bind. iApply wp_make_unsecured_tbs. iIntros (l) "Hl".
  iApply wp_finalize. iFrame.
Qed.

Lemma wp_build_signed_by_cert pl ci priv curve now g (Q : bytes * rng -> hpropI) :
  Q (sign.build_signed_by_cert pl ci priv curve now g) ⊢
  wp (build_signed_by_cert pl ci priv curve now g) Q.
Proof.
  iIntros "HQ". iApply wp_bind. iApply wp_make_unsecured_tbs. iIntros (l) "Hl".
  iApply wp_finalize. iFrame.
Qed.

Lemma wp_build_external_payload h ci priv curve now g (Q : bytes * rng -> hpropI) :
  Q (sign.build_external_payload h ci priv curve now g) ⊢
  wp (build_external_payload h ci priv curve now g) Q.
Proof.
  iIntros "HQ". unfold build_external_payload, sign.build_external_payload. wp_steps.
  destruct (is_p256_size curve); wp_steps; iApply wp_make_header; iIntros (?) "?"; wp_steps;
    lazymatch goal with |- context [sign.finalize_signed_data ?t] => iApply (wp_finalize t) end;
    asm_first; done.
Qed.

End csign.
End csign.

(** ** src/internal/encrypted_data.cpp *)

Module cenc.
Section cenc.
Context {ossl : OpenSSL}.

Definition build_encrypted_data (ecies : EciesEncryptResult) (recipient_cert : CertInfo)
    (curve : Curve) : M loc :=
  wrapper ← asn_calloc Ieee1609Dot2Data;
  mem.assign wrapper "protocolVersion" (CInt kIeee1609Dot2Version);;
  enc_content ← asn_calloc Ieee1609Dot2Content;
  mem.select enc_content "encryptedData";;
  enc_data ← asn_calloc EncryptedData;
  recipients ← mem.alloc (Struct "SequenceOfRecipientInfo" "" "" []);
  ri ← asn_calloc RecipientInfo;
  mem.select ri "certRecipInfo";;
  pk_ri ← asn_calloc PKRecipientInfo;
  coctet.set pk_ri "recipientId" (hashed_id_8 recipient_cert) kHashedId8Len;;
  enc_key ← asn_calloc EncryptedDataEncryptionKey;
  ecies_k ← asn_calloc EciesP256EncryptedKey;
  v ← cpoint.from_sec1 (ephemeral_pubkey ecies);
  mem.assign ecies_k "v" (CPtr v);;
  coctet.set ecies_k "c" (encrypted_key ecies) (length (encrypted_key ecies));;
  coctet.set ecies_k "t" (tag_kdf ecies) (length (tag_kdf ecies));;
  (match curve with
   | BrainpoolP256r1 | BrainpoolP384r1 =>
       mem.select enc_key "eciesBrainpoolP256r1";;
       mem.assign_choice enc_key "eciesBrainpoolP256r1" (CPtr (Some ecies_k))
   | _ =>
       mem.select enc_key "eciesNistP256";;
       mem.assign_choice enc_key "eciesNistP256" (CPtr (Some ecies_k))
   end);;
  mem.assign pk_ri "encKey" (CPtr (Some enc_key));;
  mem.assign_choice ri "certRecipInfo" (CPtr (Some pk_ri));;
  mem.sequence_add recipients (CPtr (Some ri));;
  mem.assign enc_data "recipients" (CPtr (Some recipients));;
  ct ← asn_calloc SymmetricCiphertext;
  mem.select ct "aes128ccm";;
  ccm ← asn_calloc One28BitCcmCiphertext;
  coctet.set ccm "nonce" (nonce_ccm ecies) (length (nonce_ccm ecies));;
  let ct_tag := (ecies_ciphertext ecies ++ tag_ccm ecies)%list in
  coctet.set ccm "ccmCiphertext" ct_tag (length ct_tag);;
  mem.assign_choice ct "aes128ccm" (CPtr (Some ccm));;
  mem.assign enc_data "ciphertext" (CPtr (Some ct));;
  mem.assign_choice enc_content "encryptedData" (CPtr (Some enc_data));;
  mem.assign wrapper "content" (CPtr (Some enc_content));;
  mret wrapper.

Lemma wp_build_encrypted_data e ci curve (Q : loc -> hpropI) :
  (∀ l, holds (tree_of (enc.build_encrypted_data e ci curve)) (CPtr (Some l)) -∗ Q l) ⊢
  wp (build_encrypted_data e ci curve) Q.
Proof.
  iIntros "HQ". unfold build_encrypted_data. wp_steps. iApply wp_alloc. iIntros (?) "?".
  wp_steps. iApply cpoint.wp_from_sec1. iIntros (v) "Hv". rw owns_holds. wp_steps.
  unfold enc.build_encrypted_data, enc.encrypted_data_of.
  destruct curve; wp_steps; iApply "HQ"; asm.
Qed.

End cenc.
End cenc.

Close Scope string_scope.
