(* ===== verification/AsnRequest.v ===== *)
(** The request encoders of src/ec_request.cpp and src/at_request.cpp with their
    memory: every structure they allocate, link and free, on every path.

    Both files contain the same code for the verification key, the requested
    attributes, the encryption to a CA and the last steps; it is here once. *)
From iris.proofmode Require Import proofmode environments.
From S2P Require Import Prelude Result Sizes StaticBytes Asn OpenSSL CryptoEc CurvePoint Ecies.
From S2P Require Import CertParse SignedMessage SignedEnvelope EncryptedData.
From S2P Require Import Request EcRequest AtRequest CHeap HeapLogic AsnTree AsnPtr AsnLayout AsnBuild.

Open Scope string_scope.

Module crequest.
Section crequest.
Context {ossl : OpenSSL} {cc : CCodec}.

(** The switch over the curve, for a PublicVerificationKey in the heap. *)
Definition set_verification_key (pvk : loc) (curve : Curve) (key : bytes) : M () :=
  match curve with
  | BrainpoolP256r1 =>
      mem.select pvk "ecdsaBrainpoolP256r1";;
      p ← cpoint.from_sec1 key;
      mem.assign_choice pvk "ecdsaBrainpoolP256r1" (CPtr p)
  | BrainpoolP384r1 =>
      mem.select pvk "ecdsaBrainpoolP384r1";;
      p ← cpoint.from_sec1_384 key;
      mem.assign_choice pvk "ecdsaBrainpoolP384r1" (CPtr p)
  | _ =>
      mem.select pvk "ecdsaNistP256";;
      p ← cpoint.from_sec1 key;
      mem.assign_choice pvk "ecdsaNistP256" (CPtr p)
  end.

(** The same switch for a local variable. *)
Definition local_verification_key (curve : Curve) (key : bytes) : M cell :=
  let pvk := zeroed PublicVerificationKey in
  let choose (alt : string) (p : ptr) :=
    o ← mem.lift (mem.set_present pvk alt); mem.lift (mem.set_choice o alt alt (CPtr p)) in
  match curve with
  | BrainpoolP256r1 => p ← cpoint.from_sec1 key; choose "ecdsaBrainpoolP256r1" p
  | BrainpoolP384r1 => p ← cpoint.from_sec1_384 key; choose "ecdsaBrainpoolP384r1" p
  | _ => p ← cpoint.from_sec1 key; choose "ecdsaNistP256" p
  end.

Definition public_keys (curve : Curve) (key : bytes) : M loc :=
  pkeys ← asn_calloc PublicKeys;
  pvk ← asn_calloc PublicVerificationKey;
  set_verification_key pvk curve key;;
  mem.assign pkeys "verificationKey" (CPtr (Some pvk));;
  mret pkeys.

(** [for (auto psid : desc.psids)] *)
Fixpoint add_psids (perms : loc) (psids : list Z) : M () :=
  match psids with
  | [] => mret ()
  | psid :: rest =>
      entry ← asn_calloc PsidSsp;
      mem.assign entry "psid" (CInt (u64 psid));;
      mem.sequence_add perms (CPtr (Some entry));;
      add_psids perms rest
  end.

Definition subject_attributes (validity_start validity_duration_hours : Z) (psids : list Z)
    : M loc :=
  attrs ← asn_calloc CertificateSubjectAttributes;
  vp ← asn_calloc ValidityPeriod;
  mem.assign vp "start" (CInt validity_start);;
  dur ← asn_calloc Duration;
  mem.select dur "hours";;
  mem.assign_choice dur "hours" (CInt validity_duration_hours);;
  mem.assign vp "duration" (CPtr (Some dur));;
  mem.assign attrs "validityPeriod" (CPtr (Some vp));;
  perms ← mem.alloc (Struct "SequenceOfPsidSsp" "" "" []);
  add_psids perms psids;;
  mem.assign attrs "appPermissions" (CPtr (Some perms));;
  mret attrs.

(** ECIES to a CA; the wrapper is the caller's. *)
Definition encrypt_to (cert : CertInfo) (plaintext : bytes) (g : rng)
    : M (Result (loc * EciesEncryptResult) * rng) :=
  let enc_key := request.recipient_key cert in
  if (length enc_key <? 33)%nat then mret (Err InvalidArgument, g) else
  let ecies_curve := enc_curve cert in
  let p1 := crypto.hash_sha256 (sb.to_vector (cert_bytes cert)) in
  match ecies.ecies_encrypt_curve enc_key plaintext p1 ecies_curve g with
  | (None, g) => mret (Err Crypto, g)
  | (Some e, g) =>
      wrapper ← cenc.build_encrypted_data e cert ecies_curve;
      mret (Ok (wrapper, e), g)
  end.

(** Encode the wrapper, free it, and copy the bytes and the key. *)
Definition finish (wrapper : loc) (e : EciesEncryptResult)
    : M (Result (StaticBytes kMaxCoerMessageLen * StaticBytes kAesKeyLen)) :=
  final_bytes ← ccoer.encode (td Ieee1609Dot2Data) (CPtr (Some wrapper));
  mem.struct_free (td Ieee1609Dot2Data) (Some wrapper);;
  mret (if empty final_bytes then Err Encode else
        some! encoded := sb.from kMaxCoerMessageLen final_bytes or! Err Encode;
        some! key := sb.from kAesKeyLen (Ecies.aes_key e) or! Err Crypto;
        Ok (encoded, key)).

(** ** Lemmas *)

Ltac wp_point :=
  lazymatch goal with
  | |- envs_entails _ (wp (cpoint.from_sec1 _) _) => iApply cpoint.wp_from_sec1
  | |- envs_entails _ (wp (cpoint.from_sec1_384 _) _) => iApply cpoint.wp_from_sec1_384
  end; iIntros (?) "Hp"; iDestruct (owns_holds with "Hp") as "Hp".

Lemma wp_set_verification_key pvk curve key (Q : () -> hpropI) :
  pvk ↦ Struct "PublicVerificationKey" "" "" [] ∗
  (holds (tree_of (request.verification_key_node curve key)) (CPtr (Some pvk)) -∗ Q ()) ⊢
  wp (set_verification_key pvk curve key) Q.
Proof.
  iIntros "[Hk HQ]". unfold set_verification_key.
  destruct curve; wp_steps;
    wp_point; wp_steps; iApply "HQ"; asm.
Qed.

Lemma wp_local_verification_key curve key (Q : cell -> hpropI) :
  (∀ o, holds_local (tree_of (request.verification_key_node curve key)) o -∗ Q o) ⊢
  wp (local_verification_key curve key) Q.
Proof.
  iIntros "HQ". unfold local_verification_key.
  destruct curve; wp_steps;
    wp_point; wp_steps; iApply "HQ"; asm.
Qed.

Lemma wp_public_keys curve key (Q : loc -> hpropI) :
  (∀ l, holds (tree_of (request.public_keys curve key)) (CPtr (Some l)) -∗ Q l) ⊢
  wp (public_keys curve key) Q.
Proof.
  iIntros "HQ". unfold public_keys. wp_steps. iApply wp_set_verification_key.
  iSelect (_ ↦ Struct "PublicVerificationKey" _ _ _)%I (fun H => iFrame H). iIntros "Hk".
  wp_steps. iApply "HQ". asm.
Qed.

Lemma members_app fs vs fs' vs' : members fs vs ∗ members fs' vs' ⊢ members (fs ++ fs') (vs ++ vs').
Proof.
  revert vs. induction fs as [|[n t] fs IH]; intros [|[n' v] vs]; simpl.
  - by iIntros "[_ $]".
  - by iIntros "[[] _]".
  - by iIntros "[[] _]".
  - iIntros "[($ & $ & H) H']". iApply IH. iFrame.
Qed.

Definition psid_members (psids : list Z) : list (string * tree) :=
  map (pair "") (map tree_of (map (fun p => MkPsidSsp (u64 p) None) psids)).

Lemma wp_add_psids perms fs vs psids (Q : () -> hpropI) :
  perms ↦ Struct "SequenceOfPsidSsp" "" "" vs ∗ members fs vs ∗
  (∀ vs', perms ↦ Struct "SequenceOfPsidSsp" "" "" vs' -∗
          members (fs ++ psid_members psids) vs' -∗ Q ()) ⊢
  wp (add_psids perms psids) Q.
Proof.
  revert fs vs. induction psids as [|psid psids IH]; intros fs vs; iIntros "(Hp & Hm & HQ)"; simpl.
  - iApply wp_ret. iApply ("HQ" with "Hp"). by rw app_nil_r.
  - wp_steps. iApply IH. iFrame "Hp".
    rw cons_middle assoc. iFrame "HQ". iApply members_app. iFrame "Hm". simpl. asm.
Qed.

Lemma wp_subject_attributes start hours psids (Q : loc -> hpropI) :
  (∀ l, holds (tree_of (request.subject_attributes start hours psids)) (CPtr (Some l)) -∗ Q l) ⊢
  wp (subject_attributes start hours psids) Q.
Proof.
  iIntros "HQ". unfold subject_attributes. wp_steps. iApply wp_alloc. iIntros (perms) "Hp".
  wp_steps. iApply (wp_add_psids _ []). iFrame "Hp". iSplitR; [done|].
  iIntros (vs) "Hp Hm". wp_steps. iApply "HQ".
  iAssert (holds (TStruct "SequenceOfPsidSsp" "" (psid_members psids)) (CPtr (Some perms)))
    with "[Hp Hm]" as "Hperms"; [|asm].
  iApply asm_start. iApply (asm_struct with "Hp"); [done|]. by iFrame.
Qed.

Lemma wp_encrypt_to cert pt g (Q : _ -> hpropI) :
  (match request.encrypt_to cert pt g with
   | (Ok (w, e), g) => ∀ l, holds (tree_of w) (CPtr (Some l)) -∗ Q (Ok (l, e), g)
   | (Err e, g) => Q (Err e, g)
   end) ⊢ wp (encrypt_to cert pt g) Q.
Proof.
  iIntros "HQ". unfold encrypt_to, request.encrypt_to. destruct (_ <? 33)%nat; [by wp_steps|].
  destruct (ecies.ecies_encrypt_curve _ _ _ _ _) as [[e|] g']; [|by wp_steps].
  wp_steps. iApply cenc.wp_build_encrypted_data. iIntros (l) "Hl". wp_steps. by iApply "HQ".
Qed.

Context {dc : Codec Ieee1609Dot2Data} `{!CEncodes Ieee1609Dot2Data}.

Lemma wp_finish w l e (Q : _ -> hpropI) :
  holds (tree_of w) (CPtr (Some l)) ∗ Q (request.finish w e) ⊢ wp (finish l e) Q.
Proof.
  iIntros "[Hw HQ]". unfold finish. wp_steps. iApply (ccoer.wp_encode w). iFrame "Hw". iIntros "Hw". wp_steps.
  iApply wp_struct_free. iFrame "Hw". by wp_steps.
Qed.

End crequest.
End crequest.

(** ** src/ec_request.cpp *)

Module cec.
Section cec.
Context {ossl : OpenSSL} {cc : CCodec}.
Context {dc : Codec Ieee1609Dot2Data} {tc : Codec ToBeSignedData} {iq : Codec InnerEcRequest}.

Definition encode_ec_request (desc : EcRequestDescription) (ea_cert : CertInfo)
    (canonical_private_key : bytes) (now1 now2 : Z) (g : rng) : M (Result EcRequestResult * rng) :=
  let curve := ed_curve desc in
  let id := bytes_of_string (ed_its_id desc) in
  inner ← coctet.set_local (zeroed InnerEcRequest) "itsId" id (length id);
  inner ← mem.lift (mem.set_member inner "certificateFormat" (CInt CertificateFormat_ts103097v131));
  pkeys ← crequest.public_keys curve (sb.to_vector (ed_verification_key desc));
  inner ← mem.lift (mem.set_member inner "publicKeys" (CPtr (Some pkeys)));
  attrs ← crequest.subject_attributes (ed_validity_start desc) (ed_validity_duration_hours desc)
            (ed_psids desc);
  inner ← mem.lift (mem.set_member inner "requestedSubjectAttributes" (CPtr (Some attrs)));
  inner_bytes ← ccoer.encode_local (td InnerEcRequest) inner;
  mem.free_contents (td InnerEcRequest) inner;;
  if empty inner_bytes then mret (Err Encode, g) else
  r ← csign.build_self_signed inner_bytes canonical_private_key curve now1 g;
  let '(pop_signed_bytes, g) := (r : bytes * rng) in
  if empty pop_signed_bytes then mret (Err Crypto, g) else
  let etsi_bytes := ([x01; x80] ++ pop_signed_bytes)%list in
  r ← csign.build_self_signed etsi_bytes canonical_private_key curve now2 g;
  let '(outer_signed_bytes, g) := (r : bytes * rng) in
  if empty outer_signed_bytes then mret (Err Crypto, g) else
  r ← crequest.encrypt_to ea_cert outer_signed_bytes g;
  match (r : Result (loc * EciesEncryptResult) * rng) with
  | (Err e, g) => mret (Err e, g)
  | (Ok (enc_wrapper, ecies_result), g) =>
      r ← crequest.finish enc_wrapper ecies_result;
      mret (try! (encoded, aes_key) := r; Ok (MkEcRequestResult encoded aes_key), g)
  end.

Context `{!CEncodes Ieee1609Dot2Data, !CEncodes ToBeSignedData, !CEncodes InnerEcRequest}.

Lemma wp_encode_ec_request desc ea priv now1 now2 g (Q : _ -> hpropI) :
  Q (ec.encode_ec_request desc ea priv now1 now2 g) ⊢
  wp (encode_ec_request desc ea priv now1 now2 g) Q.
Proof.
  iIntros "HQ". unfold encode_ec_request, ec.encode_ec_request. wp_steps.
  iApply crequest.wp_public_keys. iIntros (l) "Hl". wp_steps.
  iApply crequest.wp_subject_attributes. iIntros (l') "Hl'". wp_steps.
  iApply (ccoer.wp_encode_local (ec.inner_ec_request desc)). asm_first. iIntros "H". wp_steps.
  iApply wp_free_local. iFrame "H". destruct (empty _); [by wp_steps|]. wp_steps.
  iApply csign.wp_build_self_signed. destruct (sign.build_self_signed _ _ _ _ g) as [pop g1].
  destruct (empty pop); [by wp_steps|]. wp_steps.
  iApply csign.wp_build_self_signed. destruct (sign.build_self_signed _ _ _ _ g1) as [outer g2].
  destruct (empty outer); [by wp_steps|]. wp_steps.
  iApply crequest.wp_encrypt_to. destruct (request.encrypt_to ea outer g2) as [[[w e]|] g3];
    [|by wp_steps].
  iIntros (lw) "Hw". wp_steps. iApply (crequest.wp_finish w). iFrame "Hw". by wp_steps.
Qed.

End cec.
End cec.

(** ** src/at_request.cpp *)

Module cat.
Section cat.
Context {ossl : OpenSSL} {cc : CCodec} {hjunk : UninitHmac}.
Context {dc : Codec Ieee1609Dot2Data} {tc : Codec ToBeSignedData}.
Context {pc : Codec PublicVerificationKey} {sc : Codec SharedAtRequest} {iq : Codec InnerAtRequest}.

(** OER(PublicVerificationKey), the input of the key tag. *)
Definition encode_verification_key (curve : Curve) (key : bytes) : M bytes :=
  pvk ← crequest.local_verification_key curve key;
  pvk_oer ← ccoer.encode_local (td PublicVerificationKey) pvk;
  mem.free_contents (td PublicVerificationKey) pvk;;
  mret pvk_oer.

(** The local [SharedAtRequest_t shared]. *)
Definition local_shared (desc : AtRequestDescription) (key_tag : bytes) : M cell :=
  shared ← coctet.set_local (zeroed SharedAtRequest) "eaId" (ad_ea_hid8 desc) kHashedId8Len;
  shared ← coctet.set_local shared "keyTag" key_tag 16;
  shared ← mem.lift (mem.set_member shared "certificateFormat"
                       (CInt CertificateFormat_ts103097v131));
  attrs ← crequest.subject_attributes (ad_validity_start desc) (ad_validity_duration_hours desc)
            (ad_psids desc);
  mem.lift (mem.set_member shared "requestedSubjectAttributes" (CPtr (Some attrs))).

(** The local [InnerAtRequest_t inner] before the shared request is linked in. *)
Definition local_inner (desc : AtRequestDescription) : M cell :=
  pkeys ← crequest.public_keys (ad_curve desc) (sb.to_vector (ad_verification_key desc));
  inner ← mem.lift (mem.set_member (zeroed InnerAtRequest) "publicKeys" (CPtr (Some pkeys)));
  coctet.set_local inner "hmacKey" (data_ (ad_hmac_key desc)) (sb.size (ad_hmac_key desc)).

(** From the linked-in shared request to the bytes of the inner request; everything
    is freed with [inner]. *)
Definition encode_inner (inner : cell) (shared_decoded : ptr) (enc_ec_sig : loc) : M bytes :=
  inner ← mem.lift (mem.set_member inner "sharedAtRequest" (CPtr shared_decoded));
  ec_signature ← asn_calloc EcSignature;
  mem.select ec_signature "encryptedEcSignature";;
  mem.assign_choice ec_signature "encryptedEcSignature" (CPtr (Some enc_ec_sig));;
  inner ← mem.lift (mem.set_member inner "ecSignature" (CPtr (Some ec_signature)));
  inner_bytes ← ccoer.encode_local (td InnerAtRequest) inner;
  mem.free_contents (td InnerAtRequest) inner;;
  mret inner_bytes.

(** The outer envelope, signed with the new key and encrypted to the AA. *)
Definition seal_at_request (inner_bytes : bytes) (curve : Curve) (aa_cert : CertInfo)
    (at_private_key : bytes) (now2 : Z) (g : rng) : M (Result AtRequestResult * rng) :=
  let etsi_bytes := ([x01; x82] ++ inner_bytes)%list in
  r ← csign.build_self_signed etsi_bytes at_private_key curve now2 g;
  let '(outer_signed_bytes, g) := (r : bytes * rng) in
  if empty outer_signed_bytes then mret (Err Crypto, g) else
  r ← crequest.encrypt_to aa_cert outer_signed_bytes g;
  match (r : Result (loc * EciesEncryptResult) * rng) with
  | (Err e, g) => mret (Err e, g)
  | (Ok (enc_outer, ecies_aa), g) =>
      r ← crequest.finish enc_outer ecies_aa;
      mret (try! (encoded, aes_key) := r; Ok (MkAtRequestResult encoded aes_key), g)
  end.

Definition encode_at_request (desc : AtRequestDescription) (aa_cert ea_cert ec_cert : CertInfo)
    (ec_private_key at_private_key : bytes) (now1 now2 : Z) (g : rng)
    : M (Result AtRequestResult * rng) :=
  let curve := ad_curve desc in
  pvk_oer ← encode_verification_key curve (sb.to_vector (ad_verification_key desc));
  if empty pvk_oer then mret (Err Encode, g) else
  shared ← local_shared desc (at_.key_tag (ad_hmac_key desc) pvk_oer);
  shared_coer ← ccoer.encode_local (td SharedAtRequest) shared;
  if empty shared_coer then mem.free_contents (td SharedAtRequest) shared;; mret (Err Encode, g) else
  let ext_hash := crypto.hash_for_curve shared_coer curve in
  r ← csign.build_external_payload ext_hash ec_cert ec_private_key curve now1 g;
  let '(signed_ext_bytes, g) := (r : bytes * rng) in
  if empty signed_ext_bytes
  then mem.free_contents (td SharedAtRequest) shared;; mret (Err Crypto, g) else
  r ← crequest.encrypt_to ea_cert signed_ext_bytes g;
  match (r : Result (loc * EciesEncryptResult) * rng) with
  | (Err e, g) => mem.free_contents (td SharedAtRequest) shared;; mret (Err e, g)
  | (Ok (enc_ec_sig, _), g) =>
      inner ← local_inner desc;
      shared_decoded ← asn_ptr.asn_decode (T := SharedAtRequest) shared_coer;
      mem.free_contents (td SharedAtRequest) shared;;
      if negb (asn_ptr.operator_bool shared_decoded) then
        mem.struct_free (td Ieee1609Dot2Data) (Some enc_ec_sig);;
        mem.free_contents (td InnerAtRequest) inner;;
        asn_ptr.destroy shared_decoded;;
        mret (Err Encode, g)
      else
        let '(p, shared_decoded) := asn_ptr.release shared_decoded in
        inner_bytes ← encode_inner inner p enc_ec_sig;
        r ← (if empty inner_bytes then mret (Err Encode, g)
             else seal_at_request inner_bytes curve aa_cert at_private_key now2 g);
        asn_ptr.destroy shared_decoded;;
        mret (r : Result AtRequestResult * rng)
  end.

(** ** Lemmas *)

Context `{!CEncodes Ieee1609Dot2Data, !CEncodes ToBeSignedData, !CEncodes PublicVerificationKey,
  !CEncodes SharedAtRequest, !CEncodes InnerAtRequest}.

Lemma wp_encode_verification_key curve key (Q : bytes -> hpropI) :
  Q (coer.encode (request.verification_key_node curve key)) ⊢
  wp (encode_verification_key curve key) Q.
Proof.
  iIntros "HQ". unfold encode_verification_key. wp_steps. iApply crequest.wp_local_verification_key.
  iIntros (o) "Ho". wp_steps. iApply ccoer.wp_encode_local. iFrame "Ho". iIntros "Ho". wp_steps.
  iApply wp_free_local. iFrame "Ho". by wp_steps.
Qed.

Lemma wp_local_shared desc tag (Q : cell -> hpropI) :
  (∀ o, holds_local (tree_of (at_.shared_at_request desc tag)) o -∗ Q o) ⊢
  wp (local_shared desc tag) Q.
Proof.
  iIntros "HQ". unfold local_shared. wp_steps. iApply crequest.wp_subject_attributes.
  iIntros (l) "Hl". wp_steps. iApply "HQ". asm.
Qed.

Lemma wp_local_inner desc (Q : cell -> hpropI) :
  (∀ pkeys key,
     holds (tree_of (request.public_keys (ad_curve desc) (sb.to_vector (ad_verification_key desc))))
       pkeys -∗
     holds (octets (octet.set (data_ (ad_hmac_key desc)) (sb.size (ad_hmac_key desc)))) key -∗
     Q (Struct "InnerAtRequest" "" "" [("publicKeys", pkeys); ("hmacKey", key);
          ("sharedAtRequest", null); ("ecSignature", null)])) ⊢
  wp (local_inner desc) Q.
Proof.
  iIntros "HQ". unfold local_inner. wp_steps. iApply crequest.wp_public_keys. iIntros (l) "Hl".
  wp_steps. iApply ("HQ" with "Hl"). done.
Qed.

Lemma wp_encode_inner desc shared sig pkeys key p l (Q : bytes -> hpropI) :
  holds (tree_of (request.public_keys (ad_curve desc) (sb.to_vector (ad_verification_key desc))))
    pkeys ∗
  holds (octets (octet.set (data_ (ad_hmac_key desc)) (sb.size (ad_hmac_key desc)))) key ∗
  holds (tree_of shared) (CPtr p) ∗ holds (tree_of sig) (CPtr (Some l)) ∗
  Q (coer.encode (at_.inner_at_request desc shared sig)) ⊢
  wp (encode_inner (Struct "InnerAtRequest" "" "" [("publicKeys", pkeys); ("hmacKey", key);
        ("sharedAtRequest", null); ("ecSignature", null)]) p l) Q.
Proof.
  iIntros "(Hk & Hh & Hp & Hs & HQ)". unfold encode_inner. wp_steps.
  iApply (ccoer.wp_encode_local (at_.inner_at_request desc shared sig)). asm_first. iIntros "H".
  wp_steps. iApply wp_free_local. iFrame "H". by wp_steps.
Qed.

Lemma wp_seal_at_request b curve aa priv now g (Q : _ -> hpropI) :
  Q (let '(outer, g) := sign.build_self_signed ([x01; x82] ++ b)%list priv curve now g in
     if empty outer then (Err Crypto, g) else
     match request.encrypt_to aa outer g with
     | (Err e, g) => (Err e, g)
     | (Ok (w, e), g) =>
         (try! (encoded, aes_key) := request.finish w e; Ok (MkAtRequestResult encoded aes_key), g)
     end) ⊢
  wp (seal_at_request b curve aa priv now g) Q.
Proof.
  iIntros "HQ". unfold seal_at_request. wp_steps. iApply csign.wp_build_self_signed.
  destruct (sign.build_self_signed _ _ _ _ _) as [outer g1]. destruct (empty outer); [by wp_steps|].
  wp_steps. iApply crequest.wp_encrypt_to.
  destruct (request.encrypt_to aa outer g1) as [[[w e]|] g2]; [|by wp_steps].
  iIntros (lw) "Hw". wp_steps. iApply (crequest.wp_finish w). iFrame "Hw". by wp_steps.
Qed.

Lemma wp_encode_at_request desc aa ea eci ec_priv at_priv now1 now2 g (Q : _ -> hpropI) :
  Q (at_.encode_at_request desc aa ea eci ec_priv at_priv now1 now2 g) ⊢
  wp (encode_at_request desc aa ea eci ec_priv at_priv now1 now2 g) Q.
Proof.
  iIntros "HQ". unfold encode_at_request, at_.encode_at_request. wp_steps.
  iApply wp_encode_verification_key. destruct (empty _); [by wp_steps|]. wp_steps.
  iApply wp_local_shared. iIntros (shared) "Hsh". wp_steps. iApply ccoer.wp_encode_local.
  iFrame "Hsh". iIntros "Hsh". set (sv := at_.shared_at_request _ _).
  destruct (empty (coer.encode sv)).
  { wp_steps. iApply wp_free_local. iFrame "Hsh". by wp_steps. }
  wp_steps. iApply csign.wp_build_external_payload.
  destruct (sign.build_external_payload _ _ _ _ _ _) as [sx g1]. destruct (empty sx).
  { wp_steps. iApply wp_free_local. iFrame "Hsh". by wp_steps. }
  wp_steps. iApply crequest.wp_encrypt_to.
  destruct (request.encrypt_to ea sx g1) as [[[sg e]|] g2].
  2: { wp_steps. iApply wp_free_local. iFrame "Hsh". by wp_steps. }
  iIntros (lsig) "Hsig". wp_steps. iApply wp_local_inner. iIntros (pkeys key) "Hk Hh". wp_steps.
  iApply asn_ptr.wp_asn_decode. iIntros (p) "Hp". rw at_opt_owns. wp_steps. iApply wp_free_local. iFrame "Hsh".
  iDestruct (asn_ptr.owns_operator_bool with "Hp") as "[Hp %Eb]". rw Eb.
  destruct (coer.decode (coer.encode sv)) as [shv|];
    [change (negb _) with false|change (negb _) with true]; cbv iota.
  - simpl. wp_steps. iApply (wp_encode_inner desc shv sg). iFrame "Hk Hh Hp Hsig".
    destruct (empty _).
    + wp_steps. iApply asn_ptr.wp_destroy. iSplitR; [done|]. by wp_steps.
    + wp_steps. iApply wp_seal_at_request. wp_steps. iApply asn_ptr.wp_destroy. iSplitR; [done|].
      by wp_steps.
  - wp_steps. iApply wp_struct_free. iFrame "Hsig". wp_steps.
    iApply (wp_free_local (MkInnerAtRequest (Some (request.public_keys (ad_curve desc)
      (sb.to_vector (ad_verification_key desc))))
      (octet.set (data_ (ad_hmac_key desc)) (sb.size (ad_hmac_key desc))) None None)).
    asm_first. wp_steps. iApply asn_ptr.wp_destroy. iDestruct "Hp" as "->". iSplitR; [done|].
    by wp_steps.
Qed.

End cat.
End cat.

Close Scope string_scope.
