(* ===== verification/AsnCert.v ===== *)
(** The certificate builders of src/trust_chain.cpp (namespace cert_utils) with their
    memory. *)
From iris.proofmode Require Import proofmode environments.
From S2P Require Import Prelude Result Sizes StaticBytes Asn OpenSSL CryptoEc CurvePoint.
From S2P Require Import CertParse TrustChain CHeap HeapLogic AsnTree AsnPtr AsnLayout AsnBuild.

Open Scope string_scope.

Module ccert.
Section ccert.
Context {ossl : OpenSSL} {cc : CCodec}.

(** The nodes both [encode_tbs_uper] and [build_tbs_struct] allocate; the first fills
    in a local variable with them, the second a struct in the heap. *)
Definition make_id (name : string) : M loc :=
  id ← asn_calloc CertificateId;
  mem.select id "name";;
  coctet.set_choice id "name" "name" (bytes_of_string name) (length (bytes_of_string name));;
  mret id.

Definition make_validity (start_time duration_years : Z) : M loc :=
  vp ← asn_calloc ValidityPeriod;
  mem.assign vp "start" (CInt start_time);;
  dur ← asn_calloc Duration;
  mem.select dur "years";;
  mem.assign_choice dur "years" (CInt duration_years);;
  mem.assign vp "duration" (CPtr (Some dur));;
  mret vp.

Definition make_key_indicator (public_key : bytes) : M loc :=
  vki ← asn_calloc VerificationKeyIndicator;
  mem.select vki "verificationKey";;
  pvk ← asn_calloc PublicVerificationKey;
  mem.select pvk "ecdsaNistP256";;
  point ← asn_calloc EccP256CurvePoint;
  mem.select point "uncompressedP256";;
  coctet.set_choice point "uncompressedP256" "x" (drop 1 public_key) kP256ScalarLen;;
  coctet.set_choice point "uncompressedP256" "y" (drop kP256CompressedLen public_key)
    kP256ScalarLen;;
  mem.assign_choice pvk "ecdsaNistP256" (CPtr (Some point));;
  mem.assign_choice vki "verificationKey" (CPtr (Some pvk));;
  mret vki.

Definition make_issue_permissions (is_ca : bool) : M ptr :=
  if is_ca then perms ← mem.alloc (Struct "SequenceOfPsidGroupPermissions" "" "" []); mret (Some perms)
  else mret None.

Definition encode_tbs_uper (name : string) (public_key : bytes) (is_ca : bool)
    (start_time duration_years : Z) : M bytes :=
  if negb (length public_key =? kP256PublicKeyLen)%nat then mret [] else
  let tbs := zeroed ToBeSignedCertificate in
  id ← make_id name;
  tbs ← mem.lift (mem.set_member tbs "id" (CPtr (Some id)));
  tbs ← coctet.set_local tbs "cracaId" [x00; x00; x00] 3;
  tbs ← mem.lift (mem.set_member tbs "crlSeries" (CInt 0));
  vp ← make_validity start_time duration_years;
  tbs ← mem.lift (mem.set_member tbs "validityPeriod" (CPtr (Some vp)));
  vki ← make_key_indicator public_key;
  tbs ← mem.lift (mem.set_member tbs "verifyKeyIndicator" (CPtr (Some vki)));
  perms ← make_issue_permissions is_ca;
  tbs ← mem.lift (mem.set_member tbs "certIssuePermissions" (CPtr perms));
  result ← ccoer.encode_uper_local (td ToBeSignedCertificate) tbs;
  mem.free_contents (td ToBeSignedCertificate) tbs;;
  mret result.

Definition build_tbs_struct (name : string) (public_key : bytes) (is_ca : bool)
    (start_time duration_years : Z) : M ptr :=
  if negb (length public_key =? kP256PublicKeyLen)%nat then mret None else
  tbs ← asn_calloc ToBeSignedCertificate;
  id ← make_id name;
  mem.assign tbs "id" (CPtr (Some id));;
  coctet.set tbs "cracaId" [x00; x00; x00] 3;;
  mem.assign tbs "crlSeries" (CInt 0);;
  vp ← make_validity start_time duration_years;
  mem.assign tbs "validityPeriod" (CPtr (Some vp));;
  vki ← make_key_indicator public_key;
  mem.assign tbs "verifyKeyIndicator" (CPtr (Some vki));;
  perms ← make_issue_permissions is_ca;
  mem.assign tbs "certIssuePermissions" (CPtr perms);;
  mret (Some tbs).

Definition make_issuer (is_self_signed : bool) (issuer_hid8 : hid8) : M loc :=
  issuer ← asn_calloc IssuerIdentifier;
  (if (is_self_signed : bool) then
     mem.select issuer "self";;
     mem.assign_choice issuer "self" (CInt (hash_algorithm HashAlgorithm_sha256))
   else
     mem.select issuer "sha256AndDigest";;
     coctet.set_choice issuer "sha256AndDigest" "sha256AndDigest" issuer_hid8 kHashedId8Len);;
  mret issuer.

Definition make_signature (sig : Signature) : M loc :=
  asn_sig ← asn_calloc Signature_t;
  mem.select asn_sig "ecdsaNistP256Signature";;
  ecdsa_sig ← asn_calloc EcdsaP256Signature;
  r_point ← asn_calloc EccP256CurvePoint;
  mem.select r_point "x_only";;
  coctet.set_choice r_point "x_only" "x_only" (data_ (sig_r sig)) kP256ScalarLen;;
  mem.assign ecdsa_sig "rSig" (CPtr (Some r_point));;
  coctet.set ecdsa_sig "sSig" (data_ (sig_s sig)) kP256ScalarLen;;
  mem.assign_choice asn_sig "ecdsaNistP256Signature" (CPtr (Some ecdsa_sig));;
  mret asn_sig.

Context {cb : Codec CertificateBase}.

(** The CertInfo of the encoded certificate. *)
Definition cert_info (name : string) (subject_public_key : bytes) (issuer_hid8 : hid8)
    (is_self_signed : bool) (sig : Signature) (cert_bytes tbs_coer : bytes) : option CertInfo :=
  if empty cert_bytes then None else
  match sb.from kP384PublicKeyLen subject_public_key,
        sb.from kMaxCoerMessageLen cert_bytes,
        sb.from kMaxCoerMessageLen tbs_coer with
  | Some pk, Some cb, Some tb =>
      Some {| cert_bytes := cb;
              hashed_id_8 := cert.compute_hid8 cert_bytes;
              public_key := pk;
              encryption_key := sb.default_ _;
              enc_curve := NistP256;
              issuer_hash_id_8 := if is_self_signed then zeros 8 else issuer_hid8;
              CertParse.is_self_signed := is_self_signed;
              tbs_bytes := tb;
              signature_r := sig_r sig;
              signature_s := sig_s sig;
              curve := NistP256;
              issuer_hash := Sha256;
              validity_start := 0;
              validity_duration_seconds := u64 (30 * kYearSeconds);
              label := name |}
  | _, _, _ => None
  end.

Definition build_signed_cert (name : string) (subject_public_key issuer_private_key : bytes)
    (issuer_hid8 : hid8) (is_ca is_self_signed : bool) (issuer_cert_bytes : bytes) (g : rng)
    : M (option CertInfo * rng) :=
  if negb (length subject_public_key =? kP256PublicKeyLen)%nat then mret (None, g) else
  let start_time := 0%Z in
  let duration_years := 30%Z in
  p ← build_tbs_struct name subject_public_key is_ca start_time duration_years;
  match (p : ptr) with
  | None => mret (None, g)
  | Some tbs =>
      tbs_coer ← ccoer.encode (td ToBeSignedCertificate) (CPtr (Some tbs));
      if empty tbs_coer
      then mem.struct_free (td ToBeSignedCertificate) (Some tbs);; mret (None, g) else
      let tbs_hash := crypto.hash_sha256 tbs_coer in
      let signer_input := if is_self_signed then [] else issuer_cert_bytes in
      let signer_hash := crypto.hash_sha256 signer_input in
      let digest := crypto.hash_sha256 (tbs_hash ++ signer_hash)%list in
      match crypto.ecdsa_sign_digest issuer_private_key digest g with
      | (None, g) => mem.struct_free (td ToBeSignedCertificate) (Some tbs);; mret (None, g)
      | (Some sig, g) =>
          cert ← mem.lift (mem.set_member (zeroed CertificateBase) "version"
                             (CInt kIeee1609Dot2Version));
          cert ← mem.lift (mem.set_member cert "type"
                             (CInt (certificate_type CertificateType_explicit)));
          issuer ← make_issuer is_self_signed issuer_hid8;
          cert ← mem.lift (mem.set_member cert "issuer" (CPtr (Some issuer)));
          cert ← mem.lift (mem.set_member cert "toBeSigned" (CPtr (Some tbs)));
          asn_sig ← make_signature sig;
          cert ← mem.lift (mem.set_member cert "signature" (CPtr (Some asn_sig)));
          cert_bytes ← ccoer.encode_local (td CertificateBase) cert;
          mem.free_contents (td CertificateBase) cert;;
          mret (cert_info name subject_public_key issuer_hid8 is_self_signed sig
                  cert_bytes tbs_coer, g)
      end
  end.

Definition build_root_cert (name : string) (public_key private_key : bytes) (g : rng)
    : M (option CertInfo * rng) :=
  build_signed_cert name public_key private_key (zeros 8) true true [] g.

(** ** Lemmas *)

Lemma octet_set_all b : octet.set b (length b) = b.
Proof. by apply take_ge. Qed.

Lemma wp_make_id name (Q : loc -> hpropI) :
  (∀ l, holds (tree_of (CertificateId_name (bytes_of_string name))) (CPtr (Some l)) -∗ Q l) ⊢
  wp (make_id name) Q.
Proof. iIntros "HQ". unfold make_id. wp_steps. rw octet_set_all. iApply "HQ". asm. Qed.

Lemma wp_make_validity start n (Q : loc -> hpropI) :
  (∀ l, holds (tree_of (MkValidityPeriod start (Some (years n)))) (CPtr (Some l)) -∗ Q l) ⊢
  wp (make_validity start n) Q.
Proof. iIntros "HQ". unfold make_validity. wp_steps. iApply "HQ". asm. Qed.

Definition key_indicator (pk : bytes) : VerificationKeyIndicator :=
  verificationKey (Some (ecdsaNistP256 (Some (P256_uncompressedP256
    (octet.set (drop 1 pk) kP256ScalarLen)
    (octet.set (drop kP256CompressedLen pk) kP256ScalarLen))))).

Lemma wp_make_key_indicator pk (Q : loc -> hpropI) :
  (∀ l, holds (tree_of (key_indicator pk)) (CPtr (Some l)) -∗ Q l) ⊢ wp (make_key_indicator pk) Q.
Proof. iIntros "HQ". unfold make_key_indicator. wp_steps. iApply "HQ". asm. Qed.

Lemma wp_make_issue_permissions (ca : bool) (Q : ptr -> hpropI) :
  (∀ p, holds (if ca then TStruct "SequenceOfPsidGroupPermissions" "" [] else TNull) (CPtr p) -∗ Q p)
  ⊢ wp (make_issue_permissions ca) Q.
Proof.
  iIntros "HQ". unfold make_issue_permissions. destruct ca; wp_steps.
  - iApply wp_alloc. iIntros (l) "Hl". wp_steps. iApply "HQ". asm.
  - iApply "HQ". asm.
Qed.

Lemma wp_make_issuer (ss : bool) h (Q : loc -> hpropI) :
  (∀ l, holds (tree_of (if ss then self HashAlgorithm_sha256
                        else sha256AndDigest (octet.set h kHashedId8Len))) (CPtr (Some l)) -∗ Q l) ⊢
  wp (make_issuer ss h) Q.
Proof. iIntros "HQ". unfold make_issuer. destruct ss; wp_steps; iApply "HQ"; asm. Qed.

Lemma wp_make_signature sig (Q : loc -> hpropI) :
  (∀ l, holds (tree_of (ecdsaNistP256Signature (Some (MkEcdsaP256Signature
          (Some (P256_x_only (octet.set (data_ (sig_r sig)) kP256ScalarLen)))
          (octet.set (data_ (sig_s sig)) kP256ScalarLen))))) (CPtr (Some l)) -∗ Q l) ⊢
  wp (make_signature sig) Q.
Proof. iIntros "HQ". unfold make_signature. wp_steps. iApply "HQ". asm. Qed.

Lemma wp_build_tbs_struct name pk ca start n (Q : ptr -> hpropI) :
  (∀ p, owns (cert_utils.build_tbs_struct name pk ca start n) p -∗ Q p) ⊢
  wp (build_tbs_struct name pk ca start n) Q.
Proof.
  iIntros "HQ". unfold build_tbs_struct, cert_utils.build_tbs_struct. destruct (negb _).
  { wp_steps. by iApply "HQ". }
  wp_steps. iApply wp_make_id. iIntros (?) "?". wp_steps. iApply wp_make_validity. iIntros (?) "?".
  wp_steps. iApply wp_make_key_indicator. iIntros (?) "?". wp_steps.
  iApply wp_make_issue_permissions. iIntros (perms) "Hp". wp_steps. iApply "HQ".
  unfold cert_utils.tbs_struct. destruct ca; asm.
Qed.

Context {up : UperCodec ToBeSignedCertificate} `{!CEncodesUper ToBeSignedCertificate}.

Lemma wp_encode_uper_local (x : ToBeSignedCertificate) o (Q : bytes -> hpropI) :
  holds_local (tree_of x) o ∗ (holds_local (tree_of x) o -∗ Q (coer.encode_uper x)) ⊢
  wp (ccoer.encode_uper_local (td ToBeSignedCertificate) o) Q.
Proof.
  iIntros "[H HQ]". iApply wp_bind. iApply wp_read_local. iFrame. iIntros "H".
  iApply ccoer.wp_new_buffer. pose proof (c_encode_uper_lay x) as E. unfold tree_of in E. rw E.
  iApply ("HQ" with "H").
Qed.

Lemma wp_encode_tbs_uper name pk ca start n (Q : bytes -> hpropI) :
  Q (cert_utils.encode_tbs_uper name pk ca start n) ⊢ wp (encode_tbs_uper name pk ca start n) Q.
Proof.
  iIntros "HQ". unfold encode_tbs_uper, cert_utils.encode_tbs_uper. destruct (negb _); [by wp_steps|].
  wp_steps. iApply wp_make_id. iIntros (?) "?". wp_steps. iApply wp_make_validity. iIntros (?) "?".
  wp_steps. iApply wp_make_key_indicator. iIntros (?) "?". wp_steps.
  iApply wp_make_issue_permissions. iIntros (perms) "Hp". wp_steps.
  iApply (wp_encode_uper_local (cert_utils.tbs_struct name pk ca start n)).
  unfold cert_utils.tbs_struct. destruct ca; asm_first; iIntros "H"; wp_steps; iApply wp_free_local;
    iFrame "H"; by wp_steps.
Qed.

Context {tb : Codec ToBeSignedCertificate} `{!CEncodes CertificateBase, !CEncodes ToBeSignedCertificate}.

Lemma wp_build_signed_cert name spk ipriv ih ca ss icb g (Q : _ -> hpropI) :
  Q (cert_utils.build_signed_cert name spk ipriv ih ca ss icb g) ⊢
  wp (build_signed_cert name spk ipriv ih ca ss icb g) Q.
Proof.
  iIntros "HQ". unfold build_signed_cert, cert_utils.build_signed_cert.
  destruct (negb _); [by wp_steps|]. wp_steps. iApply wp_build_tbs_struct. iIntros (p) "Hp".
  destruct (cert_utils.build_tbs_struct _ _ _ _ _) as [tbs|]; simpl owns.
  2: { iDestruct "Hp" as "->". by wp_steps. }
  iDestruct (holds_not_null with "Hp") as "(%l & -> & Hp)".
  wp_steps. iApply (ccoer.wp_encode tbs). iFrame "Hp". iIntros "Hp". destruct (empty _).
  { wp_steps. iApply wp_struct_free. iFrame "Hp". by wp_steps. }
  destruct (crypto.ecdsa_sign_digest _ _ _) as [[sig|] g'].
  2: { wp_steps. iApply wp_struct_free. iFrame "Hp". by wp_steps. }
  wp_steps. iApply wp_make_issuer. iIntros (?) "?". wp_steps. iApply wp_make_signature.
  iIntros (?) "?". wp_steps.
  iApply (ccoer.wp_encode_local (cert_utils.cert_struct tbs sig ih ss)). asm_first. iIntros "H".
  wp_steps. iApply wp_free_local. iFrame "H". wp_steps. unfold cert_info.
  destruct (empty _); [done|]. repeat destruct (sb.from _ _); done.
Qed.

End ccert.
End ccert.

Close Scope string_scope.
