(* ===== verification/AsnRead.v ===== *)
(** Reading a decoded structure through its pointers: access to members, unions and
    lists, and a program logic for code that leaves the heap as it found it. *)
From iris.proofmode Require Import proofmode environments.
From S2P Require Import Prelude Asn.
From S2P Require Import CHeap HeapLogic AsnTree AsnPtr AsnLayout.

Open Scope string_scope.

(** ** Access to members *)

Module reader.

(** [p->f], [p->choice.alt.f] and [p->present]. *)
Definition get (l : loc) (f : string) : M cval :=
  o ← mem.load l; mem.lift (mem.get_member o f).

Definition choice (l : loc) (alt f : string) : M cval :=
  o ← mem.load l; mem.lift (mem.get_choice o alt f).

Definition present (l : loc) : M string :=
  o ← mem.load l;
  match o with
  | Struct _ p _ _ => mret p
  | _ => mem.undefined
  end.

(** What kind of member it is: a pointer, a number, or an embedded OCTET STRING, whose
    bytes are read ([octet::bytes], with none when [buf] is null). *)
Definition as_int (v : cval) : M Z :=
  match v with
  | CInt z => mret z
  | CPtr _ => mem.undefined
  end.

Definition buffer (v : cval) : M bytes :=
  p ← ccoer.to_ptr v;
  match (p : ptr) with
  | None => mret []
  | Some b =>
      o ← mem.load b;
      match o with
      | Buf bs => mret bs
      | _ => mem.undefined
      end
  end.

Definition get_ptr (l : loc) (f : string) : M ptr := v ← get l f; ccoer.to_ptr v.
Definition get_int (l : loc) (f : string) : M Z := v ← get l f; as_int v.
Definition get_octets (l : loc) (f : string) : M bytes := v ← get l f; buffer v.

Definition choice_ptr (l : loc) (alt : string) : M ptr := v ← choice l alt alt; ccoer.to_ptr v.
Definition choice_int (l : loc) (alt : string) : M Z := v ← choice l alt alt; as_int v.
Definition choice_octets (l : loc) (alt f : string) : M bytes := v ← choice l alt f; buffer v.

(** The elements of a SEQUENCE OF: [list.array[0]] to [list.array[list.count - 1]]. *)
Definition elements (l : loc) : M (list cval) :=
  o ← mem.load l;
  match o with
  | Struct _ _ _ fs => mret (map snd fs)
  | _ => mem.undefined
  end.

(** The elements of a list that is a member of [l]. *)
Definition items (l : loc) (f : string) : M (list cval) :=
  v ← get l f;
  p ← ccoer.to_ptr v;
  match (p : ptr) with
  | None => mret []
  | Some a => elements a
  end.

Definition is_null (p : ptr) : bool := match p with None => true | Some _ => false end.

End reader.

(** ** Programs that only read

    [reads P m r]: in a heap of which a part satisfies [P], [m] returns [r] and
    changes no cell.  The rest of the heap does not matter, so a program that follows
    a pointer is proved from what that pointer leads to, and nothing has to be given
    back. *)
Definition reads {A} (P : hpropI) (m : M A) (r : A) : Prop :=
  forall h hf s, P h -> h ##ₘ hf ->
  exists s', m (MkCState (h ∪ hf) s) = Some (r, MkCState (h ∪ hf) s').

Section reads.
Context {A B : Type}.
Implicit Types (P : hpropI) (m : M A) (f : A -> M B).

Lemma reads_ret P (a : A) : reads P (mret a) a.
Proof. intros h hf s _ _. by exists s. Qed.

Lemma reads_bind P m f a b : reads P m a -> reads P (f a) b -> reads P (m ≫= f) b.
Proof.
  intros Hm Hf h hf s HP Hd. destruct (Hm h hf s HP Hd) as [s1 E1].
  destruct (Hf h hf s1 HP Hd) as [s2 E2]. exists s2. unfold mbind, M_bind. by rw E1.
Qed.

Lemma reads_assoc {C} P (m : M C) (k : C -> M A) f b :
  reads P (m ≫= fun c => k c ≫= f) b -> reads P ((m ≫= k) ≫= f) b.
Proof.
  intros H h hf s HP Hd. destruct (H h hf s HP Hd) as [s' E]. exists s'. rw -E.
  unfold mbind, M_bind. by destruct (m _) as [[]|].
Qed.

Lemma reads_sub P P' m a : (P ⊢ P' ∗ True) -> reads P' m a -> reads P m a.
Proof.
  intros [HP] Hm h hf s Hh Hd. destruct (HP h Hh) as (h1 & h2 & -> & Hd' & H1 & _).
  apply map_disjoint_union_l in Hd as [??]. rw -assoc_L. apply Hm; [done|].
  by apply map_disjoint_union_r_2.
Qed.

Lemma reads_exist {X} (Φ : X -> hpropI) m a :
  (forall x, reads (Φ x) m a) -> reads (∃ x, Φ x) m a.
Proof. intros H h hf s [x Hx]. by apply (H x). Qed.

Lemma reads_fact (φ : Prop) P m a : (φ -> reads P m a) -> reads (⌞φ⌟ ∗ P) m a.
Proof.
  intros H h hf s (h0 & h' & -> & _ & Hf & HP) Hd.
  destruct (proj1 (affine_pure_at φ h0) Hf) as [-> Hφ]. rw left_id_L. rw left_id_L in Hd.
  by apply H.
Qed.

Lemma reads_lift P (o : option A) a : o = Some a -> reads P (mem.lift o) a.
Proof. intros -> h hf s _ _. by exists s. Qed.

(** A part that is read and kept. *)
Lemma reads_wp P m a (Q : A -> hpropI) : reads P m a -> P ∗ (P -∗ Q a) ⊢ wp m Q.
Proof.
  intros Hm. apply hentails_iff. intros ? (h1 & h2 & -> & Hd & HP & HQ) hf s Hd'.
  pose proof Hd' as [H1 H2]%map_disjoint_union_l.
  destruct (Hm h1 (h2 ∪ hf) s HP) as [s' E]; [by apply map_disjoint_union_r_2|].
  rw assoc_L in E. exists a, (h1 ∪ h2), s'. split_and!; [done..|]. rw map_union_comm //.
  by apply HQ.
Qed.

End reads.

(** The heap [h] itself, as an assertion. *)
Definition is_heap (h : heap) : hpropI := HProp (fun h' => h' = h).

(** A program that gives back exactly what it was lent. *)
Lemma wp_reads {A} (P : hpropI) (m : M A) a :
  (forall h, P h -> forall Q : A -> hpropI, is_heap h ∗ (is_heap h -∗ Q a) ⊢ wp m Q) -> reads P m a.
Proof.
  intros H h hf s HP Hd. specialize (H h HP (fun a' => ⌞a' = a⌟ ∗ is_heap h)%I).
  assert (Hw : is_heap h ⊢ wp m (fun a' => ⌞a' = a⌟ ∗ is_heap h)).
  { iIntros "Hh". iApply H. iFrame "Hh". iIntros "$". done. }
  destruct (proj1 (hentails_iff _ _) Hw h eq_refl hf s Hd) as (a' & h' & s' & E & _ & Hq).
  destruct Hq as (h1 & h2 & -> & _ & H1 & H2). destruct (proj1 (affine_pure_at _ h1) H1) as [-> ->].
  change (h2 = h) in H2. subst h2. rw left_id_L in E. by exists s'.
Qed.

Lemma is_heap_in (P : hpropI) h : P h -> is_heap h ⊢ P.
Proof. intros HP. apply hentails_iff. intros h' Hh. change (h' = h) in Hh. by subst. Qed.

(** What it does in the whole program. *)
Lemma reads_run {A} (m : M A) a :
  reads emp m a -> forall s, exists s', m s = Some (a, s') /\ cells s' = cells s.
Proof.
  intros Hm [h s]. destruct (Hm ∅ h s eq_refl (map_disjoint_empty_l _)) as [s' E].
  rw left_id_L in E. by exists (MkCState h s').
Qed.

Lemma reads_load P l c : (P ⊢ l ↦ c ∗ True) -> reads P (mem.load l) c.
Proof.
  intros HP. apply (reads_sub _ _ _ _ HP). intros h hf s Hh Hd.
  change (h = {[l := c]}) in Hh. subst h. exists s. unfold mem.load. simpl.
  by rw (lookup_union_Some_l _ _ l c); [|apply lookup_singleton_eq].
Qed.

(** ** Reading what a decoder has built *)

Abbreviation at_ptr t l := (exact t (CPtr (Some l))).

Lemma at_ptr_cell ty p fs l :
  at_ptr (TStruct ty p fs) l ⊣⊢ ∃ vs, l ↦ Struct ty p p vs ∗ exact_members fs vs.
Proof.
  rw exact_struct. iSplit.
  - iIntros "(%l' & %vs & %E & H)". injection E as <-. by iExists vs.
  - iIntros "(%vs & H)". iExists l, vs. by iFrame.
Qed.

Lemma exact_ptr ty p fs v :
  exact (TStruct ty p fs) v ⊢ ∃ l, ⌞v = CPtr (Some l)⌟ ∗ at_ptr (TStruct ty p fs) l.
Proof.
  rw {1}exact_struct. iIntros "(%l & %vs & -> & H)". iExists l. iSplit; [done|]. rw at_ptr_cell.
  by iExists vs.
Qed.

Fixpoint tmember (f : string) (fs : list (string * tree)) : option tree :=
  match fs with
  | [] => None
  | (g, t) :: rest => if String.eqb f g then Some t else tmember f rest
  end.

Lemma exact_member f fs vs t :
  tmember f fs = Some t ->
  exact_members fs vs ⊢ ∃ v, ⌞mem.member f vs = Some v⌟ ∗ exact t v ∗
    (exact t v -∗ exact_members fs vs).
Proof.
  revert vs. induction fs as [|[g u] fs IH]; intros [|[g' w] vs] Hf; simpl in *; try done.
  iIntros "(-> & Hu & Hm)". destruct (String.eqb f g).
  - injection Hf as ->. iExists w. iFrame "Hu". iSplit; [done|]. iIntros "$". by iFrame.
  - iDestruct (IH with "Hm") as "(%v & % & Hv & Hm)"; [done|]. iExists v. iFrame "Hv".
    iSplit; [done|]. iIntros "Hv". iFrame "Hu". iSplit; [done|]. by iApply "Hm".
Qed.

Section structure.
Context {A : Type} (ty p : string) (fs : list (string * tree)) (l : loc).
Implicit Types (r : A).
Local Abbreviation here := (at_ptr (TStruct ty p fs) l).

Lemma reads_cell (m : M A) r :
  (forall vs, reads (l ↦ Struct ty p p vs ∗ exact_members fs vs) m r) -> reads here m r.
Proof.
  intros H. apply (reads_sub _ (∃ vs, l ↦ Struct ty p p vs ∗ exact_members fs vs)).
  - rw at_ptr_cell. iIntros "H". iSplitL; [done|]. done.
  - by apply reads_exist.
Qed.

(** A member that [sel] selects: what it owns, with the structure left behind ... *)
Lemma reads_select sel f t (body : cval -> M A) r :
  (forall vs, sel (Struct ty p p vs) = mem.member f vs) -> tmember f fs = Some t ->
  (forall v, reads (exact t v) (body v) r) ->
  reads here ((o ← mem.load l; mem.lift (sel o)) ≫= body) r.
Proof.
  intros Hsel Hf Hb. apply reads_cell. intros vs.
  apply (reads_sub _ (∃ v, ⌞mem.member f vs = Some v⌟ ∗ l ↦ Struct ty p p vs ∗ exact t v)).
  { iIntros "[Hl Hm]". iDestruct (exact_member with "Hm") as "(%v & % & Hv & _)"; [done|].
    iSplitL; [|done]. iExists v. by iFrame. }
  apply reads_exist. intros v. apply reads_fact. intros Hv. eapply reads_bind.
  - eapply reads_bind; [apply reads_load; iIntros "[$ _]"|]. apply reads_lift. by rw Hsel.
  - apply (reads_sub _ (exact t v)); [iIntros "[_ $]"|]. apply Hb.
Qed.

(** ... or only whether a pointer is null, with the structure still at hand. *)
Lemma reads_null_test {T} `{!Layout T} f (x : option T) (body : ptr -> M A) r :
  tmember f fs = Some (tree_opt x) ->
  (forall q, reader.is_null q = match x with None => true | Some _ => false end ->
     reads here (body q) r) ->
  reads here (reader.get_ptr l f ≫= body) r.
Proof.
  intros Hf Hb. apply reads_cell. intros vs.
  apply (reads_sub _ (∃ q, ⌞mem.member f vs = Some (CPtr q) /\
    reader.is_null q = match x with None => true | Some _ => false end⌟ ∗
    l ↦ Struct ty p p vs ∗ exact_members fs vs)).
  { iIntros "[Hl Hm]". iDestruct (exact_member with "Hm") as "(%v & % & Hv & Hm)"; [done|].
    iSplitL; [|done]. destruct x as [x|]; simpl.
    - unfold tree_of. iDestruct (exact_ptr with "Hv") as "(%k & -> & Hv)". iExists (Some k).
      iSplit; [done|]. iFrame "Hl". by iApply "Hm".
    - iDestruct "Hv" as "->". iExists None. iSplit; [done|]. iFrame "Hl". by iApply "Hm". }
  apply reads_exist. intros q. apply reads_fact. intros [Hv Hq].
  apply (reads_bind _ _ _ q).
  - apply (reads_bind _ _ _ (CPtr q)); [|apply reads_ret].
    eapply reads_bind; [apply reads_load; iIntros "[$ _]"|]. by apply reads_lift.
  - apply (reads_sub _ here); [|by apply Hb]. rw at_ptr_cell. iIntros "H". iSplitL; [|done].
    by iExists vs.
Qed.

Lemma reads_present (body : string -> M A) r :
  reads here (body p) r -> reads here (reader.present l ≫= body) r.
Proof.
  intros Hb. apply reads_cell. intros vs. apply (reads_bind _ _ _ p).
  - eapply reads_bind; [apply reads_load; iIntros "[$ _]"|]. apply reads_ret.
  - apply (reads_sub _ here); [|done]. rw at_ptr_cell. iIntros "H". iSplitL; [|done]. by iExists vs.
Qed.

End structure.

(** The value of a member by its kind. *)
Lemma reads_as_int z v : reads (exact (TInt z) v) (reader.as_int v) z.
Proof.
  apply (reads_sub _ (⌞v = CInt z⌟ ∗ emp)); [by iIntros "->"|]. apply reads_fact. intros ->.
  apply reads_ret.
Qed.

Lemma reads_buffer b v : reads (exact (octets b) v) (reader.buffer v) b.
Proof.
  destruct b as [|b0 b]; simpl.
  - apply (reads_sub _ (⌞v = CPtr None⌟ ∗ emp)); [by iIntros "->"|]. apply reads_fact. intros ->.
    eapply reads_bind; [apply reads_ret|]. apply reads_ret.
  - apply (reads_sub _ (∃ l, ⌞v = CPtr (Some l)⌟ ∗ l ↦ Buf (b0 :: b))); [by iIntros "$"|].
    apply reads_exist. intros l. apply reads_fact. intros ->.
    eapply reads_bind; [apply reads_ret|]. simpl.
    eapply reads_bind; [apply reads_load; iIntros "$"|]. apply reads_ret.
Qed.

Lemma reads_to_ptr {A T} `{!Layout T} (x : option T) v (body : ptr -> M A) r :
  match x with
  | None => reads emp (body None) r
  | Some x => forall k, reads (at_ptr (tree_of x) k) (body (Some k)) r
  end ->
  reads (exact (tree_opt x) v) (ccoer.to_ptr v ≫= body) r.
Proof.
  destruct x as [x|]; intros Hb; simpl.
  - apply (reads_sub _ (∃ k, ⌞v = CPtr (Some k)⌟ ∗ at_ptr (tree_of x) k)).
    { unfold tree_of. rw {1}exact_ptr. iIntros "H". iSplitL; done. }
    apply reads_exist. intros k. apply reads_fact. intros ->.
    eapply reads_bind; [apply reads_ret|]. apply Hb.
  - apply (reads_sub _ (⌞v = CPtr None⌟ ∗ emp)); [by iIntros "->"|]. apply reads_fact. intros ->.
    eapply reads_bind; [apply reads_ret|]. done.
Qed.

Section members.
Context {A : Type} {ty p : string} {fs : list (string * tree)} {l : loc}.
Implicit Types (r : A).
Local Abbreviation here := (at_ptr (TStruct ty p fs) l).

Lemma reads_get_ptr {T} `{!Layout T} f (x : option T) (body : ptr -> M A) r :
  tmember f fs = Some (tree_opt x) ->
  match x with
  | None => reads emp (body None) r
  | Some x => forall k, reads (at_ptr (tree_of x) k) (body (Some k)) r
  end ->
  reads here (reader.get_ptr l f ≫= body) r.
Proof.
  intros Hf Hb. apply reads_assoc. eapply reads_select; [done..|]. intros v. by apply reads_to_ptr.
Qed.

Lemma reads_choice_ptr {T} `{!Layout T} alt (x : option T) (body : ptr -> M A) r :
  alt = p -> tmember alt fs = Some (tree_opt x) ->
  match x with
  | None => reads emp (body None) r
  | Some x => forall k, reads (at_ptr (tree_of x) k) (body (Some k)) r
  end ->
  reads here (reader.choice_ptr l alt ≫= body) r.
Proof.
  intros Ha Hf Hb. apply reads_assoc. eapply reads_select; [|done|].
  - intros vs. simpl. by rw Ha String.eqb_refl.
  - intros v. by apply reads_to_ptr.
Qed.

Lemma reads_get_int f z : tmember f fs = Some (TInt z) -> reads here (reader.get_int l f) z.
Proof. intros Hf. eapply reads_select; [done..|]. apply reads_as_int. Qed.

Lemma reads_choice_int alt z :
  alt = p -> tmember alt fs = Some (TInt z) -> reads here (reader.choice_int l alt) z.
Proof.
  intros Ha Hf. eapply reads_select; [|done|apply reads_as_int]. intros vs. simpl.
  by rw Ha String.eqb_refl.
Qed.

Lemma reads_get_octets f b : tmember f fs = Some (octets b) -> reads here (reader.get_octets l f) b.
Proof. intros Hf. eapply reads_select; [done..|]. apply reads_buffer. Qed.

Lemma reads_choice_octets alt f b :
  alt = p -> tmember f fs = Some (octets b) -> reads here (reader.choice_octets l alt f) b.
Proof.
  intros Ha Hf. eapply reads_select; [|done|apply reads_buffer]. intros vs. simpl.
  by rw Ha String.eqb_refl.
Qed.

End members.

(** A SEQUENCE OF that may be absent. *)
Lemma reads_get_list {A} ty p fs l f n ty' (ts : option (list tree)) (body : ptr -> M A) r :
  tmember f fs = Some (seq_ref n ty' ts).2 ->
  match ts with
  | None => reads emp (body None) r
  | Some ts => forall k, reads (at_ptr (TStruct ty' "" (map (pair "") ts)) k) (body (Some k)) r
  end ->
  reads (at_ptr (TStruct ty p fs) l) (reader.get_ptr l f ≫= body) r.
Proof.
  intros Hf Hb. apply reads_assoc. eapply reads_select; [done..|]. intros v. destruct ts as [ts|].
  - apply (reads_sub _ (∃ k, ⌞v = CPtr (Some k)⌟ ∗ at_ptr (TStruct ty' "" (map (pair "") ts)) k)).
    { simpl. rw {1}exact_ptr. iIntros "H". iSplitL; done. }
    apply reads_exist. intros k. apply reads_fact. intros ->.
    eapply reads_bind; [apply reads_ret|]. apply Hb.
  - apply (reads_sub _ (⌞v = CPtr None⌟ ∗ emp)); [by iIntros "->"|]. apply reads_fact. intros ->.
    by eapply reads_bind; [apply reads_ret|].
Qed.

Fixpoint exact_all (ts : list tree) (vs : list cval) : hpropI :=
  match ts, vs with
  | [], [] => emp
  | t :: ts, v :: vs => exact t v ∗ exact_all ts vs
  | _, _ => False
  end%I.

Lemma exact_members_all ts vs :
  exact_members (map (pair "") ts) vs ⊢ exact_all ts (map snd vs).
Proof.
  revert vs. induction ts as [|t ts IH]; intros [|[n v] vs]; simpl; try done.
  iIntros "(-> & $ & H)". by iApply IH.
Qed.

Lemma reads_elements {A} ty ts l (body : list cval -> M A) r :
  (forall vs, reads (exact_all ts vs) (body vs) r) ->
  reads (at_ptr (TStruct ty "" (map (pair "") ts)) l) (reader.elements l ≫= body) r.
Proof.
  intros Hb. apply reads_cell. intros vs. apply (reads_bind _ _ _ (map snd vs)).
  - eapply reads_bind; [apply reads_load; iIntros "[$ _]"|]. apply reads_ret.
  - apply (reads_sub _ (exact_all ts (map snd vs))); [|done]. iIntros "[_ H]". iSplitL; [|done].
    by iApply exact_members_all.
Qed.

Lemma reads_items {A} ty p fs l f ts (body : list cval -> M A) r :
  tmember f fs = Some (seq f ts).2 -> (forall vs, reads (exact_all ts vs) (body vs) r) ->
  reads (at_ptr (TStruct ty p fs) l) (reader.items l f ≫= body) r.
Proof.
  intros Hf Hb. apply reads_assoc. eapply reads_select; [done..|]. intros v. apply reads_assoc.
  destruct ts as [|t ts].
  - apply (reads_sub _ (⌞v = CPtr None⌟ ∗ emp)); [by iIntros "->"|]. apply reads_fact. intros ->.
    eapply reads_bind; [apply reads_ret|]. eapply reads_bind; [apply reads_ret|]. apply (Hb []).
  - apply (reads_sub _ (∃ k, ⌞v = CPtr (Some k)⌟ ∗
      at_ptr (TStruct "array" "" (map (pair "") (t :: ts))) k)).
    { simpl. rw {1}exact_ptr. iIntros "H". iSplitL; done. }
    apply reads_exist. intros k. apply reads_fact. intros ->.
    eapply reads_bind; [apply reads_ret|]. by apply reads_elements.
Qed.

(** A loop over the elements that collects what [f] finds. *)
Fixpoint collect {A} (f : ptr -> M (option A)) (elems : list cval) : M (list A) :=
  match elems with
  | [] => mret []
  | v :: elems =>
      x ← (p ← ccoer.to_ptr v; f p);
      rest ← collect f elems;
      mret (match x with None => rest | Some a => a :: rest end)
  end.

Lemma reads_collect {A T} `{!Layout T} (f : ptr -> M (option A)) g (xs : list (option T)) vs :
  (forall x, match x with
             | None => reads emp (f None) (g None)
             | Some y => forall k, reads (at_ptr (tree_of y) k) (f (Some k)) (g x)
             end) ->
  reads (exact_all (map tree_opt xs) vs) (collect f vs) (omap g xs).
Proof.
  intros Hf. revert vs. induction xs as [|x xs IH]; intros [|v vs]; simpl; try apply reads_ret.
  1,2: by intros h hf s [].
  apply (reads_bind _ _ _ (g x)).
  - apply (reads_sub _ (exact (tree_opt x) v)); [iIntros "[$ _]"|]. apply reads_to_ptr.
    specialize (Hf x). by destruct x.
  - apply (reads_bind _ _ _ (omap g xs)).
    + apply (reads_sub _ (exact_all (map tree_opt xs) vs)); [iIntros "[_ $]"|]. apply IH.
    + destruct (g x); apply reads_ret.
Qed.

(** One step of a reader; the rule that leaves the structure behind is chosen when a
    pointer is read. *)
Ltac reads_step :=
  lazymatch goal with
  | |- reads _ (mret _) _ => apply reads_ret
  | |- reads _ (reader.present _ ≫= _) _ => apply reads_present
  | |- reads _ (reader.get_octets _ _) _ => by apply reads_get_octets
  | |- reads _ (reader.choice_octets _ _ _) _ => by apply reads_choice_octets
  | |- reads _ (reader.get_int _ _ ≫= _) _ => eapply reads_bind; [by apply reads_get_int|]
  | |- reads _ (reader.choice_int _ _ ≫= _) _ => eapply reads_bind; [by apply reads_choice_int|]
  | |- reads _ (reader.get_octets _ _ ≫= _) _ => eapply reads_bind; [by apply reads_get_octets|]
  | |- reads _ (reader.choice_octets _ _ _ ≫= _) _ =>
      eapply reads_bind; [by apply reads_choice_octets|]
  end.
Ltac reads_steps := repeat reads_step.

Close Scope string_scope.
