(* ===== verification/AsnParse.v ===== *)
(** The parsers, reading decoded structures through pointers: the readers of
    src/internal/curve_point.cpp, src/internal/cert_parse.cpp and [unwrap] of
    src/internal/signed_message.cpp.

    A null pointer that is dereferenced or an alternative of a union that is not the
    selected one would be undefined; the lemmas say that neither happens, that the
    results are those of the functional models, and that the owning pointers release
    the structure on every return. *)
From iris.proofmode Require Import proofmode environments.
From S2P Require Import Prelude Sizes StaticBytes Asn OpenSSL CryptoEc CurvePoint CertParse.
From S2P Require Import SignedMessage.
From S2P Require Import CHeap HeapLogic AsnTree AsnPtr AsnLayout AsnRead.

Open Scope string_scope.

(** ** src/internal/curve_point.cpp *)

Module rpoint.

(** A compressed point: the prefix and the coordinate. *)
Definition compressed (pt : loc) (alt : string) (prefix : byte) (len : nat) : M bytes :=
  x ← reader.choice_octets pt alt alt;
  mret (if negb (length x =? len)%nat then [] else ([prefix] ++ x)%list).

Definition uncompressed (pt : loc) (alt : string) (len : nat) : M bytes :=
  x ← reader.choice_octets pt alt "x";
  y ← reader.choice_octets pt alt "y";
  mret (if negb (length x =? len)%nat || negb (length y =? len)%nat then []
        else ([x04] ++ x ++ y)%list).

Definition to_sec1 (p : ptr) : M bytes :=
  match p with
  | None => mret []
  | Some pt =>
      pr ← reader.present pt;
      if String.eqb pr "uncompressedP256" then uncompressed pt "uncompressedP256" kP256ScalarLen
      else if String.eqb pr "x_only" then reader.choice_octets pt "x_only" "x_only"
      else if String.eqb pr "compressed_y_0"
      then compressed pt "compressed_y_0" x02 kP256ScalarLen
      else if String.eqb pr "compressed_y_1"
      then compressed pt "compressed_y_1" x03 kP256ScalarLen
      else mret []
  end.

Definition to_sec1_384 (p : ptr) : M bytes :=
  match p with
  | None => mret []
  | Some pt =>
      pr ← reader.present pt;
      if String.eqb pr "uncompressedP384" then uncompressed pt "uncompressedP384" kP384ScalarLen
      else if String.eqb pr "x_only" then reader.choice_octets pt "x_only" "x_only"
      else if String.eqb pr "compressed_y_0"
      then compressed pt "compressed_y_0" x02 kP384ScalarLen
      else if String.eqb pr "compressed_y_1"
      then compressed pt "compressed_y_1" x03 kP384ScalarLen
      else mret []
  end.

(** [sig_r] and [sig_r_384], which differ in the name of the last alternative. *)
Definition sig_r_of (both : string) (p : ptr) : M bytes :=
  match p with
  | None => mret []
  | Some pt =>
      pr ← reader.present pt;
      if String.eqb pr "x_only" then reader.choice_octets pt "x_only" "x_only"
      else if String.eqb pr "compressed_y_0"
      then reader.choice_octets pt "compressed_y_0" "compressed_y_0"
      else if String.eqb pr "compressed_y_1"
      then reader.choice_octets pt "compressed_y_1" "compressed_y_1"
      else if String.eqb pr both then reader.choice_octets pt both "x"
      else mret []
  end.

Definition sig_r : ptr -> M bytes := sig_r_of "uncompressedP256".
Definition sig_r_384 : ptr -> M bytes := sig_r_of "uncompressedP384".

(** One of the four blocks of [extract_sig]. *)
Definition extract (sig_r : ptr -> M bytes) (len : nat) (ecdsa : ptr) (curve : Curve)
    (out : point.SigRS) : M (bool * point.SigRS) :=
  match ecdsa with
  | None => mret (false, out)
  | Some ecdsa =>
      p ← reader.get_ptr ecdsa "rSig";
      if reader.is_null p then mret (false, out) else
      s ← reader.get_octets ecdsa "sSig";
      let out := point.MkSigRS (point.rs_r out) s (point.rs_curve out) in
      if negb (length (point.rs_s out) =? len)%nat then mret (false, out) else
      r ← (p ← reader.get_ptr ecdsa "rSig"; sig_r p);
      let out := point.MkSigRS r (point.rs_s out) curve in
      mret ((length (point.rs_r out) =? len)%nat, out)
  end.

Definition extract_p256 : ptr -> Curve -> point.SigRS -> M (bool * point.SigRS) :=
  extract sig_r kP256ScalarLen.
Definition extract_p384 : ptr -> Curve -> point.SigRS -> M (bool * point.SigRS) :=
  extract sig_r_384 kP384ScalarLen.

Definition extract_sig (sig : ptr) (out : point.SigRS) : M (bool * point.SigRS) :=
  match sig with
  | None => mret (false, out)
  | Some sig =>
      pr ← reader.present sig;
      if String.eqb pr "ecdsaNistP256Signature" then
        ecdsa ← reader.choice_ptr sig "ecdsaNistP256Signature"; extract_p256 ecdsa NistP256 out
      else if String.eqb pr "ecdsaBrainpoolP256r1Signature" then
        ecdsa ← reader.choice_ptr sig "ecdsaBrainpoolP256r1Signature";
        extract_p256 ecdsa BrainpoolP256r1 out
      else if String.eqb pr "ecdsaBrainpoolP384r1Signature" then
        ecdsa ← reader.choice_ptr sig "ecdsaBrainpoolP384r1Signature";
        extract_p384 ecdsa BrainpoolP384r1 out
      else if String.eqb pr "ecdsaNistP384Signature" then
        ecdsa ← reader.choice_ptr sig "ecdsaNistP384Signature"; extract_p384 ecdsa NistP384 out
      else mret (false, out)
  end.

(** ** Lemmas *)

Lemma reads_at_opt {A T} `{!Layout T} (x : option T) p (m : ptr -> M A) r :
  match x with
  | None => reads emp (m None) r
  | Some x => forall k, reads (at_ptr (tree_of x) k) (m (Some k)) r
  end -> reads (at_opt x p) (m p) r.
Proof.
  intros H h hf s Hh Hd.
  destruct (reads_to_ptr x (CPtr p) m r H h hf s Hh Hd) as [s' E]. by exists s'.
Qed.

Lemma reads_compressed ty alt prefix len b l :
  reads (at_ptr (TStruct ty alt [oct alt b]) l) (compressed l alt prefix len)
    (if negb (length b =? len)%nat then [] else ([prefix] ++ b)%list).
Proof.
  eapply reads_bind; [apply reads_choice_octets; [done|]|apply reads_ret]. simpl.
  by rw String.eqb_refl.
Qed.

Lemma reads_uncompressed ty alt len x y l :
  reads (at_ptr (TStruct ty alt [oct "x" x; oct "y" y]) l) (uncompressed l alt len)
    (if negb (length x =? len)%nat || negb (length y =? len)%nat then []
     else ([x04] ++ x ++ y)%list).
Proof. unfold uncompressed. reads_steps. Qed.

(** A reader of a point, for a given alternative. *)
Ltac reads_point :=
  lazymatch goal with
  | |- reads _ (compressed _ _ _ _) _ => apply reads_compressed
  | |- reads _ (uncompressed _ _ _) _ => apply reads_uncompressed
  | |- _ => reads_step
  end.

Lemma reads_to_sec1 x p : reads (at_opt x p) (to_sec1 p) (point.to_sec1 x).
Proof.
  apply (reads_at_opt x p to_sec1). destruct x as [x|]; [|apply reads_ret]. intros k. simpl.
  apply reads_present. destruct x; simpl; reads_point.
Qed.

Lemma reads_to_sec1_384 x p : reads (at_opt x p) (to_sec1_384 p) (point.to_sec1_384 x).
Proof.
  apply (reads_at_opt x p to_sec1_384). destruct x as [x|]; [|apply reads_ret]. intros k. simpl.
  apply reads_present. destruct x; simpl; reads_point.
Qed.

Lemma reads_sig_r x p : reads (at_opt x p) (sig_r p) (point.sig_r x).
Proof.
  apply (reads_at_opt x p sig_r). destruct x as [x|]; [|apply reads_ret]. intros k.
  apply reads_present. destruct x; simpl; reads_point.
Qed.

Lemma reads_sig_r_384 x p : reads (at_opt x p) (sig_r_384 p) (point.sig_r_384 x).
Proof.
  apply (reads_at_opt x p sig_r_384). destruct x as [x|]; [|apply reads_ret]. intros k.
  apply reads_present. destruct x; simpl; reads_point.
Qed.

(** A signature whose struct has the members [rSig] and [sSig]. *)
Lemma reads_extract {P} `{!Layout P} ty (rSig : option P) sSig rd (fn : option P -> bytes) len curve
    out k :
  (forall q, reads (at_opt rSig q) (rd q) (fn rSig)) ->
  reads (at_ptr (TStruct ty "" [ref "rSig" rSig; oct "sSig" sSig]) k) (extract rd len (Some k) curve out)
    (match rSig with
     | None => (false, out)
     | Some _ =>
         if negb (length sSig =? len)%nat
         then (false, point.MkSigRS (point.rs_r out) sSig (point.rs_curve out))
         else ((length (fn rSig) =? len)%nat, point.MkSigRS (fn rSig) sSig curve)
     end).
Proof.
  intros Hr. apply (reads_null_test _ _ _ _ _ rSig); [done|]. intros q Hq.
  rw Hq. destruct rSig as [x|]; [|apply reads_ret]. reads_step. simpl.
  destruct (negb _); [apply reads_ret|]. eapply reads_bind; [|apply reads_ret].
  apply (reads_get_ptr _ (Some x)); [done|]. intros j. apply (Hr (Some j)).
Qed.

Lemma reads_extract_p256 x p curve out :
  reads (at_opt x p) (extract_p256 p curve out) (point.extract_p256 x curve out).
Proof.
  apply (reads_at_opt x p (fun p => extract_p256 p curve out)).
  destruct x as [[rSig sSig]|]; [|apply reads_ret]. intros k.
  pose proof (reads_extract (td EcdsaP256Signature) rSig sSig sig_r point.sig_r kP256ScalarLen curve
    out k (fun q => reads_sig_r rSig q)) as H.
  by destruct rSig.
Qed.

Lemma reads_extract_p384 x p curve out :
  reads (at_opt x p) (extract_p384 p curve out) (point.extract_p384 x curve out).
Proof.
  apply (reads_at_opt x p (fun p => extract_p384 p curve out)).
  destruct x as [[rSig sSig]|]; [|apply reads_ret]. intros k.
  pose proof (reads_extract (td EcdsaP384Signature) rSig sSig sig_r_384 point.sig_r_384 kP384ScalarLen
    curve out k (fun q => reads_sig_r_384 rSig q)) as H.
  by destruct rSig.
Qed.

(** A null pointer needs nothing of the heap. *)
Lemma reads_null {A T} `{!Layout T} P (m : M A) r :
  reads (at_opt (T := T) None None) m r -> reads P m r.
Proof. apply reads_sub. iIntros "_". iSplitL; [|done]. done. Qed.

(** A pointer whose target the rest of the program reads: an element of a list, an
    alternative of a union, a member. *)
Lemma reads_elem_opt {A T} `{!Layout T} (x : option T) v (body : ptr -> M A) r :
  (forall q, reads (at_opt x q) (body q) r) -> reads (exact (tree_opt x) v) (ccoer.to_ptr v ≫= body) r.
Proof.
  intros Hb. apply reads_to_ptr. destruct x as [x|]; [intros k; apply Hb|]. eapply reads_null, Hb.
Qed.

Lemma reads_choice_opt {A T} `{!Layout T} ty alt (x : option T) l (body : ptr -> M A) r :
  (forall q, reads (at_opt x q) (body q) r) ->
  reads (at_ptr (TStruct ty alt [ref alt x]) l) (reader.choice_ptr l alt ≫= body) r.
Proof.
  intros Hb. apply (reads_choice_ptr _ x); [done|simpl; by rw String.eqb_refl|].
  destruct x as [x|]; [intros k; apply Hb|]. eapply reads_null, Hb.
Qed.

Lemma reads_get_opt {A T} `{!Layout T} ty alt fs l f (x : option T) (body : ptr -> M A) r :
  tmember f fs = Some (tree_opt x) -> (forall q, reads (at_opt x q) (body q) r) ->
  reads (at_ptr (TStruct ty alt fs) l) (reader.get_ptr l f ≫= body) r.
Proof.
  intros Hf Hb. apply (reads_get_ptr _ x); [done|]. destruct x as [x|]; [intros k; apply Hb|].
  eapply reads_null, Hb.
Qed.

Lemma reads_extract_sig x p out :
  reads (at_opt x p) (extract_sig p out) (point.extract_sig x out).
Proof.
  apply (reads_at_opt x p (fun p => extract_sig p out)). destruct x as [x|]; [|apply reads_ret].
  intros k. simpl. reads_step. destruct x; simpl;
    lazymatch goal with
    | |- reads _ (mret _) _ => apply reads_ret
    | |- _ => apply reads_choice_opt; intros q;
              first [apply reads_extract_p256|apply reads_extract_p384]
    end.
Qed.

End rpoint.

(** ** Encoding only reads *)

Lemma read_val_state n v s t s' : asn.read_val n v s = Some (t, s') -> s' = s.
Proof.
  revert v s t s'. induction n as [|n IH]; intros [z|[l|]] s t s' H; simpl in H;
    try (by injection H as _ <-); try done.
  unfold mbind, M_bind, mem.load in H. destruct (cells s !! l) as [[b|z|ty p a fs]|]; [| | |done].
  1,2: by injection H as _ <-.
  destruct (mem.well_selected p a fs); [|done]. revert H.
  assert (Hm : forall s ts s', asn.read_members (asn.read_val n) fs s = Some (ts, s') -> s' = s).
  { clear -IH. induction fs as [|[f v] fs IHfs]; intros s ts s'; simpl.
    - by injection 1 as _ <-.
    - unfold mbind, M_bind. destruct (asn.read_val n v s) as [[t s1]|] eqn:E1; [|done].
      destruct (asn.read_members _ fs s1) as [[ts' s2]|] eqn:E2; [|done]. injection 1 as _ <-.
      apply IH in E1 as ->. by eapply IHfs. }
  destruct (asn.read_members _ fs s) as [[ts s1]|] eqn:E; [|done]. injection 1 as _ <-.
  by eapply Hm.
Qed.

Lemma reads_read t v : reads (holds t v) (asn.read v) t.
Proof.
  intros h hf s Hh Hd.
  assert (Hw : holds t v ⊢ wp (asn.read v) (fun t' => ⌞t' = t⌟ ∗ True)).
  { iIntros "H". iApply wp_read. iFrame "H". iIntros "H". iSplit; done. }
  destruct (proj1 (hentails_iff _ _) Hw h Hh hf s Hd) as (t' & h' & s' & E & _ & Hq).
  destruct Hq as (h1 & h2 & _ & _ & H1 & _). destruct (proj1 (affine_pure_at _ h1) H1) as [_ ->].
  exists s'. rw E. apply read_val_state in E. injection E as -> ->. done.
Qed.

Lemma reads_new_buffer P res : reads P (ccoer.new_buffer res) (default [] res).
Proof.
  assert (Hb : forall b, reads P (buf ← mem.alloc (Buf b); mem.dealloc buf;; mret b) b).
  { intros b h hf s _ _. exists s. unfold mbind, M_bind, mem.alloc, mem.dealloc. simpl.
    rw lookup_insert_eq delete_insert_id //. apply not_elem_of_dom, is_fresh. }
  destruct res as [b|]; [apply Hb|]. intros h hf s HP Hd. unfold ccoer.new_buffer.
  destruct s as [|[] s]; [by apply (Hb [] h hf [])|by exists s|by apply (Hb [] h hf s)].
Qed.

Lemma reads_encode {cc : CCodec} {T} `{!Codec T, !Layout T, !CEncodes T} (x : T) l :
  reads (at_ptr (tree_of x) l) (ccoer.encode (td T) (CPtr (Some l))) (coer.encode x).
Proof.
  eapply reads_bind.
  - apply (reads_sub _ (holds (tree_of x) (CPtr (Some l)))); [|apply reads_read].
    rw exact_holds. iIntros "H". iSplitL; done.
  - rw c_encode_lay. apply reads_new_buffer.
Qed.

(** A local [AsnPtr]: its structure is destroyed when the function returns. *)
Definition asn_scope {A} (acquire : M AsnPtr) (body : AsnPtr -> M A) : M A :=
  a ← acquire; r ← body a; asn_ptr.destroy a;; mret r.

Lemma reads_scope_of {cc : CCodec} {A T} `{!Codec T, !Layout T} P (x : option T) acq
    (body : AsnPtr -> M A) r :
  (forall Q : AsnPtr -> hpropI, (∀ p, at_opt x p -∗ Q (asn_ptr.make (td T) p)) ⊢ wp acq Q) ->
  (forall p, reads (P ∗ at_opt x p) (body (asn_ptr.make (td T) p)) r) ->
  reads P (asn_scope acq body) r.
Proof.
  intros Ha Hb. apply wp_reads. intros h HP Q. iIntros "[Hh HQ]". iApply wp_bind. iApply Ha.
  iIntros (p) "Hp". iApply wp_bind. iApply (reads_wp (is_heap h ∗ at_opt x p)).
  { apply (reads_sub _ (P ∗ at_opt x p)); [|apply Hb]. rw (is_heap_in P h HP). by iIntros "$". }
  iFrame "Hh Hp". iIntros "[Hh Hp]". iApply wp_bind. iApply asn_ptr.wp_destroy.
  rw at_opt_owns asn_ptr.owns_owned. iFrame "Hp". iApply wp_ret. by iApply "HQ".
Qed.

Section scopes.
Context {cc : CCodec} {A T : Type} `{!Codec T, !Layout T}.
Implicit Types (body : AsnPtr -> M A).

(** The structure is read through the pointer of the object. *)
Lemma reads_asn_scope P buf body r :
  (forall p, reads (P ∗ at_opt (coer.decode (T := T) buf) p) (body (asn_ptr.make (td T) p)) r) ->
  reads P (asn_scope (asn_ptr.asn_decode (T := T) buf) body) r.
Proof. apply reads_scope_of. intros Q. apply asn_ptr.wp_asn_decode. Qed.

Lemma reads_asn_scope_fallback P buf body r :
  (forall p, reads (P ∗ at_opt (coer.decode_with_basic_fallback (T := T) buf) p)
     (body (asn_ptr.make (td T) p)) r) ->
  reads P (asn_scope (asn_ptr.asn_decode_fallback (T := T) buf) body) r.
Proof. apply reads_scope_of. intros Q. apply asn_ptr.wp_asn_decode_fallback. Qed.

End scopes.

(** Only the structure of the pointer matters. *)
Lemma reads_part {A} P R (m : M A) r : reads R m r -> reads (P ∗ R) m r.
Proof. apply reads_sub. iIntros "[_ $]". Qed.

(** A program that needs nothing. *)
Lemma reads_emp {A} P (m : M A) r : reads emp m r -> reads P m r.
Proof. apply reads_sub. iIntros "H". iSplitR; [done|]. done. Qed.

(** ** src/internal/cert_parse.cpp *)

Module rcert.
Section rcert.
Context {ossl : OpenSSL} {cc : CCodec}.

(** [cert->toBeSigned], for the blocks that need it. *)
Definition with_tbs {A} (cert : loc) (absent : A) (body : loc -> M A) : M A :=
  p ← reader.get_ptr cert "toBeSigned";
  match (p : ptr) with
  | None => mret absent
  | Some tbs => body tbs
  end.

(** The PublicVerificationKey of a certificate, when it has one. *)
Definition with_pvk {A} (cert : loc) (absent : A) (body : loc -> M A) : M A :=
  with_tbs cert absent (fun tbs =>
    p ← reader.get_ptr tbs "verifyKeyIndicator";
    match (p : ptr) with
    | None => mret absent
    | Some vki =>
        pr ← reader.present vki;
        if negb (String.eqb pr "verificationKey") then mret absent else
        k ← reader.choice_ptr vki "verificationKey";
        match (k : ptr) with
        | None => mret absent
        | Some pvk => body pvk
        end
    end).

Definition whole_cert_hash_curve (cert : ptr) : M Curve :=
  match cert with
  | None => mret NistP256
  | Some cert =>
      with_pvk cert NistP256 (fun pvk =>
        pr ← reader.present pvk;
        mret (if String.eqb pr "ecdsaBrainpoolP384r1" then BrainpoolP384r1
              else if String.eqb pr "ecdsaNistP384" then NistP384
              else NistP256))
  end.

Definition compute_hid8_struct (cert : ptr) (cert_coer : bytes) : M hid8 :=
  curve ← whole_cert_hash_curve cert;
  mret (cert.truncate_hid8 (crypto.hash_for_curve cert_coer curve)).

Definition duration_seconds (d : ptr) : M Z :=
  match d with
  | None => mret 0%Z
  | Some d =>
      pr ← reader.present d;
      let unit alt (f : Z -> Z) := n ← reader.choice_int d alt; mret (f n) in
      if String.eqb pr "microseconds" then unit "microseconds" (fun n => u64 (Z.quot n 1000000))
      else if String.eqb pr "milliseconds" then unit "milliseconds" (fun n => u64 (Z.quot n 1000))
      else if String.eqb pr "seconds" then unit "seconds" (fun n => u64 n)
      else if String.eqb pr "minutes" then unit "minutes" (fun n => u64 (u64 n * 60))
      else if String.eqb pr "hours" then unit "hours" (fun n => u64 (u64 n * 3600))
      else if String.eqb pr "sixtyHours"
      then unit "sixtyHours" (fun n => u64 (u64 n * kSixtyHoursSeconds))
      else if String.eqb pr "years" then unit "years" (fun n => u64 (u64 n * kYearSeconds))
      else mret 0%Z
  end%Z.

(** The issuer block; [junk] is what the array held before. *)
Definition parse_issuer (cert : loc) (junk : hid8) : M (bool * SigHash * hid8) :=
  p ← reader.get_ptr cert "issuer";
  match (p : ptr) with
  | None => mret (false, Sha256, junk)
  | Some issuer =>
      let digest alt :=
        b ← reader.choice_octets issuer alt alt;
        mret (if (length b =? kHashedId8Len)%nat then b else junk) in
      pr ← reader.present issuer;
      if String.eqb pr "self" then
        h ← reader.choice_int issuer "self";
        mret (true, if (h =? hash_algorithm HashAlgorithm_sha384)%Z then Sha384 else Sha256, junk)
      else if String.eqb pr "sha256AndDigest" then
        d ← digest "sha256AndDigest"; mret (false, Sha256, d)
      else if String.eqb pr "sha384AndDigest" then
        d ← digest "sha384AndDigest"; mret (false, Sha384, d)
      else mret (false, Sha256, junk)
  end.

(** A point behind a pointer that is tested, copied into an array of [N] bytes. *)
Definition key_of (N : nat) (rd : ptr -> M bytes) (curve : Curve) (p : ptr)
    : M (StaticBytes N * Curve) :=
  if reader.is_null p then mret (sb.default_ N, NistP256) else
  key ← rd p;
  mret (default (sb.default_ N) (sb.from N key), curve).

Definition parse_verification_key (cert : loc) : M (StaticBytes kP384PublicKeyLen * Curve) :=
  with_pvk cert (sb.default_ _, NistP256) (fun pvk =>
    pr ← reader.present pvk;
    if String.eqb pr "ecdsaNistP256" then
      p ← reader.choice_ptr pvk "ecdsaNistP256"; key_of _ rpoint.to_sec1 NistP256 p
    else if String.eqb pr "ecdsaBrainpoolP256r1" then
      p ← reader.choice_ptr pvk "ecdsaBrainpoolP256r1"; key_of _ rpoint.to_sec1 BrainpoolP256r1 p
    else if String.eqb pr "ecdsaBrainpoolP384r1" then
      p ← reader.choice_ptr pvk "ecdsaBrainpoolP384r1"; key_of _ rpoint.to_sec1_384 BrainpoolP384r1 p
    else if String.eqb pr "ecdsaNistP384" then
      p ← reader.choice_ptr pvk "ecdsaNistP384"; key_of _ rpoint.to_sec1_384 NistP384 p
    else mret (sb.default_ _, NistP256)).

Definition parse_encryption_key (cert : loc) : M (StaticBytes kP256PublicKeyLen * Curve) :=
  let absent := (sb.default_ kP256PublicKeyLen, NistP256) in
  with_tbs cert absent (fun tbs =>
    p ← reader.get_ptr tbs "encryptionKey";
    match (p : ptr) with
    | None => mret absent
    | Some key =>
        p ← reader.get_ptr key "publicKey";
        match (p : ptr) with
        | None => mret absent
        | Some bpek =>
            pr ← reader.present bpek;
            if String.eqb pr "eciesNistP256" then
              p ← reader.choice_ptr bpek "eciesNistP256"; key_of _ rpoint.to_sec1 NistP256 p
            else if String.eqb pr "eciesBrainpoolP256r1" then
              p ← reader.choice_ptr bpek "eciesBrainpoolP256r1";
              key_of _ rpoint.to_sec1 BrainpoolP256r1 p
            else mret absent
        end
    end).

Definition parse_validity (cert : loc) : M (Z * Z) :=
  with_tbs cert (0, 0)%Z (fun tbs =>
    p ← reader.get_ptr tbs "validityPeriod";
    match (p : ptr) with
    | None => mret (0, 0)%Z
    | Some vp =>
        start ← reader.get_int vp "start";
        duration ← (d ← reader.get_ptr vp "duration"; duration_seconds d);
        mret (u32 start, duration)
    end).

Definition parse_tbs (cert : loc) : M (StaticBytes kMaxCoerMessageLen) :=
  with_tbs cert (sb.default_ _) (fun tbs =>
    b ← ccoer.encode (td ToBeSignedCertificate) (CPtr (Some tbs));
    mret (default (sb.default_ _) (sb.from kMaxCoerMessageLen b))).

Definition parse_signature (cert : loc)
    : M (StaticBytes kP384ScalarLen * StaticBytes kP384ScalarLen) :=
  let dflt := sb.default_ kP384ScalarLen in
  p ← reader.get_ptr cert "signature";
  match (p : ptr) with
  | None => mret (dflt, dflt)
  | Some sig =>
      r ← rpoint.extract_sig (Some sig) point.SigRS_default;
      let '(ok, rs) := (r : bool * point.SigRS) in
      mret (if (ok : bool)
            then (default dflt (sb.from _ (point.rs_r rs)), default dflt (sb.from _ (point.rs_s rs)))
            else (dflt, dflt))
  end.

(** [junk cert_coer] is what the uninitialised array of the result holds. *)
Definition from_struct (cert : loc) (cert_coer : bytes) (junk : bytes -> hid8) : M CertInfo :=
  hid ← compute_hid8_struct (Some cert) cert_coer;
  i ← parse_issuer cert (junk cert_coer);
  k ← parse_verification_key cert;
  e ← parse_encryption_key cert;
  v ← parse_validity cert;
  t ← parse_tbs cert;
  s ← parse_signature cert;
  mret (MkCertInfo (default (sb.default_ _) (sb.from kMaxCoerMessageLen cert_coer)) hid (fst k) (fst e)
          (snd e) (snd i) (fst (fst i)) t (fst s) (snd s) (snd k) (snd (fst i)) (fst v) (snd v) "").

Context {cb : Codec CertificateBase}.

Definition compute_hid8 (cert_coer : bytes) : M hid8 :=
  asn_scope (asn_ptr.asn_decode (T := CertificateBase) cert_coer) (fun cert =>
    compute_hid8_struct (asn_ptr.get cert) cert_coer).

Definition from_coer (cert_coer : bytes) (junk : bytes -> hid8) : M CertInfo :=
  asn_scope (asn_ptr.asn_decode (T := CertificateBase) cert_coer) (fun cert =>
    match asn_ptr.get cert with
    | None => mret CertInfo_empty
    | Some cert => from_struct cert cert_coer junk
    end).

(** ** Lemmas *)

Lemma reads_with_tbs {A} cert l (absent : A) body r :
  match toBeSigned cert with
  | None => r = absent
  | Some tbs => forall k, reads (at_ptr (tree_of tbs) k) (body k) r
  end -> reads (at_ptr (tree_of cert) l) (with_tbs l absent body) r.
Proof.
  intros H. apply (reads_get_ptr _ (toBeSigned cert)); [done|].
  destruct (toBeSigned cert); [done|]. subst. apply reads_ret.
Qed.

Definition pvk_of (cert : CertificateBase) : option PublicVerificationKey :=
  match toBeSigned cert with
  | Some tbs => match verifyKeyIndicator tbs with Some (verificationKey k) => k | _ => None end
  | None => None
  end.

Lemma reads_with_pvk {A} cert l (absent : A) body r :
  match pvk_of cert with
  | None => r = absent
  | Some pvk => forall k, reads (at_ptr (tree_of pvk) k) (body k) r
  end -> reads (at_ptr (tree_of cert) l) (with_pvk l absent body) r.
Proof.
  intros H. apply reads_with_tbs. unfold pvk_of in H. destruct (toBeSigned cert) as [tbs|]; [|done].
  intros k. apply (reads_get_ptr _ (verifyKeyIndicator tbs)); [done|].
  destruct (verifyKeyIndicator tbs) as [vki|]; [|subst; apply reads_ret]. intros j.
  apply reads_present. destruct vki as [|pvk|]; simpl; try (subst; apply reads_ret).
  apply (reads_choice_ptr _ pvk); [done..|]. destruct pvk; [done|]. subst. apply reads_ret.
Qed.

Lemma reads_hash_curve x p :
  reads (at_opt x p) (whole_cert_hash_curve p) (cert.whole_cert_hash_curve x).
Proof.
  apply (rpoint.reads_at_opt x p whole_cert_hash_curve). destruct x as [x|]; [|apply reads_ret].
  intros k. apply reads_with_pvk. destruct x as [? ? ? [tbs|] ?]; [|done]. unfold pvk_of. simpl.
  destruct (verifyKeyIndicator tbs) as [[|[pvk|]|]|]; try done. intros j. reads_step.
  destruct pvk; apply reads_ret.
Qed.

Lemma reads_hid8_struct x p coer :
  reads (at_opt x p) (compute_hid8_struct p coer) (cert.compute_hid8_struct x coer).
Proof. eapply reads_bind; [apply reads_hash_curve|apply reads_ret]. Qed.

Lemma reads_duration x p :
  reads (at_opt x p) (duration_seconds p) (cert.duration_seconds x).
Proof.
  apply (rpoint.reads_at_opt x p duration_seconds). destruct x as [x|]; [|apply reads_ret].
  intros k. simpl. reads_step. destruct x; simpl; reads_steps.
Qed.

Lemma reads_parse_issuer cert l junk :
  reads (at_ptr (tree_of cert) l) (parse_issuer l junk) (cert.parse_issuer (issuer cert) junk).
Proof.
  apply (reads_get_ptr _ (issuer cert)); [done|].
  destruct (issuer cert) as [i|]; [|apply reads_ret]. intros k. cbv zeta. reads_step.
  destruct i as [|d|a|d|d]; simpl; reads_steps.
  - eapply reads_bind; reads_steps.
  - destruct a; apply reads_ret.
  - eapply reads_bind; reads_steps.
Qed.

(** A key behind the selected alternative. *)
Lemma reads_key_of {T} `{!Layout T} N ty alt (x : option T) l rd fn curve :
  (forall q, reads (at_opt x q) (rd q) (fn x)) ->
  reads (at_ptr (TStruct ty alt [ref alt x]) l)
    (p ← reader.choice_ptr l alt; key_of N rd curve p)
    (match x with
     | None => (sb.default_ N, NistP256)
     | Some _ => (default (sb.default_ N) (sb.from N (fn x)), curve)
     end).
Proof.
  intros Hr. apply (reads_choice_ptr _ x); [done|simpl; by rw String.eqb_refl|].
  destruct x as [x|]; [|apply reads_ret]. intros k.
  eapply reads_bind; [apply (Hr (Some k))|apply reads_ret].
Qed.

Lemma reads_verification_key cert l :
  reads (at_ptr (tree_of cert) l) (parse_verification_key l)
    (cert.parse_verification_key (toBeSigned cert)).
Proof.
  apply reads_with_pvk. unfold pvk_of, cert.parse_verification_key.
  destruct (toBeSigned cert) as [tbs|]; [|done].
  destruct (verifyKeyIndicator tbs) as [[|[pvk|]|]|]; try done. intros k. reads_step.
  destruct pvk as [|x|x|x|x|]; simpl; try apply reads_ret.
  - pose proof (reads_key_of kP384PublicKeyLen (td PublicVerificationKey) "ecdsaNistP256" x k
      rpoint.to_sec1 point.to_sec1 NistP256 (rpoint.reads_to_sec1 x)). by destruct x.
  - pose proof (reads_key_of kP384PublicKeyLen (td PublicVerificationKey) "ecdsaBrainpoolP256r1" x k
      rpoint.to_sec1 point.to_sec1 BrainpoolP256r1 (rpoint.reads_to_sec1 x)). by destruct x.
  - pose proof (reads_key_of kP384PublicKeyLen (td PublicVerificationKey) "ecdsaBrainpoolP384r1" x k
      rpoint.to_sec1_384 point.to_sec1_384 BrainpoolP384r1 (rpoint.reads_to_sec1_384 x)). by destruct x.
  - pose proof (reads_key_of kP384PublicKeyLen (td PublicVerificationKey) "ecdsaNistP384" x k
      rpoint.to_sec1_384 point.to_sec1_384 NistP384 (rpoint.reads_to_sec1_384 x)). by destruct x.
Qed.

Lemma reads_encryption_key cert l :
  reads (at_ptr (tree_of cert) l) (parse_encryption_key l)
    (cert.parse_encryption_key (toBeSigned cert)).
Proof.
  apply reads_with_tbs. unfold cert.parse_encryption_key. destruct (toBeSigned cert) as [tbs|]; [|done].
  intros k. apply (reads_get_ptr _ (encryptionKey tbs)); [done|].
  destruct (encryptionKey tbs) as [[alg key]|]; [|apply reads_ret]. intros j.
  apply (reads_get_ptr _ key); [done|]. destruct key as [bpek|]; [|apply reads_ret]. intros i.
  reads_step. destruct bpek as [|x|x|]; simpl; try apply reads_ret.
  - pose proof (reads_key_of kP256PublicKeyLen (td BasePublicEncryptionKey) "eciesNistP256" x i
      rpoint.to_sec1 point.to_sec1 NistP256 (rpoint.reads_to_sec1 x)). by destruct x.
  - pose proof (reads_key_of kP256PublicKeyLen (td BasePublicEncryptionKey) "eciesBrainpoolP256r1" x i
      rpoint.to_sec1 point.to_sec1 BrainpoolP256r1 (rpoint.reads_to_sec1 x)). by destruct x.
Qed.

Lemma reads_validity cert l :
  reads (at_ptr (tree_of cert) l) (parse_validity l) (cert.parse_validity (toBeSigned cert)).
Proof.
  apply reads_with_tbs. unfold cert.parse_validity. destruct (toBeSigned cert) as [tbs|]; [|done].
  intros k. apply (reads_get_ptr _ (validityPeriod tbs)); [done|].
  destruct (validityPeriod tbs) as [vp|]; [|apply reads_ret]. intros j. reads_step.
  eapply reads_bind; [|apply reads_ret]. apply (rpoint.reads_get_opt _ _ _ _ _ (vp_duration vp)); [done|].
  apply reads_duration.
Qed.

Lemma reads_signature cert l :
  reads (at_ptr (tree_of cert) l) (parse_signature l) (cert.parse_signature (cert_signature cert)).
Proof.
  apply (reads_get_ptr _ (cert_signature cert)); [done|].
  destruct (cert_signature cert) as [sig|]; [|apply reads_ret]. intros k. unfold cert.parse_signature.
  eapply reads_bind; [apply (rpoint.reads_extract_sig (Some sig) (Some k))|].
  destruct (point.extract_sig _ _) as [[] rs]; apply reads_ret.
Qed.

Lemma reads_compute_hid8 P coer : reads P (compute_hid8 coer) (cert.compute_hid8 coer).
Proof. apply reads_asn_scope. intros p. apply reads_part, reads_hid8_struct. Qed.

Context {tb : Codec ToBeSignedCertificate} `{!CEncodes ToBeSignedCertificate}.

Lemma reads_tbs cert l :
  reads (at_ptr (tree_of cert) l) (parse_tbs l)
    (match toBeSigned cert with
     | Some tbs => default (sb.default_ _) (sb.from kMaxCoerMessageLen (coer.encode tbs))
     | None => sb.default_ _
     end).
Proof.
  apply reads_with_tbs. destruct (toBeSigned cert) as [tbs|]; [|done]. intros k.
  eapply reads_bind; [apply reads_encode|apply reads_ret].
Qed.

Lemma reads_from_struct cert l coer junk :
  reads (at_ptr (tree_of cert) l) (from_struct l coer junk)
    (cert.from_struct (junk := fun _ => junk) cert coer).
Proof.
  eapply reads_bind; [apply (reads_hid8_struct (Some cert) (Some l))|].
  eapply reads_bind; [apply reads_parse_issuer|].
  eapply reads_bind; [apply reads_verification_key|].
  eapply reads_bind; [apply reads_encryption_key|]. eapply reads_bind; [apply reads_validity|].
  eapply reads_bind; [apply reads_tbs|]. eapply reads_bind; [apply reads_signature|].
  unfold cert.from_struct. destruct (cert.parse_issuer _ _) as [[]],
    (cert.parse_verification_key _), (cert.parse_encryption_key _), (cert.parse_validity _),
    (cert.parse_signature _). apply reads_ret.
Qed.

(** The functions that decode, read and return. *)
Lemma reads_from_coer P coer junk :
  reads P (from_coer coer junk) (cert.from_coer (junk := fun _ => junk) coer).
Proof.
  apply reads_asn_scope. intros p. apply reads_part.
  apply (rpoint.reads_at_opt _ p (fun p => match p with None => _ | Some _ => _ end)).
  unfold cert.from_coer. destruct (coer.decode coer); [|apply reads_ret]. intros k.
  apply reads_from_struct.
Qed.

End rcert.
End rcert.

(** ** src/internal/signed_message.cpp *)

Module rsigned.
Section rsigned.
Context {ossl : OpenSSL} {cc : CCodec}.
Context {cb : Codec CertificateBase} {dc : Codec Ieee1609Dot2Data} {tc : Codec ToBeSignedData}.

(** [!sd->tbsData || !sd->tbsData->payload] *)
Definition lacks_payload (sd : loc) : M bool :=
  p ← reader.get_ptr sd "tbsData";
  match (p : ptr) with
  | None => mret true
  | Some tbs => p ← reader.get_ptr tbs "payload"; mret (reader.is_null p)
  end.

(** [coer::encode(&asn_DEF_ToBeSignedData, sd->tbsData)] *)
Definition encode_tbs (sd : loc) : M bytes :=
  p ← reader.get_ptr sd "tbsData"; ccoer.encode (td ToBeSignedData) (CPtr p).

Definition signer_digest (sd : loc) : M (hid8 * bool) :=
  p ← reader.get_ptr sd "signer";
  match (p : ptr) with
  | None => mret (zeros 8, false)
  | Some signer =>
      pr ← reader.present signer;
      if negb (String.eqb pr "digest") then mret (zeros 8, false) else
      d ← reader.choice_octets signer "digest" "digest";
      mret (if (length d =? kHashedId8Len)%nat then (d, true) else (zeros 8, false))
  end.

Definition signature_of (sd : loc) : M point.SigRS :=
  r ← (p ← reader.get_ptr sd "signature"; rpoint.extract_sig p point.SigRS_default);
  let '(ok, rs) := (r : bool * point.SigRS) in
  mret (if (ok : bool) then rs else point.SigRS_default).

(** The bytes of [sd->tbsData->payload->data->content->choice.unsecuredData], with the
    tests of lines 66 to 70; the two pointers on the way are known not to be null. *)
Definition payload_of (sd : loc) : M (option bytes) :=
  p ← reader.get_ptr sd "tbsData";
  match (p : ptr) with
  | None => mem.undefined
  | Some tbs =>
  p ← reader.get_ptr tbs "payload";
  match (p : ptr) with
  | None => mem.undefined
  | Some payload =>
  p ← reader.get_ptr payload "data";
  match (p : ptr) with
  | None => mret None
  | Some data =>
  p ← reader.get_ptr data "content";
  match (p : ptr) with
  | None => mret None
  | Some content =>
      pr ← reader.present content;
      if negb (String.eqb pr "unsecuredData") then mret None else
      b ← reader.choice_octets content "unsecuredData" "unsecuredData";
      mret (Some b)
  end end end end.

Definition unwrap_signed (sd : loc) : M (option SignedMessage) :=
  lacks ← lacks_payload sd;
  if (lacks : bool) then mret None else
  tbs ← encode_tbs sd;
  d ← signer_digest sd;
  rs ← signature_of sd;
  p ← payload_of sd;
  mret (match p with
        | None => None
        | Some payload =>
            if empty payload then None
            else Some (MkSignedMessage payload tbs (fst d) (point.rs_r rs) (point.rs_s rs)
                         (point.rs_curve rs) (snd d))
        end).

Definition unwrap (coer : bytes) : M (option SignedMessage) :=
  asn_scope (asn_ptr.asn_decode_fallback (T := Ieee1609Dot2Data) coer) (fun outer =>
    match asn_ptr.get outer with
    | None => mret None
    | Some outer =>
        p ← reader.get_ptr outer "content";
        match (p : ptr) with
        | None => mret None
        | Some content =>
            pr ← reader.present content;
            if negb (String.eqb pr "signedData") then mret None else
            p ← reader.choice_ptr content "signedData";
            match (p : ptr) with
            | None => mret None
            | Some sd => unwrap_signed sd
            end
        end
    end).

Definition verify (data : SignedMessage) (verifier_pubkey signer_cert_coer : bytes) : M bool :=
  if empty verifier_pubkey || empty (tbs_coer data) then mret false else
  let slen := scalar_len (sig_curve data) in
  if negb (length (msg_sig_r data) =? slen)%nat || negb (length (msg_sig_s data) =? slen)%nat
  then mret false else
  ok ← (if has_signer_digest data
        then h ← rcert.compute_hid8 signer_cert_coer; mret (bytes_eqb h (signer_hid8 data))
        else mret true);
  if negb ok then mret false else
  mret (match sb.from kP384ScalarLen (msg_sig_r data), sb.from kP384ScalarLen (msg_sig_s data) with
        | Some r, Some s =>
            crypto.ecdsa_verify_digest_curve verifier_pubkey
              (signed_msg.signed_data_hash (tbs_coer data) signer_cert_coer (sig_curve data))
              (MkSignature r s) (sig_curve data)
        | _, _ => false
        end).

(** ** Lemmas *)

Lemma reads_verify P m pub cert : reads P (verify m pub cert) (signed_msg.verify m pub cert).
Proof.
  unfold verify, signed_msg.verify. destruct (empty pub || _); [apply reads_ret|]. cbv zeta.
  destruct (negb _ || negb _); [apply reads_ret|].
  apply (reads_bind _ _ _ (negb (has_signer_digest m &&
    negb (bytes_eqb (cert.compute_hid8 cert) (signer_hid8 m))))).
  - destruct (has_signer_digest m); [|apply reads_ret].
    eapply reads_bind; [apply rcert.reads_compute_hid8|]. simpl. rw negb_involutive. apply reads_ret.
  - rw negb_involutive. destruct (_ && _); apply reads_ret.
Qed.

Lemma reads_lacks_payload (sd : SignedData) l :
  reads (at_ptr (tree_of sd) l) (lacks_payload l)
    (match tbsData sd with
     | Some tbs => match payload tbs with Some _ => false | None => true end
     | None => true
     end).
Proof.
  apply (reads_get_ptr _ (tbsData sd)); [done|]. destruct (tbsData sd) as [tbs|]; [|apply reads_ret].
  intros k. apply (reads_get_ptr _ (payload tbs)); [done|].
  destruct (payload tbs); [intros ?|]; apply reads_ret.
Qed.

Lemma reads_signer_digest (sd : SignedData) l :
  reads (at_ptr (tree_of sd) l) (signer_digest l) (signed_msg.signer_digest (signer sd)).
Proof.
  apply (reads_get_ptr _ (signer sd)); [done|]. destruct (signer sd) as [s|]; [|apply reads_ret].
  intros k. reads_step. destruct s; simpl; reads_steps.
Qed.

Lemma reads_signature_of (sd : SignedData) l :
  reads (at_ptr (tree_of sd) l) (signature_of l)
    (match point.extract_sig (sd_signature sd) point.SigRS_default with
     | (true, rs) => rs
     | (false, _) => point.SigRS_default
     end).
Proof.
  eapply reads_bind.
  - apply (rpoint.reads_get_opt _ _ _ _ _ (sd_signature sd)); [done|].
    intros q. apply rpoint.reads_extract_sig.
  - destruct (point.extract_sig _ _) as [[] rs]; apply reads_ret.
Qed.

(** The unsecured data a payload carries. *)
Definition unsecured_of (pl : SignedDataPayload) : option bytes :=
  match pl_data pl with
  | Some d => match data_content d with Some (unsecuredData o) => Some o | _ => None end
  | None => None
  end.

Lemma reads_payload_of (sd : SignedData) tbs pl l :
  tbsData sd = Some tbs -> payload tbs = Some pl ->
  reads (at_ptr (tree_of sd) l) (payload_of l) (unsecured_of pl).
Proof.
  intros Ht Hp. apply (reads_get_ptr _ (tbsData sd)); [done|]. rw Ht. intros k.
  apply (reads_get_ptr _ (payload tbs)); [done|]. rw Hp. intros j.
  apply (reads_get_ptr _ (pl_data pl)); [done|]. unfold unsecured_of.
  destruct (pl_data pl) as [d|]; [|apply reads_ret]. intros i.
  apply (reads_get_ptr _ (data_content d)); [by destruct d|].
  destruct (data_content d) as [c|]; [|apply reads_ret]. intros h. reads_step.
  destruct c; simpl; reads_steps.
Qed.

Context `{!CEncodes ToBeSignedData}.

Lemma reads_encode_tbs (sd : SignedData) tbs l :
  tbsData sd = Some tbs -> reads (at_ptr (tree_of sd) l) (encode_tbs l) (coer.encode tbs).
Proof.
  intros Ht. apply (reads_get_ptr _ (tbsData sd)); [done|]. rw Ht. intros k. apply reads_encode.
Qed.

(** What the functional model makes of a SignedData. *)
Definition unwrap_sd (sd : SignedData) : option SignedMessage :=
  match tbsData sd with
  | Some tbs =>
      match payload tbs with
      | Some pl =>
          let d := signed_msg.signer_digest (signer sd) in
          let rs := match point.extract_sig (sd_signature sd) point.SigRS_default with
                    | (true, rs) => rs
                    | (false, _) => point.SigRS_default
                    end in
          match unsecured_of pl with
          | None => None
          | Some b =>
              if empty b then None
              else Some (MkSignedMessage b (coer.encode tbs) (fst d) (point.rs_r rs) (point.rs_s rs)
                           (point.rs_curve rs) (snd d))
          end
      | None => None
      end
  | None => None
  end.

Lemma unwrap_by_sd coer :
  signed_msg.unwrap coer =
  match coer.decode_with_basic_fallback coer with
  | Some outer => match data_content outer with Some (signedData (Some sd)) => unwrap_sd sd | _ => None end
  | None => None
  end.
Proof.
  unfold signed_msg.unwrap, unwrap_sd, unsecured_of.
  destruct (coer.decode_with_basic_fallback coer) as [outer|]; [|done].
  destruct (data_content outer) as [[| |[sd|]| | |]|]; try done.
  destruct (tbsData sd) as [tbs|]; [|done]. destruct (payload tbs) as [pl|]; [|done].
  destruct (signed_msg.signer_digest _). destruct (pl_data pl) as [d|]; [|done].
  by destruct (data_content d) as [[]|].
Qed.

Lemma reads_unwrap_signed (sd : SignedData) l :
  reads (at_ptr (tree_of sd) l) (unwrap_signed l) (unwrap_sd sd).
Proof.
  eapply reads_bind; [apply reads_lacks_payload|]. unfold unwrap_sd.
  destruct (tbsData sd) as [tbs|] eqn:Ht; [|apply reads_ret].
  destruct (payload tbs) as [pl|] eqn:Hp; [|apply reads_ret].
  eapply reads_bind; [by apply reads_encode_tbs|]. eapply reads_bind; [apply reads_signer_digest|].
  eapply reads_bind; [apply reads_signature_of|]. eapply reads_bind; [by eapply reads_payload_of|].
  apply reads_ret.
Qed.

Lemma reads_unwrap P coer : reads P (unwrap coer) (signed_msg.unwrap coer).
Proof.
  apply reads_asn_scope_fallback. intros p. apply reads_part. rw unwrap_by_sd.
  apply (rpoint.reads_at_opt _ p (fun p => match p with None => _ | Some _ => _ end)).
  destruct (coer.decode_with_basic_fallback coer) as [outer|]; [|apply reads_ret]. intros k.
  apply (reads_get_ptr _ (data_content outer)); [by destruct outer|].
  destruct (data_content outer) as [c|]; [|apply reads_ret]. intros j. reads_step.
  destruct c as [| |sd| | |]; simpl; reads_steps. apply (reads_choice_ptr _ sd); [done..|].
  destruct sd as [sd|]; [|apply reads_ret]. intros i. apply reads_unwrap_signed.
Qed.

End rsigned.
End rsigned.

Close Scope string_scope.
