(* ===== verification/AsnMessages.v ===== *)
(** The decoders of the messages the client receives, over memory: decryption
    (src/internal/encrypted_data.cpp) and responses (src/ec_request.cpp,
    src/at_request.cpp). *)
From iris.proofmode Require Import proofmode environments.
From S2P Require Import Prelude Result Sizes StaticBytes Asn OpenSSL CryptoEc CurvePoint Ecies.
From S2P Require Import CertParse SignedMessage EncryptedData Request EcRequest AtRequest.
From S2P Require Import CHeap HeapLogic AsnTree AsnPtr AsnLayout AsnRead AsnParse.

Open Scope string_scope.
#[local] Existing Instance octet_string_layout.

(** ** src/internal/encrypted_data.cpp *)

Module renc.
Section renc.
Context {ossl : OpenSSL} {cc : CCodec}.

(** [ecies_key] and the rest of the ECIES branch. *)
Definition decrypt_with (ecies_key : ptr) (curve : Curve) (nonce ciphertext tag_ccm : bytes)
    (recipient_private_key p1 : bytes) : M (option bytes) :=
  match ecies_key with
  | None => mret None
  | Some ecies_key =>
      v ← reader.get_ptr ecies_key "v";
      if reader.is_null v then mret None else
      ephemeral ← (v ← reader.get_ptr ecies_key "v"; rpoint.to_sec1 v);
      if empty ephemeral then mret None else
      c ← reader.get_octets ecies_key "c";
      t ← reader.get_octets ecies_key "t";
      mret (ecies.ecies_decrypt_curve recipient_private_key
              (MkEciesEncryptResult ephemeral c t nonce ciphertext tag_ccm []) p1 curve)
  end.

Definition decrypt_cert_recipient (pk_ri : loc) (nonce ciphertext tag_ccm : bytes)
    (recipient_private_key p1 : bytes) : M (option bytes) :=
  p ← reader.get_ptr pk_ri "encKey";
  match (p : ptr) with
  | None => mret None
  | Some ek =>
      pr ← reader.present ek;
      if String.eqb pr "eciesNistP256" then
        k ← reader.choice_ptr ek "eciesNistP256";
        decrypt_with k NistP256 nonce ciphertext tag_ccm recipient_private_key p1
      else if String.eqb pr "eciesBrainpoolP256r1" then
        k ← reader.choice_ptr ek "eciesBrainpoolP256r1";
        decrypt_with k BrainpoolP256r1 nonce ciphertext tag_ccm recipient_private_key p1
      else decrypt_with None NistP256 nonce ciphertext tag_ccm recipient_private_key p1
  end.

(** [enc->recipients], its first element and [enc->ciphertext]: what the first two
    tests look at.  The result says whether the function goes on. *)
Definition has_recipient (enc : loc) : M bool :=
  p ← reader.get_ptr enc "recipients";
  match (p : ptr) with
  | None => mret false
  | Some recipients => elems ← reader.elements recipients; mret (negb (length elems <? 1)%nat)
  end.

(** The nonce and the ciphertext with its tag. *)
Definition read_ccm (enc : loc) : M (option (bytes * bytes)) :=
  p ← reader.get_ptr enc "ciphertext";
  match (p : ptr) with
  | None => mret None
  | Some ct =>
      pr ← reader.present ct;
      if negb (String.eqb pr "aes128ccm") then mret None else
      p ← reader.choice_ptr ct "aes128ccm";
      match (p : ptr) with
      | None => mret None
      | Some ccm =>
          nonce ← reader.get_octets ccm "nonce";
          c ← reader.get_octets ccm "ccmCiphertext";
          mret (Some (nonce, c))
      end
  end.

(** The two branches for the first recipient. *)
Definition decrypt_for (ri0 : ptr) (nonce ciphertext tag_ccm : bytes)
    (recipient_private_key request_aes_key : bytes) : M (option bytes) :=
  match ri0 with
  | None => mret None
  | Some ri0 =>
      pr ← reader.present ri0;
      if String.eqb pr "pskRecipInfo" && negb (empty request_aes_key) then
        mret (ecies.aes_128_ccm_decrypt request_aes_key nonce ciphertext tag_ccm)
      else if String.eqb pr "certRecipInfo" then
        p ← reader.choice_ptr ri0 "certRecipInfo";
        match (p : ptr) with
        | None => mret None
        | Some pk_ri =>
            decrypt_cert_recipient pk_ri nonce ciphertext tag_ccm recipient_private_key []
        end
      else mret None
  end.

Definition first_recipient {A} (enc : loc) (body : ptr -> M A) : M A :=
  p ← reader.get_ptr enc "recipients";
  match (p : ptr) with
  | None => mem.undefined
  | Some recipients =>
      elems ← reader.elements recipients;
      match (elems : list cval) with
      | [] => mem.undefined
      | v :: _ => ri0 ← ccoer.to_ptr v; body ri0
      end
  end.

Definition decrypt_encrypted_content (enc : ptr) (recipient_private_key request_aes_key : bytes)
    : M (option bytes) :=
  match enc with
  | None => mret None
  | Some enc =>
      ok ← has_recipient enc;
      if negb ok then mret None else
      c ← read_ccm enc;
      match (c : option (bytes * bytes)) with
      | None => mret None
      | Some (nonce, ct_with_tag) =>
          if (length ct_with_tag <? kAesCcmTagLen)%nat then mret None else
          let ciphertext := droplast kAesCcmTagLen ct_with_tag in
          let tag_ccm := lastn kAesCcmTagLen ct_with_tag in
          first_recipient enc (fun ri0 =>
            decrypt_for ri0 nonce ciphertext tag_ccm recipient_private_key request_aes_key)
      end
  end.

Context {cb : Codec CertificateBase} {dc : Codec Ieee1609Dot2Data} {tc : Codec ToBeSignedData}.

(** [outer->content->choice.encryptedData], decrypted. *)
Definition decrypt_outer (outer : loc) (recipient_private_key request_aes_key : bytes)
    : M (Result (option bytes)) :=
  p ← reader.get_ptr outer "content";
  match (p : ptr) with
  | None => mret (Err Decode)
  | Some content =>
      pr ← reader.present content;
      if negb (String.eqb pr "encryptedData") then mret (Err Decode) else
      enc ← reader.choice_ptr content "encryptedData";
      r ← decrypt_encrypted_content enc recipient_private_key request_aes_key;
      mret (Ok r)
  end.

Definition decrypt_and_unwrap (response_bytes recipient_private_key request_aes_key : bytes)
    (etsi_response_tag : byte) (signer_cert : CertInfo) : M (Result bytes) :=
  asn_scope (asn_ptr.asn_decode (T := Ieee1609Dot2Data) response_bytes) (fun outer =>
    match asn_ptr.get outer with
    | None => mret (Err Decode)
    | Some outer =>
        r ← decrypt_outer outer recipient_private_key request_aes_key;
        match (r : Result (option bytes)) with
        | Err e => mret (Err e)
        | Ok None => mret (Err Crypto)
        | Ok (Some plaintext) =>
            m ← rsigned.unwrap plaintext;
            match (m : option SignedMessage) with
            | None => mret (Err Decode)
            | Some signed_inner =>
                ok ← rsigned.verify signed_inner (sb.to_vector (public_key signer_cert))
                       (sb.to_vector (cert_bytes signer_cert));
                mret (if negb ok then Err SignatureInvalid
                      else Ok (enc.strip_prefix etsi_response_tag (payload_coer signed_inner)))
            end
        end
    end).

(** ** Lemmas *)

Lemma reads_decrypt_with x q curve nonce ct tag priv p1 :
  reads (at_opt x q) (decrypt_with q curve nonce ct tag priv p1)
    (match x with
     | Some (MkEciesP256EncryptedKey (Some v) c t) =>
         if empty (point.to_sec1 (Some v)) then None
         else ecies.ecies_decrypt_curve priv
                (MkEciesEncryptResult (point.to_sec1 (Some v)) c t nonce ct tag []) p1 curve
     | _ => None
     end).
Proof.
  apply (rpoint.reads_at_opt x q (fun q => decrypt_with q curve nonce ct tag priv p1)).
  destruct x as [[v c t]|]; [|apply reads_ret]. intros j.
  apply (reads_null_test _ _ _ _ _ v); [done|]. intros u Hu. rw Hu.
  destruct v as [v|]; [|apply reads_ret]. eapply reads_bind.
  { apply (rpoint.reads_get_opt _ _ _ _ _ (Some v)); [done|]. apply rpoint.reads_to_sec1. }
  destruct (empty _); [apply reads_ret|]. reads_steps.
Qed.

Lemma reads_cert_recipient pk l nonce ct tag priv p1 :
  reads (at_ptr (tree_of pk) l) (decrypt_cert_recipient l nonce ct tag priv p1)
    (enc.decrypt_cert_recipient pk nonce ct tag priv p1).
Proof.
  apply (reads_get_ptr _ (encKey pk)); [done|]. unfold enc.decrypt_cert_recipient.
  destruct (encKey pk) as [ek|]; [|apply reads_ret]. intros k. apply reads_present.
  destruct ek as [|x|x|]; simpl; try apply reads_ret;
    (apply rpoint.reads_choice_opt; intros q; apply reads_decrypt_with).
Qed.

Lemma reads_has_recipient ed l :
  reads (at_ptr (tree_of ed) l) (has_recipient l)
    (match recipients ed with Some (_ :: _) => true | _ => false end).
Proof.
  apply (reads_get_list _ _ _ _ _ "recipients" "SequenceOfRecipientInfo"
    (map tree_opt <$> recipients ed)); [done|].
  destruct (recipients ed) as [ris|]; [|apply reads_ret]. intros k. apply reads_elements.
  intros vs. destruct ris, vs; simpl; try apply reads_ret; by intros h hf s [].
Qed.

Lemma reads_ccm ed l :
  reads (at_ptr (tree_of ed) l) (read_ccm l)
    (match ciphertext ed with
     | Some (aes128ccm (Some ccm)) => Some (ccm_nonce ccm, ccmCiphertext ccm)
     | _ => None
     end).
Proof.
  apply (reads_get_ptr _ (ciphertext ed)); [done|].
  destruct (ciphertext ed) as [ct|]; [|apply reads_ret]. intros k. reads_step.
  destruct ct as [|ccm|]; simpl; try apply reads_ret.
  apply (reads_choice_ptr _ ccm); [done..|]. destruct ccm as [ccm|]; [|apply reads_ret].
  intros j. reads_steps.
Qed.

Lemma reads_decrypt_for x q nonce ct tag priv key :
  reads (at_opt x q) (decrypt_for q nonce ct tag priv key)
    (match x with
     | Some (pskRecipInfo _) =>
         if negb (empty key) then ecies.aes_128_ccm_decrypt key nonce ct tag else None
     | Some (certRecipInfo (Some pk_ri)) =>
         enc.decrypt_cert_recipient pk_ri nonce ct tag priv []
     | _ => None
     end).
Proof.
  apply (rpoint.reads_at_opt x q (fun q => decrypt_for q nonce ct tag priv key)).
  destruct x as [x|]; [|apply reads_ret]. intros k. apply reads_present.
  destruct x as [|h| |pk| |]; simpl; try apply reads_ret; [destruct (negb _); apply reads_ret|].
  apply (reads_choice_ptr _ pk); [done..|]. destruct pk as [pk|]; [|apply reads_ret].
  intros j. apply reads_cert_recipient.
Qed.

Lemma reads_first_recipient {A} ed ri ris l (body : ptr -> M A) r :
  recipients ed = Some (ri :: ris) -> (forall q, reads (at_opt ri q) (body q) r) ->
  reads (at_ptr (tree_of ed) l) (first_recipient l body) r.
Proof.
  intros Hr Hb. apply (reads_get_list _ _ _ _ _ "recipients" "SequenceOfRecipientInfo"
    (map tree_opt <$> recipients ed)); [done|]. rw Hr. intros k. apply reads_elements.
  intros [|v vs]; simpl; [by intros h hf s []|].
  apply (reads_sub _ (exact (tree_opt ri) v)); [iIntros "[$ _]"|]. by apply rpoint.reads_elem_opt.
Qed.

Lemma reads_decrypt_content x q priv key :
  reads (at_opt x q) (decrypt_encrypted_content q priv key)
    (enc.decrypt_encrypted_content x priv key).
Proof.
  apply (rpoint.reads_at_opt x q (fun q => decrypt_encrypted_content q priv key)).
  destruct x as [ed|]; [|apply reads_ret]. intros k.
  eapply reads_bind; [apply reads_has_recipient|]. destruct ed as [ris ct].
  unfold enc.decrypt_encrypted_content. simpl.
  destruct ris as [[|ri ris]|]; try apply reads_ret. simpl.
  eapply reads_bind; [apply reads_ccm|]. simpl.
  destruct ct as [[|[ccm|]|]|]; try apply reads_ret. unfold octet.bytes.
  destruct (_ <? _)%nat; [apply reads_ret|].
  eapply reads_first_recipient; [done|]. intros u. apply reads_decrypt_for.
Qed.

Lemma reads_decrypt_outer outer l priv key :
  reads (at_ptr (tree_of outer) l) (decrypt_outer l priv key)
    (match data_content outer with
     | Some (encryptedData enc) => Ok (enc.decrypt_encrypted_content enc priv key)
     | _ => Err Decode
     end).
Proof.
  apply (reads_get_ptr _ (data_content outer)); [by destruct outer|].
  destruct (data_content outer) as [c|]; [|apply reads_ret]. intros k. reads_step.
  destruct c as [| | |e| |]; simpl; try apply reads_ret.
  apply rpoint.reads_choice_opt. intros q. eapply reads_bind; [apply reads_decrypt_content|].
  apply reads_ret.
Qed.

Context `{!CEncodes ToBeSignedData}.

Lemma reads_decrypt_and_unwrap P resp priv key tag signer :
  reads P (decrypt_and_unwrap resp priv key tag signer)
    (enc.decrypt_and_unwrap resp priv key tag signer).
Proof.
  apply reads_asn_scope. intros p. apply reads_part.
  apply (rpoint.reads_at_opt _ p (fun p => match p with None => _ | Some _ => _ end)).
  unfold enc.decrypt_and_unwrap. destruct (coer.decode resp) as [outer|]; [|apply reads_ret].
  intros k. eapply reads_bind; [apply reads_decrypt_outer|].
  destruct (data_content outer) as [[| | |ed| |]|]; try apply reads_ret.
  destruct (enc.decrypt_encrypted_content _ _ _) as [pt|]; [|apply reads_ret].
  eapply reads_bind; [apply rsigned.reads_unwrap|].
  destruct (signed_msg.unwrap pt) as [m|]; [|apply reads_ret].
  eapply reads_bind; [apply rsigned.reads_verify|]. destruct (signed_msg.verify _ _ _); apply reads_ret.
Qed.

End renc.
End renc.

(** ** The response decoders of src/ec_request.cpp and src/at_request.cpp *)

Module rresponse.
Section rresponse.
Context {ossl : OpenSSL} {cc : CCodec}.
Context {cb : Codec CertificateBase} {tb : Codec ToBeSignedCertificate}.
Context {dc : Codec Ieee1609Dot2Data} {tc : Codec ToBeSignedData}.
Variable junk : bytes -> hid8.

(** The certificate of a response, which both decoders re-encode and parse. *)
Definition read_certificate (resp : loc) (label : string) : M (option CertInfo) :=
  p ← reader.get_ptr resp "certificate";
  match (p : ptr) with
  | None => mret None
  | Some c =>
      cert_bytes ← ccoer.encode (td CertificateBase) (CPtr (Some c));
      ci ← rcert.from_struct c cert_bytes junk;
      mret (Some (set_label ci label))
  end.

(** From the decoded response to the result: the members, the request hash and the
    certificate. *)
Definition read_response {R} (resp : loc) (request_bytes : bytes) (label : string)
    (mk : Z -> StaticBytes 16 -> option CertInfo -> R) : M (Result R) :=
  code ← reader.get_int resp "responseCode";
  h ← reader.get_octets resp "requestHash";
  match sb.from 16 h with
  | None => mret (Err Decode)
  | Some request_hash =>
      if negb (enc.request_hash_matches request_bytes request_hash)
      then mret (Err SignatureInvalid) else
      c ← read_certificate resp label;
      mret (Ok (mk code request_hash c))
  end.

Context {ir : Codec InnerEcResponse} {jr : Codec InnerAtResponse}.

Definition decode_ec_response (response_bytes recipient_private_key request_aes_key
    request_bytes : bytes) (signer_cert : CertInfo) : M (Result EcResponse) :=
  r ← renc.decrypt_and_unwrap response_bytes recipient_private_key request_aes_key x81 signer_cert;
  match (r : Result bytes) with
  | Err e => mret (Err e)
  | Ok inner_bytes =>
      asn_scope (asn_ptr.asn_decode (T := InnerEcResponse) inner_bytes) (fun resp =>
        match asn_ptr.get resp with
        | None => mret (Err Decode)
        | Some resp =>
            read_response resp request_bytes "ec_response"
              (fun code h c => MkEcResponse (EnrolmentResponseCode_of_int code) h c)
        end)
  end.

Definition decode_at_response (response_bytes recipient_private_key request_aes_key
    request_bytes : bytes) (signer_cert : CertInfo) : M (Result AtResponse) :=
  r ← renc.decrypt_and_unwrap response_bytes recipient_private_key request_aes_key x83 signer_cert;
  match (r : Result bytes) with
  | Err e => mret (Err e)
  | Ok inner_bytes =>
      asn_scope (asn_ptr.asn_decode (T := InnerAtResponse) inner_bytes) (fun resp =>
        match asn_ptr.get resp with
        | None => mret (Err Decode)
        | Some resp =>
            read_response resp request_bytes "at_response"
              (fun code h c => MkAtResponse (AuthorizationResponseCode_of_int code) h c)
        end)
  end.

(** ** Lemmas *)

Context `{!CEncodes ToBeSignedData, !CEncodes ToBeSignedCertificate, !CEncodes CertificateBase}.
#[local] Instance response_junk : Uninit := fun _ => junk.

(** The two responses have the same members. *)
Lemma reads_response {R} ty hash code c l req label (mk : Z -> StaticBytes 16 -> option CertInfo -> R) :
  reads (at_ptr (TStruct ty "" [oct "requestHash" hash; int "responseCode" code; ref "certificate" c]) l)
    (read_response l req label mk)
    (match sb.from 16 hash with
     | None => Err Decode
     | Some h =>
         if negb (enc.request_hash_matches req h) then Err SignatureInvalid
         else Ok (mk code h (match c with
                             | Some c => Some (set_label (cert.from_struct c (coer.encode c)) label)
                             | None => None
                             end))
     end).
Proof.
  unfold read_response. reads_steps. destruct (sb.from 16 hash) as [h|]; [|apply reads_ret].
  destruct (negb _); [apply reads_ret|]. eapply reads_bind; [|apply reads_ret].
  apply (reads_get_ptr _ c); [done|]. destruct c as [c|]; [|apply reads_ret]. intros k.
  eapply reads_bind; [apply reads_encode|]. eapply reads_bind; [apply rcert.reads_from_struct|].
  apply reads_ret.
Qed.

Lemma reads_ec_response P resp priv key req signer :
  reads P (decode_ec_response resp priv key req signer) (ec.decode_ec_response resp priv key req signer).
Proof.
  eapply reads_bind; [apply renc.reads_decrypt_and_unwrap|]. unfold ec.decode_ec_response.
  destruct (enc.decrypt_and_unwrap _ _ _ _ _) as [inner|e]; [|apply reads_ret].
  apply reads_asn_scope. intros p. apply reads_part.
  apply (rpoint.reads_at_opt _ p (fun p => match p with None => _ | Some _ => _ end)).
  destruct (coer.decode inner) as [r|]; [|apply reads_ret]. intros k.
  apply (reads_response _ _ _ _ _ _ _
    (fun code h c => MkEcResponse (EnrolmentResponseCode_of_int code) h c)).
Qed.

Lemma reads_at_response P resp priv key req signer :
  reads P (decode_at_response resp priv key req signer)
    (at_.decode_at_response resp priv key req signer).
Proof.
  eapply reads_bind; [apply renc.reads_decrypt_and_unwrap|]. unfold at_.decode_at_response.
  destruct (enc.decrypt_and_unwrap _ _ _ _ _) as [inner|e]; [|apply reads_ret].
  apply reads_asn_scope. intros p. apply reads_part.
  apply (rpoint.reads_at_opt _ p (fun p => match p with None => _ | Some _ => _ end)).
  destruct (coer.decode inner) as [r|]; [|apply reads_ret]. intros k.
  apply (reads_response _ _ _ _ _ _ _
    (fun code h c => MkAtResponse (AuthorizationResponseCode_of_int code) h c)).
Qed.

End rresponse.
End rresponse.

Close Scope string_scope.
