(* ===== verification/AsnLists.v ===== *)
(** The decoders of lists over memory: revocation lists (src/revocation.cpp), trust
    lists (src/trust_list.cpp) and the summary of a certificate file (src/cli/io.cpp),
    which calls the decoder and ASN_STRUCT_FREE itself. *)
From iris.proofmode Require Import proofmode environments.
From S2P Require Import Prelude Result Sizes StaticBytes Asn OpenSSL CryptoEc CurvePoint.
From S2P Require Import CertParse SignedMessage Revocation Disk TrustList Tool CliIo.
From S2P Require Import CHeap HeapLogic AsnTree AsnPtr AsnLayout AsnRead AsnParse.

Open Scope string_scope.
#[local] Existing Instance octet_string_layout.

(** ** HashedId8 elements

    Both lists hold OCTET STRINGs behind pointers; an element that is null, has no
    buffer or is not eight bytes long is skipped. *)
Definition hid8_elem (e : ptr) : M (option hid8) :=
  match e with
  | None => mret None
  | Some e =>
      b ← reader.get_octets e "buf";
      mret (if (length b =? kHashedId8Len)%nat then Some b else None)
  end.

Definition hid8_at (o : option bytes) : option hid8 :=
  b ← o; if (length b =? kHashedId8Len)%nat then Some b else None.

Lemma reads_hid8_list (l : list (option bytes)) vs :
  reads (exact_all (map tree_opt l) vs) (collect hid8_elem vs) (omap hid8_at l).
Proof.
  apply reads_collect. intros [b|]; [|apply reads_ret]. intros k. simpl. unfold hid8_elem.
  reads_steps.
Qed.

Lemma crl_revoked_omap l : crl_revoked l = omap hid8_at l.
Proof.
  induction l as [|[b|] l IH]; simpl; [done| |done]. unfold mbind, option_bind. rw IH.
  by destruct (_ =? _)%nat.
Qed.

Lemma dc_serves_omap l : tlist.dc_serves l = omap hid8_at l.
Proof.
  induction l as [|[b|] l IH]; simpl; [done| |done]. unfold mbind, option_bind. rw IH.
  by destruct (_ =? _)%nat.
Qed.

(** ** src/revocation.cpp *)

Module rcrl.
Section rcrl.
Context {ossl : OpenSSL} {cc : CCodec}.
Context {cb : Codec CertificateBase} {dc : Codec Ieee1609Dot2Data} {tc : Codec ToBeSignedData}.
Context {ec : Codec EtsiTs102941Data}.

Definition read_crl (msg : SignedMessage) (crl : loc) : M (Result CrlContents) :=
  if negb (has_signer_digest msg) then mret (Err Decode) else
  this_update ← reader.get_int crl "thisUpdate";
  next_update ← reader.get_int crl "nextUpdate";
  revoked ← (elems ← reader.items crl "entries"; collect hid8_elem elems);
  mret (Ok (MkCrlContents (signer_hid8 msg) (u32 this_update) (u32 next_update) revoked)).

Definition decode_crl (coer rca_pubkey rca_cert_coer : bytes) : M (Result CrlContents) :=
  msg ← rsigned.unwrap coer;
  match (msg : option SignedMessage) with
  | None => mret (Err Decode)
  | Some msg =>
      if empty rca_pubkey || empty rca_cert_coer then mret (Err InvalidArgument) else
      ok ← rsigned.verify msg rca_pubkey rca_cert_coer;
      if negb ok then mret (Err SignatureInvalid) else
      asn_scope (asn_ptr.asn_decode_fallback (T := EtsiTs102941Data) (payload_coer msg))
        (fun etsi_data =>
          match asn_ptr.get etsi_data with
          | None => mret (Err Decode)
          | Some etsi_data =>
              p ← reader.get_ptr etsi_data "content";
              match (p : ptr) with
              | None => mret (Err Decode)
              | Some content =>
                  pr ← reader.present content;
                  if negb (String.eqb pr "certificateRevocationList") then mret (Err Decode) else
                  p ← reader.choice_ptr content "certificateRevocationList";
                  match (p : ptr) with
                  | None => mret (Err Decode)
                  | Some crl => read_crl msg crl
                  end
              end
          end)
  end.

(** ** Lemmas *)

Lemma reads_crl msg crl l :
  reads (at_ptr (tree_of crl) l) (read_crl msg l)
    (if negb (has_signer_digest msg) then Err Decode
     else Ok (MkCrlContents (signer_hid8 msg) (u32 (thisUpdate crl)) (u32 (crl_nextUpdate crl))
                (crl_revoked (entries crl)))).
Proof.
  unfold read_crl. destruct (negb _); [apply reads_ret|]. reads_steps.
  eapply reads_bind; [|apply reads_ret]. rw crl_revoked_omap.
  apply (reads_items _ _ _ _ _ (map tree_opt (entries crl))); [done|]. intros vs.
  apply reads_hid8_list.
Qed.

Context `{!CEncodes ToBeSignedData}.

Lemma reads_decode_crl P coer pub cert :
  reads P (decode_crl coer pub cert) (Revocation.decode_crl coer pub cert).
Proof.
  eapply reads_bind; [apply rsigned.reads_unwrap|]. unfold Revocation.decode_crl.
  destruct (signed_msg.unwrap coer) as [msg|]; [|apply reads_ret].
  destruct (empty pub || empty cert); [apply reads_ret|].
  eapply reads_bind; [apply rsigned.reads_verify|].
  destruct (signed_msg.verify msg pub cert); [|apply reads_ret]. simpl.
  apply reads_asn_scope_fallback. intros p. apply reads_part.
  apply (rpoint.reads_at_opt _ p (fun p => match p with None => _ | Some _ => _ end)).
  destruct (coer.decode_with_basic_fallback _) as [[v c]|]; [|apply reads_ret]. intros k.
  apply (reads_get_ptr _ c); [done|]. destruct c as [c|]; [|apply reads_ret]. intros j. reads_step.
  destruct c as [|crl| | |]; simpl; try apply reads_ret. apply (reads_choice_ptr _ crl); [done..|].
  destruct crl as [crl|]; [|apply reads_ret]. intros i. apply reads_crl.
Qed.

End rcrl.
End rcrl.

(** ** src/trust_list.cpp *)

(** asn_DEF_EtsiTs103097Certificate describes the same struct as
    asn_DEF_CertificateBase. *)
Class CEncodesEtsi {cc : CCodec} {xc : Codec EtsiTs103097Certificate} :=
  c_encode_etsi c :
    c_encode "EtsiTs103097Certificate" (tree_of c) = asn_encode (MkEtsiTs103097Certificate c).

Module rtlist.
Section rtlist.
Context {ossl : OpenSSL} {cc : CCodec}.
Variable junk : bytes -> hid8.

Definition cert_ptr_to_info (cert_void : ptr) (label : string) : M (option CertInfo) :=
  match cert_void with
  | None => mret None
  | Some c =>
      cert_coer ← ccoer.encode "EtsiTs103097Certificate" (CPtr (Some c));
      if empty cert_coer then mret None else
      ci ← rcert.from_struct c cert_coer junk;
      mret (Some (set_label ci label))
  end.

(** [if (!e->f) break; auto ci = cert_ptr_to_info(e->f, label);] *)
Definition member_cert (e : loc) (f label : string) : M (option CertInfo) :=
  p ← reader.get_ptr e f;
  if reader.is_null p then mret None else cert_ptr_to_info p label.

(** An access point that is a pointer of its own. *)
Definition url_at (e : loc) (f : string) : M string :=
  p ← reader.get_ptr e f;
  match (p : ptr) with
  | None => mret ""
  | Some s => b ← reader.get_octets s "buf"; mret (tlist.url_from_ia5 b)
  end.

(** One case of the switch: the alternative, when it is not null. *)
Definition in_case (entry : loc) (alt : string) (topo : TrustTopology)
    (body : loc -> M TrustTopology) : M TrustTopology :=
  p ← reader.choice_ptr entry alt;
  match (p : ptr) with
  | None => mret topo
  | Some e => body e
  end.

Definition parse_rca (topo : TrustTopology) (e : loc) : M TrustTopology :=
  ci ← member_cert e "selfsignedRootCa" "rca";
  mret (match (ci : option CertInfo) with
        | Some ci => set_lists topo (rcas topo ++ [ci]) (eas topo) (aas topo) (dcs topo)
        | None => topo
        end).

Definition parse_ea (topo : TrustTopology) (e : loc) : M TrustTopology :=
  ci ← member_cert e "eaCertificate" "ea";
  match (ci : option CertInfo) with
  | None => mret topo
  | Some ci =>
      aa_access_point ← reader.get_octets e "aaAccessPoint";
      its_access_point ← url_at e "itsAccessPoint";
      let info := MkEaInfo ci (tlist.url_from_ia5 aa_access_point) its_access_point in
      mret (set_lists topo (rcas topo) (eas topo ++ [info]) (aas topo) (dcs topo))
  end.

Definition parse_aa (topo : TrustTopology) (e : loc) : M TrustTopology :=
  ci ← member_cert e "aaCertificate" "aa";
  match (ci : option CertInfo) with
  | None => mret topo
  | Some ci =>
      access_point ← reader.get_octets e "accessPoint";
      let info := MkAaInfo ci (tlist.url_from_ia5 access_point) in
      mret (set_lists topo (rcas topo) (eas topo) (aas topo ++ [info]) (dcs topo))
  end.

Definition parse_dc (topo : TrustTopology) (e : loc) : M TrustTopology :=
  url ← reader.get_octets e "url";
  serves ← (elems ← reader.items e "cert"; collect hid8_elem elems);
  let info := MkDcInfo (tlist.url_from_ia5 url) serves in
  mret (set_lists topo (rcas topo) (eas topo) (aas topo) (dcs topo ++ [info])).

Definition parse_tlm (topo : TrustTopology) (e : loc) : M TrustTopology :=
  ci ← member_cert e "selfSignedTLMCertificate" "tlm";
  mret (match (ci : option CertInfo) with
        | Some ci => set_tlm topo (Some ci)
        | None => topo
        end).

Definition parse_ctl_entry (topo : TrustTopology) (entry : loc) : M TrustTopology :=
  pr ← reader.present entry;
  if String.eqb pr "rca" then in_case entry "rca" topo (parse_rca topo)
  else if String.eqb pr "ea" then in_case entry "ea" topo (parse_ea topo)
  else if String.eqb pr "aa" then in_case entry "aa" topo (parse_aa topo)
  else if String.eqb pr "dc" then in_case entry "dc" topo (parse_dc topo)
  else if String.eqb pr "tlm" then in_case entry "tlm" topo (parse_tlm topo)
  else mret topo.

(** [if (!cmd || cmd->present != CtlCommand_PR_add || !cmd->choice.add) continue;] *)
Definition parse_ctl_command (topo : TrustTopology) (cmd : ptr) : M TrustTopology :=
  match cmd with
  | None => mret topo
  | Some cmd =>
      pr ← reader.present cmd;
      if negb (String.eqb pr "add") then mret topo else
      p ← reader.choice_ptr cmd "add";
      match (p : ptr) with
      | None => mret topo
      | Some entry => parse_ctl_entry topo entry
      end
  end.

Fixpoint parse_ctl_commands (topo : TrustTopology) (elems : list cval) : M TrustTopology :=
  match elems with
  | [] => mret topo
  | v :: elems =>
      topo ← (cmd ← ccoer.to_ptr v; parse_ctl_command topo cmd);
      parse_ctl_commands topo elems
  end.

Definition parse_ctl_entries (ctl : loc) (topo : TrustTopology) (is_ectl : bool) (now : Z)
    : M TrustTopology :=
  nu ← reader.get_int ctl "nextUpdate";
  let next_update := u32 nu in
  let topo := set_next_update topo is_ectl next_update in
  let topo :=
    if (0 <? next_update)%Z then
      let now_tai := unix_to_tai_seconds now in
      if (next_update <? now_tai)%Z then set_expired topo is_ectl else topo
    else topo in
  elems ← reader.items ctl "ctlCommands";
  parse_ctl_commands topo elems.

(** The pointer into [data] that the caller goes on to read, with [body] the caller's
    continuation. *)
Definition extract_ctl_from_etsi_data {A} (data : ptr) (is_ectl : bool) (body : ptr -> M A)
    : M A :=
  match data with
  | None => body None
  | Some data =>
      p ← reader.get_ptr data "content";
      match (p : ptr) with
      | None => body None
      | Some content =>
          pr ← reader.present content;
          if is_ectl then
            if negb (String.eqb pr "certificateTrustListTlm") then body None
            else reader.choice_ptr content "certificateTrustListTlm" ≫= body
          else
            if negb (String.eqb pr "certificateTrustListRca") then body None
            else reader.choice_ptr content "certificateTrustListRca" ≫= body
      end
  end.

Context {cb : Codec CertificateBase} {dc : Codec Ieee1609Dot2Data} {tc : Codec ToBeSignedData}.
Context {ec : Codec EtsiTs102941Data}.

Definition decode_ctl_common (coer verifier_pubkey signer_cert_coer : bytes) (is_ectl : bool)
    (now : Z) : M (Result TrustTopology) :=
  m ← rsigned.unwrap coer;
  match (m : option SignedMessage) with
  | None => mret (Err Decode)
  | Some signed_data =>
      asn_scope (asn_ptr.asn_decode_fallback (T := EtsiTs102941Data) (payload_coer signed_data))
        (fun etsi_data =>
          extract_ctl_from_etsi_data (asn_ptr.get etsi_data) is_ectl (fun ctl =>
            match ctl with
            | None => mret (Err Decode)
            | Some ctl =>
                topo ← parse_ctl_entries ctl TrustTopology_empty is_ectl now;
                if negb (empty verifier_pubkey) && negb (empty signer_cert_coer) then
                  verified ← rsigned.verify signed_data verifier_pubkey signer_cert_coer;
                  mret (Ok (set_verified topo is_ectl verified))
                else mret (Ok topo)
            end))
  end.

(** ** Lemmas *)

Context {tb : Codec ToBeSignedCertificate} {xc : Codec EtsiTs103097Certificate}.
Context `{!CEncodes ToBeSignedData, !CEncodes ToBeSignedCertificate, !CEncodesEtsi}.
#[local] Instance list_junk : Uninit := fun _ => junk.

Lemma reads_encode_etsi c l :
  reads (at_ptr (tree_of c) l) (ccoer.encode "EtsiTs103097Certificate" (CPtr (Some l)))
    (coer.encode (MkEtsiTs103097Certificate c)).
Proof.
  eapply reads_bind.
  - apply (reads_sub _ (holds (tree_of c) (CPtr (Some l)))); [|apply reads_read].
    rw exact_holds. iIntros "H". iSplitL; done.
  - rw c_encode_etsi. apply reads_new_buffer.
Qed.

Lemma reads_cert_ptr_to_info x q label :
  reads (at_opt x q) (cert_ptr_to_info q label) (tlist.cert_ptr_to_info x label).
Proof.
  apply (rpoint.reads_at_opt x q (fun q => cert_ptr_to_info q label)).
  destruct x as [c|]; [|apply reads_ret]. intros k. eapply reads_bind; [apply reads_encode_etsi|].
  simpl. destruct (empty _); [apply reads_ret|].
  eapply reads_bind; [apply rcert.reads_from_struct|apply reads_ret].
Qed.

Lemma reads_member_cert ty p fs l f x label :
  tmember f fs = Some (tree_opt x) ->
  reads (at_ptr (TStruct ty p fs) l) (member_cert l f label) (tlist.cert_ptr_to_info x label).
Proof.
  intros Hf. apply (reads_get_ptr _ x); [done|]. destruct x as [x|]; [|apply reads_ret].
  intros k. apply (reads_cert_ptr_to_info (Some x) (Some k)).
Qed.

Lemma reads_url_at ty p fs l f (x : option bytes) :
  tmember f fs = Some (tree_opt x) ->
  reads (at_ptr (TStruct ty p fs) l) (url_at l f)
    (match x with Some s => tlist.url_from_ia5 s | None => "" end).
Proof.
  intros Hf. apply (reads_get_ptr _ x); [done|]. destruct x as [x|]; [|apply reads_ret].
  intros k. reads_steps.
Qed.

(** A case of the switch, for the alternative that is selected. *)
Lemma reads_in_case {T} `{!Layout T} ty alt (x : option T) l topo body r :
  (forall y k, x = Some y -> reads (at_ptr (tree_of y) k) (body k) r) -> (x = None -> r = topo) ->
  reads (at_ptr (TStruct ty alt [ref alt x]) l) (in_case l alt topo body) r.
Proof.
  intros Hs Hn. apply (reads_choice_ptr _ x); [done|simpl; by rw String.eqb_refl|].
  destruct x as [x|]; [by intros k; apply Hs|]. rw Hn //. apply reads_ret.
Qed.

Lemma reads_ctl_entry topo entry l :
  reads (at_ptr (tree_of entry) l) (parse_ctl_entry topo l) (tlist.parse_ctl_entry topo entry).
Proof.
  apply reads_present. destruct entry as [|x|x|x|x|x]; simpl; try apply reads_ret;
    (apply reads_in_case; [intros y k ->; simpl|by intros ->]).
  - eapply reads_bind; [by eapply reads_member_cert|]. apply reads_ret.
  - eapply reads_bind; [by eapply reads_member_cert|].
    destruct (tlist.cert_ptr_to_info _ _); [|apply reads_ret]. reads_steps.
    eapply reads_bind; [by eapply reads_url_at|]. apply reads_ret.
  - eapply reads_bind; [by eapply reads_member_cert|].
    destruct (tlist.cert_ptr_to_info _ _); [|apply reads_ret]. reads_steps. apply reads_ret.
  - unfold parse_dc. reads_steps. rw dc_serves_omap. eapply reads_bind; [|apply reads_ret].
    apply (reads_items _ _ _ _ _ (map tree_opt (dc_cert y))); [done|]. intros vs.
    apply reads_hid8_list.
  - eapply reads_bind; [by eapply reads_member_cert|]. apply reads_ret.
Qed.

Lemma reads_ctl_command topo cmd q :
  reads (at_opt cmd q) (parse_ctl_command topo q)
    (match cmd with
     | Some (CtlCommand_add (Some entry)) => tlist.parse_ctl_entry topo entry
     | _ => topo
     end).
Proof.
  apply (rpoint.reads_at_opt cmd q (fun q => parse_ctl_command topo q)).
  destruct cmd as [cmd|]; [|apply reads_ret]. intros k. apply reads_present.
  destruct cmd as [|e|]; simpl; try apply reads_ret. apply (reads_choice_ptr _ e); [done..|].
  destruct e as [e|]; [|apply reads_ret]. intros j. apply reads_ctl_entry.
Qed.

Lemma reads_ctl_commands topo l vs :
  reads (exact_all (map tree_opt l) vs) (parse_ctl_commands topo vs) (tlist.parse_ctl_commands topo l).
Proof.
  revert topo vs. induction l as [|cmd l IH]; intros topo [|v vs]; simpl; try apply reads_ret.
  1,2: by intros h hf s [].
  eapply reads_bind.
  - apply (reads_sub _ (exact (tree_opt cmd) v)); [iIntros "[$ _]"|].
    apply rpoint.reads_elem_opt, reads_ctl_command.
  - apply (reads_sub _ (exact_all (map tree_opt l) vs)); [iIntros "[_ $]"|].
    destruct cmd as [[|[e|]|]|]; apply IH.
Qed.

Lemma reads_ctl_entries ctl l topo is_ectl now :
  reads (at_ptr (tree_of ctl) l) (parse_ctl_entries l topo is_ectl now)
    (tlist.parse_ctl_entries ctl topo is_ectl now).
Proof.
  unfold parse_ctl_entries. reads_steps.
  apply (reads_items _ _ _ _ _ (map tree_opt (ctlCommands ctl))); [done|]. intros vs.
  apply reads_ctl_commands.
Qed.

Lemma reads_extract_ctl {A} x q is_ectl (body : ptr -> M A) r :
  (forall q, reads (at_opt (tlist.extract_ctl_from_etsi_data x is_ectl) q) (body q) r) ->
  reads (at_opt x q) (extract_ctl_from_etsi_data q is_ectl body) r.
Proof.
  intros Hb. assert (Hn : tlist.extract_ctl_from_etsi_data x is_ectl = None -> forall P, reads P (body None) r).
  { intros E P. apply (rpoint.reads_null (T := CtlFormat)). rw -E. apply Hb. }
  apply (rpoint.reads_at_opt x q (fun q => extract_ctl_from_etsi_data q is_ectl body)).
  destruct x as [[v c]|]; [|by apply Hn]. intros k. apply (reads_get_ptr _ c); [done|].
  destruct c as [c|]; [|by apply Hn]. intros j. reads_step.
  destruct is_ectl, c as [| | | |]; simpl; try by apply Hn.
  all: by apply rpoint.reads_choice_opt.
Qed.

Lemma reads_decode_ctl P coer pub cert is_ectl now :
  reads P (decode_ctl_common coer pub cert is_ectl now)
    (tlist.decode_ctl_common coer pub cert is_ectl now).
Proof.
  eapply reads_bind; [apply rsigned.reads_unwrap|]. unfold tlist.decode_ctl_common.
  destruct (signed_msg.unwrap coer) as [m|]; [|apply reads_ret].
  apply reads_asn_scope_fallback. intros p. apply reads_part. apply reads_extract_ctl. intros q.
  apply (rpoint.reads_at_opt _ q (fun p => match p with None => _ | Some _ => _ end)).
  destruct (coer.decode_with_basic_fallback _) as [d|]; [|apply reads_ret].
  destruct (tlist.extract_ctl_from_etsi_data _ _) as [ctl|]; [|apply reads_ret]. intros k.
  eapply reads_bind; [apply reads_ctl_entries|]. destruct (negb (empty pub) && _); [|apply reads_ret].
  eapply reads_bind; [apply rsigned.reads_verify|apply reads_ret].
Qed.

End rtlist.
End rtlist.

(** ** src/cli/io.cpp *)

Module csummary.
Section csummary.
Context {ossl : OpenSSL} {cc : CCodec} {cb : Codec CertificateBase}.

Definition read_issuer (cert : loc) : M (bool * bytes) :=
  p ← reader.get_ptr cert "issuer";
  match (p : ptr) with
  | None => mret (false, zeros 8)
  | Some issuer =>
      pr ← reader.present issuer;
      if String.eqb pr "self" then mret (true, zeros 8)
      else if String.eqb pr "sha256AndDigest" then
        d ← reader.choice_octets issuer "sha256AndDigest" "sha256AndDigest";
        mret (false, if (length d =? 8)%nat then d else zeros 8)
      else mret (false, zeros 8)
  end.

(** The body of the loop over the permissions. *)
Definition read_psid (p : ptr) : M (option Z) :=
  match p with
  | None => mret None
  | Some e => z ← reader.get_int e "psid"; mret (Some (i64_of_u64 z))
  end.

Definition read_permissions (cert : loc) : M (list Z) :=
  p ← reader.get_ptr cert "toBeSigned";
  match (p : ptr) with
  | None => mret []
  | Some tbs =>
      p ← reader.get_ptr tbs "appPermissions";
      match (p : ptr) with
      | None => mret []
      | Some perms => elems ← reader.elements perms; collect read_psid elems
      end
  end.

Definition parse_cert_summary (coer : bytes) : M CertSummary :=
  r ← ccoer.asn_decode_call asn_decode_canonical coer;
  let '(ok, structure) := (r : bool * ptr) in
  match ok, structure with
  | true, Some cert =>
      hid8 ← rcert.compute_hid8 coer;
      i ← read_issuer cert;
      let '(self_signed, issuer_hid8) := (i : bool * bytes) in
      psids ← read_permissions cert;
      mem.struct_free (td CertificateBase) (Some cert);;
      mret (MkCertSummary hid8 issuer_hid8 self_signed psids (length coer) true)
  | _, _ =>
      mem.struct_free (td CertificateBase) structure;;
      mret (MkCertSummary (zeros 8) (zeros 8) false [] (length coer) false)
  end.

(** ** Lemmas *)

(** What the functional model says of the issuer and of the permissions. *)
Definition issuer_of (cert : CertificateBase) : bool * bytes :=
  match issuer cert with
  | Some (self _) => (true, zeros 8)
  | Some (sha256AndDigest d) => (false, if (length d =? 8)%nat then d else zeros 8)
  | _ => (false, zeros 8)
  end.

Definition psids_of (ps : list (option PsidSsp)) : list Z :=
  map (fun p => i64_of_u64 (psid p)) (omap id ps).

Lemma reads_issuer cert l : reads (at_ptr (tree_of cert) l) (read_issuer l) (issuer_of cert).
Proof.
  apply (reads_get_ptr _ (issuer cert)); [done|]. unfold issuer_of.
  destruct (issuer cert) as [i|]; [|apply reads_ret]. intros k. reads_step.
  destruct i; simpl; reads_steps.
Qed.

Lemma reads_psids ps vs :
  reads (exact_all (map tree_opt ps) vs) (collect read_psid vs) (psids_of ps).
Proof.
  assert (E : psids_of ps = omap (fmap (i64_of_u64 ∘ psid)) ps).
  { unfold psids_of. induction ps as [|[p|] ps IH]; simpl; [done| |done]. by rw IH. }
  rw E. apply reads_collect. intros [p|]; [|apply reads_ret]. intros k. unfold read_psid. reads_steps.
Qed.

Lemma reads_permissions cert l :
  reads (at_ptr (tree_of cert) l) (read_permissions l)
    (default [] (tbs ← toBeSigned cert; psids_of <$> appPermissions tbs)).
Proof.
  apply (reads_get_ptr _ (toBeSigned cert)); [done|].
  destruct (toBeSigned cert) as [tbs|]; [|apply reads_ret]. intros k.
  apply (reads_get_list _ _ _ _ _ "appPermissions" "SequenceOfPsidSsp"
    (map tree_opt <$> appPermissions tbs)); [done|].
  simpl. destruct (appPermissions tbs); [|apply reads_ret].
  intros q. apply reads_elements. intros vs. apply reads_psids.
Qed.

Lemma wp_parse_cert_summary coer (Q : CertSummary -> hpropI) :
  Q (cio.parse_cert_summary coer) ⊢ wp (parse_cert_summary coer) Q.
Proof.
  iIntros "HQ". iApply wp_bind. iApply ccoer.wp_asn_decode_call. iIntros (p).
  unfold cio.parse_cert_summary. destruct (asn_decode_canonical coer) as [cert|].
  - iIntros "H". iDestruct (exact_ptr with "H") as "(%l & %E & H)". injection E as ->.
    iApply wp_bind. iApply (reads_wp emp); [apply rcert.reads_compute_hid8|].
    iSplitR; [done|]. iIntros "_".
    iApply wp_bind. iApply reads_wp; [apply reads_issuer|]. iFrame "H". iIntros "H".
    fold (issuer_of cert). destruct (issuer_of cert) as [ss ih]. iApply wp_bind.
    iApply reads_wp; [apply reads_permissions|]. iFrame "H". iIntros "H".
    iApply wp_bind. iApply wp_struct_free. iSplitL "H"; [by iApply exact_holds|].
    iApply wp_ret. unfold psids_of.
    destruct (toBeSigned cert) as [tbs|]; [|done]. simpl. by destruct (appPermissions tbs).
  - iIntros "H". iApply wp_bind. iApply ccoer.wp_release_partial. iFrame "H". by iApply wp_ret.
Qed.

End csummary.
End csummary.


Close Scope string_scope.
