(* ===== verification/SslPtr.v ===== *)
(** Ownership of OpenSSL objects, files and curl handles: src/internal/openssl_ptr.hpp,
    the deleters of src/plaintext_file_key_store.cpp, and the functions that allocate
    objects, with std::unique_ptr or by hand.

    Here only the objects matter: a library call may succeed or fail, as [sched]
    decides, and what it computes is left out.  The functional models are in
    [CryptoEc], [Ecies], [KeyStore], [KeyPem] and [Http].  A call that dereferences its
    argument is [use]; one that is documented to accept a null pointer is [use_opt].
    Some allocations are not compared with null before the object is used
    ([new_unchecked]): they succeed unless [oom] is set. *)
From iris.proofmode Require Import proofmode environments.
From S2P Require Import Prelude Sizes StaticBytes OpenSSL CryptoEc CHeap HeapLogic AsnTree AsnPtr.

Open Scope string_scope.

Module ssl.
Section ssl.
Variable oom : bool.

(** ** Library calls *)

Definition object (ty : string) : cell := Struct ty "" "" [].

Definition create (ty : string) : M ptr := l ← mem.alloc (object ty); mret (Some l).

Definition new (ty : string) : M ptr :=
  b ← mem.fails;
  if (b : bool) then mret None else create ty.

Definition new_unchecked (ty : string) : M ptr := if oom then new ty else create ty.

Definition use (ty : string) (p : ptr) : M () :=
  match p with
  | None => mem.undefined
  | Some l =>
      o ← mem.load l;
      match o with
      | Struct ty' _ _ _ => if String.eqb ty ty' then mret () else mem.undefined
      | _ => mem.undefined
      end
  end.

Definition use_opt (ty : string) (p : ptr) : M () :=
  match p with
  | None => mret ()
  | Some _ => use ty p
  end.

(** A call that reports success or failure. *)
Definition outcome : M bool := b ← mem.fails; mret (negb b).

(** [X_free(p)]: every release function accepts a null pointer. *)
Definition release (ty : string) (p : ptr) : M () := mem.struct_free ty p.

Definition is_null (p : ptr) : bool := match p with None => true | Some _ => false end.

(** ** std::unique_ptr with the deleter of its type

    A variable of a scope: the object is released when the scope is left, by any
    return. *)
Definition scope {A} (ty : string) (acquire : M ptr) (body : ptr -> M A) : M A :=
  p ← acquire;
  r ← body p;
  (match p with
   | None => mret ()
   | Some _ => release ty p
   end);;
  mret r.

(** [FileDeleter]: fclose, which must not see a null pointer. *)
Definition fclose (p : ptr) : M () := use "FILE" p;; release "FILE" p.
Definition file_scope {A} (acquire : M ptr) (body : ptr -> M A) : M A :=
  p ← acquire;
  r ← body p;
  (if is_null p then mret () else fclose p);;
  mret r.

(** ** Building a key from parameters *)

(** EVP_PKEY_fromdata: on failure the key may have been allocated. *)
Definition fromdata (ctx params : ptr) : M (bool * ptr) :=
  use "EVP_PKEY_CTX" ctx;;
  use_opt "OSSL_PARAM" params;;
  b ← mem.fails;
  if (b : bool) then p ← new "EVP_PKEY"; mret (false, p)
  else p ← create "EVP_PKEY"; mret (true, p).

(** From EVP_PKEY_CTX_new_from_name to the return, the same code in
    [evp_pkey_from_private], [evp_pkey_from_public] and [try_build_pkey]. *)
Definition key_of_params (params : ptr) : M ptr :=
  ctx ← new "EVP_PKEY_CTX";
  init ← (if is_null ctx then mret false else use "EVP_PKEY_CTX" ctx;; outcome);
  r ← (if (init : bool) then fromdata ctx params else mret (false, None));
  let '(ok, pkey) := (r : bool * ptr) in
  release "OSSL_PARAM" params;;
  release "EVP_PKEY_CTX" ctx;;
  if negb ok then release "EVP_PKEY" pkey;; mret None
  else mret pkey.

(** OSSL_PARAM_BLD: what is pushed is read by OSSL_PARAM_BLD_to_param. *)
Definition to_param (bld : ptr) (bn : ptr) : M ptr :=
  use "OSSL_PARAM_BLD" bld;;
  use_opt "BIGNUM" bn;;
  new "OSSL_PARAM".

Definition param_key (bn_priv : ptr) : M ptr :=
  bld ← new "OSSL_PARAM_BLD";
  if is_null bld then mret None else
  use "OSSL_PARAM_BLD" bld;;
  params ← to_param bld bn_priv;
  release "OSSL_PARAM_BLD" bld;;
  if is_null params then mret None else key_of_params params.

(** ** src/crypto_ec.cpp *)

Definition evp_pkey_from_private (priv : bytes) (curve : Curve) : M ptr :=
  if negb (length priv =? scalar_len curve)%nat then mret None else
  scope "EC_GROUP" (new "EC_GROUP") (fun group =>
  if is_null group then mret None else
  scope "BIGNUM" (new "BIGNUM") (fun bn_priv =>
  if is_null bn_priv then mret None else
  scope "BN_CTX" (new "BN_CTX") (fun bn_ctx =>
  scope "EC_POINT" (use "EC_GROUP" group;; new_unchecked "EC_POINT") (fun pub_point =>
  use "EC_GROUP" group;; use "EC_POINT" pub_point;; use "BIGNUM" bn_priv;; use_opt "BN_CTX" bn_ctx;;
  ok ← outcome;
  if negb ok then mret None else
  use "EC_GROUP" group;; use "EC_POINT" pub_point;; use_opt "BN_CTX" bn_ctx;;
  ok ← outcome;
  if negb ok then mret None else
  param_key bn_priv)))).

(** The point of a compressed key. *)
Definition decompress : M bool :=
  scope "EC_GROUP" (new "EC_GROUP") (fun group =>
  if is_null group then mret false else
  scope "BN_CTX" (new "BN_CTX") (fun bn_ctx =>
  if is_null bn_ctx then mret false else
  scope "EC_POINT" (use "EC_GROUP" group;; new "EC_POINT") (fun point =>
  if is_null point then mret false else
  use "EC_GROUP" group;; use "EC_POINT" point;; use "BN_CTX" bn_ctx;;
  ok ← outcome;
  if negb ok then mret false else
  use "EC_GROUP" group;; use "EC_POINT" point;; use "BN_CTX" bn_ctx;;
  outcome))).

Definition evp_pkey_from_public (pub : bytes) (curve : Curve) : M ptr :=
  let uncompressed :=
    ((length pub =? pubkey_len curve)%nat && bool_decide (nth 0 pub x00 = x04)) in
  let compressed :=
    ((length pub =? compressed_len curve)%nat &&
     (bool_decide (nth 0 pub x00 = x02) || bool_decide (nth 0 pub x00 = x03))) in
  if negb uncompressed && negb compressed then mret None else
  ok ← (if compressed then decompress else mret true);
  if negb ok then mret None else
  param_key None.

Definition extract_rs_from_der : M bool :=
  sig ← new "ECDSA_SIG";
  if is_null sig then mret false else
  use "ECDSA_SIG" sig;;
  release "ECDSA_SIG" sig;;
  outcome.

(** ECDSA_SIG_set0 makes the numbers part of the signature object. *)
Definition set0 (sig r s : ptr) : M () :=
  match sig with
  | None => mem.undefined
  | Some l =>
      use "ECDSA_SIG" sig;;
      mem.store l (Struct "ECDSA_SIG" "" "" [("r", CPtr r); ("s", CPtr s)])
  end.

(** The result is empty or not. *)
Definition build_der_from_rs : M bool :=
  sig ← new "ECDSA_SIG";
  if is_null sig then mret false else
  r_bn ← new "BIGNUM";
  s_bn ← new "BIGNUM";
  if is_null r_bn || is_null s_bn then
    release "BIGNUM" r_bn;;
    release "BIGNUM" s_bn;;
    release "ECDSA_SIG" sig;;
    mret false
  else
  set0 sig r_bn s_bn;;
  use "ECDSA_SIG" sig;;
  ok ← outcome;
  if negb ok then release "ECDSA_SIG" sig;; mret false else
  use "ECDSA_SIG" sig;;
  release "ECDSA_SIG" sig;;
  mret true.

(** The private scalar and the public point of a key. *)
Definition read_keypair (pkey : ptr) : M bool :=
  use "EVP_PKEY" pkey;;
  b ← mem.fails;
  if (b : bool) then mret false else
  scope "BIGNUM" (create "BIGNUM") (fun bn_priv =>
  use "BIGNUM" bn_priv;;
  use "EVP_PKEY" pkey;;
  ok ← outcome;
  if negb ok then mret false else
  use "EVP_PKEY" pkey;;
  ok ← outcome;
  if negb ok then mret false else outcome).

Definition generate_keypair : M bool :=
  scope "EVP_PKEY_CTX" (new "EVP_PKEY_CTX") (fun ctx =>
  if is_null ctx then mret false else
  use "EVP_PKEY_CTX" ctx;;
  ok ← outcome;
  if negb ok then mret false else
  use "EVP_PKEY_CTX" ctx;;
  ok ← outcome;
  if negb ok then mret false else
  use "EVP_PKEY_CTX" ctx;;
  b ← mem.fails;
  if (b : bool) then mret false else
  scope "EVP_PKEY" (create "EVP_PKEY") read_keypair).

(** One call on a context after another until one fails. *)
Fixpoint calls (ty : string) (ctx : ptr) (n : nat) : M bool :=
  match n with
  | O => mret true
  | S n =>
      use ty ctx;;
      ok ← outcome;
      if negb ok then mret false else calls ty ctx n
  end.

(** EVP_DigestSignInit, Update, Final twice. *)
Definition ecdsa_sign (private_key : bytes) : M bool :=
  scope "EVP_PKEY" (evp_pkey_from_private private_key NistP256) (fun pkey =>
  if is_null pkey then mret false else
  scope "EVP_MD_CTX" (new "EVP_MD_CTX") (fun md_ctx =>
  if is_null md_ctx then mret false else
  use "EVP_PKEY" pkey;;
  ok ← calls "EVP_MD_CTX" md_ctx 4;
  if negb ok then mret false else extract_rs_from_der)).

(** EVP_PKEY_sign_init, EVP_PKEY_sign twice. *)
Definition ecdsa_sign_digest (private_key digest : bytes) (curve : Curve) : M bool :=
  if negb (length digest =? hash_len curve)%nat then mret false else
  scope "EVP_PKEY" (evp_pkey_from_private private_key curve) (fun pkey =>
  if is_null pkey then mret false else
  scope "EVP_PKEY_CTX" (use "EVP_PKEY" pkey;; new "EVP_PKEY_CTX") (fun ctx =>
  if is_null ctx then mret false else
  ok ← calls "EVP_PKEY_CTX" ctx 3;
  if negb ok then mret false else extract_rs_from_der)).

Definition ecdsa_verify (public_key : bytes) : M bool :=
  scope "EVP_PKEY" (evp_pkey_from_public public_key NistP256) (fun pkey =>
  if is_null pkey then mret false else
  build_der_from_rs;;
  scope "EVP_MD_CTX" (new "EVP_MD_CTX") (fun md_ctx =>
  if is_null md_ctx then mret false else
  use "EVP_PKEY" pkey;;
  calls "EVP_MD_CTX" md_ctx 3)).

Definition ecdsa_verify_digest (public_key digest : bytes) (curve : Curve) : M bool :=
  if negb (length digest =? hash_len curve)%nat then mret false else
  scope "EVP_PKEY" (evp_pkey_from_public public_key curve) (fun pkey =>
  if is_null pkey then mret false else
  build_der_from_rs;;
  scope "EVP_PKEY_CTX" (use "EVP_PKEY" pkey;; new "EVP_PKEY_CTX") (fun ctx =>
  if is_null ctx then mret false else
  calls "EVP_PKEY_CTX" ctx 2)).

Definition ecdh_derive (private_key peer_public_key : bytes) (curve : Curve) : M bool :=
  scope "EVP_PKEY" (evp_pkey_from_private private_key curve) (fun priv_pkey =>
  scope "EVP_PKEY" (evp_pkey_from_public peer_public_key curve) (fun pub_pkey =>
  if is_null priv_pkey || is_null pub_pkey then mret false else
  scope "EVP_PKEY_CTX" (use "EVP_PKEY" priv_pkey;; new "EVP_PKEY_CTX") (fun ctx =>
  if is_null ctx then mret false else
  ok ← calls "EVP_PKEY_CTX" ctx 1;
  if negb ok then mret false else
  use "EVP_PKEY" pub_pkey;;
  calls "EVP_PKEY_CTX" ctx 3))).

(** ** src/ecies.cpp *)

(** One block of [kdf2_sha256]: the results of the calls are not looked at. *)
Definition kdf2_block (p1 : bytes) : M () :=
  scope "EVP_MD_CTX" (new_unchecked "EVP_MD_CTX") (fun ctx =>
  use "EVP_MD_CTX" ctx;; use "EVP_MD_CTX" ctx;; use "EVP_MD_CTX" ctx;;
  (if empty p1 then mret () else use "EVP_MD_CTX" ctx);;
  use "EVP_MD_CTX" ctx).

Fixpoint kdf2_blocks (p1 : bytes) (n : nat) : M () :=
  match n with
  | O => mret ()
  | S n => kdf2_block p1;; kdf2_blocks p1 n
  end.

(** Eight calls joined by [ok && ...]. *)
Definition aes_128_ccm_encrypt (key nonce : bytes) : M bool :=
  if negb (length key =? kAesKeyLen)%nat || negb (length nonce =? kAesCcmNonceLen)%nat
  then mret false else
  scope "EVP_CIPHER_CTX" (new "EVP_CIPHER_CTX") (fun ctx =>
  if is_null ctx then mret false else calls "EVP_CIPHER_CTX" ctx 8).

(** Five calls joined by [ok && ...], and one that is always made. *)
Definition aes_128_ccm_decrypt (key nonce tag : bytes) : M bool :=
  if negb (length key =? kAesKeyLen)%nat || negb (length nonce =? kAesCcmNonceLen)%nat ||
     negb (length tag =? kAesCcmTagLen)%nat
  then mret false else
  scope "EVP_CIPHER_CTX" (new "EVP_CIPHER_CTX") (fun ctx =>
  if is_null ctx then mret false else
  ok ← calls "EVP_CIPHER_CTX" ctx 5;
  use "EVP_CIPHER_CTX" ctx;;
  rv ← outcome;
  mret (ok && rv)).

(** ** src/plaintext_file_key_store.cpp *)

Definition try_build_pkey : M ptr :=
  scope "BIGNUM" (new "BIGNUM") (fun bn_priv =>
  if is_null bn_priv then mret None else param_key bn_priv).

(** A unique_ptr that is returned is moved out and leaves a null pointer behind. *)
Definition build_pkey (kp : KeyPair) : M ptr :=
  if (sb.size (kp_public_key kp) =? kP384PublicKeyLen)%nat &&
     (sb.size (kp_private_key kp) =? kP384ScalarLen)%nat
  then try_build_pkey
  else if (sb.size (kp_public_key kp) =? kP256PublicKeyLen)%nat &&
          (sb.size (kp_private_key kp) =? kP256ScalarLen)%nat
  then
    pkey ← try_build_pkey;
    if negb (is_null pkey) then mret pkey else try_build_pkey
  else mret None.

Definition load_keypair : M bool :=
  file_scope (new "FILE") (fun fp =>
  if is_null fp then mret false else
  use "FILE" fp;;
  raw ← new "EVP_PKEY";
  if is_null raw then mret false else
  scope "EVP_PKEY" (mret raw) read_keypair).

Definition store_keypair (kp : KeyPair) : M bool :=
  scope "EVP_PKEY" (build_pkey kp) (fun pkey =>
  if is_null pkey then mret false else
  file_scope (new "FILE") (fun fp =>
  if is_null fp then mret false else
  use "FILE" fp;; use "EVP_PKEY" pkey;;
  outcome)).

(** ** tools/pki-provisioner/key_pem.cpp *)

Definition atomic_write : M bool :=
  f ← new "FILE";
  if is_null f then mret false else
  use "FILE" f;;
  written ← outcome;
  if negb written then fclose f;; mret false else
  fclose f;;
  outcome.

(** The public point; the three objects are released whether or not they exist. *)
Definition public_point (bn_priv : ptr) : M bool :=
  grp ← new "EC_GROUP";
  pub ← (if is_null grp then mret None else use "EC_GROUP" grp;; new "EC_POINT");
  bnctx ← new "BN_CTX";
  point_ok ← (if is_null grp || is_null pub || is_null bnctx then mret false else
              use "EC_GROUP" grp;; use "EC_POINT" pub;; use "BIGNUM" bn_priv;; use "BN_CTX" bnctx;;
              outcome);
  derived ← (if (point_ok : bool)
             then use "EC_GROUP" grp;; use "EC_POINT" pub;; use "BN_CTX" bnctx;; outcome
             else mret false);
  release "BN_CTX" bnctx;;
  release "EC_POINT" pub;;
  release "EC_GROUP" grp;;
  mret (point_ok && derived).

(** From the builder to the key; [bld] is not compared with null. *)
Definition private_key_object (bn_priv : ptr) : M ptr :=
  bld ← new_unchecked "OSSL_PARAM_BLD";
  use "OSSL_PARAM_BLD" bld;; use "BIGNUM" bn_priv;;
  params ← to_param bld bn_priv;
  release "OSSL_PARAM_BLD" bld;;
  release "BIGNUM" bn_priv;;
  pctx ← new "EVP_PKEY_CTX";
  init ← (if is_null pctx then mret false else use "EVP_PKEY_CTX" pctx;; outcome);
  r ← (if (init : bool) then fromdata pctx params else mret (false, None));
  let '(key_ok, pkey) := (r : bool * ptr) in
  release "OSSL_PARAM" params;;
  release "EVP_PKEY_CTX" pctx;;
  if negb key_ok || is_null pkey then release "EVP_PKEY" pkey;; mret None
  else mret pkey.

(** The SEC1 PEM text of the key, which is released. *)
Definition encode_key (pkey : ptr) : M bool :=
  bio ← new "BIO";
  ectx ← (use "EVP_PKEY" pkey;; new "OSSL_ENCODER_CTX");
  enc_ok ← (if is_null bio || is_null ectx then mret false
            else use "OSSL_ENCODER_CTX" ectx;; use "EVP_PKEY" pkey;; use "BIO" bio;; outcome);
  release "OSSL_ENCODER_CTX" ectx;;
  release "EVP_PKEY" pkey;;
  if negb enc_ok then release "BIO" bio;; mret false
  else use "BIO" bio;; release "BIO" bio;; mret true.

Definition atomic_write_key_pem : M bool :=
  bn_priv ← new "BIGNUM";
  if is_null bn_priv then mret false else
  ok ← public_point bn_priv;
  if negb ok then release "BIGNUM" bn_priv;; mret false else
  pkey ← private_key_object bn_priv;
  if is_null pkey then mret false else
  ok ← encode_key pkey;
  if negb ok then mret false else atomic_write.

(** ** src/http_client.cpp *)

(** The handle of a request is reused by every attempt. *)
Fixpoint perform_with_retry (curl : ptr) (max_retries : nat) : M bool :=
  use "CURL" curl;;
  ok ← outcome;
  if (ok : bool) then mret true else
  final ← outcome;
  if (final : bool) then mret false else
  match max_retries with
  | O => outcome
  | S n => perform_with_retry curl n
  end.

Definition http_get (max_retries : nat) : M bool :=
  curl ← new "CURL";
  if is_null curl then mret false else
  use "CURL" curl;;
  resp ← perform_with_retry curl max_retries;
  release "CURL" curl;;
  mret resp.

(** The header list may be null; the handle refers to it until both are released. *)
Definition http_post (max_retries : nat) : M bool :=
  curl ← new "CURL";
  if is_null curl then mret false else
  use "CURL" curl;;
  headers ← new "curl_slist";
  use "CURL" curl;; use_opt "curl_slist" headers;;
  resp ← perform_with_retry curl max_retries;
  use_opt "curl_slist" headers;;
  release "curl_slist" headers;;
  release "CURL" curl;;
  mret resp.

End ssl.

#[local] Arguments use : simpl never.
#[local] Arguments use_opt : simpl never.
#[local] Arguments release : simpl never.
#[local] Arguments object : simpl never.

(** ** Ownership *)

(** The object a pointer owns, if it is not null. *)
Definition owned (ty : string) (p : ptr) : hpropI :=
  match p with
  | None => emp
  | Some l => l ↦ object ty
  end%I.

Section rules.
Implicit Types (Q : () -> hpropI).

Lemma wp_create ty (Q : ptr -> hpropI) : (∀ l, l ↦ object ty -∗ Q (Some l)) ⊢ wp (create ty) Q.
Proof.
  iIntros "HQ". iApply wp_bind. iApply wp_alloc. iIntros (l) "Hl". iApply wp_ret. by iApply "HQ".
Qed.

Lemma wp_new ty (Q : ptr -> hpropI) :
  (Q None ∧ ∀ l, l ↦ object ty -∗ Q (Some l)) ⊢ wp (new ty) Q.
Proof.
  iIntros "HQ". iApply wp_bind. iApply wp_fails. iSplit.
  - iApply wp_ret. by rw bi.and_elim_l.
  - iApply wp_create. by rw bi.and_elim_r.
Qed.

Lemma wp_outcome (Q : bool -> hpropI) : (Q true ∧ Q false) ⊢ wp outcome Q.
Proof.
  iIntros "HQ". iApply wp_bind. iApply wp_fails. iSplit; iApply wp_ret; simpl;
    [by rw bi.and_elim_r|by rw bi.and_elim_l].
Qed.

Lemma wp_use ty l fs Q :
  l ↦ Struct ty "" "" fs -∗ (l ↦ Struct ty "" "" fs -∗ Q ()) -∗ wp (use ty (Some l)) Q.
Proof.
  iIntros "Hl HQ". iApply wp_bind. iApply wp_load. iFrame. iIntros "Hl". rw String.eqb_refl.
  iApply wp_ret. by iApply "HQ".
Qed.

Lemma wp_release ty l Q : l ↦ object ty -∗ Q () -∗ wp (release ty (Some l)) Q.
Proof.
  iIntros "Hl HQ". iApply (wp_struct_free ty "" []). iFrame "HQ". rw holds_struct. iExists l, _.
  iFrame "Hl". iSplit; [done|]. iExists "", []. by iFrame.
Qed.

Lemma wp_release_null ty Q : Q () ⊢ wp (release ty None) Q.
Proof. apply wp_ret. Qed.

(** A scope keeps its object until the end and then releases it. *)
Lemma wp_scope {A} ty acq (body : ptr -> M A) (Q : A -> hpropI) :
  wp acq (fun p => wp (body p) (fun r => owned ty p ∗ Q r)) ⊢ wp (scope ty acq body) Q.
Proof.
  iIntros "H". iApply wp_bind. iApply (wp_wand with "H"). iIntros (p) "H". iApply wp_bind.
  iApply (wp_wand with "H"). iIntros (r) "[Hp HQ]". iApply wp_bind. destruct p as [l|].
  - iApply (wp_release with "Hp"). by iApply wp_ret.
  - iApply wp_ret. by iApply wp_ret.
Qed.

Lemma wp_file_scope {A} acq (body : ptr -> M A) (Q : A -> hpropI) :
  wp acq (fun p => wp (body p) (fun r => owned "FILE" p ∗ Q r)) ⊢ wp (file_scope acq body) Q.
Proof.
  iIntros "H". iApply wp_bind. iApply (wp_wand with "H"). iIntros (p) "H". iApply wp_bind.
  iApply (wp_wand with "H"). iIntros (r) "[Hp HQ]". iApply wp_bind. destruct p as [l|]; simpl.
  - iApply wp_bind. iApply (wp_use with "Hp"). iIntros "Hp". iApply (wp_release with "Hp").
    by iApply wp_ret.
  - iApply wp_ret. by iApply wp_ret.
Qed.

End rules.

(** One step; the branches of a call that may fail become subgoals. *)
Ltac ssl_step :=
  lazymatch goal with
  | |- envs_entails _ (wp (mbind _ _) _) => iApply wp_bind
  | |- envs_entails _ (wp (mret _) _) => iApply wp_ret
  | |- envs_entails _ (wp (create _) _) => iApply wp_create; iIntros (?) "?"
  | |- envs_entails _ (wp (new _) _) => iApply wp_new; iSplit; [|iIntros (?) "?"]
  | |- envs_entails _ (wp (new_unchecked false _) _) => unfold new_unchecked
  | |- envs_entails _ (wp outcome _) => iApply wp_outcome; iSplit
  | |- envs_entails _ (wp mem.fails _) => iApply wp_fails; iSplit
  | |- envs_entails _ (wp (scope _ _ _) _) => iApply wp_scope
  | |- envs_entails _ (wp (file_scope _ _) _) => iApply wp_file_scope
  | |- envs_entails _ (wp (use_opt _ (Some _)) _) => unfold use_opt
  | |- envs_entails _ (wp (use_opt _ None) _) => iApply wp_ret
  | |- envs_entails _ (wp (use _ (Some ?l)) _) =>
      iSelect (l ↦ _)%I (fun H => iApply (wp_use with H); iIntros H)
  | |- envs_entails _ (wp (release _ (Some ?l)) _) =>
      iSelect (l ↦ _)%I (fun H => iApply (wp_release with H))
  | |- envs_entails _ (wp (release _ None) _) => iApply wp_release_null
  | |- envs_entails _ (wp (mem.store ?l _) _) =>
      iSelect (l ↦ _)%I (fun H => iApply wp_store; iFrame H; iIntros H)
  | |- envs_entails _ (wp (fclose _) _) => unfold fclose
  | |- envs_entails _ (wp (if _ then _ else _) _) => progress cbn [is_null negb orb andb]
  | |- envs_entails _ (wp (let '(_, _) := (_, _) in _) _) => progress cbv beta iota
  end.
Ltac ssl_steps := repeat ssl_step.

(** ** No function leaks or uses a released object, whatever the library answers

    [safe m]: run from any heap, [m] ends with the same cells.  [yields ty m]: it ends
    with the same cells and, when its result is not null, one new object of the type,
    which the result owns. *)
Definition safe {A} (m : M A) : Prop := forall Q, (∀ r, Q r) ⊢ wp m Q.
Definition yields (ty : string) (m : M ptr) : Prop :=
  forall Q, (∀ p, owned ty p -∗ Q p) ⊢ wp m Q.

(** The end of a path: the scopes get their objects back, the caller the rest. *)
Ltac ssl_end := cbn [owned]; iFrame; rw ?bi.emp_sep; iApply "HQ"; done.
Ltac ssl_auto := ssl_steps; try ssl_end.

Lemma wp_key_of_params params (Q : ptr -> hpropI) :
  params ↦ object "OSSL_PARAM" ∗ (∀ p, owned "EVP_PKEY" p -∗ Q p) ⊢
  wp (key_of_params (Some params)) Q.
Proof. iIntros "[Hp HQ]". unfold key_of_params, fromdata. ssl_steps; by iApply "HQ". Qed.

Lemma wp_param_key bn (Q : ptr -> hpropI) :
  owned "BIGNUM" bn ∗ (∀ p, owned "BIGNUM" bn -∗ owned "EVP_PKEY" p -∗ Q p) ⊢ wp (param_key bn) Q.
Proof.
  iIntros "[Hb HQ]". unfold param_key, to_param.
  destruct bn as [bn|]; simpl; ssl_steps;
    try (iApply wp_key_of_params; iSelect (_ ↦ object "OSSL_PARAM")%I (fun H => iFrame H);
         iIntros (p) "Hp"; by iApply ("HQ" with "[$]"));
    by iApply ("HQ" with "[$]").
Qed.

Ltac ssl_param_key :=
  iApply wp_param_key; cbn [owned];
  lazymatch goal with
  | |- envs_entails _ (hpoints ?l _ ∗ _) => iSelect (l ↦ _)%I (fun H => iFrame H)
  | |- _ => iSplitR; [done|]
  end; iIntros (?) "? ?"; ssl_end.

Lemma from_private_yields priv curve : yields "EVP_PKEY" (evp_pkey_from_private false priv curve).
Proof.
  intros Q. iIntros "HQ". unfold evp_pkey_from_private. destruct (negb _); [by ssl_auto|].
  ssl_auto; ssl_param_key.
Qed.

Lemma decompress_safe : safe decompress.
Proof. intros Q. iIntros "HQ". unfold decompress. ssl_auto. Qed.

Lemma from_public_yields pub curve : yields "EVP_PKEY" (evp_pkey_from_public pub curve).
Proof.
  intros Q. iIntros "HQ". unfold evp_pkey_from_public. destruct (negb _ && negb _); [by ssl_auto|].
  iApply wp_bind. destruct (_ && (_ || _)).
  - iApply decompress_safe. iIntros ([]); ssl_auto. ssl_param_key.
  - ssl_auto. ssl_param_key.
Qed.

Lemma extract_rs_safe : safe extract_rs_from_der.
Proof. intros Q. iIntros "HQ". unfold extract_rs_from_der. ssl_auto. Qed.

(** A signature object with its two numbers is released as a whole. *)
Lemma wp_release_sig l r s (Q : () -> hpropI) :
  l ↦ Struct "ECDSA_SIG" "" "" [("r", CPtr (Some r)); ("s", CPtr (Some s))] ∗
  r ↦ object "BIGNUM" ∗ s ↦ object "BIGNUM" ∗ Q () ⊢ wp (release "ECDSA_SIG" (Some l)) Q.
Proof.
  iIntros "(Hl & Hr & Hs & HQ)".
  iApply (wp_struct_free "ECDSA_SIG" "" [("r", TStruct "BIGNUM" "" []); ("s", TStruct "BIGNUM" "" [])]).
  iFrame "HQ". rw holds_struct. iExists l, _. iFrame "Hl". iSplit; [done|].
  iExists "", _. iSplit; [done|]. iSplit; [done|]. simpl. rw !holds_struct.
  iSplit; [done|]. iSplitL "Hr".
  { iExists r, _. iFrame "Hr". iSplit; [done|]. by iExists "", []. }
  iSplit; [done|]. iSplitL; [|done]. iExists s, _. iFrame "Hs". iSplit; [done|]. by iExists "", [].
Qed.

Lemma build_der_safe : safe build_der_from_rs.
Proof.
  intros Q. iIntros "HQ". unfold build_der_from_rs, set0. ssl_auto;
    iApply wp_release_sig; iFrame; ssl_auto.
Qed.

Lemma wp_read_keypair l (Q : bool -> hpropI) :
  l ↦ object "EVP_PKEY" ∗ (∀ r, l ↦ object "EVP_PKEY" -∗ Q r) ⊢ wp (read_keypair (Some l)) Q.
Proof.
  iIntros "[Hl HQ]". unfold read_keypair. ssl_steps; cbn [owned]; iFrame; by iApply ("HQ" with "[$]").
Qed.

Lemma generate_keypair_safe : safe generate_keypair.
Proof.
  intros Q. iIntros "HQ". unfold generate_keypair. ssl_auto.
  iApply wp_read_keypair. iFrame. iIntros (r) "?". ssl_end.
Qed.

(** A run of calls keeps the context. *)
Lemma wp_calls ty l n (Q : bool -> hpropI) :
  l ↦ object ty ∗ (∀ r, l ↦ object ty -∗ Q r) ⊢ wp (calls ty (Some l) n) Q.
Proof.
  iIntros "[Hl HQ]". iInduction n as [|n] "IH"; simpl; ssl_steps; try by iApply ("HQ" with "[$]").
  iApply ("IH" with "Hl HQ").
Qed.

Ltac ssl_calls :=
  lazymatch goal with |- envs_entails _ (wp (calls _ (Some ?l) _) _) =>
    iApply wp_calls; iSelect (l ↦ _)%I (fun H => iFrame H); iIntros ([]) "?" end.

(** A key the callee gave us, or null. *)
Ltac ssl_key lem :=
  iApply lem; let p := fresh "pkey" in iIntros (p) "Hkey"; destruct p; cbn [owned].

Lemma ecdsa_sign_safe priv : safe (ecdsa_sign false priv).
Proof.
  intros Q. iIntros "HQ". unfold ecdsa_sign. ssl_steps. ssl_key from_private_yields; ssl_auto.
  ssl_calls; ssl_auto. iApply extract_rs_safe. iIntros (r). ssl_end.
Qed.

Lemma ecdsa_sign_digest_safe priv d curve : safe (ecdsa_sign_digest false priv d curve).
Proof.
  intros Q. iIntros "HQ". unfold ecdsa_sign_digest. destruct (negb _); [by ssl_auto|]. ssl_steps.
  ssl_key from_private_yields; ssl_auto.
  ssl_calls; ssl_auto. iApply extract_rs_safe. iIntros (r). ssl_end.
Qed.

Lemma ecdsa_verify_safe pub : safe (ecdsa_verify pub).
Proof.
  intros Q. iIntros "HQ". unfold ecdsa_verify. ssl_steps. ssl_key from_public_yields; ssl_auto.
  iApply build_der_safe. iIntros (_). ssl_auto. ssl_calls; ssl_auto.
Qed.

Lemma ecdsa_verify_digest_safe pub d curve : safe (ecdsa_verify_digest pub d curve).
Proof.
  intros Q. iIntros "HQ". unfold ecdsa_verify_digest. destruct (negb _); [by ssl_auto|]. ssl_steps.
  ssl_key from_public_yields; ssl_auto.
  iApply build_der_safe. iIntros (_). ssl_auto. ssl_calls; ssl_auto.
Qed.

Lemma ecdh_derive_safe priv peer curve : safe (ecdh_derive false priv peer curve).
Proof.
  intros Q. iIntros "HQ". unfold ecdh_derive. ssl_steps.
  iApply from_private_yields. iIntros (p1) "Hp1". ssl_steps.
  iApply from_public_yields. iIntros (p2) "Hp2".
  destruct p1 as [l1|], p2 as [l2|]; cbn [owned]; ssl_auto.
  ssl_calls; ssl_auto. ssl_calls; ssl_auto.
Qed.

Lemma kdf2_blocks_safe p1 n : safe (kdf2_blocks false p1 n).
Proof.
  intros Q. iIntros "HQ". iInduction n as [|n] "IH"; simpl; [by ssl_auto|]. unfold kdf2_block.
  destruct (empty p1); ssl_steps; cbn [owned]; iFrame; iApply ("IH" with "HQ").
Qed.

Lemma aes_encrypt_safe key nonce : safe (aes_128_ccm_encrypt key nonce).
Proof.
  intros Q. iIntros "HQ". unfold aes_128_ccm_encrypt. destruct (_ || _); [by ssl_auto|]. ssl_auto.
  ssl_calls; ssl_auto.
Qed.

Lemma aes_decrypt_safe key nonce tag : safe (aes_128_ccm_decrypt key nonce tag).
Proof.
  intros Q. iIntros "HQ". unfold aes_128_ccm_decrypt. destruct (_ || _); [by ssl_auto|]. ssl_auto.
  ssl_calls; ssl_auto.
Qed.

Lemma try_build_yields : yields "EVP_PKEY" try_build_pkey.
Proof. intros Q. iIntros "HQ". unfold try_build_pkey. ssl_auto. ssl_param_key. Qed.

Lemma build_pkey_yields kp : yields "EVP_PKEY" (build_pkey kp).
Proof.
  intros Q. iIntros "HQ". unfold build_pkey. destruct (_ && _); [by iApply try_build_yields|].
  destruct (_ && _); [|by ssl_auto]. ssl_steps. iApply try_build_yields. iIntros (p) "Hp".
  destruct p as [l|]; cbn [owned].
  - ssl_steps. iApply "HQ". done.
  - ssl_steps. by iApply try_build_yields.
Qed.

Lemma load_keypair_safe : safe load_keypair.
Proof.
  intros Q. iIntros "HQ". unfold load_keypair. ssl_auto.
  lazymatch goal with |- envs_entails _ (wp (read_keypair (Some ?l)) _) =>
    iApply wp_read_keypair; iSelect (l ↦ _)%I (fun H => iFrame H) end.
  iIntros (r) "?". ssl_end.
Qed.

Lemma store_keypair_safe kp : safe (store_keypair kp).
Proof.
  intros Q. iIntros "HQ". unfold store_keypair. ssl_steps. ssl_key build_pkey_yields; ssl_auto.
Qed.

Lemma atomic_write_safe : safe atomic_write.
Proof. intros Q. iIntros "HQ". unfold atomic_write. ssl_auto. Qed.

Lemma wp_public_point bn (Q : bool -> hpropI) :
  bn ↦ object "BIGNUM" ∗ (∀ r, bn ↦ object "BIGNUM" -∗ Q r) ⊢ wp (public_point (Some bn)) Q.
Proof.
  iIntros "[Hb HQ]". unfold public_point. ssl_steps; by iApply ("HQ" with "[$]").
Qed.

Lemma wp_private_key_object bn (Q : ptr -> hpropI) :
  bn ↦ object "BIGNUM" ∗ (∀ p, owned "EVP_PKEY" p -∗ Q p) ⊢
  wp (private_key_object false (Some bn)) Q.
Proof.
  iIntros "[Hb HQ]". unfold private_key_object, to_param, fromdata. ssl_steps; by iApply "HQ".
Qed.

Lemma wp_encode_key l (Q : bool -> hpropI) :
  l ↦ object "EVP_PKEY" ∗ (∀ r, Q r) ⊢ wp (encode_key (Some l)) Q.
Proof. iIntros "[Hl HQ]". unfold encode_key. ssl_steps; by iApply "HQ". Qed.

Lemma atomic_write_key_pem_safe : safe (atomic_write_key_pem false).
Proof.
  intros Q. iIntros "HQ". unfold atomic_write_key_pem. ssl_auto.
  iApply wp_public_point. iFrame. iIntros ([]) "Hb"; ssl_auto.
  iApply wp_private_key_object. iFrame "Hb". iIntros ([key|]) "Hp"; cbn [owned]; ssl_auto.
  iApply wp_encode_key. iFrame "Hp". iIntros ([]); ssl_auto. by iApply atomic_write_safe.
Qed.

Lemma wp_perform_with_retry l n (Q : bool -> hpropI) :
  l ↦ object "CURL" ∗ (∀ r, l ↦ object "CURL" -∗ Q r) ⊢ wp (perform_with_retry (Some l) n) Q.
Proof.
  iIntros "[Hl HQ]". iInduction n as [|n] "IH"; simpl; ssl_steps; try by iApply ("HQ" with "[$]").
  iApply ("IH" with "Hl HQ").
Qed.

Ltac ssl_retry :=
  lazymatch goal with |- envs_entails _ (wp (perform_with_retry (Some ?l) _) _) =>
    iApply wp_perform_with_retry; iSelect (l ↦ _)%I (fun H => iFrame H); iIntros (?) "?" end.

Lemma http_get_safe n : safe (http_get n).
Proof. intros Q. iIntros "HQ". unfold http_get. ssl_auto. ssl_retry. ssl_auto. Qed.

Lemma http_post_safe n : safe (http_post n).
Proof. intros Q. iIntros "HQ". unfold http_post. ssl_auto; ssl_retry; ssl_auto. Qed.

(** ** Runs *)

Lemma safe_run {A} (m : M A) :
  safe m -> forall s, exists r s', m s = Some (r, s') /\ cells s' = cells s.
Proof.
  intros H s. destruct (wp_run m (fun _ => True)) with (s := s) as (r & s' & E & Hc & _); [|eauto].
  iApply H. done.
Qed.

Lemma yields_run ty m :
  yields ty m ->
  forall s, exists p s', m s = Some (p, s') /\
    match p with
    | None => cells s' = cells s
    | Some l => cells s !! l = None /\ cells s' = <[l := object ty]> (cells s)
    end.
Proof.
  intros H [h s]. specialize (H (owned ty)).
  destruct H as [H]. destruct (H ∅) with (hf := h) (s := s) as (p & h' & s' & E & Hd & Hp).
  { intros p h' _ Hp. by rw left_id_L. }
  { apply map_disjoint_empty_l. }
  rw left_id_L in E. exists p, (MkCState (h' ∪ h) s'). split; [done|]. simpl.
  destruct p as [l|]; simpl in Hp; subst h'; [|by rw left_id_L].
  apply map_disjoint_singleton_l in Hd. split; [done|]. by rw -insert_union_singleton_l.
Qed.

End ssl.

Close Scope string_scope.
