(* ===== verification/Buffers.v ===== *)
(** Vectors and arrays with their bounds.

    The functional models slice byte strings with total functions.  Here every element
    access, iterator range, copy and buffer handed to a library is checked: a result
    of [None] is an access outside the buffer, or a library call with a negative
    length, which C++ leaves undefined.  BufCrypto.v, BufEcies.v and BufMessages.v
    write the program's code over these operations and show that it agrees with the
    functional models. *)
From S2P Require Import Prelude StaticBytes.

Module vec.

(** [v[i]] *)
Definition get (v : bytes) (i : nat) : option byte := v !! i.

(** [v[i] = b] *)
Definition set (v : bytes) (i : nat) (b : byte) : option bytes :=
  if i <? length v then Some (<[i := b]> v) else None.

(** The range [v.begin() + i, v.begin() + j). *)
Definition range (v : bytes) (i j : nat) : option bytes :=
  if (i <=? j) && (j <=? length v) then Some (take (j - i) (drop i v)) else None.

(** [n] bytes read through the pointer [v.data() + i]. *)
Definition read (v : bytes) (i n : nat) : option bytes := range v i (i + n).

(** The bytes [b] written through the pointer [v.data() + i]. *)
Definition write (v : bytes) (i : nat) (b : bytes) : option bytes :=
  if i + length b <=? length v then Some (take i v ++ b ++ drop (i + length b) v) else None.

(** [v.resize(n)] *)
Definition resize (v : bytes) (n : nat) : bytes := take n v ++ zeros (n - length v).

(** [static_cast<int>(n)] of a size, and a read of as many bytes. *)
Definition int_of_size (n : nat) : Z :=
  let z := u32 (Z.of_nat n) in if (z <? 2 ^ 31)%Z then z else (z - 2 ^ 32)%Z.

Definition read_int (v : bytes) (i : nat) (n : Z) : option bytes :=
  if (n <? 0)%Z then None else read v i (Z.to_nat n).

(** A library call fills the start of [v] with what it produces; when it fails [v] is
    left as it was. *)
Definition fill (v : bytes) (res : option bytes) : option bytes :=
  match res with
  | None => Some v
  | Some b => write v 0 b
  end.

(** The pattern [std::vector<uint8_t> v(n); if (call(v.data(), &n) <= 0) return {};
    v.resize(n);] for a call that announced [n] bytes. *)
Definition out (n : nat) (res : option bytes) : option (option bytes) :=
  match res with
  | None => Some None
  | Some b => v ← write (zeros n) 0 b; Some (Some (resize v (length b)))
  end.

(** ** Lemmas *)

Lemma range_ok v i j : i <= j -> j <= length v -> range v i j = Some (take (j - i) (drop i v)).
Proof. intros Hi Hj. unfold range. by rewrite !(proj2 (Nat.leb_le _ _)) by done. Qed.

Lemma range_prefix v n : n <= length v -> range v 0 n = Some (take n v).
Proof. intros Hn. rewrite range_ok by lia. by rewrite drop_0, Nat.sub_0_r. Qed.

Lemma range_suffix v n : n <= length v -> range v n (length v) = Some (drop n v).
Proof. intros Hn. rewrite range_ok by lia. rewrite take_ge; [done|]. rewrite length_drop. lia. Qed.

Lemma read_ok v i n : i + n <= length v -> read v i n = Some (take n (drop i v)).
Proof. intros H. unfold read. rewrite range_ok by lia. do 2 f_equal. lia. Qed.

Lemma read_prefix v n : n <= length v -> read v 0 n = Some (take n v).
Proof. intros H. by rewrite read_ok. Qed.

Lemma read_all v : read v 0 (length v) = Some v.
Proof. rewrite read_prefix by done. by rewrite take_ge. Qed.

Lemma int_of_size_small n : (Z.of_nat n < 2 ^ 31)%Z -> int_of_size n = Z.of_nat n.
Proof.
  intros H. unfold int_of_size. rewrite u32_small by (unfold in_u32; lia).
  by rewrite (proj2 (Z.ltb_lt _ _)).
Qed.

(** From two gigabytes on, the length a library gets is not the length of the vector. *)
Lemma int_of_size_large n :
  (2 ^ 31 <= Z.of_nat n < 2 ^ 32)%Z -> int_of_size n = (Z.of_nat n - 2 ^ 32)%Z.
Proof.
  intros H. unfold int_of_size. rewrite u32_small by (unfold in_u32; lia).
  by rewrite (proj2 (Z.ltb_ge _ _)) by lia.
Qed.

Lemma read_int_prefix v n :
  n <= length v -> (Z.of_nat n < 2 ^ 31)%Z -> read_int v 0 (int_of_size n) = Some (take n v).
Proof.
  intros Hn H. unfold read_int. rewrite int_of_size_small by done.
  rewrite (proj2 (Z.ltb_ge _ _)) by lia. rewrite Nat2Z.id. by apply read_prefix.
Qed.

Lemma read_int_all v :
  (Z.of_nat (length v) < 2 ^ 31)%Z -> read_int v 0 (int_of_size (length v)) = Some v.
Proof. intros H. rewrite read_int_prefix by done. by rewrite take_ge. Qed.

Lemma write_prefix v b : length b <= length v -> write v 0 b = Some (b ++ drop (length b) v).
Proof. intros H. unfold write. by rewrite (proj2 (Nat.leb_le _ _)). Qed.

Lemma write_all v b : length b = length v -> write v 0 b = Some b.
Proof. intros H. rewrite write_prefix by lia. rewrite drop_ge by lia. by rewrite app_nil_r. Qed.

Lemma write_nil v i : i <= length v -> write v i [] = Some v.
Proof.
  intros H. unfold write. simpl. rewrite Nat.add_0_r, (proj2 (Nat.leb_le _ _)) by done.
  by rewrite take_drop.
Qed.

Lemma fill_zeros n res :
  (forall b, res = Some b -> length b = n) -> fill (zeros n) res = Some (default (zeros n) res).
Proof.
  intros H. destruct res as [b|]; [|done]. simpl. apply write_all. rewrite length_zeros. auto.
Qed.

Lemma resize_prefix b v : resize (b ++ v) (length b) = b.
Proof.
  unfold resize. rewrite take_app_length, length_app.
  replace (length b - (length b + length v)) with 0 by lia. by rewrite app_nil_r.
Qed.

Lemma out_ok n res : (forall b, res = Some b -> length b <= n) -> out n res = Some res.
Proof.
  intros H. destruct res as [b|]; [|done]. simpl. rewrite write_prefix.
  - simpl. by rewrite resize_prefix.
  - rewrite length_zeros. auto.
Qed.

(** ** [for (i = 0; i < n; i++) dst[i] = a[i] ^ b[i];] *)

Fixpoint xor_loop (n i : nat) (dst a b : bytes) : option bytes :=
  match n with
  | O => Some dst
  | S n =>
      x ← get a i;
      y ← get b i;
      dst ← set dst i (byte.xor x y);
      xor_loop n (S i) dst a b
  end.

Lemma xor_loop_from n i dst a b :
  i + n = length dst -> length a = length dst -> length b = length dst ->
  xor_loop n i dst a b = Some (take i dst ++ xor_bytes (drop i a) (drop i b)).
Proof.
  revert i dst. induction n as [|n IH]; intros i dst Hi Ha Hb; simpl.
  - rewrite take_ge, (drop_ge a) by lia. by rewrite app_nil_r.
  - destruct (lookup_lt_is_Some_2 a i ltac:(lia)) as [x Hx].
    destruct (lookup_lt_is_Some_2 b i ltac:(lia)) as [y Hy].
    unfold get, set. rewrite Hx, Hy. simpl. rewrite (proj2 (Nat.ltb_lt _ _)) by lia. simpl.
    rewrite IH by (rewrite ?length_insert; lia). f_equal.
    rewrite (drop_S a x i Hx), (drop_S b y i Hy). simpl.
    rewrite (take_S_r _ _ (byte.xor x y)) by (apply list_lookup_insert_eq; lia).
    rewrite take_insert_ge by done. by rewrite <- app_assoc.
Qed.

Lemma xor_loop_ok n a b :
  length a = n -> length b = n -> xor_loop n 0 (zeros n) a b = Some (xor_bytes a b).
Proof. intros Ha Hb. rewrite xor_loop_from; rewrite ?length_zeros; [by rewrite !drop_0|lia..]. Qed.

End vec.
Arguments vec.xor_loop : simpl never.

Create Rewrite HintDb vec.
#[export] Hint Rewrite vec.read_all vec.range_prefix vec.range_suffix vec.read_prefix vec.write_all
  using (first [done|autorewrite with v2x_len; lia]) : vec.

(** ** StaticBytes over its array *)

Module bsb.
Section bsb.
Context {N : nat}.

(** [from(p, n)]: [n] bytes are copied from [p] into the array. *)
Definition from_ptr (p : bytes) (n : nat) : option (option (StaticBytes N)) :=
  if N <? n then Some None else
  src ← vec.read p 0 n;
  d ← vec.write (zeros N) 0 src;
  Some (Some (MkStaticBytes d n)).

Definition from (v : bytes) : option (option (StaticBytes N)) := from_ptr v (length v).

(** [std::vector<uint8_t>(begin(), end())] *)
Definition to_vector (b : StaticBytes N) : option bytes := vec.range (data_ b) 0 (len_ b).

Definition at_ (b : StaticBytes N) (i : nat) : option byte := vec.get (data_ b) i.

(** [std::equal(begin(), end(), other.begin())] reads as many bytes of [other]. *)
Definition eqb (a b : StaticBytes N) : option bool :=
  if negb (len_ a =? len_ b) then Some false else
  x ← vec.range (data_ a) 0 (len_ a);
  y ← vec.read (data_ b) 0 (len_ a);
  Some (bytes_eqb x y).

Definition eqb_vector (b : StaticBytes N) (v : bytes) : option bool :=
  if negb (len_ b =? length v) then Some false else
  x ← vec.range (data_ b) 0 (len_ b);
  y ← vec.read v 0 (len_ b);
  Some (bytes_eqb x y).

(** [n] bytes behind [data()]: [octet::set(os, b.data(), n)] and the like. *)
Definition data (b : StaticBytes N) (n : nat) : option bytes := vec.read (data_ b) 0 n.

Lemma from_ptr_ok p n : n <= length p -> from_ptr p n = Some (sb.from_ptr N p n).
Proof.
  intros H. unfold from_ptr, sb.from_ptr. destruct (Nat.ltb_spec N n); [done|].
  rewrite vec.read_prefix by done. simpl.
  rewrite vec.write_prefix by (rewrite length_take, length_zeros; lia). simpl.
  rewrite length_take. by rewrite Nat.min_l by done.
Qed.

Lemma from_ok v : from v = Some (sb.from N v).
Proof. by apply from_ptr_ok. Qed.

Lemma to_vector_ok b : sb.wf b -> to_vector b = Some (sb.to_vector b).
Proof. intros [Hd Hl]. apply vec.range_prefix. lia. Qed.

Lemma data_ok b n : sb.wf b -> n <= N -> data b n = Some (take n (data_ b)).
Proof. intros [Hd Hl] Hn. apply vec.read_prefix. lia. Qed.

Lemma at_ok b i : sb.wf b -> i < N -> at_ b i = Some (sb.at_ b i).
Proof.
  intros [Hd _] Hi. unfold at_, vec.get, sb.at_.
  destruct (lookup_lt_is_Some_2 (data_ b) i ltac:(lia)) as [x Hx]. rewrite Hx. f_equal. symmetry.
  by apply nth_lookup_Some.
Qed.

Lemma eqb_ok a b : sb.wf a -> sb.wf b -> eqb a b = Some (sb.eqb a b).
Proof.
  intros [Ha La] [Hb Lb]. unfold eqb, sb.eqb. destruct (len_ a =? len_ b); [|done]. simpl.
  rewrite vec.range_prefix, vec.read_prefix by lia. done.
Qed.

Lemma eqb_vector_ok b v : sb.wf b -> eqb_vector b v = Some (sb.eqb_vector b v).
Proof.
  intros [Hb Lb]. unfold eqb_vector, sb.eqb_vector. destruct (Nat.eqb_spec (len_ b) (length v)); [|done].
  simpl. rewrite vec.range_prefix, vec.read_prefix by lia. done.
Qed.

End bsb.
Arguments from_ptr N p n : clear implicits.
Arguments from N v : clear implicits.
End bsb.
