(* ===== verification/BufCrypto.v ===== *)
(** The buffers of src/crypto_ec.cpp and of the key extraction of
    src/plaintext_file_key_store.cpp.

    A result of [None] is an access outside a buffer (Buffers.v); the result of the
    function is inside.  The lemmas [.._in_bounds] say that none happens and that the
    result is that of the functional model. *)
From S2P Require Import Prelude Sizes StaticBytes OpenSSL CryptoEc Ecies Disk KeyStore Buffers.

(** ** How much OpenSSL writes

    The answers of the calls with a null buffer; [None] is a failure. *)
Class SslSizes {ossl : OpenSSL} := {
  EVP_PKEY_sign_size : EVP_PKEY -> option nat;
  EVP_DigestSign_size : EVP_MD -> EVP_PKEY -> option nat;
  EVP_PKEY_derive_size : EVP_PKEY -> EVP_PKEY -> option nat;
  EVP_PKEY_get_pub_size : EVP_PKEY -> option nat;
  i2d_ECDSA_SIG_size : Z * Z -> option nat;
}.

(** A call writes at most what the query announced, and fails when the query fails. *)
Class SslSizesOk {ossl : OpenSSL} {sz : SslSizes} := {
  sign_size_ok k d g :
    match EVP_PKEY_sign_size k with
    | None => EVP_PKEY_sign k d g = (None, g)
    | Some n => forall der g', EVP_PKEY_sign k d g = (Some der, g') -> length der <= n
    end;
  digest_sign_size_ok md k m g :
    match EVP_DigestSign_size md k with
    | None => EVP_DigestSign md k m g = (None, g)
    | Some n => forall der g', EVP_DigestSign md k m g = (Some der, g') -> length der <= n
    end;
  derive_size_ok k p :
    match EVP_PKEY_derive_size k p with
    | None => EVP_PKEY_derive k p = None
    | Some n => forall s, EVP_PKEY_derive k p = Some s -> length s <= n
    end;
  get_pub_size_ok k :
    match EVP_PKEY_get_pub_size k with
    | None => EVP_PKEY_get_pub k = None
    | Some n => forall b, EVP_PKEY_get_pub k = Some b -> length b <= n
    end;
  i2d_size_ok rs :
    match i2d_ECDSA_SIG_size rs with
    | None => i2d_ECDSA_SIG rs = None
    | Some n => exists der, i2d_ECDSA_SIG rs = Some der /\ length der = n
    end;
}.

(** ** src/crypto_ec.cpp *)

Module bcrypto.
Section bcrypto.
Context {ossl : OpenSSL} {sz : SslSizes}.

(** [EC_POINT_point2oct(group, point, form, buf, len, ctx)]: the bytes written, which
    is 0 when the buffer is too small, and the buffer. *)
Definition point2oct (group : EC_GROUP) (point : EC_POINT) (buf : bytes) (len : nat)
    : option (nat * bytes) :=
  let enc := EC_POINT_point2oct group point in
  if length enc <=? len then buf ← vec.write buf 0 enc; Some (length enc, buf)
  else Some (0, buf).

Definition derive_public (priv : bytes) (curve : Curve) : option (option (Z * bytes)) :=
  let slen := scalar_len curve in
  let plen := pubkey_len curve in
  if negb (length priv =? slen) then Some None else
  match EC_GROUP_new_by_curve_name (curve_nid curve) with
  | None => Some None
  | Some group =>
      p ← vec.read_int priv 0 (vec.int_of_size (length priv));
      match BN_bin2bn p with
      | None => Some None
      | Some bn_priv =>
          match EC_POINT_mul group bn_priv with
          | None => Some None
          | Some pub_point =>
              r ← point2oct group pub_point (zeros plen) plen;
              let '(n, pub_buf) := r in
              Some (if negb (n =? plen) then None else Some (bn_priv, pub_buf))
          end
      end
  end.

Definition evp_pkey_from_private (priv : bytes) (curve : Curve) : option (option EVP_PKEY) :=
  r ← derive_public priv curve;
  match r with
  | None => Some None
  | Some (bn_priv, pub_buf) =>
      pub ← vec.read pub_buf 0 (length pub_buf);
      Some (EVP_PKEY_fromdata_keypair (curve_group_name curve) bn_priv pub)
  end.

(** [pub.size() == n && (pub[0] == ...)]: the second test only after the first. *)
Definition starts_with (pub : bytes) (n : nat) (ok : byte -> bool) : option bool :=
  if length pub =? n then b ← vec.get pub 0; Some (ok b) else Some false.

Definition decompress (pub : bytes) (curve : Curve) : option (option bytes) :=
  let plen := pubkey_len curve in
  match EC_GROUP_new_by_curve_name (curve_nid curve) with
  | None => Some None
  | Some group =>
      p ← vec.read pub 0 (length pub);
      match EC_POINT_oct2point group p with
      | None => Some None
      | Some point =>
          r ← point2oct group point (zeros plen) plen;
          let '(n, buf) := r in Some (if negb (n =? plen) then None else Some buf)
      end
  end.

Definition evp_pkey_from_public (pub : bytes) (curve : Curve) : option (option EVP_PKEY) :=
  uncompressed ← starts_with pub (pubkey_len curve) (fun b => bool_decide (b = x04));
  compressed ← starts_with pub (compressed_len curve)
    (fun b => bool_decide (b = x02) || bool_decide (b = x03));
  if negb uncompressed && negb compressed then Some None else
  uncompressed_pub ← (if (compressed : bool) then decompress pub curve else Some (Some pub));
  match uncompressed_pub with
  | None => Some None
  | Some up =>
      p ← vec.read up 0 (length up);
      Some (EVP_PKEY_fromdata_public (curve_group_name curve) p)
  end.

Definition extract_rs_from_der (der : bytes) (der_len slen : nat) : option (option Signature) :=
  p ← vec.read der 0 der_len;
  match d2i_ECDSA_SIG p with
  | None => Some None
  | Some (r_bn, s_bn) =>
      r_buf ← vec.fill (zeros kP384ScalarLen) (BN_bn2binpad r_bn slen);
      s_buf ← vec.fill (zeros kP384ScalarLen) (BN_bn2binpad s_bn slen);
      r_sb ← bsb.from_ptr kP384ScalarLen r_buf slen;
      s_sb ← bsb.from_ptr kP384ScalarLen s_buf slen;
      Some (match r_sb, s_sb with
            | Some r_sb, Some s_sb => Some (MkSignature r_sb s_sb)
            | _, _ => None
            end)
  end.

Definition build_der_from_rs (r : bytes) (rlen : nat) (s : bytes) (slen : nat) : option bytes :=
  r ← vec.read_int r 0 (vec.int_of_size rlen);
  s ← vec.read_int s 0 (vec.int_of_size slen);
  match BN_bin2bn r, BN_bin2bn s with
  | Some r_bn, Some s_bn =>
      match i2d_ECDSA_SIG_size (r_bn, s_bn) with
      | None => Some []
      | Some der_len => vec.fill (zeros der_len) (i2d_ECDSA_SIG (r_bn, s_bn))
      end
  | _, _ => Some []
  end.

(** The two arrays of a key pair, from the number and the octets of a key. *)
Definition read_keypair (pkey : EVP_PKEY) (slen : nat) : option (option KeyPair) :=
  match EVP_PKEY_get_priv pkey with
  | None => Some None
  | Some bn_priv =>
      priv_bytes ← vec.fill (zeros slen) (BN_bn2binpad bn_priv slen);
      match EVP_PKEY_get_pub_size pkey with
      | None => Some None
      | Some pub_len =>
          pub ← vec.out pub_len (EVP_PKEY_get_pub pkey);
          match pub with
          | None => Some None
          | Some pub_bytes =>
              pub_sb ← bsb.from kP384PublicKeyLen pub_bytes;
              priv_sb ← bsb.from kP384ScalarLen priv_bytes;
              Some (match pub_sb, priv_sb with
                    | Some pub_sb, Some priv_sb => Some (MkKeyPair pub_sb priv_sb)
                    | _, _ => None
                    end)
          end
      end
  end.

Definition generate_keypair (curve : Curve) (g : rng) : option (option KeyPair * rng) :=
  match EVP_PKEY_generate (curve_group_name curve) g with
  | (None, g) => Some (None, g)
  | (Some pkey, g) => kp ← read_keypair pkey (scalar_len curve); Some (kp, g)
  end.

Definition ecdsa_sign (private_key message : bytes) (g : rng) : option (option Signature * rng) :=
  k ← evp_pkey_from_private private_key NistP256;
  match k with
  | None => Some (None, g)
  | Some pkey =>
      m ← vec.read message 0 (length message);
      match EVP_DigestSign_size EVP_sha256 pkey with
      | None => Some (None, g)
      | Some sig_len =>
          let '(res, g) := EVP_DigestSign EVP_sha256 pkey m g in
          der ← vec.out sig_len res;
          match der with
          | None => Some (None, g)
          | Some der_sig =>
              sig ← extract_rs_from_der der_sig (length der_sig) kP256ScalarLen; Some (sig, g)
          end
      end
  end.

Definition ecdsa_sign_digest (private_key digest : bytes) (curve : Curve) (g : rng)
    : option (option Signature * rng) :=
  if negb (length digest =? hash_len curve) then Some (None, g) else
  k ← evp_pkey_from_private private_key curve;
  match k with
  | None => Some (None, g)
  | Some pkey =>
      d ← vec.read digest 0 (length digest);
      match EVP_PKEY_sign_size pkey with
      | None => Some (None, g)
      | Some sig_len =>
          let '(res, g) := EVP_PKEY_sign pkey d g in
          der ← vec.out sig_len res;
          match der with
          | None => Some (None, g)
          | Some der_sig =>
              sig ← extract_rs_from_der der_sig (length der_sig) (scalar_len curve); Some (sig, g)
          end
      end
  end.

Definition der_of (sig : Signature) : option bytes :=
  build_der_from_rs (data_ (sig_r sig)) (len_ (sig_r sig)) (data_ (sig_s sig)) (len_ (sig_s sig)).

Definition ecdsa_verify (public_key message : bytes) (sig : Signature) : option bool :=
  k ← evp_pkey_from_public public_key NistP256;
  match k with
  | None => Some false
  | Some pkey =>
      der ← der_of sig;
      m ← vec.read message 0 (length message);
      d ← vec.read der 0 (length der);
      Some (EVP_DigestVerify EVP_sha256 pkey d m)
  end.

Definition ecdsa_verify_digest (public_key digest : bytes) (sig : Signature) (curve : Curve)
    : option bool :=
  if negb (length digest =? hash_len curve) then Some false else
  k ← evp_pkey_from_public public_key curve;
  match k with
  | None => Some false
  | Some pkey =>
      der ← der_of sig;
      d ← vec.read der 0 (length der);
      h ← vec.read digest 0 (length digest);
      Some (EVP_PKEY_verify pkey d h)
  end.

Definition ecdh_derive (private_key peer_public_key : bytes) (curve : Curve)
    : option (option bytes) :=
  priv_pkey ← evp_pkey_from_private private_key curve;
  pub_pkey ← evp_pkey_from_public peer_public_key curve;
  match priv_pkey, pub_pkey with
  | Some priv_pkey, Some pub_pkey =>
      match EVP_PKEY_derive_size priv_pkey pub_pkey with
      | None => Some None
      | Some secret_len => vec.out secret_len (EVP_PKEY_derive priv_pkey pub_pkey)
      end
  | _, _ => Some None
  end.

(** [EVP_Digest] fills the vector; [len] stays 0 when it fails. *)
Definition hash_into (md : EVP_MD) (digest_len : nat) (data : bytes) : option bytes :=
  d ← vec.read data 0 (length data);
  let res := EVP_Digest md d in
  digest ← vec.fill (zeros digest_len) res;
  Some (vec.resize digest (match res with None => 0 | Some h => length h end)).

Definition hash_sha256 (data : bytes) : option bytes := hash_into EVP_sha256 kSha256Len data.
Definition hash_sha384 (data : bytes) : option bytes := hash_into EVP_sha384 kSha384Len data.

Definition hash_for_curve (data : bytes) (curve : Curve) : option bytes :=
  match curve with
  | NistP256 | BrainpoolP256r1 => hash_sha256 data
  | NistP384 | BrainpoolP384r1 => hash_sha384 data
  end.

(** [extract_keypair] of src/plaintext_file_key_store.cpp, which takes the length of
    the scalar from the size of the key. *)
Definition extract_keypair (pkey : EVP_PKEY) : option (option KeyPair) :=
  match EVP_PKEY_get_priv pkey with
  | None => Some None
  | Some _ =>
      let slen := if (256 <? EVP_PKEY_get_bits pkey)%Z then kP384ScalarLen else kP256ScalarLen in
      read_keypair pkey slen
  end.

(** ** Lemmas *)

Lemma scalar_bound curve : scalar_len curve <= kP384ScalarLen.
Proof. destruct curve; vm_compute; lia. Qed.

Lemma point2oct_ok group point plen :
  0 < plen ->
  exists n buf, point2oct group point (zeros plen) plen = Some (n, buf) /\
    (if negb (n =? plen) then None else Some buf) =
    (if length (EC_POINT_point2oct group point) =? plen then Some (EC_POINT_point2oct group point)
     else None).
Proof.
  intros Hp. unfold point2oct. set (enc := EC_POINT_point2oct group point).
  destruct (Nat.leb_spec (length enc) plen) as [H|H].
  - rewrite vec.write_prefix by (by rewrite length_zeros). simpl. do 2 eexists. split; [done|].
    destruct (Nat.eqb_spec (length enc) plen) as [E|E]; [|done]. simpl.
    rewrite drop_ge by (rewrite length_zeros; lia). by rewrite app_nil_r.
  - do 2 eexists. split; [done|]. rewrite (proj2 (Nat.eqb_neq (length enc) plen)) by lia.
    by rewrite (proj2 (Nat.eqb_neq 0 plen)) by lia.
Qed.

Lemma pubkey_pos curve : 0 < pubkey_len curve.
Proof. destruct curve; vm_compute; lia. Qed.

Lemma derive_public_in_bounds priv curve :
  derive_public priv curve = Some (crypto.derive_public priv curve).
Proof.
  unfold derive_public, crypto.derive_public.
  destruct (Nat.eqb_spec (length priv) (scalar_len curve)) as [Hl|]; [|done]. simpl.
  destruct (EC_GROUP_new_by_curve_name _) as [group|]; [|done].
  rewrite vec.read_int_all by (pose proof (scalar_bound curve); unfold kP384ScalarLen in *; lia). simpl.
  destruct (BN_bin2bn priv) as [bn|]; [|done]. destruct (EC_POINT_mul group bn) as [pt|]; [|done].
  destruct (point2oct_ok group pt (pubkey_len curve) (pubkey_pos curve)) as (n & buf & -> & E). simpl.
  destruct (negb (n =? _)), (length (EC_POINT_point2oct group pt) =? _); by simplify_eq.
Qed.

Lemma from_private_in_bounds priv curve :
  evp_pkey_from_private priv curve = Some (crypto.evp_pkey_from_private priv curve).
Proof.
  unfold evp_pkey_from_private, crypto.evp_pkey_from_private. rewrite derive_public_in_bounds. simpl.
  destruct (crypto.derive_public priv curve) as [[bn pub]|]; [|done]. by rewrite vec.read_all.
Qed.

(** The head of the vector, behind a test of its size. *)
Lemma starts_with_ok pub n ok :
  0 < n -> starts_with pub n ok = Some ((length pub =? n) && ok (nth 0 pub x00)).
Proof.
  intros Hn. unfold starts_with. destruct (Nat.eqb_spec (length pub) n) as [E|]; [|done].
  destruct pub; simpl in *; [lia|done].
Qed.

Lemma decompress_in_bounds pub curve :
  decompress pub curve = Some
    (match EC_GROUP_new_by_curve_name (curve_nid curve) with
     | None => None
     | Some group =>
         match EC_POINT_oct2point group pub with
         | None => None
         | Some point =>
             let buf := EC_POINT_point2oct group point in
             if length buf =? pubkey_len curve then Some buf else None
         end
     end).
Proof.
  unfold decompress. destruct (EC_GROUP_new_by_curve_name _) as [group|]; [|done].
  rewrite vec.read_all. simpl. destruct (EC_POINT_oct2point group pub) as [pt|]; [|done].
  destruct (point2oct_ok group pt (pubkey_len curve) (pubkey_pos curve)) as (n & buf & -> & E). simpl.
  by rewrite E.
Qed.

Lemma from_public_in_bounds pub curve :
  evp_pkey_from_public pub curve = Some (crypto.evp_pkey_from_public pub curve).
Proof.
  unfold evp_pkey_from_public, crypto.evp_pkey_from_public.
  rewrite !starts_with_ok by (destruct curve; vm_compute; lia). simpl.
  destruct (negb _ && negb _); [done|]. rewrite decompress_in_bounds.
  destruct (_ && (_ || _)); simpl.
  - destruct (EC_GROUP_new_by_curve_name _) as [group|]; [|done].
    destruct (EC_POINT_oct2point group pub) as [pt|]; [|done].
    destruct (_ =? _); [|done]. by rewrite vec.read_all.
  - by rewrite vec.read_all.
Qed.

Context {ossl_ok : OpenSSLOk} {sz_ok : SslSizesOk}.

(** A number in the first [slen] bytes of a larger array. *)
Lemma fill_array bn slen N :
  slen <= N ->
  vec.fill (zeros N) (BN_bn2binpad bn slen) =
  Some (default (zeros slen) (BN_bn2binpad bn slen) ++ zeros (N - slen)).
Proof.
  intros H. destruct (BN_bn2binpad bn slen) as [b|] eqn:E; simpl.
  - apply binpad_len in E. rewrite vec.write_prefix by (rewrite length_zeros; lia).
    unfold zeros. by rewrite drop_replicate, E.
  - unfold zeros. rewrite <- replicate_add. do 2 f_equal. lia.
Qed.

Lemma binpad_fill bn slen :
  vec.fill (zeros slen) (BN_bn2binpad bn slen) = Some (default (zeros slen) (BN_bn2binpad bn slen)).
Proof. apply vec.fill_zeros. intros b. apply binpad_len. Qed.

Lemma length_padded bn slen : length (default (zeros slen) (BN_bn2binpad bn slen)) = slen.
Proof. destruct (BN_bn2binpad bn slen) eqn:E; simpl; [by apply binpad_len in E|apply length_zeros]. Qed.

Lemma extract_rs_in_bounds der slen :
  slen <= kP384ScalarLen ->
  extract_rs_from_der der (length der) slen = Some (crypto.extract_rs_from_der der slen).
Proof.
  intros H. unfold extract_rs_from_der, crypto.extract_rs_from_der. rewrite vec.read_all. simpl.
  destruct (d2i_ECDSA_SIG der) as [[r s]|]; [|done]. rewrite !fill_array by done. simpl.
  rewrite !bsb.from_ptr_ok by (rewrite length_app, length_padded, length_zeros; lia). simpl.
  done.
Qed.

(** The bytes behind the pointer and the length of a well-formed StaticBytes. *)
Lemma read_static {N} (b : StaticBytes N) :
  sb.wf b -> (Z.of_nat N < 2 ^ 31)%Z ->
  vec.read_int (data_ b) 0 (vec.int_of_size (len_ b)) = Some (sb.to_vector b).
Proof. intros [Hd Hl] HN. apply vec.read_int_prefix; lia. Qed.

Lemma der_of_in_bounds sig :
  sb.wf (sig_r sig) -> sb.wf (sig_s sig) ->
  der_of sig = Some (crypto.build_der_from_rs (sb.to_vector (sig_r sig)) (sb.to_vector (sig_s sig))).
Proof.
  intros Hr Hs. unfold der_of, build_der_from_rs, crypto.build_der_from_rs.
  rewrite !read_static by (done || (vm_compute; done)). simpl.
  destruct (BN_bin2bn _) as [r|]; [|done]. destruct (BN_bin2bn _) as [s|]; [|done].
  pose proof (i2d_size_ok (r, s)) as H. destruct (i2d_ECDSA_SIG_size (r, s)) as [n|].
  - destruct H as (der & E & Hl). rewrite E. simpl. apply vec.write_all. by rewrite length_zeros.
  - by rewrite H.
Qed.

Lemma read_keypair_in_bounds pkey slen :
  read_keypair pkey slen = Some
    (match EVP_PKEY_get_priv pkey with
     | None => None
     | Some bn =>
         match EVP_PKEY_get_pub pkey with
         | None => None
         | Some pub =>
             match sb.from kP384PublicKeyLen pub,
                   sb.from kP384ScalarLen (default (zeros slen) (BN_bn2binpad bn slen)) with
             | Some pub_sb, Some priv_sb => Some (MkKeyPair pub_sb priv_sb)
             | _, _ => None
             end
         end
     end).
Proof.
  unfold read_keypair. destruct (EVP_PKEY_get_priv pkey) as [bn|]; [|done].
  rewrite binpad_fill. simpl. pose proof (get_pub_size_ok pkey) as H.
  destruct (EVP_PKEY_get_pub_size pkey) as [n|]; [|by rewrite H]. rewrite vec.out_ok by done. simpl.
  destruct (EVP_PKEY_get_pub pkey) as [pub|]; [|done]. by rewrite !bsb.from_ok.
Qed.

Lemma generate_in_bounds curve g :
  generate_keypair curve g = Some (crypto.generate_keypair_curve curve g).
Proof.
  unfold generate_keypair, crypto.generate_keypair_curve.
  destruct (EVP_PKEY_generate _ g) as [[pkey|] g']; [|done]. by rewrite read_keypair_in_bounds.
Qed.

Lemma extract_keypair_in_bounds pkey : extract_keypair pkey = Some (pfks.extract_keypair pkey).
Proof.
  unfold extract_keypair, pfks.extract_keypair. rewrite read_keypair_in_bounds.
  by destruct (EVP_PKEY_get_priv pkey).
Qed.

Lemma sign_in_bounds priv m g : ecdsa_sign priv m g = Some (crypto.ecdsa_sign priv m g).
Proof.
  unfold ecdsa_sign, crypto.ecdsa_sign. rewrite from_private_in_bounds. simpl.
  destruct (crypto.evp_pkey_from_private priv NistP256) as [k|]; [|done]. rewrite vec.read_all. simpl.
  pose proof (digest_sign_size_ok EVP_sha256 k m g) as H.
  destruct (EVP_DigestSign_size EVP_sha256 k) as [n|]; [|by rewrite H].
  destruct (EVP_DigestSign EVP_sha256 k m g) as [res g'].
  rewrite vec.out_ok by (intros b ->; by eapply H). simpl. destruct res as [der|]; [|done].
  by rewrite extract_rs_in_bounds by (vm_compute; lia).
Qed.

Lemma sign_digest_in_bounds priv d curve g :
  ecdsa_sign_digest priv d curve g = Some (crypto.ecdsa_sign_digest_curve priv d curve g).
Proof.
  unfold ecdsa_sign_digest, crypto.ecdsa_sign_digest_curve. destruct (negb _); [done|].
  rewrite from_private_in_bounds. simpl.
  destruct (crypto.evp_pkey_from_private priv curve) as [k|]; [|done]. rewrite vec.read_all. simpl.
  pose proof (sign_size_ok k d g) as H. destruct (EVP_PKEY_sign_size k) as [n|]; [|by rewrite H].
  destruct (EVP_PKEY_sign k d g) as [res g']. rewrite vec.out_ok by (intros b ->; by eapply H). simpl.
  destruct res as [der|]; [|done]. by rewrite extract_rs_in_bounds by apply scalar_bound.
Qed.

Lemma verify_in_bounds pub m sig :
  sb.wf (sig_r sig) -> sb.wf (sig_s sig) -> ecdsa_verify pub m sig = Some (crypto.ecdsa_verify pub m sig).
Proof.
  intros Hr Hs. unfold ecdsa_verify, crypto.ecdsa_verify. rewrite from_public_in_bounds. simpl.
  destruct (crypto.evp_pkey_from_public pub NistP256); [|done].
  rewrite der_of_in_bounds by done. simpl. by rewrite !vec.read_all.
Qed.

Lemma verify_digest_in_bounds pub d sig curve :
  sb.wf (sig_r sig) -> sb.wf (sig_s sig) ->
  ecdsa_verify_digest pub d sig curve = Some (crypto.ecdsa_verify_digest_curve pub d sig curve).
Proof.
  intros Hr Hs. unfold ecdsa_verify_digest, crypto.ecdsa_verify_digest_curve.
  destruct (negb _); [done|]. rewrite from_public_in_bounds. simpl.
  destruct (crypto.evp_pkey_from_public pub curve); [|done].
  rewrite der_of_in_bounds by done. simpl. by rewrite !vec.read_all.
Qed.

Lemma derive_in_bounds priv peer curve :
  ecdh_derive priv peer curve = Some (crypto.ecdh_derive_curve priv peer curve).
Proof.
  unfold ecdh_derive, crypto.ecdh_derive_curve. rewrite from_private_in_bounds, from_public_in_bounds.
  simpl. destruct (crypto.evp_pkey_from_private priv curve) as [k|]; [|done].
  destruct (crypto.evp_pkey_from_public peer curve) as [p|]; [|done].
  pose proof (derive_size_ok k p) as H. destruct (EVP_PKEY_derive_size k p); [|by rewrite H].
  by rewrite vec.out_ok.
Qed.

Lemma hash_into_ok md n d :
  (forall h, EVP_Digest md d = Some h -> length h = n) ->
  hash_into md n d = Some (default [] (EVP_Digest md d)).
Proof.
  intros H. unfold hash_into. rewrite vec.read_all. simpl. rewrite vec.fill_zeros by done. simpl.
  destruct (EVP_Digest md d) as [h|] eqn:E; simpl; [|done]. f_equal.
  pose proof (vec.resize_prefix h []) as R. by rewrite app_nil_r in R.
Qed.

Lemma sha256_in_bounds d : hash_sha256 d = Some (crypto.hash_sha256 d).
Proof. apply hash_into_ok. intros h Hh. by apply digest_len in Hh. Qed.

Lemma hash_in_bounds d curve : hash_for_curve d curve = Some (crypto.hash_for_curve d curve).
Proof. destruct curve; apply hash_into_ok; intros h Hh; by apply digest_len in Hh. Qed.

End bcrypto.
End bcrypto.
