(* ===== verification/BufEcies.v ===== *)
(** The buffers of src/ecies.cpp: KDF2, the calls of AES-128-CCM, ECIES. *)
From S2P Require Import Prelude Sizes StaticBytes OpenSSL CryptoEc Ecies Buffers BufCrypto.

(** ** The calls of AES-128-CCM

    A cipher context goes through them; a call that fails leaves the context in some
    state, in which decryption still uses it once. *)
Class SslCcm := {
  cipher_ctx : Type;
  EVP_CIPHER_CTX_new : option cipher_ctx;
  (** [EVP_EncryptInit_ex] ([true]) or [EVP_DecryptInit_ex] with EVP_aes_128_ccm *)
  EVP_Init_type : bool -> cipher_ctx -> bool * cipher_ctx;
  CCM_SET_IVLEN : Z -> cipher_ctx -> bool * cipher_ctx;
  (** with a null pointer for encryption *)
  CCM_SET_TAG : Z -> option bytes -> cipher_ctx -> bool * cipher_ctx;
  (** the same function with the key and the nonce *)
  EVP_Init_key : bytes -> bytes -> cipher_ctx -> bool * cipher_ctx;
  (** [EVP_EncryptUpdate] or [EVP_DecryptUpdate] with null buffers and a total length,
      then with the data *)
  EVP_Update_len : Z -> cipher_ctx -> bool * cipher_ctx;
  EVP_Update : bytes -> cipher_ctx -> option bytes * cipher_ctx;
  EVP_EncryptFinal_ex : cipher_ctx -> option bytes * cipher_ctx;
  CCM_GET_TAG : nat -> cipher_ctx -> option bytes * cipher_ctx;
}.

Section calls.
Context {ccm : SslCcm}.

(** [ok = ok && call(ctx);] *)
Definition and_call (s : bool * cipher_ctx) (f : cipher_ctx -> bool * cipher_ctx)
    : bool * cipher_ctx :=
  if s.1 then f s.2 else s.

(** The calls up to the data. *)
Definition ccm_setup (enc : bool) (tag_len : Z) (tag : option bytes) (key nonce : bytes)
    (ivlen total : Z) (ctx : cipher_ctx) : bool * cipher_ctx :=
  let s := (true, ctx) in
  let s := and_call s (EVP_Init_type enc) in
  let s := and_call s (CCM_SET_IVLEN ivlen) in
  let s := and_call s (CCM_SET_TAG tag_len tag) in
  let s := and_call s (EVP_Init_key key nonce) in
  and_call s (EVP_Update_len total).

(** What the calls amount to, without their buffers. *)
Definition ccm_seal (key nonce plaintext : bytes) : option (bytes * bytes) :=
  ctx ← EVP_CIPHER_CTX_new;
  let '(ok, ctx) := ccm_setup true 16 None key nonce (vec.int_of_size (length nonce))
                      (vec.int_of_size (length plaintext)) ctx in
  if negb ok then None else
  let '(c, ctx) := EVP_Update plaintext ctx in
  match c with
  | None => None
  | Some c =>
      let '(f, ctx) := EVP_EncryptFinal_ex ctx in
      match f with
      | None => None
      | Some _ => t ← (CCM_GET_TAG 16 ctx).1; Some (c, t)
      end
  end.

Definition ccm_open (key nonce ciphertext tag : bytes) : option bytes :=
  ctx ← EVP_CIPHER_CTX_new;
  let '(ok, ctx) := ccm_setup false (vec.int_of_size (length tag)) (Some tag) key nonce
                      (vec.int_of_size (length nonce)) (vec.int_of_size (length ciphertext)) ctx in
  p ← (EVP_Update ciphertext ctx).1;
  if (ok : bool) then Some p else None.

End calls.

(** CCM produces as many bytes as it is given and nothing at the end, in any state of
    the context; the operations of the functional models are these calls. *)
Class SslCcmOk {ossl : OpenSSL} {ccm : SslCcm} := {
  update_len d ctx out ctx' : EVP_Update d ctx = (Some out, ctx') -> length out = length d;
  final_len ctx out ctx' : EVP_EncryptFinal_ex ctx = (Some out, ctx') -> out = [];
  get_tag_len n ctx t ctx' : CCM_GET_TAG n ctx = (Some t, ctx') -> length t = n;
  seal_calls k n p : aes_128_ccm_seal k n p = ccm_seal k n p;
  open_calls k n c t : aes_128_ccm_open k n c t = ccm_open k n c t;
}.

Module becies.
Section becies.
Context {ossl : OpenSSL} {sz : SslSizes} {ccm : SslCcm}.

(** ** KDF2

    [junk] is what the array [hash] holds before [EVP_DigestFinal_ex] writes to it. *)
Variable junk : bytes.

Definition kdf2_block (shared_secret p1 : bytes) (counter : Z) : option (bytes * nat) :=
  ss ← vec.read shared_secret 0 (length shared_secret);
  ctr ← vec.read (ecies.ctr_bytes counter) 0 4;
  p1 ← (if negb (empty p1) then vec.read p1 0 (length p1) else Some []);
  let res := EVP_Digest EVP_sha256 (ss ++ ctr ++ p1) in
  hash ← vec.fill (vec.resize junk kSha256Len) res;
  Some (hash, match res with None => 0 | Some h => length h end).

(** The inner [None] is a loop that does not end, as in the functional model. *)
Fixpoint kdf2_loop (fuel : nat) (shared_secret p1 : bytes) (out_len : nat) (result : bytes)
    (counter : Z) : option (option bytes) :=
  if length result <? out_len then
    match fuel with
    | O => Some None
    | S fuel =>
        r ← kdf2_block shared_secret p1 counter;
        let '(hash, hash_len) := r in
        let to_copy := Nat.min hash_len (out_len - length result) in
        h ← vec.range hash 0 to_copy;
        kdf2_loop fuel shared_secret p1 out_len (result ++ h) (u32 (counter + 1))
    end
  else Some (Some result).

Definition kdf2_sha256 (shared_secret p1 : bytes) (out_len : nat) : option (option bytes) :=
  kdf2_loop out_len shared_secret p1 out_len [] 1.

(** ** AES-128-CCM

    The key is read for 16 bytes and the nonce for the length that was set. *)
Definition aes_128_ccm_encrypt (key nonce plaintext : bytes) : option (option AesCcmResult) :=
  if negb (length key =? kAesKeyLen) || negb (length nonce =? kAesCcmNonceLen)
  then Some None else
  let ciphertext := zeros (length plaintext) in
  let tag := zeros 16 in
  match EVP_CIPHER_CTX_new with
  | None => Some None
  | Some ctx =>
      k ← vec.read key 0 kAesKeyLen;
      n ← vec.read_int nonce 0 (vec.int_of_size (length nonce));
      let '(ok, ctx) := ccm_setup true 16 None k n (vec.int_of_size (length nonce))
                          (vec.int_of_size (length plaintext)) ctx in
      if negb ok then Some None else
      d ← vec.read_int plaintext 0 (vec.int_of_size (length plaintext));
      let '(c, ctx) := EVP_Update d ctx in
      match c with
      | None => Some None
      | Some c =>
          ciphertext ← vec.write ciphertext 0 c;
          let '(f, ctx) := EVP_EncryptFinal_ex ctx in
          match f with
          | None => Some None
          | Some f =>
              ciphertext ← vec.write ciphertext (length c) f;
              match (CCM_GET_TAG 16 ctx).1 with
              | None => Some None
              | Some t => tag ← vec.write tag 0 t; Some (Some (MkAesCcmResult ciphertext tag))
              end
          end
      end
  end.

(** [EVP_DecryptUpdate] is called whether or not the calls before have succeeded. *)
Definition aes_128_ccm_decrypt (key nonce ciphertext tag : bytes) : option (option bytes) :=
  if negb (length key =? kAesKeyLen) || negb (length nonce =? kAesCcmNonceLen)
     || negb (length tag =? kAesCcmTagLen) then Some None else
  let plaintext := zeros (length ciphertext) in
  match EVP_CIPHER_CTX_new with
  | None => Some None
  | Some ctx =>
      k ← vec.read key 0 kAesKeyLen;
      n ← vec.read_int nonce 0 (vec.int_of_size (length nonce));
      t ← vec.read_int tag 0 (vec.int_of_size (length tag));
      let '(ok, ctx) := ccm_setup false (vec.int_of_size (length tag)) (Some t) k n
                          (vec.int_of_size (length nonce)) (vec.int_of_size (length ciphertext)) ctx in
      d ← vec.read_int ciphertext 0 (vec.int_of_size (length ciphertext));
      match (EVP_Update d ctx).1 with
      | None => Some None
      | Some p =>
          plaintext ← vec.write plaintext 0 p;
          Some (if negb ok then None else Some (vec.resize plaintext (length p)))
      end
  end.

(** ** ECIES *)

(** [k1] and [k2]: the two parts of the derived key. *)
Definition split_key (kdf_out : bytes) : option (bytes * bytes) :=
  k1 ← vec.range kdf_out 0 kAesKeyLen;
  k2 ← vec.range kdf_out kAesKeyLen (length kdf_out);
  Some (k1, k2).

(** [HMAC(EVP_sha256(), k2.data(), k2.size(), d.data(), d.size(), hmac_full.data(), &len)] *)
Definition hmac_full (k2 d : bytes) : option bytes :=
  k ← vec.read_int k2 0 (vec.int_of_size (length k2));
  d ← vec.read d 0 (length d);
  vec.fill (zeros kSha256Len) (HMAC_sha256 k d).

Definition rand_vector (n : nat) (g : rng) : option (bytes * rng) :=
  let '(r, g) := RAND_bytes n g in
  v ← vec.fill (zeros n) r; Some (v, g).

Definition ecies_encrypt (recipient_public_key plaintext p1 : bytes) (curve : Curve) (g : rng)
    : option (option EciesEncryptResult * rng) :=
  e ← bcrypto.generate_keypair curve g;
  match e with
  | (None, g) => Some (None, g)
  | (Some eph, g) =>
      priv ← bsb.to_vector (kp_private_key eph);
      ss ← bcrypto.ecdh_derive priv recipient_public_key curve;
      match ss with
      | None => Some (None, g)
      | Some ss =>
          kdf ← kdf2_sha256 ss p1 (kAesKeyLen + kP256ScalarLen);
          match kdf with
          | None => Some (None, g)
          | Some kdf_out =>
              k ← split_key kdf_out;
              let '(k1, k2) := k in
              ra ← rand_vector kAesKeyLen g;
              let '(k_aes, g) := ra in
              c_encrypted ← vec.xor_loop kAesKeyLen 0 (zeros kAesKeyLen) k1 k_aes;
              h ← hmac_full k2 c_encrypted;
              tag_kdf ← vec.range h 0 kAesKeyLen;
              rn ← rand_vector kAesCcmNonceLen g;
              let '(nonce, g) := rn in
              c ← aes_128_ccm_encrypt k_aes nonce plaintext;
              match c with
              | None => Some (None, g)
              | Some ccm =>
                  pub ← bsb.to_vector (kp_public_key eph);
                  Some (Some (MkEciesEncryptResult pub c_encrypted tag_kdf nonce
                                (ccm_ciphertext ccm) (ccm_tag ccm) k_aes), g)
              end
          end
      end
  end.

(** [tag.size() != 16 || memcmp(hmac, tag, 16) != 0] *)
Definition tag_differs (h tag : bytes) : option bool :=
  if negb (length tag =? kAesKeyLen) then Some true else
  a ← vec.read h 0 kAesKeyLen;
  b ← vec.read tag 0 kAesKeyLen;
  Some (negb (bytes_eqb a b)).

Definition ecies_decrypt (recipient_private_key : bytes) (enc : EciesEncryptResult) (p1 : bytes)
    (curve : Curve) : option (option bytes) :=
  ss ← bcrypto.ecdh_derive recipient_private_key (ephemeral_pubkey enc) curve;
  match ss with
  | None => Some None
  | Some ss =>
      kdf ← kdf2_sha256 ss p1 (kAesKeyLen + kP256ScalarLen);
      match kdf with
      | None => Some None
      | Some kdf_out =>
          k ← split_key kdf_out;
          let '(k1, k2) := k in
          h ← hmac_full k2 (encrypted_key enc);
          differs ← tag_differs h (tag_kdf enc);
          if (differs : bool) then Some None else
          if negb (length (encrypted_key enc) =? kAesKeyLen) then Some None else
          k_aes ← vec.xor_loop kAesKeyLen 0 (zeros kAesKeyLen) k1 (encrypted_key enc);
          aes_128_ccm_decrypt k_aes (nonce_ccm enc) (ecies_ciphertext enc) (tag_ccm enc)
      end
  end.

(** ** Lemmas *)

Context {ossl_ok : OpenSSLOk} {sz_ok : SslSizesOk} {ccm_ok : SslCcmOk}.

(** The array holds the digest, or anything when there is none. *)
Lemma kdf2_block_in_bounds ss p1 c :
  exists hash n, kdf2_block ss p1 c = Some (hash, n) /\ n = length (ecies.kdf2_block ss p1 c) /\
    n <= length hash /\ take n hash = ecies.kdf2_block ss p1 c.
Proof.
  assert (E : (if negb (empty p1) then vec.read p1 0 (length p1) else Some []) = Some p1).
  { destruct p1; [done|]. apply vec.read_all. }
  assert (Hc : vec.read (ecies.ctr_bytes c) 0 4 = Some (ecies.ctr_bytes c)) by done.
  unfold kdf2_block, ecies.kdf2_block. rewrite E, Hc, vec.read_all.
  generalize (ecies.ctr_bytes c). intros ctr. simpl. clear E Hc.
  destruct (EVP_Digest EVP_sha256 _) as [h|] eqn:Eh; simpl.
  - apply digest_len in Eh. rewrite vec.write_prefix.
    + do 2 eexists. split; [done|]. rewrite length_app, take_app_length. split_and!; [done|lia|done].
    + unfold vec.resize. autorewrite with v2x_len. lia.
  - do 2 eexists. split; [done|]. split_and!; [done|lia|done].
Qed.

Lemma kdf2_loop_in_bounds fuel ss p1 n r c :
  kdf2_loop fuel ss p1 n r c = Some (ecies.kdf2_loop fuel ss p1 n r c).
Proof.
  revert r c. induction fuel as [|fuel IH]; intros r c; simpl; destruct (length r <? n); try done.
  destruct (kdf2_block_in_bounds ss p1 c) as (hash & k & -> & -> & Hl & Ht). simpl.
  set (b := ecies.kdf2_block ss p1 c) in *. set (m := Nat.min (length b) (n - length r)).
  rewrite vec.range_prefix by lia. simpl. rewrite IH.
  replace (take m b) with (take m hash); [done|].
  transitivity (take m (take (length b) hash)); [|by rewrite Ht]. rewrite take_take. f_equal. lia.
Qed.

Lemma kdf2_in_bounds ss p1 n : kdf2_sha256 ss p1 n = Some (ecies.kdf2_sha256 ss p1 n).
Proof. apply kdf2_loop_in_bounds. Qed.

Lemma aes_encrypt_in_bounds key nonce pt :
  (Z.of_nat (length pt) < 2 ^ 31)%Z ->
  aes_128_ccm_encrypt key nonce pt = Some (ecies.aes_128_ccm_encrypt key nonce pt).
Proof.
  intros Hp. unfold aes_128_ccm_encrypt, ecies.aes_128_ccm_encrypt. rewrite seal_calls. unfold ccm_seal.
  destruct (Nat.eqb_spec (length key) kAesKeyLen) as [Hk|]; [|done].
  destruct (Nat.eqb_spec (length nonce) kAesCcmNonceLen) as [Hn|]; [|done]. simpl.
  destruct EVP_CIPHER_CTX_new as [ctx|]; [|done]. rewrite <- Hk, vec.read_all.
  rewrite (vec.read_int_all nonce) by (rewrite Hn; vm_compute; done). simpl.
  destruct (ccm_setup _ _ _ _ _ _ _ ctx) as [[] ctx1]; [|done]. simpl.
  rewrite vec.read_int_all by done. simpl.
  destruct (EVP_Update pt ctx1) as [[c|] ctx2] eqn:Eu; [|done]. apply update_len in Eu.
  rewrite vec.write_all by (by rewrite length_zeros). simpl.
  destruct (EVP_EncryptFinal_ex ctx2) as [[f|] ctx3] eqn:Ef; [|done]. apply final_len in Ef as ->.
  rewrite vec.write_nil by lia. simpl.
  destruct (CCM_GET_TAG 16 ctx3) as [[t|] ctx4] eqn:Et; [|done]. simpl. apply get_tag_len in Et.
  by rewrite vec.write_all by (by rewrite length_zeros).
Qed.

Lemma aes_decrypt_in_bounds key nonce ct tag :
  (Z.of_nat (length ct) < 2 ^ 31)%Z ->
  aes_128_ccm_decrypt key nonce ct tag = Some (ecies.aes_128_ccm_decrypt key nonce ct tag).
Proof.
  intros Hc. unfold aes_128_ccm_decrypt, ecies.aes_128_ccm_decrypt. rewrite open_calls. unfold ccm_open.
  destruct (Nat.eqb_spec (length key) kAesKeyLen) as [Hk|]; [|done].
  destruct (Nat.eqb_spec (length nonce) kAesCcmNonceLen) as [Hn|]; [|done].
  destruct (Nat.eqb_spec (length tag) kAesCcmTagLen) as [Ht|]; [|done]. simpl.
  destruct EVP_CIPHER_CTX_new as [ctx|]; [|done]. rewrite <- Hk, vec.read_all.
  rewrite (vec.read_int_all nonce) by (rewrite Hn; vm_compute; done).
  rewrite (vec.read_int_all tag) by (rewrite Ht; vm_compute; done). simpl.
  destruct (ccm_setup _ _ _ _ _ _ _ ctx) as [ok ctx1]. rewrite vec.read_int_all by done. simpl.
  destruct (EVP_Update ct ctx1) as [[p|] ctx2] eqn:Eu; [|done]. apply update_len in Eu. simpl.
  rewrite vec.write_all by (by rewrite length_zeros). simpl.
  pose proof (vec.resize_prefix p []) as R. rewrite app_nil_r in R. rewrite R. by destruct ok.
Qed.

Lemma split_key_ok k : kAesKeyLen <= length k -> split_key k = Some (take kAesKeyLen k, drop kAesKeyLen k).
Proof. intros H. unfold split_key. by rewrite vec.range_prefix, vec.range_suffix. Qed.

Lemma hmac_full_ok k2 d :
  (Z.of_nat (length k2) < 2 ^ 31)%Z ->
  hmac_full k2 d = Some (default (zeros kSha256Len) (HMAC_sha256 k2 d)).
Proof.
  intros H. unfold hmac_full. rewrite vec.read_int_all, vec.read_all by done. simpl.
  apply vec.fill_zeros. intros b. apply hmac_len.
Qed.

Lemma length_hmac k2 d : length (default (zeros kSha256Len) (HMAC_sha256 k2 d)) = kSha256Len.
Proof. destruct (HMAC_sha256 k2 d) eqn:E; simpl; [by apply hmac_len in E|done]. Qed.

Lemma rand_vector_ok n g :
  rand_vector n g = Some (default (zeros n) (RAND_bytes n g).1, (RAND_bytes n g).2) /\
  length (default (zeros n) (RAND_bytes n g).1) = n.
Proof.
  unfold rand_vector. destruct (RAND_bytes n g) as [[b|] g'] eqn:E; simpl.
  - apply rand_len in E. rewrite vec.write_all by (by rewrite length_zeros). done.
  - split; [done|]. apply length_zeros.
Qed.

Lemma generated_wf curve g kp g' :
  crypto.generate_keypair_curve curve g = (Some kp, g') ->
  sb.wf (kp_private_key kp) /\ sb.wf (kp_public_key kp).
Proof.
  unfold crypto.generate_keypair_curve. intros H. repeat case_match; simplify_eq.
  split; by eapply sb.from_wf.
Qed.

Lemma encrypt_in_bounds pub pt p1 curve g :
  (Z.of_nat (length pt) < 2 ^ 31)%Z ->
  ecies_encrypt pub pt p1 curve g = Some (ecies.ecies_encrypt_curve pub pt p1 curve g).
Proof.
  intros Hp. unfold ecies_encrypt, ecies.ecies_encrypt_curve. rewrite bcrypto.generate_in_bounds. simpl.
  destruct (crypto.generate_keypair_curve curve g) as [[eph|] g1] eqn:Eg; [|done].
  destruct (generated_wf _ _ _ _ Eg) as [Hpriv Hpub].
  rewrite (bsb.to_vector_ok (kp_private_key eph)) by done. simpl.
  rewrite bcrypto.derive_in_bounds. simpl. destruct (crypto.ecdh_derive_curve _ _ _) as [ss|]; [|done].
  rewrite kdf2_in_bounds. simpl. destruct (ecies.kdf2_sha256 ss p1 _) as [k|] eqn:Ek; [|done].
  apply ecies.kdf2_length in Ek. rewrite split_key_ok by (rewrite Ek; vm_compute; lia). simpl.
  destruct (rand_vector_ok kAesKeyLen g1) as [Er Hr]. rewrite Er. simpl.
  destruct (RAND_bytes kAesKeyLen g1) as [ra g2]. simpl in *.
  rewrite vec.xor_loop_ok by (done || (rewrite length_take, Ek; vm_compute; done)). simpl.
  rewrite hmac_full_ok by (rewrite length_drop, Ek; vm_compute; done). simpl.
  rewrite vec.range_prefix by (rewrite length_hmac; vm_compute; lia). simpl.
  destruct (rand_vector_ok kAesCcmNonceLen g2) as [En Hn]. rewrite En. simpl.
  destruct (RAND_bytes kAesCcmNonceLen g2) as [rn g3]. simpl in *.
  rewrite aes_encrypt_in_bounds by done. simpl. destruct (ecies.aes_128_ccm_encrypt _ _ _) as [c|]; [|done].
  by rewrite bsb.to_vector_ok.
Qed.

Lemma decrypt_in_bounds priv enc p1 curve :
  (Z.of_nat (length (ecies_ciphertext enc)) < 2 ^ 31)%Z ->
  ecies_decrypt priv enc p1 curve = Some (ecies.ecies_decrypt_curve priv enc p1 curve).
Proof.
  intros Hc. unfold ecies_decrypt, ecies.ecies_decrypt_curve. rewrite bcrypto.derive_in_bounds. simpl.
  destruct (crypto.ecdh_derive_curve _ _ _) as [ss|]; [|done].
  rewrite kdf2_in_bounds. simpl. destruct (ecies.kdf2_sha256 ss p1 _) as [k|] eqn:Ek; [|done].
  apply ecies.kdf2_length in Ek. rewrite split_key_ok by (rewrite Ek; vm_compute; lia). simpl.
  rewrite hmac_full_ok by (rewrite length_drop, Ek; vm_compute; done). simpl. unfold tag_differs.
  destruct (Nat.eqb_spec (length (tag_kdf enc)) kAesKeyLen) as [Ht|]; [|done]. simpl.
  rewrite !vec.read_prefix by (rewrite ?length_hmac, ?Ht; vm_compute; lia). simpl.
  destruct (bytes_eqb _ _); [|done]. simpl.
  destruct (Nat.eqb_spec (length (encrypted_key enc)) kAesKeyLen) as [He|]; [|done]. simpl.
  rewrite vec.xor_loop_ok by (done || (rewrite length_take, Ek; vm_compute; done)). simpl.
  by apply aes_decrypt_in_bounds.
Qed.

End becies.
End becies.
