(* ===== verification/BufMessages.v ===== *)
(** Element accesses, ranges and copies in the message code: curve points and
    signatures, identifiers, prefixes, tags and hexadecimal text.  As in BufCrypto.v, a
    result of [None] is an access outside a buffer. *)
From S2P Require Import Prelude Hex Sizes StaticBytes Asn OpenSSL CryptoEc CurvePoint CertParse.
From S2P Require Import SignedMessage SignedEnvelope EncryptedData TrustChain Disk TrustList Request.
From S2P Require Import EcRequest AtRequest Tool CliIo KeyPem Flow Buffers BufCrypto.

(** ** Curve points: src/internal/curve_point.cpp *)

Module bpoint.

(** [octet::set(os, pubkey.data() + i, n)] *)
Definition octets (pubkey : bytes) (i n : nat) : option bytes := vec.read pubkey i n.

Definition y_odd (pubkey : bytes) (i : nat) : option bool :=
  b ← vec.get pubkey i; Some (negb (Z.land (byte.unsigned b) 1 =? 0)%Z).

Definition from_sec1 (pubkey : bytes) : option (option EccP256CurvePoint) :=
  if negb (length pubkey =? kP256PublicKeyLen) then Some None else
  odd ← y_odd pubkey 64;
  x ← octets pubkey 1 kP256ScalarLen;
  Some (Some (if (odd : bool) then P256_compressed_y_1 x else P256_compressed_y_0 x)).

Definition from_sec1_uncompressed (pubkey : bytes) : option (option EccP256CurvePoint) :=
  ok ← bcrypto.starts_with pubkey kP256PublicKeyLen (fun b => bool_decide (b = x04));
  if negb ok then Some None else
  x ← octets pubkey 1 kP256ScalarLen;
  y ← octets pubkey (1 + kP256ScalarLen) kP256ScalarLen;
  Some (Some (P256_uncompressedP256 x y)).

Definition from_sec1_384 (pubkey : bytes) : option (option EccP384CurvePoint) :=
  if negb (length pubkey =? kP384PublicKeyLen) then Some None else
  odd ← y_odd pubkey 96;
  x ← octets pubkey 1 kP384ScalarLen;
  Some (Some (if (odd : bool) then P384_compressed_y_1 x else P384_compressed_y_0 x)).

(** The key of a certificate under construction (src/trust_chain.cpp), behind the test
    of its size. *)
Definition tbs_point (public_key : bytes) : option (option EccP256CurvePoint) :=
  if negb (length public_key =? kP256PublicKeyLen) then Some None else
  x ← octets public_key 1 kP256ScalarLen;
  y ← octets public_key kP256CompressedLen kP256ScalarLen;
  Some (Some (P256_uncompressedP256 x y)).

(** [build_asn_signature] of src/internal/signed_envelope.cpp reads [slen] bytes of the
    two arrays. *)
Definition build_asn_signature (sig : Signature) (curve : Curve) : option Signature_t :=
  let slen := scalar_len curve in
  r ← bsb.data (sig_r sig) slen;
  s ← bsb.data (sig_s sig) slen;
  Some (if is_p256_size curve then
          let ecdsa := MkEcdsaP256Signature (Some (P256_x_only r)) s in
          if decide (curve = BrainpoolP256r1) then ecdsaBrainpoolP256r1Signature (Some ecdsa)
          else ecdsaNistP256Signature (Some ecdsa)
        else ecdsaBrainpoolP384r1Signature (Some (MkEcdsaP384Signature (Some (P384_x_only r)) s))).

(** ** Lemmas *)

Lemma y_odd_ok pubkey i :
  i < length pubkey ->
  y_odd pubkey i = Some (negb (Z.land (byte.unsigned (nth i pubkey x00)) 1 =? 0)%Z).
Proof.
  intros H. unfold y_odd, vec.get. destruct (lookup_lt_is_Some_2 pubkey i H) as [b Hb].
  rewrite Hb. simpl. by rewrite (nth_lookup_Some pubkey i x00 b Hb).
Qed.

Lemma octets_ok pubkey i n :
  i + n <= length pubkey -> octets pubkey i n = Some (octet.set (drop i pubkey) n).
Proof. apply vec.read_ok. Qed.

Lemma from_sec1_in_bounds k : from_sec1 k = Some (point.from_sec1 k).
Proof.
  unfold from_sec1, point.from_sec1.
  destruct (Nat.eqb_spec (length k) kP256PublicKeyLen) as [H|]; [|done].
  cbn [negb]. rewrite y_odd_ok, octets_ok by (rewrite H; vm_compute; lia). simpl. by destruct (negb _).
Qed.

Lemma from_sec1_384_in_bounds k : from_sec1_384 k = Some (point.from_sec1_384 k).
Proof.
  unfold from_sec1_384, point.from_sec1_384.
  destruct (Nat.eqb_spec (length k) kP384PublicKeyLen) as [H|]; [|done].
  cbn [negb]. rewrite y_odd_ok, octets_ok by (rewrite H; vm_compute; lia). simpl. by destruct (negb _).
Qed.

Lemma uncompressed_in_bounds k : from_sec1_uncompressed k = Some (point.from_sec1_uncompressed k).
Proof.
  unfold from_sec1_uncompressed, point.from_sec1_uncompressed.
  rewrite bcrypto.starts_with_ok by (vm_compute; lia). cbn [mbind option_bind].
  destruct (Nat.eqb_spec (length k) kP256PublicKeyLen) as [H|]; [|done]. cbn [andb negb orb].
  destruct (bool_decide _); [|done]. cbn [negb].
  by rewrite !octets_ok by (rewrite H; vm_compute; lia).
Qed.

(** The point in the structure that is built. *)
Definition point_of (tbs : ToBeSignedCertificate) : option EccP256CurvePoint :=
  match verifyKeyIndicator tbs with
  | Some (verificationKey (Some (ecdsaNistP256 p))) => p
  | _ => None
  end.

Lemma tbs_point_in_bounds name k ca start years :
  tbs_point k = Some (t ← cert_utils.build_tbs_struct name k ca start years; point_of t).
Proof.
  unfold tbs_point, cert_utils.build_tbs_struct.
  destruct (Nat.eqb_spec (length k) kP256PublicKeyLen) as [H|]; [|done]. cbn [negb].
  by rewrite !octets_ok by (rewrite H; vm_compute; lia).
Qed.

Lemma signature_in_bounds sig curve :
  sb.wf (sig_r sig) -> sb.wf (sig_s sig) ->
  build_asn_signature sig curve = Some (sign.build_asn_signature sig curve).
Proof.
  intros Hr Hs. unfold build_asn_signature. rewrite !bsb.data_ok by (done || apply bcrypto.scalar_bound).
  by destruct curve.
Qed.

End bpoint.

(** ** Identifiers, prefixes and tags *)

Module bbytes.

(** [v.end() - n, v.end()), and what comes before; [v.end() - n] must not lie before
    the vector. *)
Definition suffix (v : bytes) (n : nat) : option bytes :=
  if length v <? n then None else vec.range v (length v - n) (length v).
Definition before (v : bytes) (n : nat) : option bytes :=
  if length v <? n then None else vec.range v 0 (length v - n).

(** [truncate_hid8] of src/internal/cert_parse.cpp copies into an array of 8 bytes. *)
Definition truncate_hid8 (hash : bytes) : option hid8 :=
  let hid8 := zeros 8 in
  if length hash <? kHashedId8Len then Some hid8 else
  src ← suffix hash kHashedId8Len;
  vec.write hid8 0 src.

(** The ciphertext and the tag of src/internal/encrypted_data.cpp, and its prefix. *)
Definition split_tag (ct_with_tag : bytes) : option (option (bytes * bytes)) :=
  if length ct_with_tag <? kAesCcmTagLen then Some None else
  ciphertext ← before ct_with_tag kAesCcmTagLen;
  tag_ccm ← suffix ct_with_tag kAesCcmTagLen;
  Some (Some (ciphertext, tag_ccm)).

Definition strip_prefix (etsi_response_tag : byte) (inner_bytes : bytes) : option bytes :=
  if negb (2 <? length inner_bytes) then Some inner_bytes else
  b0 ← vec.get inner_bytes 0;
  if negb (bool_decide (b0 = x01)) then Some inner_bytes else
  b1 ← vec.get inner_bytes 1;
  if negb (bool_decide (b1 = etsi_response_tag)) then Some inner_bytes else
  vec.range inner_bytes 2 (length inner_bytes).

Section hashes.
Context {ossl : OpenSSL}.

(** src/internal/request_hash.hpp *)
Definition request_hash_matches (request_bytes : bytes) (response_hash : StaticBytes 16)
    : option bool :=
  if empty request_bytes || negb (sb.size response_hash =? 16) then Some false else
  digest ← bcrypto.hash_sha256 request_bytes;
  if length digest <? 16 then Some false else
  a ← vec.range (data_ response_hash) 0 (len_ response_hash);
  b ← vec.read digest 0 (len_ response_hash);
  Some (bytes_eqb a b).

(** [hid8_of] of tools/pki-provisioner/flow.cpp, which does not test the length. *)
Definition hid8_of (cert_bytes : bytes) : option hid8 :=
  hash ← bcrypto.hash_sha256 cert_bytes;
  src ← suffix hash kHashedId8Len;
  vec.write (zeros 8) 0 src.

(** The key tag of src/at_request.cpp; [hmac_out] is an array of 32 bytes that is not
    initialised. *)
Definition key_tag (hmac_out : bytes) (hmac_key : StaticBytes 32) (pvk_oer : bytes) : option bytes :=
  k ← vec.read_int (data_ hmac_key) 0 (vec.int_of_size (len_ hmac_key));
  d ← vec.read pvk_oer 0 (length pvk_oer);
  hmac_out ← vec.fill hmac_out (HMAC_sha256 k d);
  vec.range hmac_out 0 16.

(** [*StaticBytes<32>::from(kp.private_key.data(), 32)]: [*] of an empty optional would
    be undefined as well. *)
Definition hmac_key_from (p : bytes) : option (StaticBytes 32) :=
  r ← bsb.from_ptr 32 p 32; r.

End hashes.

(** ** Lemmas *)

Lemma suffix_ok v n : n <= length v -> suffix v n = Some (lastn n v).
Proof.
  intros H. unfold suffix, lastn. rewrite (proj2 (Nat.ltb_ge _ _)) by done.
  apply vec.range_suffix. lia.
Qed.

Lemma before_ok v n : n <= length v -> before v n = Some (droplast n v).
Proof.
  intros H. unfold before, droplast. rewrite (proj2 (Nat.ltb_ge _ _)) by done.
  apply vec.range_prefix. lia.
Qed.

Lemma truncate_in_bounds h : truncate_hid8 h = Some (cert.truncate_hid8 h).
Proof.
  unfold truncate_hid8, cert.truncate_hid8. destruct (Nat.ltb_spec (length h) kHashedId8Len) as [|H]; [done|].
  rewrite suffix_ok by done. cbn [mbind option_bind]. apply vec.write_all.
  rewrite length_lastn, length_zeros. unfold kHashedId8Len in *. lia.
Qed.

Lemma split_tag_in_bounds ct :
  split_tag ct = Some (if length ct <? kAesCcmTagLen then None
                       else Some (droplast kAesCcmTagLen ct, lastn kAesCcmTagLen ct)).
Proof.
  unfold split_tag. destruct (Nat.ltb_spec (length ct) kAesCcmTagLen); [done|].
  by rewrite before_ok, suffix_ok.
Qed.

Lemma strip_prefix_in_bounds tag b : strip_prefix tag b = Some (enc.strip_prefix tag b).
Proof.
  unfold strip_prefix, enc.strip_prefix. destruct b as [|b0 [|b1 rest]]; [done..|].
  destruct (Nat.ltb_spec 2 (length (b0 :: b1 :: rest))) as [H|H].
  - cbn [negb andb]. simpl vec.get. cbn [mbind option_bind].
    destruct (bool_decide (b0 = x01)); [|done]. cbn [negb andb].
    destruct (bool_decide (b1 = tag)); [|done]. cbn [negb].
    by rewrite vec.range_suffix by (simpl; lia).
  - cbn [negb]. by destruct (bool_decide _), (bool_decide _).
Qed.

Section facts.
Context {ossl : OpenSSL} {ossl_ok : OpenSSLOk}.

Lemma request_hash_in_bounds req h :
  sb.wf h -> request_hash_matches req h = Some (enc.request_hash_matches req h).
Proof.
  intros [Hd Hl]. unfold request_hash_matches, enc.request_hash_matches.
  destruct (empty req || _); [done|]. rewrite bcrypto.sha256_in_bounds. cbn [mbind option_bind].
  destruct (Nat.ltb_spec (length (crypto.hash_sha256 req)) 16); [done|].
  rewrite vec.range_prefix, vec.read_prefix by lia. done.
Qed.

(** Undefined exactly where the functional model says so: when the digest failed. *)
Lemma hid8_of_bounds b : hid8_of b = flow.hid8_of b.
Proof.
  unfold hid8_of, flow.hid8_of. rewrite bcrypto.sha256_in_bounds. cbn [mbind option_bind].
  destruct (Nat.ltb_spec (length (crypto.hash_sha256 b)) kHashedId8Len) as [H|H].
  - unfold suffix. by rewrite (proj2 (Nat.ltb_lt _ _)).
  - rewrite suffix_ok by done. cbn [mbind option_bind]. apply vec.write_all.
    rewrite length_lastn, length_zeros. unfold kHashedId8Len in *. lia.
Qed.

Lemma key_tag_in_bounds {hjunk : UninitHmac} key oer :
  sb.wf key -> length uninit_hmac = 32 -> key_tag uninit_hmac key oer = Some (at_.key_tag key oer).
Proof.
  intros Hk Hj. unfold key_tag, at_.key_tag. rewrite bcrypto.read_static by (done || (vm_compute; done)).
  cbn [mbind option_bind]. rewrite vec.read_all. cbn [mbind option_bind].
  destruct (HMAC_sha256 _ oer) as [h|] eqn:E; cbn [vec.fill default].
  - apply hmac_len in E. unfold kSha256Len in E. rewrite vec.write_all by lia. cbn [mbind option_bind].
    apply vec.range_prefix. unfold id. lia.
  - cbn [mbind option_bind]. apply vec.range_prefix. lia.
Qed.

Lemma hmac_key_in_bounds p : 32 <= length p -> hmac_key_from p = Some (at_.hmac_key_from p).
Proof. intros H. unfold hmac_key_from. by rewrite bsb.from_ptr_ok. Qed.

End facts.
End bbytes.

(** ** Hexadecimal text *)

Module bhex.

(** [s.substr(pos, 2)] throws when [pos] lies behind the end; the calls are outside the
    [try] blocks, so that the exception would escape: [None]. *)
Definition substr2 (s : bytes) (pos : nat) : option bytes :=
  if length s <? pos then None else Some (take 2 (drop pos s)).

(** The loops of [parse_hid8_hex] and [hex_to_hid8], which fill an array of 8 bytes;
    the inner [None] is the exception of [std::stoul], which they catch. *)
Fixpoint parse_loop (n i : nat) (s out : bytes) : option (option bytes) :=
  match n with
  | O => Some (Some out)
  | S n =>
      byte_str ← substr2 s (2 * i);
      match stoul16 byte_str with
      | None => Some None
      | Some v => out ← vec.set out i (byte.of_Z v); parse_loop n (S i) s out
      end
  end.

Definition parse_hid8_hex (hex : string) : option (option hid8) :=
  let s := bytes_of_string hex in
  if length s <? 16 then Some None else parse_loop 8 0 s (zeros 8).

Definition hex_to_hid8 (hex : string) : option hid8 :=
  let s := bytes_of_string hex in
  let out := zeros 8 in
  if length s <? 16 then Some out else
  r ← parse_loop 8 0 s out;
  Some (default (zeros 8) r).

(** [snprintf(buf + i * 2, 3, "%02X", a[i])]: two digits and a NUL. *)
Fixpoint print_loop (n i : nat) (a buf : bytes) : option bytes :=
  match n with
  | O => Some buf
  | S n =>
      b ← vec.get a i;
      buf ← vec.write buf (i * 2) (hex2 true b ++ [x00]);
      print_loop n (S i) a buf
  end.

(** The string a [char*] stands for: up to the NUL, which must be in the buffer. *)
Fixpoint c_string (buf : bytes) : option bytes :=
  match buf with
  | [] => None
  | b :: buf => if bool_decide (b = x00) then Some [] else s ← c_string buf; Some (b :: s)
  end.

(** [hex8] of tools/pki-provisioner/key_pem.cpp; [buf] is an array of 17 characters
    that is not initialised. *)
Definition hex8 (buf a : bytes) : option string :=
  buf ← print_loop 8 0 a buf;
  s ← c_string buf;
  Some (string_of_bytes s).

(** ** Lemmas *)

Lemma parse_loop_from n i s out :
  i + n = length out -> 2 * length out <= length s ->
  parse_loop n i s out = Some (r ← parse_pairs n (drop (2 * i) s); Some (take i out ++ r)).
Proof.
  revert i out. induction n as [|n IH]; intros i out Hi Hs; cbn [parse_loop parse_pairs].
  - cbn [mbind option_bind]. by rewrite app_nil_r, take_ge by lia.
  - unfold substr2. rewrite (proj2 (Nat.ltb_ge _ _)) by lia. cbn [mbind option_bind].
    destruct (stoul16 _) as [v|]; [|done]. unfold vec.set. rewrite (proj2 (Nat.ltb_lt _ _)) by lia.
    cbn [mbind option_bind]. rewrite IH by (rewrite length_insert; lia).
    rewrite drop_drop. replace (2 * S i) with (2 * i + 2) by lia.
    destruct (parse_pairs n _) as [r|]; [|done]. cbn [mbind option_bind]. do 2 f_equal.
    rewrite (take_S_r _ _ (byte.of_Z v)) by (apply list_lookup_insert_eq; lia).
    rewrite take_insert_ge by done. by rewrite <- app_assoc.
Qed.

Lemma parse_loop_ok s : 16 <= length s -> parse_loop 8 0 s (zeros 8) = Some (parse_pairs 8 s).
Proof.
  intros H. rewrite parse_loop_from by (rewrite length_zeros; lia). rewrite Nat.mul_0_r, drop_0.
  by destruct (parse_pairs 8 s).
Qed.

Lemma parse_hid8_in_bounds hex : parse_hid8_hex hex = Some (tlist.parse_hid8_hex hex).
Proof.
  unfold parse_hid8_hex, tlist.parse_hid8_hex.
  destruct (Nat.ltb_spec (length (bytes_of_string hex)) 16); [done|]. by apply parse_loop_ok.
Qed.

Lemma hex_to_hid8_in_bounds hex : hex_to_hid8 hex = Some (cio.hex_to_hid8 hex).
Proof.
  unfold hex_to_hid8, cio.hex_to_hid8.
  destruct (Nat.ltb_spec (length (bytes_of_string hex)) 16); [done|]. by rewrite parse_loop_ok.
Qed.

Lemma c_string_app s rest : Forall (fun c => c <> x00) s -> c_string (s ++ x00 :: rest) = Some s.
Proof.
  induction 1 as [|c s Hc Hs IH]; [done|]. cbn [c_string app]. rewrite bool_decide_eq_false_2 by done.
  by rewrite IH.
Qed.

Lemma hex_digit_nonzero d : (0 <= d < 16)%Z -> hex_digit true d <> x00.
Proof.
  intros Hd E. apply (f_equal byte.unsigned) in E. unfold hex_digit in E.
  destruct (Z.ltb_spec d 10); rewrite byte.unsigned_of_Z in E;
    rewrite Z.mod_small in E by lia; change (byte.unsigned x00) with 0%Z in E; lia.
Qed.

Lemma hex_nonzero a : Forall (fun c => c <> x00) (concat (map (hex2 true) a)).
Proof.
  induction a as [|b a IH]; [constructor|]. pose proof (byte.unsigned_range b) as Hb.
  repeat constructor; [..|done]; apply hex_digit_nonzero;
    [split; [apply Z.div_pos|apply Z.div_lt_upper_bound]; lia|by apply Z.mod_pos_bound].
Qed.

Lemma print_loop_S n i a buf :
  print_loop (S n) i a buf =
  (b ← vec.get a i; buf ← vec.write buf (i * 2) (hex2 true b ++ [x00]); print_loop n (S i) a buf).
Proof. done. Qed.

(** After the last round the buffer is full. *)
Lemma print_loop_from n i a buf :
  i + S n = length a -> length buf = 2 * length a + 1 ->
  print_loop (S n) i a buf = Some (take (i * 2) buf ++ concat (map (hex2 true) (drop i a)) ++ [x00]).
Proof.
  revert i buf. induction n as [|n IH]; intros i buf Hi Hb;
    destruct (lookup_lt_is_Some_2 a i ltac:(lia)) as [b Hx]; rewrite (drop_S a b i Hx);
    rewrite print_loop_S; unfold vec.get; rewrite Hx; cbn [mbind option_bind];
    unfold vec.write; rewrite length_app; cbn [length hex2]; rewrite (proj2 (Nat.leb_le _ _)) by lia.
  - cbn [mbind option_bind map concat]. rewrite !drop_ge by lia. by rewrite !app_nil_r.
  - cbn [mbind option_bind]. rewrite IH; [|lia|].
    + assert (E : forall R, take (S i * 2) (take (i * 2) buf ++ (hex2 true b ++ [x00]) ++ R) =
                            take (i * 2) buf ++ hex2 true b).
      { intros R. rewrite take_app_ge by (rewrite length_take; lia). rewrite length_take.
        by replace (S i * 2 - (i * 2) `min` length buf) with 2 by lia. }
      rewrite E. cbn [map concat]. by rewrite <- !app_assoc.
    + autorewrite with v2x_len. change (length (hex2 true b)) with 2. cbn [length]. lia.
Qed.

Lemma hex8_in_bounds buf a : length a = 8 -> length buf = 17 -> hex8 buf a = Some (kpem.hex8 a).
Proof.
  intros Ha Hb. unfold hex8. rewrite (print_loop_from 7) by lia. cbn [mbind option_bind take].
  rewrite drop_0. cbn [app Nat.mul]. rewrite take_0. cbn [app]. rewrite c_string_app by apply hex_nonzero. done.
Qed.

End bhex.
