(* ===== verification/TrustProps.v ===== *)
(** Properties of the trust core: chain validation, revocation, certificate
    parsing, trust lists. *)
From stdpp Require Import gmap sorting.
From S2P Require Import Prelude StdMap Hex Result Sizes StaticBytes Asn OpenSSL CryptoEc CurvePoint.
From S2P Require Import Concrete CertParse SignedMessage SignedEnvelope Revocation TrustChain.
From S2P Require Import TrustList Scenario.
Import scenario.

(** ** Chain validation *)

Section chain.
Context {ossl : OpenSSL}.

(** C1: [TrustChain::validate_chain] answers true exactly when the certificate heads
    a chain of one or two links to a self-signed root in the store: every
    certificate valid at the time, signed by the certificate its issuer digest names
    and not on its issuer's CRL, the root not on its own. *)
Theorem validate_chain_correct tc hp c now :
  chain.validate_chain tc hp c now = true <->
  chain.trusted tc hp now 1 c \/ chain.trusted tc hp now 2 c.
Proof. apply chain.validate_chain_iff. Qed.

(** C2: once a CRL that is not stale has been applied to the revocation store a trust
    store points to, every certificate of the issuer of that CRL which the CRL lists
    fails validation at any time, whatever else the two stores hold (the trust store
    files certificates under their own identifiers, as [add_cert] does); and it goes on
    failing after any later CRLs, stale ones and those of other issuers included, as
    long as every later CRL of the issuer that is not stale lists it too. Nothing is
    claimed once such a CRL omits it, nor of listed certificates of other issuers. *)
Theorem revoked_certificate_rejected tc hp l st crl tai later c now :
  chain.keyed tc -> revocation_ tc = Some l ->
  ~ store.stale crl tai -> issuer_hid8 crl = issuer_hash_id_8 c -> hashed_id_8 c ∈ revoked crl ->
  Forall (store.keeps (issuer_hash_id_8 c) (hashed_id_8 c)) later ->
  hp l = store.apply_all (store.apply st crl tai).2 later ->
  chain.validate_chain tc hp c now = false.
Proof.
  intros Hk Hl Hs Hi Hc Hlater Hhp. eapply chain.validate_revoked; [done..|]. rewrite Hhp.
  apply store.apply_all_keeps; [done|]. rewrite store.apply_fresh by done. simpl.
  rewrite store.is_revoked_insert, decide_True by done.
  by rewrite bool_decide_eq_true, elem_of_list_to_set.
Qed.

(** validation is stable: adding a certificate under an identifier that was free,
    and removing revocations, never turns a valid certificate into an invalid one. *)
Theorem validate_chain_stable tc hp hp' ci c now :
  chain.find_by_hashed_id_8 tc (hashed_id_8 ci) = None ->
  (forall l i h, store.is_revoked (hp l) i h = false -> store.is_revoked (hp' l) i h = false) ->
  chain.validate_chain tc hp c now = true ->
  chain.validate_chain (chain.add_cert tc ci) hp' c now = true.
Proof.
  intros Hf Hrev. rewrite !chain.validate_chain_iff.
  assert (Hm : forall n, chain.trusted tc hp now n c -> chain.trusted (chain.add_cert tc ci) hp' now n c).
  { intros n. apply chain.trusted_mono; [by apply insert_subseteq|].
    unfold chain.is_revoked_by_issuer. intros a b. simpl. destruct (revocation_ tc); auto. }
  intros [H|H]; auto.
Qed.

End chain.

Section chain_witness.
#[local] Existing Instance ToyOpenSSL.
#[local] Existing Instance s_tbs_codec.
#[local] Existing Instance s_cert_codec.

Definition w_chain : TrustChain := chain.set_revocation_store s_chain (Some 1%positive).
Definition w_crl : CrlContents := MkCrlContents (hashed_id_8 aa_ci) 1 0 [hashed_id_8 at_ci].

(** Later: a list of another issuer, and the same list again. *)
Definition w_later : list (CrlContents * Z) :=
  [(MkCrlContents (hashed_id_8 ea_ci) 1 0 [], 60%Z); (w_crl, 70%Z)].

Lemma revoked_certificate_rejected_witness :
  chain.validate_chain w_chain (fun _ => store.empty_store) at_ci 100 = true /\
  chain.validate_chain w_chain
    (fun _ => store.apply_all (store.apply store.empty_store w_crl 50).2 w_later) at_ci 100 = false.
Proof.
  split; [vm_compute; reflexivity|].
  apply (revoked_certificate_rejected w_chain _ 1%positive store.empty_store w_crl 50 w_later).
  - unfold chain.keyed, w_chain, s_chain.
    apply (chain.keyed_add_cert (chain.add_cert chain.empty_chain rca_ci)).
    apply (chain.keyed_add_cert chain.empty_chain). apply chain.keyed_empty.
  - reflexivity.
  - intros [H _]. vm_compute in H. discriminate H.
  - vm_compute. reflexivity.
  - apply list_elem_of_singleton. reflexivity.
  - constructor; [|constructor; [|constructor]].
    + intros H. vm_compute in H. discriminate H.
    + intros _ _. apply list_elem_of_singleton. reflexivity.
  - reflexivity.
Defined.

Lemma validate_chain_stable_witness :
  chain.validate_chain (chain.add_cert s_chain ea_ci) (fun _ => store.empty_store) at_ci 100 = true.
Proof.
  apply (validate_chain_stable s_chain (fun _ => store.empty_store)).
  - vm_compute. reflexivity.
  - intros l i h H. exact H.
  - vm_compute. reflexivity.
Defined.

End chain_witness.

(** ** Building and parsing certificates *)

Section certs.
Context {ossl : OpenSSL} {ossl_ok : OpenSSLOk}.
Context {cb : Codec CertificateBase} {cb_ok : CodecOk CertificateBase}.
Context {tb : Codec ToBeSignedCertificate} {junk : Uninit}.

(** C29: a hierarchy made by [cert_utils::build_root_cert] and [build_signed_cert]
    (root, CA signed by the root, ticket signed by the CA) validates for its whole
    period of thirty years, once root and CA are in the store. *)
Theorem built_hierarchy_validates rname rpub rpriv g0 g1 root aname apub apriv g2 g3 aa
    tname tpub g4 g5 ticket now hp :
  is_keypair NistP256 rpriv rpub -> is_keypair NistP256 apriv apub ->
  cert_utils.build_root_cert rname rpub rpriv g0 = (Some root, g1) ->
  cert_utils.build_signed_cert aname apub rpriv (hashed_id_8 root) true false
    (sb.to_vector (cert_bytes root)) g2 = (Some aa, g3) ->
  cert_utils.build_signed_cert tname tpub apriv (hashed_id_8 aa) false false
    (sb.to_vector (cert_bytes aa)) g4 = (Some ticket, g5) ->
  hashed_id_8 root <> hashed_id_8 aa -> (0 <= now < 30 * kYearSeconds)%Z ->
  chain.validate_chain (chain.add_cert (chain.add_cert chain.empty_chain root) aa) hp ticket now = true.
Proof. apply cert_utils.built_chain_trusted. Qed.

(** [cert::from_coer] reads back what [build_signed_cert] wrote: identifier, wire
    bytes, keys, signature, curve, hash, issuer and validity of the parsed
    certificate are those of the one that was built. *)
Theorem parse_built_certificate name spk spriv ipriv ipub ih ca ss icb g ci g' :
  is_keypair NistP256 ipriv ipub -> is_keypair NistP256 spriv spk -> length ih = kHashedId8Len ->
  cert_utils.build_signed_cert name spk ipriv ih ca ss icb g = (Some ci, g') ->
  let p := cert.from_coer (sb.to_vector (cert_bytes ci)) in
  hashed_id_8 p = hashed_id_8 ci /\
  sb.to_vector (cert_bytes p) = sb.to_vector (cert_bytes ci) /\
  sb.to_vector (public_key p) = sb.to_vector (public_key ci) /\
  sb.to_vector (tbs_bytes p) = sb.to_vector (tbs_bytes ci) /\
  sb.to_vector (signature_r p) = sb.to_vector (signature_r ci) /\
  sb.to_vector (signature_s p) = sb.to_vector (signature_s ci) /\
  curve p = curve ci /\ issuer_hash p = issuer_hash ci /\ is_self_signed p = is_self_signed ci /\
  (ss = false -> issuer_hash_id_8 p = issuer_hash_id_8 ci) /\
  validity_start p = validity_start ci /\
  validity_duration_seconds p = validity_duration_seconds ci.
Proof. apply cert_utils.parse_built_cert. Qed.

(** C39: whatever bytes arrive, [cert::from_coer] returns a well-formed certificate:
    all buffers within capacity, an 8-byte identifier, both signature components of
    the same length, an encryption key on a 256-bit curve, a 32-bit start. The wire
    bytes are kept whole or not at all. *)
Theorem parsed_certificate_wf b :
  cert.cert_wf (cert.from_coer b) /\
  (sb.to_vector (cert_bytes (cert.from_coer b)) = b \/
   sb.to_vector (cert_bytes (cert.from_coer b)) = []).
Proof.
  split; [apply cert.from_coer_wf|]. rewrite cert.from_coer_cert_bytes.
  destruct (coer.decode b); [|by right]. destruct (_ <=? _); auto.
Qed.

(** for a certificate parsed from a structure whose duration is a Uint16, the
    validity period is exactly the half-open interval [start, start + duration), and
    no [int64_t] computation of [valid_at] overflows. *)
Theorem validity_interval cert b tbs vp d :
  toBeSigned cert = Some tbs -> validityPeriod tbs = Some vp -> vp_duration vp = Some d ->
  match d with
  | microseconds n | milliseconds n | seconds n | minutes n | hours n | sixtyHours n | years n =>
      in_u16 n
  | Duration_NOTHING => True
  end ->
  let ci := cert.from_struct cert b in
  let stop := (validity_start ci + validity_duration_seconds ci)%Z in
  in_i64 stop /\
  forall t, valid_at ci t = true <-> (validity_start ci <= t < stop)%Z.
Proof.
  intros Htbs Hvp Hd Hr ci stop.
  assert (Hs : in_u32 (validity_start ci)) by apply cert.from_struct_wf.
  assert (Hdur : (0 <= validity_duration_seconds ci <= 65535 * kYearSeconds)%Z).
  { pose proof (cert.duration_seconds_bound (Some d)) as Hb.
    assert (validity_duration_seconds ci = cert.duration_seconds (Some d)) as ->.
    { unfold ci, cert.from_struct.
      destruct (cert.parse_issuer _ _) as [[]], (cert.parse_verification_key _),
        (cert.parse_encryption_key _), (cert.parse_signature _).
      unfold cert.parse_validity. by rewrite Htbs, Hvp, Hd. }
    apply Hb. by destruct d. }
  unfold in_u32, kYearSeconds in *. split; [unfold in_i64, stop; lia|]. intros t.
  unfold valid_at, stop. unfold i64_of_u64.
  destruct (Z.eqb_spec (validity_duration_seconds ci) 0) as [->|Hne]; [split; [done|lia]|].
  destruct (Z.ltb_spec (validity_duration_seconds ci) (2 ^ 63)); [|lia].
  rewrite andb_true_iff, Z.leb_le, Z.ltb_lt. done.
Qed.

End certs.

Section certs_witness.
#[local] Existing Instance ToyOpenSSL.
#[local] Existing Instance s_tbs_codec.
#[local] Existing Instance s_cert_codec.
#[local] Existing Instance s_cert_codec_ok.
#[local] Existing Instance s_uninit.

Lemma built_hierarchy_validates_witness :
  chain.validate_chain s_chain (fun _ => store.empty_store) at_ci 100 = true.
Proof.
  eapply (built_hierarchy_validates (ossl := ToyOpenSSL) "rca_root" (s_pub rca_d) (s_priv rca_d) 0%Z 0%Z rca_ci
    "aa_one" (s_pub aa_d) (s_priv aa_d) 0%Z 0%Z aa_ci "at_station" (s_pub at_d) 0%Z 0%Z at_ci).
  - exact s_keypair_rca.
  - exact s_keypair_aa.
  - exact rca_built.
  - exact aa_built.
  - exact at_built.
  - vm_compute. discriminate.
  - unfold kYearSeconds. lia.
Defined.

Lemma parse_built_certificate_witness :
  hashed_id_8 (cert.from_coer (sb.to_vector (cert_bytes at_ci))) = hashed_id_8 at_ci.
Proof.
  refine (proj1 (parse_built_certificate (ossl := ToyOpenSSL) "at_station" (s_pub at_d) (s_priv at_d)
    (s_priv aa_d) (s_pub aa_d) (hashed_id_8 aa_ci) false false (sb.to_vector (cert_bytes aa_ci)) 0%Z
    at_ci 0%Z _ _ _ _)).
  - exact s_keypair_aa.
  - exact s_keypair_at.
  - vm_compute. reflexivity.
  - exact at_built.
Defined.

Lemma validity_interval_witness :
  in_i64 (30 * kYearSeconds) /\
  (valid_at (cert.from_struct at_struct at_coer) (30 * kYearSeconds) = true <->
    (validity_start (cert.from_struct at_struct at_coer) <= 30 * kYearSeconds <
     validity_start (cert.from_struct at_struct at_coer) +
     validity_duration_seconds (cert.from_struct at_struct at_coer))%Z).
Proof.
  refine (let w := validity_interval at_struct at_coer at_tbs (MkValidityPeriod 0 (Some (years 30)))
    (years 30) _ _ _ _ in conj (proj1 w) (proj2 w _)).
  - vm_compute. reflexivity.
  - reflexivity.
  - reflexivity.
  - split; [discriminate|reflexivity].
Defined.

End certs_witness.

(** ** Revocation *)

(** C30: after any sequence of CRLs applied to any store, each at its own time, a
    certificate is revoked for an issuer exactly when the last CRL of that issuer
    that was not stale lists it; issuers without such a CRL keep their old state. *)
Theorem revocation_store_last_crl_wins l st i h :
  store.is_revoked (store.apply_all st l) i h =
  match store.current_crl i l with
  | Some crl => bool_decide (h ∈ revoked crl)
  | None => store.is_revoked st i h
  end.
Proof. apply store.apply_all_spec. Qed.

Section crl.
Context {ossl : OpenSSL}.
Context {cb : Codec CertificateBase} {dc : Codec Ieee1609Dot2Data} {tc : Codec ToBeSignedData}.
Context {ec : Codec EtsiTs102941Data}.

(** every CRL [decode_crl] accepts is the payload of a message that verifies
    under the given root CA key, is attributed to exactly that CA's certificate, and
    lists exactly the 8-byte entries of the signed list. *)
Theorem decode_crl_authentic coer pub cert crl :
  decode_crl coer pub cert = Ok crl ->
  exists m tbs v,
    signed_msg.unwrap coer = Some m /\ signed_msg.verify m pub cert = true /\
    coer.decode_with_basic_fallback (payload_coer m) =
      Some (MkEtsiTs102941Data v (Some (certificateRevocationList (Some tbs)))) /\
    issuer_hid8 crl = cert.compute_hid8 cert /\
    this_update crl = u32 (thisUpdate tbs) /\ next_update crl = u32 (crl_nextUpdate tbs) /\
    (forall h, h ∈ revoked crl <-> Some h ∈ entries tbs /\ length h = kHashedId8Len).
Proof. apply decode_crl_sound. Qed.

Context {ossl_ok : OpenSSLOk} {dc_ok : CodecOk Ieee1609Dot2Data} {ec_ok : CodecOk EtsiTs102941Data}.

(** a CRL that the root CA signs with the client's own envelope builder is
    accepted, with its issuer, its times and its entries. *)
Theorem decode_crl_accepts_signed coer rca priv now g g' tbs v :
  curve rca <> NistP384 ->
  is_keypair (curve rca) priv (sb.to_vector (public_key rca)) ->
  sb.to_vector (cert_bytes rca) <> [] ->
  hashed_id_8 rca = cert.compute_hid8 (sb.to_vector (cert_bytes rca)) ->
  let pl := coer.encode (MkEtsiTs102941Data v (Some (certificateRevocationList (Some tbs)))) in
  pl <> [] ->
  sign.build_signed_by_cert pl rca priv (curve rca) now g = (coer, g') -> coer <> [] ->
  decode_crl coer (sb.to_vector (public_key rca)) (sb.to_vector (cert_bytes rca)) =
  Ok (MkCrlContents (hashed_id_8 rca) (u32 (thisUpdate tbs)) (u32 (crl_nextUpdate tbs))
        (crl_revoked (entries tbs))).
Proof. apply decode_crl_complete. Qed.

End crl.

Section crl_witness.
#[local] Existing Instance ToyOpenSSL.
#[local] Existing Instance s_cert_codec.
#[local] Existing Instance s_tbsdata_codec.
#[local] Existing Instance s_data_codec.
#[local] Existing Instance s_data_codec_ok.
#[local] Existing Instance s_etsi_codec.
#[local] Existing Instance s_etsi_codec_ok.

Definition w_decoded_crl : CrlContents :=
  MkCrlContents (hashed_id_8 rca_ci) 694224005 794224005 [hashed_id_8 aa_ci].

Lemma decode_crl_authentic_witness :
  exists m tbs v,
    signed_msg.unwrap (wire x50 x01) = Some m /\
    signed_msg.verify m (s_pub rca_d) rca_coer = true /\
    coer.decode_with_basic_fallback (payload_coer m) =
      Some (MkEtsiTs102941Data v (Some (certificateRevocationList (Some tbs)))) /\
    issuer_hid8 w_decoded_crl = cert.compute_hid8 rca_coer /\
    this_update w_decoded_crl = u32 (thisUpdate tbs) /\
    next_update w_decoded_crl = u32 (crl_nextUpdate tbs) /\
    (forall h, h ∈ revoked w_decoded_crl <-> Some h ∈ entries tbs /\ length h = kHashedId8Len).
Proof. apply decode_crl_authentic. vm_compute. reflexivity. Defined.

Lemma decode_crl_accepts_signed_witness :
  decode_crl (wire x50 x01) (sb.to_vector (public_key rca_ci)) (sb.to_vector (cert_bytes rca_ci)) =
  Ok (MkCrlContents (hashed_id_8 rca_ci) (u32 (thisUpdate s_crl)) (u32 (crl_nextUpdate s_crl))
        (crl_revoked (entries s_crl))).
Proof.
  refine (decode_crl_accepts_signed (ossl := ToyOpenSSL) (wire x50 x01) rca_ci (s_priv rca_d) s_now
    0%Z 0%Z s_crl 1 _ _ _ _ _ _ _).
  - vm_compute. discriminate.
  - exact rca_keypair.
  - vm_compute. discriminate.
  - vm_compute. reflexivity.
  - vm_compute. discriminate.
  - exact s_crl_signed.
  - discriminate.
Defined.

End crl_witness.

(** ** Trust lists *)

Section lists.
Context {ossl : OpenSSL}.
Context {cb : Codec CertificateBase} {tb : Codec ToBeSignedCertificate} {junk : Uninit}.
Context {dc : Codec Ieee1609Dot2Data} {tc : Codec ToBeSignedData}.
Context {ec : Codec EtsiTs102941Data} {xc : Codec EtsiTs103097Certificate}.

(** C31: the topology a trust list decodes to is a function of the add commands of
    the signed list, in their order (the last TLM entry wins); its "verified" flag is
    set exactly when key and certificate were given and the signature checks out,
    its "expired" flag exactly when a nextUpdate has passed, and the flags of the
    other kind of list stay clear. *)
Theorem decode_ctl_correct coer pub cert is_ectl now topo :
  tlist.decode_ctl_common coer pub cert is_ectl now = Ok topo ->
  exists m data ctl,
    signed_msg.unwrap coer = Some m /\
    coer.decode_with_basic_fallback (payload_coer m) = Some data /\
    tlist.extract_ctl_from_etsi_data (Some data) is_ectl = Some ctl /\
    let es := tlist.added (ctlCommands ctl) in
    rcas topo = omap tlist.rca_of es /\ eas topo = omap tlist.ea_of es /\
    aas topo = omap tlist.aa_of es /\ dcs topo = omap tlist.dc_of es /\
    tlm topo = list.last (omap tlist.tlm_of es) /\
    let ok := negb (empty pub) && negb (empty cert) && signed_msg.verify m pub cert in
    let n := u32 (ctl_nextUpdate ctl) in
    let late := (0 <? n)%Z && (n <? unix_to_tai_seconds now)%Z in
    tlist.flags topo =
      if is_ectl then (ok, false, n, 0%Z, late, false) else (false, ok, 0%Z, n, false, late).
Proof. apply tlist.decode_ctl_common_spec. Qed.

End lists.

Section lists_witness.
#[local] Existing Instance ToyOpenSSL.
#[local] Existing Instance s_tbs_codec.
#[local] Existing Instance s_cert_codec.
#[local] Existing Instance s_uninit.
#[local] Existing Instance s_tbsdata_codec.
#[local] Existing Instance s_data_codec.
#[local] Existing Instance s_etsi_codec.
#[local] Existing Instance s_etsi_cert_codec.

Definition w_topology : TrustTopology :=
  match tlist.decode_rca_ctl (wire x50 x02) (s_pub rca_d) rca_coer 1767225600 with
  | Ok t => t
  | Err _ => TrustTopology_empty
  end.

Lemma decode_ctl_correct_witness :
  length (eas w_topology) = 1 /\ length (aas w_topology) = 1 /\
  ctl_signature_verified w_topology = true /\
  exists m data ctl,
    signed_msg.unwrap (wire x50 x02) = Some m /\
    coer.decode_with_basic_fallback (payload_coer m) = Some data /\
    tlist.extract_ctl_from_etsi_data (Some data) false = Some ctl /\
    let es := tlist.added (ctlCommands ctl) in
    rcas w_topology = omap tlist.rca_of es /\ eas w_topology = omap tlist.ea_of es /\
    aas w_topology = omap tlist.aa_of es /\ dcs w_topology = omap tlist.dc_of es /\
    tlm w_topology = list.last (omap tlist.tlm_of es) /\
    let ok := negb (empty (s_pub rca_d)) && negb (empty rca_coer) &&
              signed_msg.verify m (s_pub rca_d) rca_coer in
    let n := u32 (ctl_nextUpdate ctl) in
    let late := (0 <? n)%Z && (n <? unix_to_tai_seconds 1767225600)%Z in
    tlist.flags w_topology = (false, ok, 0%Z, n, false, late).
Proof.
  split; [vm_compute; reflexivity|]. split; [vm_compute; reflexivity|].
  split; [vm_compute; reflexivity|].
  refine (decode_ctl_correct (wire x50 x02) (s_pub rca_d) rca_coer false 1767225600 w_topology _).
  vm_compute. reflexivity.
Defined.

End lists_witness.

(** the hexadecimal form of a HashedId8, in either case, parses back to it. *)
Theorem hid8_hex_round_trip up h :
  length h = kHashedId8Len -> tlist.parse_hid8_hex (hex_stream up h) = Some h.
Proof. apply tlist.parse_hid8_hex_stream. Qed.

Lemma hid8_hex_round_trip_witness :
  tlist.parse_hid8_hex (tlist.hid8_hex_upper [x01; xab; xff; x00; x10; x7f; x80; x0a]) =
  Some [x01; xab; xff; x00; x10; x7f; x80; x0a].
Proof. apply (hid8_hex_round_trip true). reflexivity. Defined.

(** ** Loading and listing *)

Section directory.
Context {ossl : OpenSSL}.
Context {cb : Codec CertificateBase} {tb : Codec ToBeSignedCertificate} {junk : Uninit}.

(** [load_from_directory] adds, in the order of the directory, exactly the
    certificates of the regular files whose extension is .cert and whose contents
    parse, labelled with the stem of the file name; it answers whether there was
    one. *)
Theorem load_directory_correct tc es :
  chain.load_from_directory tc (Some es) =
    (negb (empty (omap chain.loadable es)), foldl chain.add_cert tc (omap chain.loadable es)).
Proof. apply chain.load_from_directory_spec. Qed.

End directory.

(** the certificates of a role are exactly the stored ones whose label starts
    with the role's prefix, and they are listed in the order of their identifiers. *)
Theorem role_listing tc p ci :
  (ci ∈ chain.get_by_prefix tc p <->
   (exists k, certs_ tc !! k = Some ci) /\ String.prefix p (label ci) = true) /\
  exists l, chain.get_by_prefix tc p = l.*2 /\ StronglySorted key_le l.
Proof.
  split; [apply chain.get_by_prefix_elem|]. eexists. split; [reflexivity|].
  apply StronglySorted_filter, map_iter_sorted.
Qed.
