(* ===== verification/MessageProps.v ===== *)
(** Properties of the messages: signed envelopes, enrolment and authorization
    requests, responses. *)
From S2P Require Import Prelude Result Sizes StaticBytes Asn OpenSSL CryptoEc CurvePoint Ecies.
From S2P Require Import Concrete CertParse SignedMessage SignedEnvelope EncryptedData Request.
From S2P Require Import EcRequest AtRequest Scenario.
Import scenario.

(** ** What a receiver reads *)

Section readable.
Context {ossl : OpenSSL}.
Context {cb : Codec CertificateBase} {tb : Codec ToBeSignedCertificate} {junk : Uninit}.
Context {dc : Codec Ieee1609Dot2Data} {tc : Codec ToBeSignedData}.

(** An enrolment authority with the private key of [ea] opens [encoded] and finds
    two nested envelopes that verify under [pub] (the outer one and the proof of
    possession) around the request that was described. *)
Definition ec_request_readable {iq : Codec InnerEcRequest} (desc : EcRequestDescription)
    (ea : CertInfo) (ea_priv pub encoded : bytes) : Prop :=
  exists ed outer m pop m',
    coer.decode encoded =
      Some (MkIeee1609Dot2Data kIeee1609Dot2Version (Some (encryptedData (Some ed)))) /\
    enc.open_request ed ea_priv (crypto.hash_sha256 (sb.to_vector (cert_bytes ea))) = Some outer /\
    signed_msg.unwrap outer = Some m /\ signed_msg.verify m pub [] = true /\
    payload_coer m = x01 :: x80 :: pop /\
    signed_msg.unwrap pop = Some m' /\ signed_msg.verify m' pub [] = true /\
    coer.decode (payload_coer m') = Some (ec.inner_ec_request desc).

(** The AA opens [encoded], finds an envelope under the new key around the request;
    the EA opens the encrypted EC signature in it and finds a signature over the digest
    of the shared part that verifies under the key of the enrolment credential [ec]. *)
Definition at_request_readable {pc : Codec PublicVerificationKey} {sc : Codec SharedAtRequest}
    {iq : Codec InnerAtRequest} {hj : UninitHmac} (desc : AtRequestDescription)
    (aa ea ec : CertInfo) (aa_priv ea_priv encoded : bytes) : Prop :=
  exists ed outer m body shared sig_data ed' ext tbs sig hid,
    coer.decode encoded =
      Some (MkIeee1609Dot2Data kIeee1609Dot2Version (Some (encryptedData (Some ed)))) /\
    enc.open_request ed aa_priv (crypto.hash_sha256 (sb.to_vector (cert_bytes aa))) = Some outer /\
    signed_msg.unwrap outer = Some m /\
    signed_msg.verify m (sb.to_vector (ad_verification_key desc)) [] = true /\
    payload_coer m = x01 :: x82 :: body /\
    coer.decode body = Some (at_.inner_at_request desc shared sig_data) /\
    sig_data = MkIeee1609Dot2Data kIeee1609Dot2Version (Some (encryptedData (Some ed'))) /\
    enc.open_request ed' ea_priv (crypto.hash_sha256 (sb.to_vector (cert_bytes ea))) = Some ext /\
    coer.decode_with_basic_fallback ext =
      Some (MkIeee1609Dot2Data kIeee1609Dot2Version (Some (signedData (Some
        (MkSignedData hid (Some tbs)
           (Some (if empty (sb.to_vector (cert_bytes ec)) then SignerIdentifier_self
                  else SignerIdentifier_digest (octet.set (hashed_id_8 ec) kHashedId8Len)))
           (Some (sign.build_asn_signature sig (ad_curve desc)))))))) /\
    (extDataHash <$> payload tbs) = Some (Some
      (if is_p256_size (ad_curve desc)
       then sha256HashedData (crypto.hash_for_curve (coer.encode shared) (ad_curve desc))
       else sha384HashedData (crypto.hash_for_curve (coer.encode shared) (ad_curve desc)))) /\
    crypto.ecdsa_verify_digest_curve (sb.to_vector (public_key ec))
      (signed_msg.signed_data_hash (coer.encode tbs) (sb.to_vector (cert_bytes ec)) (curve ec))
      sig (curve ec) = true /\
    shared = at_.shared_at_request desc (at_.key_tag (ad_hmac_key desc)
      (coer.encode (request.verification_key_node (ad_curve desc)
         (sb.to_vector (ad_verification_key desc))))).

(** [body] is what an authority signed: it sits in a message that opens with the
    request's keys and verifies under the authority's certificate. *)
Definition signed_answer (resp priv k : bytes) (tag : byte) (authority : CertInfo) (body : bytes)
    : Prop :=
  exists v ed plaintext m,
    coer.decode resp = Some (MkIeee1609Dot2Data v (Some (encryptedData ed))) /\
    enc.decrypt_encrypted_content ed priv k = Some plaintext /\
    signed_msg.unwrap plaintext = Some m /\
    signed_msg.verify m (sb.to_vector (public_key authority))
      (sb.to_vector (cert_bytes authority)) = true /\
    (payload_coer m = body \/ payload_coer m = x01 :: tag :: body).

(** [resp] is what a genuine authority sends: [body] in an envelope signed with the
    key of its certificate, sealed under the AES key of the request. *)
Definition genuine_answer (resp k : bytes) (tag : byte) (authority : CertInfo) (body : bytes)
    : Prop :=
  exists spriv now g env g' nonce ccm psk_id,
    curve authority <> NistP384 /\
    is_keypair (curve authority) spriv (sb.to_vector (public_key authority)) /\
    hashed_id_8 authority = cert.compute_hid8 (sb.to_vector (cert_bytes authority)) /\
    sign.build_signed_by_cert (x01 :: tag :: body) authority spriv (curve authority) now g
      = (env, g') /\
    env <> [] /\ ecies.aes_128_ccm_encrypt k nonce env = Some ccm /\
    resp = coer.encode (enc.psk_response psk_id nonce ccm) /\ resp <> [].

(** A requestHash binds to a request. *)
Definition answers (hash req : bytes) : Prop :=
  req <> [] /\ hash = take 16 (crypto.hash_sha256 req) /\ length hash = 16.

End readable.

(** ** Envelopes *)

Section envelopes.
Context {ossl : OpenSSL} {ossl_ok : OpenSSLOk}.
Context {cb : Codec CertificateBase}.
Context {dc : Codec Ieee1609Dot2Data} {dc_ok : CodecOk Ieee1609Dot2Data} {tc : Codec ToBeSignedData}.

(** C19: a payload wrapped by [sign::finalize_signed_data], self-signed or signed by a
    certificate, comes back unchanged from [signed_msg::unwrap], with the signer's
    digest, and [signed_msg::verify] accepts it under the signer's public key. This
    holds for every curve but NistP384, whose signatures are labelled
    BrainpoolP384r1 on the wire. *)
Theorem signed_envelope_round_trip pl now priv pub cert hid c g b g' :
  is_keypair c priv pub -> c <> NistP384 -> pl <> [] ->
  (cert <> [] -> length hid = kHashedId8Len /\ hid = cert.compute_hid8 cert) ->
  sign.finalize_signed_data (sign.make_unsecured_tbs pl now) priv cert hid c g = (b, g') -> b <> [] ->
  exists m, signed_msg.unwrap b = Some m /\ payload_coer m = pl /\ sig_curve m = c /\
    has_signer_digest m = negb (empty cert) /\ (cert <> [] -> signer_hid8 m = hid) /\
    signed_msg.verify m pub cert = true.
Proof. apply sign.unwrap_finalize. Qed.

End envelopes.

Section envelopes_witness.
#[local] Existing Instance ToyOpenSSL.
#[local] Existing Instance s_cert_codec.
#[local] Existing Instance s_tbsdata_codec.
#[local] Existing Instance s_data_codec.
#[local] Existing Instance s_data_codec_ok.

Lemma signed_envelope_round_trip_witness :
  exists m, signed_msg.unwrap (wire x50 x01) = Some m /\ payload_coer m = wire x30 x01 /\
    sig_curve m = NistP256 /\ has_signer_digest m = negb (empty rca_coer) /\
    (rca_coer <> [] -> signer_hid8 m = hashed_id_8 rca_ci) /\
    signed_msg.verify m (s_pub rca_d) rca_coer = true.
Proof.
  apply (signed_envelope_round_trip (ossl := ToyOpenSSL) (wire x30 x01) s_now (s_priv rca_d)
    (s_pub rca_d) rca_coer (hashed_id_8 rca_ci) NistP256 0%Z (wire x50 x01) 0%Z).
  - exact s_keypair_rca.
  - discriminate.
  - discriminate.
  - intros _. vm_compute. split; reflexivity.
  - vm_compute. reflexivity.
  - discriminate.
Defined.

End envelopes_witness.

(** ** Enrolment *)

Section enrolment.
Context {ossl : OpenSSL}.
Context {cb : Codec CertificateBase} {tb : Codec ToBeSignedCertificate} {junk : Uninit}.
Context {dc : Codec Ieee1609Dot2Data} {tc : Codec ToBeSignedData}.
Context {iq : Codec InnerEcRequest} {ir : Codec InnerEcResponse}.

(** every enrolment response [decode_ec_response] accepts was signed by the given
    authority, carries the hash of the request that was sent, and its code and
    certificate are those of the signed answer. *)
Theorem ec_response_authentic resp priv k req ea r :
  ec.decode_ec_response resp priv k req ea = Ok r ->
  exists body inner, signed_answer resp priv k x81 ea body /\ coer.decode body = Some inner /\
    answers (ecr_requestHash inner) req /\
    ec_response_code r = EnrolmentResponseCode_of_int (ecr_responseCode inner) /\
    ec_certificate r = (fun c => set_label (cert.from_struct c (coer.encode c)) "ec_response")
      <$> ecr_certificate inner.
Proof.
  intros H. apply ec.decode_ec_response_sound in H
    as (v & ed & pt & m & inner & body & H1 & H2 & H3 & H4 & H5 & H6 & H7 & H8 & H9 & H10 & H11).
  exists body, inner. split_and!; try done. by exists v, ed, pt, m.
Qed.

Context {ossl_ok : OpenSSLOk} {dc_ok : CodecOk Ieee1609Dot2Data} {iq_ok : CodecOk InnerEcRequest}
  {ir_ok : CodecOk InnerEcResponse}.

(** C17: a request [encode_ec_request] produces can be read by the enrolment authority
    it is addressed to, and by the holder of that key it is exactly the request that
    was described; the AES key for the answer is 16 bytes. *)
Theorem ec_request_opens desc ea priv now1 now2 g res g' ea_priv pub :
  ed_curve desc <> NistP384 -> is_keypair (ed_curve desc) priv pub ->
  is_p256_size (enc_curve ea) = true ->
  encodes_key (enc_curve ea) ea_priv (request.recipient_key ea) ->
  ec.encode_ec_request desc ea priv now1 now2 g = (Ok res, g') ->
  ec_request_readable desc ea ea_priv pub (sb.to_vector (ec_encoded res)) /\
  length (sb.to_vector (ec_request_aes_key res)) = kAesKeyLen.
Proof.
  intros H1 H2 H3 H4 H5.
  destruct (ec.encode_ec_request_opens _ _ _ _ _ _ _ _ _ _ H1 H2 H3 H4 H5)
    as (ed & outer & m & pop & m' & H). destruct_and! H. split; [|done].
  by exists ed, outer, m, pop, m'.
Qed.

(** the answer of a genuine authority, signed with its key, bound to the request
    and sealed under the request's AES key, is accepted with its code and
    certificate. *)
Theorem ec_response_accepted resp priv k req ea spriv inner now g env g' nonce ccm psk_id :
  curve ea <> NistP384 ->
  is_keypair (curve ea) spriv (sb.to_vector (public_key ea)) ->
  hashed_id_8 ea = cert.compute_hid8 (sb.to_vector (cert_bytes ea)) ->
  coer.encode inner <> [] -> answers (ecr_requestHash inner) req ->
  sign.build_signed_by_cert (x01 :: x81 :: coer.encode inner) ea spriv (curve ea) now g = (env, g') ->
  env <> [] -> ecies.aes_128_ccm_encrypt k nonce env = Some ccm ->
  resp = coer.encode (enc.psk_response psk_id nonce ccm) -> resp <> [] ->
  exists r, ec.decode_ec_response resp priv k req ea = Ok r /\
    ec_response_code r = EnrolmentResponseCode_of_int (ecr_responseCode inner) /\
    ec_certificate r = (fun c => set_label (cert.from_struct c (coer.encode c)) "ec_response")
      <$> ecr_certificate inner.
Proof. intros ? ? ? ? (? & ? & ?). by apply ec.decode_ec_response_complete. Qed.

End enrolment.

Section enrolment_witness.
#[local] Existing Instance ToyOpenSSL.
#[local] Existing Instance s_tbs_codec.
#[local] Existing Instance s_cert_codec.
#[local] Existing Instance s_uninit.
#[local] Existing Instance s_tbsdata_codec.
#[local] Existing Instance s_data_codec.
#[local] Existing Instance s_data_codec_ok.
#[local] Existing Instance s_inner_ec_codec.
#[local] Existing Instance s_inner_ec_codec_ok.
#[local] Existing Instance s_ec_response_codec.
#[local] Existing Instance s_ec_response_codec_ok.

Definition w_ec_result : EcRequestResult :=
  ok_or (MkEcRequestResult (sb.default_ _) (sb.default_ _))
    (fst (ec.encode_ec_request s_ec_desc ea_ci (s_priv its_d) s_now s_now 30%Z)).

Lemma ea_encodes : encodes_key (enc_curve ea_ci) (s_priv ea_d) (request.recipient_key ea_ci).
Proof.
  apply crypto_facts.is_keypair_encodes. exists ea_d. vm_compute. reflexivity.
Qed.

Lemma ec_request_opens_witness :
  ec_request_readable s_ec_desc ea_ci (s_priv ea_d) (s_pub its_d)
    (sb.to_vector (ec_encoded w_ec_result)) /\
  length (sb.to_vector (ec_request_aes_key w_ec_result)) = kAesKeyLen.
Proof.
  refine (ec_request_opens (ossl := ToyOpenSSL) s_ec_desc ea_ci (s_priv its_d) s_now s_now 30%Z
    w_ec_result 33%Z (s_priv ea_d) (s_pub its_d) _ _ _ _ _).
  - discriminate.
  - exact s_keypair_its.
  - vm_compute. reflexivity.
  - exact ea_encodes.
  - vm_compute. reflexivity.
Defined.

Definition w_ec_response : EcResponse :=
  ok_or (MkEcResponse EC_CantParse (sb.default_ _) None)
    (ec.decode_ec_response (wire x50 x07) (s_priv its_d) s_ec_enc.2 (wire x50 x05) ea_ci).

Lemma ec_response_authentic_witness :
  ec_response_code w_ec_response = EC_Ok /\
  exists body inner,
    signed_answer (wire x50 x07) (s_priv its_d) s_ec_enc.2 x81 ea_ci body /\
    coer.decode body = Some inner /\ answers (ecr_requestHash inner) (wire x50 x05) /\
    ec_response_code w_ec_response = EnrolmentResponseCode_of_int (ecr_responseCode inner) /\
    ec_certificate w_ec_response =
      (fun c => set_label (cert.from_struct c (coer.encode c)) "ec_response") <$> ecr_certificate inner.
Proof.
  split; [vm_compute; reflexivity|].
  refine (ec_response_authentic (wire x50 x07) (s_priv its_d) s_ec_enc.2 (wire x50 x05) ea_ci
    w_ec_response _).
  vm_compute. reflexivity.
Defined.

Lemma ec_response_accepted_witness :
  exists r, ec.decode_ec_response (wire x50 x07) (s_priv its_d) s_ec_enc.2 (wire x50 x05) ea_ci = Ok r /\
    ec_response_code r = EnrolmentResponseCode_of_int (ecr_responseCode s_ec_response) /\
    ec_certificate r =
      (fun c => set_label (cert.from_struct c (coer.encode c)) "ec_response")
        <$> ecr_certificate s_ec_response.
Proof.
  refine (ec_response_accepted (ossl := ToyOpenSSL) (wire x50 x07) (s_priv its_d) s_ec_enc.2
    (wire x50 x05) ea_ci (s_priv ea_d) s_ec_response s_now 0%Z (wire x50 x06) 0%Z
    (zeros kAesCcmNonceLen)
    (default (MkAesCcmResult [] [])
       (ecies.aes_128_ccm_encrypt s_ec_enc.2 (zeros kAesCcmNonceLen) (wire x50 x06)))
    (zeros 8) _ _ _ _ _ _ _ _ _ _).
  - vm_compute. discriminate.
  - exact ea_keypair.
  - vm_compute. reflexivity.
  - vm_compute. discriminate.
  - split; [discriminate|]. vm_compute. split; reflexivity.
  - vm_compute. reflexivity.
  - discriminate.
  - vm_compute. reflexivity.
  - vm_compute. reflexivity.
  - discriminate.
Defined.

End enrolment_witness.

(** ** Authorization *)

Section authorization.
Context {ossl : OpenSSL}.
Context {cb : Codec CertificateBase} {tb : Codec ToBeSignedCertificate} {junk : Uninit}.
Context {dc : Codec Ieee1609Dot2Data} {tc : Codec ToBeSignedData}.
Context {pc : Codec PublicVerificationKey} {sc : Codec SharedAtRequest}.
Context {iq : Codec InnerAtRequest} {ir : Codec InnerAtResponse} {hj : UninitHmac}.

(** every authorization response [decode_at_response] accepts was signed by the
    given authority, carries the hash of the request that was sent, and its code and
    certificate are those of the signed answer. *)
Theorem at_response_authentic resp priv k req aa r :
  at_.decode_at_response resp priv k req aa = Ok r ->
  exists body inner, signed_answer resp priv k x83 aa body /\ coer.decode body = Some inner /\
    answers (atr_requestHash inner) req /\
    at_response_code r = AuthorizationResponseCode_of_int (atr_responseCode inner) /\
    at_certificate r = (fun c => set_label (cert.from_struct c (coer.encode c)) "at_response")
      <$> atr_certificate inner.
Proof.
  intros H. apply at_.decode_at_response_sound in H
    as (v & ed & pt & m & inner & body & H1 & H2 & H3 & H4 & H5 & H6 & H7 & H8 & H9 & H10 & H11).
  exists body, inner. split_and!; try done. by exists v, ed, pt, m.
Qed.

Context {ossl_ok : OpenSSLOk} {dc_ok : CodecOk Ieee1609Dot2Data} {iq_ok : CodecOk InnerAtRequest}
  {sc_ok : CodecOk SharedAtRequest}.

(** C18: a request [encode_at_request] produces can be read by the two authorities it
    is meant for: with its private key the AA opens it and finds a signature that
    verifies under the new key, around the request described; with its private key
    the EA opens the part that is encrypted to it and finds a signature over the digest
    of the shared part of that same request that verifies under the key of the
    enrolment credential. This holds when the private keys belong to the new key and
    to the credential, the new key is on the curve of the credential and this is not
    NIST P-384 (which the program labels as another curve), and the two authorities
    encrypt on 256-bit curves. *)
Theorem at_request_opens desc aa ea ec ec_priv at_priv now1 now2 g res g' aa_priv ea_priv :
  ad_curve desc <> NistP384 -> curve ec = ad_curve desc ->
  is_keypair (ad_curve desc) at_priv (sb.to_vector (ad_verification_key desc)) ->
  encodes_key (curve ec) ec_priv (sb.to_vector (public_key ec)) ->
  is_p256_size (enc_curve aa) = true -> is_p256_size (enc_curve ea) = true ->
  encodes_key (enc_curve aa) aa_priv (request.recipient_key aa) ->
  encodes_key (enc_curve ea) ea_priv (request.recipient_key ea) ->
  at_.encode_at_request desc aa ea ec ec_priv at_priv now1 now2 g = (Ok res, g') ->
  at_request_readable desc aa ea ec aa_priv ea_priv (sb.to_vector (at_encoded res)).
Proof.
  intros Hc Hcurve Hat Hec. unfold at_request_readable. rewrite Hcurve in *.
  by apply at_.encode_at_request_opens.
Qed.

End authorization.

Section authorization_witness.
#[local] Existing Instance ToyOpenSSL.
#[local] Existing Instance s_tbs_codec.
#[local] Existing Instance s_cert_codec.
#[local] Existing Instance s_uninit.
#[local] Existing Instance s_tbsdata_codec.
#[local] Existing Instance s_data_codec.
#[local] Existing Instance s_data_codec_ok.
#[local] Existing Instance s_pvk_codec.
#[local] Existing Instance s_shared_codec.
#[local] Existing Instance s_shared_codec_ok.
#[local] Existing Instance s_inner_at_codec.
#[local] Existing Instance s_inner_at_codec_ok.
#[local] Existing Instance s_at_response_codec.
#[local] Existing Instance s_uninit_hmac.

Definition w_at_result : AtRequestResult :=
  ok_or (MkAtRequestResult (sb.default_ _) (sb.default_ _))
    (fst (at_.encode_at_request s_at_desc aa_ci ea_ci ec_ci (s_priv its_d) (s_priv at_d) s_now s_now
            35%Z)).

Lemma aa_encodes : encodes_key (enc_curve aa_ci) (s_priv aa_d) (request.recipient_key aa_ci).
Proof.
  apply crypto_facts.is_keypair_encodes. exists aa_d. vm_compute. reflexivity.
Qed.

Lemma ec_encodes : encodes_key (curve ec_ci) (s_priv its_d) (sb.to_vector (public_key ec_ci)).
Proof.
  apply crypto_facts.is_keypair_encodes. exists its_d. vm_compute. reflexivity.
Qed.

Lemma at_request_opens_witness :
  at_request_readable s_at_desc aa_ci ea_ci ec_ci (s_priv aa_d) (s_priv ea_d)
    (sb.to_vector (at_encoded w_at_result)).
Proof.
  refine (at_request_opens (ossl := ToyOpenSSL) s_at_desc aa_ci ea_ci ec_ci (s_priv its_d)
    (s_priv at_d) s_now s_now 35%Z w_at_result 41%Z (s_priv aa_d) (s_priv ea_d) _ _ _ _ _ _ _ _ _).
  - discriminate.
  - vm_compute. reflexivity.
  - exact s_keypair_at.
  - exact ec_encodes.
  - vm_compute. reflexivity.
  - vm_compute. reflexivity.
  - exact aa_encodes.
  - exact ea_encodes.
  - vm_compute. reflexivity.
Defined.

Definition w_at_response : AtResponse :=
  ok_or (MkAtResponse (AT_Other 1) (sb.default_ _) None)
    (at_.decode_at_response (wire x50 x0c) (s_priv at_d) s_at_enc.2 (wire x50 x0a) aa_ci).

Lemma at_response_authentic_witness :
  at_response_code w_at_response = AT_Ok /\
  exists body inner,
    signed_answer (wire x50 x0c) (s_priv at_d) s_at_enc.2 x83 aa_ci body /\
    coer.decode body = Some inner /\ answers (atr_requestHash inner) (wire x50 x0a) /\
    at_response_code w_at_response = AuthorizationResponseCode_of_int (atr_responseCode inner) /\
    at_certificate w_at_response =
      (fun c => set_label (cert.from_struct c (coer.encode c)) "at_response") <$> atr_certificate inner.
Proof.
  split; [vm_compute; reflexivity|].
  refine (at_response_authentic (wire x50 x0c) (s_priv at_d) s_at_enc.2 (wire x50 x0a) aa_ci
    w_at_response _).
  vm_compute. reflexivity.
Defined.

End authorization_witness.

(** ** Request records *)

(** an enrolment record passes [validate_ec_record] exactly when the canonical key
    is an uncompressed point of the curve's length, the only PSID is the one for
    certificate requests and the period is 1 to 3650 days; a message is produced
    exactly when it does not. *)
Theorem ec_record_valid_iff rec :
  ((ec.validate_ec_record rec).1 = true <->
   sb.size (er_canonical_public_key rec) = pubkey_len (er_curve rec) /\
   sb.at_ (er_canonical_public_key rec) 0 = x04 /\
   er_requested_psids rec = [kPsidScr] /\ (1 <= er_validity_period_days rec <= 3650)%Z) /\
  ((ec.validate_ec_record rec).1 = true <-> (ec.validate_ec_record rec).2 = None).
Proof.
  split; [apply ec.validate_ec_record_iff|].
  unfold ec.validate_ec_record. repeat case_match; naive_solver.
Qed.

(** an authorization record passes [validate_at_record] exactly when the key is
    an uncompressed point of the curve's length, there is at least one PSID, none is
    negative, and the period is 1 to 87600 hours. *)
Theorem at_record_valid_iff rec :
  ((at_.validate_at_record rec).1 = true <->
   sb.size (ar_at_public_key rec) = pubkey_len (ar_curve rec) /\
   sb.at_ (ar_at_public_key rec) 0 = x04 /\
   ar_requested_psids rec <> [] /\ Forall (fun p => 0 <= p)%Z (ar_requested_psids rec) /\
   (1 <= ar_validity_period_hours rec <= 87600)%Z) /\
  ((at_.validate_at_record rec).1 = true <-> (at_.validate_at_record rec).2 = None).
Proof.
  split; [apply at_.validate_at_record_iff|].
  unfold at_.validate_at_record. repeat case_match; naive_solver.
Qed.

(** C40: of the periods an enrolment record may ask for, those up to 2730 days are
    requested as such; every longer one is requested as fewer hours than asked for,
    because the number of hours is reduced modulo 2^16. *)
Theorem ec_duration_wraps rec now :
  (ec.validate_ec_record rec).1 = true ->
  let asked := (er_validity_period_days rec * 24)%Z in
  let sent := ed_validity_duration_hours (ec.assemble_ec_request rec now) in
  in_u16 sent /\
  (er_validity_period_days rec <= 2730 -> sent = asked)%Z /\
  (2730 < er_validity_period_days rec -> sent = asked - 65536 /\ sent < asked)%Z.
Proof.
  intros (_ & _ & _ & Hd)%ec.validate_ec_record_iff asked sent. subst asked sent. simpl.
  split; [apply u16_range|]. unfold u16. split; intros H.
  - apply Z.mod_small. lia.
  - assert ((er_validity_period_days rec * 24) mod 2 ^ 16 = er_validity_period_days rec * 24 - 65536)%Z
      as ->; [|lia].
    symmetry. apply (Z.mod_unique_pos _ _ 1); lia.
Qed.

Lemma ec_duration_wraps_witness :
  ed_validity_duration_hours (ec.assemble_ec_request
    (MkEcRecord (er_canonical_public_key s_ec_record) (zeros 8) [kPsidScr] 2731 NistP256 "") 0) = 8%Z.
Proof.
  apply (ec_duration_wraps
    (MkEcRecord (er_canonical_public_key s_ec_record) (zeros 8) [kPsidScr] 2731 NistP256 "") 0).
  - vm_compute. reflexivity.
  - reflexivity.
Defined.

Section at_duration.
Context {ossl : OpenSSL} {ossl_ok : OpenSSLOk}.

(** an authorization request never asks for more hours than its record, and for
    exactly as many up to the 65535 the field can hold; its HMAC key is 32 bytes. *)
Theorem at_duration_clamped rec now g desc g' :
  (at_.validate_at_record rec).1 = true -> at_.assemble_at_request rec now g = (desc, g') ->
  ad_validity_duration_hours desc = Z.min (ar_validity_period_hours rec) 65535 /\
  in_u16 (ad_validity_duration_hours desc) /\ sb.size (ad_hmac_key desc) = 32.
Proof.
  intros (_ & _ & _ & _ & Hh)%at_.validate_at_record_iff H.
  destruct (at_.assemble_at_hmac_key _ _ _ _ _ H) as (Hk & _).
  unfold at_.assemble_at_request in H. destruct (crypto.generate_keypair g) as [kp g1].
  injection H as <- <-. simpl in *.
  assert (Hr : in_u16 (Z.min (ar_validity_period_hours rec) 65535)) by (unfold in_u16; lia).
  by rewrite (u16_small _ Hr).
Qed.

End at_duration.

Section at_duration_witness.
#[local] Existing Instance ToyOpenSSL.

Lemma at_duration_clamped_witness :
  ad_validity_duration_hours s_at_desc = Z.min (ar_validity_period_hours s_at_record) 65535 /\
  in_u16 (ad_validity_duration_hours s_at_desc) /\ sb.size (ad_hmac_key s_at_desc) = 32.
Proof.
  refine (at_duration_clamped (ossl := ToyOpenSSL) s_at_record s_now 34%Z s_at_desc 35%Z _ _);
    vm_compute; reflexivity.
Defined.

End at_duration_witness.
