(* ===== verification/CryptoProps.v ===== *)
(** Properties of the lower layers: byte buffers, ECDSA, ECDH, KDF2, ECIES, curve
    points, the HTTP retry policy and the key store. *)
From stdpp Require Import gmap.
From S2P Require Import Prelude Result Sizes StaticBytes Asn OpenSSL CryptoEc CurvePoint Ecies.
From S2P Require Import Concrete CertParse SignedEnvelope EncryptedData Http Disk KeyStore Scenario.
Import scenario.

(** ** StaticBytes *)

(** the only thing observable of a [StaticBytes] is its contents: two buffers
    compare equal exactly when [to_vector] agrees, whatever lies past the length; and
    a buffer built from a vector that fits holds that vector, one that does not fit
    is refused. *)
Theorem static_bytes_observable N (a b : StaticBytes N) v :
  sb.wf a -> sb.wf b ->
  (sb.eqb a b = true <-> sb.to_vector a = sb.to_vector b) /\
  (sb.eqb_vector a v = true <-> sb.to_vector a = v) /\
  match sb.from N v with
  | Some c => length v <= N /\ sb.to_vector c = v /\ sb.wf c
  | None => N < length v
  end.
Proof.
  intros Ha Hb. split; [by apply sb.eqb_spec|]. split; [by apply sb.eqb_vector_spec|].
  destruct (decide (length v <= N)) as [Hl|Hl].
  - destruct (sb.from_Some v Hl) as (c & -> & ? & ?). done.
  - destruct (sb.from N v) as [c|] eqn:E; [|lia]. exfalso. apply Hl. apply sb.from_is_Some. eauto.
Qed.

Lemma static_bytes_observable_witness :
  sb.eqb (MkStaticBytes (N := 4) [x01; x02; x03; x04] 2) (MkStaticBytes [x01; x02; x09; x09] 2) = true
  <-> sb.to_vector (MkStaticBytes (N := 4) [x01; x02; x03; x04] 2) =
      sb.to_vector (MkStaticBytes (N := 4) [x01; x02; x09; x09] 2).
Proof.
  refine (proj1 (static_bytes_observable 4 (MkStaticBytes [x01; x02; x03; x04] 2)
    (MkStaticBytes [x01; x02; x09; x09] 2) [] _ _)); split; simpl; lia.
Defined.

(** ** Signatures and key agreement *)

Section crypto.
Context {ossl : OpenSSL} {ossl_ok : OpenSSLOk}.

(** on every curve, a signature made with a private key verifies under its public
    key, and both components are encoded at the curve's width. *)
Theorem ecdsa_sign_verify c priv pub dig g sig g' :
  is_keypair c priv pub ->
  crypto.ecdsa_sign_digest_curve priv dig c g = (Some sig, g') ->
  crypto.ecdsa_verify_digest_curve pub dig sig c = true /\
  length (sb.to_vector (sig_r sig)) = scalar_len c /\
  length (sb.to_vector (sig_s sig)) = scalar_len c.
Proof. intros H1 H2. by destruct (crypto_facts.sign_then_verify _ _ _ _ _ _ _ H1 H2) as (? & ? & ? & _). Qed.

(** two parties derive the same ECDH secret, also when each is given the other's
    key in compressed form. *)
Theorem ecdh_agreement c priv1 b1 priv2 b2 :
  encodes_key c priv1 b1 -> encodes_key c priv2 b2 ->
  crypto.ecdh_derive_curve priv1 b2 c = crypto.ecdh_derive_curve priv2 b1 c.
Proof.
  intros (p1 & H1 & E1)%crypto_facts.encodes_key_ecdh (p2 & H2 & E2)%crypto_facts.encodes_key_ecdh.
  rewrite E1, E2. by apply crypto_facts.ecdh_agree.
Qed.

(** C33: provided the SHA-256 digest never fails and fewer than 2^32 - 1 bytes are asked
    for, KDF2 terminates and returns exactly the first [out_len] bytes of the stream
    SHA-256(secret || 1 || P1) || SHA-256(secret || 2 || P1) || ..., whose counters
    are pairwise distinct on the wire. With a digest that always fails the loop does
    not end, after any number of rounds, unless no bytes are asked for. *)
Theorem kdf2_correct ss p1 n :
  (ecies.digest_total -> (Z.of_nat n < 2 ^ 32 - 1)%Z ->
   ecies.kdf2_sha256 ss p1 n = Some (take n (ecies.kdf2_stream ss p1 1 n))) /\
  (forall i j, in_u32 i -> in_u32 j -> ecies.ctr_bytes i = ecies.ctr_bytes j -> i = j) /\
  ((forall d, EVP_Digest EVP_sha256 d = None) -> 0 < n ->
   forall fuel, ecies.kdf2_loop fuel ss p1 n [] 1 = None).
Proof.
  split_and!; [apply ecies.kdf2_spec|apply ecies.ctr_bytes_inj|].
  intros Hd Hn fuel. by apply ecies.kdf2_never_ends.
Qed.

(** C32: decrypting with the recipient's private key and the same P1 recovers the
    plaintext; the recipient's key may have been given in either encoding. *)
Theorem ecies_round_trip c priv b pt p1 g e g' :
  encodes_key c priv b ->
  ecies.ecies_encrypt_curve b pt p1 c g = (Some e, g') ->
  ecies.ecies_decrypt_curve priv e p1 c = Some pt.
Proof.
  intros Hk He. destruct (ecies.encrypt_encodes c priv b pt p1 g Hk) as (pub & Hkp & Heq).
  rewrite Heq in He. by eapply ecies.decrypt_encrypt.
Qed.

(** [ecies_decrypt] only returns a plaintext when the encapsulated key carries
    the HMAC tag computed with the key derived from the shared secret, and the
    plaintext is what CCM opens under the unwrapped key. *)
Theorem ecies_decrypt_authentic priv e p1 c pt :
  ecies.ecies_decrypt_curve priv e p1 c = Some pt ->
  exists ss ko, crypto.ecdh_derive_curve priv (ephemeral_pubkey e) c = Some ss /\
    ecies.kdf2_sha256 ss p1 (kAesKeyLen + kP256ScalarLen) = Some ko /\
    tag_kdf e = take kAesKeyLen
      (default (zeros kSha256Len) (HMAC_sha256 (drop kAesKeyLen ko) (encrypted_key e))) /\
    length (encrypted_key e) = kAesKeyLen /\
    ecies.aes_128_ccm_decrypt (xor_bytes (take kAesKeyLen ko) (encrypted_key e))
      (nonce_ccm e) (ecies_ciphertext e) (tag_ccm e) = Some pt.
Proof.
  intros H. destruct (ecies.decrypt_authentic _ _ _ _ _ H) as (ss & ko & H'). destruct_and! H'.
  by exists ss, ko.
Qed.

(** the EncryptedData structure [build_encrypted_data] makes of an ECIES result
    (ephemeral key compressed, ciphertext and tag joined) opens again under the
    recipient's private key. *)
Theorem encrypted_data_round_trip priv b pt p1 cert c g e g' :
  is_p256_size c = true -> encodes_key c priv b ->
  ecies.ecies_encrypt_curve b pt p1 c g = (Some e, g') ->
  exists ed, enc.build_encrypted_data e cert c =
      MkIeee1609Dot2Data kIeee1609Dot2Version (Some (encryptedData (Some ed))) /\
    enc.open_request ed priv p1 = Some pt /\
    (p1 = [] -> forall k, enc.decrypt_encrypted_content (Some ed) priv k = Some pt).
Proof.
  intros Hc Hk He. destruct (ecies.encrypt_encodes c priv b pt p1 g Hk) as (pub & Hkp & Heq).
  rewrite Heq in He. eexists. split; [done|]. split; [by eapply enc.open_built|].
  intros -> k. by eapply enc.decrypt_built.
Qed.

End crypto.

(** a public key 0x04 || X || Y encodes to a curve point that reads back as its
    compressed form, on both sizes, with the tag given by the parity of Y. *)
Theorem curve_point_round_trip x y :
  (length x = kP256ScalarLen -> length y = kP256ScalarLen ->
   exists p, point.from_sec1 (x04 :: x ++ y) = Some p /\ point.to_sec1 (Some p) = y_tag y :: x) /\
  (length x = kP384ScalarLen -> length y = kP384ScalarLen ->
   exists p, point.from_sec1_384 (x04 :: x ++ y) = Some p /\
     point.to_sec1_384 (Some p) = y_tag y :: x).
Proof. split; intros; [by apply point.to_sec1_from_sec1|by apply point.to_sec1_from_sec1_384]. Qed.

Lemma curve_point_round_trip_witness :
  exists p, point.from_sec1 (x04 :: zeros 32 ++ replicate 32 x03) = Some p /\
    point.to_sec1 (Some p) = y_tag (replicate 32 x03) :: zeros 32.
Proof.
  refine (proj1 (curve_point_round_trip (zeros 32) (replicate 32 x03)) _ _); reflexivity.
Defined.

Section signature_node.
Context {ossl : OpenSSL}.

(** the signature node [build_asn_signature] makes reads back, with
    [extract_sig], as the two components; the curve is that of the signer, except
    that NistP384 comes back as BrainpoolP384r1. *)
Theorem signature_node_round_trip sig c out :
  sb.wf (sig_r sig) -> sb.wf (sig_s sig) ->
  length (sb.to_vector (sig_r sig)) = scalar_len c ->
  length (sb.to_vector (sig_s sig)) = scalar_len c ->
  point.extract_sig (Some (sign.build_asn_signature sig c)) out =
  (true, point.MkSigRS (sb.to_vector (sig_r sig)) (sb.to_vector (sig_s sig)) (sign.wire_curve c)).
Proof. apply sign.extract_build_signature. Qed.

End signature_node.

Section crypto_witness.
#[local] Existing Instance ToyOpenSSL.

Definition w_sig : Signature :=
  MkSignature (default (sb.default_ _) (sb.from _ (replicate 32 x05)))
    (default (sb.default_ _) (sb.from _ (replicate 32 x06))).

Lemma signature_node_round_trip_witness :
  point.extract_sig (Some (sign.build_asn_signature w_sig BrainpoolP256r1)) point.SigRS_default =
  (true, point.MkSigRS (replicate 32 x05) (replicate 32 x06) BrainpoolP256r1).
Proof.
  refine (signature_node_round_trip w_sig BrainpoolP256r1 point.SigRS_default _ _ _ _);
    try (split; vm_compute; lia); vm_compute; reflexivity.
Defined.

Lemma ecdsa_sign_verify_witness :
  exists sig, crypto.ecdsa_sign_digest_curve (s_priv 5) (zeros 32) NistP256 0%Z = (Some sig, 0%Z) /\
    crypto.ecdsa_verify_digest_curve (s_pub 5) (zeros 32) sig NistP256 = true.
Proof.
  eexists. split; [vm_compute; reflexivity|].
  eapply (ecdsa_sign_verify (ossl := ToyOpenSSL) NistP256 (s_priv 5) (s_pub 5) (zeros 32) 0%Z _ 0%Z).
  - exact s_keypair_rca.
  - vm_compute. reflexivity.
Defined.

Lemma ecdh_agreement_witness :
  crypto.ecdh_derive_curve (s_priv rca_d) (s_pub ea_d) NistP256 =
  crypto.ecdh_derive_curve (s_priv ea_d) (s_pub rca_d) NistP256.
Proof.
  apply (ecdh_agreement (ossl := ToyOpenSSL)); apply crypto_facts.is_keypair_encodes.
  - exact s_keypair_rca.
  - exact s_keypair_ea.
Defined.

Lemma kdf2_correct_witness :
  ecies.kdf2_sha256 [x01] [x02] 48 = Some (take 48 (ecies.kdf2_stream [x01] [x02] 1 48)).
Proof.
  refine (proj1 (kdf2_correct (ossl := ToyOpenSSL) [x01] [x02] 48) _ _).
  - intros d. eexists. reflexivity.
  - lia.
Defined.

Definition w_ecies : EciesEncryptResult :=
  default (MkEciesEncryptResult [] [] [] [] [] [] [])
    (fst (ecies.ecies_encrypt_curve (s_pub ea_d) [x68; x69] [x01] NistP256 30%Z)).

Lemma ecies_round_trip_witness :
  ecies.ecies_decrypt_curve (s_priv ea_d) w_ecies [x01] NistP256 = Some [x68; x69].
Proof.
  eapply (ecies_round_trip (ossl := ToyOpenSSL) NistP256 (s_priv ea_d) (s_pub ea_d) [x68; x69] [x01]
    30%Z w_ecies 33%Z).
  - apply crypto_facts.is_keypair_encodes. exact s_keypair_ea.
  - vm_compute. reflexivity.
Defined.

Lemma ecies_decrypt_authentic_witness :
  exists ss ko, crypto.ecdh_derive_curve (s_priv ea_d) (ephemeral_pubkey w_ecies) NistP256 = Some ss /\
    ecies.kdf2_sha256 ss [x01] (kAesKeyLen + kP256ScalarLen) = Some ko /\
    tag_kdf w_ecies = take kAesKeyLen
      (default (zeros kSha256Len) (HMAC_sha256 (drop kAesKeyLen ko) (encrypted_key w_ecies))) /\
    length (encrypted_key w_ecies) = kAesKeyLen /\
    ecies.aes_128_ccm_decrypt (xor_bytes (take kAesKeyLen ko) (encrypted_key w_ecies))
      (nonce_ccm w_ecies) (ecies_ciphertext w_ecies) (tag_ccm w_ecies) = Some [x68; x69].
Proof. apply ecies_decrypt_authentic. vm_compute. reflexivity. Defined.

Lemma encrypted_data_round_trip_witness :
  exists ed, enc.build_encrypted_data w_ecies CertInfo_empty NistP256 =
      MkIeee1609Dot2Data kIeee1609Dot2Version (Some (encryptedData (Some ed))) /\
    enc.open_request ed (s_priv ea_d) [x01] = Some [x68; x69] /\
    ([x01] = [] -> forall k, enc.decrypt_encrypted_content (Some ed) (s_priv ea_d) k = Some [x68; x69]).
Proof.
  refine (encrypted_data_round_trip (ossl := ToyOpenSSL) (s_priv ea_d) (s_pub ea_d) [x68; x69] [x01]
    CertInfo_empty NistP256 30%Z w_ecies 33%Z _ _ _).
  - reflexivity.
  - apply crypto_facts.is_keypair_encodes. exact s_keypair_ea.
  - vm_compute. reflexivity.
Defined.

End crypto_witness.

(** ** HTTP *)

Section http.
Context {tr : Transport}.

(** C34: with at most 32 retries (beyond, the code shifts by the width of the integer,
    which is undefined) the retry loop terminates on every network behaviour, after at
    least one and at most [max_retries + 1] transfers; it stops at the first decisive
    one, sleeps [retry_backoff * 2^i] before the [i+1]-th retry, and a response with
    status 429 or 5xx is only ever returned when every retry has been used. *)
Theorem http_retry_policy opts cfg n :
  max_retries cfg <= 32 ->
  exists ts res n',
    http.perform_with_retry opts cfg n = Some (res, http.backoffs cfg 0 (length ts - 1), n') /\
    1 <= length ts <= S (max_retries cfg) /\
    Forall (fun t => http.attempt_outcome t = None) (droplast 1 ts) /\
    http.retries opts (max_retries cfg) n ts res n' /\
    match res with
    | Ok resp => exists t, list.last ts = Some t /\ t_result t = CURLE_OK /\
        resp = http.attempt_response t /\
        ((status_code resp < 500 /\ status_code resp <> 429)%Z \/ length ts = S (max_retries cfg))
    | Err e => e = Network
    end.
Proof.
  intros Hm. destruct (http.perform_with_retry_total opts cfg n Hm) as (ts & res & n' & Hr & Hp).
  exists ts, res, n'. split_and!; try done.
  - apply http.retries_bound in Hr. lia.
  - apply http.retries_bound in Hr. lia.
  - by eapply http.retries_undecided.
  - destruct res as [resp|e]; [by apply http.retries_ok in Hr|]. clear Hp Hm.
    remember (Err e) as res eqn:He. induction Hr as [? ? t ? ? _ Ho|? t ? _ _|]; simplify_eq; [| |auto].
    + unfold http.attempt_outcome in Ho. repeat case_match; simplify_eq; done.
    + by destruct (_ =? 0)%Z; simplify_eq.
Qed.

End http.

(** A network that answers 503 once and then refuses connections. *)
Definition flaky : Transport := {|
  net := nat;
  curl_easy_init n := (true, n);
  curl_easy_perform _ n :=
    (match n with
     | O => MkTransfer CURLE_OK 503 [] []
     | S _ => MkTransfer CURLE_COULDNT_CONNECT 0 [] []
     end, S n);
|}.

Lemma http_retry_policy_witness :
  max_retries (default_config "" 30 true) <= 32 /\
  exists (ts : list transfer) res n',
    http.perform_with_retry (tr := flaky) (http.apply_common_opts "http://ea" None [] (default_config "" 30 true))
      (default_config "" 30 true) 0
    = Some (res, http.backoffs (default_config "" 30 true) 0 (length ts - 1), n').
Proof.
  split; [vm_compute; lia|].
  destruct (http_retry_policy (tr := flaky)
    (http.apply_common_opts "http://ea" None [] (default_config "" 30 true)) (default_config "" 30 true) 0)
    as (ts & res & n' & Hp & _); [vm_compute; lia|]. by exists ts, res, n'.
Defined.

(** The 34th transfer of a configuration that allows more is never made. *)
Definition unreachable : Transport := {|
  net := nat;
  curl_easy_init n := (true, n);
  curl_easy_perform _ n := (MkTransfer CURLE_COULDNT_CONNECT 0 [] [], S n);
|}.

Lemma http_retry_shift_undefined :
  http.perform_with_retry (tr := unreachable)
    (http.apply_common_opts "http://ea" None [] (default_config "" 30 true))
    (MkHttpClientConfig "" 30 true 10 33 500) 0 = None.
Proof. vm_compute. reflexivity. Qed.

(** a server that answers 503 and then drops off the network yields
    [Error::Network], although a response was obtained: each attempt resets the
    status, so only the last attempt counts. *)
Theorem http_earlier_response_lost :
  http.perform_with_retry (tr := flaky) (http.apply_common_opts "http://ea" None [] (default_config "" 30 true))
    (default_config "" 30 true) 0 = Some (Err Network, [500; 1000]%Z, 3).
Proof. vm_compute. reflexivity. Qed.

(** ** Key store *)

(** a string makes a key handle exactly when it is not empty, at most 64 bytes
    long and made of letters, digits, '_' and '-'; the handle prints as that string,
    which contains no path separator, no dot and no NUL. *)
Theorem key_handle_safe s :
  (is_Some (handle.from s) <->
   bytes_of_string s <> [] /\ Forall (fun c => handle.char_ok c = true) (bytes_of_string s) /\
   length (bytes_of_string s) <= 64) /\
  match handle.from s with
  | Some h => handle.id_str h = s /\
      Forall (fun c => c <> x2f /\ c <> x2e /\ c <> x00 /\ c <> x5c) (bytes_of_string s)
  | None => True
  end.
Proof.
  split; [apply handle.handle_from_is_Some|]. destruct (handle.from s) as [h|] eqn:H; [|done].
  split; [by apply handle.id_str_from|]. apply handle.handle_from_Some in H as (_ & Hf & _).
  eapply List.Forall_impl; [|exact Hf]. apply handle.char_ok_safe.
Qed.

Section keystore.
Context {S : Type} (load : S -> KeyHandle -> option KeyPair)
  (store : S -> KeyHandle -> KeyPair -> bool * S) (reliable : S -> Prop)
  {ks : KeyStoreSpec S load store reliable}.

(** Storing under [id1] and loading it and [id2] back, through the interface. *)
Lemma store_then_load s id1 id2 h1 h2 kp s' :
  reliable s ->
  handle.from id1 = Some h1 -> handle.from id2 = Some h2 -> id1 <> id2 -> pfks.kp_wf kp ->
  store s h1 kp = (true, s') ->
  (exists kp', load s' h1 = Some kp' /\ pfks.kp_equiv kp' kp) /\ load s' h2 = load s h2.
Proof. intros Hr H1 H2 Hne Hw Hs. split; [by eapply ks_load_store|by eapply (ks_load_other s id1 id2)]. Qed.

End keystore.

Section plaintext.
Context {ossl : OpenSSL} {pem : Pem} {ossl_ok : OpenSSLOk} {pem_ok : PemOk}.

(** C35: on a disk that keeps what it takes, a key pair stored in the plaintext key
    store, its public key in the uncompressed form the interface prescribes, is loaded
    back byte for byte under its handle; any other handle has another file, and loads
    what it loaded before. *)
Theorem keystore_round_trip dir fs id1 id2 h1 h2 kp fs' :
  disk.reliable (env fs) ->
  handle.from id1 = Some h1 -> handle.from id2 = Some h2 -> id1 <> id2 -> pfks.kp_wf kp ->
  pfks.store_keypair dir fs h1 kp = (true, fs') ->
  (exists kp', pfks.load_keypair dir fs' h1 = Some kp' /\ pfks.kp_equiv kp' kp) /\
  pfks.load_keypair dir fs' h2 = pfks.load_keypair dir fs h2 /\
  pfks.pem_path dir h1 <> pfks.pem_path dir h2.
Proof.
  intros Hr H1 H2 Hne Hw Hs.
  destruct (store_then_load (pfks.load_keypair dir) (pfks.store_keypair dir)
    (fun fs => disk.reliable (env fs)) fs id1 id2 h1 h2 kp fs' Hr H1 H2 Hne Hw Hs) as [Hl Ho].
  split_and!; try done. intros Heq. apply Hne. by eapply pfks.pem_path_inj.
Qed.

End plaintext.

Section plaintext_witness.
#[local] Existing Instance ToyOpenSSL.
#[local] Existing Instance ToyPem.
#[local] Existing Instance ToyPem_ok.

Definition w_kp : KeyPair :=
  MkKeyPair (default (sb.default_ _) (sb.from _ (s_pub 5))) (default (sb.default_ _) (sb.from _ (s_priv 5))).
Definition w_handle (s : string) : KeyHandle :=
  default (MkKeyHandle (sb.default_ _)) (handle.from s).
Definition w_fs : fsys := disk.blank.

Lemma keystore_round_trip_witness :
  exists kp', pfks.load_keypair "/keys" (pfks.store_keypair "/keys" w_fs (w_handle "ec") w_kp).2
    (w_handle "ec") = Some kp' /\ pfks.kp_equiv kp' w_kp.
Proof.
  refine (proj1 (keystore_round_trip (ossl := ToyOpenSSL) "/keys" w_fs "ec" "at-1" (w_handle "ec")
    (w_handle "at-1") w_kp _ _ _ _ _ _ _)).
  - exact disk.no_faults_reliable.
  - vm_compute. reflexivity.
  - vm_compute. reflexivity.
  - discriminate.
  - split_and!; [split; vm_compute; lia..|vm_compute; reflexivity].
  - vm_compute. reflexivity.
Defined.

End plaintext_witness.
