(* ===== verification/ClientProps.v ===== *)
(** Properties of the client facade: enrolment, authorization, discovery, CRLs, and
    the invariant of the object over any sequence of calls. *)
From stdpp Require Import gmap relations.
From S2P Require Import Prelude Result Sizes StaticBytes Asn OpenSSL CryptoEc Ecies Concrete.
From S2P Require Import CertParse SignedMessage EncryptedData Revocation TrustChain TrustList.
From S2P Require Import Request EcRequest AtRequest Http Disk KeyStore PkiClient Scenario MessageProps.
Import scenario.

Section client.
Context {ossl : OpenSSL} {tr : Transport} {pem : Pem}.
Context {cb : Codec CertificateBase} {tb : Codec ToBeSignedCertificate} {junk : Uninit}.
Context {dc : Codec Ieee1609Dot2Data} {tc : Codec ToBeSignedData}.
Context {ec : Codec EtsiTs102941Data} {xc : Codec EtsiTs103097Certificate}.
Context {eq_ : Codec InnerEcRequest} {er : Codec InnerEcResponse}.
Context {pc : Codec PublicVerificationKey} {sc : Codec SharedAtRequest}.
Context {aq : Codec InnerAtRequest} {ar : Codec InnerAtResponse} {hjunk : UninitHmac}.

(** A certificate that chains to a root of the client's store at a clock reading. *)
Definition chain_valid (c : client) (ci : CertInfo) (now_us : Z) : Prop :=
  exists n, 1 <= n <= 2 /\
    chain.trusted (trust c) (fun _ => revocation c)
      (chain.current_tai_seconds (pki.unix_seconds now_us)) n ci.

Lemma validate_chain_valid c ci t : pki.validate c ci t = true -> chain_valid c ci t.
Proof. intros [H|H]%chain.validate_chain_iff; [exists 1|exists 2]; auto. Qed.

Lemma chain_valid_validate c ci t : chain_valid c ci t -> pki.validate c ci t = true.
Proof.
  intros (n & Hn & H). apply chain.validate_chain_iff.
  assert (n = 1 \/ n = 2) as [->| ->] by lia; auto.
Qed.

(** The state after installing one certificate: nothing else has changed but the
    generator and the network. *)
Definition installed (c c' : client) (ci : CertInfo) : Prop :=
  trust c' = chain.add_cert (trust c) ci /\ config c' = config c /\ revocation c' = revocation c /\
  topology c' = topology c /\ keystore c' = keystore c /\ c_fs c' = c_fs c.

Lemma same_installed c c1 ci : pki.same_impl c c1 -> installed c (pki.trust_add c1 ci) ci.
Proof. intros (? & ? & Ht & ? & ? & ? & ?). unfold installed. simpl. by rewrite Ht. Qed.

(** C3: enrolment. If [request_enrolment_credential] returns a certificate, it is the
    one in an answer with code Ok that the requested EA signed over the request that
    was posted, it chains to a trusted root at the time of the check, and it is the
    only change to the client; if it returns an error, the client is unchanged. *)
Theorem enrolment_correct canonical rec now c r c' :
  pki.request_enrolment_credential canonical rec now c = (r, c') ->
  match r with
  | Ok cert =>
      exists kp ea req resp c1 inner s,
        pki.enrolment_exchange canonical rec now c kp ea req resp c1 /\
        signed_answer (body resp) (sb.to_vector (kp_private_key kp))
          (sb.to_vector (ec_request_aes_key req)) x81 ea s /\
        coer.decode s = Some inner /\
        answers (ecr_requestHash inner) (sb.to_vector (ec_encoded req)) /\
        EnrolmentResponseCode_of_int (ecr_responseCode inner) = EC_Ok /\
        (exists cs, ecr_certificate inner = Some cs /\
           cert = set_label (set_label (cert.from_struct cs (coer.encode cs)) "ec_response") "ec") /\
        chain_valid c cert (now 3) /\ installed c c' cert
  | Err _ => pki.same_impl c c'
  end.
Proof.
  intros [(e & -> & Hs)|(kp & ea & req & resp & ecr & ci & c1 & Hx & Hd & Hco & Hci & -> & Hs & Hv &
    ->)]%pki.request_ec_cases; [done|].
  apply ec.decode_ec_response_sound in Hd
    as (v & ed & pt & m & inner & s & H1 & H2 & H3 & H4 & H5 & H6 & H7 & H8 & H9 & H10 & H11).
  exists kp, ea, req, resp, c1, inner, s.
  split_and!; try done; [by exists v, ed, pt, m|congruence| | |].
  - rewrite Hci in H11. destruct (ecr_certificate inner) as [cs|]; [|done].
    exists cs. split; [done|]. injection H11 as ->. done.
  - by apply validate_chain_valid.
  - by apply same_installed.
Qed.

(** C4: authorization. The same for [request_authorization_ticket] and the requested
    AA: a returned ticket comes out of an answer with code Ok that the AA signed over
    the request, chains to a trusted root, and is the only change; an error changes
    nothing. *)
Theorem authorization_correct ec_handle ec_cert at_handle rec now c r c' :
  pki.request_authorization_ticket ec_handle ec_cert at_handle rec now c = (r, c') ->
  match r with
  | Ok cert =>
      exists kp aa req resp c1 inner s,
        pki.authorization_exchange ec_handle ec_cert at_handle rec now c kp aa req resp c1 /\
        signed_answer (body resp) (sb.to_vector (kp_private_key kp))
          (sb.to_vector (at_request_aes_key req)) x83 aa s /\
        coer.decode s = Some inner /\
        answers (atr_requestHash inner) (sb.to_vector (at_encoded req)) /\
        AuthorizationResponseCode_of_int (atr_responseCode inner) = AT_Ok /\
        (exists cs, atr_certificate inner = Some cs /\
           cert = set_label (set_label (cert.from_struct cs (coer.encode cs)) "at_response") "at") /\
        chain_valid c cert (now 3) /\ installed c c' cert
  | Err _ => pki.same_impl c c'
  end.
Proof.
  intros [(e & -> & Hs)|(kp & aa & req & resp & atr & ci & c1 & Hx & Hd & Hco & Hci & -> & Hs & Hv &
    ->)]%pki.request_at_cases; [done|].
  apply at_.decode_at_response_sound in Hd
    as (v & ed & pt & m & inner & s & H1 & H2 & H3 & H4 & H5 & H6 & H7 & H8 & H9 & H10 & H11).
  exists kp, aa, req, resp, c1, inner, s.
  split_and!; try done; [by exists v, ed, pt, m|congruence| | |].
  - rewrite Hci in H11. destruct (atr_certificate inner) as [cs|]; [|done].
    exists cs. split; [done|]. injection H11 as ->. done.
  - by apply validate_chain_valid.
  - by apply same_installed.
Qed.

(** C6: enrolment completes. When the posted request reaches the EA and the EA's
    genuine answer to it carries code Ok and a certificate that chains to a trusted
    root, [request_enrolment_credential] returns that certificate and files it. *)
Theorem enrolment_succeeds {dc_ok : CodecOk Ieee1609Dot2Data} {er_ok : CodecOk InnerEcResponse}
    {ossl_ok : OpenSSLOk} canonical rec now c kp ea req resp c1 inner cs :
  pki.enrolment_exchange canonical rec now c kp ea req resp c1 ->
  genuine_answer (body resp) (sb.to_vector (ec_request_aes_key req)) x81 ea (coer.encode inner) ->
  coer.encode inner <> [] -> answers (ecr_requestHash inner) (sb.to_vector (ec_encoded req)) ->
  EnrolmentResponseCode_of_int (ecr_responseCode inner) = EC_Ok ->
  ecr_certificate inner = Some cs ->
  let cert := set_label (cert.from_struct cs (coer.encode cs)) "ec" in
  chain_valid c cert (now 3) ->
  pki.request_enrolment_credential canonical rec now c = (Ok cert, pki.trust_add c1 cert).
Proof.
  intros Hx (spriv & t & g & env & g' & nonce & ccm & psk & Hg) Hin (Ha1 & Ha2 & Ha3) Hco Hcs cert Hv.
  destruct_and! Hg. edestruct (ec.decode_ec_response_complete (body resp)
    (sb.to_vector (kp_private_key kp))) as (ecr & Hd & Hc & Hci); [eassumption..|].
  rewrite Hcs in Hci. rewrite <- Hc in Hco.
  exact (pki.request_ec_complete _ _ _ _ _ _ _ _ _ _ _ Hx Hd Hco Hci (chain_valid_validate _ _ _ Hv)).
Qed.

(** C7: authorization completes. The same for [request_authorization_ticket] and a
    genuine answer of the AA. *)
Theorem authorization_succeeds {dc_ok : CodecOk Ieee1609Dot2Data} {ar_ok : CodecOk InnerAtResponse}
    {ossl_ok : OpenSSLOk} ec_handle ec_cert at_handle rec now c kp aa req resp c1 inner cs :
  pki.authorization_exchange ec_handle ec_cert at_handle rec now c kp aa req resp c1 ->
  genuine_answer (body resp) (sb.to_vector (at_request_aes_key req)) x83 aa (coer.encode inner) ->
  coer.encode inner <> [] -> answers (atr_requestHash inner) (sb.to_vector (at_encoded req)) ->
  AuthorizationResponseCode_of_int (atr_responseCode inner) = AT_Ok ->
  atr_certificate inner = Some cs ->
  let cert := set_label (cert.from_struct cs (coer.encode cs)) "at" in
  chain_valid c cert (now 3) ->
  pki.request_authorization_ticket ec_handle ec_cert at_handle rec now c
    = (Ok cert, pki.trust_add c1 cert).
Proof.
  intros Hx (spriv & t & g & env & g' & nonce & ccm & psk & Hg) Hin (Ha1 & Ha2 & Ha3) Hco Hcs cert Hv.
  destruct_and! Hg. edestruct (at_.decode_at_response_complete (body resp)
    (sb.to_vector (kp_private_key kp))) as (atr & Hd & Hc & Hci); [eassumption..|].
  rewrite Hcs in Hci. rewrite <- Hc in Hco.
  exact (pki.request_at_complete _ _ _ _ _ _ _ _ _ _ _ _ _ Hx Hd Hco Hci
    (chain_valid_validate _ _ _ Hv)).
Qed.

(** C8: discovery. Whatever the network answers, [discover_trust] only files
    certificates with a proof of origin: the one the TLM endpoint answered with,
    those in an ECTL that verifies under its key, and those in a CTL that verifies
    under the key of a root CA of such an ECTL; no identifier is removed. It only
    changes the service URLs and the topology when it succeeds, and then every
    certificate of the topology has such a proof and the TLM and all root CAs are in
    the store; it does not succeed, and changes nothing, without an answer from the
    TLM endpoint. *)
Theorem discovery_provenance now c r c' :
  pki.discover_trust now c = (r, c') ->
  (pki.same_impl c c' /\ has_value r = false) \/
  (exists tlm_cert,
    pki.tlm_fetched c tlm_cert /\ revocation c' = revocation c /\
    dom (certs_ (trust c)) ⊆ dom (certs_ (trust c')) /\
    (forall h ci, certs_ (trust c') !! h = Some ci ->
       certs_ (trust c) !! h = Some ci \/ (pki.discovered tlm_cert ci /\ hashed_id_8 ci = h)) /\
    match r with
    | Ok t => topology c' = Some t /\ pki.topo_inv tlm_cert t /\ ctl_signature_verified t = true /\
        (forall ci, ci ∈ tlm_cert :: rcas t -> hashed_id_8 ci ∈ dom (certs_ (trust c')))
    | Err _ => config c' = config c /\ topology c' = topology c
    end).
Proof.
  intros H%pki.discover_trust_cases. destruct r as [t|e].
  - destruct H as (tlm_cert & c1 & ea & aa & Hf & Hi & Hv & Hg & Hd & ->). right.
    destruct Hg as (_ & _ & _ & Hr & _ & _ & _ & Hdom & Hp). exists tlm_cert. by split_and!.
  - destruct H as [Hs|(tlm_cert & Hf & Hg)]; [by left|right].
    destruct Hg as (Hc & _ & _ & Hr & Htop & _ & _ & Hdom & Hp). exists tlm_cert. by split_and!.
Qed.


(** C10: over any sequence of public calls, with any arguments, any network and any
    clock, a client keeps its trust store pointed at its own revocation store and
    files every certificate under its own identifier. *)
Theorem client_invariant cfg dir g n fs c :
  rtc pki.step (pki.create cfg dir g n fs) c ->
  revocation_ (trust c) = Some revocation_loc /\
  (forall h ci, chain.find_by_hashed_id_8 (trust c) h = Some ci -> hashed_id_8 ci = h).
Proof.
  intros [Hp Hk]%pki.client_inv_reachable. split; [done|]. intros h ci Hci. by apply Hk.
Qed.

End client.

Section client_witness.
#[local] Existing Instance ToyOpenSSL.
#[local] Existing Instance ToyPem.
#[local] Existing Instance s_net.
#[local] Existing Instance s_tbs_codec.
#[local] Existing Instance s_cert_codec.
#[local] Existing Instance s_uninit.
#[local] Existing Instance s_tbsdata_codec.
#[local] Existing Instance s_data_codec.
#[local] Existing Instance s_etsi_codec.
#[local] Existing Instance s_etsi_cert_codec.
#[local] Existing Instance s_inner_ec_codec.
#[local] Existing Instance s_ec_response_codec.
#[local] Existing Instance s_pvk_codec.
#[local] Existing Instance s_shared_codec.
#[local] Existing Instance s_inner_at_codec.
#[local] Existing Instance s_at_response_codec.
#[local] Existing Instance s_uninit_hmac.

Lemma enrolment_correct_witness :
  exists cert c',
    pki.request_enrolment_credential (s_handle "its") s_ec_record s_clock (s_client 30) = (Ok cert, c') /\
    exists kp ea req resp c1 inner s,
      pki.enrolment_exchange (s_handle "its") s_ec_record s_clock (s_client 30) kp ea req resp c1 /\
      signed_answer (body resp) (sb.to_vector (kp_private_key kp))
        (sb.to_vector (ec_request_aes_key req)) x81 ea s /\
      coer.decode s = Some inner /\
      answers (ecr_requestHash inner) (sb.to_vector (ec_encoded req)) /\
      EnrolmentResponseCode_of_int (ecr_responseCode inner) = EC_Ok /\
      (exists cs, ecr_certificate inner = Some cs /\
         cert = set_label (set_label (cert.from_struct cs (coer.encode cs)) "ec_response") "ec") /\
      chain_valid (s_client 30) cert (s_clock 3) /\ installed (s_client 30) c' cert.
Proof.
  destruct (run_ok _ s_enrol_ok) as (cert & c' & H). exists cert, c'. split; [exact H|].
  exact (enrolment_correct _ _ _ _ _ _ H).
Defined.

Lemma authorization_correct_witness :
  exists cert c',
    pki.request_authorization_ticket (s_handle "its") ec_ci (s_handle "at") s_at_record s_clock
      (s_client 34) = (Ok cert, c') /\
    exists kp aa req resp c1 inner s,
      pki.authorization_exchange (s_handle "its") ec_ci (s_handle "at") s_at_record s_clock
        (s_client 34) kp aa req resp c1 /\
      signed_answer (body resp) (sb.to_vector (kp_private_key kp))
        (sb.to_vector (at_request_aes_key req)) x83 aa s /\
      coer.decode s = Some inner /\
      answers (atr_requestHash inner) (sb.to_vector (at_encoded req)) /\
      AuthorizationResponseCode_of_int (atr_responseCode inner) = AT_Ok /\
      (exists cs, atr_certificate inner = Some cs /\
         cert = set_label (set_label (cert.from_struct cs (coer.encode cs)) "at_response") "at") /\
      chain_valid (s_client 34) cert (s_clock 3) /\ installed (s_client 34) c' cert.
Proof.
  destruct (run_ok _ s_authorize_ok) as (cert & c' & H). exists cert, c'. split; [exact H|].
  exact (authorization_correct _ _ _ _ _ _ _ _ H).
Defined.

Lemma run_eq {A B} (d : A) (x : Result A * B) :
  has_value x.1 = true -> x = (Ok (ok_or d x.1), x.2).
Proof. by destruct x as [[]]. Qed.

#[local] Existing Instance s_data_codec_ok.
#[local] Existing Instance s_ec_response_codec_ok.
#[local] Existing Instance s_at_response_codec_ok.
#[local] Existing Instance ToyOpenSSL_ok.

Definition w_ec_kp : KeyPair :=
  default (s_kp 0) (pfks.load_keypair (keystore (s_client 30)) (c_fs (s_client 30)) (s_handle "its")).
Definition w_ec_enc : Result EcRequestResult * rng :=
  ec.encode_ec_request (ec.assemble_ec_request s_ec_record (s_clock 0)) ea_ci
    (sb.to_vector (kp_private_key w_ec_kp)) (s_clock 1) (s_clock 2) (c_rng (s_client 30)).
Definition w_ec_req : EcRequestResult :=
  ok_or (MkEcRequestResult (sb.default_ _) (sb.default_ _)) w_ec_enc.1.
#[local] Abbreviation w_ec_post :=
  (pki.http_post (pki.set_rng (s_client 30) w_ec_enc.2) (ea_url (config (s_client 30)))
     (sb.to_vector (ec_encoded w_ec_req))).
Definition w_ec_resp : HttpResponse := ok_or (MkHttpResponse 0 [] ∅) w_ec_post.1.

Lemma w_ec_exchange :
  pki.enrolment_exchange (s_handle "its") s_ec_record s_clock (s_client 30) w_ec_kp ea_ci w_ec_req
    w_ec_resp w_ec_post.2.
Proof.
  split_and!; [vm_compute; reflexivity..|]. exists w_ec_enc.2. split_and!.
  - apply (run_eq (MkEcRequestResult (sb.default_ _) (sb.default_ _)) w_ec_enc). vm_compute. reflexivity.
  - refine (run_eq (MkHttpResponse 0 [] ∅) w_ec_post _). vm_compute. reflexivity.
  - vm_compute. reflexivity.
Qed.

Lemma enrolment_succeeds_witness :
  fst (pki.request_enrolment_credential (s_handle "its") s_ec_record s_clock (s_client 30))
  = Ok (set_label (cert.from_struct ec_struct (coer.encode ec_struct)) "ec").
Proof.
  refine (f_equal fst (enrolment_succeeds (ossl := ToyOpenSSL) (tr := s_net) _ _ _ _ _ _ _ _ _
    s_ec_response ec_struct w_ec_exchange _ _ _ _ _ _)).
  - exists (s_priv ea_d), s_now, 0%Z, (wire x50 x06), 0%Z, (zeros kAesCcmNonceLen),
      (default (MkAesCcmResult [] [])
         (ecies.aes_128_ccm_encrypt s_ec_enc.2 (zeros kAesCcmNonceLen) (wire x50 x06))), (zeros 8).
    split_and!; try (vm_compute; first [reflexivity|discriminate]). exact ea_keypair.
  - vm_compute. discriminate.
  - split_and!; vm_compute; first [reflexivity|discriminate].
  - vm_compute. reflexivity.
  - vm_compute. reflexivity.
  - apply validate_chain_valid. vm_compute. reflexivity.
Defined.

Definition w_at_kp (h : KeyHandle) : KeyPair :=
  default (s_kp 0) (pfks.load_keypair (keystore (s_client 34)) (c_fs (s_client 34)) h).
Definition w_at_desc : AtRequestDescription * rng :=
  at_.assemble_at_request s_at_record (s_clock 0) (c_rng (s_client 34)).
#[local] Abbreviation w_at_enc :=
  (at_.encode_at_request
    (pki.set_verification_key w_at_desc.1 (kp_public_key (w_at_kp (s_handle "at")))) aa_ci ea_ci ec_ci
    (sb.to_vector (kp_private_key (w_at_kp (s_handle "its"))))
    (sb.to_vector (kp_private_key (w_at_kp (s_handle "at")))) (s_clock 1) (s_clock 2) w_at_desc.2).
Definition w_at_req : AtRequestResult :=
  ok_or (MkAtRequestResult (sb.default_ _) (sb.default_ _)) w_at_enc.1.
#[local] Abbreviation w_at_post :=
  (pki.http_post (pki.set_rng (s_client 34) w_at_enc.2) (aa_url (config (s_client 34)))
     (sb.to_vector (at_encoded w_at_req))).
Definition w_at_resp : HttpResponse := ok_or (MkHttpResponse 0 [] ∅) w_at_post.1.

Lemma w_at_exchange :
  pki.authorization_exchange (s_handle "its") ec_ci (s_handle "at") s_at_record s_clock (s_client 34)
    (w_at_kp (s_handle "at")) aa_ci w_at_req w_at_resp w_at_post.2.
Proof.
  split_and!; [vm_compute; reflexivity..|].
  exists (w_at_kp (s_handle "its")), ea_ci, w_at_desc.1, w_at_desc.2, w_at_enc.2. split_and!.
  - vm_compute. reflexivity.
  - vm_compute. reflexivity.
  - apply surjective_pairing.
  - refine (run_eq (MkAtRequestResult (sb.default_ _) (sb.default_ _)) w_at_enc _). vm_compute. reflexivity.
  - refine (run_eq (MkHttpResponse 0 [] ∅) w_at_post _). vm_compute. reflexivity.
  - vm_compute. reflexivity.
Qed.

Lemma authorization_succeeds_witness :
  fst (pki.request_authorization_ticket (s_handle "its") ec_ci (s_handle "at") s_at_record s_clock
    (s_client 34))
  = Ok (set_label (cert.from_struct at_struct (coer.encode at_struct)) "at").
Proof.
  refine (f_equal fst (authorization_succeeds (ossl := ToyOpenSSL) (tr := s_net) _ _ _ _ _ _ _ _ _ _ _
    s_at_response at_struct w_at_exchange _ _ _ _ _ _)).
  - exists (s_priv aa_d), s_now, 0%Z, (wire x50 x0b), 0%Z, (zeros kAesCcmNonceLen),
      (default (MkAesCcmResult [] [])
         (ecies.aes_128_ccm_encrypt s_at_enc.2 (zeros kAesCcmNonceLen) (wire x50 x0b))), (zeros 8).
    split_and!; try (vm_compute; first [reflexivity|discriminate]). exact aa_keypair.
  - vm_compute. discriminate.
  - split_and!; vm_compute; first [reflexivity|discriminate].
  - vm_compute. reflexivity.
  - vm_compute. reflexivity.
  - apply validate_chain_valid. vm_compute. reflexivity.
Defined.

Lemma discovery_provenance_witness :
  exists t c', pki.discover_trust s_clock s_bare_client = (Ok t, c') /\
    exists tlm_cert,
      pki.tlm_fetched s_bare_client tlm_cert /\ revocation c' = revocation s_bare_client /\
      dom (certs_ (trust s_bare_client)) ⊆ dom (certs_ (trust c')) /\
      (forall h ci, certs_ (trust c') !! h = Some ci ->
         certs_ (trust s_bare_client) !! h = Some ci \/
         (pki.discovered tlm_cert ci /\ hashed_id_8 ci = h)) /\
      topology c' = Some t /\ pki.topo_inv tlm_cert t /\ ctl_signature_verified t = true /\
      (forall ci, ci ∈ tlm_cert :: rcas t -> hashed_id_8 ci ∈ dom (certs_ (trust c'))).
Proof.
  destruct (run_ok _ s_discover_ok) as (t & c' & H). exists t, c'. split; [exact H|].
  destruct (discovery_provenance _ _ _ _ H) as [[_ Hn]|Hp]; [discriminate Hn|exact Hp].
Defined.



Lemma client_invariant_witness :
  exists cert c',
    pki.request_enrolment_credential (s_handle "its") s_ec_record s_clock (s_client 30) = (Ok cert, c') /\
    revocation_ (trust c') = Some revocation_loc /\
    (forall h ci, chain.find_by_hashed_id_8 (trust c') h = Some ci -> hashed_id_8 ci = h).
Proof.
  destruct (run_ok _ s_enrol_ok) as (cert & c' & H). exists cert, c'. split; [exact H|].
  apply (client_invariant (ossl := ToyOpenSSL) (tr := s_net) s_config (Some s_dir) 30%Z 0 s_fs c').
  apply rtc_once. exact (pki.step_enrol _ _ _ _ _ _ H).
Defined.

End client_witness.
