(* ===== verification/CliProps.v ===== *)
(** Properties of the command-line client: exit codes and diagnostics, options, and
    what each exit code 0 guarantees. *)
From stdpp Require Import gmap pretty.
From S2P Require Import Prelude Result Sizes StaticBytes Asn OpenSSL CryptoEc CertParse TrustChain.
From S2P Require Import TrustList EcRequest AtRequest Http Disk KeyStore PkiClient Tool CliArgs CliIo.
From S2P Require Import SignedMessage CliCommands Concrete Scenario ToolScenario ClientProps.
Local Open Scope string_scope.

Section cli.
Context {ossl : OpenSSL} {tr : Transport} {pem : Pem}.
Context {cb : Codec CertificateBase} {tb : Codec ToBeSignedCertificate} {junk : Uninit}.
Context {dc : Codec Ieee1609Dot2Data} {tc : Codec ToBeSignedData}.
Context {ec : Codec EtsiTs102941Data} {xc : Codec EtsiTs103097Certificate}.
Context {eq_ : Codec InnerEcRequest} {er : Codec InnerEcResponse}.
Context {pc : Codec PublicVerificationKey} {sc : Codec SharedAtRequest}.
Context {aq : Codec InnerAtRequest} {ar : Codec InnerAtResponse} {hjunk : UninitHmac}.
Context {version : BuildInfo} {ijunk : UninitIssuer}.

Implicit Types w : world.

(** ** Exit codes and diagnostics *)

(** Standard error has gained a diagnostic: an error message or the usage text. *)
Definition complains w w' : Prop :=
  exists u v, w_err w' = w_err w ++ u ++ "error: " ++ v \/ w_err w' = w_err w ++ u ++ "Usage: " ++ v.

Lemma complains_after w w1 w2 : tool.appends w w1 -> complains w1 w2 -> complains w w2.
Proof.
  intros [_ [x Hx]] (u & v & H). exists (x ++ u), v. rewrite Hx in H.
  destruct H as [-> | ->]; [left|right]; by rewrite !str_app_assoc.
Qed.

Lemma complains_before w w1 w2 : complains w w1 -> tool.appends w1 w2 -> complains w w2.
Proof.
  intros (u & v & H) [_ [x Hx]]. exists u, (v ++ x). rewrite Hx.
  destruct H as [-> | ->]; [left|right]; by rewrite !str_app_assoc.
Qed.

(** A program that returns a value in [good], or one in [bad] with a diagnostic, or
    is left by an exception; output is only appended to. *)
Definition judged {A} (good bad : A -> Prop) (m : io A) : Prop := forall w,
  match m w with
  | (Ret r, w') => tool.appends w w' /\ (good r \/ (bad r /\ complains w w'))
  | (Thrown, w') => tool.appends w w'
  | _ => False
  end.

(** A handler returns 0, or 1 with a diagnostic. *)
Abbreviation handler := (judged (eq 0%Z) (eq 1%Z)).

Lemma judged_ret {A} (good bad : A -> Prop) a : good a -> judged good bad (mret a).
Proof. intros H w. simpl. split; [reflexivity|by left]. Qed.

Lemma judged_bind {A B} (good bad : B -> Prop) (m : io A) (k : A -> io B) :
  tool.quiet m -> (forall a, judged good bad (k a)) -> judged good bad (m ≫= k).
Proof.
  intros Hm Hk w. specialize (Hm w). unfold mbind, io_bind.
  destruct (m w) as [[a| | |] w1]; try done. specialize (Hk a w1).
  destruct (k a w1) as [[b| | |] w2]; try done.
  - destruct Hk as [Ha Hr]. split; [by etrans|]. destruct Hr as [?|[? Hc]]; [by left|right].
    split; [done|]. by eapply complains_after.
  - by etrans.
Qed.

(** After a diagnostic, any value in [bad] may be returned. *)
Lemma judged_diagnosed {A} (good bad : A -> Prop) s (m : io unit) a :
  str_starts "error: " s = true \/ str_starts "Usage: " s = true -> tool.quiet m -> bad a ->
  judged good bad (tool.eprint s;; m;; mret a).
Proof.
  intros Hs Hm Hb w. specialize (Hm (tool.set_err w (w_err w ++ s))).
  assert (Hc : complains w (tool.set_err w (w_err w ++ s))).
  { destruct Hs as [(u & ->)%str_starts_app|(u & ->)%str_starts_app]; exists "", u; simpl; auto. }
  assert (Ha : tool.appends w (tool.set_err w (w_err w ++ s))).
  { split; simpl; [reflexivity|by eexists]. }
  unfold mbind, io_bind. cbn [tool.eprint]. destruct (m _) as [[?| | |] w1]; try done.
  - simpl. split; [by etrans|right]. split; [done|]. by eapply complains_before.
  - by etrans.
Qed.

Lemma judged_says {A} (good bad : A -> Prop) s a :
  str_starts "error: " s = true \/ str_starts "Usage: " s = true -> bad a ->
  judged good bad (tool.eprint s;; mret a).
Proof. intros Hs Hb. by apply (judged_diagnosed good bad s (mret tt) a Hs (tool.quiet_ret tt)). Qed.

Lemma judged_error {A} (good bad : A -> Prop) s a :
  str_starts "error: " s = true -> bad a -> judged good bad (tool.eprint s;; mret a).
Proof. intros Hs. apply judged_says. by left. Qed.

Lemma handler_fail s : str_starts "error: " s = true -> handler (cli.fail s).
Proof. intros (u & ->)%str_starts_app. apply judged_error; reflexivity. Qed.

#[local] Hint Resolve judged_bind : io.
#[local] Hint Extern 1 (judged _ _ (mret _)) => apply judged_ret; reflexivity : io.
#[local] Hint Extern 2 (judged _ _ (cli.fail _)) => apply handler_fail; reflexivity : io.
#[local] Hint Extern 1 (judged _ _ (tool.eprint _;; mret _)) =>
  apply judged_error; [reflexivity|first [reflexivity|lia]] : io.

(** Split the branches of a program and find the rule of each step. *)
Ltac judge :=
  repeat first
    [ progress eauto 2 with io
    | apply judged_bind; [|intros ?]
    | apply tool.quiet_bind; [|intros ?]
    | apply tool.quiet_when
    | match goal with
      | |- context [match ?x with _ => _ end] => destruct x
      end ].

Lemma quiet_save p b : tool.quiet (cli.save p b).
Proof. unfold cli.save. judge. Qed.
Lemma quiet_plain a s : tool.quiet (cli.plain a s).
Proof. unfold cli.plain. judge. Qed.
Lemma quiet_summary s j : tool.quiet (cio.print_cert_summary s j).
Proof. apply tool.quiet_print. Qed.
Lemma quiet_canonical_keypair a c h id crv : tool.quiet (cli.canonical_keypair a c h id crv).
Proof. unfold cli.canonical_keypair, cli.plain. judge. Qed.
#[local] Hint Resolve quiet_save quiet_plain quiet_summary quiet_canonical_keypair : io.

Lemma query_handler a e : handler (cli.query a e).
Proof. unfold cli.query. judge. Qed.
Lemma info_handler a : handler (cli.cmd_info a).
Proof. unfold cli.cmd_info. judge. Qed.
Lemma lookup_handler a : handler (cli.cmd_lookup_cert a).
Proof. unfold cli.cmd_lookup_cert. judge. Qed.
Lemma verify_handler a : handler (cli.cmd_verify_hid8 a).
Proof. unfold cli.cmd_verify_hid8. judge. Qed.

Lemma load_tlm_message a fs msg : cli.load_tlm a fs = inr msg -> str_starts "error: " msg = true.
Proof.
  unfold cli.load_tlm. intros H. destruct (str_empty _); [done|].
  destruct (empty _); [by injection H as <-|]. by destruct (sb.is_empty _); [injection H as <-|].
Qed.

Lemma ectl_handler a : handler (cli.cmd_fetch_ectl a).
Proof.
  unfold cli.cmd_fetch_ectl. destruct (str_empty _); [judge|].
  apply judged_bind; [auto with io|intros [resp|e]; [|judge]].
  destruct (negb _); [judge|]. apply judged_bind; [auto with io|intros fs].
  destruct (cli.load_tlm a fs) as [tlm|msg] eqn:Hl; [judge|].
  apply handler_fail. by eapply load_tlm_message.
Qed.

Lemma discover_handler a : handler (cli.cmd_discover a).
Proof. unfold cli.cmd_discover. judge. Qed.
Lemma enrol_handler a : handler (cli.cmd_enrol a).
Proof. unfold cli.cmd_enrol, cli.enrol_with. judge. Qed.
Lemma request_at_handler a : handler (cli.cmd_request_at a).
Proof. unfold cli.cmd_request_at, cli.authorize_with. judge. Qed.

(** Each failed item adds to the count and to standard error. *)
Lemma fetch_item_judged a e f l n : judged (eq n) (lt n) (cli.fetch_item a e f l n).
Proof. unfold cli.fetch_item. judge. Qed.

Lemma fetch_loop_judged a items n : judged (eq n) (lt n) (cli.fetch_loop a items n).
Proof.
  revert n. induction items as [|[[e f] l] items IH]; intros n; cbn [cli.fetch_loop]; [judge|].
  intros w. pose proof (fetch_item_judged a e f l n w) as Hi. unfold mbind, io_bind.
  destruct (cli.fetch_item _ _ _ _ _ w) as [[n1| | |] w1]; try done. specialize (IH n1 w1).
  destruct (cli.fetch_loop _ _ _ w1) as [[n2| | |] w2]; try done; destruct Hi as [Ha Hi]; [|by etrans].
  destruct IH as [Ha' IH]. split; [by etrans|].
  destruct Hi as [<-|[Hlt Hc]], IH as [<-|[Hlt' Hc']]; [by left|right|right|right]; (split; [lia|]).
  - by eapply complains_after.
  - by eapply complains_before.
  - by eapply complains_before.
Qed.

Lemma fetch_trust_handler a : handler (cli.cmd_fetch_trust a).
Proof.
  unfold cli.cmd_fetch_trust. destruct (_ || _); [judge|]. apply judged_bind; [auto with io|intros _].
  intros w. pose proof (fetch_loop_judged a cli.fetch_items 0 w) as Hl. unfold mbind, io_bind.
  destruct (cli.fetch_loop _ _ _ w) as [[n| | |] w1]; try done. destruct Hl as [Ha Hl]. simpl.
  split; [done|]. destruct Hl as [<-|[Hlt Hc]]; [by left|right].
  by rewrite (proj2 (Nat.ltb_lt 0 n) Hlt).
Qed.

Lemma quiet_usage prog : tool.quiet (cli.usage prog).
Proof. apply tool.quiet_eprint. Qed.

Lemma dispatch_handler cmds a m :
  Forall (fun c => forall a, handler (c.1.2 a)) cmds -> handler m -> handler (cli.dispatch cmds a m).
Proof.
  induction 1 as [|[[name h] help] cmds Hh _ IH]; intros Hm; cbn [cli.dispatch]; [done|].
  destruct (_ =? _)%string; auto.
Qed.

(** C37: the exit code of the command-line client is 0 or 1, unless an exception of
    the file system escapes; the program never ends any other way, whatever the
    arguments, the network and the disk do; it only appends to its output; and exit
    code 1 always comes with an error message or the usage text on standard error. *)
Theorem cli_exit_codes argv w :
  match cli.main argv w with
  | (Ret r, w') => tool.appends w w' /\ (r = 0%Z \/ (r = 1%Z /\ complains w w'))
  | (Thrown, w') => tool.appends w w'
  | _ => False
  end.
Proof.
  assert (H : handler (cli.main argv));
    [|specialize (H w); destruct (cli.main argv w) as [[r| | |] w']; intuition congruence].
  unfold cli.main. destruct (_ <? 2)%nat.
  { apply judged_says; [right|]; reflexivity. }
  apply dispatch_handler.
  - unfold cli.kCommands. repeat constructor; intros a; simpl;
      eauto using query_handler, info_handler, discover_handler, fetch_trust_handler, lookup_handler,
        ectl_handler, verify_handler, enrol_handler, request_at_handler.
  - apply judged_diagnosed; [left; reflexivity|apply quiet_usage|done].
Qed.

(** ** Options *)

(** A required option of the command is missing. *)
Definition missing (a : Args) : bool :=
  let cmd c := (a_command a =? c)%string in
  if cmd "healthz" || cmd "version" || cmd "discover" || cmd "fetch-ectl" then str_empty (a_pki_url a)
  else if cmd "fetch-trust" then str_empty (a_pki_url a) || str_empty (a_out_dir a)
  else if cmd "lookup-cert" then str_empty (a_pki_url a) || str_empty (a_hid8 a)
  else if cmd "verify-hid8" then str_empty (a_cert_path a)
  else if cmd "enrol" || cmd "request-at" then str_empty (a_pki_url a) || str_empty (a_keystore_dir a)
  else false.

(** a command with a required option missing exits with code 1 and changes
    nothing but standard error, which gets one error line: no file, no directory, no
    connection, no key. *)
Theorem missing_options_inert argv w :
  missing (args.parse_args argv) = true ->
  exists msg, cli.main argv w = (Ret 1%Z, tool.set_err w (w_err w ++ "error: " ++ msg)).
Proof.
  unfold cli.main. destruct (Nat.ltb_spec (length argv) 2) as [Hl|_].
  { by destruct argv as [|? [|? ?]]; simpl in *; try done; try lia. }
  generalize (args.parse_args argv) as a. intros a H. unfold missing in H. cbv beta zeta in H.
  unfold cli.kCommands. cbn [cli.dispatch].
  repeat match goal with |- context [(a_command a =? ?s)%string] =>
      let E := fresh "E" in destruct (String.eqb_spec (a_command a) s) as [E|E];
      [try rewrite E in H; simpl in H; first [discriminate H|
        unfold cli.cmd_healthz, cli.cmd_version, cli.query, cli.cmd_discover, cli.cmd_fetch_trust,
          cli.cmd_lookup_cert, cli.cmd_fetch_ectl, cli.cmd_verify_hid8, cli.cmd_enrol,
          cli.cmd_request_at;
        rewrite H; eexists; reflexivity]|]
    end.
  discriminate H.
Qed.

(** the options round-trip: for every set of options there is a command line
    that [parse_args] reads back as exactly these options, whatever the values are
    (also values that look like options). *)
Theorem parse_args_round_trip prog a :
  (a_canonical_id_set a = false -> a_canonical_id a = "") ->
  args.parse_args (prog :: args.render a) = a.
Proof. apply args.parse_render. Qed.

(** ** fetch-ectl *)

Lemma load_tlm_inl a fs tlm :
  cli.load_tlm a fs = inl tlm ->
  if str_empty (a_tlm_cert a) then tlm = None
  else tlm = Some (cert.from_coer (cio.read_file (a_tlm_cert a) fs)).
Proof.
  unfold cli.load_tlm. destruct (str_empty _); [by intros [= <-]|].
  destruct (empty _); [done|]. destruct (sb.is_empty _); [done|]. by intros [= <-].
Qed.

(** C13: [fetch-ectl] never reports a list as verified that was not. When it exits with
    0 the list came from the server with status 200 and decoded; what it printed says
    "verified" exactly when a TLM certificate was given, and then the signature of the
    downloaded list verifies under the key of the certificate in that file. *)
Theorem fetch_ectl_verified a w w' :
  cli.cmd_fetch_ectl a w = (Ret 0%Z, w') ->
  exists resp n topo now,
    http.get cli.http_ (a_pki_url a ++ "/getectl" ++
      (if str_empty (a_tlm_hid8 a) then "" else "/" ++ a_tlm_hid8 a)) (w_net w) = (Ok resp, n) /\
    status_code resp = 200%Z /\
    tool.extends (w_out w ++ cli.ectl_text (a_json a) (length (body resp))
      (negb (str_empty (a_tlm_cert a))) topo) (w_out w') /\
    (if str_empty (a_tlm_cert a) then tlist.decode_ectl (body resp) [] [] now = Ok topo
     else let tlm := cert.from_coer (cio.read_file (a_tlm_cert a) (w_fs w)) in
       let pub := sb.to_vector (public_key tlm) in let coer := sb.to_vector (cert_bytes tlm) in
       tlist.decode_ectl (body resp) pub coer now = Ok topo /\
       exists m, signed_msg.unwrap (body resp) = Some m /\ signed_msg.verify m pub coer = true).
Proof.
  unfold cli.cmd_fetch_ectl. intros H. destruct (str_empty (a_pki_url a)); [done|].
  io_step H resp w1 Hg. apply tool.http_get_inv in Hg as (n & Hg & ->).
  destruct resp as [resp|e]; [|done]. destruct (status_code resp =? 200)%Z eqn:Hst; [|done].
  apply Z.eqb_eq in Hst. cbn [negb] in H. io_run H.
  destruct (cli.load_tlm _ _) as [tlm|msg] eqn:Hl; [|done]. apply load_tlm_inl in Hl.
  io_run H. set (now := pki.unix_seconds _) in H.
  destruct (cli.decode_with tlm (body resp) now) as [topo|e] eqn:Hd; [|done].
  destruct (bool_decide (is_Some tlm) && negb _) eqn:Hv in H; [done|].
  io_run H. io_step H u w2 Hs. injection H as <-.
  apply tool.quiet_run in Hs; [|judge]. destruct Hs as [Ho _]. cbn [w_out tool.set_out] in Ho.
  exists resp, n, topo, now. split; [by destruct (str_empty (a_tlm_hid8 a))|]. split; [done|].
  destruct (str_empty (a_tlm_cert a)); subst tlm; cbn [cli.decode_with] in Hd.
  { by rewrite bool_decide_eq_false_2 in Ho by (by intros []). }
  rewrite bool_decide_eq_true_2 in Hv, Ho by done. cbn [andb] in Hv, Ho.
  destruct (ectl_signature_verified topo) eqn:Hsig; [|done]. split; [done|]. split; [done|].
  apply tlist.decode_ctl_common_spec in Hd as (m & data & ctl & Hm & _ & _ & _ & _ & _ & _ & _ & Hf).
  exists m. split; [done|]. unfold tlist.flags in Hf. rewrite Hsig in Hf. injection Hf as Hf _ _.
  symmetry in Hf. by bool_props.
Qed.

(** ** enrol and request-at *)

Lemma save_inv p b w u w' :
  cli.save p b w = (Ret u, w') -> exists ok fs, cio.write_file p b (w_fs w) = (ok, fs) /\ w' = tool.set_fs w fs.
Proof.
  unfold cli.save. intros H. io_step H ok w1 Hs. injection H as _ <-.
  apply tool.on_fs_inv in Hs as (fs & Hf & ->). by exists ok, fs.
Qed.

Lemma steady_save p b : tool.steady (cli.save p b).
Proof.
  intros w. destruct (cli.save p b w) as [o w'] eqn:E. unfold cli.save, mbind, io_bind, tool.on_fs in E.
  destruct (cio.write_file p b (w_fs w)) as [ok fs] eqn:Hf. injection E as <- <-.
  by apply cio.write_file_frame in Hf as [_ Hf].
Qed.
Lemma steady_plain a s : tool.steady (cli.plain a s).
Proof. unfold cli.plain. auto with io. Qed.
Lemma steady_canonical_keypair a c h id crv : tool.steady (cli.canonical_keypair a c h id crv).
Proof.
  apply tool.steady_bind; [auto with io|]. intros [kp|].
  - apply tool.steady_bind; auto using steady_plain with io.
  - apply tool.steady_bind; [auto with io|]. intros [kp|]; [|auto with io].
    repeat (apply tool.steady_bind; [auto using steady_plain with io|intros _]). auto with io.
Qed.
#[local] Hint Resolve steady_save steady_plain steady_canonical_keypair : io.

#[local] Hint Extern 1 (tool.steady (cli.fail _)) => apply tool.steady_bind : io.
Ltac steady :=
  repeat first
    [ progress eauto 2 with io
    | apply tool.steady_bind; [|intros ?]
    | apply tool.steady_when
    | apply tool.steady_call; intros ? ?; apply pki.request_ec_fs
    | apply tool.steady_call; intros ? ?; apply pki.request_at_fs
    | match goal with
      | |- context [match ?x with _ => _ end] => destruct x
      end ].

(** The medium after a program that saved [b] and printed [s] last. *)
Lemma saved_last p b s w w' :
  disk.healthy (env (w_fs w')) -> (cli.save p b;; tool.print s;; mret 0%Z) w = (Ret 0%Z, w') ->
  files (w_fs w') !! p = Some b.
Proof.
  intros He H. io_step H u w1 Hs. apply save_inv in Hs as (ok & fs & Hf & ->).
  io_run H. injection H as <-. cbn [w_fs tool.set_out tool.set_fs] in *.
  pose proof (cio.write_file_frame _ _ _ _ _ Hf) as [_ Hev]. rewrite Hev in He.
  by eapply cio.write_file_healthy.
Qed.

Lemma plain_inv a s w u w' : cli.plain a s w = (Ret u, w') -> exists o, w' = tool.set_out w o.
Proof.
  unfold cli.plain. destruct (negb _); intros H; injection H as _ <-; [by eexists|].
  exists (w_out w). by destruct w.
Qed.

(** The disk after a file was saved. *)
Definition saved (p : string) (b : bytes) (fs : fsys) : fsys := (cio.write_file p b fs).2.

Lemma save_saved p b w u w' : cli.save p b w = (Ret u, w') -> w' = tool.set_fs w (saved p b (w_fs w)).
Proof. intros (ok & fs & Hf & ->)%save_inv. unfold saved. by rewrite Hf. Qed.

(** The world in which a client is called: a world [w] with another state of the
    network, of the generator and of the disk. *)
Definition world_with w (n : net) (g : rng) (fs : fsys) : world :=
  tool.set_fs (tool.set_rng (tool.set_net w n) g) fs.

(** The canonical key [kp]: the one the key store in [dir] holds under [h], or, when it
    holds none, a new one on the curve [crv], which is stored there.  [fs'] and [g']
    are the disk and the generator afterwards. *)
Definition canonical_key (dir : string) (h : KeyHandle) (crv : Curve) (fs : fsys) (g : rng)
    (kp : KeyPair) (fs' : fsys) (g' : rng) : Prop :=
  (pfks.load_keypair dir fs h = Some kp /\ fs' = fs /\ g' = g) \/
  (pfks.load_keypair dir fs h = None /\ crypto.generate_keypair_curve crv g = (Some kp, g') /\
   fs' = (pfks.store_keypair dir fs h kp).2).

Lemma canonical_keypair_inv a c h id crv w kp w' :
  cli.canonical_keypair a c h id crv w = (Ret (Some kp), w') ->
  exists fs g o, canonical_key (keystore c) h crv (w_fs w) (w_rng w) kp fs g /\
    w' = tool.set_out (tool.set_fs (tool.set_rng w g) fs) o.
Proof.
  unfold cli.canonical_keypair. intros H. io_run H.
  destruct (pfks.load_keypair (keystore c) (w_fs w) h) as [kp0|] eqn:Hl.
  - io_step H u w1 Hp. apply plain_inv in Hp as [o ->]. injection H as -> <-.
    exists (w_fs w), (w_rng w), o. split; [by left|]. by destruct w.
  - io_step H kp0 w1 Hg. apply tool.generate_keypair_inv in Hg as (g & Hg & ->).
    destruct kp0 as [kp0|]; [|done]. io_step H ok w2 Hst.
    unfold tool.store_keypair in Hst. apply tool.on_fs_inv in Hst as (fs & Hst & ->). io_step H u w3 Hp.
    apply plain_inv in Hp as [o ->]. injection H as -> <-. exists fs, g, o. split; [|done].
    right. cbn [w_fs tool.set_rng] in Hst. by rewrite Hst.
Qed.

(** The disk on which the client is made: the two directories exist, and the
    certificates of the EA and of the trust anchor have been saved. *)
Definition enrol_disk (a : Args) (ea_body rca_body : bytes) (fs fs' : fsys) : Prop :=
  let trust_dir := path_append (a_keystore_dir a) "trust" in
  exists fs1 fs2, disk.create_directories (a_keystore_dir a) fs = Some fs1 /\
    disk.create_directories trust_dir fs1 = Some fs2 /\
    fs' = saved (trust_dir ++ "/rca.cert") rca_body (saved (trust_dir ++ "/ea.cert") ea_body fs2).

Definition enrol_id (a : Args) : string :=
  if a_canonical_id_set a then a_canonical_id a else "v2xpki-its-s".

Lemma enrol_with_inv a c0 ea_body eu w w' :
  cli.enrol_with a c0 ea_body eu w = (Ret 0%Z, w') ->
  exists h kp fs g cert c',
    handle.from (cli.or_default (a_canonical_key a) "canonical") = Some h /\
    canonical_key (keystore c0) h (args.parse_curve (a_curve_str a)) (w_fs w) (w_rng w) kp fs g /\
    pki.request_enrolment_credential h
      (cli.enrol_record kp (cio.compute_hid8 ea_body) (args.parse_curve (a_curve_str a)) (enrol_id a))
      (w_clock w (w_ops w))
      (tool.attach c0 (world_with w (w_net w) g
         (saved (path_append (a_keystore_dir a) "canonical.id") (bytes_of_string (enrol_id a)) fs)))
      = (Ok cert, c') /\
    (disk.healthy (env (w_fs w')) ->
     files (w_fs w') !! (a_keystore_dir a ++ "/ec.cert") = Some (sb.to_vector (cert_bytes cert))).
Proof.
  unfold cli.enrol_with. fold (enrol_id a). intros H.
  destruct (handle.from _) as [h|] eqn:Hh; [|done].
  io_step H kp w1 Hkp. destruct kp as [kp|]; [|done].
  apply canonical_keypair_inv in Hkp as (fs & g & o & Hk & ->).
  io_step H u1 w2 Hp1. apply plain_inv in Hp1 as [o1 ->]. destruct (_ || _); [done|].
  io_step H u2 w3 Hs. apply save_saved in Hs as ->. io_step H u3 w4 Hp2. apply plain_inv in Hp2 as [o2 ->].
  io_step H rc w5 Hc. destruct rc as [r c']. apply tool.call_inv in Hc as (Hreq & _).
  destruct r as [cert|e]; [|done].
  exists h, kp, fs, g, cert, c'. split_and!; try done. intros He. by eapply saved_last.
Qed.

Lemma steady_enrol a : tool.steady (cli.cmd_enrol a).
Proof. unfold cli.cmd_enrol, cli.enrol_with. steady. Qed.

(** What [enrol] has to show for exit code 0, when the server's certificates have the
    bodies [ea_body] and [rca_body] and [n] is the network after they were fetched: the
    client is made on the disk of [w] with these certificates saved, the key [kp] is
    the canonical one, and [cert] is the answer to the request for it. *)
Definition enrolled (a : Args) w (ea_body rca_body : bytes) (n : net) (kp : KeyPair) (cert : CertInfo)
    : Prop :=
  exists h fs1 c0 fs2 g c',
    handle.from (cli.or_default (a_canonical_key a) "canonical") = Some h /\
    enrol_disk a ea_body rca_body (w_fs w) fs1 /\
    pki.construct (cli.enrol_config a (path_append (a_keystore_dir a) "trust")
      (cli.or_default (a_ea_url a) (a_pki_url a ++ "/ec-request"))) (w_rng w) n fs1 = Some c0 /\
    canonical_key (a_keystore_dir a) h (args.parse_curve (a_curve_str a)) (c_fs c0) (w_rng w) kp fs2 g /\
    let c := tool.attach c0 (world_with w n g
      (saved (path_append (a_keystore_dir a) "canonical.id") (bytes_of_string (enrol_id a)) fs2)) in
    let now := w_clock w (w_ops w) in
    pki.request_enrolment_credential h
      (cli.enrol_record kp (cio.compute_hid8 ea_body) (args.parse_curve (a_curve_str a)) (enrol_id a))
      now c = (Ok cert, c') /\
    chain_valid c cert (now 3).

Lemma construct_keystore cfg g n fs c : pki.construct cfg g n fs = Some c -> keystore c = keystore_dir cfg.
Proof. unfold pki.construct. destruct (pfks.open_store _ _); [|done]. by intros [= <-]. Qed.

(** C11: when [enrol] exits with 0, an enrolment credential was issued: the EA certificate
    and the trust anchor came from the server with status 200, the credential is the
    answer of [request_enrolment_credential] for the EA of that certificate and for the
    canonical key, which is the one the key store held under its handle or, when it
    held none, one generated on the curve of the options and stored there; it chains to
    a root of the client's trust directory, in which both certificates had been saved;
    and, unless the disk fails, it is in the file ec.cert. *)
Theorem enrol_command_correct a w w' :
  cli.cmd_enrol a w = (Ret 0%Z, w') ->
  exists ea_resp rca_resp n1 n2 kp cert,
    http.get cli.http_ (a_pki_url a ++ "/cert/ea") (w_net w) = (Ok ea_resp, n1) /\
    status_code ea_resp = 200%Z /\
    http.get cli.http_ (a_pki_url a ++ "/trustanchor") n1 = (Ok rca_resp, n2) /\
    status_code rca_resp = 200%Z /\
    enrolled a w (body ea_resp) (body rca_resp) n2 kp cert /\
    (disk.healthy (env (w_fs w)) ->
     files (w_fs w') !! (a_keystore_dir a ++ "/ec.cert") = Some (sb.to_vector (cert_bytes cert))).
Proof.
  intros H. assert (Hst : env (w_fs w') = env (w_fs w)).
  { eapply tool.steady_run; [|exact H]. apply steady_enrol. }
  rewrite <- Hst. revert H. unfold cli.cmd_enrol. intros H. destruct (_ || _); [done|].
  io_step H u0 w1 Hd1. io_step H u1 w2 Hd2. destruct u0, u1.
  apply tool.create_directories_inv in Hd1 as (fs1 & Hd1 & ->), Hd2 as (fs2 & Hd2 & ->).
  io_step H ea w3 Hg. apply tool.http_get_inv in Hg as (n1 & Hg1 & ->).
  destruct ea as [ea|e]; [|done]. destruct (status_code ea =? 200)%Z eqn:Hea; [|done].
  cbn [negb] in H. io_step H u2 w4 Hs1. apply save_saved in Hs1 as ->.
  io_step H u3 w5 Hp1. apply plain_inv in Hp1 as [o1 ->].
  io_step H rca w6 Hg. apply tool.http_get_inv in Hg as (n2 & Hg2 & ->). destruct rca as [rca|e]; [|done].
  cbn [cli.status_ok cli.ok_body] in H. destruct (status_code rca =? 200)%Z eqn:Hrca; [|done]. cbn [negb] in H.
  io_step H u4 w7 Hs2. apply save_saved in Hs2 as ->. io_step H u5 w8 Hp2. apply plain_inv in Hp2 as [o2 ->].
  io_step H c0 w9 Hc. apply tool.new_client_inv in Hc as [Hc ->].
  pose proof (construct_keystore _ _ _ _ _ Hc) as Hks.
  apply enrol_with_inv in H as (h & kp & fs & g & cert & c' & Hh & Hk & Hreq & Hf).
  apply Z.eqb_eq in Hea, Hrca. rewrite Hks in Hk.
  exists ea, rca, n1, n2, kp, cert. split_and!; try done.
  eexists h, _, c0, fs, g, c'. split; [done|]. split; [by exists fs1, fs2|].
  split; [exact Hc|]. split; [done|]. cbv zeta. split; [done|].
  apply pki.request_ec_cases in Hreq
    as [(e & He & _)|(? & ? & ? & ? & ? & ci & ? & _ & _ & _ & _ & He & _ & Hv & _)]; [done|].
  injection He as ->. by apply validate_chain_valid.
Qed.

Lemma steady_request_at a : tool.steady (cli.cmd_request_at a).
Proof. unfold cli.cmd_request_at, cli.authorize_with. steady. Qed.

Lemma authorize_with_inv a c0 h kp key_id path ec_bytes aa_body ea_resp au out w w' :
  cli.authorize_with a c0 h kp key_id path ec_bytes aa_body ea_resp au out w = (Ret 0%Z, w') ->
  exists ec_sb at_kp h' g cert c',
    sb.from kMaxCoerMessageLen ec_bytes = Some ec_sb /\ cli.status_ok ea_resp = true /\
    handle.from (key_id ++ "-at") = Some h' /\
    let crv := curve (cert.from_coer ec_bytes) in
    crypto.generate_keypair_curve crv (w_rng w) = (Some at_kp, g) /\
    pki.request_authorization_ticket h (cli.ec_info ec_sb ec_bytes kp) h'
      (MkAtRecord (kp_public_key at_kp) (cio.compute_hid8 aa_body) (cio.compute_hid8 (cli.ok_body ea_resp))
         [36%Z] 24 crv) (w_clock w (w_ops w))
      (tool.attach c0 (world_with w (w_net w) g (pfks.store_keypair (keystore c0) (w_fs w) h' at_kp).2))
      = (Ok cert, c') /\
    (disk.healthy (env (w_fs w')) ->
     files (w_fs w') !! (out ++ "/at.cert") = Some (sb.to_vector (cert_bytes cert))).
Proof.
  unfold cli.authorize_with. intros H. destruct (sb.from _ _) as [ec_sb|] eqn:Hsb; [|done].
  io_step H u1 w1 Hp1. apply plain_inv in Hp1 as [o1 ->].
  destruct (cli.status_ok ea_resp) eqn:Hea; [|done]. cbn [negb] in H.
  io_step H u2 w2 Hwarn. assert (exists e, w2 = tool.set_err (tool.set_out w o1) e) as [e1 ->].
  { unfold tool.when in Hwarn. destruct (_ && _); injection Hwarn as _ <-; by eexists. }
  io_step H at_kp w3 Hk. apply tool.generate_keypair_inv in Hk as (g & Hk & ->).
  destruct at_kp as [at_kp|]; [|done].
  destruct (handle.from (key_id ++ "-at")) as [h'|] eqn:Hh; [|done].
  io_step H ok w4 Hst. unfold tool.store_keypair in Hst. apply tool.on_fs_inv in Hst as (fs & Hst & ->). cbn in Hst.
  io_step H u3 w5 Hp2. apply plain_inv in Hp2 as [o2 ->]. io_step H rc w6 Hc. destruct rc as [r c'].
  apply tool.call_inv in Hc as (Hreq & _). destruct r as [cert|e]; [|done].
  exists ec_sb, at_kp, h', g, cert, c'. cbv zeta. rewrite Hst. split_and!; try done.
  intros He. by eapply saved_last.
Qed.

Lemma not_empty (b : bytes) : empty b = false -> b <> [].
Proof. by intros H ->. Qed.

(** The disk on which the client of [request-at] is made. *)
Definition authorize_disk (a : Args) (aa_body rca_body ea_body : bytes) (fs fs' : fsys) : Prop :=
  let trust_dir := path_append (a_keystore_dir a) "trust" in
  exists fs1, disk.create_directories trust_dir fs = Some fs1 /\
    fs' = saved (trust_dir ++ "/ea.cert") ea_body
      (saved (trust_dir ++ "/rca.cert") rca_body (saved (trust_dir ++ "/aa.cert") aa_body fs1)).

(** What [request-at] has to show for exit code 0: the client is made on the disk of [w]
    with the certificates of the server saved; [ec_bytes] is the file of the enrolment
    credential and [kp] the key the key store holds for it; the new key [at_kp] is
    generated on the curve of that credential and stored under the second handle; and
    [cert] is the answer to the request for it. *)
Definition authorized (a : Args) w (aa_body rca_body ea_body : bytes) (n : net) (kp at_kp : KeyPair)
    (ec_bytes : bytes) (cert : CertInfo) : Prop :=
  exists h h' fs1 c0 ec_sb g c',
    let key_id := cli.or_default (a_canonical_key a) "canonical" in
    handle.from key_id = Some h /\ handle.from (key_id ++ "-at") = Some h' /\
    authorize_disk a aa_body rca_body ea_body (w_fs w) fs1 /\
    ec_bytes = cio.read_file (cli.or_default (a_ec_cert a) (a_keystore_dir a ++ "/ec.cert")) fs1 /\
    ec_bytes <> [] /\ sb.from kMaxCoerMessageLen ec_bytes = Some ec_sb /\
    pki.construct (cli.authorize_config a (path_append (a_keystore_dir a) "trust")
      (cli.or_default (a_aa_url a) (a_pki_url a ++ "/at-request"))) (w_rng w) n fs1 = Some c0 /\
    pfks.load_keypair (a_keystore_dir a) (c_fs c0) h = Some kp /\
    let crv := curve (cert.from_coer ec_bytes) in
    crypto.generate_keypair_curve crv (w_rng w) = (Some at_kp, g) /\
    let c := tool.attach c0 (world_with w n g
      (pfks.store_keypair (a_keystore_dir a) (c_fs c0) h' at_kp).2) in
    let now := w_clock w (w_ops w) in
    pki.request_authorization_ticket h (cli.ec_info ec_sb ec_bytes kp) h'
      (MkAtRecord (kp_public_key at_kp) (cio.compute_hid8 aa_body) (cio.compute_hid8 ea_body)
         [36%Z] 24 crv) now c = (Ok cert, c') /\
    chain_valid c cert (now 3).

(** C12: when [request-at] exits with 0, an authorization ticket was issued: the AA, EA
    and root certificates came from the server with status 200, the ticket is the
    answer of [request_authorization_ticket] for these two authorities, made with the
    enrolment credential of the file the options name and its key in the key store,
    for a key generated on the curve of that credential and stored under a handle of
    its own; it chains to a root of the trust directory, in which the certificates had
    been saved; and, unless the disk fails, it is in the file at.cert. *)
Theorem request_at_command_correct a w w' :
  cli.cmd_request_at a w = (Ret 0%Z, w') ->
  exists aa_resp ea_resp rca_resp n1 n2 n3 kp at_kp ec_bytes cert,
    http.get cli.http_ (a_pki_url a ++ "/cert/aa") (w_net w) = (Ok aa_resp, n1) /\
    status_code aa_resp = 200%Z /\
    http.get cli.http_ (a_pki_url a ++ "/cert/ea") n1 = (Ok ea_resp, n2) /\
    status_code ea_resp = 200%Z /\
    http.get cli.http_ (a_pki_url a ++ "/trustanchor") n2 = (Ok rca_resp, n3) /\
    status_code rca_resp = 200%Z /\
    authorized a w (body aa_resp) (body rca_resp) (body ea_resp) n3 kp at_kp ec_bytes cert /\
    (disk.healthy (env (w_fs w)) ->
     files (w_fs w') !! (cli.or_default (a_out_dir a) (a_keystore_dir a) ++ "/at.cert")
     = Some (sb.to_vector (cert_bytes cert))).
Proof.
  intros H. assert (Hst : env (w_fs w') = env (w_fs w)).
  { eapply tool.steady_run; [|exact H]. apply steady_request_at. }
  rewrite <- Hst. revert H. unfold cli.cmd_request_at. intros H. destruct (_ || _); [done|].
  io_step H aa w1 Hg1. apply tool.http_get_inv in Hg1 as (n1 & Hg1 & ->).
  io_step H ea w2 Hg2. apply tool.http_get_inv in Hg2 as (n2 & Hg2 & ->).
  destruct aa as [aa|e]; [|done]. destruct (status_code aa =? 200)%Z eqn:Haa; [|done].
  cbn [negb] in H. io_step H u0 w3 Hd. destruct u0. apply tool.create_directories_inv in Hd as (fs1 & Hd & ->).
  io_step H u1 w4 Hs1. apply save_saved in Hs1 as ->.
  io_step H rca w5 Hg3. apply tool.http_get_inv in Hg3 as (n3 & Hg3 & ->).
  destruct rca as [rca|e]; [|done]. cbn [cli.status_ok cli.ok_body] in H.
  destruct (status_code rca =? 200)%Z eqn:Hrca; [|done]. cbn [negb] in H.
  io_step H u2 w6 Hs2. apply save_saved in Hs2 as ->. io_step H u3 w7 Hs3. io_run H.
  destruct (_ <? _)%nat; [done|]. io_step H u4 w8 Hp. apply plain_inv in Hp as [o ->]. io_run H.
  destruct (empty _) eqn:He; [done|]. io_step H c0 w9 Hc. apply tool.new_client_inv in Hc as [Hc ->].
  pose proof (construct_keystore _ _ _ _ _ Hc) as Hks.
  destruct (handle.from _) as [h|] eqn:Hh; [|done]. io_run H.
  destruct (pfks.load_keypair _ _ h) as [kp|] eqn:Hkp; [|done].
  apply authorize_with_inv in H
    as (ec_sb & at_kp & h' & g & cert & c' & Hsb & Hok & Hh' & Hg & Hreq & Hf).
  rewrite Hok in Hs3. apply save_saved in Hs3 as ->.
  destruct ea as [ea|e]; [|done]. cbn [cli.status_ok] in Hok. apply Z.eqb_eq in Hok, Haa, Hrca.
  rewrite Hks in Hkp, Hreq. eexists aa, ea, rca, n1, n2, n3, kp, at_kp, _, cert. split_and!; try done.
  eexists h, h', _, c0, ec_sb, g, c'. cbv zeta. split; [done|]. split; [done|].
  split; [by exists fs1|]. split; [reflexivity|]. split; [exact (not_empty _ He)|].
  split; [exact Hsb|]. split; [exact Hc|]. split; [exact Hkp|]. split; [exact Hg|]. split; [exact Hreq|].
  apply pki.request_at_cases in Hreq
    as [(e & Hq & _)|(? & ? & ? & ? & ? & ci & ? & _ & _ & _ & _ & Hq & _ & Hv & _)]; [done|].
  injection Hq as ->. by apply validate_chain_valid.
Qed.

(** ** fetch-trust *)

(** An item that did not count as an error was fetched and written. *)
Lemma fetch_item_ok a e f l n w w' :
  cli.fetch_item a e f l n w = (Ret n, w') ->
  exists resp,
    http.get cli.http_ (a_pki_url a ++ e) (w_net w) = (Ok resp, w_net w') /\ status_code resp = 200%Z /\
    cio.write_file (path_append (a_out_dir a) f) (body resp) (w_fs w) = (true, w_fs w').
Proof.
  unfold cli.fetch_item. intros H.
  assert (Hne : forall s w1, (tool.eprint s;; mret (S n)) w1 <> (Ret n, w')).
  { intros s w1 Hs. injection Hs as Hs _. lia. }
  io_step H resp w1 Hg. apply tool.http_get_inv in Hg as (n1 & Hg & ->).
  destruct resp as [resp|e1]; [|by apply Hne in H].
  destruct (status_code resp =? 200)%Z eqn:Hst; [|by apply Hne in H]. apply Z.eqb_eq in Hst.
  cbn [negb] in H. io_step H ok w2 Hw. apply tool.on_fs_inv in Hw as (fs & Hw & ->).
  destruct ok; [|by apply Hne in H]. cbn [negb] in H. exists resp. io_step H u w3 Hp. injection H as <-.
  assert (w_net w3 = n1 /\ w_fs w3 = fs) as [-> ->]; [|done].
  destruct (a_json a).
  - by injection Hp as _ <-.
  - io_run Hp. unfold tool.when in Hp. by destruct (s_valid _); injection Hp as _ <-.
Qed.

Lemma fetch_loop_ok a e f l items n w w' :
  cli.fetch_loop a ((e, f, l) :: items) n w = (Ret n, w') ->
  exists w1, cli.fetch_item a e f l n w = (Ret n, w1) /\ cli.fetch_loop a items n w1 = (Ret n, w').
Proof.
  cbn [cli.fetch_loop]. intros H. io_step H n1 w1 Hi. exists w1.
  pose proof (fetch_item_judged a e f l n w) as H1. rewrite Hi in H1.
  pose proof (fetch_loop_judged a items n1 w1) as H2. rewrite H in H2.
  assert (n1 = n) as -> by lia. done.
Qed.

Lemma out_path_inj d f1 f2 :
  str_starts "/" f1 = false -> str_starts "/" f2 = false -> path_append d f1 = path_append d f2 -> f1 = f2.
Proof.
  assert (Hp : forall f, str_starts "/" f = false ->
    exists p, forall g, str_starts "/" g = false -> path_append d g = p ++ g).
  { intros f _. unfold path_append.
    exists (d ++ (if empty (bytes_of_string d) || bool_decide (List.last (bytes_of_string d) x00 = x2f)
                  then "" else "/")). intros g Hg.
    rewrite bool_decide_eq_false_2.
    - destruct (_ || _); by rewrite <- str_app_assoc.
    - intros Hn. destruct g as [|c g]; [done|]. simpl in Hg, Hn. case_bool_decide as Hc; [done|].
      apply (f_equal Ascii.ascii_of_byte) in Hn. rewrite Ascii.ascii_of_byte_of_ascii in Hn. by apply Hc. }
  intros H1 H2. destruct (Hp f1 H1) as [p Hpp]. rewrite !Hpp by done.
  apply pfks.string_app_inj_l.
Qed.

(** [fetch-trust] exits with 0 only when the server answered 200 for each of the
    root, TLM and MA certificates and each was written; on a disk that keeps what it
    takes the three files in the output directory are then the three bodies. *)
Theorem fetch_trust_correct a w w' :
  cli.cmd_fetch_trust a w = (Ret 0%Z, w') ->
  exists rca tlm ma n1 n2 n3,
    http.get cli.http_ (a_pki_url a ++ "/trustanchor") (w_net w) = (Ok rca, n1) /\
    http.get cli.http_ (a_pki_url a ++ "/tlm") n1 = (Ok tlm, n2) /\
    http.get cli.http_ (a_pki_url a ++ "/ma") n2 = (Ok ma, n3) /\
    status_code rca = 200%Z /\ status_code tlm = 200%Z /\ status_code ma = 200%Z /\
    (disk.reliable (env (w_fs w)) ->
     files (w_fs w') !! path_append (a_out_dir a) "rca.cert" = Some (body rca) /\
     files (w_fs w') !! path_append (a_out_dir a) "tlm.cert" = Some (body tlm) /\
     files (w_fs w') !! path_append (a_out_dir a) "ma.cert" = Some (body ma)).
Proof.
  unfold cli.cmd_fetch_trust. intros H. destruct (_ || _); [done|].
  io_step H u w0 Hd. destruct u. apply tool.create_directories_inv in Hd as (fs0 & Hd & ->).
  apply tool.create_directories_env in Hd.
  io_step H n w4 Hl. injection H as Hn <-. destruct n as [|n]; [|done].
  apply fetch_loop_ok in Hl as (w1 & Hi1 & Hl). apply fetch_loop_ok in Hl as (w2 & Hi2 & Hl).
  apply fetch_loop_ok in Hl as (w3 & Hi3 & Hl). injection Hl as <-.
  apply fetch_item_ok in Hi1 as (r1 & Hg1 & Hs1 & Hw1), Hi2 as (r2 & Hg2 & Hs2 & Hw2),
    Hi3 as (r3 & Hg3 & Hs3 & Hw3).
  exists r1, r2, r3, (w_net w1), (w_net w2), (w_net w3). split_and!; try done.
  cbn [w_fs tool.set_fs] in Hw1. intros Hr. rewrite <- Hd in Hr.
  pose proof (cio.write_file_frame _ _ _ _ _ Hw1) as [_ He1].
  pose proof (cio.write_file_frame _ _ _ _ _ Hw2) as [_ He2].
  split_and!.
  - rewrite (cio.write_file_other _ _ _ _ _ _ Hw3), (cio.write_file_other _ _ _ _ _ _ Hw2);
      [by eapply cio.write_file_ok|intros Hp; by apply out_path_inj in Hp..].
  - rewrite (cio.write_file_other _ _ _ _ _ _ Hw3); [|intros Hp; by apply out_path_inj in Hp].
    eapply cio.write_file_ok; [|done]. by rewrite He1.
  - eapply cio.write_file_ok; [|done]. by rewrite He2, He1.
Qed.

End cli.

(** ** The commands at work *)

Import scenario tools.

Definition w_argv : list string := ["v2xpki"; "enrol"; "--pki-url"; "http://cpoc"].

Lemma missing_options_witness :
  exists msg, cli.main w_argv (world_at disk.blank 0)
  = (Ret 1%Z, tool.set_err (world_at disk.blank 0) ("error: " ++ msg)).
Proof. apply (missing_options_inert w_argv (world_at disk.blank 0)). reflexivity. Defined.

(** A list checked against the certificate of its issuer. *)
Definition w_ectl_args : Args :=
  MkArgs "fetch-ectl" "http://cpoc" "" "" "" "" "" "" "" "/tlm.cert" "" "" "" "" false "" true false.
Definition w_ectl_world : world := world_at (cio.write_file "/tlm.cert" tlm_coer disk.blank).2 0.

Lemma fetch_ectl_witness :
  exists resp m, status_code resp = 200%Z /\ signed_msg.unwrap (body resp) = Some m /\
    let tlm := cert.from_coer tlm_coer in
    signed_msg.verify m (sb.to_vector (public_key tlm)) (sb.to_vector (cert_bytes tlm)) = true.
Proof.
  pose proof (fetch_ectl_verified w_ectl_args w_ectl_world (cli.cmd_fetch_ectl w_ectl_args w_ectl_world).2)
    as H.
  destruct H as (resp & n & topo & now & _ & Hs & _ & Hd).
  - refine (tool.run_ret (cli.cmd_fetch_ectl w_ectl_args w_ectl_world) 0%Z _). vm_compute. reflexivity.
  - destruct Hd as [_ (m & Hm & Hv)]. by exists resp, m.
Defined.

(** Enrolment with the key of the scenario, on a disk that does not fail. *)
Lemma enrol_command_witness :
  exists rca_body n kp cert, enrolled cli_args (world_at s_fs 30) ea_coer rca_body n kp cert /\
    files (w_fs (cli.cmd_enrol cli_args (world_at s_fs 30)).2) !! "/keys/ec.cert"
    = Some (sb.to_vector (cert_bytes cert)).
Proof.
  pose proof (enrol_command_correct cli_args (world_at s_fs 30) (cli.cmd_enrol cli_args (world_at s_fs 30)).2)
    as H.
  destruct H as (ea & rca & n1 & n2 & kp & cert & Hg & _ & _ & _ & He & Hf).
  - refine (tool.run_ret (cli.cmd_enrol cli_args (world_at s_fs 30)) 0%Z _). vm_compute. reflexivity.
  - exists (body rca), n2, kp, cert. split; [|apply Hf, disk.no_faults_healthy].
    assert (Hb : body ea = ea_coer); [|by rewrite <- Hb].
    apply (f_equal (fun x => match x.1 with Ok r => body r | Err _ => [] end)) in Hg.
    etransitivity; [symmetry; exact Hg|]. vm_compute. reflexivity.
Defined.

Lemma request_at_command_witness :
  exists aa rca ea n kp at_kp b cert,
    authorized cli_args (world_at enrolled_fs 33) aa rca ea n kp at_kp b cert /\
    files (w_fs (cli.cmd_request_at cli_args (world_at enrolled_fs 33)).2) !! "/out/at.cert"
    = Some (sb.to_vector (cert_bytes cert)).
Proof.
  pose proof (request_at_command_correct cli_args (world_at enrolled_fs 33)
    (cli.cmd_request_at cli_args (world_at enrolled_fs 33)).2) as H.
  destruct H as (aa & ea & rca & n1 & n2 & n3 & kp & at_kp & b & cert & H).
  - refine (tool.run_ret (cli.cmd_request_at cli_args (world_at enrolled_fs 33)) 0%Z _).
    vm_compute. reflexivity.
  - destruct H as (_ & _ & _ & _ & _ & _ & Ha & Hf).
    exists (body aa), (body rca), (body ea), n3, kp, at_kp, b, cert.
    split; [exact Ha|]. apply Hf, disk.no_faults_healthy.
Defined.

Lemma fetch_trust_witness :
  exists rca, status_code rca = 200%Z /\
    files (w_fs (cli.cmd_fetch_trust cli_args (world_at disk.blank 0)).2) !! "/out/rca.cert"
    = Some (body rca).
Proof.
  pose proof (fetch_trust_correct cli_args (world_at disk.blank 0)
    (cli.cmd_fetch_trust cli_args (world_at disk.blank 0)).2) as H.
  destruct H as (rca & tlm & ma & n1 & n2 & n3 & _ & _ & _ & Hs & _ & _ & Hf).
  - refine (tool.run_ret (cli.cmd_fetch_trust cli_args (world_at disk.blank 0)) 0%Z _).
    vm_compute. reflexivity.
  - exists rca. split; [done|]. apply Hf, disk.no_faults_reliable.
Defined.

Lemma parse_args_witness :
  args.parse_args ("v2xpki" :: args.render cli_args) = cli_args.
Proof. apply (parse_args_round_trip "v2xpki" cli_args). reflexivity. Defined.
