(* ===== verification/ProvProps.v ===== *)
(** Properties of the provisioner: crash safety of its files, what a rotation and a
    whole run guarantee, the dump, the options and termination. *)
From stdpp Require Import gmap pretty.
From S2P Require Import Prelude Result Sizes StaticBytes Asn OpenSSL CryptoEc CertParse TrustChain.
From S2P Require Import TrustList EcRequest AtRequest Http Disk KeyStore PkiClient Tool Double.
From S2P Require Import CliCommands KeyPem WireDump Flow Provisioner Concrete Scenario ToolScenario.
From S2P Require Import MessageProps.
Local Open Scope string_scope.

(** ** Files *)

Section files.
Context {ossl : OpenSSL} {tr : Transport} {sec1 : Sec1} {errtext : ErrorText}.

Implicit Types w : world.

(** When the medium takes a write, the result is true. *)
Lemma atomic_write_taken path data w :
  let ev := env (w_fs w) in let t := disk.calls (w_fs w) in let tmp := path ++ ".tmp" in
  can_open_w ev t tmp = true -> length data <= fwrite_count ev (1 + t) tmp data ->
  can_rename ev (3 + t) tmp path = true ->
  exists w' h, kpem.atomic_write path data w = (Ret true, w') /\ disk.since (w_fs w) (w_fs w') h /\
    kpem.intact path (files (w_fs w)) (Some (kpem.stored path data (w_fs w))) (files (w_fs w')) /\
    files (w_fs w') !! path = Some (kpem.stored path data (w_fs w)).
Proof.
  intros ev t tmp Ho Hf Hn.
  destruct (kpem.atomic_write_cases path data w) as (b & w' & h & Hw & _ & _ & Hs & _ & Hi & Hp).
  exists w', h. assert (b = true) as ->; [|done]. revert Hw.
  unfold kpem.atomic_write, mbind, io_bind, tool.on_fs, disk.fopen_w. fold ev t tmp. rewrite Ho.
  cbn [disk.fwrite disk.s_path disk.s_buf]. rewrite Nat.min_r by apply Hf.
  rewrite Nat.eqb_refl. unfold disk.rename. cbn. rewrite lookup_insert_eq. fold tmp ev.
  change (S (S (S (length (history (w_fs w)))))) with (3 + t). rewrite Hn. by intros [= <-].
Qed.

(** C16: [atomic_write] is atomic on a medium that keeps what it takes: it always
    returns; after each of its system calls, so also for a reader or a restart in
    between, the file has its old contents or, when the result is true, all of the
    new ones, and every other file but the temporary one is untouched; at the end
    the result says which of the two it has. On a medium where nothing fails the
    result is true. *)
Theorem atomic_write_atomic path data w :
  disk.reliable (env (w_fs w)) ->
  exists b w' h,
    kpem.atomic_write path data w = (Ret b, w') /\ disk.since (w_fs w) (w_fs w') h /\
    Forall (fun m =>
      (m !! path = files (w_fs w) !! path \/ (b = true /\ m !! path = Some data)) /\
      forall q, q <> path -> q <> path ++ ".tmp" -> m !! q = files (w_fs w) !! q) h /\
    files (w_fs w') !! path = (if b then Some data else files (w_fs w) !! path) /\
    (disk.healthy (env (w_fs w)) -> (forall t p q, can_rename (env (w_fs w)) t p q = true) -> b = true).
Proof.
  intros Hr. destruct (kpem.atomic_write_cases path data w) as (b & w' & h & Hw & _ & _ & Hs & Hh & _ & Hp).
  rewrite kpem.stored_reliable in Hh, Hp by done. exists b, w', h. split_and!; try done.
  - eapply List.Forall_impl; [|exact Hh]. intros m [Hm Hq]. split; [|done].
    destruct Hm as [Hm|[Hb Hm]]; [by left|right]. destruct b; [done|by destruct Hb].
  - intros (_ & Ho & Hf) Hn.
    destruct (atomic_write_taken path data w) as (w1 & h1 & Hw1 & _); [done..|].
    rewrite Hw1 in Hw. by injection Hw.
Qed.

(** the result of closing the stream is not looked at: whenever opening, writing and
    renaming succeed, [atomic_write] reports success, and the file then has whatever
    part of the data reached the medium, the old contents being gone. *)
Theorem atomic_write_hides_loss path data w :
  let ev := env (w_fs w) in let t := disk.calls (w_fs w) in let tmp := path ++ ".tmp" in
  can_open_w ev t tmp = true -> length data <= fwrite_count ev (1 + t) tmp data ->
  can_rename ev (3 + t) tmp path = true ->
  exists w', kpem.atomic_write path data w = (Ret true, w') /\
    files (w_fs w') !! path = Some (take (stored_count ev (2 + t) tmp data) data).
Proof.
  intros ev t tmp Ho Hf Hn.
  destruct (atomic_write_taken path data w Ho Hf Hn) as (w' & h & Hw & _ & _ & Hp). by exists w'.
Qed.

(** *** The two files of a ticket *)

(** The contents [m] next to the former contents [old]: each file is the old or the new
    one, and a new key only comes with the new certificate. *)
Definition pair_state (out : string) (cert : bytes) (key : option bytes) (old m : gmap string bytes)
    : Prop :=
  let coer m := m !! (out ++ "/AT.coer") in
  let pem m := m !! (out ++ "/AT.key") in
  (coer m = coer old \/ coer m = Some cert) /\
  (pem m = pem old \/ (is_Some key /\ pem m = key /\ coer m = Some cert)).

Lemma pair_state_coer out cert key old new m :
  kpem.intact (out ++ "/AT.coer") old new m -> (new = None \/ new = Some cert) ->
  pair_state out cert key old m.
Proof.
  intros [Hm Hq] Hn. split.
  - destruct Hm as [Hm|[[? Hs] Hm]]; [by left|right]. destruct Hn as [-> | ->]; [done|done].
  - left. apply Hq; [by apply flow.out_ne|]. rewrite <- str_app_assoc. by apply flow.out_ne.
Qed.

Lemma pair_state_key out cert key old m1 new m :
  m1 !! (out ++ "/AT.coer") = Some cert -> m1 !! (out ++ "/AT.key") = old !! (out ++ "/AT.key") ->
  kpem.intact (out ++ "/AT.key") m1 new m -> (new = None \/ new = key) -> pair_state out cert key old m.
Proof.
  intros Hc Hk [Hm Hq] Hn. assert (Hcoer : m !! (out ++ "/AT.coer") = Some cert).
  { rewrite Hq, Hc; [done|by apply flow.out_ne|]. rewrite <- str_app_assoc. by apply flow.out_ne. }
  split; [by right|]. destruct Hm as [Hm|[Hs Hm]]; [left; congruence|right].
  destruct Hn as [-> | ->]; [by destruct Hs|done].
Qed.

(** replacing a ticket. [rotate_at] writes the certificate first and the key second:
    on a medium that keeps what it takes the step always returns; after each system
    call both files are old, or the certificate is new and the key old, or both are
    new, so a new key never stands next to an old certificate; when it reports
    success both are new. *)
Theorem ticket_pair_states out cert kp c w :
  disk.reliable (env (w_fs w)) ->
  let pem := match kpem.key_pem (sb.to_vector (kp_private_key kp)) c with
             | inl data => Some data | inr _ => None end in
  exists b w' h,
    flow.write_ticket out cert kp c w = (Ret b, w') /\ disk.since (w_fs w) (w_fs w') h /\
    Forall (pair_state out (flow.wire cert) pem (files (w_fs w))) h /\
    (b = true -> files (w_fs w') !! (out ++ "/AT.coer") = Some (flow.wire cert) /\
       is_Some pem /\ files (w_fs w') !! (out ++ "/AT.key") = pem).
Proof.
  intros Hr pem. unfold flow.write_ticket, kpem.atomic_write_key_pem, mbind, io_bind.
  set (res := kpem.key_pem _ c) in *. clearbody res.
  destruct (kpem.atomic_write_cases (out ++ "/AT.coer") (flow.wire cert) w)
    as (b1 & w1 & h1 & -> & _ & _ & Hs1 & Hh1 & Hi1 & Hp1).
  rewrite kpem.stored_reliable in Hh1, Hi1, Hp1 by done.
  assert (Hst1 : Forall (pair_state out (flow.wire cert) pem (files (w_fs w))) h1).
  { eapply List.Forall_impl; [|exact Hh1]. intros m Hm. eapply pair_state_coer; [exact Hm|]. destruct b1; auto. }
  destruct b1; cbn [negb]; [|exists false; eexists _, h1; by split_and!].
  destruct res as [data|msg].
  2:{ exists false. eexists _, h1. by split_and!. }
  destruct (kpem.atomic_write_cases (out ++ "/AT.key") data w1)
    as (b2 & w2 & h2 & -> & _ & _ & Hs2 & Hh2 & Hi2 & Hp2).
  pose proof (disk.since_trans _ _ _ _ _ Hs1 Hs2) as Hs. destruct Hs1 as [_ He1].
  rewrite kpem.stored_reliable in Hh2, Hi2, Hp2 by (by rewrite He1).
  assert (Hold : files (w_fs w1) !! (out ++ "/AT.key") = files (w_fs w) !! (out ++ "/AT.key")).
  { destruct Hi1 as [_ Hi1]. apply Hi1; [by apply flow.out_ne|]. rewrite <- str_app_assoc. by apply flow.out_ne. }
  assert (Hst2 : Forall (pair_state out (flow.wire cert) pem (files (w_fs w))) (h2 ++ h1)).
  { apply Forall_app. split; [|done]. eapply List.Forall_impl; [|exact Hh2]. intros m Hm.
    eapply pair_state_key; [exact Hp1|exact Hold|exact Hm|]. destruct b2; auto. }
  destruct b2; cbn [negb]; [exists true|exists false]; eexists _, (h2 ++ h1)%list; split_and!; try done.
  intros _. destruct Hi2 as [_ Hi2]. split_and!; [|done|done].
  rewrite Hi2; [done|by apply flow.out_ne|]. rewrite <- str_app_assoc. by apply flow.out_ne.
Qed.

(** the pair is not replaced as a whole: when the certificate is written and the
    temporary file of the key cannot be opened, the step fails with the new
    certificate next to the old key, and nothing puts the old certificate back. *)
Theorem ticket_pair_torn out cert kp c w :
  disk.reliable (env (w_fs w)) -> (forall t p q, can_rename (env (w_fs w)) t p q = true) ->
  (forall t p b, length b <= fwrite_count (env (w_fs w)) t p b) ->
  (forall t p, can_open_w (env (w_fs w)) t p = negb (bool_decide (p = out ++ "/AT.key.tmp"))) ->
  exists w', flow.write_ticket out cert kp c w = (Ret false, w') /\
    files (w_fs w') !! (out ++ "/AT.coer") = Some (flow.wire cert) /\
    files (w_fs w') !! (out ++ "/AT.key") = files (w_fs w) !! (out ++ "/AT.key").
Proof.
  intros Hr Hn Hf Ho. unfold flow.write_ticket, kpem.atomic_write_key_pem, mbind, io_bind.
  destruct (atomic_write_taken (out ++ "/AT.coer") (flow.wire cert) w) as (w1 & h & -> & [_ He] & [_ Hi] & Hp);
    [|done..|].
  { rewrite Ho, <- str_app_assoc, bool_decide_eq_false_2; [done|]. by apply flow.out_ne. }
  rewrite kpem.stored_reliable in Hp by done. cbn [negb].
  assert (Hold : files (w_fs w1) !! (out ++ "/AT.key") = files (w_fs w) !! (out ++ "/AT.key")).
  { apply Hi; [by apply flow.out_ne|]. rewrite <- str_app_assoc. by apply flow.out_ne. }
  destruct (kpem.key_pem _ _) as [data|msg]; [|by eexists].
  unfold kpem.atomic_write, mbind, io_bind, tool.on_fs, disk.fopen_w.
  rewrite He, Ho, <- str_app_assoc, bool_decide_eq_true_2 by done. by eexists.
Qed.

End files.

(** ** Options *)

Section options.
Context {ossl : OpenSSL} {tr : Transport}.

Definition key_flag : string := "--dump-private-keys-insecure".

(** What the options can set. *)
Definition allowed (argv : list string) (cfg : Config) : Prop :=
  (cfg_curve cfg = NistP256 \/ cfg_curve cfg = BrainpoolP256r1) /\
  (cfg_dump_keys cfg = true -> key_flag ∈ argv) /\ cfg_psids cfg = cfg_psids Config_default.

Lemma allowed_env getenv argv : allowed argv (prov.env_config getenv).
Proof. split_and!; [by left|done|done]. Qed.

Lemma set_value_allowed argv arg val cfg cfg' :
  allowed argv cfg -> prov.set_value arg val cfg = Some (inl cfg') -> allowed argv cfg'.
Proof.
  destruct cfg as [u t o v r p e s dd c k]. intros (Hc & Hk & Hp). unfold prov.set_value.
  repeat destruct (_ || _); repeat destruct (_ =? _)%string; simpl; intros [= <-]; split_and!; simpl in *; auto.
Qed.

(** A flag changes the configuration, or is the request for help. *)
Lemma set_flag_cases argv arg cfg w :
  arg ∈ argv -> allowed argv cfg ->
  (exists cfg', prov.set_flag arg cfg w = (Ret cfg', w) /\ allowed argv cfg') \/
  prov.set_flag arg cfg w = (Exit 0, tool.set_out w (w_out w ++ prov.help_text)).
Proof.
  destruct cfg as [u t o v r p e s dd c k]. intros Hin (Hc & Hk & Hp). unfold prov.set_flag.
  destruct (String.eqb_spec arg "--dump-private-keys-insecure") as [->|_].
  { left. eexists. split; [done|]. by split_and!. }
  destruct (_ =? "--oneshot")%string; [left; eexists; split; [done|by split_and!]|].
  destruct (_ || _); [by right|left; eexists; split; [done|by split_and!]].
Qed.

(** How reading the options ends. *)
Definition options_end (argv : list string) (w : world) (r : outcome Config * world) : Prop :=
  match r with
  | (Ret cfg, w') => w' = w /\ allowed argv cfg
  | (Exit code, w') =>
      (code = 0%Z /\ w' = tool.set_out w (w_out w ++ prov.help_text)) \/
      (code = 2%Z /\ exists msg, w' = tool.set_err w (w_err w ++ "[pki-provisioner] FATAL: " ++ msg))
  | _ => False
  end.

Lemma parse_loop_end argv l cfg w :
  l ⊆ argv -> allowed argv cfg -> options_end argv w (prov.parse_loop l cfg w).
Proof.
  remember (length l) as n eqn:Hn. revert l cfg Hn.
  induction n as [n IH] using lt_wf_ind. intros l cfg -> Hs Ha.
  destruct l as [|arg [|val rest]]; cbn [prov.parse_loop]; [by split| |].
  - destruct (set_flag_cases argv arg cfg w) as [(cfg' & -> & Ha')|Heq]; [apply Hs; left|done|by split|].
    rewrite Heq. by left.
  - destruct (prov.set_value arg val cfg) as [[cfg'|msg]|] eqn:Hv.
    + eapply IH; [|done| |by eapply set_value_allowed]; [simpl; lia|].
      intros x Hx. apply Hs. by do 2 right.
    + right. split; [done|]. by eexists.
    + unfold mbind, io_bind.
      destruct (set_flag_cases argv arg cfg w) as [(cfg' & -> & Ha')|Heq]; [apply Hs; left|done| |].
      * apply (IH (S (length rest)) ltac:(simpl; lia) (val :: rest) cfg'); [done| |done]. intros x Hx. apply Hs. by right.
      * rewrite Heq. by left.
Qed.

(** C38: reading the configuration ends in a configuration, in exit code 0 with the help
    text or in exit code 2 with a message. A configuration has one of the two P-256
    curves and the built-in permissions; it dumps private keys only when the flag is
    on the command line (no environment variable can turn it on), a dump directory is
    set, and the warning was printed. Nothing else happens. *)
Theorem provisioner_options getenv argv w :
  match prov.parse_config getenv argv w with
  | (Ret cfg, w') =>
      (cfg_curve cfg = NistP256 \/ cfg_curve cfg = BrainpoolP256r1) /\
      cfg_psids cfg = [36; 37; 137; 138; 139; 140]%Z /\
      (if cfg_dump_keys cfg
       then key_flag ∈ tail argv /\ str_empty (cfg_dump_dir cfg) = false /\
         exists u, w' = tool.set_err w (w_err w ++ "[pki-provisioner] WARNING: writing PRIVATE KEY material to "
           ++ cfg_dump_dir cfg ++ u)
       else w' = w)
  | (Exit code, w') =>
      (code = 0%Z /\ w' = tool.set_out w (w_out w ++ prov.help_text)) \/
      (code = 2%Z /\ exists msg, w' = tool.set_err w (w_err w ++ "[pki-provisioner] FATAL: " ++ msg))
  | _ => False
  end.
Proof.
  pose proof (parse_loop_end (tail argv) (tail argv) (prov.env_config getenv) w) as H.
  unfold prov.parse_config, mbind, io_bind.
  destruct (prov.parse_loop _ _ _) as [[cfg|code| |] w1]; cbn [options_end] in H; cycle 1.
  { apply H; [done|apply allowed_env]. } { apply H; [done|apply allowed_env]. }
  { apply H; [done|apply allowed_env]. }
  destruct H as (-> & Hc & Hk & Hp); [done|apply allowed_env|].
  destruct (cfg_dump_keys cfg) eqn:Hd; [|cbn; by rewrite Hd].
  destruct (str_empty (cfg_dump_dir cfg)) eqn:He.
  - right. split; [done|]. by eexists.
  - cbn. rewrite Hd. split_and!; auto. by eexists.
Qed.

End options.

(** ** JSON strings *)

(** A reader of the contents of a JSON string, after its opening quote: the contents
    and what follows the closing quote.  Control characters must be escaped. *)
Fixpoint read_string (b : bytes) : option (bytes * bytes) :=
  match b with
  | [] => None
  | c :: b =>
      if bool_decide (c = x22) then Some ([], b)
      else if bool_decide (c = x5c) then
        match b with
        | e :: b =>
            let unescaped :=
              if bool_decide (e = x22) || bool_decide (e = x5c) || bool_decide (e = x2f) then Some e
              else if bool_decide (e = x6e) then Some x0a
              else if bool_decide (e = x72) then Some x0d
              else if bool_decide (e = x74) then Some x09
              else None in
            match unescaped, read_string b with
            | Some u, Some (s, rest) => Some (u :: s, rest)
            | _, _ => None
            end
        | [] => None
        end
      else if (byte.unsigned c <? 32)%Z then None
      else match read_string b with
           | Some (s, rest) => Some (c :: s, rest)
           | None => None
           end
  end.

(** Nothing but line feeds below the space. *)
Definition writable (c : byte) : bool := bool_decide (c = x0a) || negb (byte.unsigned c <? 32)%Z.

Lemma read_pair e u l :
  (e, u) ∈ [(x22, x22); (x5c, x5c); (x6e, x0a)] ->
  read_string (x5c :: e :: l) = match read_string l with Some (s, r) => Some (u :: s, r) | None => None end.
Proof.
  intros [[= -> ->]|[[= -> ->]|[[= -> ->]|H]%elem_of_cons]%elem_of_cons]%elem_of_cons.
  all: try reflexivity. by apply not_elem_of_nil in H.
Qed.

(** what [json_escape] puts between quotes reads back as the string it was given, and
    the closing quote is where it was written, exactly for the strings whose only
    control characters are line feeds; for any other string the manifest is not JSON. *)
Theorem json_escape_round_trip s rest :
  read_string (dump.json_escape_bytes s ++ x22 :: rest)%list
  = if forallb writable s then Some (s, rest) else None.
Proof.
  induction s as [|c s IH]; [done|]. cbn [dump.json_escape_bytes forallb].
  destruct (bool_decide (c = x22) || bool_decide (c = x5c)) eqn:Hq.
  - cbn [app]. rewrite (read_pair c c), IH.
    + unfold writable at 2. apply orb_true_iff in Hq as [->%bool_decide_eq_true_1| ->%bool_decide_eq_true_1];
        by destruct (forallb _ _).
    + apply orb_true_iff in Hq as [->%bool_decide_eq_true_1| ->%bool_decide_eq_true_1]; [left|right; left].
  - apply orb_false_iff in Hq as [H1 H2]. unfold writable at 1. destruct (bool_decide (c = x0a)) eqn:Hn.
    { apply bool_decide_eq_true_1 in Hn. cbn [app]. rewrite (read_pair x6e x0a), IH, Hn by (do 2 right; left). by destruct (forallb _ _). }
    cbn [orb app read_string]. rewrite H1, H2. destruct (_ <? 32)%Z; [done|]. cbn [negb andb].
    rewrite IH. by destruct (forallb _ _).
Qed.

(** ** Rotation and the whole run *)

Section run.
Context {ossl : OpenSSL} {tr : Transport} {pem : Pem} {sec1 : Sec1} {errtext : ErrorText}.
Context {cb : Codec CertificateBase} {tb : Codec ToBeSignedCertificate} {junk : Uninit}.
Context {dc : Codec Ieee1609Dot2Data} {tc : Codec ToBeSignedData}.
Context {ec : Codec EtsiTs102941Data} {xc : Codec EtsiTs103097Certificate}.
Context {eq_ : Codec InnerEcRequest} {er : Codec InnerEcResponse}.
Context {pc : Codec PublicVerificationKey} {sc : Codec SharedAtRequest}.
Context {aq : Codec InnerAtRequest} {ar : Codec InnerAtResponse} {hjunk : UninitHmac}.
Context {version : BuildInfo}.

Implicit Types w : world.
Implicit Types ta : TrustAnchors.

(** [cert] is in a positive answer that the EA, resp. the AA, of [ta] signed for the
    request [req]. *)
Definition ec_issued ta (kp : KeyPair) (req : EcRequestResult) (resp : HttpResponse) (cert : CertInfo)
    : Prop :=
  exists b inner c,
    signed_answer (body resp) (sb.to_vector (kp_private_key kp)) (sb.to_vector (ec_request_aes_key req))
      x81 (ta_ea ta) b /\
    coer.decode b = Some inner /\ answers (ecr_requestHash inner) (sb.to_vector (ec_encoded req)) /\
    EnrolmentResponseCode_of_int (ecr_responseCode inner) = EC_Ok /\ ecr_certificate inner = Some c /\
    cert = set_label (cert.from_struct c (coer.encode c)) "ec_response".

Definition at_issued ta (kp : KeyPair) (req : AtRequestResult) (resp : HttpResponse) (cert : CertInfo)
    : Prop :=
  exists b inner c,
    signed_answer (body resp) (sb.to_vector (kp_private_key kp)) (sb.to_vector (at_request_aes_key req))
      x83 (ta_aa ta) b /\
    coer.decode b = Some inner /\ answers (atr_requestHash inner) (sb.to_vector (at_encoded req)) /\
    AuthorizationResponseCode_of_int (atr_responseCode inner) = AT_Ok /\ atr_certificate inner = Some c /\
    cert = set_label (cert.from_struct c (coer.encode c)) "at_response".

Lemma ticket_issued h ta en psids hours g n kp req resp cert n' :
  flow.ticket_exchange h ta en psids hours g n kp req resp cert n' -> at_issued ta kp req resp cert.
Proof.
  intros (now & g1 & g2 & g3 & desc & r & _ & _ & _ & _ & _ & Hd & Hc & Hcert).
  apply at_.decode_at_response_sound in Hd
    as (v & ed & pt & m & inner & b & H1 & H2 & H3 & H4 & H5 & H6 & H7 & H8 & H9 & H10 & H11).
  rewrite H10 in Hc. rewrite Hcert in H11.
  destruct (atr_certificate inner) as [c|] eqn:Hi; [|done]. injection H11 as ->.
  exists b, inner, c. split_and!; try done. by exists v, ed, pt, m.
Qed.

Lemma credential_issued h ta days c g n kp req resp cert n' :
  flow.enrolment_exchange h ta days c g n kp req resp cert n' -> ec_issued ta kp req resp cert.
Proof.
  intros (now & g1 & g2 & r & _ & _ & _ & _ & Hd & Hc & Hcert).
  apply ec.decode_ec_response_sound in Hd
    as (v & ed & pt & m & inner & b & H1 & H2 & H3 & H4 & H5 & H6 & H7 & H8 & H9 & H10 & H11).
  rewrite H10 in Hc. rewrite Hcert in H11.
  destruct (ecr_certificate inner) as [x|] eqn:Hi; [|done]. injection H11 as ->.
  exists b, inner, x. split_and!; try done. by exists v, ed, pt, m.
Qed.

(** The key file of a ticket: PEM readers take it for the pair [kp]. *)
Definition key_file (out : string) (kp : KeyPair) (m : gmap string bytes) : Prop :=
  exists data k d, m !! (out ++ "/AT.key") = Some data /\ PEM_read_PrivateKey data = Some k /\
    BN_bin2bn (sb.to_vector (kp_private_key kp)) = Some d /\ EVP_PKEY_get_priv k = Some d /\
    EVP_PKEY_get_pub k = Some (sb.to_vector (kp_public_key kp)).

Lemma ticket_files_written {ossl_ok : OpenSSLOk} {pem_ok : PemOk} {sec1_ok : Sec1Ok}
    out cert kp c g g1 w w' :
  crypto.generate_keypair_curve c g = (Some kp, g1) ->
  flow.write_ticket out cert kp c w = (Ret true, w') -> disk.reliable (env (w_fs w)) ->
  files (w_fs w') !! (out ++ "/AT.coer") = Some (sb.to_vector (cert_bytes cert)) /\
  is_Some (files (w_fs w') !! (out ++ "/AT.key")) /\
  (is_p256_size c = true -> key_file out kp (files (w_fs w'))).
Proof.
  intros Hg Hw Hr. apply flow.write_ticket_inv in Hw as (_ & _ & _ & Hf).
  destruct (Hf eq_refl Hr) as (data & Hk & Hc & Hp). split_and!; [done|by exists data|].
  intros Hp256. apply crypto_facts.generate_keypair_ok in Hg as (Hkp & _). exists data.
  destruct (kpem.key_pem_reads _ _ _ _ Hkp Hp256 Hk) as (k & d & H). by exists k, d.
Qed.

(** C14: a rotation that returns an identifier obtained a ticket: a key pair was
    generated on the curve of the enrolment credential, the request for this pair, made
    with the credential and its key, was posted to the AA and answered with status
    200, the answer opens with the keys of that request, is signed by the AA, carries
    the hash of the request and the code ok, and the identifier is the SHA-256
    HashedId8 of the certificate in it. On a disk that keeps what it takes the
    certificate is in AT.coer and there is a file AT.key; when the curve of the
    credential is a 256-bit one, AT.key is a PEM file that reads back as the generated
    pair (for a 384-bit curve nothing is claimed of its contents). *)
Theorem rotation_correct {ossl_ok : OpenSSLOk} {pem_ok : PemOk} {sec1_ok : Sec1Ok}
    h ta en psids hours out d w h8 d' w' :
  flow.rotate_at h ta en psids hours out d w = (Ret (Some h8, d'), w') ->
  exists kp g1 g2 g3 now desc req resp cert,
    crypto.generate_keypair_curve (curve (ec_cert en)) (w_rng w) = (Some kp, g1) /\
    at_.assemble_at_request (flow.at_record ta en kp psids hours) (now 0%nat) g1 = (desc, g2) /\
    at_.encode_at_request desc (ta_aa ta) (ta_ea ta) (ec_cert en)
      (sb.to_vector (kp_private_key (canonical_kp en))) (sb.to_vector (kp_private_key kp))
      (now 1%nat) (now 2%nat) g2 = (Ok req, g3) /\
    http.post h (ta_at_url ta) (sb.to_vector (at_encoded req)) "application/x-its-request" (w_net w)
      = (Ok resp, w_net w') /\
    status_code resp = 200%Z /\ at_issued ta kp req resp cert /\
    h8 = lastn kHashedId8Len (crypto.hash_sha256 (sb.to_vector (cert_bytes cert))) /\
    (disk.reliable (env (w_fs w)) ->
     files (w_fs w') !! (out ++ "/AT.coer") = Some (sb.to_vector (cert_bytes cert)) /\
     is_Some (files (w_fs w') !! (out ++ "/AT.key")) /\
     (is_p256_size (curve (ec_cert en)) = true -> key_file out kp (files (w_fs w')))).
Proof.
  intros H. apply flow.rotate_at_inv in H as (kp & req & resp & cert & w1 & w2 & Hx & Hh & Hf1 & Hw & Hf2).
  pose proof (ticket_issued _ _ _ _ _ _ _ _ _ _ _ _ Hx) as Hi.
  destruct Hx as (now & g1 & g2 & g3 & desc & r & Hg & Ha & Henc & Hp & Hs & _).
  exists kp, g1, g2, g3, now, desc, req, resp, cert. split_and!; try done.
  - unfold flow.hid8_of in Hh. destruct (_ <? _)%nat; [done|]. by injection Hh.
  - intros Hr. rewrite Hf2. rewrite <- Hf1 in Hr. by eapply ticket_files_written.
Qed.

(** *** The whole run *)

(** The anchors come from the trust lists: [tlm_cert] is what the trust list manager's
    endpoint answered with, the root is in an ECTL signed with its key, the authorities
    are in that ECTL or in a CTL signed by a root of it. *)
Definition vouched (base pinned : string) ta : Prop :=
  exists c tlm_cert, tlm_url (config c) = base /\ tlm_hid8 (config c) = pinned /\
    pki.tlm_fetched c tlm_cert /\ pki.discovered tlm_cert (ta_ea ta) /\
    pki.discovered tlm_cert (ta_aa ta) /\ pki.rca_of_ectl tlm_cert (ta_rca ta) /\
    sb.is_empty (encryption_key (ta_ea ta)) = false /\ sb.is_empty (encryption_key (ta_aa ta)) = false.

Lemma discover_vouched base pinned dir w ta w' :
  flow.discover base pinned dir w = (Ret (Some ta), w') -> vouched base pinned ta.
Proof.
  intros H. apply flow.discover_inv in H as (_ & _ & c0 & w1 & topo & c' & ea & aa & rca & Hc & Ht & _ & _ & _
    & Hea & Haa & Hrca & -> & K1 & K2).
  apply pki.discover_trust_cases in Ht as (tlm_cert & c1 & ? & ? & Hf & (_ & _ & Hr & He & Ha) & _).
  exists (tool.attach c0 w1), tlm_cert. rewrite list.Forall_forall in Hr, He, Ha.
  assert (Hcfg : config c0 = flow.discover_config base pinned dir).
  { revert Hc. unfold pki.construct. destruct (pfks.open_store _ _); [|done]. by intros [= <-]. }
  cbn [config tool.attach]. rewrite Hcfg. split_and!; try done.
  - apply He. by apply (list_elem_of_fmap_2 ea_cert).
  - apply Ha. by apply (list_elem_of_fmap_2 aa_cert).
  - by apply Hr.
Qed.

(** The last component of a path is determined by the path. *)
Lemma last_component (l1 l2 f1 f2 : bytes) :
  x2f ∉ f1 -> x2f ∉ f2 -> (l1 ++ x2f :: f1 = l2 ++ x2f :: f2)%list -> f1 = f2.
Proof.
  revert l2. induction l1 as [|x l1 IH]; intros [|y l2] H1 H2; simpl; intros [= ].
  - done.
  - subst. destruct H1. apply elem_of_app. right. by left.
  - subst. destruct H2. apply elem_of_app. right. by left.
  - by eapply IH.
Qed.

Lemma same_file (d1 d2 f1 f2 : string) :
  x2f ∉ bytes_of_string f1 -> x2f ∉ bytes_of_string f2 -> d1 ++ "/" ++ f1 = d2 ++ "/" ++ f2 -> f1 = f2.
Proof.
  intros H1 H2 H. apply (f_equal bytes_of_string) in H. rewrite !bytes_of_string_app in H.
  apply bytes_of_string_inj. eapply last_component; [exact H1|exact H2|exact H].
Qed.

(** The names of the output directory and those of the dump. *)
Definition out_names : list string := ["AA.coer"; "RCA.coer"; "AT.coer"; "AT.key"].
Definition coer_names : list string := map (fun s => s ++ ".coer") dump.steps.
Definition dump_names : list string := "manifest.json" :: coer_names.

Lemma names_apart f g : f ∈ out_names -> g ∈ dump_names ->
  (x2f ∉ bytes_of_string f) /\ (x2f ∉ bytes_of_string g) /\ f <> g.
Proof.
  assert (H : Forall (fun f => Forall (fun g =>
    (x2f ∉ bytes_of_string f) /\ (x2f ∉ bytes_of_string g) /\ f <> g) dump_names) out_names).
  { apply (bool_decide_eq_true_1 _). vm_compute. reflexivity. }
  rewrite list.Forall_forall in H. intros Hf Hg. specialize (H f Hf). rewrite list.Forall_forall in H. auto.
Qed.

Lemma dump_names_ok k d : dump.ok k d -> Forall (fun e => e_file e ∈ coer_names) (entries_ d).
Proof.
  intros (_ & Hd & Hs & _). revert Hs. induction Hd as [|e b es bs He _ IH]; intros Hs; [constructor|].
  apply list.Forall_cons in Hs as [H1 H2]. constructor; [|auto]. rewrite (proj1 He).
  by apply (list_elem_of_fmap_2 (fun s => s ++ ".coer")).
Qed.

(** Writing the dump does not touch the files of the output directory. *)
Lemma dump_path_ne k d out f : dump.ok k d -> f ∈ out_names -> out ++ "/" ++ f ∉ dump.paths d.
Proof.
  intros Hd%dump_names_ok Hf. rewrite list.Forall_forall in Hd.
  assert (Hn : forall g, g ∈ dump_names -> out ++ "/" ++ f <> dir_ d ++ "/" ++ g).
  { intros g Hg Heq. destruct (names_apart f g Hf Hg) as (H1 & H2 & Hne). by apply same_file in Heq. }
  unfold dump.paths. rewrite elem_of_app, list_elem_of_singleton. intros [He|He].
  - apply list_elem_of_fmap_1 in He as (e & He & Hin). eapply Hn; [|exact He]. right. by apply Hd.
  - eapply Hn; [|exact He]. left.
Qed.

Lemma flush_out k d w r d' w' out f :
  dump.flush d w = (Ret (r, d'), w') -> dump.ok k d -> f ∈ out_names ->
  files (w_fs w') !! (out ++ "/" ++ f) = files (w_fs w) !! (out ++ "/" ++ f).
Proof.
  intros H Hd Hf. destruct (dump.enabled d) eqn:He.
  - pose proof Hd as (_ & H2%Forall2_length & _).
    apply dump.flush_inv in H as ((_ & Hq) & _); [|done|done]. apply Hq. by eapply dump_path_ne.
  - unfold dump.flush in H. rewrite He in H. by injection H as _ _ <-.
Qed.

(** A oneshot run of the loop that leaves it. *)
Lemma rotate_oneshot running fuel h cfg ta en st w st' w' :
  prov.rotate running fuel h cfg ta en st w = (Ret (Some (inr st')), w') ->
  cfg_oneshot cfg = true -> running (prov.look st) = true ->
  exists w1 h8 d w2 r d',
    tool.local w w1 /\ w_fs w1 = w_fs w /\
    flow.rotate_at h ta en (cfg_psids cfg) (cfg_validity_period_hours cfg) (cfg_output_dir cfg)
      (prov.st_dump st) w1 = (Ret (Some h8, d), w2) /\
    exists w3, dump.flush d w2 = (Ret (r, d'), w3) /\ w_fs w' = w_fs w3.
Proof.
  intros H Ho Hr. destruct fuel as [|fuel]; [done|]. cbn [prov.rotate] in H. io_step H v w4 Hv.
  unfold prov.round in Hv. rewrite Hr, Ho in Hv. cbn [negb] in Hv. destruct (_ =? _)%Z; [done|].
  cbv zeta in Hv. io_run Hv.
  io_step Hv res w2 Hrot. destruct res as [[h8|] d].
  - io_step Hv rd w3 Hf. destruct rd as [r d']. io_run Hv. injection Hv as <- <-. injection H as <- <-.
    eexists _, h8, d, w2, r, d'. split_and!; [| |exact Hrot|]; [done|done|]. by exists w3.
  - injection Hv as <- <-. done.
Qed.

(** What precedes the loop in a run that exits with 0. *)
Lemma provision_inv running fuel cfg w w' :
  prov.provision running fuel cfg w = (Ret (Some 0%Z), w') ->
  exists ta en ec_req ec_resp g1 n1 n2 d w1 st w2,
    vouched (cfg_pki_base_url cfg) (cfg_tlm_hid8 cfg) ta /\
    flow.enrolment_exchange prov.http_ ta (cfg_ec_validity_days cfg) (cfg_curve cfg) g1 n1
      (canonical_kp en) ec_req ec_resp (ec_cert en) n2 /\
    dump.ok (cfg_dump_keys cfg) d /\ env (w_fs w1) = env (w_fs w) /\
    (disk.reliable (env (w_fs w)) ->
     files (w_fs w1) !! (cfg_output_dir cfg ++ "/AA.coer") = Some (flow.wire (ta_aa ta)) /\
     files (w_fs w1) !! (cfg_output_dir cfg ++ "/RCA.coer") = Some (flow.wire (ta_rca ta))) /\
    prov.rotate running fuel prov.http_ cfg ta en (prov.MkState 0 d 0 0) w1 = (Ret (Some (inr st)), w2) /\
    w_fs w' = w_fs w2.
Proof.
  unfold prov.provision. intros H. io_step H u w1 Hb.
  assert (Hf1 : w_fs w1 = w_fs w) by (unfold prov.banner in Hb; do 6 io_run Hb; by injection Hb as _ <-).
  io_run H. io_run H. cbv zeta in H. set (d0 := dump.meta _ "client_version" _) in H.
  assert (Hd0 : dump.ok (cfg_dump_keys cfg) d0).
  { apply dump.ok_meta; [|done]. apply dump.ok_meta; [|done]. apply dump.ok_create. }
  clearbody d0. io_step H anchors w2 Hdis. destruct anchors as [ta|]; [|done].
  pose proof (discover_vouched _ _ _ _ _ _ Hdis) as Hv.
  apply flow.discover_inv in Hdis as (He2 & _). cbn in He2. rewrite Hf1 in He2.
  io_step H ok w3 Hwa. destruct ok as [ok d1]. destruct ok; cbn [negb] in H; [|done].
  pose proof (flow.ok_write_anchors _ _ _ _ Hd0 _ _ _ Hwa) as Hd1. cbn [snd] in Hd1.
  apply flow.write_anchors_inv in Hwa as (_ & He3 & Hanch). io_run H.
  io_step H res w4 Hen. destruct res as [en d2]. destruct en as [en|]; [|done].
  pose proof (flow.ok_enrol_ec _ _ _ _ _ _ Hd1 _ _ _ Hen) as Hd2. cbn [snd] in Hd2.
  apply flow.enrol_ec_inv in Hen as (Hf4 & ec_req & ec_resp & Hex). cbn in Hf4.
  io_step H r w5 Hrot. destruct r as [[code|st]|]; [|destruct st as [n d k sl]|done].
  { injection H as -> <-. by apply prov.rotate_code in Hrot. }
  exists ta, en, ec_req, ec_resp. do 3 eexists. exists d2, w4. eexists _, w5.
  rewrite Hf4, He3, He2 in *. split_and!; [done|exact Hex|done|done|done|exact Hrot|].
  io_step H u2 w9 Hwhen. io_run H. injection H as <-. cbn. unfold tool.when in Hwhen.
  by destruct (negb _); injection Hwhen as _ <-.
Qed.

(** A ticket leaves the other files of the output directory alone. *)
Lemma ticket_other out f cert kp c w b w' :
  flow.write_ticket out cert kp c w = (Ret b, w') -> f ∈ ["/AA.coer"; "/RCA.coer"] ->
  files (w_fs w') !! (out ++ f) = files (w_fs w) !! (out ++ f).
Proof.
  intros H Hf. apply flow.write_ticket_inv in H as (_ & _ & Hq & _). apply Hq; apply flow.out_ne; intros ->.
  all: by apply (bool_decide_eq_true_2 _) in Hf.
Qed.

(** C5: when a oneshot run that no signal interrupts exits with 0, the station has been
    provisioned: the anchors are vouched for by the trust list manager, the EA of these
    anchors issued the enrolment credential for a fresh canonical key, and the AA
    issued the ticket on the strength of that credential. On a disk that keeps what
    it takes, the output directory then holds the AA and root certificates, the ticket
    and a key file, whatever the dump wrote; when the credential the EA returned is on a
    256-bit curve, the key file reads back as the key of the ticket (for a 384-bit
    curve nothing is claimed of its contents). *)
Theorem provision_correct {ossl_ok : OpenSSLOk} {pem_ok : PemOk} {sec1_ok : Sec1Ok} running fuel cfg w w' :
  prov.provision running fuel cfg w = (Ret (Some 0%Z), w') ->
  cfg_oneshot cfg = true -> running 0%nat = true ->
  exists ta en ec_req ec_resp kp req resp cert,
    vouched (cfg_pki_base_url cfg) (cfg_tlm_hid8 cfg) ta /\
    ec_issued ta (canonical_kp en) ec_req ec_resp (ec_cert en) /\ at_issued ta kp req resp cert /\
    (exists g1 n1 n2, flow.enrolment_exchange prov.http_ ta (cfg_ec_validity_days cfg) (cfg_curve cfg) g1 n1
       (canonical_kp en) ec_req ec_resp (ec_cert en) n2) /\
    (exists g1 n1 n2, flow.ticket_exchange prov.http_ ta en (cfg_psids cfg) (cfg_validity_period_hours cfg)
       g1 n1 kp req resp cert n2) /\
    (disk.reliable (env (w_fs w)) ->
     files (w_fs w') !! (cfg_output_dir cfg ++ "/AA.coer") = Some (flow.wire (ta_aa ta)) /\
     files (w_fs w') !! (cfg_output_dir cfg ++ "/RCA.coer") = Some (flow.wire (ta_rca ta)) /\
     files (w_fs w') !! (cfg_output_dir cfg ++ "/AT.coer") = Some (sb.to_vector (cert_bytes cert)) /\
     is_Some (files (w_fs w') !! (cfg_output_dir cfg ++ "/AT.key")) /\
     (is_p256_size (curve (ec_cert en)) = true -> key_file (cfg_output_dir cfg) kp (files (w_fs w')))).
Proof.
  intros H Ho Hr.
  apply provision_inv in H as (ta & en & ec_req & ec_resp & g1 & n1 & n2 & d & w1 & st & w2 & Hv & Hex & Hd
    & He1 & Hanch & Hrot & Hfin).
  apply rotate_oneshot in Hrot as (w6 & h8 & d3 & w7 & r & d4 & _ & Hf6 & Hrot & w8 & Hfl & Hf8); [|done|done].
  cbn [prov.st_dump] in Hrot.
  pose proof (flow.ok_rotate_at _ _ _ _ _ _ _ _ Hd _ _ _ Hrot) as Hd3. cbn [snd] in Hd3.
  apply flow.rotate_at_inv in Hrot as (kp & req & resp & cert & w9 & w10 & Hx & _ & Hf9 & Hwt & Hf10).
  exists ta, en, ec_req, ec_resp, kp, req, resp, cert.
  split_and!; [done|by eapply credential_issued|by eapply ticket_issued|by do 3 eexists|by do 3 eexists|].
  intros Hrel. destruct (Hanch Hrel) as [Haa Hrca].
  assert (Hfile : forall f, f ∈ out_names -> files (w_fs w') !! (cfg_output_dir cfg ++ "/" ++ f)
    = files (w_fs w10) !! (cfg_output_dir cfg ++ "/" ++ f)).
  { intros f Hf. rewrite Hfin, Hf8, (flush_out _ _ _ _ _ _ _ _ Hfl Hd3 Hf), Hf10. done. }
  pose proof (fun f => ticket_other (cfg_output_dir cfg) f _ _ _ _ _ _ Hwt) as Hoth. rewrite Hf9, Hf6 in Hoth.
  destruct Hx as (now & g2 & ? & ? & ? & ? & Hg & _).
  pose proof (ticket_files_written _ _ _ _ _ _ _ _ Hg Hwt) as (Hc & Hs & Hk); [by rewrite Hf9, Hf6, He1|].
  assert (Hkey : files (w_fs w') !! (cfg_output_dir cfg ++ "/AT.key")
    = files (w_fs w10) !! (cfg_output_dir cfg ++ "/AT.key")) by (apply (Hfile "AT.key"); do 3 right; left).
  unfold key_file in *. rewrite Hkey. split_and!; [| | |done|done].
  - etransitivity; [apply (Hfile "AA.coer"); left|]. rewrite <- Haa. apply Hoth. left.
  - etransitivity; [apply (Hfile "RCA.coer"); right; left|]. rewrite <- Hrca. apply Hoth. right. left.
  - etransitivity; [apply (Hfile "AT.coer"); do 2 right; left|done].
Qed.

(** ** Termination *)

Lemma quiet_banner cfg : tool.quiet (prov.banner cfg).
Proof. unfold prov.banner. repeat (apply tool.quiet_bind; [apply flow.quiet_say|intros _]). apply flow.quiet_say. Qed.

Lemma quiet_provision running fuel cfg N :
  flow.digests -> prov.sleeps cfg -> prov.ends_by running N cfg -> (Z.of_nat N < 2 ^ 31)%Z ->
  tool.quiet (prov.provision running fuel cfg).
Proof.
  intros Hd Hs He HN. unfold prov.provision. cbv zeta. apply tool.quiet_bind; [apply quiet_banner|intros _].
  do 2 (apply tool.quiet_bind; [auto with io|intros _]).
  apply tool.quiet_bind; [apply flow.quiet_discover|intros [ta|]]; [|auto with io].
  apply tool.quiet_bind; [apply flow.quiet_write_anchors|intros [[] d]]; cbn [negb]; [|auto with io].
  apply tool.quiet_bind; [auto with io|intros _].
  apply tool.quiet_bind; [apply flow.quiet_enrol_ec|intros [[en|] d']]; [|auto with io].
  apply tool.quiet_bind; [by apply (prov.quiet_rotate _ _ _ _ _ _ _ N)|intros [[code|[n dd k sl]]|]]; [auto with io| |auto with io].
  do 2 (apply tool.quiet_bind; [auto using flow.quiet_say with io|intros _]). auto with io.
Qed.

Lemma provision_code running N cfg :
  prov.ends_by running N cfg ->
  tool.yields (fun c => c = Some 0%Z \/ c = Some 1%Z) (prov.provision running (S N) cfg).
Proof.
  intros He. unfold prov.provision. cbv zeta. do 3 (apply tool.yields_bind; intros _).
  apply tool.yields_bind. intros [ta|]; [|apply tool.yields_ret; auto].
  apply tool.yields_bind. intros [[] d]; [|apply tool.yields_ret; auto]. cbn [negb].
  apply tool.yields_bind; intros _. apply tool.yields_bind.
  intros [[en|] d']; [|apply tool.yields_ret; auto]. intros w0 r w1 H. io_step H x w2 Hx.
  pose proof (prov.rotate_result _ (S N) _ _ _ _ (prov.MkState 0 d' 0 0) N He ltac:(simpl; lia) _ _ _ Hx) as [y ->].
  apply prov.rotate_code in Hx. destruct y as [code|[n dd k sl]].
  - injection H as <- _. subst code. by right.
  - io_step H u w3 Hu. io_run H. injection H as <- _. by left.
Qed.

(** C15: the provisioner terminates, whatever the network and the disk do. In oneshot
    mode one round of the loop is enough; in continuous mode, once a signal has
    cleared the flag at its look number N, N + 1 rounds are enough, because every
    round looks at the flag and a sleep looks at it every second. The exit code is 0
    or 1, unless an exception of the file system escapes. Digests are assumed to
    succeed, the computed sleep to fit a long and N to be smaller than 2^31, because
    the rounds are counted in an int. *)
Theorem provisioner_terminates running N cfg w :
  flow.digests -> prov.sleeps cfg -> prov.ends_by running N cfg -> (Z.of_nat N < 2 ^ 31)%Z ->
  match prov.provision running (S N) cfg w with
  | (Ret code, w') => tool.appends w w' /\ (code = Some 0%Z \/ code = Some 1%Z)
  | (Thrown, w') => tool.appends w w'
  | _ => False
  end.
Proof.
  intros Hd Hs He HN. pose proof (quiet_provision running (S N) cfg N Hd Hs He HN w) as Hq.
  pose proof (provision_code running N cfg He w) as Hy.
  destruct (prov.provision running (S N) cfg w) as [[code| | |] w']; try done. split; [done|]. by eapply Hy.
Qed.

(** ** The dump *)

(** One operation of the program on the dump. *)
Inductive dump_step : WireDump -> WireDump -> Prop :=
  | step_meta d key v : key ∈ ["pki_base_url"; "client_version"] -> dump_step d (dump.meta d key v)
  | step_anchors ta out d w b d' w' :
      flow.write_anchors ta out d w = (Ret (b, d'), w') -> dump_step d d'
  | step_enrol h ta days d c w r d' w' :
      flow.enrol_ec h ta days d c w = (Ret (r, d'), w') -> dump_step d d'
  | step_rotate h ta en psids hours out d w r d' w' :
      flow.rotate_at h ta en psids hours out d w = (Ret (r, d'), w') -> dump_step d d'
  | step_flush d w b d' w' : dump.flush d w = (Ret (b, d'), w') -> dump_step d d'.

Lemma dump_step_ok k d d' : dump_step d d' -> dump.ok k d -> dump.ok k d'.
Proof.
  destruct 1; intros Hd.
  - apply dump.ok_meta; [done|]. intros ->. by apply (bool_decide_eq_true_2 _) in H.
  - by apply (flow.ok_write_anchors k _ _ _ Hd) in H.
  - by apply (flow.ok_enrol_ec k _ _ _ _ _ Hd) in H.
  - by apply (flow.ok_rotate_at k _ _ _ _ _ _ _ Hd) in H.
  - by eapply dump.ok_flush.
Qed.

Lemma dump_steps_ok dir k d : rtc dump_step (dump.create dir k) d -> dump.ok k d.
Proof.
  intros H. assert (Hc : dump.ok k (dump.create dir k)) by apply dump.ok_create. revert Hc.
  induction H as [|d1 d2 d3 Hs _ IH]; eauto using dump_step_ok.
Qed.

(** C36: in every state a run can bring the dump to, each artefact has one entry with its
    true length and SHA-256 and a file name from a fixed list; and a dump that was made
    without the option for private keys never holds an entry of key material, nor the
    warning about it, however many enrolments, rotations and flushes took place. *)
Theorem dump_invariant dir k d :
  rtc dump_step (dump.create dir k) d ->
  length (entries_ d) = length (blobs_ d) /\
  (forall i e b, entries_ d !! i = Some e -> blobs_ d !! i = Some b ->
     e_size e = length b /\ e_sha256 e = dump.hex (crypto.hash_sha256 b) /\ e_file e ∈ coer_names) /\
  (k = false -> Forall (fun e => e_direction e <> "key-material") (entries_ d) /\
     "warning" ∉ (meta_ d).*1).
Proof.
  intros Hd%dump_steps_ok. pose proof (dump_names_ok _ _ Hd) as Hn. destruct Hd as (_ & Hd & _ & Hk).
  split_and!; [by eapply Forall2_length| |done]. intros i e b He Hb.
  destruct (Forall2_lookup_lr _ _ _ _ _ _ Hd He Hb) as (_ & H1 & H2).
  rewrite list.Forall_forall in Hn. split_and!; [done|done|]. apply Hn. by eapply list_elem_of_lookup_2.
Qed.

Lemma paths_distinct d :
  Forall (fun e => e_file e ∈ coer_names) (entries_ d) -> NoDup (map e_file (entries_ d)) ->
  NoDup (dump.paths d).
Proof.
  intros Hn Hnd. unfold dump.paths.
  change [dir_ d ++ "/manifest.json"] with (map (fun f => dir_ d ++ "/" ++ f) ["manifest.json"]).
  rewrite <- (map_map e_file (fun f => dir_ d ++ "/" ++ f)), <- map_app.
  apply NoDup_fmap_2_strong.
  - intros f1 f2 _ _ H. by do 2 apply pfks.string_app_inj_l in H.
  - apply list.NoDup_app. split_and!; [done| |apply NoDup_singleton].
    intros f (e & -> & He)%list_elem_of_fmap_1 Hf%list_elem_of_singleton.
    rewrite list.Forall_forall in Hn. specialize (Hn e He). rewrite Hf in Hn.
    by apply (bool_decide_eq_true_2 _) in Hn.
Qed.

(** a flush that reports success has ended the dump, so nothing more is recorded,
    and, on a disk that keeps what it takes, has written the manifest over all
    entries and, when no name was recorded twice, every artefact under its name, with
    the length and the digest its entry gives. *)
Theorem dump_flush_correct dir k d w d' w' :
  rtc dump_step (dump.create dir k) d -> dump.enabled d = true ->
  dump.flush d w = (Ret (true, d'), w') -> disk.reliable (env (w_fs w)) -> NoDup (map e_file (entries_ d)) ->
  dump.enabled d' = false /\
  files (w_fs w') !! (dir_ d ++ "/manifest.json")
    = Some (bytes_of_string (dump.manifest (meta_ d') (entries_ d))) /\
  (forall e, e ∈ entries_ d -> exists b, files (w_fs w') !! (dir_ d ++ "/" ++ e_file e) = Some b /\
     e_size e = length b /\ e_sha256 e = dump.hex (crypto.hash_sha256 b)).
Proof.
  intros Hok%dump_steps_ok He H Hr Hnd. pose proof (dump_names_ok _ _ Hok) as Hn.
  pose proof Hok as (_ & Hd & Hs & _).
  apply dump.flush_inv in H as (_ & _ & _ & stamp & -> & Hf); [|done|by eapply Forall2_length].
  destruct Hf as [Hall Hm]; [done|done| |].
  { by apply paths_distinct. }
  split_and!; [done|done|]. intros e [i Hi]%list_elem_of_lookup_1.
  destruct (Forall2_lookup_l _ _ _ _ _ Hd Hi) as (b & Hb & _ & H1 & H2). exists b. split_and!; [|done|done].
  rewrite list.Forall_forall in Hall. apply (Hall (e, b)). eapply list_elem_of_lookup_2.
  rewrite lookup_zip_with, Hi. simpl. by rewrite Hb.
Qed.

End run.

(** ** The provisioner at work *)

Import scenario tools.

(** A medium on which closing a stream loses everything, and one on which the temporary
    file of the key cannot be opened. *)
Definition lossy : faults :=
  MkFaults (fun _ _ => true) (fun _ _ b => length b) (fun _ _ _ => 0%nat)
    (fun _ _ _ => true) (fun _ _ => true) (fun _ _ => true) (fun _ l => l).
Definition stubborn : faults :=
  MkFaults (fun _ p => negb (bool_decide (p = "/v3/AT.key.tmp"))) (fun _ _ b => length b)
    (fun _ _ b => length b) (fun _ _ _ => true) (fun _ _ => true) (fun _ _ => true) (fun _ l => l).

(** A ticket of last week. *)
Definition old_files : gmap string bytes := {["/v3/AT.coer" := [x01]; "/v3/AT.key" := [x02]]}.

Lemma atomic_write_witness :
  exists b w', kpem.atomic_write "/v3/AT.coer" [x05] (world_at (MkFsys old_files ∅ [] disk.no_faults) 0) = (Ret b, w') /\
    b = true.
Proof.
  destruct (atomic_write_atomic "/v3/AT.coer" [x05] (world_at (MkFsys old_files ∅ [] disk.no_faults) 0)
    disk.no_faults_reliable) as (b & w' & h & Hw & _ & _ & _ & Hb).
  exists b, w'. split; [exact Hw|]. apply Hb; [apply disk.no_faults_healthy|done].
Defined.

Lemma atomic_write_loss_witness :
  exists w', kpem.atomic_write "/v3/AT.coer" [x05] (world_at (MkFsys old_files ∅ [] lossy) 0) = (Ret true, w') /\
    files (w_fs w') !! "/v3/AT.coer" = Some [].
Proof.
  apply (atomic_write_hides_loss "/v3/AT.coer" [x05] (world_at (MkFsys old_files ∅ [] lossy) 0)); simpl; [done|lia|done].
Defined.

Lemma ticket_pair_witness :
  exists b w', flow.write_ticket "/v3" at_ci (s_kp at_d) NistP256
    (world_at (MkFsys old_files ∅ [] disk.no_faults) 0) = (Ret b, w').
Proof.
  destruct (ticket_pair_states "/v3" at_ci (s_kp at_d) NistP256
    (world_at (MkFsys old_files ∅ [] disk.no_faults) 0) disk.no_faults_reliable) as (b & w' & h & Hw & _).
  exists b, w'. exact Hw.
Defined.

Lemma ticket_torn_witness :
  exists w', flow.write_ticket "/v3" at_ci (s_kp at_d) NistP256
      (world_at (MkFsys old_files ∅ [] stubborn) 0) = (Ret false, w') /\
    files (w_fs w') !! "/v3/AT.coer" = Some at_coer /\ files (w_fs w') !! "/v3/AT.key" = Some [x02].
Proof.
  apply (ticket_pair_torn "/v3" at_ci (s_kp at_d) NistP256 (world_at (MkFsys old_files ∅ [] stubborn) 0)).
  - split; [intros; simpl; lia|done].
  - done.
  - intros t p b. simpl. lia.
  - done.
Defined.

(** The anchors and the credential of the scenario. *)
Definition w_anchors : TrustAnchors :=
  MkTrustAnchors (cert.from_coer ea_coer) (cert.from_coer aa_coer) rca_ci "http://ea" "http://aa".
Definition w_enrolled : EnrolledEc := MkEnrolledEc ec_ci (s_kp its_d).
Definition w_dump : WireDump := dump.create "/dump" false.
#[local] Abbreviation w_rotation :=
  (flow.rotate_at prov.http_ w_anchors w_enrolled [36%Z] 24 "/v3" w_dump (world_at disk.blank 33)).

(** Whether the rotation succeeds, records every name once and can be flushed. *)
Definition rotation_good (r : outcome (option hid8 * WireDump) * world) : bool :=
  match r with
  | (Ret (Some _, d), w) =>
      dump.enabled d && bool_decide (NoDup (map e_file (entries_ d))) &&
      match (dump.flush d w).1 with Ret (true, _) => true | _ => false end
  | _ => false
  end.

Lemma rotation_good_inv r : rotation_good r = true ->
  exists h8 d w d' w', r = (Ret (Some h8, d), w) /\ dump.enabled d = true /\
    NoDup (map e_file (entries_ d)) /\ dump.flush d w = (Ret (true, d'), w').
Proof.
  destruct r as [[[[h8|] d]| | |] w]; simpl; try done. intros [[He Hn]%andb_prop Hf]%andb_prop.
  destruct (dump.flush d w) as [[[[] d']| | |] w'] eqn:E; simpl in Hf; try done.
  exists h8, d, w, d', w'. split_and!; try done. by apply bool_decide_eq_true_1 in Hn.
Qed.

Lemma w_rotation_good : rotation_good w_rotation = true.
Proof. vm_compute. reflexivity. Qed.

Lemma rotation_witness :
  exists kp cert w', w' = w_rotation.2 /\
    files (w_fs w') !! ("/v3" ++ "/AT.coer") = Some (sb.to_vector (cert_bytes cert)) /\
    key_file "/v3" kp (files (w_fs w')).
Proof.
  destruct (rotation_good_inv _ w_rotation_good) as (h8 & d & w & d' & w' & Hr & _).
  pose proof (rotation_correct (pem_ok := ToyPem_ok) (sec1_ok := s_sec1_ok) prov.http_ w_anchors w_enrolled [36%Z] 24 "/v3" w_dump
    (world_at disk.blank 33) h8 d w Hr) as (kp & g1 & g2 & g3 & now & desc & req & resp & cert & _ & _ & _ & _ & _ & _ & _ & Hf).
  destruct (Hf disk.no_faults_reliable) as (Hc & _ & Hk). exists kp, cert, w.
  split_and!; [by rewrite Hr|exact Hc|]. apply Hk. vm_compute. reflexivity.
Defined.

Lemma dump_witness :
  exists d w d' w', w_rotation.2 = w /\ dump.flush d w = (Ret (true, d'), w') /\
    Forall (fun e => e_direction e <> "key-material") (entries_ d).
Proof.
  destruct (rotation_good_inv _ w_rotation_good) as (h8 & d & w & d' & w' & Hr & _ & _ & Hf).
  pose proof (dump_invariant "/dump" false d) as H. destruct H as (_ & _ & Hk).
  - eapply rtc_once, step_rotate. exact Hr.
  - exists d, w, d', w'. split_and!; [by rewrite Hr|done|]. by apply Hk.
Defined.

Lemma dump_flush_witness :
  exists d w', is_Some (files (w_fs w') !! ("/dump" ++ "/manifest.json")) /\ dump.enabled d = false.
Proof.
  destruct (rotation_good_inv _ w_rotation_good) as (h8 & d & w & d' & w' & Hr & He & Hn & Hf).
  pose proof (dump_flush_correct "/dump" false d w d' w') as H. destruct H as (Hd & Hm & _).
  - eapply rtc_once, step_rotate. exact Hr.
  - exact He.
  - exact Hf.
  - pose proof (f_equal (fun r => env (w_fs r.2)) Hr) as Hv. cbn [snd] in Hv. rewrite <- Hv.
    assert (env (w_fs w_rotation.2) = disk.no_faults) as -> by (vm_compute; reflexivity).
    apply disk.no_faults_reliable.
  - exact Hn.
  - exists d', w'. split; [|done].
    assert (Hdir : dir_ d = "/dump"); [|rewrite Hdir in Hm; by rewrite Hm].
    pose proof (f_equal (fun r => match r.1 with Ret (_, d) => dir_ d | _ => "" end) Hr) as Hv.
    cbn [fst] in Hv. rewrite <- Hv. vm_compute. reflexivity.
Defined.

(** The whole run, in one shot. *)
Lemma provision_witness :
  exists cert en kp, let m := files (w_fs (prov.provision (fun _ => true) 1 s_cfg (world_at disk.blank 29)).2) in
    m !! ("/v3" ++ "/AT.coer") = Some (sb.to_vector (cert_bytes cert)) /\
    is_Some (m !! ("/v3" ++ "/AT.key")) /\
    (is_p256_size (curve (ec_cert en)) = true -> key_file "/v3" kp m).
Proof.
  pose proof (provision_correct (pem_ok := ToyPem_ok) (sec1_ok := s_sec1_ok) (fun _ => true) 1 s_cfg (world_at disk.blank 29)
    (prov.provision (fun _ => true) 1 s_cfg (world_at disk.blank 29)).2) as H.
  destruct H as (ta & en & q & r & kp & req & resp & cert & _ & _ & _ & (g & n & n' & Hx) & _ & Hf).
  - exact (tool.run_ret _ _ provision_ok).
  - reflexivity.
  - reflexivity.
  - exists cert, en, kp. destruct (Hf disk.no_faults_reliable) as (_ & _ & Hc & Hk). exact (conj Hc Hk).
Defined.

(** The continuous mode, with a signal at the fifth look at the flag. *)
Definition w_running (k : nat) : bool := (k <? 5)%nat.
Definition w_cfg : Config :=
  MkConfig "http://cpoc" "" "/v3" 24 (dbl.atof "0.8") [36%Z] 30 false "" NistP256 false.

Lemma toy_digests : flow.digests.
Proof.
  intros b. change (crypto.hash_sha256 b) with (toy_digest EVP_sha256 b).
  rewrite (@digest_len ToyOpenSSL ToyOpenSSL_ok EVP_sha256 b (toy_digest EVP_sha256 b) eq_refl). apply Nat.leb_le. reflexivity.
Qed.

Lemma provisioner_terminates_witness :
  match prov.provision w_running 6 w_cfg (world_at disk.blank 29) with
  | (Ret code, w') => tool.appends (world_at disk.blank 29) w' /\ (code = Some 0%Z \/ code = Some 1%Z)
  | (Thrown, w') => tool.appends (world_at disk.blank 29) w'
  | _ => False
  end.
Proof.
  apply (provisioner_terminates w_running 5 w_cfg (world_at disk.blank 29)).
  - exact toy_digests.
  - right. eexists. vm_compute. reflexivity.
  - right. intros k Hk. apply Nat.ltb_ge. lia.
  - reflexivity.
Defined.
