(* ===== verification/MemProps.v ===== *)
(** Properties of the memory the program manages by hand. *)
From S2P Require Import Prelude Result Sizes StaticBytes Asn OpenSSL CryptoEc CurvePoint Ecies.
From S2P Require Import Concrete CertParse SignedMessage SignedEnvelope EncryptedData TrustChain.
From S2P Require Import Request EcRequest AtRequest Revocation Disk TrustList Scenario.
From S2P Require Import CHeap HeapLogic AsnTree AsnPtr AsnLayout AsnBuild AsnRequest AsnCert CliIo.
From S2P Require Import AsnRead AsnParse AsnMessages AsnLists SslPtr.
Import scenario.

(** [m] runs in the heap of [s] without undefined behaviour, whatever the library
    calls answer, returns [r], and leaves the heap as it found it. *)
Definition leaves_no_trace {A} (m : M A) (s : cstate) (r : A) : Prop :=
  exists s', m s = Some (r, s') /\ cells s' = cells s.

(** ** Owning pointers *)

Section pointers.
Context {cc : CCodec} {T : Type} `{!Codec T, !Layout T}.

(** C24: a block of code that uses its variables of type [AsnPtr<T>] in any order, by
    decoding into them, moving, assigning (also to themselves), resetting and
    releasing them, destroys every structure exactly once: the run is defined (no
    double free, no use of a freed structure, no free through a wrong descriptor),
    and once the caller has freed the pointers it released, the heap is what it was. *)
Theorem asn_ptr_blocks_release_once os :
  asn_ptr.scoped ∅ os = true -> forall s, leaves_no_trace (asn_ptr.block (T := T) os) s ().
Proof.
  intros Hs s. destruct (wp_run _ _ (asn_ptr.wp_block os Hs) s) as ([] & s' & E & Hc & _).
  by exists s'.
Qed.

End pointers.

(** ** Builders *)

Section builders.
Context {ossl : OpenSSL} {cc : CCodec} {hjunk : UninitHmac}.
Context {dc : Codec Ieee1609Dot2Data} {tc : Codec ToBeSignedData} {iq : Codec InnerEcRequest}.
Context {pc : Codec PublicVerificationKey} {sc : Codec SharedAtRequest} {aq : Codec InnerAtRequest}.
Context {cb : Codec CertificateBase} {tb : Codec ToBeSignedCertificate}.
Context {up : UperCodec ToBeSignedCertificate}.
Context {dc_c : CEncodes Ieee1609Dot2Data} {tc_c : CEncodes ToBeSignedData}
  {iq_c : CEncodes InnerEcRequest} {pc_c : CEncodes PublicVerificationKey}
  {sc_c : CEncodes SharedAtRequest} {aq_c : CEncodes InnerAtRequest}
  {cb_c : CEncodes CertificateBase} {tb_c : CEncodes ToBeSignedCertificate}
  {up_c : CEncodesUper ToBeSignedCertificate}.

(** C20: [encode_ec_request] as it is written, allocating, linking and freeing every
    structure by hand, implements the functional model: in any heap its run is
    defined, gives exactly the result of the model on every path, errors included,
    and frees everything it allocated. The calls of calloc are taken to succeed: the
    program does not compare their results with null, and is undefined otherwise. *)
Theorem ec_request_memory desc ea priv now1 now2 g s :
  leaves_no_trace (cec.encode_ec_request desc ea priv now1 now2 g) s
    (ec.encode_ec_request desc ea priv now1 now2 g).
Proof. apply wp_run_eq. intros Q. apply cec.wp_encode_ec_request. Qed.

(** C21: the same for [encode_at_request], whose error paths have to free one or two
    local structures and an encrypted signature that is not linked yet, and which
    takes a structure out of an owning pointer. Here too calloc is taken to succeed. *)
Theorem at_request_memory desc aa ea eci ec_priv at_priv now1 now2 g s :
  leaves_no_trace (cat.encode_at_request desc aa ea eci ec_priv at_priv now1 now2 g) s
    (at_.encode_at_request desc aa ea eci ec_priv at_priv now1 now2 g).
Proof. apply wp_run_eq. intros Q. apply cat.wp_encode_at_request. Qed.

(** the same for the certificate builders: [build_signed_cert], in which the
    ToBeSignedCertificate changes owner halfway, and [encode_tbs_uper]. *)
Theorem signed_cert_memory name pk priv hid ca ss issuer start years g s :
  leaves_no_trace (ccert.build_signed_cert name pk priv hid ca ss issuer g) s
    (cert_utils.build_signed_cert name pk priv hid ca ss issuer g) /\
  leaves_no_trace (ccert.encode_tbs_uper name pk ca start years) s
    (cert_utils.encode_tbs_uper name pk ca start years).
Proof.
  split; apply wp_run_eq; intros Q;
    [apply ccert.wp_build_signed_cert|apply ccert.wp_encode_tbs_uper].
Qed.

(** ** Parsers *)

Context {ir : Codec InnerEcResponse} {jr : Codec InnerAtResponse}.

(** C22: the decoders of the two responses as they are written, following the pointers
    of the decoded structures: whatever bytes arrive, no null pointer is dereferenced,
    no alternative of a union is read but the selected one, every structure is
    released on every return, and the result is that of the functional model, errors
    included.  [junk] is the content of the arrays the code leaves uninitialised. *)
Theorem responses_memory junk resp priv key req ca s :
  let u : Uninit := fun _ => junk in
  leaves_no_trace (rresponse.decode_ec_response junk resp priv key req ca) s
    (ec.decode_ec_response resp priv key req ca) /\
  leaves_no_trace (rresponse.decode_at_response junk resp priv key req ca) s
    (at_.decode_at_response resp priv key req ca).
Proof.
  intros u. split; apply reads_run;
    [exact (rresponse.reads_ec_response junk _ resp priv key req ca)
    |exact (rresponse.reads_at_response junk _ resp priv key req ca)].
Qed.

Context {ed : Codec EtsiTs102941Data} {xc : Codec EtsiTs103097Certificate} {xc_c : CEncodesEtsi}.

(** C23: the same for the parsers of the trust data: certificates, revocation lists
    and trust lists, with their lists of pointers and nested unions, for any bytes,
    keys and time. *)
Theorem trust_data_memory junk cert_coer crl_coer ctl_coer pub cert is_ectl now s :
  let u : Uninit := fun _ => junk in
  leaves_no_trace (rcert.from_coer cert_coer junk) s (cert.from_coer cert_coer) /\
  leaves_no_trace (rcrl.decode_crl crl_coer pub cert) s (Revocation.decode_crl crl_coer pub cert) /\
  leaves_no_trace (rtlist.decode_ctl_common junk ctl_coer pub cert is_ectl now) s
    (tlist.decode_ctl_common ctl_coer pub cert is_ectl now).
Proof.
  intros u. split_and!; apply reads_run;
    [exact (rcert.reads_from_coer _ cert_coer junk)|exact (rcrl.reads_decode_crl _ crl_coer pub cert)
    |exact (rtlist.reads_decode_ctl junk _ ctl_coer pub cert is_ectl now)].
Qed.

(** The summary of a certificate file, read through pointers and freed by hand. *)
Lemma cert_summary_memory coer s :
  leaves_no_trace (csummary.parse_cert_summary coer) s (cio.parse_cert_summary coer).
Proof. apply wp_run_eq. intros Q. apply csummary.wp_parse_cert_summary. Qed.

(** A signed envelope around a payload, with its memory. *)
Lemma envelope_memory pl ci priv curve now g s :
  leaves_no_trace (csign.build_signed_by_cert pl ci priv curve now g) s
    (sign.build_signed_by_cert pl ci priv curve now g).
Proof. apply wp_run_eq. intros Q. apply csign.wp_build_signed_by_cert. Qed.

End builders.

(** ** A concrete codec over memory

    A prefix serialisation of the structure; every type decodes to a fixed value. *)

Fixpoint serialize (t : tree) : bytes :=
  match t with
  | TNull => [x00]
  | TInt z => [x01; byte.of_Z z]
  | TOct b0 b => x02 :: byte.of_Z (Z.of_nat (length b)) :: b0 :: b
  | TBig z => x03 :: be_bytes 8 z
  | TStruct _ present fs =>
      x04 :: byte.of_Z (Z.of_nat (String.length present)) :: bytes_of_string present ++
      (fix go fs := match fs with [] => [] | (_, t) :: fs => serialize t ++ go fs end) fs
  end.

Definition w_ccodec : CCodec :=
  {| c_encode _ t := Some (serialize t);
     c_encode_uper _ t := Some (x55 :: serialize t);
     c_partial _ b := if empty b then None else Some (EmptyString, [(EmptyString, octets b)]) |}.

Definition w_codec (T : Type) `{!Layout T} (d : bytes -> option T) : Codec T :=
  {| asn_encode x := Some (serialize (tree_of x));
     asn_decode_canonical := d;
     asn_decode_basic := d |}.

Definition w_uper (T : Type) `{!Layout T} : UperCodec T :=
  {| asn_encode_uper x := Some (x55 :: serialize (tree_of x)); asn_decode_uper _ := None |}.

(** The functional codecs are the C codec seen through the layout. *)
#[local] Instance w_encodes (T : Type) (lt : Layout T) d : @CEncodes T (w_codec T d) lt w_ccodec :=
  fun x => eq_refl.
#[local] Instance w_encodes_uper (T : Type) (lt : Layout T) :
  @CEncodesUper T (w_uper T) lt w_ccodec := fun x => eq_refl.

#[local] Existing Instance w_ccodec.
#[local] Existing Instance ToyOpenSSL.
#[local] Existing Instance s_uninit_hmac.

Definition w_data : Codec Ieee1609Dot2Data := w_codec _ (fun _ => None).
Definition w_tbs : Codec ToBeSignedData := w_codec _ (fun _ => None).
Definition w_iq : Codec InnerEcRequest := w_codec _ (fun _ => None).
Definition w_pvk : Codec PublicVerificationKey := w_codec _ (fun _ => None).
Definition w_shared : Codec SharedAtRequest :=
  w_codec _ (fun b => if empty b then None
                      else Some (at_.shared_at_request s_at_desc (zeros 16))).
Definition w_aq : Codec InnerAtRequest := w_codec _ (fun _ => None).
Definition w_cert : Codec CertificateBase := w_codec _ (fun _ => None).
Definition w_tbscert : Codec ToBeSignedCertificate := w_codec _ (fun _ => None).
Definition w_up : UperCodec ToBeSignedCertificate := w_uper _.

(** A heap in which other structures live. *)
Definition w_state (sch : list bool) : cstate :=
  MkCState {[ 1%positive := Buf [x77]; 5%positive := IntBuf 9 ]} sch.

(** Three pointers: one decoded, one decoded from bytes that fail, one moved to;
    assignments, a self assignment, a release and a reset. *)
Definition w_block : list asn_ptr.op :=
  [asn_ptr.Decode 0 [x01]; asn_ptr.Default 1; asn_ptr.Assign 1 0; asn_ptr.Assign 1 1;
   asn_ptr.MoveFrom 2 1; asn_ptr.Reset 1; asn_ptr.DecodeFallback 3 []; asn_ptr.Decode 4 [x02];
   asn_ptr.Release 4; asn_ptr.EndOfScope 2].

Lemma asn_ptr_blocks_release_once_witness :
  leaves_no_trace (asn_ptr.block (Codec0 := w_shared) w_block) (w_state []) ().
Proof. apply (asn_ptr_blocks_release_once (Codec0 := w_shared)). vm_compute. reflexivity. Defined.

Lemma ec_request_memory_witness :
  exists r, fst (ec.encode_ec_request (dc := w_data) (tc := w_tbs) (iq := w_iq) s_ec_desc ea_ci
    (s_priv its_d) s_now s_now 30%Z) = Ok r /\
  leaves_no_trace (cec.encode_ec_request s_ec_desc ea_ci (s_priv its_d) s_now s_now 30%Z) (w_state [])
    (ec.encode_ec_request (dc := w_data) (tc := w_tbs) (iq := w_iq) s_ec_desc ea_ci (s_priv its_d)
       s_now s_now 30%Z).
Proof.
  eexists. split; [vm_compute; reflexivity|].
  apply (ec_request_memory (dc := w_data) (tc := w_tbs) (iq := w_iq)).
Defined.

Lemma at_request_memory_witness :
  exists r, fst (at_.encode_at_request (dc := w_data) (tc := w_tbs) (pc := w_pvk) (sc := w_shared)
    (iq := w_aq) s_at_desc aa_ci ea_ci ec_ci (s_priv its_d) (s_priv at_d) s_now s_now 30%Z) = Ok r /\
  leaves_no_trace (cat.encode_at_request (sc := w_shared) s_at_desc aa_ci ea_ci ec_ci (s_priv its_d)
      (s_priv at_d) s_now s_now 30%Z) (w_state [])
    (at_.encode_at_request (dc := w_data) (tc := w_tbs) (pc := w_pvk) (sc := w_shared)
       (iq := w_aq) s_at_desc aa_ci ea_ci ec_ci (s_priv its_d) (s_priv at_d) s_now s_now 30%Z).
Proof.
  eexists. split; [vm_compute; reflexivity|].
  apply (at_request_memory (dc := w_data) (tc := w_tbs) (pc := w_pvk) (sc := w_shared) (aq := w_aq)).
Defined.

Lemma signed_cert_memory_witness :
  (exists ci, fst (cert_utils.build_signed_cert (cb := w_cert) (tb := w_tbscert) "root" (s_pub rca_d)
    (s_priv rca_d) (zeros 8) true true [] 0%Z) = Some ci) /\
  leaves_no_trace (ccert.build_signed_cert (cb := w_cert) "root" (s_pub rca_d) (s_priv rca_d) (zeros 8)
      true true [] 0%Z) (w_state [true])
    (cert_utils.build_signed_cert (cb := w_cert) (tb := w_tbscert) "root" (s_pub rca_d) (s_priv rca_d)
       (zeros 8) true true [] 0%Z) /\
  leaves_no_trace (ccert.encode_tbs_uper "root" (s_pub rca_d) true 0 30) (w_state [true])
    (cert_utils.encode_tbs_uper (up := w_up) "root" (s_pub rca_d) true 0 30).
Proof.
  split; [eexists; vm_compute; reflexivity|].
  apply (signed_cert_memory (cb := w_cert) (tb := w_tbscert) (up := w_up)).
Defined.

(** The messages of the scenario over memory: a C codec that knows the structures of
    its tables by their serialisation, and the decoders of the tables. *)
Definition rows {T} `{!Layout T} (tbl : list (T * bytes)) : list (string * bytes * bytes) :=
  map (fun e => (td T, serialize (tree_of e.1), e.2)) tbl.

Definition v_rows : list (string * bytes * bytes) := Eval vm_compute in
  (rows s_tbsdata_table ++ rows s_cert_table ++ rows s_tbscert_table ++
   map (fun e => ("EtsiTs103097Certificate"%string, serialize (tree_of e.1), e.2)) s_cert_table)%list.

Definition v_ccodec : CCodec :=
  {| c_encode ty t :=
       snd <$> find (fun e => String.eqb ty e.1.1 && bytes_eqb (serialize t) e.1.2) v_rows;
     c_encode_uper _ _ := None;
     c_partial _ b := if empty b then None else Some (EmptyString, [(EmptyString, octets b)]) |}.

Definition v_codec {T} `{!EqDecision T, !Layout T} (tbl : list (T * bytes)) : Codec T :=
  {| asn_encode x := @c_encode v_ccodec (td T) (tree_of x);
     asn_decode_canonical := table_decode tbl;
     asn_decode_basic := table_decode tbl |}.

Definition v_tbsdata : Codec ToBeSignedData := v_codec s_tbsdata_table.
Definition v_cert : Codec CertificateBase := v_codec s_cert_table.
Definition v_tbscert : Codec ToBeSignedCertificate := v_codec s_tbscert_table.
Definition v_etsi : Codec EtsiTs103097Certificate :=
  {| asn_encode x := @c_encode v_ccodec "EtsiTs103097Certificate" (tree_of (etsi_cert x));
     asn_decode_canonical _ := None; asn_decode_basic _ := None |}.
Definition v_junk : bytes -> hid8 := fun _ => zeros 8.
#[local] Instance v_uninit : Uninit := fun _ => v_junk.

#[local] Existing Instances v_tbsdata v_cert v_tbscert v_etsi s_data_codec s_etsi_codec
  s_ec_response_codec s_at_response_codec.
#[local] Instance v_tbsdata_c : CEncodes (H := v_ccodec) ToBeSignedData := fun _ => eq_refl.
#[local] Instance v_cert_c : CEncodes (H := v_ccodec) CertificateBase := fun _ => eq_refl.
#[local] Instance v_tbscert_c : CEncodes (H := v_ccodec) ToBeSignedCertificate := fun _ => eq_refl.
#[local] Instance v_etsi_c : CEncodesEtsi (cc := v_ccodec) := fun _ => eq_refl.

Lemma trace_ok {A} (m : M (Result A)) s x :
  has_value x = true -> leaves_no_trace m s x -> exists r, x = Ok r /\ leaves_no_trace m s (Ok r).
Proof. destruct x as [r|]; [|done]. intros _ H. by exists r. Qed.

(** The answers of the enrolment and of the authorization authority. *)
Lemma responses_memory_witness :
  (exists r, ec.decode_ec_response (wire x50 x07) (s_priv its_d) s_ec_enc.2 (wire x50 x05) ea_ci = Ok r /\
   leaves_no_trace (rresponse.decode_ec_response (cc := v_ccodec) v_junk (wire x50 x07) (s_priv its_d)
     s_ec_enc.2 (wire x50 x05) ea_ci) (w_state []) (Ok r)) /\
  (exists r, at_.decode_at_response (wire x50 x0c) (s_priv at_d) s_at_enc.2 (wire x50 x0a) aa_ci = Ok r /\
   leaves_no_trace (rresponse.decode_at_response (cc := v_ccodec) v_junk (wire x50 x0c) (s_priv at_d)
     s_at_enc.2 (wire x50 x0a) aa_ci) (w_state []) (Ok r)).
Proof.
  split; (apply trace_ok; [vm_compute; reflexivity|]).
  - exact (proj1 (responses_memory (cc := v_ccodec) v_junk (wire x50 x07) (s_priv its_d) s_ec_enc.2
      (wire x50 x05) ea_ci (w_state []))).
  - exact (proj2 (responses_memory (cc := v_ccodec) v_junk (wire x50 x0c) (s_priv at_d) s_at_enc.2
      (wire x50 x0a) aa_ci (w_state []))).
Defined.

(** The root certificate, its revocation list and its trust list. *)
Lemma trust_data_memory_witness :
  (empty (sb.to_vector (public_key (cert.from_coer rca_coer))) = false /\
   leaves_no_trace (rcert.from_coer (cc := v_ccodec) rca_coer v_junk) (w_state [])
     (cert.from_coer rca_coer)) /\
  (exists crl, Revocation.decode_crl (wire x50 x01) (s_pub rca_d) rca_coer = Ok crl /\
   leaves_no_trace (rcrl.decode_crl (cc := v_ccodec) (wire x50 x01) (s_pub rca_d) rca_coer) (w_state [])
     (Ok crl)) /\
  (exists topo, tlist.decode_ctl_common (wire x50 x02) (s_pub rca_d) rca_coer false 0 = Ok topo /\
   leaves_no_trace (rtlist.decode_ctl_common (cc := v_ccodec) v_junk (wire x50 x02) (s_pub rca_d)
     rca_coer false 0) (w_state []) (Ok topo)).
Proof.
  pose proof (trust_data_memory (cc := v_ccodec) v_junk rca_coer (wire x50 x01) (wire x50 x02)
    (s_pub rca_d) rca_coer false 0 (w_state [])) as H.
  split_and!; [vm_compute; reflexivity|exact (proj1 H)| |];
    (apply trace_ok; [vm_compute; reflexivity|]); [exact (proj1 (proj2 H))|exact (proj2 (proj2 H))].
Defined.

(** ** Objects of the libraries *)

(** The operations of src/crypto_ec.cpp, src/ecies.cpp, src/http_client.cpp,
    src/plaintext_file_key_store.cpp and tools/pki-provisioner/key_pem.cpp. *)
Inductive operation :=
  | GenerateKeypair
  | Sign (private_key : bytes)
  | SignDigest (private_key digest : bytes) (curve : Curve)
  | Verify (public_key : bytes)
  | VerifyDigest (public_key digest : bytes) (curve : Curve)
  | Derive (private_key peer_public_key : bytes) (curve : Curve)
  | Kdf2 (p1 : bytes) (blocks : nat)
  | CcmEncrypt (key nonce : bytes)
  | CcmDecrypt (key nonce tag : bytes)
  | LoadKeypair
  | StoreKeypair (kp : KeyPair)
  | WriteFile
  | WriteKeyPem
  | Get (max_retries : nat)
  | Post (max_retries : nat).

Definition discard {A} (m : M A) : M () := _ ← m; mret ().

Definition perform (oom : bool) (o : operation) : M () :=
  match o with
  | GenerateKeypair => discard ssl.generate_keypair
  | Sign k => discard (ssl.ecdsa_sign oom k)
  | SignDigest k d c => discard (ssl.ecdsa_sign_digest oom k d c)
  | Verify k => discard (ssl.ecdsa_verify k)
  | VerifyDigest k d c => discard (ssl.ecdsa_verify_digest k d c)
  | Derive k p c => discard (ssl.ecdh_derive oom k p c)
  | Kdf2 p1 n => discard (ssl.kdf2_blocks oom p1 n)
  | CcmEncrypt k n => discard (ssl.aes_128_ccm_encrypt k n)
  | CcmDecrypt k n t => discard (ssl.aes_128_ccm_decrypt k n t)
  | LoadKeypair => discard ssl.load_keypair
  | StoreKeypair kp => discard (ssl.store_keypair kp)
  | WriteFile => discard ssl.atomic_write
  | WriteKeyPem => discard (ssl.atomic_write_key_pem oom)
  | Get n => discard (ssl.http_get n)
  | Post n => discard (ssl.http_post n)
  end.

Fixpoint perform_all (oom : bool) (os : list operation) : M () :=
  match os with
  | [] => mret ()
  | o :: os => perform oom o;; perform_all oom os
  end.

Lemma discard_run {A} (m : M A) s : ssl.safe m -> leaves_no_trace (discard m) s ().
Proof.
  intros H. destruct (ssl.safe_run m H s) as (r & s' & E & Hc). exists s'. split; [|done].
  unfold discard, mbind, M_bind. by rewrite E.
Qed.

Lemma perform_run o s : leaves_no_trace (perform false o) s ().
Proof.
  destruct o; apply discard_run;
    [apply ssl.generate_keypair_safe|apply ssl.ecdsa_sign_safe|apply ssl.ecdsa_sign_digest_safe
    |apply ssl.ecdsa_verify_safe|apply ssl.ecdsa_verify_digest_safe|apply ssl.ecdh_derive_safe
    |apply ssl.kdf2_blocks_safe|apply ssl.aes_encrypt_safe|apply ssl.aes_decrypt_safe
    |apply ssl.load_keypair_safe|apply ssl.store_keypair_safe|apply ssl.atomic_write_safe
    |apply ssl.atomic_write_key_pem_safe|apply ssl.http_get_safe|apply ssl.http_post_safe].
Qed.

(** C25: any sequence of cryptographic, key storage and HTTP operations, with any
    answers of OpenSSL, of the file system and of libcurl on the way, releases every
    object, file and handle it opened exactly once and uses none after its release or
    through a null pointer, provided the three allocations the code does not check
    succeed. *)
Theorem openssl_objects_released os s : leaves_no_trace (perform_all false os) s ().
Proof.
  revert s. induction os as [|o os IH]; intros s; simpl; [by exists s|].
  destruct (perform_run o s) as (s1 & E1 & H1). destruct (IH s1) as (s2 & E2 & H2).
  exists s2. split; [|congruence]. unfold mbind at 1, M_bind at 1. by rewrite E1.
Qed.

(** ... and when one of them fails, its null pointer is dereferenced. *)
Lemma unchecked_allocations :
  perform true WriteKeyPem (MkCState ∅ [false; false; false; false; false; false; true]) = None /\
  perform true (SignDigest (zeros 32) (zeros 32) NistP256) (MkCState ∅ [false; false; false; true])
    = None /\
  perform true (Kdf2 [] 1) (MkCState ∅ [true]) = None.
Proof. split_and!; vm_compute; reflexivity. Qed.
