(* ===== verification/BoundsProps.v ===== *)
(** Properties of the buffers: no access leaves its bounds, and the functions over
    buffers compute what the functional models compute.  The hypotheses on OpenSSL hold
    of the arithmetic stand-in of Concrete.v. *)
From S2P Require Import Prelude Sizes StaticBytes Asn OpenSSL CryptoEc CurvePoint Ecies Concrete.
From S2P Require Import CertParse SignedMessage SignedEnvelope EncryptedData TrustChain Disk TrustList.
From S2P Require Import Request AtRequest KeyStore Tool CliIo KeyPem Flow Scenario.
From S2P Require Import Buffers BufCrypto BufEcies BufMessages.
Import scenario.

Section bounds.
Context {ossl : OpenSSL} {sz : SslSizes} {ccm : SslCcm}.
Context {ossl_ok : OpenSSLOk} {sz_ok : SslSizesOk} {ccm_ok : SslCcmOk}.

(** C26: the functions of src/crypto_ec.cpp, and the one that takes a key out of a
    stored key file, stay inside their buffers whatever the arguments and whatever
    OpenSSL answers within the lengths it announces: key generation, import of private
    and public keys, signing, verification, key agreement, hashing.  Their results are
    those of the functional models. *)
Theorem crypto_in_bounds priv pub msg dig sig curve pkey g :
  sb.wf (sig_r sig) -> sb.wf (sig_s sig) ->
  bcrypto.generate_keypair curve g = Some (crypto.generate_keypair_curve curve g) /\
  bcrypto.ecdsa_sign priv msg g = Some (crypto.ecdsa_sign priv msg g) /\
  bcrypto.ecdsa_sign_digest priv dig curve g = Some (crypto.ecdsa_sign_digest_curve priv dig curve g) /\
  bcrypto.ecdsa_verify pub msg sig = Some (crypto.ecdsa_verify pub msg sig) /\
  bcrypto.ecdsa_verify_digest pub dig sig curve =
    Some (crypto.ecdsa_verify_digest_curve pub dig sig curve) /\
  bcrypto.ecdh_derive priv pub curve = Some (crypto.ecdh_derive_curve priv pub curve) /\
  bcrypto.hash_for_curve msg curve = Some (crypto.hash_for_curve msg curve) /\
  bcrypto.extract_keypair pkey = Some (pfks.extract_keypair pkey).
Proof.
  intros Hr Hs. split_and!.
  - apply bcrypto.generate_in_bounds.
  - apply bcrypto.sign_in_bounds.
  - apply bcrypto.sign_digest_in_bounds.
  - by apply bcrypto.verify_in_bounds.
  - by apply bcrypto.verify_digest_in_bounds.
  - apply bcrypto.derive_in_bounds.
  - apply bcrypto.hash_in_bounds.
  - apply bcrypto.extract_keypair_in_bounds.
Qed.

(** C27: the same for src/ecies.cpp: KDF2 with its array that is not initialised, the
    calls of AES-128-CCM, of which decryption makes the last one also when another has
    failed, and ECIES with its loops, slices and comparisons.  Lengths are handed to
    OpenSSL as [int], so that messages have to be smaller than 2 GiB. *)
Theorem ecies_in_bounds junk key nonce tag pub priv pt ct enc ss p1 n curve g :
  (Z.of_nat (length pt) < 2 ^ 31)%Z -> (Z.of_nat (length ct) < 2 ^ 31)%Z ->
  (Z.of_nat (length (ecies_ciphertext enc)) < 2 ^ 31)%Z ->
  becies.kdf2_sha256 junk ss p1 n = Some (ecies.kdf2_sha256 ss p1 n) /\
  becies.aes_128_ccm_encrypt key nonce pt = Some (ecies.aes_128_ccm_encrypt key nonce pt) /\
  becies.aes_128_ccm_decrypt key nonce ct tag = Some (ecies.aes_128_ccm_decrypt key nonce ct tag) /\
  becies.ecies_encrypt junk pub pt p1 curve g = Some (ecies.ecies_encrypt_curve pub pt p1 curve g) /\
  becies.ecies_decrypt junk priv enc p1 curve = Some (ecies.ecies_decrypt_curve priv enc p1 curve).
Proof.
  intros Hp Hc He. split_and!.
  - apply (becies.kdf2_in_bounds junk).
  - by apply becies.aes_encrypt_in_bounds.
  - by apply becies.aes_decrypt_in_bounds.
  - by apply becies.encrypt_in_bounds.
  - by apply becies.decrypt_in_bounds.
Qed.

Context {hjunk : UninitHmac}.

(** C28: the same for the message code, for any bytes: curve points read out of keys of
    any length, the signature written from the arrays of a [Signature], the last eight
    bytes of a hash, the tag behind a ciphertext, the prefix of an answer, the request
    hash, the key tag and the text forms of identifiers, the last one into an array of
    17 characters with a terminating NUL. *)
Theorem messages_in_bounds k sig curve hash ct tag inner req rh key oer hex buf id :
  sb.wf (sig_r sig) -> sb.wf (sig_s sig) -> sb.wf rh -> sb.wf key -> length uninit_hmac = 32 ->
  length id = 8 -> length buf = 17 ->
  bpoint.from_sec1 k = Some (point.from_sec1 k) /\
  bpoint.from_sec1_384 k = Some (point.from_sec1_384 k) /\
  bpoint.from_sec1_uncompressed k = Some (point.from_sec1_uncompressed k) /\
  bpoint.build_asn_signature sig curve = Some (sign.build_asn_signature sig curve) /\
  bbytes.truncate_hid8 hash = Some (cert.truncate_hid8 hash) /\
  bbytes.split_tag ct = Some (if length ct <? kAesCcmTagLen then None
                              else Some (droplast kAesCcmTagLen ct, lastn kAesCcmTagLen ct)) /\
  bbytes.strip_prefix tag inner = Some (enc.strip_prefix tag inner) /\
  bbytes.request_hash_matches req rh = Some (enc.request_hash_matches req rh) /\
  bbytes.key_tag uninit_hmac key oer = Some (at_.key_tag key oer) /\
  bhex.parse_hid8_hex hex = Some (tlist.parse_hid8_hex hex) /\
  bhex.hex_to_hid8 hex = Some (cio.hex_to_hid8 hex) /\
  bhex.hex8 buf id = Some (kpem.hex8 id).
Proof.
  intros Hr Hs Hh Hk Hj Hi Hb. split_and!.
  - apply bpoint.from_sec1_in_bounds.
  - apply bpoint.from_sec1_384_in_bounds.
  - apply bpoint.uncompressed_in_bounds.
  - by apply bpoint.signature_in_bounds.
  - apply bbytes.truncate_in_bounds.
  - apply bbytes.split_tag_in_bounds.
  - apply bbytes.strip_prefix_in_bounds.
  - by apply bbytes.request_hash_in_bounds.
  - by apply bbytes.key_tag_in_bounds.
  - apply bhex.parse_hid8_in_bounds.
  - apply bhex.hex_to_hid8_in_bounds.
  - by apply bhex.hex8_in_bounds.
Qed.

(** From 2 GiB on, the length that reaches OpenSSL is negative. *)
Lemma encrypt_length_overflows key nonce pt ctx :
  length key = kAesKeyLen -> length nonce = kAesCcmNonceLen ->
  (2 ^ 31 <= Z.of_nat (length pt) < 2 ^ 32)%Z -> EVP_CIPHER_CTX_new = Some ctx ->
  (ccm_setup true 16 None key nonce (vec.int_of_size (length nonce)) (vec.int_of_size (length pt)) ctx).1
    = true ->
  becies.aes_128_ccm_encrypt key nonce pt = None.
Proof.
  intros Hk Hn Hp Hc Hs. unfold becies.aes_128_ccm_encrypt.
  rewrite (proj2 (Nat.eqb_eq _ _) Hk), (proj2 (Nat.eqb_eq _ _) Hn), Hc. cbn [negb orb].
  rewrite <- Hk, vec.read_all, (vec.read_int_all nonce) by (rewrite Hn; vm_compute; done).
  cbn [mbind option_bind]. destruct (ccm_setup _ _ _ _ _ _ _ ctx) as [ok ctx']. cbn [fst] in Hs. subst ok.
  cbn [negb]. unfold vec.read_int. rewrite (vec.int_of_size_large (length pt)) by done.
  by rewrite (proj2 (Z.ltb_lt _ _)) by lia.
Qed.

End bounds.

(** ** The hypotheses hold of the arithmetic stand-in *)

(** A cipher context of the stand-in: what the calls have put into it. *)
Record toy_ctx := MkToyCtx {
  toy_enc : bool; toy_ctx_tag : bytes; toy_ctx_key : bytes; toy_nonce : bytes; toy_data : bytes;
}.

Section instances.
#[local] Existing Instance ToyOpenSSL.

Definition ToySizes : SslSizes := {|
  EVP_PKEY_sign_size _ := Some 96;
  EVP_DigestSign_size _ _ := Some 96;
  EVP_PKEY_derive_size _ _ := Some 32;
  EVP_PKEY_get_pub_size (k : @EVP_PKEY ToyOpenSSL) := Some (length (toy_pub k));
  i2d_ECDSA_SIG_size _ := Some 96;
|}.

Lemma length_toy_sig pub dig : length (toy_sig pub dig) = 96.
Proof. unfold toy_sig. by rewrite length_app, !length_be_bytes. Qed.

#[export] Instance ToySizes_ok : @SslSizesOk ToyOpenSSL ToySizes.
Proof.
  split; cbn -[be_bytes toy_sig].
  - intros k d g der g' [= <- <-]. by rewrite length_toy_sig.
  - intros md k m g der g' [= <- <-]. by rewrite length_toy_sig.
  - intros k p s. destruct (toy_priv k); [|done]. intros E%(inj Some). subst s. by rewrite length_be_bytes.
  - by intros k b [= <-].
  - intros rs. eexists. split; [done|]. by rewrite length_app, !length_be_bytes.
Qed.

Definition ToyCcm : SslCcm := {|
  cipher_ctx := toy_ctx;
  EVP_CIPHER_CTX_new := Some (MkToyCtx true [] [] [] []);
  EVP_Init_type e c := (true, MkToyCtx e (toy_ctx_tag c) (toy_ctx_key c) (toy_nonce c) (toy_data c));
  CCM_SET_IVLEN _ c := (true, c);
  CCM_SET_TAG _ t c :=
    (true, MkToyCtx (toy_enc c) (default [] t) (toy_ctx_key c) (toy_nonce c) (toy_data c));
  EVP_Init_key k n c := (true, MkToyCtx (toy_enc c) (toy_ctx_tag c) k n (toy_data c));
  EVP_Update_len _ c := (true, c);
  EVP_Update d c :=
    if toy_enc c || bytes_eqb (toy_ctx_tag c) (toy_hash 16 (toy_ctx_key c ++ toy_nonce c ++ d)) then
      (Some d, MkToyCtx (toy_enc c) (toy_ctx_tag c) (toy_ctx_key c) (toy_nonce c) d)
    else (None, c);
  EVP_EncryptFinal_ex c := (Some [], c);
  CCM_GET_TAG n c := (Some (toy_hash n (toy_ctx_key c ++ toy_nonce c ++ toy_data c)), c);
|}.

#[export] Instance ToyCcm_ok : @SslCcmOk ToyOpenSSL ToyCcm.
Proof.
  split; cbn -[toy_hash bytes_eqb].
  - intros d c o c'. destruct (_ || _); by intros [= <- <-].
  - by intros c o c' [= <- <-].
  - intros n c t c' [= <- <-]. apply length_be_bytes.
  - done.
  - intros k n c t. unfold ccm_open. cbn -[toy_hash bytes_eqb]. by destruct (bytes_eqb t _).
Qed.

End instances.

(** A signature of 32 and one of 48 bytes. *)
Definition b_half (n : nat) : StaticBytes kP384ScalarLen :=
  default (sb.default_ _) (sb.from kP384ScalarLen (be_bytes n 7)).
Definition b_sig : Signature := MkSignature (b_half 32) (b_half 48).

Lemma b_half_wf n : sb.wf (b_half n).
Proof.
  unfold b_half. destruct (sb.from _ _) eqn:E; simpl; [by eapply sb.from_wf|apply sb.default_wf].
Qed.

Section witnesses.
#[local] Existing Instances ToyOpenSSL ToySizes ToyCcm.

Lemma crypto_in_bounds_witness :
  bcrypto.ecdsa_verify (s_pub 5) [x01] b_sig = Some false.
Proof.
  assert (E : crypto.ecdsa_verify (s_pub 5) [x01] b_sig = false) by (vm_compute; done).
  rewrite <- E.
  destruct (crypto_in_bounds (ossl := ToyOpenSSL) (s_priv 5) (s_pub 5) [x01] (zeros 32) b_sig NistP256
              (MkToyKey (Some 5%Z) (s_pub 5)) 3%Z (b_half_wf 32) (b_half_wf 48)) as (_ & _ & _ & H & _).
  exact H.
Defined.

(** A message and the result of its encryption. *)
Definition b_enc : EciesEncryptResult :=
  default (MkEciesEncryptResult [] [] [] [] [] [] [])
    (ecies.ecies_encrypt_curve (s_pub 5) [x01; x02] [] NistP256 3%Z).1.

Lemma ecies_in_bounds_witness :
  (Z.of_nat (length (ecies_ciphertext b_enc)) = 2)%Z /\
  becies.ecies_decrypt (zeros 3) (s_priv 5) b_enc [] NistP256 = Some (Some [x01; x02]).
Proof.
  split; [vm_compute; done|].
  assert (E : ecies.ecies_decrypt_curve (s_priv 5) b_enc [] NistP256 = Some [x01; x02])
    by (vm_compute; done).
  rewrite <- E.
  apply (ecies_in_bounds (ossl := ToyOpenSSL) (zeros 3) (zeros 16) (zeros 12) (zeros 16) (s_pub 5)
           (s_priv 5) [x01] [x02] b_enc (zeros 32) [] 48 NistP256 3%Z); vm_compute; done.
Defined.

#[local] Existing Instance s_uninit_hmac.

Definition b_hash : StaticBytes 16 := default (sb.default_ 16) (sb.from 16 (zeros 16)).
Definition b_key : StaticBytes 32 := default (sb.default_ 32) (sb.from 32 (zeros 32)).

Lemma messages_in_bounds_witness :
  bhex.hex8 (zeros 17) [x00; x01; x02; x03; x04; x05; x06; xff] = Some "00010203040506FF"%string.
Proof.
  apply (messages_in_bounds (ossl := ToyOpenSSL) (s_pub 5) b_sig NistP256 (zeros 32) (zeros 20) x81
           [x01; x81; x05] [x01] b_hash b_key [x02] "0011223344556677" (zeros 17) [x00; x01; x02; x03; x04; x05; x06; xff]);
    try apply b_half_wf; by vm_compute.
Defined.

End witnesses.
